(* ===== verification/_CoqProject ===== *)
-Q . S2P
Prelude.v
CDouble.v
CString.v
GLib.v
DlLoad.v
Data.v
FifoStats.v
TidTable.v
ProcFs.v
UserMap.v
BadList.v
WriteData.v
Ld.v
Plugin.v
Server.v
Xml.v
XmlFile.v
Config.v
ConfigEdit.v
ConfigShare.v
Log.v
DbCtlSet.v
ConfigRead.v
Accounts.v
MysqlConnector.v
SlowQueries.v
Main.v
Daemonize.v
Listing.v
DbCtlCfg.v
XmlText.v
DbCtl.v
ConfigFile.v
Dbtop.v
LogDecoder.v
Commands.v
Restrict.v
CalcStats.v
Daemon.v
System.v
Enforce.v
EnforceWorld.v
EndToEnd.v
Service.v
Edits.v
EditsDisk.v
SetSlow.v
Tools.v
DbtopRun.v
