(* ===== verification/Prelude.v ===== *)
(** * MySQL Governor: a verified model

    MySQL Governor watches the load that each user puts on a MySQL server
    and puts the users that exceed their limits into an LVE, a resource
    container of the kernel.  Four programs work together:

    - MySQL itself, with the audit plugin ([src/plugin.c]) and a preloaded
      interposer ([src/ld.c]).  At the begin and at the end of a query the
      plugin reads the counters of the thread from /proc
      ([src/parce_proc_fs.c]), sends a report to the daemon
      ([src/governor_write_data.c]) and has the interposer bring the thread
      into the LVE of its user, if the shared list names the user.
    - The daemon.  The reports go into a table of threads
      ([src/tid_table.c]) and into the counters of the users.  Once a second
      ([proceed_accounts], [src/calc_stats.c]) the counters become a sample
      of each user ([src/fifo_stats.c], [src/stats.c]), the samples of an
      account's users are summed ([src/user_account.c]), the averages are
      compared with the limits of the configuration
      ([src/governor_config.c]), and commands to freeze or unfreeze users are
      queued and carried out ([src/commands.c]) on the list of restricted
      users in shared memory ([src/shared_memory.c]).
    - [dbctl], the tool of the administrator: it reads a command line
      ([src/dbctl.c]), edits the configuration ([src/dbctl_set.c]), sends
      commands to the daemon ([src/dbctl_rest.c]) and lists the limits and
      the restricted accounts ([src/dbctl_list.c], [src/dbctl_cfg.c]).
    - [dbtop], the table of the accounts on a screen ([src/dbtop.c]).

    The daemon reads the map of users to accounts and LVE ids from a file
    ([src/dbuser_map.c]), ends the connections of slow queries
    ([src/slow_queries.c]), talks to MySQL through the client library
    ([src/mysql_connector_common.c]) and serves the two tools
    ([src/dbtop_server.c]).  [mysql_unfreeze] releases all users by hand.

    ** Files

    The library, in the order of dependency; [src/x.c] is short for the file
    [x.c] in the directory of the C sources.

    - [Prelude]: machine integers, the clock, hash tables as [gmap] with an
      order of iteration ([HashOrder]), tactics and hints.
    - [CDouble]: the type [double] as IEEE 754 binary64.
    - [CString]: C strings and the libc functions on them; [strlcpy]
      ([src/dbgovernor_string_functions.c]) on memory.
    - [GLib]: [g_list_sort] as the class [GListSort], with an insertion sort
      as its instance, and the orders it needs.
    - [DlLoad]: the loading of the client library; the linker is a parameter.
    - [Data]: [src/data.h], the types the programs exchange.
    - [FifoStats]: [fifo_stats] is the ring of [src/fifo_stats.c], with the
      averages of [src/stats.c].
    - [TidTable]: [tid_state] holds the tables of [src/tid_table.c]: threads,
      counters of users, threads found dead.
    - [ProcFs]: the readers of /proc.
    - [UserMap]: the parser of the map file and its lookups.
    - [BadList]: [shm_structure] is the shared memory list; the daemon's
      operations, the clients under the semaphore, the set-up.
    - [WriteData]: connection, reports and LVE calls of the MySQL side.  The
      kernel is the class [LveKernel].
    - [Ld]: the interposer; [HooksOk] is what it needs of the functions of
      [WriteData], [lve_hooks_ok] that they provide it.  [step] and
      [reachable] are the life of one thread of MySQL.
    - [Plugin]: the events of the audit plugin.
    - [Server]: the rounds of the daemon's server over its connections and
      the check of the threads ([src/governor_server.c]);
      [server_reachable] is the life of the array of descriptors, with the
      descriptors that a failure of poll closed.
    - [Xml]: the document tree of [src/xml.c]; libxml2 is the class [LibXml].
    - [XmlFile]: the files that hold the documents, a [disk]; the parser and
      the printer of libxml2 are the class [XmlFiles], which promises that
      the elements saved are read back and nothing of the texts.
    - [Config]: [governor_config] and [config_init].
    - [ConfigEdit]: the part of the configuration that an edit of one section
      of the document reaches, and that it leaves the rest alone.
    - [ConfigShare]: the configuration as the threads of the daemon share it:
      the structure on the heap, the read-write lock, the reread that frees
      it, and the copies the threads keep; [share_step] is a step of one of
      them.
    - [ConfigRead]: what a document says, by itself and without the reader:
      [says], [reads_limits] and [user_says]; the reader follows it.
    - [Log]: the three log files ([src/log.c]) as texts that grow.
    - [DbCtlSet]: the edits of [dbctl] and its messages.
    - [Accounts]: [acc_state] holds the accounts, the users and the tick.
    - [MysqlConnector]: the connections to MySQL ([db]), the requests and
      their attempts; the client library is the class [MySqlClient], which
      records its calls.
    - [SlowQueries]: a round over the process list.
    - [Main]: the start of the daemon and [mysql_unfreeze].
    - [Daemonize]: the pid file, the forks, the descriptors and the
      supervisor ([src/governor.c]); [supervised] is the life of the
      supervisor.
    - [Listing]: the stream between the daemon and the tools: [wire] is what
      it carries, [stream] the daemon's end; the list of the restricted.
    - [DbCtlCfg]: the listing of the limits; [limits_row] is what a row of
      given limits is to look like.
    - [XmlText]: documents with the same elements are the same to the
      configuration reader and to the listing.
    - [DbCtl]: the command line of [dbctl]; [call] is what it decides to do,
      [perform] does it with the functions of [DbCtlSet], [DbCtlCfg],
      [Listing] and [BadList].
    - [ConfigFile]: the configuration file on the disk, which [dbctl] edits and
      the daemon reads, and the duplicate for ordinary users.
    - [Dbtop]: [dbtop] is the state of the screen, [scr] a cell of it.
    - [LogDecoder]: what a restriction is reported as ([src/log-decoder.c]).
    - [Commands]: [cmd_state] is the queue and the list of the worker; [step]
      is the interleaving of the threads that issue commands, of the copy of
      the queue in its critical sections, and of the worker.
    - [Restrict]: the decisions on one account, in the period mode
      ([account_analyze]) and in the limit mode ([account_analyze_limit]).
    - [CalcStats]: [gov] is the state of the daemon; [proceed_accounts] is
      one period, and the commands of the administrator over all accounts
      are here.
    - [Daemon]: the loop of the seconds and the dispatcher of the commands
      ([src/dbtop_server.c]).
    - [System]: [world] is the daemon with its connections, [world_step] a
      step of one of its threads; a second is one step, or the parts before
      and after the copy of the queue with clients served in between.
    - [Enforce]: how the decisions, the queue, its worker and the shared list
      go together; the class [Discipline] is what an account and its users
      being frozen have to do with each other, with an instance for each of
      the two modes.
    - [EnforceWorld]: [enforce_reachable] are the states of regular work, in
      which the enforcement is followed, and what holds in them; its header
      lists what is left out.
    - [EndToEnd]: from the load that the daemon measures to the LVE that the
      plugin and the interposer enter.
    - [Service]: daemons that start, stop and die, the names of the shared
      list that outlive them, and MySQL with its plugin, as one;
      [service_step] is a step of any of them.
    - [Edits]: an edit of the limits of a user, its notice to the daemon, the
      configuration the daemon reads again, and the next second with it.
    - [EditsDisk]: the same from the command line to the disk and from there
      to the daemon and to the listing of an ordinary user.
    - [SetSlow]: [dbctl set] with a limit for slow queries, its unchecked text
      and what the daemon makes of it.
    - [Tools]: a command line of [dbctl], the command it sends, what the
      daemon makes of it and what the next listing shows, as one.
    - [DbtopRun]: a run of [dbtop], its options and the loop of its keys, next
      to the daemon; [watching] are the states that the two can be in, and
      [walked] is a walk of the daemon over its table while its other threads
      go on.

    ** Conventions

    An operation of the code is a function on an explicit state.  A pointer
    into the heap is the key of what it points to, a pointer to a node of a
    document a path.  [None] is a run that crashes or is undefined; [Exit] in
    [Config] is a call of exit.  An allocation succeeds.  A lock makes its
    critical section one operation; where two threads really interleave
    ([Commands], [BadList]) the interleaving is written out.  The results of
    system calls and the readings of the clock are arguments, so a theorem
    holds for all of them.  Debugging output is not modelled.  Integers have
    the width of the code, with its wrap-around; a theorem that needs a
    range states it.

    A [stack] parameter is what the memory holds behind an array that a text
    fills without a NUL.

    Loops that are not structural carry fuel.  The loops over the children
    of a node have one step per sibling and one more; the loops of the ring
    have one per sample; [client_fuel] (400) exceeds the 4 rounds of 99
    attempts a client makes, which [BadList.client_lookup_bounded] proves;
    the loop over [poll] is repeated while signals interrupt it, and
    [WriteData.connect_leaks_only_early] gives the fuel for any number of
    interruptions.  [limit_loop] has one step per child and one more, which
    [limit_loop_spec] proves to be enough.  A round of the server has one
    step per connection and two more ([round_fuel]); that it ends with them
    is part of [threads_follow_connections].  A request to MySQL is made
    at most three times, a connection four times; a listing has one round
    per answer of its client and one more ([listing_fuel]); an [int] has at
    most ten digits ([count_digits]).

    ** Theorems

    - When the daemon can fail ([daemon_never_crashes]): its server, seconds,
      worker and renewals do not, its commands only in the two ways that the
      theorem names.  The invariant [gov_ok] collects what the components
      need of each other.  Its threads of MySQL are those of open
      connections, or of connections that a failure of poll closed
      ([threads_follow_connections]).
    - An overload leads into the LVE ([overload_enters_lve]): the accounts
      that exceed a limit are restricted by the second that ends the period,
      the worker puts their users on the shared list, and the queries of
      exactly these users enter the LVE of the map.  The list follows the
      accounts in every state of regular work, exactly in the limit mode
      ([limit_mode_enforced]) and as far as repeated restrictions allow in the
      period mode ([period_mode_enforced]).  Regular work ([enforce_step])
      leaves out what breaks the correspondence: a renewal of the map while
      an account is restricted (what it breaks is the theorem
      [map_renewal_lifts_restrictions]), a user that joins an account while
      it is restricted, a configuration with another mode of LVE or of
      restriction, a list without room for everyone, RESTRICT of an unknown
      name, and a command that falls into the copying of the queue.  Over any
      number of daemons and loads of the plugin, only the daemon that runs
      now puts queries into an LVE ([lve_only_by_living_daemon]).
    - Commands are done in order and exactly once, but those that fall into
      the copying of the queue are lost (the lemma [command_lost_in_copy]),
      and the list holds the users whose last command freezes them
      ([commands_reach_bad_list]); the list refines a finite map
      ([bad_list_refines_map]); the result of its clients follows from the
      first answer of the semaphore, within a bound
      ([client_lookup_bounded]).
    - One period of the daemon takes one sample of each user and sums them
      ([proceed_accounts_one_sample]).
    - The analysis of an account refines a machine of three phases
      ([account_analyze_refines]), restricts for the first limit exceeded
      ([check_restrict_outcome]), and in the limit mode the queue follows the
      account (the lemma [limit_mode_queue_tracks]); the commands of the
      administrator do what they name ([restrict_command_exact],
      [reinit_users_list_all], the lemma [restrict_unrestrict_by_hand]).
    - A thread of MySQL holds no mutex inside an LVE unless a query began
      with one ([no_mutex_held_inside_lve], the lemma [taken_in_overlaps]),
      enters the LVE the list names (the lemma [begin_on_list]), and each
      query is bracketed by the reports that get through
      ([query_is_bracketed]).
    - The configuration reader finds exactly what the document says
      ([config_read_exactly]), in fields of their types (the lemma
      [config_init_typed]).
    - What is typed for [dbctl] the configuration reader finds
      and the running daemon judges by from the next second on, for a user
      of the configuration ([set_reaches_daemon]) and for a new one
      ([set_new_user_reaches_daemon]); a user that is to be ignored is no
      longer restricted ([ignore_reaches_daemon]).  A daemon that has just
      started has its work user in its limits as well ([runs_on]); the first
      reread drops it (the lemma [reread_drops_work_user]).  The elements in
      the file are those that an edit made ([edit_is_read_back]), and the
      duplicate shows ordinary users the same limits and no password
      ([duplicate_shows_configuration]).  No word of [dbctl] is taken for a
      user (the lemma [dbctl_user_is_no_word]).
    - The listings: the limits shown are those enforced, where the numbers
      printed hold them ([listing_shows_enforced_limits]), of every user
      ([print_list_shows_everyone]); what is restricted or set free from the
      command line is what the next listing of the restricted accounts shows
      ([restrict_reaches_listing], [unrestrict_reaches_listing]); and the
      list behind the screen of [dbtop], however the daemon moves on during
      its walk and between the rounds, comes from one walk, in the order
      chosen ([dbtop_shows_table]), its numbers rounded (the lemma
      [formatIntNumber_close]), its rows one to a line (the lemma
      [screen_row_newline]).
    - The connections that run longer than allowed, and no others, are asked
      to end ([slow_round_kills]); what a request to MySQL does is given call
      by call, for every answer of the server ([exec_query_retries]).
    - Periods, the map file and the counters of /proc are read back
      ([parse_period_total_seconds], [get_map_file_reads_entries],
      [get_proc_time_reads]).
    - Samples, averages and counters keep their bounds and invariants
      ([push_stats_history], [fifo_avg_read_bounds] and the lemmas of
      [TidTable], such as [counters_add_delta]).
    - Some theorems state where the code does not do what it means to:
      [period_mode_repeat_not_frozen], [map_renewal_lifts_restrictions],
      [ignored_stays_restricted], [config_copies_dangle],
      [set_slow_ends_daemon], [boot_order_disables_lve], and lemmas such as
      [command_lost_in_copy], [reread_drops_work_user],
      [supervised_logs_are_standard], [unfreeze_behind_daemon],
      [connect_leaks_only_early], [connect_attempts_useless],
      [pid_file_excludes_nobody], [dbctl_ignores_bad_option],
      [edits_at_once], [percent_in_query_undefined],
      [client_posts_without_wait], [restrict_cause_lost],
      [config_add_work_user_limits] and [missing_period_shown_as_default].

    ** Not modelled

    The release of memory, the calls of ncurses beyond the cells written,
    the texts of the help, the parser and the printer of XML (libxml2), the
    handlers of signals other than those of the server ([term_handler],
    [sighandler]), the interface that MySQL demands of its plugins,
    code that is compiled only for tests or has no caller, the installers and
    hooks in Python and shell.  Waiting and sleeping have no effect in the
    model.  In [Service] the begin of a query is one step, and so is each
    step of the daemon.  A second is one step in [EnforceWorld] and in
    [Service], and a listing reads one state in [Tools] and [DbCtlCfg]; the
    finer steps are in [Commands], [System] and [DbtopRun].  Reads through
    old copies of the configuration are in [ConfigShare] alone.  What is left
    to extend is the composition: the
    commands of [dbctl], the rounds of [dbtop] and the life of MySQL are
    joined with the running daemon; the process state of the supervisor
    ([Daemonize]) is not joined with the daemon it starts. *)

From Stdlib Require Export Ascii String.
From stdpp Require Export base tactics gmap strings list fin_maps option.
From Stdlib Require Export ZArith Lia.
Export Corelib.Init.Datatypes.

#[export] Set Default Goal Selector "!".

(** * Machine integers

    An integer of width [w] is a [Z] together with the wrap-around of every
    operation that may leave the range.  [int] and [int32_t] are [s32],
    [unsigned] is [u32], [long], [long long] and [time_t] are [s64],
    [unsigned long long] is [u64] (LP64, the only target of the build).
    A signed overflow is undefined in C; the model writes the two's
    complement result, and the theorems that depend on it state the range. *)

Definition wrap_u (w z : Z) : Z := z mod 2 ^ w.
Definition wrap_s (w z : Z) : Z := (z + 2 ^ (w - 1)) mod 2 ^ w - 2 ^ (w - 1).

Definition u32 : Z -> Z := wrap_u 32.
Definition u64 : Z -> Z := wrap_u 64.
Definition s32 : Z -> Z := wrap_s 32.
Definition s64 : Z -> Z := wrap_s 64.

Definition in_s32 (z : Z) : Prop := (- 2 ^ 31 <= z < 2 ^ 31)%Z.
Definition in_s64 (z : Z) : Prop := (- 2 ^ 63 <= z < 2 ^ 63)%Z.
Definition in_u32 (z : Z) : Prop := (0 <= z < 2 ^ 32)%Z.
Definition in_u64 (z : Z) : Prop := (0 <= z < 2 ^ 64)%Z.

#[global] Arguments wrap_u : simpl never.
#[global] Arguments wrap_s : simpl never.
#[global] Arguments u32 : simpl never.
#[global] Arguments u64 : simpl never.
#[global] Arguments s32 : simpl never.
#[global] Arguments s64 : simpl never.

(** * The clock

    A handler may read the clock more than once ([time], [clock_gettime]).
    [clk n] is its [n]-th reading; [clk_skip] drops the readings a first
    part of the handler consumed. *)

Definition clock (T : Type) := nat -> T.
Definition clk_skip {T} (n : nat) (c : clock T) : clock T := fun k => c (n + k).
Definition clk_const {T} (t : T) : clock T := fun _ => t.

(** * Hash tables

    A [GHashTable] is a [gmap].  [g_hash_table_foreach] visits every entry
    once, in an order GLib leaves open: the order is an argument of every
    definition that iterates, given by a [HashOrder]. *)

Class HashOrder := {
  ht_keys : forall {K} `{Countable K} {V}, gmap K V -> list K;
  ht_keys_spec : forall {K} `{Countable K} {V} (m : gmap K V),
    ht_keys m ≡ₚ (map_to_list m).*1
}.

(** [g_hash_table_foreach (t, f, data)] where [f] has an effect on a state
    [S] and sees the value the table had when the iteration reached it. *)
Definition ht_foreach `{HashOrder} `{Countable K} {V S}
    (m : gmap K V) (f : K -> V -> S -> S) (s : S) : S :=
  fold_left (fun st k => match m !! k with Some v => f k v st | None => st end)
    (ht_keys m) s.

(** [g_hash_table_find (t, p, data)]: the first value, in iteration order,
    that satisfies the predicate. *)
Definition ht_find `{HashOrder} `{Countable K} {V}
    (m : gmap K V) (p : K -> V -> bool) : option V :=
  (fix go (l : list K) : option V :=
     match l with
     | [] => None
     | k :: l => match m !! k with
                 | Some v => if p k v then Some v else go l
                 | None => go l
                 end
     end) (ht_keys m).

(** * Lists *)

(** The bool of a decidable test, for guards written as in the code. *)
Definition nonzero (z : Z) : bool := negb (Z.eqb z 0).
Definition b2z (b : bool) : Z := if b then 1%Z else 0%Z.

(** * Tactics *)

(** Case analysis on the boolean tests of the model, keeping equations. *)
Ltac bdestruct_match :=
  match goal with
  | |- context [match ?x with _ => _ end] => destruct x eqn:?
  | |- context [if ?x then _ else _] => destruct x eqn:?
  end.

Ltac split_ifs := repeat bdestruct_match.

(** Turn boolean comparisons of the context into propositions. *)
Ltac bools :=
  repeat match goal with
  | H : andb _ _ = true |- _ => apply andb_prop in H; destruct H
  | H : andb _ _ = false |- _ => apply andb_false_iff in H
  | H : orb _ _ = false |- _ => apply orb_false_elim in H; destruct H
  | H : orb _ _ = true |- _ => apply orb_prop in H
  | H : negb _ = true |- _ => apply negb_true_iff in H
  | H : negb _ = false |- _ => apply negb_false_iff in H
  | H : Z.leb _ _ = true |- _ => apply Z.leb_le in H
  | H : Z.leb _ _ = false |- _ => apply Z.leb_gt in H
  | H : Z.ltb _ _ = true |- _ => apply Z.ltb_lt in H
  | H : Z.ltb _ _ = false |- _ => apply Z.ltb_ge in H
  | H : Z.eqb _ _ = true |- _ => apply Z.eqb_eq in H
  | H : Z.eqb _ _ = false |- _ => apply Z.eqb_neq in H
  | H : nonzero _ = true |- _ => unfold nonzero in H
  | H : nonzero _ = false |- _ => unfold nonzero in H
  | H : String.eqb _ _ = true |- _ => apply String.eqb_eq in H
  | H : String.eqb _ _ = false |- _ => apply String.eqb_neq in H
  | H : Nat.eqb _ _ = true |- _ => apply Nat.eqb_eq in H
  | H : Nat.eqb _ _ = false |- _ => apply Nat.eqb_neq in H
  | H : Nat.ltb _ _ = true |- _ => apply Nat.ltb_lt in H
  | H : Nat.ltb _ _ = false |- _ => apply Nat.ltb_ge in H
  | H : Nat.leb _ _ = true |- _ => apply Nat.leb_le in H
  | H : Nat.leb _ _ = false |- _ => apply Nat.leb_gt in H
  end.

(** * Lemmas on machine integers *)

Create HintDb gov.
Create Rewrite HintDb gov.


Lemma wrap_s_id w z : (0 < w)%Z -> (- 2 ^ (w - 1) <= z < 2 ^ (w - 1))%Z -> wrap_s w z = z.
Proof.
  intros Hw Hz. unfold wrap_s.
  assert (2 ^ w = 2 * 2 ^ (w - 1))%Z as E.
  { rewrite <- Z.pow_succ_r by lia. f_equal. lia. }
  rewrite Z.mod_small; lia.
Qed.

Lemma wrap_s_range w z : (0 < w)%Z -> (- 2 ^ (w - 1) <= wrap_s w z < 2 ^ (w - 1))%Z.
Proof.
  intros Hw. unfold wrap_s.
  assert (2 ^ w = 2 * 2 ^ (w - 1))%Z as E.
  { rewrite <- Z.pow_succ_r by lia. f_equal. lia. }
  assert (0 < 2 ^ (w - 1))%Z by (apply Z.pow_pos_nonneg; lia).
  pose proof (Z.mod_pos_bound (z + 2 ^ (w - 1)) (2 ^ w)). lia.
Qed.

Lemma s32_id z : in_s32 z -> s32 z = z.
Proof. intros. by apply wrap_s_id. Qed.
Lemma s64_id z : in_s64 z -> s64 z = z.
Proof. intros. by apply wrap_s_id. Qed.
Lemma u32_id z : in_u32 z -> u32 z = z.
Proof. intros. unfold u32, wrap_u. by apply Z.mod_small. Qed.
Lemma u64_id z : in_u64 z -> u64 z = z.
Proof. intros. unfold u64, wrap_u. by apply Z.mod_small. Qed.
Lemma s32_range z : in_s32 (s32 z).
Proof. by apply (wrap_s_range 32). Qed.
Lemma s64_range z : in_s64 (s64 z).
Proof. by apply (wrap_s_range 64). Qed.
Lemma u32_range z : in_u32 (u32 z).
Proof. apply Z.mod_pos_bound. lia. Qed.
Lemma u64_range z : in_u64 (u64 z).
Proof. apply Z.mod_pos_bound. lia. Qed.

(** Wrapping is a congruence for addition: an inner wrap may be dropped. *)
Lemma s64_add_l a b : s64 (s64 a + b) = s64 (a + b).
Proof.
  unfold s64, wrap_s. f_equal.
  replace ((a + 2 ^ (64 - 1)) mod 2 ^ 64 - 2 ^ (64 - 1) + b + 2 ^ (64 - 1))%Z
    with ((a + 2 ^ (64 - 1)) mod 2 ^ 64 + b)%Z by lia.
  rewrite Zplus_mod_idemp_l. f_equal. lia.
Qed.
Lemma u32_add_l a b : u32 (u32 a + b) = u32 (a + b).
Proof. unfold u32, wrap_u. apply Zplus_mod_idemp_l. Qed.
Lemma u32_add_r a b : u32 (a + u32 b) = u32 (a + b).
Proof. unfold u32, wrap_u. apply Zplus_mod_idemp_r. Qed.
Lemma u32_mul_l a b : u32 (u32 a * b) = u32 (a * b).
Proof. unfold u32, wrap_u. apply Zmult_mod_idemp_l. Qed.
Lemma u32_idemp a : u32 (u32 a) = u32 a.
Proof. unfold u32, wrap_u. apply Zmod_mod. Qed.
Lemma s64_idemp a : s64 (s64 a) = s64 a.
Proof. apply s64_id, s64_range. Qed.

#[export] Hint Resolve s32_range s64_range u32_range u64_range : gov.
#[export] Hint Rewrite s64_add_l u32_add_l u32_add_r u32_mul_l u32_idemp s64_idemp : gov.

(** * Lemmas on hash tables *)

Section hash_order.
Context `{HO : HashOrder} `{Countable K} {V : Type}.
Implicit Types m : gmap K V.

Lemma ht_keys_elem m k : k ∈ ht_keys m <-> is_Some (m !! k).
Proof.
  rewrite ht_keys_spec, list_elem_of_fmap. split.
  - intros [[k' v] [-> E]]. apply elem_of_map_to_list in E. eauto.
  - intros [v E]. exists (k, v). by rewrite elem_of_map_to_list.
Qed.

Lemma ht_keys_nodup m : NoDup (ht_keys m).
Proof. rewrite ht_keys_spec. apply NoDup_fst_map_to_list. Qed.

(** Rule for [g_hash_table_foreach]: a property of the state and of the
    keys already visited that every callback extends holds at the end for
    all the keys of the table. *)
Lemma ht_foreach_ind {S} (f : K -> V -> S -> S) (P : gset K -> S -> Prop) m s :
  P ∅ s ->
  (forall done k v st, m !! k = Some v -> k ∉ done -> P done st ->
    P ({[k]} ∪ done) (f k v st)) ->
  P (dom m) (ht_foreach m f s).
Proof.
  intros H0 Hs. unfold ht_foreach.
  assert (forall l done st, NoDup l -> (forall k, k ∈ l -> is_Some (m !! k)) ->
    (forall k, k ∈ l -> k ∉ done) -> P done st ->
    P (list_to_set l ∪ done)
      (fold_left (fun st k => match m !! k with Some v => f k v st | None => st end) l st))
    as G.
  { induction l as [|k l IH]; intros done st Hnd Hin Hfr HP; simpl.
    - by rewrite union_empty_l_L.
    - apply list.NoDup_cons in Hnd as [Hk Hnd].
      destruct (Hin k) as [v Hv]; [set_solver|]. rewrite Hv.
      replace ({[k]} ∪ list_to_set l ∪ done) with (list_to_set l ∪ ({[k]} ∪ done))
        by set_solver.
      apply IH; [done|set_solver| |].
      + intros k' Hk' [->%elem_of_singleton|Hd]%elem_of_union; [done|].
        apply (Hfr k'); set_solver.
      + apply Hs; [done| |done]. apply Hfr. set_solver. }
  specialize (G (ht_keys m) ∅ s (ht_keys_nodup m)).
  replace (dom m) with (list_to_set (ht_keys m) ∪ (∅ : gset K)).
  - apply G; [intros k; apply ht_keys_elem|set_solver|done].
  - apply set_eq. intros k. rewrite union_empty_r_L, elem_of_list_to_set, ht_keys_elem.
    by rewrite elem_of_dom.
Qed.

(** A predicate that only the entry of [k0] can satisfy is a lookup. *)
Lemma ht_find_unique m (p : K -> V -> bool) k0 :
  (forall k v, m !! k = Some v -> p k v = true <-> k = k0) -> ht_find m p = m !! k0.
Proof.
  intros Hp. unfold ht_find.
  assert (forall l, (forall k, k ∈ l -> is_Some (m !! k)) ->
    (fix go (l : list K) : option V :=
       match l with
       | [] => None
       | k :: l => match m !! k with
                   | Some v => if p k v then Some v else go l
                   | None => go l
                   end
       end) l = if decide (k0 ∈ l) then m !! k0 else None) as G.
  { induction l as [|k l IH]; intros Hl; [done|].
    destruct (Hl k) as [v Hv]; [set_solver|]. rewrite Hv.
    destruct (p k v) eqn:E.
    - apply (Hp k v Hv) in E as ->. rewrite decide_True by set_solver. done.
    - rewrite IH by set_solver. destruct (decide (k0 = k)) as [->|].
      + assert (p k v = true) by (by apply (Hp k v Hv)). congruence.
      + destruct (decide (k0 ∈ l)); [rewrite decide_True by set_solver|
          rewrite decide_False by set_solver]; done. }
  rewrite G by (intros; by apply ht_keys_elem).
  destruct (decide (k0 ∈ ht_keys m)) as [Hk|Hk]; [done|].
  rewrite ht_keys_elem in Hk. by destruct (m !! k0) eqn:E; [destruct Hk|].
Qed.

(** What is found is an entry that satisfies the predicate. *)
Lemma ht_find_some m (p : K -> V -> bool) v : ht_find m p = Some v ->
  exists k, m !! k = Some v /\ p k v = true.
Proof.
  unfold ht_find. induction (ht_keys m) as [|k l IH]; [done|].
  destruct (m !! k) as [x|] eqn:E; [|exact IH]. destruct (p k x) eqn:Ep; [|exact IH].
  intros [= <-]. by exists k.
Qed.
End hash_order.

(** One admissible order, used by the witnesses. *)
Definition default_order : HashOrder := {|
  ht_keys := fun _ _ _ _ m => (map_to_list m).*1;
  ht_keys_spec := fun _ _ _ _ m => Permutation_refl _
|}.
