(* ===== verification/CDouble.v ===== *)
(** The C type [double]: IEEE 754 binary64, by the Standard Library's
    [SpecFloat], which computes inside the kernel without axioms.  Every
    operation rounds to nearest even as the hardware does, so comparisons of
    averages with limits are the comparisons the daemon makes. *)

From S2P Require Import Prelude.
From Stdlib Require Export SpecFloat.
Open Scope Z_scope.

(** * Operations *)

Abbreviation double := spec_float.

Definition dadd : double -> double -> double := SFadd 53 1024.
Definition dsub : double -> double -> double := SFsub 53 1024.
Definition dmul : double -> double -> double := SFmul 53 1024.
Definition ddiv : double -> double -> double := SFdiv 53 1024.
Definition dltb (x y : double) : bool := SFltb x y.
Definition dleb (x y : double) : bool := SFleb x y.
Definition deqb (x y : double) : bool := SFeqb x y.
Definition dabs (x : double) : double := SFabs x.

(** Conversion of an integer to [double]. *)
Definition dof_Z (z : Z) : double := binary_normalize 53 1024 z 0 false.

Definition d0 : double := S754_zero false.
Definition d1 : double := Eval vm_compute in dof_Z 1.
Definition d60 : double := Eval vm_compute in dof_Z 60.
Definition d100 : double := Eval vm_compute in dof_Z 100.
Definition d1e9 : double := Eval vm_compute in dof_Z 1000000000.

(** The integers below, above and next to zero of a finite value;
    [None] for an infinity or a NaN. *)
Definition dfloor (x : double) : option Z :=
  match x with
  | S754_zero _ => Some 0
  | S754_finite s m e => Some (Z.shiftl (cond_Zopp s (Z.pos m)) e)
  | _ => None
  end.
Definition dceil (x : double) : option Z :=
  match x with
  | S754_zero _ => Some 0
  | S754_finite s m e => Some (- Z.shiftl (- cond_Zopp s (Z.pos m)) e)
  | _ => None
  end.
Definition dtrunc (x : double) : option Z :=
  match x with
  | S754_zero _ => Some 0
  | S754_finite s m e => Some (cond_Zopp s (Z.shiftl (Z.pos m) e))
  | _ => None
  end.

(** The cast to a 64-bit integer: a value outside the range gives the
    indefinite integer of [cvttsd2si]. *)
Definition to_ll (z : option Z) : Z :=
  match z with
  | Some z => if (- 2 ^ 63 <=? z) && (z <? 2 ^ 63) then z else - 2 ^ 63
  | None => - 2 ^ 63
  end.

(** The cast of a double to an [int]. *)
Definition to_int (z : option Z) : Z :=
  match z with
  | Some z => if (- 2 ^ 31 <=? z) && (z <? 2 ^ 31) then z else - 2 ^ 31
  | None => - 2 ^ 31
  end.

(** The sign bit is clear (a NaN carries no sign). *)
Definition dsign_pos (x : double) : bool :=
  match x with
  | S754_zero s | S754_finite s _ _ | S754_infinity s => negb s
  | S754_nan => true
  end.

(** A number, finite or infinite. *)
Definition dnum (x : double) : bool :=
  match x with S754_nan => false | _ => true end.

(** * The order *)

(** Position of a number in the order of [SFcompare], compared
    lexicographically. *)
Definition dkey (x : double) : Z * Z * Z :=
  match x with
  | S754_nan => (3, 0, 0)
  | S754_infinity true => (-2, 0, 0)
  | S754_infinity false => (2, 0, 0)
  | S754_zero _ => (0, 0, 0)
  | S754_finite true m e => (-1, - e, - Z.pos m)
  | S754_finite false m e => (1, e, Z.pos m)
  end.

Definition klt (a b : Z * Z * Z) : Prop :=
  let '(a1, a2, a3) := a in let '(b1, b2, b3) := b in
  a1 < b1 \/ (a1 = b1 /\ (a2 < b2 \/ (a2 = b2 /\ a3 < b3))).

Lemma SFcompare_key x y : dnum x = true -> dnum y = true ->
  match SFcompare x y with
  | Some Lt => klt (dkey x) (dkey y)
  | Some Gt => klt (dkey y) (dkey x)
  | Some Eq => dkey x = dkey y
  | None => False
  end.
Proof.
  destruct x as [sx|sx| |sx mx ex], y as [sy|sy| |sy my ey]; try discriminate;
    intros _ _; destruct sx; try (destruct sy); simpl; try lia; try reflexivity;
    destruct (Z.compare_spec ex ey); simpl; try (subst; lia);
    change (Pos.compare_cont Eq mx my) with (Pos.compare mx my);
    destruct (Pos.compare_spec mx my); simpl; subst; try lia; reflexivity.
Qed.

Lemma dltb_num x y : dltb x y = true -> dnum x = true /\ dnum y = true.
Proof. unfold dltb, SFltb. destruct x, y; simpl; done. Qed.

Lemma dltb_klt x y : dltb x y = true -> klt (dkey x) (dkey y).
Proof.
  intros E. destruct (dltb_num x y E) as [Hx Hy].
  pose proof (SFcompare_key x y Hx Hy) as K. unfold dltb, SFltb in E.
  by destruct (SFcompare x y) as [[]|].
Qed.

Lemma klt_dltb x y : dnum x = true -> dnum y = true ->
  klt (dkey x) (dkey y) -> dltb x y = true.
Proof.
  intros Hx Hy L. pose proof (SFcompare_key x y Hx Hy) as K.
  unfold dltb, SFltb. destruct (SFcompare x y) as [[]|]; try done.
  - rewrite K in L. destruct (dkey y) as [[] ?]; unfold klt in L; lia.
  - destruct (dkey x) as [[] ?], (dkey y) as [[] ?]; unfold klt in *; lia.
Qed.

Lemma dltb_irrefl x : dltb x x = false.
Proof.
  destruct (dltb x x) eqn:E; [|done]. apply dltb_klt in E.
  destruct (dkey x) as [[] ?]; unfold klt in E; lia.
Qed.

Lemma dltb_trans x y z : dltb x y = true -> dltb y z = true -> dltb x z = true.
Proof.
  intros A B. apply klt_dltb; [by destruct (dltb_num _ _ A)|by destruct (dltb_num _ _ B)|].
  apply dltb_klt in A, B.
  destruct (dkey x) as [[] ?], (dkey y) as [[] ?], (dkey z) as [[] ?]; unfold klt in *; lia.
Qed.

Lemma dltb_asym x y : dltb x y = true -> dltb y x = false.
Proof.
  intros A. destruct (dltb y x) eqn:B; [|done].
  pose proof (dltb_trans _ _ _ A B) as C. by rewrite dltb_irrefl in C.
Qed.

(** Equality of numbers is equality of keys. *)
Lemma deqb_key x y : dnum x = true -> dnum y = true ->
  deqb x y = true <-> dkey x = dkey y.
Proof.
  intros Hx Hy. pose proof (SFcompare_key x y Hx Hy) as K.
  unfold deqb, SFeqb. destruct (SFcompare x y) as [[]|]; try done; split; try done.
  - intros E. rewrite E in K. destruct (dkey y) as [[] ?]; unfold klt in K; lia.
  - intros E. rewrite E in K. destruct (dkey y) as [[] ?]; unfold klt in K; lia.
Qed.

(** * Signs *)

Lemma binary_round_aux_sign s m e l : s = false ->
  dsign_pos (binary_round_aux 53 1024 s m e l) = true.
Proof.
  intros ->. unfold binary_round_aux.
  destruct (shr_fexp 53 1024 m e l) as [r1 e1].
  destruct (shr_fexp _ _ (round_nearest_even _ _) _ _) as [r2 e2].
  destruct (shr_m r2); simpl; try done. by destruct (e2 <=? _).
Qed.

Lemma dof_Z_sign z : 0 <= z -> dsign_pos (dof_Z z) = true.
Proof.
  destruct z; intros; [done| |lia]. unfold dof_Z, binary_normalize, binary_round.
  destruct (shl_align _ _ _). by apply binary_round_aux_sign.
Qed.

Lemma ddiv_sign x y : dsign_pos x = true -> dsign_pos y = true -> dsign_pos (ddiv x y) = true.
Proof.
  destruct x as [[]|[]| |[] mx ex], y as [[]|[]| |[] my ey]; try done; intros _ _.
  unfold ddiv, SFdiv. destruct (SFdiv_core_binary _ _ _ _ _ _) as [[? ?] ?].
  by apply binary_round_aux_sign.
Qed.

Lemma dadd_sign x y : dsign_pos x = true -> dsign_pos y = true -> dsign_pos (dadd x y) = true.
Proof.
  destruct x as [[]|[]| |[] mx ex], y as [[]|[]| |[] my ey]; try done; intros _ _.
  unfold dadd, SFadd. simpl cond_Zopp.
  destruct (Z.pos (shl_align mx ex (Z.min ex ey)).1 + Z.pos (shl_align my ey (Z.min ex ey)).1)
    eqn:E; simpl; try done.
  unfold binary_round. destruct (shl_align p _ _). by apply binary_round_aux_sign.
Qed.

Lemma sign_not_lt_zero x : dsign_pos x = true -> dltb x d0 = false.
Proof. by destruct x as [[]|[]| |[] ? ?]. Qed.

Lemma dceil_nonneg x z : dsign_pos x = true -> dceil x = Some z -> 0 <= z.
Proof.
  destruct x as [[]|[]| |[] m e]; intros Hs Hc; inversion Hc; clear Hc; subst; try lia; try done.
  change (cond_Zopp false (Z.pos m)) with (Z.pos m).
  pose proof (Z.shiftl_neg (- Z.pos m) e). lia.
Qed.

Lemma dfloor_nonneg x z : dsign_pos x = true -> dfloor x = Some z -> 0 <= z.
Proof.
  destruct x as [[]|[]| |[] m e]; intros Hs Hc; inversion Hc; clear Hc; subst; try lia; try done.
  change (cond_Zopp false (Z.pos m)) with (Z.pos m).
  pose proof (Z.shiftl_nonneg (Z.pos m) e). lia.
Qed.

#[export] Hint Resolve dof_Z_sign ddiv_sign dadd_sign sign_not_lt_zero dltb_irrefl : gov.

(** * Integers below 2^53 are exact *)

Lemma digits2_log2 p : Z.pos (digits2_pos p) = Z.log2 (Z.pos p) + 1.
Proof.
  induction p as [p IH|p IH|]; [| |done]; cbn [digits2_pos]; rewrite Pos2Z.inj_succ, IH.
  - change (Z.pos p~1) with (2 * Z.pos p + 1). rewrite Z.log2_succ_double by lia. lia.
  - change (Z.pos p~0) with (2 * Z.pos p). rewrite Z.log2_double by lia. lia.
Qed.

Lemma shift_pos_mul d p : Z.pos (Pos.iter xO p d) = Z.pos p * 2 ^ Z.pos d.
Proof. rewrite Z.mul_comm. apply (shift_pos_correct d p). Qed.

(** A mantissa of 53 digits needs no rounding. *)
Lemma round_aux_exact m e : Z.log2 (Z.pos m) = 52 -> -1074 <= e <= 971 ->
  binary_round_aux 53 1024 false (Z.pos m) e loc_Exact = S754_finite false m e.
Proof.
  intros Hm He. unfold binary_round_aux, shr_fexp. cbn [Zdigits2 shr_record_of_loc].
  rewrite digits2_log2, Hm.
  assert (fexp 53 1024 (52 + 1 + e) - e = 0) as -> by (unfold fexp, emin; lia).
  cbn [shr loc_of_shr_record round_nearest_even shr_m shr_r shr_s]. cbn [Zdigits2].
  rewrite digits2_log2, Hm.
  assert (fexp 53 1024 (52 + 1 + e) - e = 0) as -> by (unfold fexp, emin; lia).
  cbn [shr shr_m]. by destruct (Z.leb_spec e (1024 - 53)); [|lia].
Qed.

Lemma dof_Z_exact z : 0 <= z < 2 ^ 53 -> dtrunc (dof_Z z) = Some z.
Proof.
  intros Hz. destruct z as [|p|]; [done| |lia]. unfold dof_Z, binary_normalize, binary_round.
  rewrite digits2_log2. pose proof (Z.log2_nonneg (Z.pos p)).
  assert (Z.log2 (Z.pos p) < 53) by (apply Z.log2_lt_pow2; lia).
  set (k := Z.log2 (Z.pos p)) in *.
  assert (fexp 53 1024 (k + 1 + 0) = k - 52) as -> by (unfold fexp, emin; lia).
  unfold shl_align. rewrite Z.sub_0_r. destruct (k - 52) as [|d|d] eqn:Ek; [|lia|].
  - rewrite round_aux_exact by lia. by rewrite <- (Z.shiftl_0_r (Z.pos p)).
  - rewrite round_aux_exact; [|rewrite shift_pos_mul, Z.log2_mul_pow2 by lia; lia|lia].
    cbn [dtrunc cond_Zopp]. f_equal. rewrite shift_pos_mul. change (Z.neg d) with (- Z.pos d).
    rewrite Z.shiftl_opp_r, Z.shiftr_div_pow2 by lia. apply Z.div_mul. lia.
Qed.
