(* ===== verification/CString.v ===== *)
(** C strings.  A NUL-terminated [char] array is the [string] of the bytes
    before its NUL; the libc routines the program calls are functions on
    such strings.  [strlcpy], which the program defines itself, is modelled
    on the memory it runs on and refined to the string level. *)

From S2P Require Import Prelude CDouble.
Open Scope string_scope.
Open Scope Z_scope.

(** * Characters ([ctype.h], C locale) *)

Definition code (c : ascii) : Z := Z.of_N (N_of_ascii c).
Definition isdigit (c : ascii) : bool := (48 <=? code c) && (code c <=? 57).
Definition isspace (c : ascii) : bool := (code c =? 32) || ((9 <=? code c) && (code c <=? 13)).
Definition isprint (c : ascii) : bool := (32 <=? code c) && (code c <=? 126).
Definition chr (z : Z) : ascii := ascii_of_N (Z.to_N z).
Definition tolower (c : ascii) : ascii :=
  if (65 <=? code c) && (code c <=? 90) then chr (code c + 32) else c.
Definition toupper (c : ascii) : ascii :=
  if (97 <=? code c) && (code c <=? 122) then chr (code c - 32) else c.

Fixpoint map_string (f : ascii -> ascii) (s : string) : string :=
  match s with
  | EmptyString => EmptyString
  | String c s => String (f c) (map_string f s)
  end.

(** [s[0]], the NUL for the empty string. *)
Definition first_char (s : string) : ascii :=
  match s with EmptyString => Ascii.zero | String c _ => c end.

(** * [string.h] *)

Definition strlen (s : string) : Z := Z.of_nat (String.length s).
Definition strcmp_eq (a b : string) : bool := String.eqb a b.
Definition strcmp (a b : string) : comparison := String.compare a b.
Definition prefix_n (n : Z) (s : string) : string := substring 0 (Z.to_nat n) s.
Definition strncmp (a b : string) (n : Z) : comparison :=
  String.compare (prefix_n n a) (prefix_n n b).
Definition strncmp_eq (a b : string) (n : Z) : bool := String.eqb (prefix_n n a) (prefix_n n b).
Definition strcasecmp_eq (a b : string) : bool :=
  String.eqb (map_string tolower a) (map_string tolower b).

(** Index of the first occurrence of a character. *)
Fixpoint strchr_from (i : Z) (s : string) (c : ascii) : option Z :=
  match s with
  | EmptyString => None
  | String a s => if Ascii.eqb a c then Some i else strchr_from (i + 1) s c
  end.
Definition strchr (s : string) (c : ascii) : option Z := strchr_from 0 s c.

(** The text from the first occurrence of [key] on. *)
Fixpoint strstr (s key : string) : option string :=
  if String.prefix key s then Some s
  else match s with
       | EmptyString => None
       | String _ s => strstr s key
       end.

Definition skip_n (n : Z) (s : string) : string :=
  substring (Z.to_nat n) (String.length s - Z.to_nat n) s.

(** * Numbers: [stdlib.h] and [stdio.h] *)

Fixpoint skip_spaces (s : string) : string :=
  match s with
  | String c s' => if isspace c then skip_spaces s' else s
  | EmptyString => s
  end.

Definition digit_val (base : Z) (c : ascii) : option Z :=
  let v := if isdigit c then code c - 48
           else let l := code (tolower c) in
                if (97 <=? l) && (l <=? 122) then l - 87 else 99 in
  if v <? base then Some v else None.

(** Greedy scan of digits: the value read and the rest. *)
Fixpoint scan_digits (base : Z) (s : string) (acc : Z) : Z * string :=
  match s with
  | String c s' =>
      match digit_val base c with
      | Some d => scan_digits base s' (acc * base + d)
      | None => (acc, s)
      end
  | EmptyString => (acc, s)
  end.

Definition has_digit (base : Z) (s : string) : bool :=
  match s with
  | String c _ => match digit_val base c with Some _ => true | None => false end
  | EmptyString => false
  end.

(** An optional sign. *)
Definition scan_sign (s : string) : bool * string :=
  match s with
  | String c s' =>
      if Ascii.eqb c "-" then (true, s') else if Ascii.eqb c "+" then (false, s') else (false, s)
  | EmptyString => (false, s)
  end.

Definition clamp (lo hi z : Z) : Z := Z.max lo (Z.min hi z).

(** [strtol (s, NULL, 10)] with its saturation; [atoi] and [atoll] of glibc
    are casts of it. *)
Definition strtol10 (s : string) : Z :=
  let '(neg, t) := scan_sign (skip_spaces s) in
  let v := fst (scan_digits 10 t 0) in
  clamp (- 2 ^ 63) (2 ^ 63 - 1) (if neg then - v else v).
Definition atoi (s : string) : Z := s32 (strtol10 s).
Definition atoll (s : string) : Z := strtol10 s.

(** [sscanf (s, "%u", &v)]: [None] when no digit is found. *)
Definition sscanf_u (s : string) : option Z :=
  let '(neg, t) := scan_sign (skip_spaces s) in
  if has_digit 10 t then
    let v := fst (scan_digits 10 t 0) in
    Some (u32 (if (2 ^ 64 <=? v) then 2 ^ 64 - 1 else if neg then - v else v))
  else None.

(** [strtoull (s, &end, 0)]: the value and the text at [end]. *)
Definition strtoull0 (s : string) : Z * string :=
  let '(neg, t) := scan_sign (skip_spaces s) in
  let '(base, u) :=
    match t with
    | String z (String x r) =>
        if Ascii.eqb z "0" then
          if Ascii.eqb (tolower x) "x" && has_digit 16 r then (16, r) else (8, t)
        else (10, t)
    | String z EmptyString => (if Ascii.eqb z "0" then 8 else 10, t)
    | EmptyString => (10, t)
    end in
  if has_digit base u then
    let '(v, r) := scan_digits base u 0 in
    ((if 2 ^ 64 <=? v then 2 ^ 64 - 1 else u64 (if neg then - v else v)), r)
  else (0, s).

(** [strtod] on decimal notation (sign, digits, fraction, exponent),
    correctly rounded.  The hexadecimal, [inf] and [nan] spellings, which
    no configuration file uses, are not read. *)
Definition decimal_to_double (neg : bool) (m e10 : Z) : double :=
  match m with
  | Z.pos p =>
      if 0 <=? e10 then
        binary_normalize 53 1024 (cond_Zopp neg (Z.pos p * 10 ^ e10)) 0 neg
      else
        let '(q, e, l) := SFdiv_core_binary 53 1024 (Z.pos p) 0 (10 ^ (- e10)) 0 in
        binary_round_aux 53 1024 neg q e l
  | _ => S754_zero neg
  end.

Definition scan_exponent (s : string) : Z :=
  match s with
  | String c r =>
      if Ascii.eqb (tolower c) "e" then
        let '(neg, t) := scan_sign r in
        let v := fst (scan_digits 10 t 0) in if neg then - v else v
      else 0
  | EmptyString => 0
  end.

Definition atof (s : string) : double :=
  let '(neg, t) := scan_sign (skip_spaces s) in
  let '(i, r) := scan_digits 10 t 0 in
  match r with
  | String c f =>
      if Ascii.eqb c "." then
        let '(m, r') := scan_digits 10 f i in
        decimal_to_double neg m
          (scan_exponent r' - (strlen f - strlen r'))
      else decimal_to_double neg i (scan_exponent r)
  | EmptyString => decimal_to_double neg i 0
  end.

(** [sprintf ("%d")], [("%lld")]. *)
Fixpoint dec_digits (fuel : nat) (n : Z) : string :=
  match fuel with
  | O => EmptyString
  | S f => if n <? 10 then String (chr (48 + n)) EmptyString
           else dec_digits f (n / 10) +:+ String (chr (48 + n mod 10)) EmptyString
  end.
Definition dec_nat (n : Z) : string := dec_digits (S (Z.to_nat (Z.log2 n))) n.
Definition dec (z : Z) : string := if z <? 0 then "-" +:+ dec_nat (- z) else dec_nat z.

(** [sprintf ("%s")] padded on the right to a width, as ["%-16s"]. *)
Fixpoint spaces (n : nat) : string := match n with O => "" | S k => " " +:+ spaces k end.
Definition pad_right (w : Z) (s : string) : string := s +:+ spaces (Z.to_nat (w - strlen s)).

(** [sprintf ("%.6f")], exact and rounded half to even as glibc prints it. *)
Definition scaled_digits (k m e : Z) : Z :=
  if 0 <=? e then m * 2 ^ e * 10 ^ k
  else let d := 2 ^ (- e) in
       let q := m * 10 ^ k / d in
       let r := (m * 10 ^ k) mod d in
       if 2 * r <? d then q else if d <? 2 * r then q + 1 else q + q mod 2.
Fixpoint zeros (n : nat) : string := match n with O => "" | S k => "0" +:+ zeros k end.
Definition pad_zeros (w : Z) (s : string) : string := zeros (Z.to_nat (w - strlen s)) +:+ s.
(** [k > 0] decimals. *)
Definition fmt_fixed (k : Z) (x : double) : string :=
  let sgn (s : bool) := if s then "-" else "" in
  let num s n := sgn s +:+ dec_nat (n / 10 ^ k) +:+ "." +:+ pad_zeros k (dec_nat (n mod 10 ^ k)) in
  match x with
  | S754_zero s => num s 0
  | S754_finite s m e => num s (scaled_digits k (Z.pos m) e)
  | S754_infinity s => sgn s +:+ "inf"
  | S754_nan => "nan"
  end.
Definition fmt_f : double -> string := fmt_fixed 6.

(** * Copies into a buffer of [siz] bytes *)

(** The string left in [dst] by [strlcpy (dst, src, siz)], [siz > 0]. *)
Definition strlcpy_str (src : string) (siz : Z) : string := prefix_n (siz - 1) src.
(** The same for [strncpy (dst, src, n)] into a zeroed array longer than [n]. *)
Definition strncpy_str (src : string) (n : Z) : string := prefix_n n src.

Definition USERNAMEMAXLEN : Z := 16 * 4.

(** ** [strlcpy] on memory

    The bytes from [src] on end with a NUL; [dst] is the room for [siz]
    bytes.  [strlcpy_copy] is the first loop: it returns the bytes written,
    the source bytes left and the final [n]. *)
Fixpoint strlcpy_copy (n : nat) (src : list ascii) : list ascii * list ascii * nat :=
  match n with
  | O | S O => ([], src, O)
  | S n' =>
      match src with
      | [] => ([], [], n')
      | c :: s =>
          if Ascii.eqb c Ascii.zero then ([c], s, n')
          else let '(w, r, k) := strlcpy_copy n' s in (c :: w, r, k)
      end
  end.

(** The second loop runs to the byte after the NUL. *)
Fixpoint strlcpy_rest (src : list ascii) : list ascii :=
  match src with
  | [] => []
  | c :: s => if Ascii.eqb c Ascii.zero then s else strlcpy_rest s
  end.

(** The bytes stored in [dst] and the result [s - src - 1]. *)
Definition strlcpy (src : list ascii) (siz : nat) : list ascii * Z :=
  let '(w, r, n) := match siz with O => ([], src, O) | _ => strlcpy_copy siz src end in
  let '(w', r') :=
    match n with
    | O => (match siz with O => w | _ => (w ++ [Ascii.zero])%list end, strlcpy_rest r)
    | _ => (w, r)
    end in
  (w', Z.of_nat (length src) - Z.of_nat (length r') - 1).

(** The memory of a C string: its bytes and the NUL. *)
Definition cstr (s : string) : list ascii := (list_ascii_of_string s ++ [Ascii.zero])%list.

Definition no_nul (s : string) : Prop := Forall (fun c => c <> Ascii.zero) (list_ascii_of_string s).

(** * Lemmas *)

(** [scan_digits] reads back what [dec_nat] prints. *)
Lemma digit_val_chr d : 0 <= d < 10 -> digit_val 10 (chr (48 + d)) = Some d.
Proof.
  intros. assert (d = 0 \/ d = 1 \/ d = 2 \/ d = 3 \/ d = 4 \/ d = 5 \/ d = 6 \/ d = 7
    \/ d = 8 \/ d = 9) as E by lia. by repeat destruct E as [->|E]; subst.
Qed.

Lemma append_cons c a b : String c a +:+ b = String c (a +:+ b).
Proof. done. Qed.
Lemma append_nil_l b : "" +:+ b = b.
Proof. done. Qed.
Lemma append_assoc (a b c : string) : (a +:+ b) +:+ c = a +:+ (b +:+ c).
Proof. induction a; rewrite ?append_cons, ?append_nil_l; congruence. Qed.
Lemma append_nil_r (a : string) : a +:+ "" = a.
Proof. induction a; rewrite ?append_cons, ?append_nil_l; congruence. Qed.
Lemma string_length_app (a b : string) :
  String.length (a +:+ b) = (String.length a + String.length b)%nat.
Proof. induction a as [|c a IH]; rewrite ?append_cons, ?append_nil_l; simpl; congruence. Qed.

Lemma scan_dec_digits fuel n rest : 0 <= n < 10 ^ Z.of_nat fuel ->
  scan_digits 10 (dec_digits fuel n +:+ rest) 0 = scan_digits 10 rest n.
Proof.
  revert n rest. induction fuel as [|f IH]; intros n rest Hn.
  - replace n with 0 by (simpl in Hn; lia). done.
  - rewrite Nat2Z.inj_succ, Z.pow_succ_r in Hn by lia. cbn [dec_digits].
    destruct (Z.ltb_spec n 10).
    + rewrite append_cons, append_nil_l. cbn [scan_digits]. by rewrite digit_val_chr by lia.
    + rewrite append_assoc, IH by (split; [apply Z.div_pos|apply Z.div_lt_upper_bound]; lia).
      rewrite append_cons, append_nil_l. cbn [scan_digits]. rewrite digit_val_chr by (apply Z.mod_pos_bound; lia).
      f_equal. pose proof (Z.div_mod n 10). lia.
Qed.

Lemma dec_fuel n : 0 <= n -> n < 10 ^ Z.of_nat (S (Z.to_nat (Z.log2 n))).
Proof.
  intros. destruct (Z.eq_dec n 0) as [->|]; [done|].
  pose proof (Z.log2_spec n). pose proof (Z.log2_nonneg n).
  rewrite Nat2Z.inj_succ, Z2Nat.id by lia.
  apply Z.lt_le_trans with (2 ^ Z.succ (Z.log2 n)); [lia|].
  apply Z.pow_le_mono_l. lia.
Qed.

Lemma scan_dec_nat n rest : 0 <= n ->
  scan_digits 10 (dec_nat n +:+ rest) 0 = scan_digits 10 rest n.
Proof. intros. apply scan_dec_digits. split; [done|by apply dec_fuel]. Qed.

Lemma dec_digits_first fuel n : (0 < fuel)%nat -> 0 <= n ->
  exists d s, 0 <= d < 10 /\ dec_digits fuel n = String (chr (48 + d)) s.
Proof.
  revert n. induction fuel as [|f IH]; intros n Hf Hn; [lia|]. cbn [dec_digits].
  destruct (Z.ltb_spec n 10); [eauto with lia|].
  destruct f as [|f].
  - exists (n mod 10), "". split; [apply Z.mod_pos_bound; lia|done].
  - destruct (IH (n / 10)) as (d & s & Hd & ->); [lia|apply Z.div_pos; lia|]. eauto.
Qed.

Lemma dec_nat_first n : 0 <= n ->
  exists d s, 0 <= d < 10 /\ dec_nat n = String (chr (48 + d)) s.
Proof. intros. apply dec_digits_first; lia. Qed.

Lemma digit_not_special d : 0 <= d < 10 ->
  isspace (chr (48 + d)) = false /\ Ascii.eqb (chr (48 + d)) "-" = false
  /\ Ascii.eqb (chr (48 + d)) "+" = false /\ isdigit (chr (48 + d)) = true
  /\ isprint (chr (48 + d)) = true.
Proof.
  intros. assert (d = 0 \/ d = 1 \/ d = 2 \/ d = 3 \/ d = 4 \/ d = 5 \/ d = 6 \/ d = 7
    \/ d = 8 \/ d = 9) as E by lia. by repeat destruct E as [->|E]; subst.
Qed.

(** A printed number consists of digits. *)
Fixpoint all_digits (s : string) : bool :=
  match s with EmptyString => true | String c s => isdigit c && all_digits s end.

Lemma all_digits_app a b : all_digits (a +:+ b) = all_digits a && all_digits b.
Proof.
  induction a as [|c a IH]; [done|]. rewrite append_cons. simpl. by rewrite IH, andb_assoc.
Qed.

Lemma dec_digits_all f n : 0 <= n -> all_digits (dec_digits f n) = true.
Proof.
  revert n. induction f as [|f IH]; intros n Hn; [done|]. cbn [dec_digits].
  destruct (Z.ltb_spec n 10).
  - destruct (digit_not_special n) as (_ & _ & _ & D & _); [lia|]. cbn [all_digits]. by rewrite D.
  - rewrite all_digits_app, IH by (apply Z.div_pos; lia).
    destruct (digit_not_special (n mod 10)) as (_ & _ & _ & D & _); [apply Z.mod_pos_bound; lia|].
    cbn [all_digits andb]. by rewrite D.
Qed.

Lemma dec_digits_len f k n : (0 < k)%nat -> 0 <= n < 10 ^ Z.of_nat k ->
  (String.length (dec_digits f n) <= k)%nat.
Proof.
  revert k n. induction f as [|f IH]; intros k n Hk Hn; [simpl; lia|]. cbn [dec_digits].
  destruct (Z.ltb_spec n 10); [simpl; lia|]. rewrite string_length_app. simpl.
  destruct k as [|[|k]]; [lia|simpl in Hn; lia|].
  rewrite Nat2Z.inj_succ, Z.pow_succ_r in Hn by lia.
  specialize (IH (S k) (n / 10) ltac:(lia)).
  assert (0 <= n / 10 < 10 ^ Z.of_nat (S k)) by
    (split; [apply Z.div_pos; lia|apply Z.div_lt_upper_bound; lia]). specialize (IH H0). lia.
Qed.

(** Whether a character occurs. *)
Fixpoint has_char (c : ascii) (s : string) : bool :=
  match s with EmptyString => false | String a s => Ascii.eqb a c || has_char c s end.

Lemma has_char_app c a b : has_char c (a +:+ b) = has_char c a || has_char c b.
Proof.
  induction a as [|x a IH]; [done|]. rewrite append_cons. simpl. by rewrite IH, orb_assoc.
Qed.

Lemma strchr_none c s : has_char c s = false -> strchr s c = None.
Proof.
  unfold strchr. generalize 0. induction s as [|a s IH]; intros i; simpl; [done|].
  intros [-> E]%orb_false_elim. by apply IH.
Qed.

Lemma has_char_digits c s : all_digits s = true -> isdigit c = false -> has_char c s = false.
Proof.
  intros Hs Hc. induction s as [|a s IH]; [done|]. simpl in *. apply andb_prop in Hs as [Ha Hs].
  rewrite IH by done. rewrite orb_false_r. destruct (Ascii.eqb_spec a c) as [->|]; [congruence|done].
Qed.

Lemma dec_nat_digits n : 0 <= n -> all_digits (dec_nat n) = true.
Proof. intros. by apply dec_digits_all. Qed.

Lemma dec_nat_len n : 0 <= n < 2 ^ 63 -> strlen (dec_nat n) <= 19.
Proof.
  intros Hn. unfold strlen, dec_nat.
  pose proof (dec_digits_len (S (Z.to_nat (Z.log2 n))) 19 n ltac:(lia) ltac:(lia)). lia.
Qed.

(** A printed number parses back, whatever text follows it. *)
Lemma strtol10_dec z rest : in_s64 z -> has_digit 10 rest = false ->
  strtol10 (dec z +:+ rest) = z.
Proof.
  intros Hz Hr. unfold in_s64 in Hz.
  assert (forall n, 0 <= n -> fst (scan_digits 10 (dec_nat n +:+ rest) 0) = n) as E.
  { intros n Hn. rewrite scan_dec_nat by done. destruct rest as [|c r]; [done|]. simpl in *.
    by destruct (digit_val 10 c). }
  unfold strtol10, dec. destruct (Z.ltb_spec z 0).
  - rewrite !append_cons, append_nil_l.
    assert (scan_sign (skip_spaces (String "-" (dec_nat (- z) +:+ rest)))
            = (true, dec_nat (- z) +:+ rest)) as -> by reflexivity.
    rewrite E by lia. unfold clamp. lia.
  - destruct (dec_nat_first z) as (d & s & Hd & Es); [lia|].
    destruct (digit_not_special d Hd) as (Ns & Nm & Np & _).
    pose proof (E z ltac:(lia)) as E'. rewrite Es in *. rewrite append_cons in *.
    cbn [skip_spaces]. rewrite Ns. cbn [scan_sign]. rewrite Nm, Np, E'. unfold clamp. lia.
Qed.

Lemma atoll_dec z : in_s64 z -> atoll (dec z) = z.
Proof. intros. rewrite <- (append_nil_r (dec z)). by apply strtol10_dec. Qed.
Lemma atoi_dec z : in_s32 z -> atoi (dec z) = z.
Proof.
  intros H. unfold atoi. rewrite <- (append_nil_r (dec z)), strtol10_dec; [|red in H; red; lia|done].
  by apply s32_id.
Qed.

(** [atof] reads a printed integer below 2^53 exactly. *)
Lemma atof_dec_nat z : 0 <= z < 2 ^ 53 -> to_ll (dtrunc (atof (dec_nat z))) = z.
Proof.
  intros Hz. unfold atof. destruct (dec_nat_first z ltac:(lia)) as (d & s & Hd & E).
  destruct (digit_not_special d Hd) as (Hs & Hm & Hp & _).
  pose proof (scan_dec_nat z "" ltac:(lia)) as Hscan. rewrite append_nil_r in Hscan.
  rewrite E in *. cbn [skip_spaces]. rewrite Hs. unfold scan_sign. rewrite Hm, Hp, Hscan. cbn [scan_digits].
  assert (decimal_to_double false z 0 = dof_Z z) as ->.
  { destruct z as [|p|p]; [done| |lia]. unfold decimal_to_double, dof_Z. cbn [cond_Zopp].
    change (0 <=? 0) with true. cbv iota. by rewrite Z.mul_1_r. }
  rewrite dof_Z_exact by done. unfold to_ll.
  destruct (Z.leb_spec (- 2 ^ 63) z); [|lia]. by destruct (Z.ltb_spec z (2 ^ 63)); [|lia].
Qed.

(** Prefixes. *)
Lemma substring_all (s : string) n : (String.length s <= n)%nat -> substring 0 n s = s.
Proof. revert n. induction s; intros [|n] H; simpl in *; try lia; try done. f_equal. apply IHs. lia. Qed.

Lemma prefix_n_all n s : strlen s <= n -> prefix_n n s = s.
Proof. intros. apply substring_all. unfold strlen in *. lia. Qed.

Lemma skip_n_app a b : skip_n (strlen a) (a +:+ b) = b.
Proof.
  unfold skip_n, strlen. rewrite Nat2Z.id, string_length_app.
  replace (String.length a + String.length b - String.length a)%nat with (String.length b) by lia.
  simpl. induction a as [|c a IH]; [rewrite append_nil_l; by apply substring_all|].
  rewrite append_cons. simpl. exact IH.
Qed.

Lemma prefix_n_app a b : prefix_n (strlen a) (a +:+ b) = a.
Proof.
  unfold prefix_n, strlen. rewrite Nat2Z.id. induction a as [|c a IH].
  - rewrite append_nil_l. by destruct b.
  - rewrite append_cons. simpl. by rewrite IH.
Qed.

Lemma strlcpy_str_id s siz : strlen s < siz -> strlcpy_str s siz = s.
Proof. intros. apply prefix_n_all. lia. Qed.

Lemma substring_length n s : (String.length (substring 0 n s) <= n)%nat.
Proof. revert n. induction s; intros [|n]; simpl; try lia. specialize (IHs n). lia. Qed.

Lemma strlcpy_str_len s siz : 0 < siz -> strlen (strlcpy_str s siz) < siz.
Proof.
  intros. unfold strlcpy_str, strlen, prefix_n.
  pose proof (substring_length (Z.to_nat (siz - 1)) s). lia.
Qed.

Lemma strncmp_eq_short a b n : strlen a <= n -> strlen b <= n ->
  strncmp_eq a b n = String.eqb a b.
Proof. intros. unfold strncmp_eq. by rewrite !prefix_n_all. Qed.

Lemma strncmp_eq_refl a n : strncmp_eq a a n = true.
Proof. apply String.eqb_refl. Qed.

(** * [strlcpy]: the loops implement the truncating copy *)

Lemma strlcpy_rest_cstr s : no_nul s -> strlcpy_rest (cstr s) = [].
Proof.
  unfold no_nul, cstr. induction s as [|c s IH]; intros H; simpl in *; [done|].
  inversion H; subst. destruct (Ascii.eqb_spec c Ascii.zero); [done|]. by apply IH.
Qed.

Lemma strlcpy_copy_step n c s : c <> Ascii.zero ->
  strlcpy_copy (S (S n)) (c :: s) = let '(w, r, k) := strlcpy_copy (S n) s in (c :: w, r, k).
Proof. intros. simpl. by destruct (Ascii.eqb_spec c Ascii.zero). Qed.

Lemma strlcpy_copy_short s n : no_nul s -> (String.length s < n - 1)%nat ->
  strlcpy_copy n (cstr s) = (cstr s, [], (n - 1 - String.length s)%nat).
Proof.
  revert n. induction s as [|c s IH]; intros n Hs Hn; simpl in Hn.
  - destruct n as [|[|n]]; [lia|lia|]. done.
  - destruct n as [|[|n]]; [lia|lia|]. inversion Hs; subst.
    change (cstr (String c s)) with (c :: cstr s).
    rewrite strlcpy_copy_step, (IH (S n)) by (done || lia). f_equal. simpl. lia.
Qed.

Lemma strlcpy_copy_long s n : no_nul s -> (0 < n)%nat -> (n - 1 <= String.length s)%nat ->
  exists r, strlcpy_copy n (cstr s)
            = (list_ascii_of_string (substring 0 (n - 1) s), cstr r, O) /\ no_nul r.
Proof.
  revert n. induction s as [|c s IH]; intros n Hs Hn0 Hn; simpl in Hn.
  - assert (n = 1%nat) as -> by lia. by exists "".
  - destruct n as [|[|n]]; [lia| |].
    + by exists (String c s).
    + inversion Hs; subst. change (cstr (String c s)) with (c :: cstr s).
      rewrite strlcpy_copy_step by done.
      destruct (IH (S n)) as (r & E & Hr); [done|lia|lia|]. rewrite E. exists r.
      split; [|done]. replace (S n - 1)%nat with n by lia.
      by replace (S (S n) - 1)%nat with (S n) by lia.
Qed.

(** strlcpy stores the prefix of the source that fits together with a NUL, and returns
    the length of the source. *)
Lemma strlcpy_correct (s : string) (siz : nat) :
  no_nul s -> (0 < siz)%nat ->
  strlcpy (cstr s) siz = (cstr (strlcpy_str s (Z.of_nat siz)), strlen s).
Proof.
  intros Hs Hsiz.
  assert (Hlen : length (cstr s) = S (String.length s)).
  { unfold cstr. rewrite length_app. simpl.
    assert (length (list_ascii_of_string s) = String.length s) as ->; [|lia].
    clear. induction s; simpl; congruence. }
  unfold strlcpy. destruct siz as [|siz]; [lia|]. unfold strlcpy_str, prefix_n.
  replace (Z.to_nat (Z.of_nat (S siz) - 1)) with siz by lia.
  destruct (decide (String.length s < siz)%nat) as [Hl|Hl].
  - rewrite strlcpy_copy_short by (done || lia).
    destruct (S siz - 1 - String.length s)%nat eqn:E; [lia|].
    rewrite substring_all by lia. f_equal. rewrite Hlen. unfold strlen. simpl. lia.
  - destruct (strlcpy_copy_long s (S siz)) as (r & E & Hr); [done|lia|lia|].
    rewrite E, strlcpy_rest_cstr by done. replace (S siz - 1)%nat with siz by lia.
    f_equal. rewrite Hlen. unfold strlen. simpl. lia.
Qed.
