(* ===== verification/GLib.v ===== *)
(** What the programs use of GLib beside the hash tables: [g_list_sort].
    The order of a sort is a comparison function that returns a negative
    number, 0 or a positive number, as [strcmp] does. *)

From S2P Require Import Prelude CDouble CString.
From Stdlib Require Export Sorted.
Open Scope string_scope.
Open Scope Z_scope.

(** * Sorting *)

(** A comparison is an order on the elements that satisfy [P]. *)
Record order_on {A} (cmp : A -> A -> Z) (P : A -> Prop) : Prop := {
  oo_total : forall x y, P x -> P y -> cmp x y <= 0 \/ cmp y x <= 0;
  oo_trans : forall x y z, P x -> P y -> P z -> cmp x y <= 0 -> cmp y z <= 0 -> cmp x z <= 0
}.

(** [g_list_sort] keeps the elements and sorts them when the comparison is
    an order. *)
Class GListSort := {
  g_list_sort : forall {A}, (A -> A -> Z) -> list A -> list A;
  g_list_sort_perm : forall {A} (cmp : A -> A -> Z) l, g_list_sort cmp l ≡ₚ l;
  g_list_sort_sorted : forall {A} (cmp : A -> A -> Z) (P : A -> Prop) l,
    order_on cmp P -> Forall P l -> StronglySorted (fun x y => cmp x y <= 0) (g_list_sort cmp l)
}.

Lemma g_list_sort_forall `{GListSort} {A} (cmp : A -> A -> Z) (P : A -> Prop) l :
  Forall P (g_list_sort cmp l) -> Forall P l.
Proof.
  rewrite !list.Forall_forall. intros Hl x Hx. apply Hl. by rewrite g_list_sort_perm.
Qed.

(** ** A sort by insertion, used by the witnesses *)

Section insertion.
Context {A : Type} (cmp : A -> A -> Z).

Fixpoint insert_sorted (x : A) (l : list A) : list A :=
  match l with
  | [] => [x]
  | y :: l => if cmp x y <=? 0 then x :: y :: l else y :: insert_sorted x l
  end.
Definition insertion_sort (l : list A) : list A := fold_right insert_sorted [] l.

Lemma insert_sorted_perm x l : insert_sorted x l ≡ₚ x :: l.
Proof.
  induction l as [|y l IH]; [done|]. simpl. destruct (cmp x y <=? 0); [done|].
  rewrite IH. apply Permutation_swap.
Qed.

Lemma insertion_sort_perm l : insertion_sort l ≡ₚ l.
Proof. induction l as [|x l IH]; [done|]. simpl. by rewrite insert_sorted_perm, IH. Qed.

Lemma insert_keeps_sorted P x l : order_on cmp P -> P x -> Forall P l ->
  StronglySorted (fun x y => cmp x y <= 0) l ->
  StronglySorted (fun x y => cmp x y <= 0) (insert_sorted x l).
Proof.
  intros [Ht Htr] Hx Hl Hs. induction Hs as [|y l Hs IH Hy]; [repeat constructor|].
  apply list.Forall_cons in Hl as [Py Hl]. simpl. destruct (Z.leb_spec (cmp x y) 0) as [Hle|Hgt].
  - constructor; [by constructor|]. constructor; [done|].
    apply list.Forall_forall. intros z Hz. rewrite list.Forall_forall in Hy, Hl.
    apply (Htr x y z); auto.
  - constructor; [by apply IH|]. rewrite insert_sorted_perm. constructor; [|done].
    destruct (Ht x y Hx Py); [lia|done].
Qed.

Lemma insertion_sort_sorted P l : order_on cmp P -> Forall P l ->
  StronglySorted (fun x y => cmp x y <= 0) (insertion_sort l).
Proof.
  intros Ho Hl. induction Hl as [|x l Hx Hl IH]; [constructor|]. simpl.
  apply (insert_keeps_sorted P); try done. by rewrite insertion_sort_perm.
Qed.
End insertion.

Definition insertion_list_sort : GListSort := {|
  g_list_sort := fun A => insertion_sort;
  g_list_sort_perm := fun A => insertion_sort_perm;
  g_list_sort_sorted := fun A cmp P l => insertion_sort_sorted cmp P l
|}.

(** A sorted list of elements that are never equal in the order is the only
    one: a sort is determined by its elements. *)
Lemma sorted_unique {A} (R : A -> A -> Prop) l1 l2 :
  (forall x y, x ∈ l1 -> y ∈ l1 -> R x y -> R y x -> x = y) ->
  StronglySorted R l1 -> StronglySorted R l2 -> l1 ≡ₚ l2 -> l1 = l2.
Proof.
  intros Ha Hs1. revert l2. induction Hs1 as [|x l1 Hs1 IH Hx]; intros l2 Hs2 Hp.
  - symmetry. by apply Permutation_nil.
  - destruct Hs2 as [|y l2 Hs2 Hy]; [by apply Permutation_nil_r in Hp|].
    rewrite list.Forall_forall in Hx, Hy.
    assert (x = y) as ->.
    { assert (x ∈ y :: l2) as Hin by (rewrite <- Hp; by left).
      assert (y ∈ x :: l1) as Hin2 by (rewrite Hp; by left).
      apply elem_of_cons in Hin as [->|Hin]; [done|].
      pose proof Hin2 as Hin3. apply elem_of_cons in Hin3 as [->|Hin3]; [done|].
      apply Ha; [by left|done|by apply Hx|by apply Hy]. }
    f_equal. apply IH; [|done|by apply Permutation_cons_inv in Hp].
    intros a b Hin1 Hin2. apply Ha; by right.
Qed.

(** * [strcmp] and [strncmp] as orders *)

Definition cmp_int (c : comparison) : Z := match c with Eq => 0 | Lt => -1 | Gt => 1 end.

Lemma ascii_compare_code a b : Ascii.compare a b = (code a ?= code b).
Proof. unfold Ascii.compare, code. by rewrite N2Z.inj_compare. Qed.

Lemma string_compare_refl s : String.compare s s = Eq.
Proof.
  induction s as [|c s IH]; [done|]. simpl. by rewrite ascii_compare_code, Z.compare_refl.
Qed.

Lemma code_inj a b : code a = code b -> a = b.
Proof.
  unfold code. intros E%N2Z.inj. by rewrite <- (ascii_N_embedding a), <- (ascii_N_embedding b), E.
Qed.

Lemma string_compare_trans a b c :
  String.compare a b <> Gt -> String.compare b c <> Gt -> String.compare a c <> Gt.
Proof.
  revert b c. induction a as [|x a IH]; intros b c; [by destruct c|].
  destruct b as [|y b]; [done|]. destruct c as [|z c]; [done|]. simpl.
  rewrite !ascii_compare_code.
  destruct (Z.compare_spec (code x) (code y)) as [E1|L1|G1]; [| |done];
    destruct (Z.compare_spec (code y) (code z)) as [E2|L2|G2]; try done; intros H1 H2.
  - rewrite E1, E2, Z.compare_refl. by eapply IH.
  - rewrite (proj2 (Z.compare_lt_iff (code x) (code z))) by lia. done.
  - rewrite (proj2 (Z.compare_lt_iff (code x) (code z))) by lia. done.
  - rewrite (proj2 (Z.compare_lt_iff (code x) (code z))) by lia. done.
Qed.

Lemma cmp_int_le c : cmp_int c <= 0 <-> c <> Gt.
Proof. by destruct c. Qed.

(** Names compared by their first [n] characters. *)
Lemma strncmp_order {A} (f : A -> string) n :
  order_on (fun x y => cmp_int (strncmp (f x) (f y) n)) (fun _ => True).
Proof.
  split.
  - intros x y _ _. unfold strncmp. set (a := prefix_n n (f x)). set (b := prefix_n n (f y)).
    rewrite (String.compare_antisym b a). destruct (String.compare a b); simpl; lia.
  - intros x y z _ _ _. rewrite !cmp_int_le. apply string_compare_trans.
Qed.

(** Whole names. *)
Lemma strcmp_order {A} (f : A -> string) :
  order_on (fun x y => cmp_int (strcmp (f x) (f y))) (fun _ => True).
Proof.
  split.
  - intros x y _ _. unfold strcmp. rewrite (String.compare_antisym (f y) (f x)).
    destruct (String.compare (f x) (f y)); simpl; lia.
  - intros x y z _ _ _. rewrite !cmp_int_le. apply string_compare_trans.
Qed.

Lemma strncmp_antisym a b n : cmp_int (strncmp a b n) <= 0 -> cmp_int (strncmp b a n) <= 0 ->
  prefix_n n a = prefix_n n b.
Proof.
  unfold strncmp. rewrite (String.compare_antisym (prefix_n n b)).
  destruct (String.compare (prefix_n n a) (prefix_n n b)) eqn:E; simpl; try lia.
  intros _ _. by apply String.compare_eq_iff.
Qed.
