(* ===== verification/DlLoad.v ===== *)
(** The loading of the MySQL client library ([src/dlload.c]): the library is
    the first of nine names that the dynamic linker finds, and its functions
    are bound by name.  The linker is a parameter. *)

From S2P Require Import Prelude.
Open Scope string_scope.
Open Scope Z_scope.

Section dlload.
Context {lib address : Type} (dlopen : string -> option lib) (dlsym : lib -> string -> option address).

(** The handle, and the functions that are bound; one that is not is null. *)
Record linked := mkLinked { lib_handle : option lib; functions : gmap string address }.

Definition library_names : list string :=
  ["libmysqlclient_r.so.18"; "libmysqlclient_r.so.16"; "libmysqlclient_r.so.15"; "libmysqlclient_r.so";
   "libmysqlclient.so.18"; "libmysqlclient.so.16"; "libmysqlclient.so.15"; "libmysqlclient.so";
   "libperconaserverclient.so.18"].

(** The functions in the order of their loading, and whether they can be
    missing. *)
Definition function_names : list (string * bool) :=
  [("mysql_store_result", false); ("mysql_num_rows", false); ("mysql_free_result", false);
   ("mysql_fetch_lengths", false); ("mysql_fetch_row", false); ("my_init", true); ("load_defaults", true);
   ("mysql_init", false); ("mysql_real_connect", false); ("mysql_options", false); ("mysql_query", false);
   ("mysql_close", false); ("mysql_error", false); ("mysql_real_escape_string", false);
   ("mysql_ping", false)].

(** The addresses stay when the library is closed. *)
Definition delete_mysql_function (s : linked) : linked := mkLinked None (functions s).

Fixpoint open_library (names : list string) : option lib :=
  match names with
  | [] => None
  | n :: names => match dlopen n with Some h => Some h | None => open_library names end
  end.

(** [LOAD_FUNCTION] and [LOAD_FUNCTION_SKIP]. *)
Fixpoint load_functions (h : lib) (names : list (string * bool)) (s : linked) : Z * linked :=
  match names with
  | [] => (0, s)
  | (n, skip) :: names =>
      match dlsym h n with
      | Some a => load_functions h names (mkLinked (lib_handle s) (<[n := a]> (functions s)))
      | None =>
          let s := mkLinked (lib_handle s) (delete n (functions s)) in
          if skip : bool then load_functions h names s else (-1, delete_mysql_function s)
      end
  end.

Definition init_mysql_function (s : linked) : Z * linked :=
  let handle := match lib_handle s with Some h => Some h | None => open_library library_names end in
  match handle with
  | None => (-1, s)
  | Some h => load_functions h function_names (mkLinked handle (functions s))
  end.

(** * Lemmas *)

Lemma load_functions_spec h names s :
  NoDup names.*1 ->
  let '(rc, s') := load_functions h names s in
  (rc = 0 /\ lib_handle s' = lib_handle s \/ rc = -1 /\ lib_handle s' = None)
  /\ (rc = 0 <-> forall n, (n, false) ∈ names -> is_Some (dlsym h n))
  /\ (forall n, n ∉ names.*1 -> functions s' !! n = functions s !! n)
  /\ (rc = 0 -> forall n b, (n, b) ∈ names -> functions s' !! n = dlsym h n).
Proof.
  revert s. induction names as [|[n skip] names IH]; intros s Hnd.
  - cbn. split; [by left|]. split; [split; [set_solver|done]|]. split; [done|]. set_solver.
  - cbn [fmap list_fmap fst] in Hnd. apply list.NoDup_cons in Hnd as [Hn Hnd]. cbn [load_functions].
    destruct (dlsym h n) as [a|] eqn:Ea; [|destruct skip].
    + specialize (IH (mkLinked (lib_handle s) (<[n := a]> (functions s))) Hnd).
      destruct (load_functions h names _) as [rc s']. destruct IH as (A & B & C & D). split; [exact A|]. split.
      { rewrite B. split; intros HH m; [rewrite elem_of_cons; intros [[= -> _]|?]; [by rewrite Ea|by apply HH]|].
        intros Hm. apply HH. by right. }
      split; [intros m Hm; apply not_elem_of_cons in Hm as [Hne Hm]; rewrite C by done; cbn; by rewrite lookup_insert_ne|].
      intros Hrc m b. rewrite elem_of_cons. intros [[= -> ->]|Hm]; [|by eapply D].
      rewrite C by done. cbn. by rewrite lookup_insert_eq.
    + specialize (IH (mkLinked (lib_handle s) (delete n (functions s))) Hnd).
      destruct (load_functions h names _) as [rc s']. destruct IH as (A & B & C & D). split; [exact A|]. split.
      { rewrite B. split; intros HH m; [rewrite elem_of_cons; intros [[=]|?]; by apply HH|].
        intros Hm. apply HH. by right. }
      split; [intros m Hm; apply not_elem_of_cons in Hm as [Hne Hm]; rewrite C by done; cbn; by rewrite lookup_delete_ne|].
      intros Hrc m b. rewrite elem_of_cons. intros [[= -> ->]|Hm]; [|by eapply D].
      rewrite C by done. cbn. by rewrite lookup_delete_eq.
    + split; [by right|]. split; [split; [done|]|].
      { intros HH. destruct (HH n) as [a Ha]; [by left|]. by rewrite Ea in Ha. }
      split; [|done]. intros m Hm. apply not_elem_of_cons in Hm as [Hne _]. cbn. by rewrite lookup_delete_ne.
Qed.
End dlload.
