(* ===== verification/Data.v ===== *)
(** The shared data of [src/data.h]: the enumerations and structures that
    the daemon, its clients and the MySQL side exchange. *)

From S2P Require Import Prelude CDouble CString.
Open Scope string_scope.
Open Scope Z_scope.

(** * Constants and enumerations *)

Definition BAD_LVE : Z := 3.
Definition CONFIG_PATH : string := "/etc/container/mysql-governor.xml".
Definition DUPLICATE_CONFIG_PATH : string := "/var/run/mysql-governor-config.xml".

Inductive client_type_t := DBDUMPER | DBTOP | DBEXIT | DBCTL | DBTOPCL.

Inductive dbctl_command_l :=
  | SET | IGNORE | DELETE | LIST | LIST_R | RESTRICT | UNRESTRICT | UNRESTRICT_A
  | LOG_PATH | REREAD_CFG | REINIT_USERS_LIST | DBUSER_MAP_CMD.

Inductive MODE_TYPE :=
  | TEST_MODE | PRODUCTION_MODE | DEBUG_MODE | ERROR_MODE | RESTRICT_MODE
  | NORESTRICT_MODE | IGNORE_MODE | OLD_RESTRICT_MODE | NEW_RESTRICT_MODE.

Inductive GOVERNORS_FIELD_NAME :=
  | NORESTRICT_PARAM2 | CPU_PARAM | READ_PARAM | WRITE_PARAM | NORESTRICT_PARAM.

Inductive GOVERNORS_PERIOD_NAME :=
  | NO_PERIOD | CURRENT_PERIOD | SHORT_PERIOD | MID_PERIOD | LONG_PERIOD.

Inductive command_t := EXIT | FREEZE | UNFREEZE | SLOWQUERY.

#[export] Instance client_type_eq : EqDecision client_type_t. Proof. solve_decision. Defined.
#[export] Instance dbctl_command_eq : EqDecision dbctl_command_l. Proof. solve_decision. Defined.
#[export] Instance mode_type_eq : EqDecision MODE_TYPE. Proof. solve_decision. Defined.
#[export] Instance field_eq : EqDecision GOVERNORS_FIELD_NAME. Proof. solve_decision. Defined.
#[export] Instance period_eq : EqDecision GOVERNORS_PERIOD_NAME. Proof. solve_decision. Defined.
#[export] Instance command_eq : EqDecision command_t. Proof. solve_decision. Defined.

(** * Structures *)

Record T_LONG := mkTLong { t_current : Z; t_short : Z; t_mid : Z; t_long : Z }.

Record DbCtlOptions := mkDbCtlOptions {
  o_username : string; o_cpu : Z; o_read : Z; o_write : Z;
  o_level : Z; o_timeout : Z; o_user_max_connections : Z
}.

(** [account_flag]: the user was configured by its account ("name"), not by
    its MySQL name ("mysql_name"). *)
Record Stats_cfg := mkStatsCfg {
  l_cpu : T_LONG; l_write : T_LONG; l_read : T_LONG; l_slow : T_LONG;
  account_flag : bool; mode : MODE_TYPE
}.

Record Stats := mkStats { st_cpu : double; st_write : Z; st_read : Z }.

Record client_data := mkClientData {
  m_type : Z; m_tid : Z; m_pid : Z; m_username : string;
  m_cpu : Z; m_write : Z; m_read : Z; m_update_time : Z; m_naoseconds : Z
}.

Record restrict_info := mkInfo {
  field_restrict : GOVERNORS_PERIOD_NAME;
  field_level_restrict : GOVERNORS_FIELD_NAME
}.

Record Command := mkCommand { c_username : string; c_command : command_t }.

Record DbCtlCommand := mkDbCtlCommand {
  d_command : dbctl_command_l; d_parameter : string; d_options : DbCtlOptions
}.

Record dbtop_exch := mkExch {
  x_id : string; x_current : Stats; x_short_average : Stats; x_mid_average : Stats;
  x_long_average : Stats; x_restricted : Z; x_timeout : Z; x_info : restrict_info;
  x_start_count : Z
}.

Record dbgov_statitrics := mkDbgov {
  g_username : string; g_max_simultaneous_requests : Z;
  g_sum_cpu : double; g_sum_write : double; g_sum_read : double;
  g_number_of_iterations : Z;
  g_max_cpu : double; g_max_write : double; g_max_read : double;
  g_number_of_restricts : Z;
  g_limit_cpu : Z; g_limit_read : Z; g_limit_write : Z;
  g_cause : Z; g_ignored : MODE_TYPE
}.

Record UserMap := mkUserMap { um_username : string; um_uid : Z; um_account_name : string }.
