(* ===== verification/FifoStats.v ===== *)
(** The ring buffer of per-second samples ([src/fifo_stats.c]) and the
    averages computed from it ([src/stats.c]).  [None] stands for a run that
    crashes: an access outside the array, or an integer division by zero. *)

From S2P Require Import Prelude CDouble CString Data.
Open Scope Z_scope.

(** * [stats.c]: arithmetic on samples *)

Definition reset_stats : Stats := mkStats d0 0 0.

Definition sum_stats (dest nr : Stats) : Stats :=
  mkStats (dadd (st_cpu dest) (st_cpu nr))
          (s64 (st_write dest + st_write nr)) (s64 (st_read dest + st_read nr)).

Definition save_stats (st : Stats) : Stats := mkStats (st_cpu st) (st_write st) (st_read st).

(** * [fifo_stats.c] *)

(** [ar] is the array of samples, [first] the index of the newest. *)
Record fifo_stats := mkFifo { ar : list Stats; size : Z; first : Z }.

(** [calloc] of a negative count fails. *)
Definition fifo_stats_init (sz : Z) : option fifo_stats :=
  if sz <? 0 then None
  else Some (mkFifo (replicate (Z.to_nat sz) (mkStats d0 0 0)) sz 0).

(** [fifo->ar[i]], and a store through it. *)
Definition ar_get (f : fifo_stats) (i : Z) : option Stats :=
  if i <? 0 then None else ar f !! Z.to_nat i.
Definition ar_set (f : fifo_stats) (i : Z) (x : Stats) : option fifo_stats :=
  if (i <? 0) || (Z.of_nat (length (ar f)) <=? i) then None
  else Some (mkFifo (<[Z.to_nat i := x]> (ar f)) (size f) (first f)).

Definition fifo_stats_push (f : fifo_stats) (x : Stats) : option fifo_stats :=
  let fst := first f - 1 in
  let fst := if fst <? 0 then size f - 1 else fst in
  ar_set (mkFifo (ar f) (size f) fst) fst x.

Definition fifo_stats_get (f : fifo_stats) (i : Z) : option Stats :=
  let index := first f + i in
  let index := if size f <=? index then index - size f else index in
  ar_get f index.

Definition fifo_stats_refresh_last (f : fifo_stats) (x : Stats) : option fifo_stats :=
  old ← ar_get f (first f);
  ar_set f (first f)
    (mkStats (dadd (st_cpu old) (st_cpu x))
       (s64 (st_write old + st_write x)) (s64 (st_read old + st_read x))).

(** [fifo_stats_foreach]: the callback as a fold over a state. *)
Fixpoint fifo_foreach_loop {S} (n : nat) (f : fifo_stats) (i : Z) (fp : Stats -> S -> S) (s : S)
    : option S :=
  match n with
  | O => Some s
  | S n => if i <? size f then
             x ← fifo_stats_get f i; fifo_foreach_loop n f (i + 1) fp (fp x s)
           else Some s
  end.
Definition fifo_stats_foreach {S} (f : fifo_stats) (fp : Stats -> S -> S) (s : S) : option S :=
  fifo_foreach_loop (Z.to_nat (size f)) f 0 fp s.

(** The loop shared by [fifo_stats_sum] and [fifo_stats_avg]; [n] is a bound
    on the iterations left, [Z.to_nat size] is always enough. *)
Fixpoint fifo_sum_loop (n : nat) (f : fifo_stats) (i len : Z) (sum : Stats) : option Stats :=
  match n with
  | O => Some sum
  | S n =>
      if i <? size f then
        if len <=? i then Some sum
        else tmp ← fifo_stats_get f i; fifo_sum_loop n f (i + 1) len (sum_stats sum tmp)
      else Some sum
  end.

Definition fifo_stats_sum (f : fifo_stats) (len : Z) : option Stats :=
  fifo_sum_loop (Z.to_nat (size f)) f 0 len reset_stats.

Definition fifo_stats_avg (f : fifo_stats) (len : Z) : option Stats :=
  sum ← fifo_sum_loop (Z.to_nat (size f)) f 0 len reset_stats;
  let len := if size f <? len then size f else len in
  if len =? 0 then None
  else Some (mkStats (ddiv (st_cpu sum) (dof_Z len))
               (s64 (Z.quot (st_write sum) len)) (s64 (Z.quot (st_read sum) len))).

(** * The averages of a user ([push_stats], [refresh_stats]) *)

(** The three intervals of [struct governor_config], [unsigned] there and
    [int] as an argument of [fifo_stats_avg]. *)
Record intervals := mkIntervals { interval_short : Z; interval_mid : Z; interval_long : Z }.

Record samples := mkSamples {
  us_stats : fifo_stats; us_long_average : Stats; us_mid_average : Stats;
  us_short_average : Stats
}.

Definition COMPARE_MAX_3 (x y z : Z) : Z :=
  if y <? x then (if z <? x then x else z) else (if z <? y then y else z).

(** The part of [init_user_stats] that allocates the ring. *)
Definition init_samples (iv : intervals) : option samples :=
  f ← fifo_stats_init
        (s32 (COMPARE_MAX_3 (interval_long iv) (interval_mid iv) (interval_short iv)));
  Some (mkSamples f reset_stats reset_stats reset_stats).

(** The three averages, in the order of the code. *)
Definition average_all (iv : intervals) (f : fifo_stats) : option samples :=
  l ← fifo_stats_avg f (s32 (interval_long iv));
  m ← fifo_stats_avg f (s32 (interval_mid iv));
  s ← fifo_stats_avg f (s32 (interval_short iv));
  Some (mkSamples f l m s).

Definition push_stats (iv : intervals) (st : Stats) (us : samples) : option samples :=
  f ← fifo_stats_push (us_stats us) st; average_all iv f.

Definition refresh_stats (iv : intervals) (st : Stats) (us : samples) : option samples :=
  f ← fifo_stats_refresh_last (us_stats us) st; average_all iv f.

(** * Specification: a ring is a bounded history, newest sample first *)

Definition fifo_wf (f : fifo_stats) : Prop :=
  size f = Z.of_nat (length (ar f)) /\ 0 <= first f < size f.

Definition history (f : fifo_stats) : list Stats :=
  (drop (Z.to_nat (first f)) (ar f) ++ take (Z.to_nat (first f)) (ar f))%list.

Definition intervals_wf (iv : intervals) : Prop :=
  0 < interval_short iv < 2 ^ 31 /\ 0 < interval_mid iv < 2 ^ 31 /\ 0 < interval_long iv < 2 ^ 31.

(** Sums over a list of samples, in the order of the loop. *)
Definition sum_of (l : list Stats) : Stats := fold_left sum_stats l reset_stats.

(** * Lemmas *)

Lemma history_length f : length (history f) = length (ar f).
Proof. unfold history. rewrite length_app, length_drop, length_take. lia. Qed.

Lemma history_perm f : history f ≡ₚ ar f.
Proof. unfold history. by rewrite Permutation_app_comm, take_drop. Qed.

Lemma fifo_get_history f i : fifo_wf f -> 0 <= i < size f ->
  fifo_stats_get f i = history f !! Z.to_nat i.
Proof.
  intros [Hs Hf] Hi. unfold fifo_stats_get, history, ar_get.
  destruct (Z.leb_spec (size f) (first f + i)).
  - destruct (Z.ltb_spec (first f + i - size f) 0); [lia|].
    rewrite lookup_app_r by (rewrite length_drop; lia).
    rewrite length_drop, lookup_take_lt by lia. f_equal. lia.
  - destruct (Z.ltb_spec (first f + i) 0); [lia|].
    rewrite lookup_app_l by (rewrite length_drop; lia).
    rewrite lookup_drop. f_equal. lia.
Qed.

Lemma init_wf sz f : 0 < sz -> fifo_stats_init sz = Some f ->
  fifo_wf f /\ size f = sz /\ history f = replicate (Z.to_nat sz) reset_stats.
Proof.
  unfold fifo_stats_init. destruct (Z.ltb_spec sz 0); [done|]. intros H0 [= <-].
  unfold fifo_wf, history. simpl. rewrite length_replicate, drop_0, take_0, app_nil_r.
  split; [lia|done].
Qed.

Lemma ar_set_wf f i x f' : ar_set f i x = Some f' ->
  size f' = size f /\ first f' = first f /\ length (ar f') = length (ar f)
  /\ ar f' = <[Z.to_nat i := x]> (ar f).
Proof.
  unfold ar_set. destruct (_ || _); [done|]. intros [= <-]. simpl. by rewrite length_insert.
Qed.

Lemma fifo_push_some f x : fifo_wf f -> exists f', fifo_stats_push f x = Some f'.
Proof.
  intros [Hs Hf]. unfold fifo_stats_push, ar_set. simpl.
  destruct (Z.ltb_spec (first f - 1) 0); destruct (_ || _) eqn:E; eauto;
    apply orb_prop in E as [E|E]; bools; lia.
Qed.

(** A push drops the oldest sample and puts the new one in front. *)
Lemma fifo_push_history f x f' : fifo_wf f -> fifo_stats_push f x = Some f' ->
  fifo_wf f' /\ size f' = size f
  /\ history f' = x :: take (Z.to_nat (size f) - 1) (history f).
Proof.
  intros [Hs Hf] E. unfold fifo_stats_push in E. apply ar_set_wf in E as (Es & Ef & El & Ea).
  simpl in *. split; [split; [|destruct (Z.ltb_spec (first f - 1) 0)]; lia|].
  split; [lia|]. unfold history. rewrite Ef, Ea.
  destruct (Z.ltb_spec (first f - 1) 0).
  - assert (first f = 0) as -> by lia. rewrite drop_0, take_0, app_nil_r.
    replace (Z.to_nat (size f - 1)) with (length (ar f) - 1)%nat by lia.
    replace (Z.to_nat (size f) - 1)%nat with (length (ar f) - 1)%nat by lia.
    rewrite take_insert_ge by lia. rewrite drop_insert_ge by lia.
    destruct (nth_lookup_or_length (ar f) (length (ar f) - 1) reset_stats) as [Hn|Hn]; [|lia].
    rewrite (drop_S _ _ _ Hn), Nat.sub_diag. simpl. by rewrite drop_ge by lia.
  - replace (Z.to_nat (first f - 1)) with (Z.to_nat (first f) - 1)%nat by lia.
    set (k := Z.to_nat (first f)) in *.
    destruct (nth_lookup_or_length (ar f) (k - 1) reset_stats) as [Hn|Hn]; [|lia].
    rewrite take_insert_ge by lia. rewrite drop_insert_ge by lia.
    rewrite (drop_S _ _ _ Hn), Nat.sub_diag. simpl. f_equal.
    rewrite take_app, length_drop. replace (S (k - 1)) with k by lia.
    rewrite (take_ge (drop _ _)) by (rewrite length_drop; lia). f_equal.
    rewrite take_take. f_equal. lia.
Qed.

(** The loop sums the first [min len size] samples of the history. *)
Lemma fifo_sum_loop_spec n f i len acc : fifo_wf f -> 0 <= i ->
  size f - i <= Z.of_nat n ->
  fifo_sum_loop n f i len acc
  = Some (fold_left sum_stats
            (take (Z.to_nat (len - i)) (drop (Z.to_nat i) (history f))) acc).
Proof.
  intros Hw. revert i acc. induction n as [|n IH]; intros i acc Hi Hn; simpl.
  - rewrite drop_ge, take_nil by (rewrite history_length; destruct Hw; lia). done.
  - destruct (Z.ltb_spec i (size f)).
    + destruct (Z.leb_spec len i).
      * replace (Z.to_nat (len - i)) with 0%nat by lia. done.
      * rewrite fifo_get_history by (done || lia).
        destruct (lookup_lt_is_Some_2 (history f) (Z.to_nat i)) as [x Hx].
        { rewrite history_length. destruct Hw. lia. }
        rewrite Hx. simpl. rewrite IH by lia. rewrite (drop_S _ _ _ Hx).
        replace (Z.to_nat (len - i)) with (S (Z.to_nat (len - (i + 1)))) by lia.
        replace (Z.to_nat (i + 1)) with (S (Z.to_nat i)) by lia. done.
    + rewrite drop_ge, take_nil by (rewrite history_length; destruct Hw; lia). done.
Qed.

Lemma sum_of_read l acc : (forall x, x ∈ l -> 0 <= st_read x) -> 0 <= st_read acc ->
  st_read acc + foldr (fun x s => st_read x + s) 0 l < 2 ^ 63 ->
  st_read (fold_left sum_stats l acc) = st_read acc + foldr (fun x s => st_read x + s) 0 l.
Proof.
  revert acc. induction l as [|x l IH]; intros acc Hl Ha Hb; simpl in *; [lia|].
  assert (0 <= foldr (fun x s => st_read x + s) 0 l) as Hp.
  { clear -Hl. induction l as [|y l IH]; simpl; [lia|].
    assert (0 <= st_read y) by (apply Hl; set_solver).
    assert (0 <= foldr (fun x s => st_read x + s) 0 l); [|lia].
    apply IH. intros z Hz. apply Hl. set_solver. }
  assert (0 <= st_read x) by (apply Hl; set_solver).
  assert (st_read (sum_stats acc x) = st_read acc + st_read x) as E.
  { simpl. apply s64_id. unfold in_s64. lia. }
  rewrite IH; rewrite ?E; [lia| |lia|lia]. intros z Hz. apply Hl. set_solver.
Qed.

Lemma reads_bound l B : (forall x, x ∈ l -> 0 <= st_read x <= B) -> 0 <= B ->
  0 <= foldr (fun x s => st_read x + s) 0 l <= Z.of_nat (length l) * B.
Proof.
  intros H HB. induction l as [|x l IH]; cbn [foldr length]; [lia|].
  assert (0 <= st_read x <= B) by (apply H; set_solver).
  assert (0 <= foldr (fun x s => st_read x + s) 0 l <= Z.of_nat (length l) * B).
  { apply IH. intros y Hy. apply H. set_solver. }
  rewrite Nat2Z.inj_succ. lia.
Qed.

(** The functional behaviour of [fifo_stats_avg]. *)
Lemma fifo_avg_some f len : fifo_wf f -> 0 < len ->
  fifo_stats_avg f len
  = let n := Z.min len (size f) in
    let s := sum_of (take (Z.to_nat n) (history f)) in
    Some (mkStats (ddiv (st_cpu s) (dof_Z n)) (s64 (Z.quot (st_write s) n))
            (s64 (Z.quot (st_read s) n))).
Proof.
  intros Hw Hl. pose proof Hw as [Hs Hf].
  unfold fifo_stats_avg. rewrite fifo_sum_loop_spec by (done || lia). simpl.
  rewrite Z.sub_0_r, drop_0. unfold sum_of.
  destruct (Z.ltb_spec (size f) len).
  - replace (Z.min len (size f)) with (size f) by lia.
    destruct (Z.eqb_spec (size f) 0); [lia|].
    rewrite !take_ge by (rewrite history_length; lia). done.
  - replace (Z.min len (size f)) with len by lia.
    by destruct (Z.eqb_spec len 0); [lia|].
Qed.

Lemma fifo_avg_zero f : fifo_wf f -> fifo_stats_avg f 0 = None.
Proof.
  intros Hw. pose proof Hw as [Hs Hf]. unfold fifo_stats_avg.
  rewrite fifo_sum_loop_spec by (done || lia). simpl.
  by destruct (Z.ltb_spec (size f) 0); [lia|].
Qed.

Lemma average_all_some iv f : fifo_wf f -> intervals_wf iv ->
  exists us, average_all iv f = Some us /\ us_stats us = f.
Proof.
  intros Hw (Hs & Hm & Hl). unfold average_all.
  rewrite !s32_id by (unfold in_s32; lia).
  rewrite !fifo_avg_some by (done || lia). simpl. eauto.
Qed.

(** * Properties *)

(** C32: A new sample becomes the newest of the ring, the oldest is dropped when the ring is
    full, the order of the others is kept, and the computation of the averages does not fail
    when the intervals are positive. *)
Theorem push_stats_history (iv : intervals) (st : Stats) (us : samples) :
  fifo_wf (us_stats us) -> intervals_wf iv ->
  exists us', push_stats iv st us = Some us'
    /\ fifo_wf (us_stats us')
    /\ size (us_stats us') = size (us_stats us)
    /\ history (us_stats us')
       = st :: take (Z.to_nat (size (us_stats us)) - 1) (history (us_stats us)).
Proof.
  intros Hw Hiv. unfold push_stats.
  destruct (fifo_push_some (us_stats us) st Hw) as [f Ef]. rewrite Ef. simpl.
  destruct (fifo_push_history _ _ _ Hw Ef) as (Hw' & Hs & Hh).
  destruct (average_all_some iv f Hw' Hiv) as (us' & -> & E). exists us'. by rewrite E.
Qed.

Lemma push_stats_history_witness :
  let iv := mkIntervals 1 2 3 in
  let us := mkSamples (mkFifo [mkStats d0 1 2; mkStats d0 3 4; mkStats d0 5 6] 3 0)
              reset_stats reset_stats reset_stats in
  exists us', push_stats iv (mkStats d0 7 8) us = Some us'
    /\ fifo_wf (us_stats us') /\ size (us_stats us') = 3
    /\ history (us_stats us') = [mkStats d0 7 8; mkStats d0 1 2; mkStats d0 3 4].
Proof.
  intros iv us.
  exact (push_stats_history iv (mkStats d0 7 8) us
           ltac:(unfold fifo_wf; simpl; lia) ltac:(unfold intervals_wf; simpl; lia)).
Defined.

(** C33: The average of the read speed over the last len samples is their sum divided by
    their number, it does not overflow for samples up to a bound B that fits, and it lies
    between 0 and B. *)
Theorem fifo_avg_read_bounds (f : fifo_stats) (len B : Z) :
  fifo_wf f -> 0 < len -> (forall x, x ∈ ar f -> 0 <= st_read x <= B) ->
  0 <= B -> size f * B < 2 ^ 63 ->
  exists a, fifo_stats_avg f len = Some a /\ 0 <= st_read a <= B
    /\ st_read a
       = foldr (fun x s => st_read x + s) 0
           (take (Z.to_nat (Z.min len (size f))) (history f)) `quot` Z.min len (size f).
Proof.
  intros Hw Hl Hx HB Ho. pose proof Hw as [Hs Hf].
  rewrite fifo_avg_some by done. cbv zeta. eexists. split; [reflexivity|]. cbn [st_read].
  set (n := Z.min len (size f)). set (l := take (Z.to_nat n) (history f)).
  assert (Hin : forall x, x ∈ l -> 0 <= st_read x <= B).
  { intros x Hxl. apply Hx. subst l. apply elem_of_take in Hxl as (i & Hi & _).
    apply list_elem_of_lookup_2 in Hi. by rewrite history_perm in Hi. }
  assert (Hlen : Z.of_nat (length l) = n).
  { subst l n. rewrite length_take, history_length. lia. }
  pose proof (reads_bound l B Hin HB) as Hb. rewrite Hlen in Hb.
  assert (n * B < 2 ^ 63) by (apply Z.le_lt_trans with (size f * B); [|done]; subst n; nia).
  unfold sum_of. rewrite sum_of_read; [|intros x Hxl; apply Hin in Hxl; lia
    |done|change (st_read reset_stats) with 0; lia].
  change (st_read reset_stats) with 0. rewrite ?Z.add_0_l, Z.quot_div_nonneg by lia.
  assert (0 <= foldr (fun x s => st_read x + s) 0 l / n <= B).
  { split; [apply Z.div_pos; lia|]. apply Z.div_le_upper_bound; lia. }
  assert (B < 2 ^ 63) by nia.
  set (q := (_ / n)) in *. clearbody q. rewrite s64_id; [split; [lia|reflexivity]|]. unfold in_s64. lia.
Qed.

Lemma fifo_avg_read_bounds_witness :
  let f := mkFifo [mkStats d0 1 20; mkStats d0 3 40; mkStats d0 5 60] 3 1 in
  exists a, fifo_stats_avg f 2 = Some a /\ 0 <= st_read a <= 60 /\ st_read a = 50.
Proof.
  intros f.
  refine (fifo_avg_read_bounds f 2 60 _ _ _ _ _); try (simpl; lia).
  - unfold fifo_wf; simpl; lia.
  - intros x Hx. unfold f in Hx. simpl in Hx. rewrite !elem_of_cons, elem_of_nil in Hx.
    destruct Hx as [->|[->|[->|[]]]]; simpl; lia.
Defined.

(** A long interval of 0 in the configuration crashes the daemon. *)
Lemma push_stats_zero_interval_crashes (iv : intervals) (st : Stats) (us : samples) :
  fifo_wf (us_stats us) -> interval_long iv = 0 -> push_stats iv st us = None.
Proof.
  intros Hw E. unfold push_stats, average_all. rewrite E.
  destruct (fifo_push_some (us_stats us) st Hw) as [f Ef]. rewrite Ef.
  destruct (fifo_push_history _ _ _ Hw Ef) as (Hw' & _ & _).
  change (s32 0) with 0. simpl. by rewrite fifo_avg_zero.
Qed.
