(* ===== verification/TidTable.v ===== *)
(** The thread table of the daemon ([src/tid_table.c]): which MySQL thread
    serves which user with which counters, the per-user counters that
    collect the work of finished and running threads between two ticks, and
    the list of threads found dead. *)

From S2P Require Import Prelude CDouble CString Data FifoStats.
Open Scope Z_scope.

(** * State *)

Record tid_table := mkTid {
  t_username : string; t_cpu : Z; t_read : Z; t_write : Z;
  t_update_time : Z; t_naoseconds : Z; t_pid : Z; t_fd : Z
}.

Record Stat_counters := mkCounters { sc_s : Stats; sc_tm : double }.

(** [bad_tid_list] is [NULL], or a [GList] whose first node, made by
    [g_list_alloc], carries no pid. *)
Record tid_state := mkTidState {
  threads_list : gmap Z tid_table;
  user_counters_list : gmap string Stat_counters;
  bad_tid_list : option (list (option Z))
}.

Definition set_threads (m : gmap Z tid_table) (s : tid_state) : tid_state :=
  mkTidState m (user_counters_list s) (bad_tid_list s).
Definition set_counters (m : gmap string Stat_counters) (s : tid_state) : tid_state :=
  mkTidState (threads_list s) m (bad_tid_list s).
Definition set_bad (l : option (list (option Z))) (s : tid_state) : tid_state :=
  mkTidState (threads_list s) (user_counters_list s) l.

(** * The list of dead threads *)

Definition add_tid_to_bad_list (pid : Z) (s : tid_state) : tid_state :=
  let l := match bad_tid_list s with Some l => l | None => [None] end in
  set_bad (Some (l ++ [Some pid])%list) s.

Definition remove_tid_data (tid : Z) (s : tid_state) : tid_state :=
  set_threads (delete tid (threads_list s)) s.

Definition remove_tid_data_inner (pid : option Z) (s : tid_state) : tid_state :=
  match pid with Some p => remove_tid_data p s | None => s end.

Definition remove_tid_bad_from_list (s : tid_state) : tid_state :=
  match bad_tid_list s with
  | Some l => fold_left (fun st p => remove_tid_data_inner p st) l s
  | None => s
  end.

Definition remove_tid_bad_list (s : tid_state) : tid_state := set_bad None s.

(** * Threads *)

Definition init_tid_table (s : tid_state) : tid_state :=
  mkTidState ∅ ∅ (bad_tid_list s).

Definition free_tid_table (s : tid_state) : tid_state :=
  mkTidState ∅ ∅ (bad_tid_list s).

(** [LOAD_NEW_TID_STATS (x)]: [n] is the field of the message, [o] the field
    of the stored item. *)
Definition LOAD_NEW_TID_STATS (n o : Z) : Z := if n <? o then o else n.

Definition add_new_tid_data (tbl : client_data) (fd : Z) (s : tid_state) : tid_state :=
  let item :=
    match threads_list s !! m_tid tbl with
    | None =>
        mkTid (strlcpy_str (m_username tbl) USERNAMEMAXLEN)
          (m_cpu tbl) (m_read tbl) (m_write tbl)
          (m_update_time tbl) (m_naoseconds tbl) (m_pid tbl) fd
    | Some old =>
        mkTid (strlcpy_str (m_username tbl) USERNAMEMAXLEN)
          (LOAD_NEW_TID_STATS (m_cpu tbl) (t_cpu old))
          (LOAD_NEW_TID_STATS (m_read tbl) (t_read old))
          (LOAD_NEW_TID_STATS (m_write tbl) (t_write old))
          (m_update_time tbl) (m_naoseconds tbl) (m_pid tbl) fd
    end in
  set_threads (<[m_tid tbl := item]> (threads_list s)) s.

(** [now] is the reading of [clock_gettime]: seconds and nanoseconds. *)
Definition add_new_tid_data2 (now : Z * Z) (tid : Z) (tbl : tid_table) (s : tid_state) : tid_state :=
  let item :=
    match threads_list s !! tid with
    | None =>
        mkTid (strlcpy_str (t_username tbl) USERNAMEMAXLEN)
          (t_cpu tbl) (t_read tbl) (t_write tbl) (fst now) (snd now) (t_pid tbl) (t_fd tbl)
    | Some old =>
        mkTid (strlcpy_str (t_username tbl) USERNAMEMAXLEN)
          (LOAD_NEW_TID_STATS (t_cpu tbl) (t_cpu old))
          (LOAD_NEW_TID_STATS (t_read tbl) (t_read old))
          (LOAD_NEW_TID_STATS (t_write tbl) (t_write old))
          (fst now) (snd now) (t_pid tbl) (t_fd tbl)
    end in
  set_threads (<[tid := item]> (threads_list s)) s.

Definition get_tid_data (tid : Z) (s : tid_state) : option tid_table := threads_list s !! tid.

Definition func_remove (fd : Z) (key : Z) (item : tid_table) (s : tid_state) : tid_state :=
  if t_fd item =? fd then remove_tid_data key s else s.

Definition remove_tid_data_by_fd `{HashOrder} (fd : Z) (s : tid_state) : tid_state :=
  ht_foreach (threads_list s) (func_remove fd) s.

(** [proceed_tid_data (func, data)]: the callback runs on every thread, then
    the threads it reported dead are dropped. *)
Definition proceed_tid_data `{HashOrder} (func : Z -> tid_table -> tid_state -> tid_state)
    (s : tid_state) : tid_state :=
  let s := ht_foreach (threads_list s) func s in
  let s := remove_tid_bad_from_list s in
  remove_tid_bad_list s.

Definition get_tid_size (s : tid_state) : Z := Z.of_nat (base.size (threads_list s)).

Definition func_calc_threads (name : string) (key : Z) (item : tid_table) (n : Z) : Z :=
  if strcmp_eq (t_username item) name then s32 (n + 1) else n.

Definition get_cnt_threads `{HashOrder} (username : string) (s : tid_state) : Z :=
  ht_foreach (threads_list s)
    (func_calc_threads (strncpy_str username (USERNAMEMAXLEN - 1))) 0.

(** * Counters of a user *)

Definition increment_counters (username : string) (cpu read write : Z) (tm : double)
    (s : tid_state) : tid_state :=
  match user_counters_list s !! username with
  | Some item =>
      let st := sc_s item in
      set_counters (<[username := mkCounters
        (mkStats (dadd (st_cpu st) (dof_Z cpu)) (s64 (st_write st + write))
           (s64 (st_read st + read))) (sc_tm item)]> (user_counters_list s)) s
  | None =>
      set_counters (<[strlcpy_str username USERNAMEMAXLEN :=
        mkCounters (mkStats (dof_Z cpu) write read) tm]> (user_counters_list s)) s
  end.

(** A time stamp as the code computes it: [tv_sec + tv_nsec / SEC2NANO]. *)
Definition tm_of (t : Z * Z) : double := dadd (dof_Z (fst t)) (ddiv (dof_Z (snd t)) d1e9).

Definition reset_counters (now : Z * Z) (username : string) (s : tid_state) : tid_state :=
  match user_counters_list s !! username with
  | Some item =>
      set_counters (<[username := mkCounters (mkStats d0 0 0) (tm_of now)]>
                      (user_counters_list s)) s
  | None => s
  end.

(** * Differences ([calc_stats.c]) *)

(** [clac_stats_difference_inner_add_to_counters]: the work of a thread
    since the sample [old] goes to the counters of its user; a delta over
    more than a second is scaled to one second. *)
Definition counters_delta (new old : Z) : Z := if old <=? new then s64 (new - old) else 0.

Definition clac_stats_difference_inner_add_to_counters (now : Z * Z)
    (cpu read write : Z) (old : tid_table) (s : tid_state) : tid_state :=
  let old_tm := tm_of (t_update_time old, t_naoseconds old) in
  let new_tm := tm_of now in
  if dltb old_tm new_tm then
    let tmp_cpu := counters_delta cpu (t_cpu old) in
    let tmp_read := counters_delta read (t_read old) in
    let tmp_write := counters_delta write (t_write old) in
    if dltb d1 (dsub new_tm old_tm) then
      let scaled v := to_ll (dfloor (ddiv (dof_Z v) (dsub new_tm old_tm))) in
      increment_counters (t_username old) (scaled tmp_cpu) (scaled tmp_read) (scaled tmp_write)
        old_tm s
    else increment_counters (t_username old) tmp_cpu tmp_read tmp_write old_tm s
  else increment_counters (t_username old) 0 0 0 old_tm s.

Definition clac_stats_difference_add_to_counters (now : Z * Z) (new : client_data)
    (old : tid_table) (s : tid_state) : tid_state :=
  clac_stats_difference_inner_add_to_counters now (m_cpu new) (m_read new) (m_write new) old s.

(** Speeds from a difference of counters; [clk_tck] is
    [sysconf (_SC_CLK_TCK)]. *)
Section speeds.
Context (clk_tck : Z).

Definition at_least_1 (tm : double) : double := if dltb tm d1 then d1 else tm.

Definition speed_bytes (v : Z) (tm : double) : Z := to_ll (dceil (ddiv (dof_Z v) tm)).

Definition clac_stats_difference_inner (now : Z * Z) (cpu read write : Z) (old : tid_table)
    : Stats :=
  let old_tm := tm_of (t_update_time old, t_naoseconds old) in
  let new_tm := tm_of now in
  if dltb old_tm new_tm then
    let tm := at_least_1 (dsub new_tm old_tm) in
    mkStats
      (if t_cpu old <=? cpu
       then ddiv (ddiv (dof_Z (s64 (cpu - t_cpu old))) tm) (dof_Z clk_tck) else d0)
      (if t_write old <=? write then speed_bytes (s64 (write - t_write old)) tm else 0)
      (if t_read old <=? read then speed_bytes (s64 (read - t_read old)) tm else 0)
  else reset_stats.

Definition clac_stats_difference (now : Z * Z) (new : client_data) (old : tid_table) : Stats :=
  clac_stats_difference_inner now (m_cpu new) (m_read new) (m_write new) old.

Definition clac_stats_difference_inner_from_counter (cpu read write : Z)
    (tm_in new_tm : double) : Stats :=
  let tm := dsub new_tm tm_in in
  if dltb d0 tm then
    let tm := at_least_1 tm in
    mkStats
      (if 0 <? cpu then ddiv (ddiv (dof_Z cpu) tm) (dof_Z clk_tck) else d0)
      (if 0 <=? write then speed_bytes write tm else 0)
      (if 0 <=? read then speed_bytes read tm else 0)
  else reset_stats.
End speeds.

(** * Lemmas *)

Lemma LOAD_NEW_TID_STATS_max n o : LOAD_NEW_TID_STATS n o = Z.max n o.
Proof. unfold LOAD_NEW_TID_STATS. destruct (Z.ltb_spec n o); lia. Qed.

Lemma add_bad_eq p s : bad_tid_list (add_tid_to_bad_list p s)
  = Some ((match bad_tid_list s with Some l => l | None => [None] end) ++ [Some p])%list.
Proof. done. Qed.

Lemma fold_remove_threads l s :
  threads_list (fold_left (fun st p => remove_tid_data_inner p st) l s)
  = filter (fun kv : Z * tid_table => Some kv.1 ∉ l) (threads_list s)
  /\ user_counters_list (fold_left (fun st p => remove_tid_data_inner p st) l s)
     = user_counters_list s.
Proof.
  revert s. induction l as [|p l IH]; intros s; simpl.
  - split; [|done]. symmetry. apply map_filter_id. set_solver.
  - destruct (IH (remove_tid_data_inner p s)) as [-> ->]. split; [|by destruct p].
    apply map_eq. intros k. apply option_eq. intros v.
    rewrite !map_lookup_filter_Some. simpl. destruct p as [p|]; simpl.
    + rewrite lookup_delete_Some. set_solver.
    + set_solver.
Qed.

(** Exactly the threads of a descriptor are dropped. *)
Lemma remove_tid_data_by_fd_exact `{HashOrder} (fd : Z) (s : tid_state) :
  threads_list (remove_tid_data_by_fd fd s)
    = filter (fun kv : Z * tid_table => t_fd kv.2 <> fd) (threads_list s)
  /\ user_counters_list (remove_tid_data_by_fd fd s) = user_counters_list s.
Proof.
  set (m := threads_list s).
  enough (forall k, (k ∈ dom m ->
      threads_list (remove_tid_data_by_fd fd s) !! k
      = filter (fun kv : Z * tid_table => t_fd kv.2 <> fd) m !! k)
    /\ (k ∉ dom m -> threads_list (remove_tid_data_by_fd fd s) !! k = m !! k)
    /\ user_counters_list (remove_tid_data_by_fd fd s) = user_counters_list s) as G.
  { split; [|apply (G 0)]. apply map_eq. intros k. destruct (G k) as (G1 & G2 & _).
    destruct (decide (k ∈ dom m)) as [Hd|Hd]; [by apply G1|].
    rewrite G2 by done. apply not_elem_of_dom in Hd. rewrite Hd.
    symmetry. apply map_lookup_filter_None. by left. }
  intros k. unfold remove_tid_data_by_fd. fold m.
  apply (ht_foreach_ind (func_remove fd) (fun done s' =>
    (k ∈ done -> threads_list s' !! k
       = filter (fun kv : Z * tid_table => t_fd kv.2 <> fd) m !! k)
    /\ (k ∉ done -> threads_list s' !! k = m !! k)
    /\ user_counters_list s' = user_counters_list s)).
  - set_solver.
  - intros done k' v st Hv Hnd (I1 & I2 & I3). unfold func_remove.
    destruct (decide (k = k')) as [->|Hk].
    + split_and!; [intros _|set_solver|by destruct (t_fd v =? fd)].
      destruct (Z.eqb_spec (t_fd v) fd) as [E|E]; simpl.
      * rewrite lookup_delete_eq. symmetry. apply map_lookup_filter_None. right.
        intros w Hw. simplify_eq. simpl. naive_solver.
      * rewrite I2, Hv by done. symmetry. by apply map_lookup_filter_Some.
    + split_and!.
      * intros Hin. destruct (t_fd v =? fd); simpl; [rewrite lookup_delete_ne by done|];
          apply I1; set_solver.
      * intros Hin. destruct (t_fd v =? fd); simpl; [rewrite lookup_delete_ne by done|];
          apply I2; set_solver.
      * by destruct (t_fd v =? fd).
Qed.

(** * Properties *)

(** Storing a report of a thread never lowers the counters that are kept for it, and
    changes no other thread. *)
Lemma add_new_tid_data_monotone (tbl : client_data) (fd : Z) (s : tid_state) (k : Z) :
  match threads_list s !! k, threads_list (add_new_tid_data tbl fd s) !! k with
  | Some o, Some n => t_cpu o <= t_cpu n /\ t_read o <= t_read n /\ t_write o <= t_write n
                      /\ (k <> m_tid tbl -> n = o)
  | Some _, None => False
  | None, Some n => k = m_tid tbl /\ t_cpu n = m_cpu tbl /\ t_fd n = fd
  | None, None => k <> m_tid tbl
  end.
Proof.
  unfold add_new_tid_data. simpl. destruct (decide (k = m_tid tbl)) as [->|Hk].
  - rewrite lookup_insert_eq. destruct (threads_list s !! m_tid tbl) as [o|]; simpl; [|done].
    rewrite !LOAD_NEW_TID_STATS_max. split_and!; (lia || done).
  - rewrite lookup_insert_ne by done.
    destruct (threads_list s !! k); [split_and!; (lia || done)|done].
Qed.

(** When a thread reports, its user is charged with the work done since the previous
    report: the bytes read and written since then, never a negative amount, are added to the
    counters of the user, without losing what was there. *)
Lemma counters_add_delta (now : Z * Z) (cpu read write : Z) (old : tid_table)
    (s : tid_state) (c : Stat_counters) :
  let dt := dsub (tm_of now) (tm_of (t_update_time old, t_naoseconds old)) in
  user_counters_list s !! t_username old = Some c ->
  dltb (tm_of (t_update_time old, t_naoseconds old)) (tm_of now) = true ->
  dltb d1 dt = false ->
  in_s64 (read - t_read old) -> in_s64 (write - t_write old) ->
  exists c',
    user_counters_list (clac_stats_difference_inner_add_to_counters now cpu read write old s)
      = <[t_username old := c']> (user_counters_list s)
    /\ st_read (sc_s c') = s64 (st_read (sc_s c) + Z.max 0 (read - t_read old))
    /\ st_write (sc_s c') = s64 (st_write (sc_s c) + Z.max 0 (write - t_write old))
    /\ sc_tm c' = sc_tm c.
Proof.
  intros dt Hc Ht H1 Hr Hw. unfold clac_stats_difference_inner_add_to_counters.
  rewrite Ht. fold dt. rewrite H1. unfold increment_counters. rewrite Hc. simpl.
  eexists. split; [reflexivity|]. simpl. unfold counters_delta.
  destruct (Z.leb_spec (t_read old) read), (Z.leb_spec (t_write old) write);
    rewrite ?(s64_id (_ - _)) by done; split_and!; try done; f_equal; lia.
Qed.

(** The speeds computed from the counters of a user are never negative: the processor
    load is not below zero, and the read and write speeds are not negative unless the conversion
    from double is out of range. *)
Lemma speed_never_negative (clk_tck cpu read write : Z) (tm_in new_tm : double) :
  let st := clac_stats_difference_inner_from_counter clk_tck cpu read write tm_in new_tm in
  0 < clk_tck ->
  dltb (st_cpu st) d0 = false
  /\ (0 <= st_read st \/ st_read st = - 2 ^ 63) /\ (0 <= st_write st \/ st_write st = - 2 ^ 63).
Proof.
  intros st Hc.
  assert (Hb : forall v tm, 0 <= v -> dsign_pos tm = true ->
    0 <= speed_bytes v tm \/ speed_bytes v tm = - 2 ^ 63).
  { intros v tm Hv Htm. unfold speed_bytes, to_ll.
    destruct (dceil _) as [z|] eqn:E; [|by right].
    apply dceil_nonneg in E; [|by auto with gov].
    destruct (_ && _); [by left|by right]. }
  subst st. unfold clac_stats_difference_inner_from_counter.
  destruct (dltb d0 (dsub new_tm tm_in)) eqn:E; [|simpl; split_and!; auto; left; lia].
  assert (Htm : dsign_pos (at_least_1 (dsub new_tm tm_in)) = true).
  { unfold at_least_1. destruct (dltb _ d1); [done|].
    destruct (dsub new_tm tm_in) as [[]|[]| |[] ? ?]; simpl in E; done. }
  simpl. split_and!.
  - destruct (Z.ltb_spec 0 cpu); [|done]. apply sign_not_lt_zero.
    apply ddiv_sign; [|apply dof_Z_sign; lia]. apply ddiv_sign; [apply dof_Z_sign; lia|done].
  - destruct (Z.leb_spec 0 read); [by apply Hb|left; lia].
  - destruct (Z.leb_spec 0 write); [by apply Hb|left; lia].
Qed.
