(* ===== verification/ProcFs.v ===== *)
(** The readers of [/proc] ([src/parce_proc_fs.c]), which the MySQL side uses
    to measure its threads, and the line reader of [src/getsysinfo.c].  The
    contents of the files are arguments: a text without NUL, or the step
    that failed. *)

From S2P Require Import Prelude CDouble CString.
Open Scope string_scope.
Open Scope Z_scope.

Inductive file_result := OpenFails | ReadFails | Content (text : string).

Definition TRY_FILE_TO_BUFFER_OK_IOSTAT : Z := 0.
Definition TRY_FILE_TO_BUFFER_OPEN_IOSTAT : Z := -1.
Definition TRY_FILE_TO_BUFFER_READ_IOSTAT : Z := -2.

Definition BUFSIZ : Z := 8192.

(** * Data *)

Record dbgov_iostat := mkIo {
  rchar : Z; wchar : Z; read_bytes : Z; write_bytes : Z; cancelled_write_bytes : Z
}.
Record dbgov_cpu := mkCpu {
  c_total : Z; c_user : Z; c_nice : Z; c_sys : Z; c_idle : Z; c_iowait : Z; c_irq : Z;
  c_softirq : Z; c_frequency : Z
}.
Record dbgov_proc_time := mkTime {
  rtime : Z; utime : Z; stime : Z; cutime : Z; cstime : Z; it_real_value : Z; p_frequency : Z
}.
Record dbgov_mem := mkMem {
  m_total : Z; m_used : Z; m_free : Z; m_shared : Z; m_buffer : Z; m_cached : Z; m_user : Z
}.
Record dbgov_proc_mem := mkProcMem {
  pm_size : Z; pm_vsize : Z; pm_resident : Z; pm_share : Z; pm_rss : Z; pm_rss_rlim : Z
}.

(** * Tokens *)

Definition next_token (p : string) : string := skip_spaces p.

Fixpoint skip_word (p : string) : string :=
  match p with
  | String c p' => if isspace c then p else skip_word p'
  | EmptyString => p
  end.
Definition skip_token (p : string) : string := next_token (skip_word (next_token p)).

Fixpoint skip_multiple_token (count : nat) (p : string) : string :=
  match count with O => p | S n => skip_multiple_token n (skip_token p) end.

(** The text after the last [')'], which ends the name of the command. *)
Fixpoint proc_stat_after_cmd (p : string) : option string :=
  match p with
  | EmptyString => None
  | String c p' =>
      match proc_stat_after_cmd p' with
      | Some r => Some r
      | None => if Ascii.eqb c ")" then Some p' else None
      end
  end.

(** * The kernel version *)

(** [stat ("/sys")]: [None] when it fails, or whether it is a directory. *)
Definition file_exists (st : option bool) : Z :=
  match st with Some true => 1 | _ => 0 end.

Definition LINUX_VERSION_CODE (x y z : Z) : Z := u32 (65536 * x + 256 * y + z).

(** One [%u] of a [sscanf], with the text left. *)
Definition scan_u (s : string) : option (Z * string) :=
  let '(neg, t) := scan_sign (skip_spaces s) in
  if has_digit 10 t then
    let '(v, r) := scan_digits 10 t 0 in
    Some (u32 (if 2 ^ 64 <=? v then 2 ^ 64 - 1 else if neg then - v else v), r)
  else None.

Definition after_dot (s : string) : option string :=
  match s with
  | String c r => if Ascii.eqb c "." then Some r else None
  | EmptyString => None
  end.

(** [sscanf (release, "%u.%u.%u", &x, &y, &z)] with the defaults 0. *)
Definition scan_release (release : string) : Z * Z * Z :=
  match scan_u release with
  | None => (0, 0, 0)
  | Some (x, r) =>
      match r ← after_dot r; scan_u r with
      | None => (x, 0, 0)
      | Some (y, r) =>
          match r ← after_dot r; scan_u r with
          | None => (x, y, 0)
          | Some (z, _) => (x, y, z)
          end
      end
  end.

(** The version stored and the result; [uname] is [None] when it fails. *)
Definition set_linux_version (uname : option string) (sys : option bool) (os_version_code : Z)
    : Z * Z :=
  match uname with
  | None => (os_version_code, -1)
  | Some release =>
      let '(x, y, z) := scan_release release in
      if (LINUX_VERSION_CODE 2 6 0 <=? LINUX_VERSION_CODE x y z) && (file_exists sys =? 0)
      then (os_version_code, -1)
      else (LINUX_VERSION_CODE x y z, 0)
  end.

(** The number of processors, the version and the result. *)
Definition dbgov_init (nprocessors : Z) (uname : option string) (sys : option bool)
    (os_version_code : Z) : Z * Z * Z :=
  let smp_num_cpus := if nprocessors <? 1 then 1 else nprocessors in
  let '(v, rc) := set_linux_version uname sys os_version_code in
  (smp_num_cpus, v, rc).

Definition get_cpu_num (smp_num_cpus : Z) : Z := smp_num_cpus.

(** * Reading *)

Definition try_file_to_buffer (f : file_result) : string * Z :=
  match f with
  | OpenFails => ("", TRY_FILE_TO_BUFFER_OPEN_IOSTAT)
  | ReadFails => ("", TRY_FILE_TO_BUFFER_READ_IOSTAT)
  | Content text => (prefix_n (BUFSIZ - 1) text, TRY_FILE_TO_BUFFER_OK_IOSTAT)
  end.

(** The number after [key]; a [k] or an [M] anywhere behind it is its unit. *)
Definition get_scaled_iostat (buffer key : string) : Z :=
  match strstr buffer key with
  | None => 0
  | Some ptr =>
      let '(value, next) := strtoull0 (skip_n (strlen key) ptr) in
      match strchr next "k" with
      | Some _ => u64 (value * 1024)
      | None => match strchr next "M" with
                | Some _ => u64 (value * (1024 * 1024))
                | None => value
                end
      end
  end.

Definition io_stat_reset : dbgov_iostat := mkIo 0 0 0 0 0.

Definition get_io_stat (io : file_result) : dbgov_iostat * Z :=
  let '(buffer, res) := try_file_to_buffer io in
  if res =? TRY_FILE_TO_BUFFER_OK_IOSTAT then
    let w := s64 (get_scaled_iostat buffer "write_bytes:") in
    let c := s64 (get_scaled_iostat buffer "cancelled_write_bytes:") in
    (mkIo (s64 (get_scaled_iostat buffer "rchar:")) (s64 (get_scaled_iostat buffer "wchar:"))
       (s64 (get_scaled_iostat buffer "read_bytes:"))
       (if c <=? w then s64 (w - c) else 0) c, 0)
  else (io_stat_reset, -2).

Definition get_cpu (os_version_code : Z) (stat : file_result) : dbgov_cpu :=
  let '(buffer, res) := try_file_to_buffer stat in
  if res =? TRY_FILE_TO_BUFFER_OK_IOSTAT then
    let p := skip_token buffer in
    let '(user, p) := strtoull0 p in
    let '(nice, p) := strtoull0 p in
    let '(sys, p) := strtoull0 p in
    let '(idle, p) := strtoull0 p in
    let total := u64 (user + nice + sys + idle) in
    if LINUX_VERSION_CODE 2 6 0 <=? os_version_code then
      let '(iowait, p) := strtoull0 p in
      let '(irq, p) := strtoull0 p in
      let '(softirq, p) := strtoull0 p in
      mkCpu (u64 (total + (iowait + irq + softirq))) user nice sys idle iowait irq softirq 100
    else mkCpu total user nice sys idle 0 0 0 100
  else mkCpu 0 0 0 0 0 0 0 0 0.

Definition get_proc_time (stat : file_result) : dbgov_proc_time * Z :=
  let zero := mkTime 0 0 0 0 0 0 0 in
  let '(buffer, res) := try_file_to_buffer stat in
  if res =? TRY_FILE_TO_BUFFER_OK_IOSTAT then
    match proc_stat_after_cmd buffer with
    | None => (zero, -1)
    | Some p =>
        let p := skip_multiple_token 11 p in
        let '(ut, p) := strtoull0 p in
        let '(st, p) := strtoull0 p in
        let '(cut, p) := strtoull0 p in
        let '(cst, p) := strtoull0 p in
        let p := skip_multiple_token 3 p in
        let '(itv, p) := strtoull0 p in
        (mkTime (u64 (ut + st)) ut st cut cst itv 100, 0)
    end
  else (zero, -2).

Definition get_mem (meminfo : file_result) : dbgov_mem :=
  let '(buffer, res) := try_file_to_buffer meminfo in
  if res =? TRY_FILE_TO_BUFFER_OK_IOSTAT then
    let total := get_scaled_iostat buffer "MemTotal:" in
    let free := get_scaled_iostat buffer "MemFree:" in
    let bufs := get_scaled_iostat buffer "Buffers:" in
    let cached := get_scaled_iostat buffer "Cached:" in
    mkMem total (u64 (total - free)) free 0 bufs cached (u64 (total - free - cached - bufs))
  else mkMem 0 0 0 0 0 0 0.

Definition get_proc_mem (pagesize : Z) (stat statm : file_result) : dbgov_proc_mem :=
  let zero := mkProcMem 0 0 0 0 0 0 in
  let '(buffer, res) := try_file_to_buffer stat in
  if res =? TRY_FILE_TO_BUFFER_OK_IOSTAT then
    match proc_stat_after_cmd buffer with
    | None => zero
    | Some p =>
        let p := skip_multiple_token 20 p in
        let '(vsize, p) := strtoull0 p in
        let '(rss, p) := strtoull0 p in
        let '(rlim, p) := strtoull0 p in
        let '(buffer, res) := try_file_to_buffer statm in
        let '(size, resident, share) :=
          if res =? TRY_FILE_TO_BUFFER_OK_IOSTAT then
            let '(size, p) := strtoull0 buffer in
            let '(resident, p) := strtoull0 p in
            let '(share, p) := strtoull0 p in (size, resident, share)
          else (0, 0, 0) in
        mkProcMem (u64 (size * pagesize)) vsize (u64 (resident * pagesize))
          (u64 (share * pagesize)) (u64 (rss * pagesize)) rlim
    end
  else zero.

(** * [getsysinfo.c] *)

Fixpoint chomp (s : string) : string :=
  match s with
  | EmptyString => EmptyString
  | String c s => if Ascii.eqb c "010" || Ascii.eqb c "013" then EmptyString
                  else String c (chomp s)
  end.

(** [fgets]: at most [n] characters, to the end of the line; [None] at the
    end of the file. *)
Fixpoint take_line (n : nat) (s : string) : string * string :=
  match n, s with
  | S n, String c s =>
      if Ascii.eqb c "010" then (String c "", s)
      else let '(l, r) := take_line n s in (String c l, r)
  | _, _ => ("", s)
  end.
Definition fgets (n : nat) (s : string) : option (string * string) :=
  match s with EmptyString => None | _ => Some (take_line n s) end.

Definition GETSYSINFO_MAXFILECONTENT : nat := 4096.

(** [None] when the file does not open. *)
Definition getloadavggov (stat : option string) : string :=
  match stat with
  | None => ""
  | Some text => match fgets (GETSYSINFO_MAXFILECONTENT - 1) text with
                 | Some (l, _) => chomp l
                 | None => ""
                 end
  end.

(** The third line of the output, or what there is of it: [feof] holds once
    a line without newline was read to the end. *)
Definition hit_eof (l rest : string) : bool :=
  String.eqb rest "" && match strchr l "010" with Some _ => false | None => true end.
Fixpoint vmstat_loop (fuel : nat) (vmstat_counter : Z) (text : string) : string :=
  match fuel with
  | O => ""
  | S fuel =>
      match fgets (GETSYSINFO_MAXFILECONTENT - 1) text with
      | None => ""
      | Some (l, rest) =>
          if vmstat_counter + 1 =? 3 then l
          else if hit_eof l rest then l
          else vmstat_loop fuel (vmstat_counter + 1) rest
      end
  end.
Definition getvmstat (stat : option string) : string :=
  match stat with
  | None => ""
  | Some text => chomp (vmstat_loop 3 0 text)
  end.

Example getvmstat_third_line :
  getvmstat (Some ("a" +:+ String "010" ("b" +:+ String "010" ("c" +:+ String "010" "d")))) = "c".
Proof. reflexivity. Qed.

(** * Lemmas *)

(** A search steps over a number when its key does not start with a digit. *)
Lemma strstr_digits k key d s : all_digits d = true -> isdigit k = false ->
  strstr (d +:+ s) (String k key) = strstr s (String k key).
Proof.
  intros Hd Hk. induction d as [|a d IH]; [done|]. rewrite append_cons. simpl in Hd.
  apply andb_prop in Hd as [Ha Hd]. cbn [strstr String.prefix].
  destruct (ascii_dec k a) as [->|]; [congruence|]. by apply IH.
Qed.

Lemma strstr_here key s : strstr (key +:+ s) key = Some (key +:+ s).
Proof.
  assert (String.prefix key (key +:+ s) = true) as E.
  { induction key as [|c key IH]; [by destruct s|]. rewrite append_cons. simpl.
    by destruct (ascii_dec c c). }
  destruct key; cbn [strstr] in *.
  - rewrite append_nil_l. by destruct s.
  - rewrite append_cons in *. cbn [strstr]. by rewrite E.
Qed.

(** A printed positive number does not start with the zero of an octal one. *)
Lemma dec_digits_first_pos fuel n : 0 < n < 10 ^ Z.of_nat fuel ->
  exists d s, 0 < d < 10 /\ dec_digits fuel n = String (chr (48 + d)) s.
Proof.
  revert n. induction fuel as [|f IH]; intros n Hn; [simpl in Hn; lia|].
  rewrite Nat2Z.inj_succ, Z.pow_succ_r in Hn by lia. cbn [dec_digits].
  destruct (Z.ltb_spec n 10); [exists n, ""; split; [lia|done]|].
  destruct (IH (n / 10)) as (d & s & Hd & ->); [|by exists d, (s +:+ String (chr (48 + n mod 10)) "")].
  split; [apply Z.div_str_pos|apply Z.div_lt_upper_bound]; lia.
Qed.

Lemma space_char c : isspace c = true ->
  (forall b, b <= 16 -> digit_val b c = None) /\ Ascii.eqb (tolower c) "x" = false.
Proof.
  intros Hc. assert (forall v, 99 <= v -> forall b, b <= 16 -> (if v <? b then Some v else None) = None)
    as G by (intros v Hv b Hb; destruct (Z.ltb_spec v b); [lia|done]).
  destruct c as [[] [] [] [] [] [] [] []]; try discriminate Hc; (split; [by apply G|done]).
Qed.

Lemma no_digit_space b s : isspace (first_char s) = true -> b <= 16 -> has_digit b s = false.
Proof.
  destruct s as [|c s]; [done|]. simpl. intros Hc Hb. by rewrite (proj1 (space_char c Hc) b Hb).
Qed.

Lemma scan_stop b s acc : has_digit b s = false -> scan_digits b s acc = (acc, s).
Proof. destruct s as [|c s]; [done|]. simpl. by destruct (digit_val b c). Qed.

(** [strtoull] reads back a printed number that white space follows. *)
Lemma strtoull0_dec p n rest : 0 <= n < 2 ^ 64 -> isspace (first_char rest) = true ->
  skip_spaces p = dec_nat n +:+ rest -> strtoull0 p = (n, rest).
Proof.
  intros Hn Hr Hp. unfold strtoull0. rewrite Hp.
  pose proof (scan_stop 10 rest n (no_digit_space 10 rest Hr ltac:(lia))) as H10.
  pose proof (scan_dec_nat n rest ltac:(lia)) as Hs. rewrite H10 in Hs.
  destruct (Z.eq_dec n 0) as [->|Hpos].
  - change (dec_nat 0) with "0". rewrite append_cons, append_nil_l.
    destruct rest as [|c rest]; [done|].
    cbn [first_char] in Hr. destruct (space_char c Hr) as [Hd Hx].
    cbn -[scan_digits digit_val tolower]. rewrite Hx. cbn [andb has_digit scan_digits].
    change (digit_val 8 "0") with (Some 0). cbn [scan_digits]. by rewrite (Hd 8) by lia.
  - destruct (dec_digits_first_pos (S (Z.to_nat (Z.log2 n))) n) as (d & s & Hd & E);
      [split; [lia|apply dec_fuel; lia]|]. unfold dec_nat in *. rewrite E in *. rewrite append_cons in *.
    destruct (digit_not_special d ltac:(lia)) as (H1 & H2 & H3 & _).
    unfold scan_sign. rewrite H2, H3.
    assert (Ascii.eqb (chr (48 + d)) "0" = false) as E0.
    { assert (d = 1 \/ d = 2 \/ d = 3 \/ d = 4 \/ d = 5 \/ d = 6 \/ d = 7 \/ d = 8 \/ d = 9) as F by lia.
      by repeat destruct F as [->|F]; subst. }
    assert (has_digit 10 (String (chr (48 + d)) (s +:+ rest)) = true) as Ed
      by (simpl; by rewrite digit_val_chr by lia).
    destruct (s +:+ rest) as [|x r] eqn:Er; rewrite E0, Ed, Hs.
    all: destruct (Z.leb_spec (2 ^ 64) n); [lia|]; by rewrite u64_id by (unfold in_u64; lia).
Qed.

Lemma skip_spaces_dec n rest : 0 <= n ->
  skip_spaces (dec_nat n +:+ rest) = dec_nat n +:+ rest.
Proof.
  intros Hn. destruct (dec_nat_first n Hn) as (d & s & Hd & ->). rewrite append_cons. simpl.
  by destruct (digit_not_special d Hd) as (-> & _).
Qed.

Lemma skip_spaces_idem p : skip_spaces (skip_spaces p) = skip_spaces p.
Proof. induction p as [|c p IH]; [done|]. simpl. destruct (isspace c) eqn:E; [done|]. simpl. by rewrite E. Qed.

(** ** Fields separated by spaces *)

Definition word (w : string) : Prop :=
  w <> "" /\ Forall (fun c => isspace c = false) (list_ascii_of_string w).

Fixpoint fields (l : list string) (rest : string) : string :=
  match l with [] => rest | w :: l => " " +:+ w +:+ fields l rest end.

Lemma fields_space l rest : isspace (first_char rest) = true ->
  isspace (first_char (fields l rest)) = true.
Proof. by destruct l. Qed.

Lemma skip_word_app w s : Forall (fun c => isspace c = false) (list_ascii_of_string w) ->
  isspace (first_char s) = true -> skip_word (w +:+ s) = s.
Proof.
  intros Hw Hs. induction w as [|c w IH]; simpl in Hw.
  - rewrite append_nil_l. destruct s as [|c s]; [done|]. simpl in *. by rewrite Hs.
  - apply list.Forall_cons in Hw as [Hc Hw]. rewrite append_cons. simpl. rewrite Hc. by apply IH.
Qed.

Lemma skip_token_field w s p : word w -> isspace (first_char s) = true ->
  next_token p = next_token (" " +:+ w +:+ s) -> skip_token p = next_token s.
Proof.
  intros [Hne Hw] Hs Hp. unfold skip_token. rewrite Hp.
  assert (next_token (" " +:+ w +:+ s) = w +:+ s) as ->.
  { rewrite append_cons, append_nil_l. destruct w as [|c w]; [done|]. rewrite append_cons. simpl in Hw.
    apply list.Forall_cons in Hw as [Hc _]. unfold next_token. simpl. by rewrite Hc. }
  by rewrite skip_word_app.
Qed.

Lemma skip_fields l rest p : Forall word l -> isspace (first_char rest) = true ->
  next_token p = next_token (fields l rest) ->
  next_token (skip_multiple_token (length l) p) = next_token rest.
Proof.
  revert p. induction l as [|w l IH]; intros p Hl Hr Hp; [done|].
  apply list.Forall_cons in Hl as [Hw Hl]. cbn [length skip_multiple_token].
  apply IH; [done|done|]. cbn [fields] in Hp.
  rewrite (skip_token_field w (fields l rest) p Hw (fields_space l rest Hr) Hp).
  apply skip_spaces_idem.
Qed.

Lemma after_cmd_last pre s : has_char ")" s = false -> proc_stat_after_cmd (pre +:+ ")" +:+ s) = Some s.
Proof.
  intros Hs. assert (proc_stat_after_cmd s = None) as E.
  { induction s as [|c s IH]; [done|]. simpl in *. apply orb_false_elim in Hs as [-> Hs]. by rewrite IH. }
  induction pre as [|c pre IH].
  - rewrite append_nil_l, append_cons, append_nil_l. simpl. by rewrite E.
  - rewrite (append_cons c pre). simpl. by rewrite IH.
Qed.

(** ** The file [io] of a task, as the kernel prints it *)

Definition newline : string := String "010" EmptyString.
Definition io_line (key : string) (n : Z) (rest : string) : string :=
  key +:+ " " +:+ dec_nat n +:+ newline +:+ rest.
Definition io_text (r w scr scw rb wb cb : Z) : string :=
  io_line "rchar:" r (io_line "wchar:" w (io_line "syscr:" scr (io_line "syscw:" scw
    (io_line "read_bytes:" rb (io_line "write_bytes:" wb
       (io_line "cancelled_write_bytes:" cb "")))))).

(** Its length. *)
Lemma io_line_len key n rest m : 0 <= n < 2 ^ 63 -> strlen rest <= m - (strlen key + 21) ->
  strlen (io_line key n rest) <= m.
Proof.
  intros Hn Hm. pose proof (dec_nat_len n Hn). unfold io_line, newline, strlen in *.
  rewrite !string_length_app. simpl. lia.
Qed.

Lemma io_text_len r w scr scw rb wb cb :
  Forall (fun z => 0 <= z < 2 ^ 63) [r; w; scr; scw; rb; wb; cb] ->
  strlen (io_text r w scr scw rb wb cb) <= BUFSIZ - 1.
Proof.
  intros Hz. repeat (apply list.Forall_cons in Hz as [? Hz]). unfold io_text.
  repeat (apply io_line_len; [done|]). by vm_compute.
Qed.

(** A line without units. *)
Lemma no_units key n rest : 0 <= n -> has_char "k" key = false -> has_char "M" key = false ->
  has_char "k" rest = false /\ has_char "M" rest = false ->
  has_char "k" (io_line key n rest) = false /\ has_char "M" (io_line key n rest) = false.
Proof.
  intros Hn Hk HM [Hrk HrM]. unfold io_line.
  by rewrite !has_char_app, Hk, HM, Hrk, HrM, !(has_char_digits _ (dec_nat n))
    by (done || by apply dec_nat_digits).
Qed.

(** The search reaches the line of its key, and steps over other lines. *)
Lemma scaled_here key n rest : 0 <= n < 2 ^ 64 ->
  has_char "k" rest = false /\ has_char "M" rest = false ->
  get_scaled_iostat (io_line key n rest) key = n.
Proof.
  intros Hn [Hk HM]. unfold get_scaled_iostat, io_line. rewrite strstr_here, skip_n_app.
  rewrite (strtoull0_dec _ n (newline +:+ rest)) by (done || (apply skip_spaces_dec; lia)).
  unfold newline. rewrite append_cons, append_nil_l. by rewrite !strchr_none by (simpl; done).
Qed.

(** The part of a text that a key is searched in: no line matches before. *)
Fixpoint no_match (key line : string) (tail : string) : bool :=
  match line with
  | EmptyString => true
  | String c l => negb (String.prefix key (String c (l +:+ tail))) && no_match key l tail
  end.

Lemma strstr_no_match key line tail : no_match key line tail = true ->
  strstr (line +:+ tail) key = strstr tail key.
Proof.
  induction line as [|c l IH]; [done|]. rewrite append_cons. cbn [no_match strstr].
  intros [->%negb_true_iff E]%andb_prop. by apply IH.
Qed.

Lemma scaled_skip k key line n rest : 0 <= n -> isdigit k = false ->
  no_match (String k key) (line +:+ " ") (dec_nat n +:+ newline +:+ rest) = true ->
  no_match (String k key) newline rest = true ->
  get_scaled_iostat (io_line line n rest) (String k key) = get_scaled_iostat rest (String k key).
Proof.
  intros Hn Hk H1 H2. unfold get_scaled_iostat, io_line.
  assert (strstr (line +:+ " " +:+ dec_nat n +:+ newline +:+ rest) (String k key)
          = strstr rest (String k key)) as ->; [|done].
  rewrite <- append_assoc, strstr_no_match by done.
  rewrite strstr_digits by (done || by apply dec_nat_digits). by apply strstr_no_match.
Qed.

(** * Properties *)

(** get_io_stat reads the io file of a thread as the kernel writes it: each counter is
    found under its own key although write_bytes also ends another key, and the cancelled bytes
    are taken off the bytes written, down to 0. *)
Lemma get_io_stat_reads (r w scr scw rb wb cb : Z) :
  Forall (fun z => 0 <= z < 2 ^ 63) [r; w; scr; scw; rb; wb; cb] ->
  get_io_stat (Content (io_text r w scr scw rb wb cb))
  = (mkIo r w rb (Z.max 0 (wb - cb)) cb, 0).
Proof.
  intros Hz. unfold get_io_stat, try_file_to_buffer.
  rewrite prefix_n_all by by apply io_text_len.
  repeat (apply list.Forall_cons in Hz as [? Hz]).
  change (TRY_FILE_TO_BUFFER_OK_IOSTAT =? TRY_FILE_TO_BUFFER_OK_IOSTAT) with true. cbv iota.
  unfold io_text.
  repeat match goal with
  | |- context [get_scaled_iostat (io_line ?k ?n ?rest) ?k] =>
      rewrite (scaled_here k n rest) by (lia || (repeat (apply no_units; [lia|done|done|]); done))
  | |- context [get_scaled_iostat (io_line ?l ?n ?rest) (String ?a ?k)] =>
      rewrite (scaled_skip a k l n rest) by (reflexivity || lia)
  end.
  rewrite !s64_id by (unfold in_s64; lia).
  destruct (Z.leb_spec cb wb); repeat f_equal; lia.
Qed.

(** The line [stat] of a task: [pre] is all up to the last parenthesis,
    [ps] the eleven fields before the times. *)
Definition stat_text (pre : string) (ps : list string) (ut st cut cst : Z) (rest : string) : string :=
  pre +:+ ")" +:+ fields ps (" " +:+ dec_nat ut +:+ " " +:+ dec_nat st +:+ " " +:+ dec_nat cut
    +:+ " " +:+ dec_nat cst +:+ rest).

Lemma fields_char c l rest : Ascii.eqb " " c = false ->
  Forall (fun w => has_char c w = false) l -> has_char c rest = false ->
  has_char c (fields l rest) = false.
Proof.
  intros Hc Hl Hr. induction l as [|w l IH]; [done|]. apply list.Forall_cons in Hl as [Hw Hl].
  cbn [fields]. rewrite !has_char_app, Hw, IH by done. change (has_char c " ") with (Ascii.eqb " " c || false). by rewrite Hc.
Qed.

(** C35: get_proc_time reads the four times out of a stat file that fits the buffer,
    whatever the name of the command contains: they are the fields 12 to 15 after its last
    closing parenthesis, and the total is their first two. *)
Theorem get_proc_time_reads (pre : string) (ps : list string) (ut st cut cst : Z) (rest : string) :
  length ps = 11%nat -> Forall word ps -> Forall (fun w => has_char ")" w = false) ps ->
  has_char ")" rest = false -> isspace (first_char rest) = true ->
  Forall (fun z => 0 <= z < 2 ^ 63) [ut; st; cut; cst] ->
  strlen (stat_text pre ps ut st cut cst rest) <= BUFSIZ - 1 ->
  exists t, get_proc_time (Content (stat_text pre ps ut st cut cst rest)) = (t, 0)
    /\ utime t = ut /\ stime t = st /\ rtime t = ut + st /\ cutime t = cut /\ cstime t = cst.
Proof.
  intros Hlen Hps Hpar Hrest Hsp Hz Hsz. repeat (apply list.Forall_cons in Hz as [? Hz]).
  unfold get_proc_time, try_file_to_buffer. rewrite prefix_n_all by done.
  change (TRY_FILE_TO_BUFFER_OK_IOSTAT =? TRY_FILE_TO_BUFFER_OK_IOSTAT) with true. cbv iota.
  unfold stat_text. rewrite after_cmd_last.
  2: { apply fields_char; [done|done|]. rewrite !has_char_app, Hrest.
       by rewrite !(has_char_digits _ (dec_nat _)) by (done || apply dec_nat_digits; lia). }
  set (s4 := " " +:+ dec_nat cst +:+ rest). set (s3 := " " +:+ dec_nat cut +:+ s4).
  set (s2 := " " +:+ dec_nat st +:+ s3). set (s1 := " " +:+ dec_nat ut +:+ s2).
  pose proof (skip_fields ps s1 (fields ps s1) Hps eq_refl eq_refl) as Hskip. rewrite Hlen in Hskip.
  assert (forall n s, 0 <= n -> next_token (" " +:+ dec_nat n +:+ s) = dec_nat n +:+ s) as Hsk
    by (intros; by apply skip_spaces_dec).
  unfold s1 in Hskip at 2. rewrite Hsk in Hskip by lia.
  rewrite (strtoull0_dec _ ut s2) by (done || lia).
  rewrite (strtoull0_dec s2 st s3) by (done || lia || apply Hsk; lia).
  rewrite (strtoull0_dec s3 cut s4) by (done || lia || apply Hsk; lia).
  rewrite (strtoull0_dec s4 cst rest) by (done || lia || apply Hsk; lia).
  destruct (strtoull0 _) as [itv p]. eexists. split; [done|].
  cbn [utime stime rtime cutime cstime]. split_and!; try done. apply u64_id. unfold in_u64. lia.
Qed.

Lemma get_proc_time_reads_witness :
  exists t, get_proc_time (Content (stat_text "1742 (mysqld (a b)" ["S"; "1"; "1739"; "1739"; "0";
      "-1"; "4194368"; "3200"; "0"; "8"; "0"] 512 77 0 0 " 20 0 38 0 84")) = (t, 0)
    /\ utime t + stime t = 589.
Proof.
  destruct (get_proc_time_reads "1742 (mysqld (a b)" ["S"; "1"; "1739"; "1739"; "0"; "-1"; "4194368";
    "3200"; "0"; "8"; "0"] 512 77 0 0 " 20 0 38 0 84") as (t & E & A & B & _).
  - reflexivity.
  - by repeat constructor.
  - by repeat constructor.
  - reflexivity.
  - reflexivity.
  - repeat constructor; lia.
  - vm_compute. discriminate.
  - exists t. split; [exact E|]. by rewrite A, B.
Defined.
