(* ===== verification/UserMap.v ===== *)
(** The map of MySQL users to accounts and LVE ids ([src/dbuser_map.c]): the
    parser of [/etc/container/dbuser-map] and the lookups.  The read-write
    lock around the table is not modelled: every use of the table here is
    one critical section of the code. *)

From S2P Require Import Prelude CDouble CString Data.
Open Scope string_scope.
Open Scope Z_scope.

Definition space : ascii := " "%char.
Definition newline : ascii := "010"%char.

(** * Reading lines *)

(** The results of successive [fgets (buf, 1024, map)]: the text is cut
    after each newline and after 1023 characters. *)
Fixpoint fgets_lines (s cur : string) (n : nat) : list string :=
  match s with
  | EmptyString => if String.eqb cur "" then [] else [cur]
  | String c s =>
      let cur := cur +:+ String c EmptyString in
      if Ascii.eqb c newline || Nat.eqb (S n) 1023 then cur :: fgets_lines s "" 0
      else fgets_lines s cur (S n)
  end.

(** * [trim] *)

Fixpoint trim (s : string) : string :=
  match s with
  | EmptyString => EmptyString
  | String c s =>
      if negb (Ascii.eqb c space) && negb (Ascii.eqb c newline) then String c (trim s) else trim s
  end.

(** * The parser of a line

    [username], [account_name] and [uid] are arrays of zeroes the loop fills
    from index 0 on, so each is the string written so far. *)
Record line_state := mkLine {
  ls_split : Z; ls_split2 : Z;
  ls_username : string; ls_account : string; ls_uid : string
}.

Definition snoc (s : string) (c : ascii) : string := s +:+ String c EmptyString.

Definition line_step (i : Z) (c : ascii) (st : line_state) : line_state :=
  if ls_split st =? 0 then
    if negb (Ascii.eqb c space) then
      if i <? USERNAMEMAXLEN - 1 then
        mkLine (ls_split st) (ls_split2 st) (snoc (ls_username st) c) (ls_account st) (ls_uid st)
      else st
    else mkLine i (ls_split2 st) (ls_username st) (ls_account st) (ls_uid st)
  else if ls_split2 st =? 0 then
    if negb (Ascii.eqb c space) then
      if i - ls_split st - 1 <? USERNAMEMAXLEN - 1 then
        mkLine (ls_split st) (ls_split2 st) (ls_username st) (snoc (ls_account st) c) (ls_uid st)
      else st
    else mkLine (ls_split st) i (ls_username st) (ls_account st) (ls_uid st)
  else if ls_split2 st <? i then
    if negb (Ascii.eqb c newline) then
      if i - ls_split2 st - 1 <? USERNAMEMAXLEN - 1 then
        mkLine (ls_split st) (ls_split2 st) (ls_username st) (ls_account st) (snoc (ls_uid st) c)
      else st
    else st
  else st.

Fixpoint line_loop (i : Z) (buf : string) (st : line_state) : line_state :=
  match buf with
  | EmptyString => st
  | String c buf => line_loop (i + 1) buf (line_step i c st)
  end.

Definition parse_line (buf : string) : string * string * string :=
  let st := line_loop 0 buf (mkLine 0 0 "" "" "") in
  (trim (ls_username st), trim (ls_account st), trim (ls_uid st)).

(** One iteration of the loop over the file. *)
Definition map_line (separate_lve : bool) (m : gmap string UserMap) (buf : string)
    : gmap string UserMap :=
  let '(username, account_name, uid) := parse_line buf in
  if String.eqb username "" || String.eqb account_name "" then m
  else
    match m !! username with
    | Some _ => m
    | None =>
        let tmp_uid := if separate_lve then atoi uid else BAD_LVE in
        if 1 <=? tmp_uid then
          <[username := mkUserMap (strncpy_str username (USERNAMEMAXLEN - 1)) tmp_uid
                          (strncpy_str account_name (USERNAMEMAXLEN - 1))]> m
        else m
    end.

(** [content] is [None] when the file cannot be opened; the old table is
    dropped in every case.  The result is the table and the return value. *)
Definition get_map_file (separate_lve : bool) (content : option string)
    : gmap string UserMap * bool :=
  match content with
  | None => (∅, false)
  | Some text => (fold_left (map_line separate_lve) (fgets_lines text "" 0) ∅, true)
  end.

(** * Lookups: [userMap] is [None] until the first [get_map_file] *)

Definition find_uid (u : string) (key : string) (um : UserMap) : bool :=
  strcmp_eq (um_username um) u.

Definition get_uid `{HashOrder} (userMap : option (gmap string UserMap)) (u : string) : Z :=
  match (m ← userMap; ht_find m (find_uid u)) with
  | Some um => um_uid um
  | None => BAD_LVE
  end.

Definition get_account `{HashOrder} (userMap : option (gmap string UserMap)) (u : string)
    : option string :=
  match (m ← userMap; ht_find m (find_uid u)) with
  | Some um => Some (um_account_name um)
  | None => None
  end.

(** * Lemmas *)

Definition plain_char (c : ascii) : Prop := c <> space /\ c <> newline.
Definition plain (s : string) : Prop := Forall plain_char (list_ascii_of_string s).

Lemma plain_cons c s : plain (String c s) <-> plain_char c /\ plain s.
Proof. unfold plain. simpl. apply list.Forall_cons. Qed.

Lemma snoc_app a c b : snoc a c +:+ b = a +:+ String c b.
Proof. unfold snoc. by rewrite append_assoc. Qed.

Lemma trim_plain s : plain s -> trim s = s.
Proof.
  induction s as [|c s IH]; [done|]. intros [[H1 H2] Hs]%plain_cons. simpl.
  destruct (Ascii.eqb_spec c space), (Ascii.eqb_spec c newline); try done. simpl.
  by rewrite IH.
Qed.

Lemma line_loop_app a b i st :
  line_loop i (a +:+ b) st = line_loop (i + strlen a) b (line_loop i a st).
Proof.
  revert i st. induction a as [|c a IH]; intros i st.
  - rewrite append_nil_l. unfold strlen. simpl. by rewrite Z.add_0_r.
  - rewrite append_cons. simpl. rewrite IH. f_equal. unfold strlen. simpl. lia.
Qed.

Lemma strlen_cons c s : strlen (String c s) = strlen s + 1.
Proof. unfold strlen. simpl. lia. Qed.

(** The three fields of a line, copied character by character. *)
Lemma line_user s i u a d : plain s -> 0 <= i -> i + strlen s < USERNAMEMAXLEN ->
  line_loop i s (mkLine 0 0 u a d) = mkLine 0 0 (u +:+ s) a d.
Proof.
  revert i u. induction s as [|c s IH]; intros i u Hp Hi Hl; simpl.
  - by rewrite append_nil_r.
  - apply plain_cons in Hp as [[H1 H2] Hp]. rewrite strlen_cons in Hl.
    unfold line_step. simpl. destruct (Ascii.eqb_spec c space); [done|]. simpl.
    assert (0 <= strlen s) by (unfold strlen; lia).
    destruct (Z.ltb_spec i (USERNAMEMAXLEN - 1)); [|lia]. simpl.
    rewrite IH by (done || lia). by rewrite snoc_app.
Qed.

Lemma line_account s i p u a d : plain s -> 0 < p < i -> i - p + strlen s <= USERNAMEMAXLEN ->
  line_loop i s (mkLine p 0 u a d) = mkLine p 0 u (a +:+ s) d.
Proof.
  revert i a. induction s as [|c s IH]; intros i a Hp Hi Hl; simpl.
  - by rewrite append_nil_r.
  - apply plain_cons in Hp as [[H1 H2] Hp]. rewrite strlen_cons in Hl.
    unfold line_step. simpl. destruct (Z.eqb_spec p 0); [lia|].
    destruct (Ascii.eqb_spec c space); [done|]. simpl.
    assert (0 <= strlen s) by (unfold strlen; lia).
    destruct (Z.ltb_spec (i - p - 1) (USERNAMEMAXLEN - 1)); [|lia].
    rewrite IH by (done || lia). by rewrite snoc_app.
Qed.

Lemma line_uid s i p q u a d : plain s -> 0 < p < q -> q < i ->
  i - q + strlen s <= USERNAMEMAXLEN ->
  line_loop i s (mkLine p q u a d) = mkLine p q u a (d +:+ s).
Proof.
  revert i d. induction s as [|c s IH]; intros i d Hp Hq Hi Hl; simpl.
  - by rewrite append_nil_r.
  - apply plain_cons in Hp as [[H1 H2] Hp]. rewrite strlen_cons in Hl.
    unfold line_step. simpl. destruct (Z.eqb_spec p 0); [lia|].
    destruct (Z.eqb_spec q 0); [lia|]. destruct (Z.ltb_spec q i); [|lia].
    destruct (Ascii.eqb_spec c newline); [done|]. simpl.
    assert (0 <= strlen s) by (unfold strlen; lia).
    destruct (Z.ltb_spec (i - q - 1) (USERNAMEMAXLEN - 1)); [|lia].
    rewrite IH by (done || lia). by rewrite snoc_app.
Qed.

(** An entry as the file writes it. *)
Record entry := mkEntry { e_user : string; e_account : string; e_uid : Z }.

Definition render (e : entry) : string :=
  e_user e +:+ String space (e_account e +:+ String space (dec (e_uid e) +:+ String newline "")).

Definition entry_ok (e : entry) : Prop :=
  plain (e_user e) /\ plain (e_account e)
  /\ 0 < strlen (e_user e) < USERNAMEMAXLEN /\ 0 < strlen (e_account e) < USERNAMEMAXLEN
  /\ 1 <= e_uid e < 2 ^ 31.

Lemma plain_dec_digits f n : 0 <= n -> plain (dec_digits f n).
Proof.
  assert (forall d, 0 <= d < 10 -> plain_char (chr (48 + d))) as P.
  { intros d Hd. assert (d = 0 \/ d = 1 \/ d = 2 \/ d = 3 \/ d = 4 \/ d = 5 \/ d = 6 \/ d = 7
      \/ d = 8 \/ d = 9) as E by lia.
    by repeat destruct E as [->|E]; subst. }
  revert n. induction f as [|f IH]; intros n Hn; simpl; [constructor|].
  destruct (Z.ltb_spec n 10); [apply plain_cons; split; [apply P; lia|constructor]|].
  assert (forall a b, plain a -> plain b -> plain (a +:+ b)) as App.
  { intros a b. induction a as [|c a IHa]; [done|]. rewrite append_cons, !plain_cons. naive_solver. }
  apply App; [apply IH, Z.div_pos; lia|]. apply plain_cons. split; [|constructor].
  apply P, Z.mod_pos_bound. lia.
Qed.

Lemma dec_digits_length f n : (String.length (dec_digits f n) <= f)%nat.
Proof.
  revert n. induction f as [|f IH]; intros n; simpl; [lia|].
  destruct (n <? 10); simpl; [lia|]. rewrite string_length_app. simpl.
  specialize (IH (n / 10)). lia.
Qed.

Lemma dec_uid_length n : 1 <= n < 2 ^ 31 -> strlen (dec n) <= 31.
Proof.
  intros. unfold dec. destruct (Z.ltb_spec n 0); [lia|]. unfold dec_nat, strlen.
  pose proof (dec_digits_length (S (Z.to_nat (Z.log2 n))) n).
  assert (Z.log2 n < 31) by (apply Z.log2_lt_pow2; lia).
  pose proof (Z.log2_nonneg n). lia.
Qed.

Lemma line_loop_render e : entry_ok e ->
  line_loop 0 (render e) (mkLine 0 0 "" "" "")
  = mkLine (strlen (e_user e)) (strlen (e_user e) + 1 + strlen (e_account e))
      (e_user e) (e_account e) (dec (e_uid e)).
Proof.
  intros (Hu & Ha & Lu & La & Hd). unfold render.
  assert (plain (dec (e_uid e))) as Pd.
  { unfold dec. destruct (Z.ltb_spec (e_uid e) 0); [lia|]. apply plain_dec_digits. lia. }
  pose proof (dec_uid_length _ Hd) as Ld. unfold USERNAMEMAXLEN in *.
  rewrite line_loop_app, line_user by (unfold USERNAMEMAXLEN; done || lia).
  rewrite append_nil_l, Z.add_0_l. cbn [line_loop]. unfold line_step at 1. simpl.
  rewrite line_loop_app, line_account by (unfold USERNAMEMAXLEN; done || lia).
  rewrite append_nil_l. cbn [line_loop]. unfold line_step at 1. simpl.
  destruct (Z.eqb_spec (strlen (e_user e)) 0); [lia|]. simpl.
  rewrite line_loop_app, line_uid by (unfold USERNAMEMAXLEN; done || lia).
  rewrite append_nil_l. cbn [line_loop]. unfold line_step. simpl.
  destruct (Z.eqb_spec (strlen (e_user e)) 0); [lia|].
  destruct (Z.eqb_spec (strlen (e_user e) + 1 + strlen (e_account e)) 0); [lia|].
  by destruct (_ <? _).
Qed.

Lemma parse_line_render e : entry_ok e ->
  parse_line (render e) = (e_user e, e_account e, dec (e_uid e)).
Proof.
  intros He. unfold parse_line. rewrite line_loop_render by done. simpl.
  destruct He as (Hu & Ha & Lu & La & Hd). rewrite !trim_plain; try done.
  unfold dec. destruct (Z.ltb_spec (e_uid e) 0); [lia|]. apply plain_dec_digits. lia.
Qed.

(** The table that a list of entries describes: the first line of a user
    counts. *)
Definition map_entry (separate_lve : bool) (m : gmap string UserMap) (e : entry)
    : gmap string UserMap :=
  match m !! e_user e with
  | Some _ => m
  | None => <[e_user e := mkUserMap (e_user e) (if separate_lve then e_uid e else BAD_LVE)
                            (e_account e)]> m
  end.

Lemma map_line_render sep m e : entry_ok e -> map_line sep m (render e) = map_entry sep m e.
Proof.
  intros He. pose proof He as (Hu & Ha & Lu & La & Hd). unfold map_line, map_entry.
  rewrite parse_line_render by done.
  destruct (String.eqb_spec (e_user e) "") as [E|_]; [rewrite E in Lu; unfold strlen in Lu; simpl in Lu; lia|].
  destruct (String.eqb_spec (e_account e) "") as [E|_]; [rewrite E in La; unfold strlen in La; simpl in La; lia|].
  simpl. destruct (m !! e_user e); [done|].
  rewrite atoi_dec by (unfold in_s32; lia). unfold strncpy_str.
  rewrite !prefix_n_all by (unfold USERNAMEMAXLEN in *; lia).
  destruct sep; [|done]. by destruct (Z.leb_spec 1 (e_uid e)); [|lia].
Qed.

(** Each rendered entry is one line of the file. *)
Lemma fgets_line_plain s cur n rest : plain s ->
  strlen s + Z.of_nat n < 1022 ->
  fgets_lines (s +:+ rest) cur n = fgets_lines rest (cur +:+ s) (n + String.length s).
Proof.
  revert cur n. induction s as [|c s IH]; intros cur n Hp Hl.
  - rewrite append_nil_l, append_nil_r. simpl. by rewrite Nat.add_0_r.
  - apply plain_cons in Hp as [[H1 H2] Hp]. rewrite strlen_cons in Hl.
    assert (0 <= strlen s) by (unfold strlen; lia).
    rewrite append_cons. cbn [fgets_lines].
    destruct (Ascii.eqb_spec c newline); [done|].
    destruct (Nat.eqb_spec (S n) 1023); [lia|]. simpl.
    rewrite IH by (done || lia). f_equal; [|lia].
    by rewrite append_assoc.
Qed.

Lemma fgets_char c cur n rest : c <> newline -> (S n < 1023)%nat ->
  fgets_lines (String c rest) cur n = fgets_lines rest (snoc cur c) (S n).
Proof.
  intros Hc Hn. cbn [fgets_lines]. destruct (Ascii.eqb_spec c newline); [done|].
  by destruct (Nat.eqb_spec (S n) 1023); [lia|].
Qed.

Lemma fgets_render e rest : entry_ok e ->
  fgets_lines (render e +:+ rest) "" 0 = render e :: fgets_lines rest "" 0.
Proof.
  intros (Hu & Ha & Lu & La & Hd). pose proof (dec_uid_length _ Hd) as Ld.
  assert (plain (dec (e_uid e))) as Pd.
  { unfold dec. destruct (Z.ltb_spec (e_uid e) 0); [lia|]. apply plain_dec_digits. lia. }
  unfold USERNAMEMAXLEN, strlen in *. unfold render.
  rewrite !append_assoc, !append_cons, !append_assoc, !append_cons, !append_assoc, !append_cons, !append_nil_l.
  rewrite fgets_line_plain by (unfold strlen; done || lia).
  rewrite fgets_char by (done || lia).
  rewrite fgets_line_plain by (unfold strlen; done || lia).
  rewrite fgets_char by (done || lia).
  rewrite fgets_line_plain by (unfold strlen; done || lia).
  cbn [fgets_lines]. rewrite Ascii.eqb_refl. simpl orb. cbv iota. rewrite append_nil_l.
  by rewrite ?append_assoc, ?snoc_app, ?append_assoc, ?snoc_app, ?append_cons.
Qed.

(** The LVE ids of the map are positive, and so is that of a user without an
    entry. *)
Lemma map_uids_positive `{HashOrder} sep content u :
  0 < get_uid (Some (fst (get_map_file sep content))) u < 2 ^ 31.
Proof.
  assert (forall k um, fst (get_map_file sep content) !! k = Some um -> 0 < um_uid um < 2 ^ 31) as G.
  { unfold get_map_file. destruct content as [text|]; [|done]. cbn [fst].
    assert (forall l (m : gmap string UserMap),
      (forall k um, m !! k = Some um -> 0 < um_uid um < 2 ^ 31) ->
      forall k um, fold_left (map_line sep) l m !! k = Some um -> 0 < um_uid um < 2 ^ 31) as F; [|by apply F].
    induction l as [|buf l IH]; intros m Hm; [done|]. cbn [fold_left]. apply IH. intros k um. unfold map_line.
    destruct (parse_line buf) as [[x a] uid]. destruct (_ || _); [apply Hm|]. destruct (m !! x); [apply Hm|].
    destruct (Z.leb_spec 1 (if sep then atoi uid else BAD_LVE)); [|apply Hm].
    rewrite lookup_insert_Some. intros [[_ <-]|[_ Hk]]; [|by eapply Hm]. cbn [um_uid].
    destruct sep; [|unfold BAD_LVE; lia]. pose proof (s32_range (strtol10 uid)) as [_ Hr]. unfold atoi in *. lia. }
  unfold get_uid. cbn [mbind option_bind]. destruct (ht_find _ _) as [um|] eqn:E; [|unfold BAD_LVE; lia].
  apply ht_find_some in E as (k & Hk & _). by eapply G.
Qed.

Definition render_all (es : list entry) : string :=
  fold_right (fun e t => render e +:+ t) "" es.

(** * Properties *)

(** C34: The parser of the map file reads back what is written there: for lines that hold a
    user, an account and an LVE id separated by one space, with names that fit, the table is the
    one built by adding the entries in order. *)
Theorem get_map_file_reads_entries (separate_lve : bool) (es : list entry) :
  (forall e, e ∈ es -> entry_ok e) ->
  get_map_file separate_lve (Some (render_all es))
  = (fold_left (map_entry separate_lve) es ∅, true).
Proof.
  intros He. unfold get_map_file. f_equal. generalize (∅ : gmap string UserMap) as m.
  induction es as [|e es IH]; intros m; [done|]. cbn [render_all fold_right].
  fold (render_all es). rewrite fgets_render by (apply He; set_solver). simpl.
  rewrite map_line_render by (apply He; set_solver). apply IH. set_solver.
Qed.

Lemma get_map_file_reads_entries_witness :
  get_map_file true (Some (render_all [mkEntry "bob_wp" "bob" 507; mkEntry "bob_wp" "eve" 9]))
  = ({[ "bob_wp" := mkUserMap "bob_wp" 507 "bob" ]}, true).
Proof.
  refine (get_map_file_reads_entries true [mkEntry "bob_wp" "bob" 507; mkEntry "bob_wp" "eve" 9] _).
  intros e He. rewrite !elem_of_cons, elem_of_nil in He.
  destruct He as [->|[->|[]]]; unfold entry_ok, plain, plain_char; simpl;
    (split_and!; [repeat constructor; discriminate|repeat constructor; discriminate|..];
     unfold strlen, USERNAMEMAXLEN; simpl; lia).
Defined.

(** Every entry of the table is stored under its own user name. *)
Definition map_wf (m : gmap string UserMap) : Prop :=
  forall k um, m !! k = Some um -> um_username um = k /\ 1 <= um_uid um.

Lemma line_loop_user_len buf i st : 0 <= i -> strlen (ls_username st) <= Z.min i 63 ->
  strlen (ls_username (line_loop i buf st)) <= 63.
Proof.
  revert i st. induction buf as [|c buf IH]; intros i st Hi Hl; simpl; [lia|].
  apply IH; [lia|]. unfold line_step.
  assert (strlen (snoc (ls_username st) c) = strlen (ls_username st) + 1) as Es.
  { unfold snoc, strlen. rewrite string_length_app. simpl. lia. }
  repeat case_match; simpl; rewrite ?Es; unfold USERNAMEMAXLEN in *; bools; lia.
Qed.

Lemma trim_len s : strlen (trim s) <= strlen s.
Proof.
  unfold strlen. induction s as [|c s IH]; simpl; [lia|]. destruct (_ && _); simpl; lia.
Qed.

(** Whatever the map file contains, the table is well formed: the names fit their
    buffers, a key is the name stored under it, and get_uid answers the id of the entry, or
    BAD_LVE for a name that is not there, so never an id below 1. *)
Lemma get_map_file_wf `{HashOrder} (separate_lve : bool) (content : option string) (u : string) :
  let m := fst (get_map_file separate_lve content) in
  map_wf m
  /\ get_uid (Some m) u = match m !! u with Some um => um_uid um | None => BAD_LVE end
  /\ 1 <= get_uid (Some m) u.
Proof.
  intros m.
  assert (Hwf : map_wf m).
  { subst m. destruct content as [text|]; simpl; [|intros k um Hk; by rewrite lookup_empty in Hk].
    assert (map_wf ∅) as H0 by (intros k um Hk; by rewrite lookup_empty in Hk).
    revert H0. generalize (∅ : gmap string UserMap) as m.
    induction (fgets_lines text "" 0) as [|b l IH]; intros m Hm; simpl; [done|]. apply IH.
    unfold map_line, parse_line.
    set (st := line_loop 0 b _).
    assert (strlen (trim (ls_username st)) <= 63) as Hlen.
    { pose proof (trim_len (ls_username st)).
      assert (strlen (ls_username st) <= 63); [|lia]. by apply line_loop_user_len. }
    destruct (_ || _); [done|]. destruct (m !! trim (ls_username st)); [done|].
    destruct (Z.leb_spec 1 (if separate_lve then atoi (trim (ls_uid st)) else BAD_LVE)); [|done].
    intros k um. rewrite lookup_insert_Some. intros [[<- <-]|[_ Hk]]; [|by apply Hm].
    simpl. split; [|done]. apply prefix_n_all. unfold USERNAMEMAXLEN. lia. }
  assert (Hf : ht_find m (find_uid u) = m !! u).
  { apply ht_find_unique. intros k v Hk. apply Hwf in Hk as [<- _].
    unfold find_uid, strcmp_eq. apply String.eqb_eq. }
  split; [done|]. unfold get_uid. simpl. rewrite Hf. split; [done|].
  destruct (m !! u) as [um|] eqn:E; [by destruct (Hwf _ _ E)|done].
Qed.
