(* ===== verification/BadList.v ===== *)
(** The list of restricted users in POSIX shared memory
    ([src/shared_memory.c]): the daemon's operations on it, the clients that
    consult it under a semaphore, and the set-up of the segment.  [None] is a
    run that leaves the array or uses a failed handle. *)

From S2P Require Import Prelude CDouble CString Data UserMap.
Open Scope string_scope.
Open Scope Z_scope.

Definition MAX_ITEMS_IN_TABLE : Z := 100000.

(** * The segment *)

Record items_structure := mkItem { it_username : string; it_uid : Z }.

(** [items] is the array, by index. *)
Record shm_structure := mkShm { numbers : Z; items : Z -> items_structure }.

Definition clear_bad_users_list : shm_structure := mkShm 0 (fun _ => mkItem "" 0).

Definition in_array (i : Z) : bool := (0 <=? i) && (i <? MAX_ITEMS_IN_TABLE).
Definition item_at (l : shm_structure) (i : Z) : option items_structure :=
  if in_array i then Some (items l i) else None.
Definition store_item (l : shm_structure) (i : Z) (x : items_structure) : option shm_structure :=
  if in_array i then Some (mkShm (numbers l) (fun j => if j =? i then x else items l j))
  else None.

(** [memmove (items + index, items + (index + 1), n)]. *)
Definition memmove_down (l : shm_structure) (index n : Z) : option shm_structure :=
  if in_array index && (0 <=? n) && (index + n <? MAX_ITEMS_IN_TABLE) then
    Some (mkShm (numbers l)
            (fun j => if (index <=? j) && (j <? index + n) then items l (j + 1) else items l j))
  else None.

(** The scan that every reader performs: the index of the first item whose
    name matches.  [n] bounds the iterations left. *)
Fixpoint find_index (n : nat) (l : shm_structure) (index : Z) (username : string)
    : option (option Z) :=
  match n with
  | O => Some None
  | S n =>
      if index <? numbers l then
        it ← item_at l index;
        if strncmp_eq (it_username it) username USERNAMEMAXLEN then Some (Some index)
        else find_index n l (index + 1) username
      else Some None
  end.
Definition find_user (l : shm_structure) (username : string) : option (option Z) :=
  find_index (Z.to_nat (numbers l)) l 0 username.

(** * The daemon's operations: [bad_list] is [None] while it is not mapped,
      [waited] tells whether [sem_wait] returned 0 *)

Definition is_user_in_list (bad_list : option shm_structure) (username : string) : option Z :=
  match bad_list with
  | None => Some (-1)
  | Some l => r ← find_user l username; Some (match r with Some _ => 1 | None => 0 end)
  end.

Definition add_user_to_list `{HashOrder} (userMap : option (gmap string UserMap))
    (map_locked waited : bool) (bad_list : option shm_structure) (username : string) (is_all : Z)
    : option (option shm_structure * Z) :=
  match bad_list with
  | None => Some (None, -1)
  | Some l =>
      let uid := if map_locked then get_uid userMap username else BAD_LVE in
      let uid := if nonzero is_all && (uid =? BAD_LVE) then 0 else uid in
      found ← is_user_in_list bad_list username;
      if found =? 0 then
        if s64 (numbers l + 1) =? MAX_ITEMS_IN_TABLE then Some (bad_list, -2)
        else if waited then
          l' ← store_item l (numbers l) (mkItem (strlcpy_str username USERNAMEMAXLEN) (s32 uid));
          Some (Some (mkShm (s64 (numbers l' + 1)) (items l')), 0)
        else Some (bad_list, 0)
      else Some (bad_list, 0)
  end.

(** [waited i] is the outcome of the [sem_wait] for the match at index [i];
    after a failed one the scan goes on. *)
Fixpoint delete_loop (n : nat) (l : shm_structure) (index : Z) (username : string)
    (waited : Z -> bool) : option (shm_structure * Z) :=
  match n with
  | O => Some (l, -2)
  | S n =>
      if index <? numbers l then
        it ← item_at l index;
        if strncmp_eq (it_username it) username USERNAMEMAXLEN then
          if waited index then
            if index =? numbers l - 1 then Some (mkShm (numbers l - 1) (items l), 0)
            else l' ← memmove_down l index (numbers l - index - 1);
                 Some (mkShm (numbers l' - 1) (items l'), 0)
          else delete_loop n l (index + 1) username waited
        else delete_loop n l (index + 1) username waited
      else Some (l, -2)
  end.
Definition delete_user_from_list (waited : Z -> bool) (bad_list : option shm_structure)
    (username : string) : option (option shm_structure * Z) :=
  match bad_list with
  | None => Some (None, -1)
  | Some l =>
      '(l', r) ← delete_loop (Z.to_nat (numbers l)) l 0 username waited; Some (Some l', r)
  end.

Definition delete_allusers_from_list (waited : bool) (bad_list : option shm_structure)
    : option shm_structure * Z :=
  match bad_list with
  | None => (None, -1)
  | Some l => if waited then (Some clear_bad_users_list, 0) else (Some l, -2)
  end.

Definition get_users_list_size (bad_list : option shm_structure) : Z :=
  match bad_list with None => 0 | Some l => numbers l end.

(** What [printf_bad_users_list] prints, line by line. *)
Definition printf_bad_users_list (bad_list : option shm_structure) : list string :=
  match bad_list with
  | None => []
  | Some l =>
      map (fun k => let i := Z.of_nat k in
                    dec i +:+ ") user - " +:+ it_username (items l i) +:+ ", uid - "
                    +:+ dec (it_uid (items l i)) +:+ String newline "")
        (seq 0 (Z.to_nat (numbers l)))
  end.

(** * The clients

    A client takes the semaphore with [sem_trywait], at most 99 times before
    it reopens it, and gives up at the fourth reopening.  [tries k] is the
    outcome of its [k]-th attempt and [opens k] tells whether its [k]-th
    [sem_open] succeeded.  A semaphore call on a handle that failed to reopen
    dereferences [SEM_FAILED], a null pointer: [None]. *)
Inductive wait_result := WOk | WAgain | WError.

(** [run_got]: the semaphore was taken; [run_tries]: attempts made. *)
Record client_run (T : Type) := mkRun { run_fnd : T; run_got : bool; run_tries : nat }.
Arguments mkRun {T}. Arguments run_fnd {T}. Arguments run_got {T}. Arguments run_tries {T}.

Fixpoint client_loop {T} (fuel : nat) (tries : nat -> wait_result) (opens : nat -> bool)
    (body : option T) (fnd : T) (k : nat) (trys sem_reopen : Z) : option (client_run T) :=
  match fuel with
  | O => None
  | S fuel =>
      match tries k with
      | WOk => x ← body; Some (mkRun x true (S k))
      | WError => Some (mkRun fnd false (S k))
      | WAgain =>
          let trys := trys + 1 in
          if trys =? 100 then
            let sem_reopen := sem_reopen + 1 in
            if sem_reopen =? 4 then
              (* the break leaves for sem_post *)
              if opens (Z.to_nat sem_reopen) then Some (mkRun fnd false (S k)) else None
            else if opens (Z.to_nat sem_reopen) then
              client_loop fuel tries opens body fnd (S k) 1 sem_reopen
            else None
          else client_loop fuel tries opens body fnd (S k) trys sem_reopen
      end
  end.

(** Enough for 4 rounds of 99 attempts ([client_loop_bounded]). *)
Definition client_fuel : nat := 400.

(** The uid recorded for a user, 0 when there is none. *)
Definition lookup_uid (bad_list : option shm_structure) (username : string) : option Z :=
  match bad_list with
  | None => Some 0
  | Some l =>
      r ← find_user l username;
      match r with
      | Some i => it ← item_at l i; Some (it_uid it)
      | None => Some 0
      end
  end.

(** The result, whether the semaphore was taken and how often it was posted. *)
Record client_result := mkClientResult { cr_uid : Z; cr_waits : Z; cr_posts : Z }.

Definition finish_client (r : client_run Z) : client_result :=
  mkClientResult (run_fnd r) (b2z (run_got r)) 1.

(** [is_user_in_bad_list_cleint]: [segment] is [None] when [shm_open] or
    [mmap] fails. *)
Definition is_user_in_bad_list_cleint (segment : option shm_structure)
    (tries : nat -> wait_result) (opens : nat -> bool) (username : string)
    : option client_result :=
  match segment with
  | None => Some (mkClientResult 0 0 0)
  | Some l =>
      if opens 0%nat then
        r ← client_loop client_fuel tries opens (lookup_uid (Some l) username) 0 0 1 0;
        Some (finish_client r)
      else Some (mkClientResult 0 0 0)
  end.

(** [is_user_in_bad_list_cleint_persistent]: the segment was mapped at start. *)
Definition is_user_in_bad_list_cleint_persistent (bad_list_clents_global : option shm_structure)
    (tries : nat -> wait_result) (opens : nat -> bool) (username : string)
    : option client_result :=
  if opens 0%nat then
    r ← client_loop client_fuel tries opens (lookup_uid bad_list_clents_global username) 0 0 1 0;
    Some (finish_client r)
  else Some (mkClientResult 0 0 0).

(** [printf_bad_list_cleint_persistent]: the lines printed. *)
Definition bad_list_lines (bad_list_clents_global : option shm_structure) : list string :=
  match bad_list_clents_global with
  | None => []
  | Some l =>
      map (fun k => let i := Z.of_nat k in
                    " " +:+ pad_right 16 (it_username (items l i)) +:+ " " +:+ dec i
                    +:+ String newline "")
        (seq 0 (Z.to_nat (numbers l)))
  end.
Definition printf_bad_list_cleint_persistent (bad_list_clents_global : option shm_structure)
    (tries : nat -> wait_result) (opens : nat -> bool) : option (list string) :=
  let title := " USER             NUMBER" +:+ String newline "" in
  if opens 0%nat then
    r ← client_loop client_fuel tries opens (Some (bad_list_lines bad_list_clents_global)) [] 0 1 0;
    Some (title :: run_fnd r)
  else Some [title].

(** [user_in_bad_list_cleint_show] posts the semaphore after 99 failures and
    tries again without a limit: lines printed and posts made. *)
Fixpoint show_loop (fuel : nat) (tries : nat -> wait_result) (opens : nat -> bool)
    (l : shm_structure) (k : nat) (trys reopen posts : Z) : option (list string * Z) :=
  match fuel with
  | O => None
  | S fuel =>
      match tries k with
      | WOk => Some (map (fun k => it_username (items l (Z.of_nat k)) +:+ String newline "")
                       (seq 0 (Z.to_nat (numbers l))), posts + 1)
      | WError => Some ([], posts + 1)
      | WAgain =>
          if trys + 1 =? 100 then
            if opens (Z.to_nat (reopen + 1)) then
              show_loop fuel tries opens l (S k) 1 (reopen + 1) (posts + 1)
            else None
          else show_loop fuel tries opens l (S k) (trys + 1) reopen posts
      end
  end.
Definition user_in_bad_list_cleint_show (fuel : nat) (segment : option shm_structure)
    (tries : nat -> wait_result) (opens : nat -> bool) : option (list string * Z) :=
  match segment with
  | None => Some ([], 0)
  | Some l => if opens 0%nat then show_loop fuel tries opens l 0 1 0 0 else Some ([], 0)
  end.

(** * Setting the segment up

    The outcomes of the system calls, and the state of the process they
    change.  A descriptor is negative when the call fails. *)
Record shm_env := mkShmEnv {
  e_open_excl : Z; e_open : Z;          (* the two shm_open *)
  e_stat : option (Z * Z);              (* owner of the MySQL socket *)
  e_fchown_ok : bool; e_mmap_ok : bool; e_sem_ok : bool; e_wait_ok : bool;
  e_euid : Z
}.

(** [sh_bad_list]: the mapping ([None]: not mapped), [sh_contents]: what the
    segment holds, [sh_sem]: the semaphore handle is valid, [sh_umask]: the
    umask of the process, [sh_private]: the segment was given to the owner of
    the socket with mode 0600, [sh_fd_open]: [shm_fd] is open,
    [sh_euid]: the effective user. *)
Record shm_proc := mkShmProc {
  sh_bad_list : option shm_structure; sh_contents : shm_structure; sh_sem : bool;
  sh_umask : Z; sh_private : bool; sh_fd_open : bool; sh_euid : Z; sh_mutex : bool
}.

Definition init_bad_users_list (e : shm_env) (p : shm_proc) : shm_proc * Z :=
  let old_umask := sh_umask p in
  let p := mkShmProc (sh_bad_list p) (sh_contents p) (sh_sem p) 0 (sh_private p) (sh_fd_open p)
             (sh_euid p) (sh_mutex p) in
  let restore q := mkShmProc (sh_bad_list q) (sh_contents q) (sh_sem q) old_umask (sh_private q)
                     (sh_fd_open q) (sh_euid q) (sh_mutex q) in
  if negb (0 <? e_open_excl e) && (e_open e <? 0) then (restore p, -1)
  else
    let '(mysql_user_uid, private) :=
      match e_stat e with
      | Some (uid, _) => (uid, e_fchown_ok e || sh_private p)
      | None => (0, sh_private p)
      end in
    let p := mkShmProc (sh_bad_list p) (sh_contents p) (sh_sem p) (sh_umask p) private true
               (sh_euid p) (sh_mutex p) in
    if negb (e_mmap_ok e) then
      (restore (mkShmProc None (sh_contents p) (sh_sem p) (sh_umask p) private false
                  (sh_euid p) (sh_mutex p)), -1)
    else
      (* the semaphore is created under the uid of the socket's owner *)
      let euid := e_euid e in
      let eff := if 0 <? mysql_user_uid then mysql_user_uid else sh_euid p in
      let eff := if (0 <? mysql_user_uid) && negb (euid =? 2 ^ 32 - 1) then euid else eff in
      let p := restore (mkShmProc (Some (sh_contents p)) (sh_contents p) (e_sem_ok e) (sh_umask p)
                          private true eff (sh_mutex p)) in
      if negb (e_sem_ok e) then
        (mkShmProc (sh_bad_list p) (sh_contents p) false (sh_umask p) private false eff (sh_mutex p), -1)
      else if e_wait_ok e then
        (mkShmProc (Some clear_bad_users_list) clear_bad_users_list true (sh_umask p) private true
           eff (sh_mutex p), 0)
      else (p, 0).

Definition init_bad_users_list_if_not_exitst (e : shm_env) (p : shm_proc) : shm_proc * Z :=
  match sh_bad_list p with
  | None => init_bad_users_list e p
  | Some _ => (p, 0)
  end.

Definition init_bad_users_list_utility (e : shm_env) (p : shm_proc) : shm_proc * Z :=
  if e_open e <? 0 then (p, -1)
  else if negb (e_mmap_ok e) then
    (mkShmProc None (sh_contents p) (sh_sem p) (sh_umask p) (sh_private p) false (sh_euid p)
       (sh_mutex p), -1)
  else if negb (e_sem_ok e) then
    (mkShmProc (Some (sh_contents p)) (sh_contents p) false (sh_umask p) (sh_private p) false
       (sh_euid p) (sh_mutex p), -1)
  else if e_wait_ok e then
    (mkShmProc (Some clear_bad_users_list) clear_bad_users_list true (sh_umask p) (sh_private p)
       true (sh_euid p) (sh_mutex p), 0)
  else
    (mkShmProc (Some (sh_contents p)) (sh_contents p) true (sh_umask p) (sh_private p) true
       (sh_euid p) (sh_mutex p), 0).

(** [init_bad_users_list_client], run inside the MySQL server.  It maps the
    segment under the name [bad_list_clents_global], which [sh_bad_list]
    holds here; [clear_bad_users_list] clears the daemon's [bad_list], which
    is a null pointer in this process, so it does nothing. *)
Definition init_bad_users_list_client (e : shm_env) (p : shm_proc) : shm_proc * Z :=
  let old_umask := sh_umask p in
  let set bl fd um := mkShmProc bl (sh_contents p) (sh_sem p) um (sh_private p) fd (sh_euid p) false in
  let first := 0 <? e_open_excl e in
  if negb first && (e_open e <? 0) then (set (sh_bad_list p) (sh_fd_open p) old_umask, -1)
  else if negb (e_mmap_ok e) then (set None false old_umask, -2)
  else if first && negb (e_sem_ok e) then (set None false 0, -2)
  else (set (Some (sh_contents p)) true old_umask, 0).

(** * Names

    The names of the kernel outlive the processes: whether the semaphore
    exists, and what the segment holds when it does.  Nothing removes the
    segment. *)
Record shm_names := mkNames { n_sem : bool; n_list : option shm_structure }.

(** The descriptor and the handle are given up; the address stays in
    [bad_list].  The daemon removes the name of the semaphore too. *)
Definition release_list (p : shm_proc) : shm_proc :=
  mkShmProc (sh_bad_list p) (sh_contents p) false (sh_umask p) (sh_private p) false (sh_euid p) (sh_mutex p).
Definition remove_bad_users_list (k : shm_names) (p : shm_proc) : shm_names * shm_proc * Z :=
  (mkNames false (n_list k), release_list p, 0).
Definition remove_bad_users_list_utility (p : shm_proc) : shm_proc * Z := (release_list p, 0).
Definition remove_bad_users_list_client (p : shm_proc) : shm_proc * Z :=
  (mkShmProc (sh_bad_list p) (sh_contents p) (sh_sem p) (sh_umask p) (sh_private p) false (sh_euid p) false, 0).

(** A process before it has touched the list: a segment that does not exist
    yet is made of zeros. *)
Definition unmapped (umask : Z) (k : shm_names) : shm_proc :=
  mkShmProc None (default clear_bad_users_list (n_list k)) false umask false false 0 false.

(** The results of the calls fit the names: [O_EXCL] succeeds only when the
    segment is not there, and then the other call is not needed; the
    semaphore is found by a client when it exists. *)
Definition segment_opened (e : shm_env) : bool := (0 <? e_open_excl e) || (0 <=? e_open e).
Record env_fits (k : shm_names) (e : shm_env) : Prop := {
  ef_excl : 0 < e_open_excl e -> n_list k = None;
  ef_new : n_list k = None -> segment_opened e = true -> 0 < e_open_excl e
}.

(** The names after the list was set up by the daemon, whose first act is to
    remove the semaphore, by [mysql_unfreeze] and by the MySQL server. *)
Definition names_after_init (e : shm_env) (k : shm_names) : shm_names * shm_proc * Z :=
  let '(p, r) := init_bad_users_list e (unmapped 18 k) in
  (mkNames (0 <=? r) (if segment_opened e then Some (sh_contents p) else n_list k), p, r).
Definition names_after_utility (e : shm_env) (k : shm_names) : shm_names * shm_proc * Z :=
  let '(p, r) := init_bad_users_list_utility e (unmapped 18 k) in
  (mkNames (n_sem k || (0 <=? r)) (match n_list k with Some _ => Some (sh_contents p) | None => None end), p, r).
Definition names_after_client (e : shm_env) (k : shm_names) : shm_names * shm_proc * Z :=
  let '(p, r) := init_bad_users_list_client e (unmapped 18 k) in
  (mkNames (n_sem k) (if segment_opened e then Some (sh_contents p) else n_list k), p, r).

(** * Specification: a finite map from restricted users to LVE ids *)

Definition entries (l : shm_structure) : list items_structure :=
  map (fun k => items l (Z.of_nat k)) (seq 0 (Z.to_nat (numbers l))).

Definition abs (l : shm_structure) : gmap string Z :=
  list_to_map ((fun it => (it_username it, it_uid it)) <$> entries l).

Definition list_inv (l : shm_structure) : Prop :=
  0 <= numbers l < MAX_ITEMS_IN_TABLE
  /\ NoDup (it_username <$> entries l)
  /\ Forall (fun it => strlen (it_username it) < USERNAMEMAXLEN) (entries l).

Inductive list_op := OpAdd (username : string) (is_all : Z) | OpDel (username : string) | OpClear.

(** Deletion moves the later entries, an addition appends: as a map the
    order does not count. *)
Definition spec_op (uid_of : string -> Z) (o : list_op) (m : gmap string Z) : gmap string Z * Z :=
  match o with
  | OpAdd u is_all =>
      match m !! u with
      | Some _ => (m, 0)
      | None => if Z.of_nat (base.size m) + 1 =? MAX_ITEMS_IN_TABLE then (m, -2)
                else (<[u := s32 (let d := uid_of u in
                                  if nonzero is_all && (d =? BAD_LVE) then 0 else d)]> m, 0)
      end
  | OpDel u => match m !! u with Some _ => (delete u m, 0) | None => (m, -2) end
  | OpClear => (∅, 0)
  end.

Definition run_op `{HashOrder} (userMap : option (gmap string UserMap)) (o : list_op)
    (bl : option shm_structure) : option (option shm_structure * Z) :=
  match o with
  | OpAdd u is_all => add_user_to_list userMap true true bl u is_all
  | OpDel u => delete_user_from_list (fun _ => true) bl u
  | OpClear => Some (delete_allusers_from_list true bl)
  end.

Definition op_name (o : list_op) : string :=
  match o with OpAdd u _ | OpDel u => u | OpClear => "" end.

(** * Lemmas *)

Definition matches (l : shm_structure) (u : string) (j : Z) : bool :=
  strncmp_eq (it_username (items l j)) u USERNAMEMAXLEN.

(** The scan returns the first matching index. *)
Lemma find_index_spec n l i u : 0 <= i -> numbers l <= MAX_ITEMS_IN_TABLE ->
  numbers l - i <= Z.of_nat n ->
  exists r, find_index n l i u = Some r /\
    match r with
    | Some j => i <= j < numbers l /\ matches l u j = true
    | None => forall j, i <= j < numbers l -> matches l u j = false
    end.
Proof.
  revert i. induction n as [|n IH]; intros i Hi Hm Hn; simpl.
  - exists None. split; [done|]. lia.
  - destruct (Z.ltb_spec i (numbers l)); [|exists None; split; [done|lia]].
    unfold item_at, in_array. destruct (Z.leb_spec 0 i); [|lia].
    destruct (Z.ltb_spec i MAX_ITEMS_IN_TABLE); [|lia]. simpl.
    fold (matches l u i). destruct (matches l u i) eqn:E.
    + exists (Some i). split; [done|]. split; [lia|done].
    + destruct (IH (i + 1)) as (r & -> & Hr); [lia..|]. exists r. split; [done|].
      destruct r as [j|]; [destruct Hr; split; [lia|done]|].
      intros j Hj. destruct (Z.eq_dec j i) as [->|]; [done|]. apply Hr. lia.
Qed.

Lemma entries_lookup l k it : 0 <= numbers l ->
  entries l !! k = Some it <-> Z.of_nat k < numbers l /\ items l (Z.of_nat k) = it.
Proof.
  intros H0. unfold entries. rewrite list_lookup_fmap_Some. split.
  - intros (j & -> & (-> & Hj)%lookup_seq). split; [lia|done].
  - intros [Hk <-]. exists k. split; [done|]. apply lookup_seq. lia.
Qed.

Lemma entries_length l : length (entries l) = Z.to_nat (numbers l).
Proof. unfold entries. by rewrite length_map, length_seq. Qed.

Lemma entry_short l j : list_inv l -> 0 <= j < numbers l ->
  strlen (it_username (items l j)) < USERNAMEMAXLEN.
Proof.
  intros (Hn & _ & Hf) Hj. rewrite list.Forall_lookup in Hf. apply (Hf (Z.to_nat j)).
  apply entries_lookup; [lia|]. rewrite Z2Nat.id by lia. split; [lia|done].
Qed.

Lemma matches_spec l u j : list_inv l -> 0 <= j < numbers l -> strlen u < USERNAMEMAXLEN ->
  matches l u j = String.eqb (it_username (items l j)) u.
Proof.
  intros Hi Hj Hu. unfold matches. apply strncmp_eq_short; [|lia].
  pose proof (entry_short l j Hi Hj). lia.
Qed.

Lemma abs_keys (es : list items_structure) :
  ((fun it => (it_username it, it_uid it)) <$> es).*1 = it_username <$> es.
Proof. by rewrite <- list_fmap_compose. Qed.

Lemma abs_lookup l u v : list_inv l ->
  abs l !! u = Some v
  <-> exists j, 0 <= j < numbers l /\ items l j = mkItem u v.
Proof.
  intros (Hn & Hd & _). unfold abs.
  rewrite <- elem_of_list_to_map by (by rewrite abs_keys).
  rewrite list_elem_of_fmap. split.
  - intros ([u' v'] & [= <- <-] & Hin). apply list_elem_of_lookup in Hin as [k Hk].
    apply entries_lookup in Hk as [? Hk]; [|lia]. exists (Z.of_nat k). split; [lia|done].
  - intros (j & Hj & E). exists (mkItem u v). split; [done|].
    apply list_elem_of_lookup. exists (Z.to_nat j). apply entries_lookup; [lia|].
    rewrite Z2Nat.id by lia. split; [lia|done].
Qed.

Lemma abs_size l : list_inv l -> Z.of_nat (base.size (abs l)) = numbers l.
Proof.
  intros (Hn & Hd & _). unfold abs. rewrite map_size_list_to_map by (by rewrite abs_keys).
  rewrite length_fmap, entries_length. lia.
Qed.

(** The scan decides membership in the abstract map. *)
Lemma find_user_spec l u : list_inv l -> strlen u < USERNAMEMAXLEN ->
  exists r, find_user l u = Some r /\
    match r with
    | Some j => 0 <= j < numbers l /\ it_username (items l j) = u
                /\ abs l !! u = Some (it_uid (items l j))
    | None => abs l !! u = None
    end.
Proof.
  intros Hi Hu. pose proof Hi as ([H0 H1] & _). unfold find_user.
  destruct (find_index_spec (Z.to_nat (numbers l)) l 0 u) as (r & E & Hr); [lia..|].
  exists r. split; [done|]. destruct r as [j|].
  - destruct Hr as [Hj Hm]. rewrite matches_spec in Hm by done. apply String.eqb_eq in Hm.
    split; [done|]. split; [done|]. apply abs_lookup; [done|]. exists j. split; [done|].
    destruct (items l j). by simpl in *; subst.
  - destruct (abs l !! u) as [v|] eqn:Ea; [|done]. apply abs_lookup in Ea as (j & Hj & Ej); [|done].
    specialize (Hr j Hj). rewrite matches_spec, Ej in Hr by done. simpl in Hr.
    by rewrite String.eqb_refl in Hr.
Qed.

Lemma names_abs l u : list_inv l -> abs l !! u = None -> u ∉ it_username <$> entries l.
Proof.
  intros Hi Hn [it [-> Hin]]%list_elem_of_fmap. apply list_elem_of_lookup in Hin as [k Hk].
  pose proof Hi as ([H0 _] & _). apply entries_lookup in Hk as [Hk E]; [|lia].
  assert (abs l !! it_username it = Some (it_uid it)); [|congruence].
  apply abs_lookup; [done|]. exists (Z.of_nat k). split; [lia|]. rewrite E. by destruct it.
Qed.

(** Appending an entry. *)
Lemma store_entries l it : 0 <= numbers l ->
  entries (mkShm (numbers l + 1) (fun j => if j =? numbers l then it else items l j))
  = (entries l ++ [it])%list.
Proof.
  intros H0. unfold entries. simpl. replace (Z.to_nat (numbers l + 1)) with (S (Z.to_nat (numbers l))) by lia.
  rewrite seq_S, map_app. simpl. f_equal.
  - apply map_ext_in. intros k Hk. apply in_seq in Hk. destruct (Z.eqb_spec (Z.of_nat k) (numbers l)); [lia|done].
  - rewrite Z2Nat.id by lia. by rewrite Z.eqb_refl.
Qed.

Lemma add_inv_abs l u d : list_inv l -> strlen u < USERNAMEMAXLEN -> abs l !! u = None ->
  numbers l + 1 < MAX_ITEMS_IN_TABLE ->
  let l' := mkShm (numbers l + 1) (fun j => if j =? numbers l then mkItem u d else items l j) in
  list_inv l' /\ abs l' = <[u := d]> (abs l).
Proof.
  intros Hi Hu Hn Hm l'. pose proof Hi as ([H0 H1] & Hd & Hf).
  assert (entries l' = (entries l ++ [mkItem u d])%list) as E by (by apply store_entries).
  pose proof (names_abs l u Hi Hn) as Hnot.
  assert (NoDup (it_username <$> (mkItem u d :: entries l))) as Hd'.
  { rewrite fmap_cons. by apply list.NoDup_cons. }
  split.
  - split; [simpl; lia|]. rewrite E. split.
    + by rewrite <- Permutation_cons_append.
    + apply list.Forall_app. split; [done|]. by apply list.Forall_singleton.
  - unfold abs. rewrite E.
    rewrite (list_to_map_proper _ ((u, d) :: ((fun it => (it_username it, it_uid it)) <$> entries l))).
    + done.
    + rewrite abs_keys, <- Permutation_cons_append. done.
    + by rewrite <- Permutation_cons_append.
Qed.

(** Removing an entry. *)
Lemma removed_entries l i n its : 0 <= i < numbers l -> n = numbers l - 1 ->
  (forall j, 0 <= j < n -> its j = if j <? i then items l j else items l (j + 1)) ->
  entries (mkShm n its) = delete (Z.to_nat i) (entries l).
Proof.
  intros Hi -> Hits. apply list_eq. intros k. apply option_eq. intros it.
  rewrite entries_lookup by (simpl; lia). simpl.
  destruct (decide (k < Z.to_nat i)%nat).
  - rewrite list_lookup_delete_lt, entries_lookup by lia.
    split; intros [Hk E]; rewrite Hits in * by lia; destruct (Z.ltb_spec (Z.of_nat k) i); try lia;
      (split; [lia|done]).
  - rewrite list_lookup_delete_ge, entries_lookup by lia.
    replace (Z.of_nat (S k)) with (Z.of_nat k + 1) by lia.
    split; intros [Hk E]; rewrite Hits in * by lia; destruct (Z.ltb_spec (Z.of_nat k) i); try lia;
      (split; [lia|done]).
Qed.

Lemma del_inv_abs l i l' : list_inv l -> 0 <= i < numbers l -> 0 <= numbers l' < numbers l ->
  entries l' = delete (Z.to_nat i) (entries l) ->
  list_inv l' /\ abs l' = delete (it_username (items l i)) (abs l).
Proof.
  intros (Hn & Hd & Hf) Hi Hn' E.
  assert (entries l !! Z.to_nat i = Some (items l i)) as Ei.
  { apply entries_lookup; [lia|]. rewrite Z2Nat.id by lia. split; [lia|done]. }
  assert (entries l ≡ₚ items l i :: entries l') as P.
  { rewrite E. by apply delete_Permutation. }
  rewrite P in Hd, Hf. rewrite fmap_cons in Hd. apply list.NoDup_cons in Hd as [Hnot Hd].
  apply list.Forall_cons in Hf as [_ Hf].
  split; [split; [lia|done]|]. unfold abs at 2.
  rewrite (list_to_map_proper _ ((fun it => (it_username it, it_uid it)) <$> (items l i :: entries l'))).
  - rewrite fmap_cons. simpl. rewrite delete_insert_id; [done|].
    apply not_elem_of_list_to_map_1. by rewrite abs_keys.
  - rewrite abs_keys, P, fmap_cons. by apply list.NoDup_cons.
  - by rewrite P.
Qed.

Definition remove_at (l : shm_structure) (j : Z) : option (shm_structure * Z) :=
  if j =? numbers l - 1 then Some (mkShm (numbers l - 1) (items l), 0)
  else l' ← memmove_down l j (numbers l - j - 1); Some (mkShm (numbers l' - 1) (items l'), 0).

Lemma delete_loop_find n l i u :
  delete_loop n l i u (fun _ => true)
  = (r ← find_index n l i u; match r with Some j => remove_at l j | None => Some (l, -2) end).
Proof.
  revert i. induction n as [|n IH]; intros i; simpl; [done|].
  destruct (i <? numbers l); [|done]. destruct (item_at l i) as [it|]; simpl; [|done].
  destruct (strncmp_eq _ _ _); [done|]. apply IH.
Qed.

Lemma remove_at_spec l j : list_inv l -> 0 <= j < numbers l ->
  exists l', remove_at l j = Some (l', 0) /\ list_inv l'
    /\ abs l' = delete (it_username (items l j)) (abs l).
Proof.
  intros Hi Hj. pose proof Hi as ([H0 H1] & _). unfold remove_at.
  destruct (Z.eqb_spec j (numbers l - 1)) as [->|Hne].
  - eexists. split; [done|]. apply del_inv_abs; simpl; [done|lia|lia|].
    apply removed_entries; [lia|done|]. intros j Hj'.
    destruct (Z.ltb_spec j (numbers l - 1)); [done|lia].
  - unfold memmove_down, in_array.
    destruct (Z.leb_spec 0 j); [|lia]. destruct (Z.ltb_spec j MAX_ITEMS_IN_TABLE); [|lia].
    destruct (Z.leb_spec 0 (numbers l - j - 1)); [|lia].
    destruct (Z.ltb_spec (j + (numbers l - j - 1)) MAX_ITEMS_IN_TABLE); [|lia]. simpl.
    eexists. split; [done|]. apply del_inv_abs; simpl; [done|lia|lia|].
    apply removed_entries; [lia|done|]. intros k Hk.
    destruct (Z.leb_spec j k), (Z.ltb_spec k (j + (numbers l - j - 1))), (Z.ltb_spec k j);
      simpl; done || lia.
Qed.

Lemma run_add `{HashOrder} um l u a : list_inv l -> strlen u < USERNAMEMAXLEN ->
  exists l', add_user_to_list um true true (Some l) u a
             = Some (Some l', snd (spec_op (get_uid um) (OpAdd u a) (abs l)))
    /\ list_inv l' /\ abs l' = fst (spec_op (get_uid um) (OpAdd u a) (abs l)).
Proof.
  intros Hi Hu. pose proof Hi as ([H0 H1] & _).
  destruct (find_user_spec l u Hi Hu) as (r & Er & Hr).
  unfold add_user_to_list, is_user_in_list, spec_op. rewrite Er. simpl.
  destruct r as [j|].
  - destruct Hr as (_ & _ & ->). exists l. done.
  - rewrite Hr, abs_size, s64_id by (done || unfold in_s64, MAX_ITEMS_IN_TABLE in *; lia). simpl.
    destruct (Z.eqb_spec (numbers l + 1) MAX_ITEMS_IN_TABLE); [by exists l|].
    unfold store_item, in_array. destruct (Z.leb_spec 0 (numbers l)); [|lia].
    destruct (Z.ltb_spec (numbers l) MAX_ITEMS_IN_TABLE); [|lia]. simpl.
    rewrite s64_id by (unfold in_s64, MAX_ITEMS_IN_TABLE in *; lia).
    rewrite strlcpy_str_id by done.
    eexists. split; [done|]. by apply add_inv_abs; [..|lia].
Qed.

Lemma run_del l u : list_inv l -> strlen u < USERNAMEMAXLEN ->
  exists l', delete_user_from_list (fun _ => true) (Some l) u
             = Some (Some l', match abs l !! u with Some _ => 0 | None => -2 end)
    /\ list_inv l' /\ abs l' = delete u (abs l).
Proof.
  intros Hi Hu. destruct (find_user_spec l u Hi Hu) as (r & Er & Hr).
  unfold delete_user_from_list. rewrite delete_loop_find.
  change (find_index (Z.to_nat (numbers l)) l 0 u) with (find_user l u). rewrite Er. simpl.
  destruct r as [j|].
  - destruct Hr as (Hj & <- & ->). destruct (remove_at_spec l j Hi Hj) as (l' & -> & Hi' & Ha).
    by exists l'.
  - rewrite Hr. exists l. split; [done|]. split; [done|]. by rewrite delete_id.
Qed.

Lemma clear_inv : list_inv clear_bad_users_list /\ abs clear_bad_users_list = ∅.
Proof. split; [split; [done|split; constructor]|done]. Qed.

(** Each operation preserves the invariant and acts on the abstract map as
    specified, with the specified result. *)
Lemma run_op_refines `{HashOrder} um o l : list_inv l -> strlen (op_name o) < USERNAMEMAXLEN ->
  exists l', run_op um o (Some l) = Some (Some l', snd (spec_op (get_uid um) o (abs l)))
    /\ list_inv l' /\ abs l' = fst (spec_op (get_uid um) o (abs l)).
Proof.
  intros Hi Hu. destruct o as [u a|u|]; simpl in Hu.
  - by apply run_add.
  - destruct (run_del l u Hi Hu) as (l' & E & Hi' & Ha). exists l'.
    cbn [run_op spec_op]. rewrite E. destruct (abs l !! u) eqn:El; [done|]. simpl.
    by rewrite Ha, delete_id.
  - exists clear_bad_users_list. split; [done|]. apply clear_inv.
Qed.

Fixpoint run_ops `{HashOrder} (um : option (gmap string UserMap)) (os : list list_op)
    (bl : option shm_structure) : option (option shm_structure * list Z) :=
  match os with
  | [] => Some (bl, [])
  | o :: os => '(bl, r) ← run_op um o bl; '(bl, rs) ← run_ops um os bl; Some (bl, r :: rs)
  end.

Fixpoint spec_ops (uid_of : string -> Z) (os : list list_op) (m : gmap string Z)
    : gmap string Z * list Z :=
  match os with
  | [] => (m, [])
  | o :: os => let '(m, r) := spec_op uid_of o m in
               let '(m, rs) := spec_ops uid_of os m in (m, r :: rs)
  end.

(** The client loop stops after at most 396 attempts. *)
(** The semaphore is free at once. *)
Lemma client_loop_first {T} fuel tries opens (x fnd : T) k trys reopen : (0 < fuel)%nat ->
  tries k = WOk -> client_loop fuel tries opens (Some x) fnd k trys reopen = Some (mkRun x true (S k)).
Proof. intros Hf Ht. destruct fuel as [|fuel]; [lia|]. simpl. by rewrite Ht. Qed.

Lemma client_loop_bounded {T} fuel tries opens (x fnd : T) k trys reopen :
  1 <= trys <= 99 -> 0 <= reopen <= 3 ->
  (forall n, opens n = true) ->
  (3 - reopen) * 99 + (99 - trys) < Z.of_nat fuel ->
  exists r, client_loop fuel tries opens (Some x) fnd k trys reopen = Some r
    /\ Z.of_nat (run_tries r) <= Z.of_nat k + (3 - reopen) * 99 + (99 - trys) + 1
    /\ (run_fnd r = if run_got r then x else fnd)
    /\ (run_got r = true <-> exists n, (k <= n < run_tries r)%nat /\ tries n = WOk)
    /\ (run_got r = false ->
        tries (pred (run_tries r)) = WError
        \/ Z.of_nat (run_tries r) = Z.of_nat k + (3 - reopen) * 99 + (99 - trys) + 1).
Proof.
  revert k trys reopen. induction fuel as [|fuel IH]; intros k trys reopen Ht Hr Ho Hf; [lia|].
  simpl. destruct (tries k) eqn:E.
  - exists (mkRun x true (S k)). simpl. split; [done|]. split; [lia|]. split; [done|].
    split; [|done]. split; [|done]. intros _. exists k. split; [lia|done].
  - assert (forall r, (run_got r = true <-> exists n, (S k <= n < run_tries (T := T) r)%nat /\ tries n = WOk) ->
      (run_got r = true <-> exists n, (k <= n < run_tries r)%nat /\ tries n = WOk)) as G.
    { intros r G1. rewrite G1. split; intros (n & Hn & En); exists n; (split; [|done]); [lia|].
      destruct (Nat.eq_dec n k) as [->|]; [congruence|lia]. }
    rewrite !Ho. destruct (Z.eqb_spec (trys + 1) 100).
    + destruct (Z.eqb_spec (reopen + 1) 4).
      * exists (mkRun fnd false (S k)). simpl. split; [done|]. split; [lia|]. split; [done|].
        split; [split; [done|]|right; lia]. intros (n & Hn & En).
        assert (n = k) as -> by lia. congruence.
      * destruct (IH (S k) 1 (reopen + 1)) as (r & -> & Hb & Hx & G1 & G2); [lia..|done|lia|].
        exists r. split; [done|]. split; [lia|]. split; [done|]. split; [by apply G|].
        intros Hg. destruct (G2 Hg); [by left|right; lia].
    + destruct (IH (S k) (trys + 1) reopen) as (r & -> & Hb & Hx & G1 & G2); [lia..|done|lia|].
      exists r. split; [done|]. split; [lia|]. split; [done|]. split; [by apply G|].
      intros Hg. destruct (G2 Hg); [by left|right; lia].
  - exists (mkRun fnd false (S k)). simpl. split; [done|]. split; [lia|]. split; [done|].
    split; [split; [done|]|by left]. intros (n & Hn & En).
    assert (n = k) as -> by lia. congruence.
Qed.

Lemma lookup_uid_spec l u : list_inv l -> strlen u < USERNAMEMAXLEN ->
  lookup_uid (Some l) u = Some (default 0 (abs l !! u)).
Proof.
  intros Hi Hu. unfold lookup_uid. destruct (find_user_spec l u Hi Hu) as (r & -> & Hr). simpl.
  destruct r as [j|]; [|by rewrite Hr]. destruct Hr as (Hj & _ & ->).
  unfold item_at, in_array. destruct Hi as ([H0 H1] & _).
  destruct (Z.leb_spec 0 j); [|lia]. by destruct (Z.ltb_spec j MAX_ITEMS_IN_TABLE); [|lia].
Qed.

(** * Properties *)

(** C13: The shared memory list of restricted users refines a finite map from user names to
    LVE ids: every sequence of additions, deletions and clearings runs inside the array, returns
    the codes the map predicts, keeps the list free of duplicates, and is_user_in_list answers
    membership in the map. *)
Theorem bad_list_refines_map `{HashOrder} (um : option (gmap string UserMap)) (os : list list_op) :
  Forall (fun o => strlen (op_name o) < USERNAMEMAXLEN) os ->
  exists l, run_ops um os (Some clear_bad_users_list)
            = Some (Some l, snd (spec_ops (get_uid um) os ∅))
    /\ list_inv l
    /\ abs l = fst (spec_ops (get_uid um) os ∅)
    /\ forall u, strlen u < USERNAMEMAXLEN ->
         is_user_in_list (Some l) u = Some (match abs l !! u with Some _ => 1 | None => 0 end).
Proof.
  destruct clear_inv as [Hi <-]. generalize dependent clear_bad_users_list.
  induction os as [|o os IH]; intros l Hi Hf; simpl.
  - exists l. split; [done|]. split; [done|]. split; [done|]. intros u Hu.
    unfold is_user_in_list. destruct (find_user_spec l u Hi Hu) as (r & -> & Hr). simpl.
    destruct r as [j|]; [by destruct Hr as (_ & _ & ->)|by rewrite Hr].
  - apply list.Forall_cons in Hf as [Ho Hf].
    destruct (run_op_refines um o l Hi Ho) as (l1 & E1 & Hi1 & Ha1).
    rewrite E1. cbn [mbind option_bind]. destruct (IH l1 Hi1 Hf) as (l2 & E2 & Hi2 & Ha2 & Hu2).
    rewrite E2. exists l2. rewrite Ha1 in *.
    destruct (spec_op (get_uid um) o (abs l)) as [m r]. cbn [fst snd] in *.
    destruct (spec_ops (get_uid um) os m) as [m' rs]. done.
Qed.

Lemma bad_list_refines_map_witness :
  exists l, run_ops (H := default_order) None
              [OpAdd "bob" 1; OpAdd "eve" 0; OpAdd "bob" 0; OpDel "bob"; OpDel "joe"]
              (Some clear_bad_users_list)
            = Some (Some l, [0; 0; 0; 0; -2])
    /\ list_inv l /\ abs l = {[ "eve" := 3 ]}
    /\ forall u, strlen u < USERNAMEMAXLEN ->
         is_user_in_list (Some l) u = Some (match abs l !! u with Some _ => 1 | None => 0 end).
Proof.
  exact (bad_list_refines_map (H := default_order) None
           [OpAdd "bob" 1; OpAdd "eve" 0; OpAdd "bob" 0; OpDel "bob"; OpDel "joe"]
           ltac:(repeat constructor)).
Defined.

(** Attempts that fail within a round. *)
Lemma client_loop_skip {T} d fuel tries opens (x : option T) fnd k trys reopen :
  (forall m, (k <= m < k + d)%nat -> tries m = WAgain) -> trys + Z.of_nat d < 100 -> 1 <= trys ->
  client_loop (d + fuel) tries opens x fnd k trys reopen
  = client_loop fuel tries opens x fnd (k + d) (trys + Z.of_nat d) reopen.
Proof.
  revert k trys. induction d as [|d IH]; intros k trys Hm Ht H1; [by rewrite Nat.add_0_r, Z.add_0_r|].
  cbn [client_loop Nat.add]. rewrite Hm by lia. destruct (Z.eqb_spec (trys + 1) 100); [lia|].
  rewrite IH by (lia || intros; apply Hm; lia). f_equal; lia.
Qed.

(** A round of 99 of them, and the reopening after it. *)
Lemma client_loop_round {T} fuel tries opens (x : option T) fnd k reopen :
  (forall m, (k <= m < k + 99)%nat -> tries m = WAgain) ->
  client_loop (99 + fuel) tries opens x fnd k 1 reopen
  = if opens (Z.to_nat (reopen + 1)) then
      if reopen + 1 =? 4 then Some (mkRun fnd false (k + 99))
      else client_loop fuel tries opens x fnd (k + 99) 1 (reopen + 1)
    else None.
Proof.
  intros Hm. change (99 + fuel)%nat with (98 + S fuel)%nat. rewrite client_loop_skip by (lia || intros; apply Hm; lia).
  cbn [client_loop]. rewrite Hm by lia. change (1 + Z.of_nat 98 + 1 =? 100) with true. cbv iota zeta.
  replace (S (k + 98)) with (k + 99)%nat by lia. by destruct (reopen + 1 =? 4), (opens _).
Qed.

Lemma client_loop_rounds {T} (j fuel : nat) tries opens (x : option T) fnd : (j <= 3)%nat ->
  (forall m, (m < 99 * j)%nat -> tries m = WAgain) -> (forall i, (1 <= i <= j)%nat -> opens i = true) ->
  client_loop (99 * j + fuel) tries opens x fnd 0 1 0
  = client_loop fuel tries opens x fnd (99 * j) 1 (Z.of_nat j).
Proof.
  revert fuel. induction j as [|j IH]; intros fuel Hj Hm Ho; [done|].
  replace (99 * S j + fuel)%nat with (99 * j + (99 + fuel))%nat by lia.
  rewrite IH by (lia || intros; (apply Hm || apply Ho); lia).
  rewrite client_loop_round by (intros; apply Hm; lia).
  replace (Z.to_nat (Z.of_nat j + 1)) with (S j) by lia. rewrite Ho by lia.
  destruct (Z.eqb_spec (Z.of_nat j + 1) 4); [lia|]. f_equal; lia.
Qed.

(** C36: A client that looks a user up in the shared list ends after at most 396 attempts to
    take the semaphore, or crashes, and its result follows from the first attempt that does not
    find the semaphore busy: when the semaphore is got, the LVE id listed for the user, or 0,
    with one wait and one post; when the attempt fails for another reason, 0 and a post without
    a wait. When all 396 attempts find it busy, the result is 0 and a post without a wait. After
    every 99 busy attempts the list is opened anew, and the client crashes when this fails.
    Conditions: the list is well formed, the name is shorter than 64 characters, and the first
    opening succeeds. *)
Theorem client_lookup_bounded (l : shm_structure) (tries : nat -> wait_result)
    (opens : nat -> bool) (u : string) :
  list_inv l -> strlen u < USERNAMEMAXLEN -> opens 0%nat = true ->
  let run := is_user_in_bad_list_cleint_persistent (Some l) tries opens u in
  is_user_in_bad_list_cleint (Some l) tries opens u = run
  /\ (forall n, (n < 396)%nat -> (forall m, (m < n)%nat -> tries m = WAgain) -> tries n <> WAgain ->
        (forall i, (1 <= i <= n / 99)%nat -> opens i = true) ->
        run = Some (match tries n with
                    | WOk => mkClientResult (default 0 (abs l !! u)) 1 1
                    | _ => mkClientResult 0 0 1
                    end))
  /\ ((forall m, (m < 396)%nat -> tries m = WAgain) -> (forall i, (1 <= i <= 4)%nat -> opens i = true) ->
        run = Some (mkClientResult 0 0 1))
  /\ (forall i, (1 <= i <= 4)%nat -> (forall m, (m < 99 * i)%nat -> tries m = WAgain) ->
        (forall j, (1 <= j < i)%nat -> opens j = true) -> opens i = false -> run = None).
Proof.
  intros Hi Hu Ho. cbv zeta. unfold is_user_in_bad_list_cleint, is_user_in_bad_list_cleint_persistent.
  rewrite Ho, lookup_uid_spec by done. split; [done|]. split; [|split].
  - intros n Hn Hm Hne Hop. pose proof (Nat.div_mod_eq n 99) as Hd. pose proof (Nat.mod_upper_bound n 99 ltac:(lia)) as Hr.
    assert (n / 99 < 4)%nat as H4 by (apply Nat.Div0.div_lt_upper_bound; lia).
    replace client_fuel with (99 * (n / 99) + (n mod 99 + S (client_fuel - n - 1)))%nat by (unfold client_fuel; lia).
    rewrite client_loop_rounds by (lia || done || intros; apply Hm; lia).
    rewrite client_loop_skip by (lia || intros; apply Hm; lia).
    replace (99 * (n / 99) + n mod 99)%nat with n by lia. cbn [client_loop]. by destruct (tries n).
  - intros Hm Hop. replace client_fuel with (99 * 3 + (99 + 4))%nat by done.
    rewrite client_loop_rounds by (lia || intros; (apply Hm || apply Hop); lia).
    rewrite client_loop_round by (intros; apply Hm; lia). by rewrite Hop by (cbn; lia).
  - intros i Hi4 Hm Hop Hf. replace client_fuel with (99 * (i - 1) + (99 + (client_fuel - 99 * i)))%nat by (unfold client_fuel; lia).
    rewrite client_loop_rounds by (lia || intros; (apply Hm || apply Hop); lia).
    rewrite client_loop_round by (intros; apply Hm; lia). replace (Z.to_nat (Z.of_nat (i - 1) + 1)) with i by lia.
    by rewrite Hf.
Qed.

Lemma client_lookup_bounded_witness :
  let l := mkShm 1 (fun _ => mkItem "eve" 507) in
  let tries n := if Nat.ltb n 120 then WAgain else WOk in
  is_user_in_bad_list_cleint_persistent (Some l) tries (fun _ => true) "eve" = Some (mkClientResult 507 1 1).
Proof.
  intros l tries. destruct (client_lookup_bounded l tries (fun _ => true) "eve") as (_ & H & _).
  - split; [done|]. split; [apply NoDup_singleton|]. by apply list.Forall_singleton.
  - done.
  - done.
  - rewrite (H 120%nat); [vm_compute; reflexivity|lia| |discriminate|done].
    intros m Hm. unfold tries. by rewrite (proj2 (Nat.ltb_lt m 120) Hm).
Defined.

(** A client that never gets the semaphore gives up after four rounds and posts it
    nevertheless: it raises a semaphore it has not taken, and answers 0. *)
Lemma client_posts_without_wait (l : shm_structure) (u : string) :
  list_inv l -> strlen u < USERNAMEMAXLEN ->
  is_user_in_bad_list_cleint (Some l) (fun _ => WAgain) (fun _ => true) u
  = Some (mkClientResult 0 0 1).
Proof.
  intros Hi Hu. unfold is_user_in_bad_list_cleint. rewrite lookup_uid_spec by done.
  destruct (client_loop_bounded client_fuel (fun _ => WAgain) (fun _ => true)
    (default 0 (abs l !! u)) 0 0 1 0)
    as (r & -> & Hb & Hx & G1 & G2); [lia..|done|unfold client_fuel; lia|].
  simpl. unfold finish_client. rewrite Hx. destruct (run_got r); [|done].
  destruct G1 as [G1 _]. destruct (G1 eq_refl) as (n & _ & E). done.
Qed.

(** The umask of the process is restored on every path of the daemon's
    set-up; the client's leaves it 0 when the semaphore cannot be opened. *)
Lemma init_restores_umask (e : shm_env) (p : shm_proc) :
  sh_umask (fst (init_bad_users_list e p)) = sh_umask p.
Proof.
  unfold init_bad_users_list.
  destruct (negb (0 <? e_open_excl e) && (e_open e <? 0)); [done|].
  destruct (match e_stat e with Some (uid, _) => _ | None => _ end) as [u pr].
  by destruct (e_mmap_ok e), (e_sem_ok e), (e_wait_ok e).
Qed.

Lemma init_client_leaks_umask (e : shm_env) (p : shm_proc) :
  0 < e_open_excl e -> e_mmap_ok e = true -> e_sem_ok e = false ->
  sh_umask (fst (init_bad_users_list_client e p)) = 0.
Proof.
  intros He Hm Hs. unfold init_bad_users_list_client. rewrite Hm, Hs.
  by destruct (Z.ltb_spec 0 (e_open_excl e)); [|lia].
Qed.
