(* ===== verification/WriteData.v ===== *)
(** The MySQL side ([src/governor_write_data.c]): the connection to the
    daemon, the reports on a thread, and the calls of the LVE library.  The
    kernel and [liblve] are the class [LveKernel]; the results of the socket
    calls are arguments. *)

From S2P Require Import Prelude CDouble CString Data ProcFs UserMap BadList.
Open Scope string_scope.
Open Scope Z_scope.

(** * Locks *)

Definition EPERM : Z := 1.
Definition EINTR : Z := 4.
Definition EBUSY : Z := 16.
Definition EINVAL : Z := 22.
Definition EINPROGRESS : Z := 115.

(** [n] attempts are left; [trylock k] is the result of the [k]-th. *)
Fixpoint try_lock2_loop (n : nat) (trylock : nat -> Z) (k : nat) : Z :=
  match n with
  | O => -1
  | S n =>
      let rc := trylock k in
      if rc =? 0 then 0 else if rc =? EBUSY then try_lock2_loop n trylock (S k) else -1
  end.
Definition try_lock2 (trylock : nat -> Z) : Z := try_lock2_loop 10 trylock 0.

(** The deadline is the time read plus 50 ms; [timedlock] is the result of
    [pthread_mutex_timedlock] for a deadline. *)
Definition lock_deadline (tim : Z * Z) : Z * Z := (fst tim, s64 (snd tim + 50000000)).

Definition try_lock (trylock : Z) (tim : Z * Z) (timedlock : Z * Z -> Z) : Z :=
  if trylock =? 0 then 0
  else if trylock =? EBUSY then
    let rc := timedlock (lock_deadline tim) in if nonzero rc then -1 else rc
  else -1.

(** * The connection *)

Record sock_data := mkSock { socket : Z; status : Z }.

(** The results of the system calls of a connection: [poll k] is the result
    and the [errno] of the [k]-th [poll]. *)
Record conn_io := mkConnIo {
  cn_getfl : Z; cn_setfl : Z; cn_connect : Z; cn_errno : Z; cn_poll : nat -> Z * Z;
  cn_pollnval : bool; cn_pollhup : bool; cn_pollerr : bool; cn_getsockopt : Z; cn_error : Z;
  cn_select : Z; cn_isset : bool
}.

(** The polls up to the first that was not interrupted. *)
Fixpoint poll_loop (fuel : nat) (poll : nat -> Z * Z) (k : nat) : option Z :=
  match fuel with
  | O => None
  | S fuel =>
      let '(ret, errno) := poll k in
      if ret <? 0 then (if errno =? EINTR then poll_loop fuel poll (S k) else Some ret) else Some ret
  end.

(** The result and whether the socket was closed; [None] while the polls go
    on being interrupted. *)
Definition connection_with_timeout_poll (fuel : nat) (io : conn_io) : option (Z * bool) :=
  if cn_getfl io <? 0 then Some (-1, false)
  else if cn_setfl io <? 0 then Some (-1, false)
  else if (cn_connect io <? 0) && negb (cn_errno io =? EINPROGRESS) && negb (cn_errno io =? EINTR)
  then Some (-1, false)
  else
    ret ← poll_loop fuel (cn_poll io) 0;
    Some (if ret <? 0 then (-1, true)
          else if ret =? 0 then (-1, true)
          else if cn_pollnval io then (-1, true)
          else if cn_pollhup io then (-1, true)
          else if cn_pollerr io then (-1, true)
          else if cn_getsockopt io <? 0 then (-1, true)
          else if nonzero (cn_error io) then (-1, true)
          else (0, false)).

Definition connection_with_timeout_select (io : conn_io) : Z * bool :=
  if cn_getfl io <? 0 then (-1, false)
  else if cn_setfl io <? 0 then (-1, false)
  else if (cn_connect io <? 0) && negb (cn_errno io =? EINPROGRESS) then (-1, false)
  else if nonzero (cn_connect io) then
    if cn_select io <? 0 then (-1, true)
    else if cn_select io =? 0 then (-1, true)
    else if cn_isset io then
      if cn_getsockopt io <? 0 then (-1, true)
      else if nonzero (cn_error io) then (-1, true) else (0, false)
    else (-1, true)
  else (0, false).

(** The descriptors the process holds, besides the new state and result:
    [s] is the result of [socket]. *)
Definition connect_to_server_in (fuel : nat) (s : Z) (io : conn_io) (fds : gset Z)
    : option (sock_data * Z * gset Z) :=
  if s <? 0 then Some (mkSock (-1) 0, -1, fds)
  else
    let fds := {[s]} ∪ fds in
    '(rc, closed) ← connection_with_timeout_poll fuel io;
    let fds := if closed : bool then fds ∖ {[s]} else fds in
    Some (if rc <? 0 then (mkSock (-1) 0, -2, fds) else (mkSock s 1, 0, fds)).
Definition connect_to_server := connect_to_server_in.

Definition close_sock_in (sd : sock_data) (fds : gset Z) : sock_data * gset Z :=
  if nonzero (status sd) then (mkSock (socket sd) 0, fds ∖ {[socket sd]}) else (sd, fds).
Definition close_sock := close_sock_in.

(** * Reports *)

(** What a report finds: the ids, the two files, the clock, the lock and the
    number of bytes [send] takes. *)
Record report_io := mkReportIo {
  rp_pid : Z; rp_tid : Z; rp_stat : file_result; rp_io : file_result; rp_clock : Z * Z;
  rp_trylock : Z; rp_lock_clock : Z * Z; rp_timedlock : Z * Z -> Z; rp_sent : bool
}.

(** The message built. *)
Definition report (type : Z) (username : string) (io : report_io) : client_data :=
  let item1 := fst (get_proc_time (rp_stat io)) in
  let item2 := fst (get_io_stat (rp_io io)) in
  mkClientData type (rp_tid io) (rp_pid io) (strlcpy_str username USERNAMEMAXLEN)
    (s64 (u64 (stime item1 + utime item1))) (write_bytes item2) (read_bytes item2)
    (fst (rp_clock io)) (snd (rp_clock io)).

(** The message handed to [send], if the call is reached, and the result. *)
Definition send_info (sd : sock_data) (username : string) (type : Z) (io : report_io)
    : option client_data * Z :=
  if socket sd <? 0 then (None, 0)
  else if nonzero (try_lock (rp_trylock io) (rp_lock_clock io) (rp_timedlock io)) then (None, -1)
  else (Some (report type username io), if rp_sent io then 0 else -1).

Definition send_info_begin (sd : sock_data) (username : string) := send_info sd username 0.
Definition send_info_end (sd : sock_data) (username : string) := send_info sd username 1.

(** * The LVE library *)

(** [sym] tells whether a name resolves. *)
Record lve_fns := mkFns {
  init_lve : bool; destroy_lve : bool; lve_enter_flags : bool; lve_exit : bool;
  lve_enter_pid : bool; is_in_lve : bool
}.
Definition no_fns : lve_fns := mkFns false false false false false false.

(** The functions found and whether the library may be used; [lib] is the
    success of [dlopen]. *)
Definition governor_load_lve_library (lib : bool) (sym : string -> bool) (f : lve_fns)
    : lve_fns * bool :=
  if lib then
    let f :=
      if negb (sym "init_lve") then no_fns
      else if negb (sym "destroy_lve") then no_fns
      else if negb (sym "lve_enter_flags") then no_fns
      else if negb (sym "lve_exit") then no_fns
      else if negb (sym "lve_enter_pid") then no_fns
      else mkFns true true true true true (sym "is_in_lve") in
    (f, lve_exit f)
  else (f, false).

(** [lve] is whether the handle is not null; [created] the success of
    [init_lve]. *)
Definition governor_init_lve (f : lve_fns) (created : bool) (lve : bool) : bool * Z :=
  let lve := if init_lve f then (if lve then lve else created) else lve in
  (lve, if lve then 0 else -1).

(** The list is mapped once the library is there; the result of the set-up
    is not looked at. *)
Definition governor_init_users_list (e : shm_env) (p : shm_proc) : shm_proc * Z :=
  (fst (init_bad_users_list_client e p), 0).

(** Whether [destroy_lve] and [dlclose] are called; the list is given up in
    any case. *)
Definition governor_destroy_lve (f : lve_fns) (lve handle : bool) (p : shm_proc) : bool * bool * shm_proc :=
  (destroy_lve f && lve, handle, fst (remove_bad_users_list_client p)).

(** The kernel, as a thread sees it: [current] is the LVE the thread is in,
    [owns k c] says that the cookie [c] lets it out.  The laws are those of
    the library's manual: a thread that has entered is in that LVE and its
    cookie lets it out; a failed entry changes nothing, and fails with
    [EPERM] only inside an LVE; leaving with the right cookie, or outside,
    ends outside. *)
Class LveKernel (K : Type) := {
  k_enter : K -> Z -> Z -> K * Z * Z * Z;   (** LVE id, cookie; rc, errno, cookie *)
  k_exit : K -> Z -> K;
  k_enter_pid : K -> Z -> Z -> K * Z;
  current : K -> option Z;
  owns : K -> Z -> Prop;
  k_enter_ok : forall k uid c k' e c', k_enter k uid c = (k', 0, e, c') ->
    current k' = Some uid /\ owns k' c';
  k_enter_fail : forall k uid c k' rc e c', k_enter k uid c = (k', rc, e, c') -> rc <> 0 ->
    k' = k /\ c' = c /\ (e = EPERM -> current k <> None);
  k_exit_out : forall k c, current k = None \/ owns k c -> current (k_exit k c) = None
}.

(** A thread: the kernel's view and the thread-local [lve_uid]. *)
Record lve_world (K : Type) := mkWorld { w_kernel : K; w_uid : Z }.
Arguments mkWorld {K}. Arguments w_kernel {K}. Arguments w_uid {K}.

(** What the thread finds in the shared list, and whether the library and
    its handle are there. *)
Record lve_env := mkLveEnv {
  le_fns : lve_fns; le_lve : bool; le_list : option shm_structure;
  le_tries : nat -> wait_result; le_opens : nat -> bool
}.

Section lve.
Context {K : Type} `{LveKernel K} (env : lve_env).

(** [lve_enter_flags] with the result of the two [governor_enter_lve*]. *)
Definition enter_lve (w : lve_world K) (uid cookie : Z) : lve_world K * Z * Z * bool :=
  let '(k, rc, errno, cookie) := k_enter (w_kernel w) uid cookie in
  if nonzero rc then
    (mkWorld k (w_uid w), cookie, (if errno =? EPERM then 0 else -1), false)
  else (mkWorld k (w_uid w), cookie, 0, true).

Definition governor_enter_lve (w : lve_world K) (cookie : Z) (username : string)
    : option (lve_world K * Z * Z) :=
  let w := mkWorld (w_kernel w) 0 in
  r ← is_user_in_bad_list_cleint_persistent (le_list env) (le_tries env) (le_opens env) username;
  let container_lve := cr_uid r in
  Some (if nonzero container_lve && lve_enter_flags (le_fns env) && le_lve env then
          let '(w, cookie, rc, entered) := enter_lve w (u32 container_lve) cookie in
          (if entered : bool then mkWorld (w_kernel w) (u32 container_lve) else w, cookie, rc)
        else (w, cookie, 1)).

Definition governor_enter_lve_light (w : lve_world K) (cookie : Z) : lve_world K * Z * Z :=
  if lve_enter_flags (le_fns env) && le_lve env && nonzero (w_uid w) then
    let '(w, cookie, rc, _) := enter_lve w (w_uid w) cookie in (w, cookie, rc)
  else (w, cookie, 1).

Definition governor_lve_exit (w : lve_world K) (cookie : Z) : lve_world K :=
  if lve_exit (le_fns env) && le_lve env then mkWorld (k_exit (w_kernel w) cookie) (w_uid w) else w.

Definition governor_lve_exit_null (w : lve_world K) : lve_world K :=
  if lve_exit (le_fns env) then mkWorld (k_exit (w_kernel w) 0) (w_uid w) else w.

Definition governor_lve_enter_pid (w : lve_world K) (pid : Z) : lve_world K * Z :=
  if lve_enter_pid (le_fns env) then
    let '(k, rc) := k_enter_pid (w_kernel w) BAD_LVE pid in
    (mkWorld k (w_uid w), if nonzero rc then -1 else 0)
  else (w, 0).

Definition governor_lve_enter_pid_user (w : lve_world K) (pid : Z) (username : option string)
    : option (lve_world K * Z) :=
  match username with
  | Some username =>
      if lve_enter_pid (le_fns env) then
        r ← is_user_in_bad_list_cleint_persistent (le_list env) (le_tries env) (le_opens env) username;
        if nonzero (cr_uid r) then
          let '(k, rc) := k_enter_pid (w_kernel w) (u32 (cr_uid r)) pid in
          Some (mkWorld k (w_uid w), if nonzero rc then -1 else 0)
        else Some (w, 0)
      else Some (w, 0)
  | None => Some (w, 0)
  end.

Definition governor_is_in_lve (w : lve_world K) : Z :=
  if is_in_lve (le_fns env) && le_lve env then b2z (bool_decide (current (w_kernel w) <> None)) else -1.
End lve.

(** * Lemmas *)

Lemma poll_loop_done poll n k : (forall i, (i < n)%nat -> poll (k + i)%nat = (-1, EINTR)) ->
  (fst (poll (k + n)%nat) < 0 -> snd (poll (k + n)%nat) <> EINTR) ->
  forall fuel, (n < fuel)%nat -> poll_loop fuel poll k = Some (fst (poll (k + n)%nat)).
Proof.
  revert k. induction n as [|n IH]; intros k Hi Hn fuel Hf; (destruct fuel as [|fuel]; [lia|]); simpl.
  - rewrite Nat.add_0_r in *. destruct (poll k) as [ret e]. cbn [fst snd] in *.
    destruct (Z.ltb_spec ret 0); [|done]. destruct (Z.eqb_spec e EINTR); [|done].
    by destruct (Hn ltac:(done)).
  - pose proof (Hi 0%nat ltac:(lia)) as H0. rewrite Nat.add_0_r in H0. rewrite H0. simpl.
    replace (k + S n)%nat with (S k + n)%nat in * by lia. apply IH; [|done|lia].
    intros i Hlt. replace (S k + i)%nat with (k + S i)%nat by lia. apply Hi. lia.
Qed.

Lemma try_lock2_spec trylock :
  try_lock2 trylock = 0
  <-> exists n, (n < 10)%nat /\ trylock n = 0 /\ forall m, (m < n)%nat -> trylock m = EBUSY.
Proof.
  assert (forall n k, try_lock2_loop n trylock k = 0 <->
    exists i, (i < n)%nat /\ trylock (k + i)%nat = 0 /\ forall m, (m < i)%nat -> trylock (k + m)%nat = EBUSY)
    as G; [|apply (G 10%nat 0%nat)].
  induction n as [|n IH]; intros k; cbn [try_lock2_loop]; [split; [done|]; intros (i & Hi & _); lia|].
  destruct (Z.eqb_spec (trylock k) 0) as [E|Hne]; [|destruct (Z.eqb_spec (trylock k) EBUSY) as [E|Hnb]].
  - split; [|done]. intros _. exists 0%nat. rewrite Nat.add_0_r. split; [lia|]. split; [done|]. intros; lia.
  - rewrite IH. split.
    + intros (i & Hi & Ei & Hm). exists (S i). split; [lia|]. split; [by rewrite Nat.add_succ_r|].
      intros [|m] Hm'; [by rewrite Nat.add_0_r|]. rewrite Nat.add_succ_r. apply Hm. lia.
    + intros ([|i] & Hi & Ei & Hm); [rewrite Nat.add_0_r in Ei; congruence|].
      exists i. split; [lia|]. split; [by rewrite Nat.add_succ_r in Ei|].
      intros m Hlt. specialize (Hm (S m) ltac:(lia)). by rewrite Nat.add_succ_r in Hm.
  - split; [done|]. intros ([|i] & Hi & Ei & Hm); [rewrite Nat.add_0_r in Ei; congruence|].
    specialize (Hm 0%nat ltac:(lia)). rewrite Nat.add_0_r in Hm. congruence.
Qed.

(** The failures before the first [poll]: [fcntl], or a [connect] refused at
    once. *)
Definition fails_early (io : conn_io) : bool :=
  (cn_getfl io <? 0) || (cn_setfl io <? 0)
  || ((cn_connect io <? 0) && negb (cn_errno io =? EINPROGRESS) && negb (cn_errno io =? EINTR)).

(** A socket is connected when the poll reports it without an error. *)
Definition polls_ok (io : conn_io) (ret : Z) : bool :=
  (0 <? ret) && negb (cn_pollnval io) && negb (cn_pollhup io) && negb (cn_pollerr io)
  && negb (cn_getsockopt io <? 0) && negb (nonzero (cn_error io)).

Lemma connection_poll_spec fuel io n : (n < fuel)%nat ->
  (forall i, (i < n)%nat -> cn_poll io i = (-1, EINTR)) ->
  (fst (cn_poll io n) < 0 -> snd (cn_poll io n) <> EINTR) ->
  connection_with_timeout_poll fuel io
  = Some (if fails_early io then (-1, false)
          else if polls_ok io (fst (cn_poll io n)) then (0, false) else (-1, true)).
Proof.
  intros Hf Hi Hn. unfold connection_with_timeout_poll, fails_early.
  destruct (cn_getfl io <? 0); [done|]. destruct (cn_setfl io <? 0); [done|].
  destruct (_ && _ && _); [done|]. cbn [orb].
  rewrite (poll_loop_done (cn_poll io) n 0 Hi Hn fuel Hf). cbn [mbind option_bind]. f_equal.
  change (0 + n)%nat with n. unfold polls_ok. set (ret := fst _).
  destruct (Z.ltb_spec ret 0), (Z.ltb_spec 0 ret), (Z.eqb_spec ret 0); try lia; try done.
  by destruct (cn_pollnval io), (cn_pollhup io), (cn_pollerr io), (cn_getsockopt io <? 0),
    (nonzero (cn_error io)).
Qed.

(** * Properties *)

(** connect_to_server succeeds exactly when no step fails, polls that a signal
    interrupts being repeated, and then holds the new socket; a failure after the connect call
    closes it, but one before the first poll, such as a refused connection, leaves the
    descriptor open and forgets it. *)
Lemma connect_leaks_only_early (fuel n : nat) (s : Z) (io : conn_io) (fds : gset Z) :
  0 <= s -> s ∉ fds -> (n < fuel)%nat ->
  (forall i, (i < n)%nat -> cn_poll io i = (-1, EINTR)) ->
  (fst (cn_poll io n) < 0 -> snd (cn_poll io n) <> EINTR) ->
  exists sd rc fds', connect_to_server_in fuel s io fds = Some (sd, rc, fds')
    /\ (rc = 0 <-> fails_early io = false /\ polls_ok io (fst (cn_poll io n)) = true)
    /\ (rc = 0 -> sd = mkSock s 1 /\ fds' = {[s]} ∪ fds)
    /\ (rc <> 0 -> sd = mkSock (-1) 0 /\ fds' = if fails_early io then {[s]} ∪ fds else fds).
Proof.
  intros Hs Hfr Hf Hi Hn. unfold connect_to_server_in. destruct (Z.ltb_spec s 0); [lia|].
  rewrite (connection_poll_spec fuel io n Hf Hi Hn). cbn [mbind option_bind].
  destruct (fails_early io); [|destruct (polls_ok io _)]; eexists _, _, _; (split; [reflexivity|]); simpl.
  - split; [by split; [|intros []]|]. by split.
  - by split_and!.
  - split; [by split; [|intros []]|]. split; [done|]. intros _. split; [done|]. set_solver.
Qed.

(** A server that refuses: the descriptor stays open. *)
