(* ===== verification/Ld.v ===== *)
(** The interposer that is preloaded into MySQL ([src/ld.c]): a thread that
    works inside an LVE leaves it while it holds a mutex, since a throttled
    holder would stop every other thread.  The hooks are the record
    [gr_lve_t]; what the interposer needs of them is the class [HooksOk],
    which the functions of [src/governor_write_data.c] satisfy. *)

From S2P Require Import Prelude CDouble CString Data ProcFs UserMap BadList WriteData.
Open Scope string_scope.
Open Scope Z_scope.

(** * Hooks *)

(** The functions stored by [gr_init_hooks]; [W] is what they act on. *)
Record gr_lve_t (W : Type) := mkHooks {
  enter : W -> Z -> string -> option (W * Z * Z);
  enter_light : W -> Z -> W * Z * Z;
  exit : W -> Z -> W
}.
Arguments mkHooks {W}. Arguments enter {W}. Arguments enter_light {W}. Arguments exit {W}.

(** [inside w]: the thread is in an LVE; [good w c]: if it is, then the
    cookie [c] lets it out. *)
Class HooksOk {W : Type} (h : gr_lve_t W) := {
  inside : W -> bool;
  good : W -> Z -> Prop;
  good_outside : forall w c, inside w = false -> good w c;
  enter_good : forall w c u w' c' rc, good w c -> enter h w c u = Some (w', c', rc) ->
    good w' c' /\ (rc = 0 -> inside w' = true) /\ (rc <> 0 -> inside w' = inside w);
  light_good : forall w c w' c' rc, good w c -> enter_light h w c = (w', c', rc) ->
    good w' c' /\ (rc = 0 -> inside w' = true);
  exit_out : forall w c, good w c -> inside (exit h w c) = false
}.

(** * The thread *)

Record thread := mkThread {
  in_lve : Z; in_mutex_refcnt : Z; in_hook : Z; lve_cookie : Z
}.
Definition new_thread : thread := mkThread 0 0 0 0.

Definition set_hook (n : Z) (t : thread) : thread :=
  mkThread (in_lve t) (in_mutex_refcnt t) n (lve_cookie t).

(** * Initialisation *)

Inductive lib_state := MEMLOG_LIB_INIT_WAIT | MEMLOG_LIB_INIT_DONE | MEMLOG_LIB_DSTR_DONE.

(** The pointers to the real functions: not resolved, resolved, or the value
    1 that the macro [DL_RESOLVE] stores over a resolved one. *)
Inductive real_fn := Unresolved | Resolved | Garbage.
Record gr_general_t := mkGeneral { r_lock : real_fn; r_trylock : real_fn; r_unlock : real_fn }.

(** [found] is the success of [dlsym]. *)
Definition DL_RESOLVE (found : bool) (fn : real_fn) : real_fn :=
  match fn with
  | Unresolved => if found then Resolved else Unresolved
  | _ => Garbage
  end.
Definition __lib_init_hooks (dlsym : string -> bool) (real : gr_general_t) : gr_general_t :=
  mkGeneral (DL_RESOLVE (dlsym "pthread_mutex_lock") (r_lock real))
    (DL_RESOLVE (dlsym "pthread_mutex_trylock") (r_trylock real))
    (DL_RESOLVE (dlsym "pthread_mutex_unlock") (r_unlock real)).

(** The new state, the pointers and whether the call did the work. *)
Definition __lib_init (dlsym : string -> bool) (s : lib_state) (real : gr_general_t)
    : lib_state * gr_general_t * bool :=
  match s with
  | MEMLOG_LIB_INIT_WAIT => (MEMLOG_LIB_INIT_DONE, __lib_init_hooks dlsym real, true)
  | _ => (s, real, false)
  end.
Definition __lib_destroy (s : lib_state) : lib_state :=
  match s with MEMLOG_LIB_INIT_DONE => MEMLOG_LIB_DSTR_DONE | _ => s end.

(** [gr_init_hooks]: the compare-and-swap of [hooks] with itself succeeds
    unless another thread changed it in between, and is repeated then. *)
Definition gr_init_hooks {W} (dlsym : string -> bool) (h : option (gr_lve_t W)) (s : lib_state)
    (real : gr_general_t) : option (gr_lve_t W) * lib_state * gr_general_t :=
  let '(s, real, _) := __lib_init dlsym s real in (h, s, real).

Section interposer.
Context {W : Type} (hooks : option (gr_lve_t W)).

(** * Entering and leaving *)

Definition gr_lve_begin (username : string) (t : thread) (w : W) : option (thread * W) :=
  match hooks with
  | Some h =>
      if in_lve t =? 0 then
        '(w, cookie, rc) ← enter h w (lve_cookie t) username;
        Some (if rc =? 0 then mkThread 1 0 0 cookie
              else mkThread (in_lve t) (in_mutex_refcnt t) 0 cookie, w)
      else Some (t, w)
  | None => Some (t, w)
  end.

(** A null pointer is called when the hooks were taken away: [None]. *)
Definition gr_lve_end (t : thread) (w : W) : option (thread * W) :=
  w ← (if nonzero (in_lve t) && (in_mutex_refcnt t =? 0)
       then h ← hooks; Some (exit h w (lve_cookie t)) else Some w);
  Some (mkThread 0 0 (if nonzero (in_lve t) && (in_mutex_refcnt t =? 0) then 0 else in_hook t)
          (lve_cookie t), w).

Definition __mutex_enter (h : gr_lve_t W) (t : thread) (w : W) : thread * W :=
  let t' := mkThread (in_lve t) (s32 (in_mutex_refcnt t + 1)) (in_hook t) (lve_cookie t) in
  if in_mutex_refcnt t =? 0 then (set_hook 0 t', exit h w (lve_cookie t)) else (t', w).

Definition __mutex_leave (h : gr_lve_t W) (t : thread) (w : W) : thread * W :=
  if nonzero (in_mutex_refcnt t) then
    let n := s32 (in_mutex_refcnt t - 1) in
    if n =? 0 then
      let '(w, cookie, _) := enter_light h w (lve_cookie t) in (mkThread (in_lve t) n 0 cookie, w)
    else (mkThread (in_lve t) n (in_hook t) (lve_cookie t), w)
  else (t, w).

(** [hooks && in_lve && !in_hook]. *)
Definition hooked (t : thread) : option (gr_lve_t W) :=
  if nonzero (in_lve t) && (in_hook t =? 0) then hooks else None.

Definition on_hook (f : gr_lve_t W -> thread -> W -> thread * W) (t : thread) (w : W) : thread * W :=
  match hooked t with Some h => f h t w | None => (t, w) end.

(** * The mutex functions

    [call] is the real function: it acts on the world and returns the error
    code. *)

Definition lock_body (call : W -> W * Z) (t : thread) (w : W) : thread * W * Z :=
  let '(t, w) := on_hook __mutex_enter t w in
  let '(w, ret) := call w in
  let '(t, w) := if nonzero ret then on_hook __mutex_leave t w else (t, w) in
  (t, w, ret).

Definition unlock_body (call : W -> W * Z) (t : thread) (w : W) : thread * W * Z :=
  let '(w, ret) := call w in
  let '(t, w) := if ret =? 0 then on_hook __mutex_leave t w else (t, w) in
  (t, w, ret).

(** The entry of the three functions: a null pointer has the initialisation
    run, and gives [EINVAL] when it was run before.  [None] is a call through
    a pointer that is null or 1. *)
Definition DL_RESOLVE_CHECK (dlsym : string -> bool) (fn : gr_general_t -> real_fn) (s : lib_state)
    (real : gr_general_t) : lib_state * gr_general_t * bool :=
  match fn real with
  | Unresolved => __lib_init dlsym s real
  | _ => (s, real, true)
  end.

Definition with_real (dlsym : string -> bool) (fn : gr_general_t -> real_fn)
    (body : thread -> W -> thread * W * Z) (s : lib_state) (real : gr_general_t) (t : thread) (w : W)
    : option (lib_state * gr_general_t * (thread * W * Z)) :=
  let '(s, real, ok) := DL_RESOLVE_CHECK dlsym fn s real in
  if ok : bool then
    match fn real with
    | Resolved => Some (s, real, body t w)
    | _ => None
    end
  else Some (s, real, (t, w, EINVAL)).

Definition pthread_mutex_lock dlsym (call : W -> W * Z) := with_real dlsym r_lock (lock_body call).
Definition pthread_mutex_trylock dlsym (call : W -> W * Z) :=
  with_real dlsym r_trylock (lock_body call).
Definition pthread_mutex_unlock dlsym (call : W -> W * Z) :=
  with_real dlsym r_unlock (unlock_body call).
End interposer.

(** The constructor [governorld_init] and the destructor. *)
Definition unresolved : gr_general_t := mkGeneral Unresolved Unresolved Unresolved.
Definition governorld_init (dlsym : string -> bool) : lib_state * gr_general_t :=
  let '(s, real, _) := __lib_init dlsym MEMLOG_LIB_INIT_WAIT unresolved in (s, real).
Definition governorld_destroy := __lib_destroy.

(** * A thread of MySQL as a system

    [m_held] counts the mutexes the thread holds.  The monitor [m_overlap]
    is raised when, after any single action, the thread holds a mutex inside
    an LVE, and [m_lost] when [enter_light] did not take it back in. *)

Record monitored (W : Type) := mkM { m_w : W; m_held : Z; m_overlap : bool; m_lost : bool }.
Arguments mkM {W}. Arguments m_w {W}. Arguments m_held {W}. Arguments m_overlap {W}.
Arguments m_lost {W}.

Section monitor.
Context {W : Type} (h : gr_lve_t W) `{HO : !HooksOk h}.

Definition watch (w : W) (held : Z) (lost : bool) (m : monitored W) : monitored W :=
  mkM w held (m_overlap m || ((0 <? held) && inside w)) (m_lost m || lost).

(** The hooks and the real functions, watched. *)
Definition m_hooks : gr_lve_t (monitored W) :=
  mkHooks
    (fun m c u => '(w, c', rc) ← enter h (m_w m) c u; Some (watch w (m_held m) false m, c', rc))
    (fun m c => let '(w, c', rc) := enter_light h (m_w m) c in
                (watch w (m_held m) (nonzero rc) m, c', rc))
    (fun m c => watch (exit h (m_w m) c) (m_held m) false m).

Definition real_lock (ret : Z) (m : monitored W) : monitored W * Z :=
  (watch (m_w m) (if ret =? 0 then m_held m + 1 else m_held m) false m, ret).
Definition real_unlock (ret : Z) (m : monitored W) : monitored W * Z :=
  (watch (m_w m) (if ret =? 0 then m_held m - 1 else m_held m) false m, ret).

(** A query that was let into an LVE although the thread held a mutex:
    [gr_lve_begin] does not look at what the thread holds. *)
Definition took_in (t t' : thread) (m : monitored W) : bool :=
  (in_lve t =? 0) && (in_lve t' =? 1) && (0 <? m_held m).

(** The steps, with whether they took the thread in with a mutex.  The thread
    unlocks what it has locked, and does not nest 2^31 mutexes. *)
Inductive step : bool -> thread * monitored W -> thread * monitored W -> Prop :=
  | step_begin u t m t' m' :
      gr_lve_begin (Some m_hooks) u t m = Some (t', m') -> step (took_in t t' m) (t, m) (t', m')
  | step_end t m t' m' : gr_lve_end (Some m_hooks) t m = Some (t', m') -> step false (t, m) (t', m')
  | step_lock ret t m t' m' r : m_held m + 1 < 2 ^ 31 ->
      lock_body (Some m_hooks) (real_lock ret) t m = (t', m', r) -> step false (t, m) (t', m')
  | step_unlock ret t m t' m' r : (ret = 0 -> 0 < m_held m) ->
      unlock_body (Some m_hooks) (real_unlock ret) t m = (t', m', r) -> step false (t, m) (t', m').

(** [taken]: some step has taken the thread in with a mutex. *)
Inductive reachable (w : W) : bool -> thread * monitored W -> Prop :=
  | reach_new : inside w = false -> reachable w false (new_thread, mkM w 0 false false)
  | reach_step taken b s s' : reachable w taken s -> step b s s' -> reachable w (taken || b) s'.

Lemma reach_quiet w s s' : reachable w false s -> step false s s' -> reachable w false s'.
Proof. exact (reach_step w false false s s'). Qed.

Lemma begin_quiet u t m t' m' : gr_lve_begin (Some m_hooks) u t m = Some (t', m') -> took_in t t' m = false ->
  step false (t, m) (t', m').
Proof. intros E <-. by eapply step_begin. Qed.

(** The invariant: outside the hooks, the count of the interposer is the
    number of mutexes while the thread works for a query, and the thread is
    in its LVE exactly when it works for a query and holds none. *)
Record ld_inv (t : thread) (m : monitored W) : Prop := {
  li_hook : in_hook t = 0;
  li_in : in_lve t = 0 \/ in_lve t = 1;
  li_held : 0 <= m_held m < 2 ^ 31;
  li_good : good (m_w m) (lve_cookie t);
  li_overlap : m_overlap m = false;
  li_refcnt : in_lve t = 1 -> in_mutex_refcnt t = m_held m;
  li_zero : in_lve t = 0 -> in_mutex_refcnt t = 0 /\ inside (m_w m) = false;
  li_out : 0 < m_held m -> inside (m_w m) = false;
  li_back : in_lve t = 1 -> m_held m = 0 -> m_lost m = false -> inside (m_w m) = true
}.

(** ** Lemmas *)

Lemma inv_new w : inside w = false -> ld_inv new_thread (mkM w 0 false false).
Proof. intros Hw. split; simpl; try done; try lia. by apply good_outside. Qed.

Lemma inv_begin u t m t' m' : ld_inv t m -> gr_lve_begin (Some m_hooks) u t m = Some (t', m') ->
  took_in t t' m = false -> ld_inv t' m'.
Proof.
  intros [Hh Hi Hm Hg Ho Hr Hz Hout Hb]. unfold gr_lve_begin, took_in. cbn [enter m_hooks].
  destruct (Z.eqb_spec (in_lve t) 0) as [E|E]; [|intros [= <- <-] _; by split].
  destruct (enter h (m_w m) (lve_cookie t) u) as [[[w c] rc]|] eqn:Ee; [|done].
  cbn [mbind option_bind]. destruct (enter_good _ _ _ _ _ _ Hg Ee) as (G1 & G2 & G3).
  destruct (Hz E) as [Z1 Z2]. unfold watch. destruct (Z.eqb_spec rc 0) as [->|Hrc]; intros [= <- <-].
  - cbn [in_lve Z.eqb Pos.eqb andb]. intros Ht. rewrite Ht, Ho. cbn [andb orb].
    apply Z.ltb_ge in Ht. split; simpl; try done; try lia; auto.
  - intros _. rewrite E, Z1, (G3 Hrc), Z2, andb_false_r, !orb_false_r.
    split; simpl; try done; try lia; auto; intros; rewrite (G3 Hrc); auto.
Qed.

(** Such a query works inside its LVE with the mutex held. *)
Lemma taken_in_overlaps u t m t' m' : ld_inv t m -> gr_lve_begin (Some m_hooks) u t m = Some (t', m') ->
  took_in t t' m = true -> m_overlap m' = true /\ inside (m_w m') = true /\ m_held m' = m_held m.
Proof.
  intros Hinv. pose proof (li_good _ _ Hinv) as Hg. unfold gr_lve_begin, took_in. cbn [enter m_hooks].
  destruct (Z.eqb_spec (in_lve t) 0) as [E|E]; [|done].
  destruct (enter h (m_w m) (lve_cookie t) u) as [[[w c] rc]|] eqn:Ee; [|done].
  cbn [mbind option_bind]. destruct (enter_good _ _ _ _ _ _ Hg Ee) as (G1 & G2 & G3). unfold watch.
  destruct (Z.eqb_spec rc 0) as [->|Hrc]; intros [= <- <-]; [|by rewrite E].
  cbn [in_lve andb Z.eqb Pos.eqb]. intros ->. cbn. by rewrite (G2 eq_refl), orb_true_r.
Qed.

Lemma inv_end t m t' m' : ld_inv t m -> gr_lve_end (Some m_hooks) t m = Some (t', m') ->
  ld_inv t' m' /\ in_lve t' = 0.
Proof.
  intros [Hh Hi Hm Hg Ho Hr Hz Hout Hb]. unfold gr_lve_end. cbn [mbind option_bind exit m_hooks].
  destruct Hi as [E|E].
  - destruct (Hz E) as [Z1 Z2]. rewrite E, Hh. simpl. intros [= <- <-].
    split; [|done]. split; simpl; try done; lia.
  - rewrite E, (Hr E), Hh. simpl. destruct (Z.eqb_spec (m_held m) 0) as [H0|H0]; simpl; intros [= <- <-].
    + pose proof (exit_out _ _ Hg) as Hx. split; [|done]. unfold watch. rewrite Hx.
      split; simpl; rewrite ?andb_false_r, ?orb_false_r; try done; try lia. by apply good_outside.
    + split; [|done]. split; simpl; try done; try lia.
      intros _. split; [done|]. apply Hout. lia.
Qed.

(** The end of a query lets the thread out, with or without a mutex. *)
Lemma begin_then_end u t m t1 m1 t2 m2 : ld_inv t m -> in_lve t = 0 ->
  gr_lve_begin (Some m_hooks) u t m = Some (t1, m1) -> gr_lve_end (Some m_hooks) t1 m1 = Some (t2, m2) ->
  in_lve t2 = 0 /\ inside (m_w m2) = false.
Proof.
  intros Hinv E Eb. destruct (took_in t t1 m) eqn:Ht.
  - pose proof (li_good _ _ Hinv) as Hg. revert Ht Eb. unfold gr_lve_begin, took_in, gr_lve_end.
    rewrite E. cbn [enter exit m_hooks Z.eqb andb].
    destruct (enter h (m_w m) (lve_cookie t) u) as [[[w c] rc]|] eqn:Ee; [|done].
    destruct (enter_good _ _ _ _ _ _ Hg Ee) as (G1 & _). cbn [mbind option_bind].
    destruct (Z.eqb_spec rc 0) as [->|Hrc]; intros Ht [= <- <-]; [|done].
    cbn [in_lve in_mutex_refcnt lve_cookie nonzero Z.eqb Pos.eqb negb andb mbind option_bind exit m_hooks].
    intros [= <- <-]. split; [done|]. by apply exit_out.
  - intros Ee. destruct (inv_end t1 m1 t2 m2 (inv_begin u t m t1 m1 Hinv Eb Ht) Ee) as [Hinv2 E2].
    split; [done|]. by apply (li_zero _ _ Hinv2).
Qed.

Lemma hooked_out t : in_lve t = 0 -> hooked (Some m_hooks) t = None.
Proof. intros E. unfold hooked. by rewrite E. Qed.

Lemma hooked_in t : in_lve t = 1 -> in_hook t = 0 -> hooked (Some m_hooks) t = Some m_hooks.
Proof. intros E1 E2. unfold hooked. by rewrite E1, E2. Qed.

(** Taking the count up: the thread is outside afterwards. *)
Lemma enter_spec t m : ld_inv t m -> in_lve t = 1 -> m_held m + 1 < 2 ^ 31 ->
  exists w, __mutex_enter m_hooks t m
    = (mkThread 1 (m_held m + 1) 0 (lve_cookie t), mkM w (m_held m) false (m_lost m))
    /\ inside w = false.
Proof.
  intros [Hh Hi Hm Hg Ho Hr Hz Hout Hb] E Hlt. unfold __mutex_enter. rewrite (Hr E), E, Hh, s32_id
    by (unfold in_s32; lia). destruct (Z.eqb_spec (m_held m) 0) as [H0|H0].
  - exists (exit h (m_w m) (lve_cookie t)). pose proof (exit_out _ _ Hg) as Hx. split; [|done].
    simpl. unfold watch, set_hook. simpl. rewrite Hx, Ho, andb_false_r, !orb_false_r. done.
  - exists (m_w m). split; [|apply Hout; lia]. destruct m as [w n o l]. simpl in *. by rewrite Ho.
Qed.

(** Taking it down to the number of mutexes restores the invariant. *)
Lemma leave_inv c w n l : inside w = false -> 0 <= n -> n + 1 < 2 ^ 31 ->
  let '(t', m') := __mutex_leave m_hooks (mkThread 1 (n + 1) 0 c) (mkM w n false l) in
  ld_inv t' m'.
Proof.
  intros Hw Hn Hlt. unfold __mutex_leave. cbn [in_mutex_refcnt in_lve in_hook lve_cookie].
  destruct (nonzero (n + 1)) eqn:En; [|unfold nonzero in En; bools; lia].
  rewrite s32_id by (unfold in_s32; lia). replace (n + 1 - 1) with n by lia.
  pose proof (good_outside w c Hw) as Hg.
  destruct (Z.eqb_spec n 0) as [->|Hne].
  - cbn [enter_light m_hooks m_w]. destruct (enter_light h w c) as [[w' c'] rc] eqn:El.
    destruct (light_good _ _ _ _ _ Hg El) as [G1 G2]. unfold watch. cbn [m_held m_overlap m_lost].
    split; simpl; try done; try lia.
    intros _ _ [_ Hrc]%orb_false_elim. apply G2. unfold nonzero in Hrc. bools. lia.
  - split; simpl; try done; lia.
Qed.

Lemma inv_lock ret t m t' m' r : ld_inv t m -> m_held m + 1 < 2 ^ 31 ->
  lock_body (Some m_hooks) (real_lock ret) t m = (t', m', r) -> ld_inv t' m'.
Proof.
  intros Hinv Hlt. unfold lock_body, on_hook. destruct (li_in _ _ Hinv) as [E|E].
  - rewrite (hooked_out t E). unfold real_lock, watch. destruct Hinv as [Hh Hi Hm Hg Ho Hr Hz Hout Hb].
    destruct (Hz E) as [Z1 Z2]. rewrite (hooked_out t E), Z2, andb_false_r, !orb_false_r, Ho.
    destruct (nonzero ret); intros [= <- <- <-]; split; simpl; try done; try lia;
      destruct (ret =? 0); lia.
  - rewrite (hooked_in t E (li_hook _ _ Hinv)).
    destruct (enter_spec t m Hinv E Hlt) as (w & -> & Hw). unfold real_lock, watch.
    cbn [m_w m_held m_overlap m_lost]. rewrite Hw, andb_false_r, !orb_false_r, hooked_in by done.
    pose proof (li_held _ _ Hinv) as Hm. unfold nonzero.
    destruct (Z.eqb_spec ret 0) as [->|Hret]; cbn [negb].
    + intros [= <- <- <-]. split; simpl; try done; try lia. by apply good_outside.
    + pose proof (leave_inv (lve_cookie t) w (m_held m) (m_lost m) Hw ltac:(lia) Hlt) as L.
      destruct (__mutex_leave m_hooks _ _) as [t1 m1]. by intros [= <- <- <-].
Qed.

Lemma inv_unlock ret t m t' m' r : ld_inv t m -> (ret = 0 -> 0 < m_held m) ->
  unlock_body (Some m_hooks) (real_unlock ret) t m = (t', m', r) -> ld_inv t' m'.
Proof.
  intros Hinv Hret. unfold unlock_body, on_hook, real_unlock.
  pose proof Hinv as [Hh Hi Hm Hg Ho Hr Hz Hout Hb].
  destruct (Z.eqb_spec ret 0) as [->|Hne].
  - specialize (Hret eq_refl). pose proof (Hout Hret) as Hw. unfold watch.
    rewrite Hw, andb_false_r, !orb_false_r, Ho. destruct Hi as [E|E].
    + rewrite (hooked_out t E). intros [= <- <- <-]. split; simpl; try done; try lia; auto.
    + rewrite (hooked_in t E Hh).
      pose proof (leave_inv (lve_cookie t) (m_w m) (m_held m - 1) (m_lost m) Hw ltac:(lia) ltac:(lia)) as L.
      replace (mkThread 1 (m_held m - 1 + 1) 0 (lve_cookie t)) with t in L.
      * destruct (__mutex_leave m_hooks _ _) as [t1 m1]. by intros [= <- <- <-].
      * destruct t as [a b c d]. simpl in *. rewrite E, Hh, (Hr E). f_equal. lia.
  - intros [= <- <- <-]. unfold watch. rewrite orb_false_r.
    destruct (Z.ltb_spec 0 (m_held m)) as [Hp|Hp].
    + rewrite (Hout Hp), orb_false_r. split; simpl; auto.
    + rewrite orb_false_r. split; simpl; auto.
Qed.

Lemma ld_inv_reachable w s : reachable w false s -> ld_inv (fst s) (snd s).
Proof.
  remember false as taken eqn:Et. induction 1 as [Hw|taken b s s' Hr IH Hs]; [by apply inv_new|].
  apply orb_false_elim in Et as [-> Eb]. specialize (IH eq_refl). destruct Hs; cbn [fst snd] in *.
  - by eapply inv_begin.
  - by eapply inv_end.
  - by eapply inv_lock.
  - by eapply inv_unlock.
Qed.

End monitor.

(** * The hooks the plugin installs *)

Section hooks.
Context {K : Type} `{LK : !LveKernel K} (env : lve_env).

Definition lve_hooks : gr_lve_t (lve_world K) :=
  mkHooks (governor_enter_lve env) (governor_enter_lve_light env) (governor_lve_exit env).

Definition k_inside (w : lve_world K) : bool := bool_decide (current (w_kernel w) <> None).
Definition k_good (w : lve_world K) (c : Z) : Prop :=
  current (w_kernel w) = None \/ owns (w_kernel w) c.

Lemma enter_lve_spec w uid c w' c' rc entered :
  k_good w c -> enter_lve w uid c = (w', c', rc, entered) ->
  k_good w' c' /\ (rc = 0 -> k_inside w' = true) /\ (rc <> 0 -> w' = w)
  /\ (entered = true -> current (w_kernel w') = Some uid) /\ w_uid w' = w_uid w.
Proof.
  unfold k_good, k_inside, enter_lve. intros Hg.
  destruct (k_enter (w_kernel w) uid c) as [[[k rc0] e] c0] eqn:E. unfold nonzero.
  destruct (Z.eqb_spec rc0 0) as [->|Hrc]; cbn [negb].
  - destruct (k_enter_ok _ _ _ _ _ _ E) as [C O]. intros [= <- <- <- <-]. cbn [w_kernel w_uid].
    rewrite C. split; [by right|]. by split_and!.
  - destruct (k_enter_fail _ _ _ _ _ _ _ E Hrc) as (-> & -> & P). intros [= <- <- <- <-].
    cbn [w_kernel w_uid]. split; [done|]. split; [|split; [|done]].
    + destruct (Z.eqb_spec e EPERM) as [->|]; [|done]. intros _. by apply bool_decide_eq_true_2, P.
    + by destruct w.
Qed.

Lemma k_inside_uid w n : k_inside (mkWorld (w_kernel w) n) = k_inside w.
Proof. done. Qed.

(** The hooks are as the interposer needs them when the library is there. *)
Program Definition lve_hooks_ok (Hx : lve_exit (le_fns env) = true) (Hl : le_lve env = true)
  : HooksOk lve_hooks := {| inside := k_inside; good := k_good |}.
Next Obligation.
  intros _ _ w c Hw. left. unfold k_inside in Hw. apply bool_decide_eq_false in Hw.
  destruct (current (w_kernel w)); [by destruct Hw|done].
Qed.
Next Obligation.
  intros _ _ w c u w' c' rc Hg. cbn [enter lve_hooks]. unfold governor_enter_lve.
  destruct (is_user_in_bad_list_cleint_persistent _ _ _ _) as [r|]; [|done].
  cbn [mbind option_bind]. destruct (_ && _ && _).
  - destruct (enter_lve _ _ _) as [[[w1 c1] rc1] en] eqn:E.
    destruct (enter_lve_spec (mkWorld (w_kernel w) 0) _ _ _ _ _ _ Hg E) as (A & B & C & _ & U).
    intros [= <- <- <-]. destruct en; (split; [done|]); (split; [done|]); intros Hn; by rewrite (C Hn) in *.
  - intros [= <- <- <-]. by split_and!.
Qed.
Next Obligation.
  intros _ _ w c w' c' rc Hg. cbn [enter_light lve_hooks]. unfold governor_enter_lve_light.
  destruct (_ && _ && _).
  - destruct (enter_lve _ _ _) as [[[w1 c1] rc1] en] eqn:E.
    destruct (enter_lve_spec _ _ _ _ _ _ _ Hg E) as (A & B & _). by intros [= <- <- <-].
  - intros [= <- <- <-]. by split.
Qed.
Next Obligation.
  intros Hx Hl w c Hg. cbn [exit lve_hooks]. unfold governor_lve_exit. rewrite Hx, Hl.
  unfold k_inside. cbn [andb w_kernel]. apply bool_decide_eq_false_2.
  rewrite (k_exit_out _ _ Hg). intros Hn. by apply Hn.
Qed.
End hooks.

(** * A kernel for the examples *)

(** The LVE of the thread; the cookie is the id of the LVE. *)
Definition example_enter (k : option Z) (uid c : Z) : option Z * Z * Z * Z :=
  match k with None => (Some uid, 0, 0, uid) | Some _ => (k, -1, EPERM, c) end.
Definition example_exit (k : option Z) (c : Z) : option Z :=
  match k with Some u => if u =? c then None else k | None => None end.
#[program] Definition example_kernel : LveKernel (option Z) := {|
  k_enter := example_enter; k_exit := example_exit; k_enter_pid k uid pid := (k, 0);
  current k := k; owns k c := k = Some c
|}.
Next Obligation. intros [u|] uid c k' e c'; [done|]. by intros [= <- <- <-]. Qed.
Next Obligation. intros [u|] uid c k' rc e c'; by intros [= <- <- <- <-]. Qed.
Next Obligation. intros k c [->| ->]; [done|]. unfold example_exit. by rewrite Z.eqb_refl. Qed.

Definition example_list : shm_structure :=
  mkShm 1 (fun i => if i =? 0 then mkItem "bob" 5 else mkItem "" 0).
Definition example_env : lve_env :=
  mkLveEnv (mkFns true true true true true true) true (Some example_list) (fun _ => WOk) (fun _ => true).

(** A query begins in a thread outside every LVE. *)
Lemma begin_on_list {K} `{LK : !LveKernel K} (env : lve_env) (l : shm_structure)
    (u : string) (t0 : thread) (w : lve_world K) :
  in_lve t0 = 0 ->
  le_list env = Some l -> list_inv l -> strlen u < USERNAMEMAXLEN ->
  le_tries env 0%nat = WOk -> (forall n, le_opens env n = true) ->
  lve_enter_flags (le_fns env) = true -> le_lve env = true -> current (w_kernel w) = None ->
  exists t w', gr_lve_begin (Some (lve_hooks env)) u t0 w = Some (t, w')
    /\ match abs l !! u with
       | Some uid =>
           if nonzero uid then
             let rc := snd (fst (fst (k_enter (w_kernel w) (u32 uid) (lve_cookie t0)))) in
             if rc =? 0 then in_lve t = 1 /\ current (w_kernel w') = Some (u32 uid)
             else current (w_kernel w') = None
           else in_lve t = 0 /\ w_kernel w' = w_kernel w
       | None => in_lve t = 0 /\ w_kernel w' = w_kernel w
       end.
Proof.
  intros H0 Hl Hi Hu Ht Ho Hf Hlv Hc. unfold gr_lve_begin. rewrite H0. cbn [enter lve_hooks Z.eqb].
  unfold governor_enter_lve, is_user_in_bad_list_cleint_persistent.
  rewrite Hl, (lookup_uid_spec l u Hi Hu), Ho, client_loop_first by (done || unfold client_fuel; lia).
  cbn [mbind option_bind Z.eqb finish_client run_fnd run_got cr_uid]. rewrite Hf, Hlv, !andb_true_r.
  destruct (abs l !! u) as [uid|]; cbn [default from_option id]; [|by eexists _, _].
  destruct (nonzero uid) eqn:En; [|by eexists _, _]. unfold enter_lve. cbn [w_kernel].
  destruct (k_enter (w_kernel w) (u32 uid) _) as [[[k rc] e] c] eqn:E. cbn [fst snd].
  unfold nonzero. destruct (Z.eqb_spec rc 0) as [->|Hrc]; cbn [negb]; eexists _, _; (split; [reflexivity|]).
  - split; [done|]. by apply (k_enter_ok _ _ _ _ _ _ E).
  - destruct (k_enter_fail _ _ _ _ _ _ _ E Hrc) as (-> & _). done.
Qed.

(** * Properties *)

(** C11: A thread of MySQL and its LVE: in every state that it reaches by beginning and
    ending queries and by locking, trying and unlocking mutexes, a query can be ended, and the
    thread has held a mutex inside an LVE only if a query was once let in while it held one,
    which the begin of a query does not look at. As long as that has not happened, a thread that
    holds a mutex is outside, one that works for no query is outside, and one that works for a
    query and holds none is inside, unless the kernel refused to take it back; and the begin of
    a query makes the overlap exactly when the thread holds a mutex and the kernel lets it in.
    Conditions: the thread starts outside, unlocks only what it has locked and nests fewer than
    2^31 mutexes, and the hooks satisfy their interface. *)
Theorem no_mutex_held_inside_lve {W} (h : gr_lve_t W) `{HO : !HooksOk h} (w : W) (taken : bool) (t : thread)
    (m : monitored W) :
  reachable h w taken (t, m) ->
  is_Some (gr_lve_end (Some (m_hooks h)) t m)
  /\ (m_overlap m = true -> taken = true)
  /\ (taken = false ->
        (0 < m_held m -> inside (m_w m) = false)
        /\ (in_lve t = 0 -> inside (m_w m) = false)
        /\ (in_lve t = 1 -> m_held m = 0 -> m_lost m = false -> inside (m_w m) = true))
  /\ forall u t' m', taken = false -> gr_lve_begin (Some (m_hooks h)) u t m = Some (t', m') ->
       m_overlap m' = took_in t t' m.
Proof.
  intros Hr. split; [|split; [|split]].
  - unfold gr_lve_end. cbn [mbind option_bind]. destruct (nonzero (in_lve t) && (in_mutex_refcnt t =? 0)); by eexists.
  - destruct taken; [done|]. pose proof (li_overlap h _ _ (ld_inv_reachable h w (t, m) Hr)) as Ho.
    cbn [snd] in Ho. by rewrite Ho.
  - intros ->. destruct (ld_inv_reachable h w (t, m) Hr) as [Hh Hi Hm Hg Ho Hrf Hz Hout Hb]. cbn [fst snd] in *.
    split_and!; try done. intros E. by apply Hz.
  - intros u t' m' -> Eb. pose proof (ld_inv_reachable h w (t, m) Hr) as Hinv. cbn [fst snd] in Hinv.
    destruct (took_in t t' m) eqn:Ht; [by eapply taken_in_overlaps|].
    apply (li_overlap h t' m'). by eapply inv_begin.
Qed.

(** A query of a listed user that takes two mutexes. *)
Definition example_trace : option (thread * monitored (lve_world (option Z))) :=
  let h := lve_hooks (LK := example_kernel) example_env in
  let HO := lve_hooks_ok (LK := example_kernel) example_env eq_refl eq_refl in
  '(t, m) ← gr_lve_begin (Some (m_hooks h)) "bob" new_thread (mkM (mkWorld None 0) 0 false false);
  let '(t, m, _) := lock_body (Some (m_hooks h)) (real_lock h 0) t m in
  let '(t, m, _) := lock_body (Some (m_hooks h)) (real_lock h 0) t m in
  Some (t, m).

Lemma no_mutex_held_inside_lve_witness :
  exists t m, example_trace = Some (t, m) /\ m_held m = 2 /\ in_lve t = 1 /\ k_inside (LK := example_kernel) (m_w m) = false.
Proof.
  eexists _, _. split; [reflexivity|]. split; [reflexivity|].
  destruct (no_mutex_held_inside_lve (lve_hooks (LK := example_kernel) example_env)
    (HO := lve_hooks_ok (LK := example_kernel) example_env eq_refl eq_refl) (mkWorld None 0)
    false (mkThread 1 2 0 5) (mkM (mkWorld None 5) 2 false false)) as (_ & _ & C & _).
  - eapply reach_quiet; [eapply reach_quiet; [eapply reach_quiet; [by apply reach_new|]|]|].
    + eapply (begin_quiet _ "bob"); vm_compute; reflexivity.
    + eapply (step_lock _ 0); [done|]. vm_compute. reflexivity.
    + eapply (step_lock _ 0); [done|]. vm_compute. reflexivity.
  - split; [reflexivity|]. destruct (C eq_refl) as [G _]. specialize (G eq_refl). vm_compute in G |- *. exact G.
Defined.
