(* ===== verification/Plugin.v ===== *)
(** The audit plugin of MySQL ([src/plugin.c]): it reports the begin and the
    end of each query to the daemon and has the interposer bring the thread
    into the LVE of its user in between. *)

From S2P Require Import Prelude CDouble CString Data ProcFs UserMap BadList WriteData Ld.
Open Scope string_scope.
Open Scope Z_scope.

Inductive event_subclass :=
  | MYSQL_AUDIT_GENERAL_LOG | MYSQL_AUDIT_GENERAL_ERROR | MYSQL_AUDIT_GENERAL_RESULT
  | MYSQL_AUDIT_GENERAL_STATUS.

(** [general_query] is whether the pointer is set. *)
Record mysql_event_general := mkEvent {
  event_subclass_of : event_subclass; general_user : option string; general_query : bool
}.

(** * The state of the plugin *)

(** [lve_enter] is [lve_hooks.enter], [ld_found] whether the interposer's
    [gr_lve_begin] and [gr_lve_end] were found. *)
Record plugin := mkPlugin {
  governor_get_command : Z; sock : sock_data; lve_enter : bool; ld_found : bool;
  opt_governor_enable : Z; opt_governor_enable_reconnect : Z; opt_governor_enable_lve : Z;
  opt_governor_enable_reconnect_lve : Z
}.

(** [connected] is the result of [connect_to_server]; the interposer is
    looked for only when the LVE functions are there. *)
Definition governor_plugin_init (connected : sock_data) (lib : bool) (sym : string -> bool)
    (created ld : bool) (f : lve_fns) (p : plugin) : plugin * lve_fns * bool :=
  let '(f, loaded) := governor_load_lve_library lib sym f in
  let '(lve, rc) := if loaded then governor_init_lve f created false else (false, -1) in
  let enter := loaded && (rc =? 0) in
  (mkPlugin (governor_get_command p) connected enter (enter && ld) (opt_governor_enable p)
     (opt_governor_enable_reconnect p) (opt_governor_enable_lve p)
     (opt_governor_enable_reconnect_lve p), f, lve).

(** The hooks left with the interposer. *)
Definition governor_plugin_deinit {W} (p : plugin) (hooks : option (gr_lve_t W)) : option (gr_lve_t W) :=
  if ld_found p then None else hooks.

Definition query_governor_enable (p : plugin) : plugin :=
  mkPlugin 1 (sock p) (lve_enter p) (ld_found p) 1 (opt_governor_enable_reconnect p)
    (opt_governor_enable_lve p) (opt_governor_enable_reconnect_lve p).
Definition query_governor_enable_lve (p : plugin) : plugin :=
  mkPlugin 2 (sock p) (lve_enter p) (ld_found p) (opt_governor_enable p)
    (opt_governor_enable_reconnect p) 1 (opt_governor_enable_reconnect_lve p).

(** The connection is closed and opened again: [s] and [io] are those of the
    new one. *)
Definition reconnect (fuel : nat) (s : Z) (io : conn_io) (sd : sock_data) (fds : gset Z)
    : option (sock_data * gset Z) :=
  let '(_, fds) := close_sock sd fds in
  '(sd, _, fds) ← connect_to_server fuel s io fds; Some (sd, fds).

Definition query_governor_enable_reconnect (fuel : nat) (s : Z) (io : conn_io) (p : plugin)
    (fds : gset Z) : option (plugin * gset Z) :=
  '(sd, fds) ← reconnect fuel s io (sock p) fds;
  Some (mkPlugin 1 sd (lve_enter p) (ld_found p) (opt_governor_enable p) 1 (opt_governor_enable_lve p)
          (opt_governor_enable_reconnect_lve p), fds).
Definition query_governor_enable_reconnect_lve (fuel : nat) (s : Z) (io : conn_io) (p : plugin)
    (fds : gset Z) : option (plugin * gset Z) :=
  '(sd, fds) ← reconnect fuel s io (sock p) fds;
  Some (mkPlugin 2 sd (lve_enter p) (ld_found p) (opt_governor_enable p)
          (opt_governor_enable_reconnect p) (opt_governor_enable_lve p) 1, fds).

(** * Events *)

(** The user is followed by ["[...] @ host"]. *)
Fixpoint until_bracket (s : string) : Z :=
  match s with
  | EmptyString => 0
  | String c s => if Ascii.eqb c "[" then 0 else 1 + until_bracket s
  end.
Definition getunlen (uname : option string) : Z :=
  match uname with None => 0 | Some s => until_bracket s end.

(** A thread of MySQL: its flag, its state in the interposer, its world and
    the messages sent. *)
Record session (W : Type) := mkSession {
  is_begined : Z; se_thread : thread; se_world : W; se_sent : list client_data
}.
Arguments mkSession {W}. Arguments is_begined {W}. Arguments se_thread {W}.
Arguments se_world {W}. Arguments se_sent {W}.

Section notify.
Context {W : Type} (p : plugin) (hooks : option (gr_lve_t W)).

(** A report leaves a message when [send] took it. *)
Definition sent (r : option client_data * Z) : list client_data :=
  match r with (Some m, 0) => [m] | _ => [] end.

Definition notify_log (io : report_io) (uname : string) (s : session W) : option (session W) :=
  let s := mkSession 0 (se_thread s) (se_world s) (se_sent s) in
  if nonzero (status (sock p)) && nonzero (governor_get_command p) then
    let r := send_info_begin (sock p) uname io in
    let begined := if snd r =? 0 then 1 else is_begined s in
    '(t, w) ← (if nonzero begined && ld_found p && lve_enter p && (governor_get_command p =? 2)
               then gr_lve_begin hooks uname (se_thread s) (se_world s)
               else Some (se_thread s, se_world s));
    Some (mkSession begined t w (se_sent s ++ sent r)%list)
  else Some s.

Definition notify_status (io : report_io) (uname : string) (s : session W) : option (session W) :=
  '(t, w) ← (if ld_found p && lve_enter p then gr_lve_end hooks (se_thread s) (se_world s)
             else Some (se_thread s, se_world s));
  Some (mkSession 0 t w (se_sent s ++ sent (send_info_end (sock p) uname io))%list).

Definition governor_notify (io : report_io) (e : mysql_event_general) (s : session W)
    : option (session W) :=
  let uname_size := getunlen (general_user e) in
  let uname := prefix_n uname_size (default "" (general_user e)) in
  match event_subclass_of e with
  | MYSQL_AUDIT_GENERAL_LOG =>
      if general_query e && nonzero uname_size then notify_log io uname s
      else Some (mkSession 0 (se_thread s) (se_world s) (se_sent s))
  | MYSQL_AUDIT_GENERAL_STATUS =>
      if general_query e && nonzero uname_size && nonzero (is_begined s) then notify_status io uname s
      else Some s
  | _ => Some s
  end.
End notify.

(** * Lemmas *)

Lemma until_bracket_app u rest : has_char "[" u = false -> (rest = "" \/ first_char rest = "["%char) ->
  until_bracket (u +:+ rest) = strlen u.
Proof.
  intros Hu Hr. induction u as [|c u IH].
  - rewrite append_nil_l. destruct Hr as [->|Hr]; [done|]. destruct rest as [|c rest]; [done|].
    simpl in Hr. subst c. done.
  - rewrite append_cons. simpl in *. apply orb_false_elim in Hu as [-> Hu]. rewrite IH by done.
    unfold strlen. simpl. lia.
Qed.

(** The name of the user is cut at the bracket. *)
Lemma notify_named {W} p hooks io c u rest (s : session W) :
  u <> "" -> has_char "[" u = false -> (rest = "" \/ first_char rest = "["%char) ->
  governor_notify p hooks io (mkEvent c (Some (u +:+ rest)) true) s
  = match c with
    | MYSQL_AUDIT_GENERAL_LOG => notify_log p hooks io u s
    | MYSQL_AUDIT_GENERAL_STATUS =>
        if nonzero (is_begined s) then notify_status p hooks io u s else Some s
    | _ => Some s
    end.
Proof.
  intros Hu Hb Hr. unfold governor_notify. cbn [event_subclass_of general_user general_query getunlen].
  assert (nonzero (strlen u) = true) as Hnz.
  { apply negb_true_iff, Z.eqb_neq. unfold strlen. destruct u; [done|]. simpl. lia. }
  rewrite until_bracket_app, Hnz by done. cbn [andb default from_option id].
  by rewrite prefix_n_app.
Qed.

(** A report gets through: the lock of the socket is taken and [send] takes
    the message. *)
Definition delivered (io : report_io) : bool :=
  (try_lock (rp_trylock io) (rp_lock_clock io) (rp_timedlock io) =? 0) && rp_sent io.

Lemma send_info_delivered sd u type io : 0 <= socket sd ->
  snd (send_info sd u type io) = (if delivered io then 0 else -1)
  /\ sent (send_info sd u type io) = if delivered io then [report type u io] else [].
Proof.
  intros Hs. unfold send_info, delivered, nonzero. destruct (Z.ltb_spec (socket sd) 0); [lia|].
  destruct (_ =? 0); [|done]. by destruct (rp_sent io).
Qed.

Lemma send_info_ok sd u type io : 0 <= socket sd -> rp_trylock io = 0 -> rp_sent io = true ->
  send_info sd u type io = (Some (report type u io), 0).
Proof.
  intros Hs Hl Ht. unfold send_info, try_lock. rewrite Hl, Ht.
  by destruct (Z.ltb_spec (socket sd) 0); [lia|].
Qed.

Lemma begin_some {W} (h : gr_lve_t W) `{HO : !HooksOk h} u t m :
  (forall c, is_Some (enter h (m_w m) c u)) ->
  exists t' m', gr_lve_begin (Some (m_hooks h)) u t m = Some (t', m').
Proof.
  intros Hent. unfold gr_lve_begin. destruct (in_lve t =? 0); [|by eexists _, _].
  destruct (Hent (lve_cookie t)) as [[[w c] rc] E]. cbn [enter m_hooks].
  rewrite E. by eexists _, _.
Qed.

Lemma end_some {W} (h : gr_lve_t W) `{HO : !HooksOk h} t m :
  exists t' m', gr_lve_end (Some (m_hooks h)) t m = Some (t', m').
Proof.
  unfold gr_lve_end. cbn [mbind option_bind]. by destruct (_ && _); eexists _, _.
Qed.

(** * Properties *)

(** C31: With the plugin connected, in the mode for single users and with LVE, the LOG and
    the STATUS event of a query of a named user: the begin report goes out exactly when the lock
    of the socket is got and send takes it, the end report exactly when the begin report did and
    it gets through itself, in this order, and each at most once; the thread is asked into its
    LVE exactly when the begin report got through; after the STATUS event it is out of the LVE
    and free for the next query, whatever the reports did and whatever mutexes it holds.
    Conditions: the user has a name, which ends at a bracket or at the end of the text, the
    socket is open and connected, the functions of the interposer are found and LVE is on, the
    thread is in a state of its invariant and works for no query before, the hooks satisfy their
    interface, and the look-up in the list and the kernel answer. *)
Theorem query_is_bracketed {W} (h : gr_lve_t W) `{HO : !HooksOk h} (p : plugin)
    (io1 io2 : report_io) (u rest : string) (s : session (monitored W)) :
  let e c := mkEvent c (Some (u +:+ rest)) true in
  u <> "" -> has_char "[" u = false -> (rest = "" \/ first_char rest = "["%char) ->
  0 <= socket (sock p) -> status (sock p) <> 0 -> governor_get_command p = 2 ->
  ld_found p = true -> lve_enter p = true ->
  ld_inv h (se_thread s) (se_world s) -> in_lve (se_thread s) = 0 ->
  (forall c, is_Some (enter h (m_w (se_world s)) c u)) ->
  exists s1 s2,
    governor_notify p (Some (m_hooks h)) io1 (e MYSQL_AUDIT_GENERAL_LOG) s = Some s1
    /\ governor_notify p (Some (m_hooks h)) io2 (e MYSQL_AUDIT_GENERAL_STATUS) s1 = Some s2
    /\ is_begined s1 = (if delivered io1 then 1 else 0) /\ is_begined s2 = 0
    /\ se_sent s2 = (se_sent s ++ if delivered io1
                                  then report 0 u io1 :: (if delivered io2 then [report 1 u io2] else [])
                                  else [])%list
    /\ (delivered io1 = true ->
          gr_lve_begin (Some (m_hooks h)) u (se_thread s) (se_world s) = Some (se_thread s1, se_world s1))
    /\ in_lve (se_thread s2) = 0 /\ inside (m_w (se_world s2)) = false.
Proof.
  intros e Hu Hb Hr Hs1 Hs2 Hcmd Hld Hen Hinv H0 Hent. unfold e.
  destruct (send_info_delivered (sock p) u 0 io1 Hs1) as [R1 S1].
  destruct (send_info_delivered (sock p) u 1 io2 Hs1) as [R2 S2].
  assert (nonzero (status (sock p)) = true) as Hst by (by apply negb_true_iff, Z.eqb_neq).
  destruct (begin_some h u (se_thread s) (se_world s) Hent) as (t1 & m1 & Eb).
  destruct (end_some h t1 m1) as (t2 & m2 & Ee).
  destruct (begin_then_end h u _ _ _ _ _ _ Hinv H0 Eb Ee) as [E2 Hout].
  rewrite notify_named by done. unfold notify_log, send_info_begin. rewrite Hst, Hcmd, Hld, Hen, R1, S1.
  change (nonzero 2) with true. cbn [is_begined se_thread se_world se_sent andb].
  destruct (delivered io1).
  - change (nonzero (if 0 =? 0 then 1 else 0)) with true. change (2 =? 2) with true. cbn [andb].
    rewrite Eb. cbn [mbind option_bind]. eexists _, _. split; [reflexivity|].
    rewrite notify_named by done. cbn [is_begined]. change (nonzero (if 0 =? 0 then 1 else 0)) with true. cbv iota.
    unfold notify_status, send_info_end. rewrite Hld, Hen, S2. cbn [andb se_thread se_world se_sent].
    rewrite Ee. cbn [mbind option_bind]. split; [reflexivity|]. cbn [is_begined se_thread se_world se_sent].
    split_and!; try done. by rewrite <- app_assoc.
  - change (nonzero (if -1 =? 0 then 1 else 0)) with false. cbn [andb mbind option_bind].
    eexists _, _. split; [reflexivity|]. rewrite notify_named by done. cbn [is_begined].
    change (nonzero (if -1 =? 0 then 1 else 0)) with false. cbv iota. split; [reflexivity|].
    cbn [is_begined se_thread se_world se_sent]. split_and!; try done. by apply (li_zero h _ _ Hinv).
Qed.

Definition example_plugin : plugin := mkPlugin 2 (mkSock 3 1) true true 0 0 1 0.
Definition example_report : report_io :=
  mkReportIo 10 11 (Content (stat_text "11 (mysqld)" ["S"; "1"; "10"; "10"; "0"; "-1"; "64"; "0"; "0";
    "0"; "0"] 5 2 0 0 " 20")) (Content (io_text 1 2 3 4 5 6 0)) (100, 7) 0 (100, 6) (fun _ => 0) true.

Lemma query_is_bracketed_witness :
  let h := lve_hooks (LK := example_kernel) example_env in
  let e c := mkEvent c (Some "bob[bob] @ localhost []") true in
  exists s1 s2,
    governor_notify example_plugin (Some (m_hooks h (HO := lve_hooks_ok (LK := example_kernel) example_env eq_refl eq_refl)))
      example_report (e MYSQL_AUDIT_GENERAL_LOG)
      (mkSession 0 new_thread (mkM (mkWorld None 0) 0 false false) []) = Some s1
    /\ governor_notify example_plugin (Some (m_hooks h (HO := lve_hooks_ok (LK := example_kernel) example_env eq_refl eq_refl)))
      example_report (e MYSQL_AUDIT_GENERAL_STATUS) s1 = Some s2
    /\ (m_cpu <$> se_sent s2) = [7; 7].
Proof.
  intros h e.
  destruct (query_is_bracketed h (HO := lve_hooks_ok (LK := example_kernel) example_env eq_refl eq_refl)
    example_plugin example_report example_report "bob" "[bob] @ localhost []"
    (mkSession 0 new_thread (mkM (mkWorld None 0) 0 false false) []))
    as (s1 & s2 & A & B & _ & _ & C & _); try reflexivity; try done.
  - by right.
  - by apply (inv_new h (HO := lve_hooks_ok (LK := example_kernel) example_env eq_refl eq_refl)).
  - exists s1, s2. split; [exact A|]. split; [exact B|]. rewrite C. reflexivity.
Defined.
