(* ===== verification/Server.v ===== *)
(** The server of the reports ([src/governor_server.c]): the loop over
    [poll] that accepts the connections of MySQL and reads their reports,
    and the check of the threads that have not reported for a second.

    The file is compiled without [_GNU_SOURCE], so the branch for
    [POLLRDHUP] is not there.  The descriptors that are open in the kernel
    are part of the state. *)

From S2P Require Import Prelude CDouble CString Data FifoStats TidTable ProcFs.
Open Scope string_scope.
Open Scope Z_scope.

(** * The descriptors *)

Definition POLLIN : Z := 1.
Definition POLLERR : Z := 8.
Definition POLLHUP : Z := 16.
Definition POLLNVAL : Z := 32.
Definition EWOULDBLOCK : Z := 11.

Record pollfd := mkPoll { fd : Z; events : Z; revents : Z }.

(** [nfds] is the length of [fds]; [sv_open] are the open descriptors. *)
Record server := mkServer {
  fds : list pollfd; global_socket : Z; sv_tid : tid_state; sv_open : gset Z
}.

Definition has (flag : Z) (e : pollfd) : bool := nonzero (Z.land (revents e) flag).

(** [cleanup]: the descriptor is closed. *)
Definition cleanup (s : Z) (sv : server) : server :=
  mkServer (fds sv) (global_socket sv) (sv_tid sv) (sv_open sv ∖ {[s]}).

Definition set_tids (t : tid_state) (sv : server) : server :=
  mkServer (fds sv) (global_socket sv) t (sv_open sv).

(** The entry [i] leaves the array; the copy of the entries behind it is a
    move to the left. *)
Definition remove_entry (i : nat) (sv : server) : server :=
  mkServer (delete i (fds sv)) (global_socket sv) (sv_tid sv) (sv_open sv).

(** [recv_wrapper]: [n] more attempts after this one; [recv k] is the result
    and the [errno] of the [k]-th. *)
Fixpoint recv_loop (n : nat) (recv : nat -> Z * Z) (k : nat) : Z :=
  let '(retval, errno) := recv k in
  if (retval <? 0) && (errno =? EWOULDBLOCK) then
    match n with O => retval | S n => recv_loop n recv (S k) end
  else retval.
Definition recv_wrapper (recv : nat -> Z * Z) : Z := recv_loop 99 recv 0.

Definition SOCK_ADDRESS : string := "/var/run/db-governor".

(** [create_socket]: the results of [socket], [setsockopt], [bind] and
    [listen]; the program ends with a message when one fails. *)
Record socket_io := mkSocketIo { si_socket : Z; si_setsockopt : Z; si_bind : Z; si_listen : Z }.

Definition create_socket (io : socket_io) : string + Z :=
  if si_socket io <? 0 then inl "Can't create socket"
  else if si_setsockopt io <? 0 then inl "Can't change socket options"
  else if si_bind io <? 0 then inl ("Can't bind to socket address " +:+ SOCK_ADDRESS)
  else if si_listen io <? 0 then inl "Can't listen on socket"
  else inr (si_socket io).

(** * One round of the loop *)

(** What the kernel answers in a round.  [ri_poll] is the result of [poll]
    and [ri_revents] what it stores; [ri_accept] the descriptor that [accept]
    gives while others are open, [ri_garbage] what the memory of a new entry
    holds in its [revents]; the other fields are the results for the entry
    of an index.  [ri_message] is the buffer after [recv]. *)
Record round_io := mkRound {
  ri_poll : Z; ri_revents : nat -> Z; ri_accept : gset Z -> Z; ri_garbage : Z;
  ri_fcntl : nat -> Z; ri_recv : nat -> nat -> Z * Z; ri_message : nat -> client_data;
  ri_now : nat -> Z * Z; ri_socket : option (gset Z -> Z)
}.

(** A report: the begin of a query stores the thread, its end charges the
    user and drops the thread. *)
Definition handle_message (now : Z * Z) (message : client_data) (fd : Z) (s : tid_state)
    : tid_state :=
  if m_type message =? 0 then add_new_tid_data message fd s
  else match get_tid_data (m_tid message) s with
       | Some tbl =>
           remove_tid_data (m_tid message)
             (clac_stats_difference_add_to_counters now message tbl s)
       | None => s
       end.

Section server.
Context `{HashOrder}.

(** The connection is gone: its threads are forgotten. *)
Definition drop_connection (close : bool) (i : nat) (e : pollfd) (sv : server) : server :=
  let sv := set_tids (remove_tid_data_by_fd (fd e) (sv_tid sv)) sv in
  let sv := if close then cleanup (fd e) sv else sv in
  remove_entry i sv.

Definition accept_connection (io : round_io) (sv : server) : server :=
  let n := ri_accept io (sv_open sv) in
  if n =? -1 then cleanup n sv
  else mkServer (fds sv ++ [mkPoll n POLLIN (ri_garbage io)])%list (global_socket sv) (sv_tid sv)
         ({[n]} ∪ sv_open sv).

Definition read_report (io : round_io) (i : nat) (e : pollfd) (sv : server) : server :=
  let retval := recv_wrapper (ri_recv io i) in
  if (retval <=? 0) || (ri_fcntl io i <? 0) then drop_connection true i e sv
  else set_tids (handle_message (ri_now io i) (ri_message io i) (fd e) (sv_tid sv)) sv.

(** The body of the loop for an entry with events. *)
Definition handle_entry (io : round_io) (i : nat) (e : pollfd) (sv : server) : server :=
  if (fd e =? global_socket sv) && has POLLIN e then accept_connection io sv
  else if has POLLNVAL e then drop_connection false i e sv
  else if has POLLHUP e then drop_connection true i e sv
  else if has POLLERR e then drop_connection true i e sv
  else if has POLLIN e then read_report io i e sv
  else sv.

Fixpoint entry_loop (fuel : nat) (io : round_io) (i : nat) (ret : Z) (sv : server)
    : option server :=
  match fuel with
  | O => None
  | S fuel =>
      match fds sv !! i with
      | None => Some sv
      | Some e =>
          if negb (nonzero ret) then Some sv
          else if negb (nonzero (revents e)) then entry_loop fuel io (S i) ret sv
          else entry_loop fuel io (S i) (s32 (ret - 1)) (handle_entry io i e sv)
      end
  end.

Definition poll_events (io : round_io) (sv : server) : server :=
  mkServer (imap (fun i e => mkPoll (fd e) (events e) (ri_revents io i)) (fds sv))
    (global_socket sv) (sv_tid sv) (sv_open sv).

(** [poll] failed: every descriptor is closed and the socket made anew.
    [None] is the exit of the program when that fails.  The events of the
    first entry are not reset. *)
Definition recreate_socket (io : round_io) (sv : server) : option server :=
  let sv := fold_left (fun sv e => cleanup (fd e) sv) (fds sv) sv in
  sock ← ri_socket io;
  let s := sock (sv_open sv) in
  Some (mkServer [mkPoll s POLLIN (match fds sv with e :: _ => revents e | [] => ri_garbage io end)]
          s (sv_tid sv) ({[s]} ∪ sv_open sv)).

(** The array has one entry more at the end of a round at most. *)
Definition round_fuel (sv : server) : nat := S (S (length (fds sv))).

Definition server_round (io : round_io) (sv : server) : option server :=
  if ri_poll io =? -1 then
    sv ← recreate_socket io sv; entry_loop (round_fuel sv) io 0 (ri_poll io) sv
  else
    let sv := poll_events io sv in entry_loop (round_fuel sv) io 0 (ri_poll io) sv.

(** ** The end of the loop *)

(** [break_thread] after a SIGTERM. *)
Definition term_handler (break_thread : Z) : Z := s32 (break_thread + 1).

(** SIGINT: the socket is closed and the process exits at once ([true]). *)
Definition SIGINT : Z := 2.
Definition sighandler (sig : Z) (sv : server) : server * bool :=
  if sig =? SIGINT then (cleanup (global_socket sv) sv, true) else (sv, false).

(** The loop of [get_data_from_client]: the value of [break_thread] at the
    head of each round and what the round meets.  The result tells whether
    the thread has ended. *)
Fixpoint get_data_from_client (l : list (Z * round_io)) (sv : server) : option (server * bool) :=
  match l with
  | [] => Some (sv, false)
  | (break_thread, io) :: l =>
      if nonzero break_thread then Some (sv, true)
      else sv ← server_round io sv; get_data_from_client l sv
  end.

(** * Threads that do not report *)

(** The files of /proc of a thread. *)
Record thread_files := mkFiles { tf_stat : file_result; tf_io : file_result }.

(** [now] is the time of the check, [clk] that of the charge. *)
Definition chek_user_perf (now : Z * Z) (proc : Z -> thread_files) (clk : Z -> Z * Z)
    (key : Z) (item : tid_table) (s : tid_state) : tid_state :=
  let old_tm := tm_of (t_update_time item, t_naoseconds item) in
  let new_tm := tm_of now in
  if dltb d1 (dsub new_tm old_tm) then
    let '(item1, rc1) := get_proc_time (tf_stat (proc key)) in
    let '(item2, rc2) := get_io_stat (tf_io (proc key)) in
    if (rc1 =? -2) || (rc2 =? -2) then add_tid_to_bad_list key s
    else
      let cpu := s64 (utime item1 + stime item1) in
      let s := clac_stats_difference_inner_add_to_counters (clk key) cpu (read_bytes item2)
                 (write_bytes item2) item s in
      set_threads (<[key := mkTid (t_username item) cpu (read_bytes item2) (write_bytes item2)
                              (fst now) (snd now) (t_pid item) (t_fd item)]> (threads_list s)) s
  else s.

Definition monitor_data_from_client (now : Z * Z) (proc : Z -> thread_files) (clk : Z -> Z * Z)
    (s : tid_state) : tid_state :=
  proceed_tid_data (chek_user_perf now proc clk) s.
End server.

(** * Lemmas *)

(** ** Threads belong to connections *)

Definition descriptors (sv : server) : list Z := fd <$> fds sv.

(** The table of threads knows only descriptors of the array. *)
Definition tids_in (l : list Z) (s : tid_state) : Prop :=
  forall k t, threads_list s !! k = Some t -> t_fd t ∈ l.

(** [lost] are the descriptors that a failure of [poll] has closed. *)
Record server_wf (lost : list Z) (sv : server) : Prop := {
  sw_distinct : NoDup (descriptors sv);
  sw_open : forall f, f ∈ descriptors sv -> f ∈ sv_open sv;
  sw_valid : -1 ∉ sv_open sv;
  sw_tids : tids_in (descriptors sv ++ lost) (sv_tid sv)
}.

(** [accept] gives -1 or a descriptor that is not open, [socket] one that is
    not open. *)
Definition accept_fresh (io : round_io) : Prop :=
  (forall o, ri_accept io o = -1 \/ ri_accept io o ∉ o)
  /\ forall f, ri_socket io = Some f -> forall o, f o <> -1 /\ f o ∉ o.

(** The descriptors closed by a round. *)
Definition lost_after (io : round_io) (sv : server) (lost : list Z) : list Z :=
  if ri_poll io =? -1 then (descriptors sv ++ lost)%list else lost.

Lemma list_delete_decomp {A} (l : list A) i x : l !! i = Some x ->
  exists l1 l2, l = (l1 ++ x :: l2)%list /\ length l1 = i /\ delete i l = (l1 ++ l2)%list.
Proof.
  intros E. exists (take i l), (drop (S i) l).
  pose proof (lookup_lt_Some _ _ _ E). split; [by rewrite take_drop_middle|].
  split; [rewrite length_take; lia|]. by rewrite delete_take_drop.
Qed.

Lemma tids_charge now cpu rd wr old l s : tids_in l s ->
  tids_in l (clac_stats_difference_inner_add_to_counters now cpu rd wr old s).
Proof.
  intros Hs. unfold clac_stats_difference_inner_add_to_counters.
  assert (forall u a b c tm, tids_in l (increment_counters u a b c tm s)) as G.
  { intros. unfold increment_counters. by destruct (user_counters_list s !! u). }
  by destruct (dltb _ _); [destruct (dltb _ _)|].
Qed.

Lemma tids_remove k l s : tids_in l s -> tids_in l (remove_tid_data k s).
Proof. intros Hs k' t Ht. simpl in Ht. apply lookup_delete_Some in Ht as [_ Ht]. by eapply Hs. Qed.

Lemma tids_message now m f l s : tids_in l s -> f ∈ l -> tids_in l (handle_message now m f s).
Proof.
  intros Hs Hf. unfold handle_message. destruct (m_type m =? 0).
  - intros k t. unfold add_new_tid_data. simpl. rewrite lookup_insert_Some.
    intros [[_ <-]|[_ Ht]]; [by destruct (threads_list s !! m_tid m)|by eapply Hs].
  - destruct (get_tid_data (m_tid m) s); [|done]. by apply tids_remove, tids_charge.
Qed.

Section lemmas.
Context `{HO : HashOrder} (lost : list Z).

Lemma drop_wf c i e sv : server_wf lost sv -> fds sv !! i = Some e ->
  server_wf lost (drop_connection c i e sv).
Proof.
  intros [Hd Ho Hv Ht] He. destruct (list_delete_decomp _ _ _ He) as (l1 & l2 & El & _ & Edel).
  assert (fds (drop_connection c i e sv) = (l1 ++ l2)%list) as Ef by by destruct c.
  assert (descriptors (drop_connection c i e sv) = ((fd <$> l1) ++ (fd <$> l2))%list) as Ed
    by (unfold descriptors; by rewrite Ef, fmap_app).
  unfold descriptors in Hd, Ho, Ht. rewrite El, fmap_app, fmap_cons in Hd, Ho, Ht.
  apply list.NoDup_app in Hd as (N1 & N12 & N2). apply list.NoDup_cons in N2 as [Nf N2].
  assert (fd e ∉ (fd <$> l1)) as Nf1 by (intros Hin; apply (N12 _ Hin); left).
  split.
  - rewrite Ed. apply list.NoDup_app. split; [done|]. split; [|done]. intros x Hx Hx2. apply (N12 x Hx). by right.
  - intros f. rewrite Ed. intros Hf. assert (f ∈ sv_open sv /\ f <> fd e) as [? ?].
    { apply elem_of_app in Hf as [Hf|Hf]; (split; [apply Ho, elem_of_app; set_solver|set_solver]). }
    destruct c; simpl; set_solver.
  - destruct c; simpl; set_solver.
  - intros k t Hk. rewrite Ed. assert (threads_list (remove_tid_data_by_fd (fd e) (sv_tid sv)) !! k = Some t) as Hk'
      by by destruct c.
    rewrite (proj1 (remove_tid_data_by_fd_exact _ _)), map_lookup_filter_Some in Hk'.
    destruct Hk' as [Hk' Hne]. specialize (Ht k t Hk'). simpl in Hne. set_solver.
Qed.

Lemma accept_wf io sv : accept_fresh io -> server_wf lost sv -> server_wf lost (accept_connection io sv).
Proof.
  intros [Hf _] [Hd Ho Hv Ht]. unfold accept_connection.
  set (n := ri_accept io (sv_open sv)). destruct (Z.eqb_spec n (-1)) as [E|E].
  - split; [done| | |done]; cbn [cleanup sv_open].
    + intros f Hin. specialize (Ho f Hin). apply elem_of_difference. split; [done|].
      rewrite E. by intros ->%elem_of_singleton.
    + by intros [? _]%elem_of_difference.
  - assert (n ∉ sv_open sv) as Hn by (by destruct (Hf (sv_open sv))).
    unfold descriptors in *. split; unfold descriptors; cbn [fds sv_open sv_tid].
    + rewrite fmap_app. apply list.NoDup_app. split; [done|]. split; [|apply NoDup_singleton].
      intros f Hin ->%list_elem_of_singleton. by apply Hn, Ho.
    + intros f. rewrite fmap_app. simpl. set_solver.
    + set_solver.
    + intros k t Hk. specialize (Ht k t Hk). rewrite fmap_app. set_solver.
Qed.

Lemma handle_wf io i e sv : accept_fresh io -> server_wf lost sv -> fds sv !! i = Some e ->
  server_wf lost (handle_entry io i e sv).
Proof.
  intros Hf Hw He. unfold handle_entry.
  destruct (_ && _); [by apply accept_wf|]. destruct (has POLLNVAL e); [by apply drop_wf|].
  destruct (has POLLHUP e); [by apply drop_wf|]. destruct (has POLLERR e); [by apply drop_wf|].
  destruct (has POLLIN e); [|done]. unfold read_report. destruct (_ || _); [by apply drop_wf|].
  destruct Hw as [Hd Ho Hv Ht]. split; [done..|]. apply tids_message; [done|].
  apply elem_of_app. left. apply list_elem_of_fmap. exists e. split; [done|]. by eapply list_elem_of_lookup_2.
Qed.

(** ** The loop ends: only the listener makes the array longer *)

Definition listens (g : Z) (l : list pollfd) : nat :=
  length (List.filter (fun e => fd e =? g) l).

Lemma listens_cons g e l :
  listens g (e :: l) = ((if Z.eqb (fd e) g then 1 else 0) + listens g l)%nat.
Proof. unfold listens. simpl. by destruct (fd e =? g). Qed.

Lemma listens_app g a b : listens g (a ++ b) = (listens g a + listens g b)%nat.
Proof. unfold listens. by rewrite List.filter_app, length_app. Qed.

Lemma handle_socket io i e sv : global_socket (handle_entry io i e sv) = global_socket sv.
Proof.
  unfold handle_entry, accept_connection, read_report.
  repeat (case_match; try done).
Qed.

Lemma drop_fds c i e sv : fds (drop_connection c i e sv) = delete i (fds sv).
Proof. by destruct c. Qed.

Lemma handle_fds io i e sv : accept_fresh io -> server_wf lost sv -> fds sv !! i = Some e ->
  fds (handle_entry io i e sv) = fds sv
  \/ fds (handle_entry io i e sv) = delete i (fds sv)
  \/ exists e', fd e = global_socket sv /\ fd e' <> global_socket sv
              /\ fds (handle_entry io i e sv) = (fds sv ++ [e'])%list.
Proof.
  intros [Hf _] Hw He. unfold handle_entry.
  destruct (Z.eqb_spec (fd e) (global_socket sv)) as [Eg|]; cbn [andb].
  - destruct (has POLLIN e).
    + unfold accept_connection. destruct (Z.eqb_spec (ri_accept io (sv_open sv)) (-1)); [by left|].
      right. right. eexists. split; [done|]. split; [|reflexivity]. cbn [fd]. rewrite <- Eg. intros En.
      destruct (Hf (sv_open sv)) as [|Hn]; [done|]. apply Hn. rewrite En. apply (sw_open _ _ Hw).
      apply list_elem_of_fmap. exists e. split; [done|]. by eapply list_elem_of_lookup_2.
    + repeat (case_match; rewrite ?drop_fds; auto).
  - unfold read_report. repeat (case_match; rewrite ?drop_fds; auto).
Qed.

Lemma handle_shorter io i e sv : accept_fresh io -> server_wf lost sv -> fds sv !! i = Some e ->
  let sv' := handle_entry io i e sv in
  (length (fds sv') + listens (global_socket sv') (drop (S i) (fds sv'))
   <= length (fds sv) + listens (global_socket sv) (drop i (fds sv)))%nat.
Proof.
  intros Hf Hw He sv'. subst sv'. rewrite handle_socket.
  destruct (list_delete_decomp _ _ _ He) as (l1 & l2 & El & Hi & Edel).
  assert (drop i (fds sv) = e :: l2) as -> by (rewrite El, <- Hi; apply drop_app_length).
  assert (drop (S i) (fds sv) = l2) as Ed
    by (rewrite <- Nat.add_1_r, <- drop_drop, El, <- Hi, drop_app_length; done).
  rewrite listens_cons. destruct (handle_fds io i e sv Hf Hw He) as [E|[E|(e' & Eg & Ne & E)]]; rewrite E.
  - rewrite Ed. lia.
  - rewrite Edel, El, !length_app. simpl.
    assert (drop (S i) (l1 ++ l2) = drop 1 l2) as ->.
    { rewrite <- Hi, <- Nat.add_1_r, <- drop_drop. by rewrite drop_app_length. }
    destruct l2 as [|x l2]; [simpl; lia|]. rewrite listens_cons. simpl. rewrite drop_0. lia.
  - rewrite length_app, drop_app_le, Ed, listens_app, listens_cons
      by (apply lookup_lt_Some in He; lia).
    rewrite Eg, Z.eqb_refl. destruct (Z.eqb_spec (fd e') (global_socket sv)); [done|].
    unfold listens at 2. simpl. lia.
Qed.

Lemma entry_loop_wf fuel io i ret sv : accept_fresh io -> server_wf lost sv ->
  (length (fds sv) + listens (global_socket sv) (drop i (fds sv)) - i < fuel)%nat ->
  exists sv', entry_loop fuel io i ret sv = Some sv' /\ server_wf lost sv'
    /\ global_socket sv' = global_socket sv.
Proof.
  intros Hf. revert i ret sv. induction fuel as [|fuel IH]; intros i ret sv Hw Hlt.
  - lia.
  - cbn [entry_loop]. destruct (fds sv !! i) as [e|] eqn:He; [|by exists sv].
    pose proof (lookup_lt_Some _ _ _ He). destruct (nonzero ret); cbn [negb]; [|by exists sv]. destruct (nonzero (revents e)); cbn [negb].
    + pose proof (handle_shorter io i e sv Hf Hw He) as Hs. cbv zeta in Hs.
      destruct (IH (S i) (s32 (ret - 1)) (handle_entry io i e sv)) as (sv' & E & Hw' & G);
        [by apply handle_wf|lia|]. rewrite handle_socket in G. by exists sv'.
    + apply IH; [done|]. rewrite (drop_S _ _ _ He), listens_cons in Hlt. lia.
Qed.

Lemma listens_one g l : NoDup (fd <$> l) -> (listens g l <= 1)%nat.
Proof.
  induction l as [|e l IH]; intros Hl; [unfold listens; simpl; lia|].
  rewrite fmap_cons in Hl. apply list.NoDup_cons in Hl as [Hn Hl]. rewrite listens_cons.
  destruct (Z.eqb_spec (fd e) g) as [E|]; [|apply IH, Hl].
  assert (listens g l = 0%nat) as ->; [|lia]. clear -Hn E. induction l as [|x l IH]; [done|].
  rewrite listens_cons. destruct (Z.eqb_spec (fd x) g); [set_solver|]. apply IH. set_solver.
Qed.

Lemma poll_events_fds io sv : descriptors (poll_events io sv) = descriptors sv.
Proof.
  unfold descriptors, poll_events. cbn [fds]. apply list_eq. intros i.
  rewrite !list_lookup_fmap, list_lookup_imap. by destruct (fds sv !! i).
Qed.

(** The loop over the array ends within its fuel. *)
Lemma round_loop_wf io ret sv : accept_fresh io -> server_wf lost sv ->
  exists sv', entry_loop (round_fuel sv) io 0 ret sv = Some sv' /\ server_wf lost sv'.
Proof.
  intros Hf Hw. destruct (entry_loop_wf (round_fuel sv) io 0 ret sv Hf Hw) as (sv' & E & Hw' & _); [|by exists sv'].
  rewrite drop_0. pose proof (listens_one (global_socket sv) _ (sw_distinct _ _ Hw)). unfold round_fuel. lia.
Qed.
End lemmas.

Section rounds.
Context `{HO : HashOrder}.

Lemma close_all_spec (l : list pollfd) sv : let sv' := fold_left (fun sv e => cleanup (fd e) sv) l sv in
  sv_open sv' ⊆ sv_open sv /\ sv_tid sv' = sv_tid sv /\ fds sv' = fds sv.
Proof.
  revert sv. induction l as [|e l IH]; intros sv; [done|]. cbv zeta in *. cbn [fold_left].
  destruct (IH (cleanup (fd e) sv)) as (A & B & C). rewrite B, C. split; [|done]. etrans; [exact A|].
  simpl. set_solver.
Qed.

Lemma recreate_wf lost io sv : accept_fresh io -> server_wf lost sv -> is_Some (ri_socket io) ->
  exists sv', recreate_socket io sv = Some sv' /\ server_wf (descriptors sv ++ lost) sv' /\ sv_tid sv' = sv_tid sv.
Proof.
  intros [_ Hf] [Hd Ho Hv Ht] [f Ef]. unfold recreate_socket. rewrite Ef. cbn [mbind option_bind].
  destruct (close_all_spec (fds sv) sv) as (A & B & C). set (sv1 := fold_left _ _ sv) in *.
  destruct (Hf f Ef (sv_open sv1)) as [H1 H2]. eexists. split; [reflexivity|]. split; [|done].
  split; unfold descriptors; cbn [fds sv_open sv_tid fmap list_fmap fd].
  - apply NoDup_singleton.
  - set_solver.
  - set_solver.
  - rewrite B. intros k t Hk. specialize (Ht k t Hk). unfold descriptors in Ht. set_solver.
Qed.

(** A round ends, unless [poll] fails and the socket cannot be made anew. *)
Lemma round_wf lost io sv : accept_fresh io -> (ri_poll io = -1 -> is_Some (ri_socket io)) -> server_wf lost sv ->
  exists sv', server_round io sv = Some sv' /\ server_wf (lost_after io sv lost) sv'.
Proof.
  intros Hf Hp Hw. unfold server_round, lost_after. destruct (Z.eqb_spec (ri_poll io) (-1)) as [E|E].
  - destruct (recreate_wf lost io sv Hf Hw (Hp E)) as (sv1 & -> & Hw1 & _). cbn [mbind option_bind].
    by apply round_loop_wf.
  - apply round_loop_wf; [done|]. destruct Hw as [Hd Ho Hv Ht]. by split; rewrite ?poll_events_fds.
Qed.

(** What a round that ended says of the socket. *)
Lemma round_socket io sv sv' : server_round io sv = Some sv' -> ri_poll io = -1 -> is_Some (ri_socket io).
Proof.
  unfold server_round. intros E Ep. rewrite Ep in E. cbn in E. unfold recreate_socket in E.
  destruct (ri_socket io); [by eexists|done].
Qed.

(** A failure of [poll] forgets no thread: the connections are closed and
    the table stays as it is, when the first entry had no events left. *)
Lemma poll_failure_keeps_threads io sv sv' e l : ri_poll io = -1 -> fds sv = e :: l -> revents e = 0 ->
  server_round io sv = Some sv' -> sv_tid sv' = sv_tid sv /\ length (fds sv') = 1%nat.
Proof.
  intros Ep El Er. unfold server_round. rewrite Ep. cbn [Z.eqb]. change (-1 =? -1) with true. cbv iota.
  unfold recreate_socket. destruct (close_all_spec (fds sv) sv) as (_ & B & C). set (sv1 := fold_left _ _ sv) in *.
  destruct (ri_socket io) as [f|]; [|done]. cbn [mbind option_bind]. rewrite C, El, Er.
  unfold round_fuel. cbn [fds length entry_loop lookup list_lookup nth_error list.list_lookup revents nonzero Z.eqb negb].
  intros [= <-]. cbn. by rewrite B.
Qed.

(** Without a SIGTERM the thread goes on whatever its clients do; it ends at
    the head of the round after one, with what it had then. *)
Lemma reports_until_term (pre post : list (Z * round_io)) flag io lost sv : server_wf lost sv ->
  Forall (fun r => r.1 = 0 /\ accept_fresh r.2 /\ (ri_poll r.2 = -1 -> is_Some (ri_socket r.2))) pre -> flag <> 0 ->
  exists lost' sv', server_wf lost' sv' /\ get_data_from_client pre sv = Some (sv', false)
    /\ get_data_from_client (pre ++ (flag, io) :: post) sv = Some (sv', true).
Proof.
  intros Hw Hpre Hf. revert lost sv Hw. induction Hpre as [|[f r] pre (Ef & Hr & Hp) _ IH]; intros lost sv Hw; cbn in *.
  - exists lost, sv. split; [done|]. split; [done|]. unfold nonzero. by destruct (Z.eqb_spec flag 0).
  - subst f. change (nonzero 0) with false. cbv iota. destruct (round_wf lost r sv Hr Hp Hw) as (sv1 & -> & Hw1).
    cbn [mbind option_bind]. by eapply IH.
Qed.

(** ** The check of the threads *)

Definition stale (now : Z * Z) (item : tid_table) : bool :=
  dltb d1 (dsub (tm_of now) (tm_of (t_update_time item, t_naoseconds item))).

(** The files of a thread that has gone cannot be read. *)
Definition gone (f : thread_files) : bool :=
  (snd (get_proc_time (tf_stat f)) =? -2) || (snd (get_io_stat (tf_io f)) =? -2).

(** A thread after the check; [None] when it is dropped. *)
Definition checked (now : Z * Z) (f : thread_files) (item : tid_table) : option tid_table :=
  if stale now item then
    if gone f then None
    else
      let t := fst (get_proc_time (tf_stat f)) in
      let io := fst (get_io_stat (tf_io f)) in
      Some (mkTid (t_username item) (s64 (utime t + stime t)) (read_bytes io) (write_bytes io)
              (fst now) (snd now) (t_pid item) (t_fd item))
  else Some item.

Lemma charge_threads now cpu rd wr old s :
  threads_list (clac_stats_difference_inner_add_to_counters now cpu rd wr old s) = threads_list s
  /\ bad_tid_list (clac_stats_difference_inner_add_to_counters now cpu rd wr old s) = bad_tid_list s.
Proof.
  unfold clac_stats_difference_inner_add_to_counters, increment_counters.
  by repeat case_match.
Qed.

(** The callback changes its own thread, and lists it when it has gone. *)
Lemma chek_user_perf_spec now proc clk k item s : threads_list s !! k = Some item ->
  let s' := chek_user_perf now proc clk k item s in
  (checked now (proc k) item = None /\ threads_list s' = threads_list s
   /\ bad_tid_list s' = Some (default [None] (bad_tid_list s) ++ [Some k])%list)
  \/ (exists t, checked now (proc k) item = Some t /\ threads_list s' = <[k := t]> (threads_list s)
     /\ bad_tid_list s' = bad_tid_list s).
Proof.
  intros Hk s'. subst s'. unfold chek_user_perf, checked, stale, gone.
  destruct (dltb _ _); [|right; exists item; by rewrite insert_id].
  destruct (get_proc_time (tf_stat (proc k))) as [t1 r1], (get_io_stat (tf_io (proc k))) as [t2 r2].
  cbn [fst snd]. destruct (_ || _); [left; by destruct (bad_tid_list s) eqn:E; rewrite ?add_bad_eq, ?E|].
  right. eexists. split; [done|]. cbn [set_threads threads_list bad_tid_list].
  destruct (charge_threads (clk k) (s64 (utime t1 + stime t1)) (read_bytes t2) (write_bytes t2) item s)
    as [-> ->]. by split.
Qed.

Lemma foreach_checked now proc clk s :
  let m := threads_list s in
  let st := ht_foreach m (chek_user_perf now proc clk) s in
  (forall k, threads_list st !! k = (fun item => default item (checked now (proc k) item)) <$> m !! k)
  /\ (forall k, Some k ∈ default [None] (bad_tid_list st) <->
       Some k ∈ default [None] (bad_tid_list s)
       \/ exists item, m !! k = Some item /\ checked now (proc k) item = None).
Proof.
  intros m. cbv zeta.
  destruct (ht_foreach_ind (chek_user_perf now proc clk) (fun done st =>
    (forall k, k ∉ done -> threads_list st !! k = m !! k)
    /\ (forall k, k ∈ done -> threads_list st !! k
         = (fun item => default item (checked now (proc k) item)) <$> m !! k)
    /\ (forall k, Some k ∈ default [None] (bad_tid_list st) <->
       Some k ∈ default [None] (bad_tid_list s)
       \/ (k ∈ done /\ exists item, m !! k = Some item /\ checked now (proc k) item = None)))
    m s) as (I1 & I2 & I3).
  - split; [done|]. set_solver.
  - intros dn k item st Hk Hn (I1 & I2 & I3). specialize (I1 k Hn) as E. rewrite Hk in E.
    destruct (chek_user_perf_spec now proc clk k item st E) as [(Ec & Et & Eb)|(t & Ec & Et & Eb)].
    + rewrite Et, Eb. split; [intros; apply I1; set_solver|]. split.
      * intros x [->%elem_of_singleton|Hx]%elem_of_union; [by rewrite E, Hk; simpl; rewrite Ec|by apply I2].
      * intros x. cbn [default from_option id]. rewrite elem_of_app, I3, list_elem_of_singleton.
        destruct (decide (x = k)) as [->|Hne]; [|set_solver]. split; [|set_solver]. intros _. right. set_solver.
    + rewrite Et, Eb. split; [intros x Hx; rewrite lookup_insert_ne by set_solver; apply I1; set_solver|].
      split.
      * intros x [->%elem_of_singleton|Hx]%elem_of_union; [by rewrite lookup_insert_eq, Hk; simpl; rewrite Ec|].
        rewrite lookup_insert_ne by set_solver. by apply I2.
      * intros x. rewrite I3. destruct (decide (x = k)) as [->|Hne]; [|set_solver].
        split; [set_solver|]. intros [?|(_ & item' & Hk' & Hc)]; [by left|]. congruence.
  - assert (forall k, k ∈ dom m <-> is_Some (m !! k)) as Hdom by (intros; by rewrite elem_of_dom).
    split.
    + intros k. destruct (decide (k ∈ dom m)) as [Hk|Hk]; [by apply I2|]. rewrite I1 by done.
      apply not_elem_of_dom in Hk. by rewrite Hk.
    + intros k. rewrite I3, Hdom. naive_solver.
Qed.

(** A thread listed as dead before the check goes as well. *)
Lemma monitor_lookup now proc clk s k :
  threads_list (monitor_data_from_client now proc clk s) !! k
  = (if decide (Some k ∈ default [None] (bad_tid_list s)) then None
     else item ← threads_list s !! k; checked now (proc k) item).
Proof.
  unfold monitor_data_from_client, proceed_tid_data, remove_tid_bad_list. cbn [set_bad threads_list].
  destruct (foreach_checked now proc clk s) as [Ht Hb].
  set (st := ht_foreach _ _ _) in *.
  assert (threads_list (remove_tid_bad_from_list st)
          = filter (fun kv : Z * tid_table => Some kv.1 ∉ default [None] (bad_tid_list st)) (threads_list st))
    as ->.
  { unfold remove_tid_bad_from_list. destruct (bad_tid_list st) as [l|] eqn:E; [apply fold_remove_threads|].
    symmetry. apply map_filter_id. set_solver. }
  destruct (threads_list s !! k) as [item|] eqn:Ek; simpl.
  - rewrite map_lookup_filter, Ht, Ek. simpl.
    assert (Some k ∈ default [None] (bad_tid_list st) <->
            Some k ∈ default [None] (bad_tid_list s) \/ checked now (proc k) item = None) as Hb'
      by (rewrite Hb; naive_solver).
    destruct (decide (Some k ∈ default [None] (bad_tid_list s))) as [Hin|Hin].
    + rewrite option_guard_False by naive_solver. done.
    + destruct (checked now (proc k) item) as [t|]; simpl.
      * rewrite option_guard_True by naive_solver. done.
      * rewrite option_guard_False by naive_solver. done.
  - rewrite map_lookup_filter, Ht, Ek. by destruct (decide _).
Qed.

Lemma monitor_tids now proc clk l s : tids_in l s ->
  tids_in l (monitor_data_from_client now proc clk s).
Proof.
  intros Hs k t. rewrite monitor_lookup. destruct (decide _); [done|].
  destruct (threads_list s !! k) as [item|] eqn:Ek; [|done]. simpl. unfold checked.
  specialize (Hs k item Ek). destruct (stale now item); [|by intros [= <-]].
  destruct (gone (proc k)); [done|]. by intros [= <-].
Qed.
End rounds.

(** * The server as a system

    Rounds of its loop, those in which [poll] fails among them, and the work
    of the other threads on the table: the check, and the counters of the
    users.  The list holds the descriptors that failures of [poll] closed. *)
Inductive server_reachable `{HashOrder} : list Z -> server -> Prop :=
  | reach_start sock opened s : sock ∈ opened -> -1 ∉ opened ->
      server_reachable [] (mkServer [mkPoll sock POLLIN 0] sock (init_tid_table s) opened)
  | reach_round io lost sv sv' : server_reachable lost sv -> accept_fresh io ->
      server_round io sv = Some sv' -> server_reachable (lost_after io sv lost) sv'
  | reach_monitor now proc clk lost sv : server_reachable lost sv ->
      server_reachable lost (set_tids (monitor_data_from_client now proc clk (sv_tid sv)) sv)
  | reach_counters m lost sv : server_reachable lost sv ->
      server_reachable lost (set_tids (set_counters m (sv_tid sv)) sv).

Lemma reachable_wf `{HashOrder} lost sv : server_reachable lost sv -> server_wf lost sv.
Proof.
  induction 1 as [sock opened s Hin Hm|io lost sv sv' _ Hw Hf E|now proc clk lost sv _ [Hd Ho Hv Ht]|m lost sv _ []].
  - split; unfold descriptors; simpl; [apply NoDup_singleton|set_solver|done|].
    intros k t Hk. cbn in Hk. done.
  - destruct (round_wf lost io sv Hf (round_socket io sv sv' E) Hw) as (sv2 & E2 & Hw2).
    rewrite E in E2. by injection E2 as ->.
  - split; [done..|]. by apply monitor_tids.
  - by split.
Qed.

(** * Properties *)

(** C8: Every thread in the table of the daemon came through a connection that is open and
    that stands in the array of descriptors exactly once, or through one that a failure of poll
    closed: such a failure closes all the connections, and their threads stay in the table. This
    holds whatever connects, reports, fails and disconnects, the rounds in which poll fails
    included; and every round over the array ends, the exit of the program apart when poll fails
    and no new socket can be made. Condition: accept and socket give descriptors that are not
    open. *)
Theorem threads_follow_connections `{HashOrder} (lost : list Z) (sv : server) :
  server_reachable lost sv ->
  (forall tid t, threads_list (sv_tid sv) !! tid = Some t -> t_fd t ∉ lost ->
     t_fd t ∈ sv_open sv /\ exists i e, fds sv !! i = Some e /\ fd e = t_fd t
       /\ forall i' e', fds sv !! i' = Some e' -> fd e' = t_fd t -> i' = i)
  /\ forall io, accept_fresh io ->
       if (ri_poll io =? -1) && negb (bool_decide (is_Some (ri_socket io)))
       then server_round io sv = None else is_Some (server_round io sv).
Proof.
  intros Hr. pose proof (reachable_wf lost sv Hr) as Hw. split.
  - intros tid t Ht Hnl. pose proof (sw_tids _ _ Hw tid t Ht) as Hin.
    apply elem_of_app in Hin as [Hin|]; [|done]. split; [by apply (sw_open _ _ Hw)|].
    apply list_elem_of_fmap in Hin as (e & Ee & [i Hi]%list_elem_of_lookup_1). exists i, e.
    split; [done|]. split; [done|]. intros i' e' Hi' Ee'.
    eapply (NoDup_lookup (descriptors sv)); [apply (sw_distinct _ _ Hw)| |];
      unfold descriptors; rewrite list_lookup_fmap; [by rewrite Hi'|]. rewrite Hi. simpl. congruence.
  - intros io Hf. destruct ((ri_poll io =? -1) && negb (bool_decide (is_Some (ri_socket io)))) eqn:E.
    + apply andb_prop in E as [Ep%Z.eqb_eq Es%negb_true_iff%bool_decide_eq_false].
      destruct (server_round io sv) as [sv'|] eqn:Er; [|done]. by destruct Es; eapply round_socket.
    + destruct (round_wf lost io sv Hf) as (sv' & -> & _); [|done|by eexists].
      intros Ep. rewrite Ep in E. cbn in E. apply negb_false_iff, bool_decide_eq_true in E. done.
Qed.

(** A connection is accepted, a query begins, and the connection goes. *)
Definition example_message : client_data := mkClientData 0 77 1 "bob" 10 0 0 5 0.
Definition example_round (ret : Z) (revs : list Z) (got : Z) : round_io :=
  mkRound ret (fun i => default 0 (revs !! i)) (fun o => if decide (9 ∈ o) then -1 else 9) 0
    (fun _ => 0) (fun _ _ => (got, 0)) (fun _ => example_message) (fun _ => (5, 0)) None.
Definition example_server : server :=
  mkServer [mkPoll 3 POLLIN 0] 3 (init_tid_table (mkTidState ∅ ∅ None)) {[3]}.
Definition example_rounds (n : nat) : option server :=
  fold_left (fun o io => sv ← o; server_round (H := default_order) io sv)
    (take n [example_round 1 [1] 0; example_round 1 [0; 1] 72; example_round 1 [0; 16] 0])
    (Some example_server).

Lemma example_fresh ret revs got : accept_fresh (example_round ret revs got).
Proof. split; [|done]. intros o. simpl. destruct (decide (9 ∈ o)); [by left|by right]. Qed.

Lemma example_rounds_reachable n sv : example_rounds n = Some sv -> server_reachable (H := default_order) [] sv.
Proof.
  assert (forall l sv0 sv, Forall (fun io => accept_fresh io /\ ri_poll io <> -1) l ->
    server_reachable (H := default_order) [] sv0 ->
    fold_left (fun o io => sv ← o; server_round (H := default_order) io sv) l (Some sv0) = Some sv ->
    server_reachable (H := default_order) [] sv) as G.
  { clear. induction l as [|io l IH]; intros sv0 sv Hl H0; simpl; [by intros [= <-]|].
    apply list.Forall_cons in Hl as [[Hf Hp] Hl].
    destruct (server_round io sv0) as [sv1|] eqn:E; simpl.
    - apply IH; [done|]. pose proof (reach_round io [] sv0 sv1 H0 Hf E) as H1. unfold lost_after in H1.
      by destruct (Z.eqb_spec (ri_poll io) (-1)).
    - assert (forall l', fold_left (fun o io => sv ← o; server_round (H := default_order) io sv) l' None = None)
        as Hnone by (induction l'; done). by rewrite Hnone. }
  apply G.
  - apply Forall_take. repeat (apply list.Forall_cons; split; [split; [apply example_fresh|done]|]). done.
  - apply reach_start; set_solver.
Qed.

Lemma threads_follow_connections_witness :
  match example_rounds 2 with
  | Some sv => t_fd <$> (threads_list (sv_tid sv) !! 77) = Some 9 /\ 9 ∈ sv_open sv
  | None => False
  end
  /\ match example_rounds 3 with
     | Some sv => threads_list (sv_tid sv) !! 77 = None /\ descriptors sv = [3]
     | None => False
     end.
Proof.
  destruct (example_rounds 2) as [sv|] eqn:E; [|by vm_compute in E].
  destruct (threads_follow_connections (H := default_order) [] sv (example_rounds_reachable 2 sv E)) as [A _].
  vm_compute in E. injection E as <-. split.
  - split; [reflexivity|]. exact (proj1 (A 77 (mkTid "bob" 10 0 0 5 0 1 9) eq_refl (not_elem_of_nil 9))).
  - by vm_compute.
Defined.

(** The check of the threads, with no thread listed as dead before, keeps a thread that
    reported within the last second, replaces the counters of one that did not by those that
    /proc holds, forgets one that /proc has no longer, and empties the list of dead threads. *)
Lemma monitor_checks_threads `{HashOrder} (now : Z * Z) (proc : Z -> thread_files)
    (clk : Z -> Z * Z) (s : tid_state) :
  bad_tid_list s = None ->
  let s' := monitor_data_from_client now proc clk s in
  bad_tid_list s' = None
  /\ forall k, threads_list s' !! k = (item ← threads_list s !! k; checked now (proc k) item).
Proof.
  intros Hb s'. split; [done|]. intros k. subst s'. rewrite monitor_lookup, Hb.
  by destruct (decide _) as [Hin|]; [set_solver|].
Qed.

(** One thread has gone, one is read again, one is too young. *)
