(* ===== verification/Xml.v ===== *)
(** The configuration tree ([src/xml.c]).  The document is libxml2's: its
    nodes are the data the program walks through ([name], [properties],
    [children], [next]); the library's functions that build and change a
    tree are the operations of the class [LibXml], used through their laws.

    A pointer to a node is its path from the root: [i :: p] leads through
    the child number [i]; [cur->next] is the path with its last index
    increased. *)

From S2P Require Import Prelude CDouble CString Data.
Open Scope string_scope.
Open Scope Z_scope.

(** * Trees *)

(** [xmlNode]: the value of a property is what [xmlNodeListGetString] gives
    for it.  A text node has the name "text" and no properties. *)
Inductive xmlNode := XNode {
  x_name : string; x_properties : list (string * string); x_children : list xmlNode
}.

Definition path := list nat.

Fixpoint node_at (n : xmlNode) (p : path) : option xmlNode :=
  match p with
  | [] => Some n
  | i :: p => c ← x_children n !! i; node_at c p
  end.

(** A change of the node a path leads to. *)
Fixpoint change_at (n : xmlNode) (p : path) (f : xmlNode -> xmlNode) : option xmlNode :=
  match p with
  | [] => Some (f n)
  | i :: p =>
      c ← x_children n !! i;
      c' ← change_at c p f;
      Some (XNode (x_name n) (x_properties n) (<[i := c']> (x_children n)))
  end.

(** [xmlSetProp], [xmlNewChild] and [xmlUnlinkNode] (of the [i]-th child) as
    functions on the node they change. *)
Class LibXml := {
  xmlSetProp : string -> string -> xmlNode -> xmlNode;
  xmlNewChild : string -> option string -> xmlNode -> xmlNode;
  xmlUnlinkNode : nat -> xmlNode -> xmlNode;
  xmlSetProp_name : forall a v n, x_name (xmlSetProp a v n) = x_name n;
  xmlSetProp_children : forall a v n, x_children (xmlSetProp a v n) = x_children n;
  xmlSetProp_same : forall a v n,
    snd <$> List.find (fun p => String.eqb (fst p) a) (x_properties (xmlSetProp a v n)) = Some v;
  xmlSetProp_other : forall a b v n, a <> b ->
    List.find (fun p => String.eqb (fst p) b) (x_properties (xmlSetProp a v n))
    = List.find (fun p => String.eqb (fst p) b) (x_properties n);
  xmlNewChild_name : forall t v n, x_name (xmlNewChild t v n) = x_name n;
  xmlNewChild_props : forall t v n, x_properties (xmlNewChild t v n) = x_properties n;
  xmlNewChild_children : forall t v n, exists c,
    x_children (xmlNewChild t v n) = (x_children n ++ [c])%list
    /\ x_name c = t /\ x_properties c = [] /\ (v = None -> x_children c = []);
  xmlUnlink_name : forall i n, x_name (xmlUnlinkNode i n) = x_name n;
  xmlUnlink_props : forall i n, x_properties (xmlUnlinkNode i n) = x_properties n;
  xmlUnlink_children : forall i n, x_children (xmlUnlinkNode i n) = delete i (x_children n)
}.

(** * Reading *)

Definition getElemAttr (n : xmlNode) (attrName : string) : option string :=
  snd <$> List.find (fun p => String.eqb (fst p) attrName) (x_properties n).

(** [FindElementWithName]: depth first, each child before its own children. *)
Fixpoint find_name (nodeName : string) (n : xmlNode) : option path :=
  (fix go (i : nat) (l : list xmlNode) : option path :=
     match l with
     | [] => None
     | c :: l =>
         if String.eqb (x_name c) nodeName then Some [i]
         else match find_name nodeName c with
              | Some p => Some (i :: p)
              | None => go (S i) l
              end
     end) 0%nat (x_children n).

Definition FindElementWithName (root : xmlNode) (node : option path) (nodeName : string)
    : option path :=
  let base := default [] node in
  n ← node_at root base; p ← find_name nodeName n; Some (base ++ p)%list.

(** [FindElementWithNameAndAttr]: below a child that does not match, the
    recursive search looks for the name alone. *)
Definition find_name_attr (nodeName attrName attrValue : string) (n : xmlNode) : option path :=
  (fix go (i : nat) (l : list xmlNode) : option path :=
     match l with
     | [] => None
     | c :: l =>
         if String.eqb (x_name c) nodeName &&
            match getElemAttr c attrName with
            | Some attr => strcmp_eq attr attrValue
            | None => false
            end
         then Some [i]
         else match find_name nodeName c with
              | Some p => Some (i :: p)
              | None => go (S i) l
              end
     end) 0%nat (x_children n).

Definition FindElementWithNameAndAttr (root : xmlNode) (node : option path)
    (nodeName attrName attrValue : string) : option path :=
  let base := default [] node in
  n ← node_at root base;
  p ← find_name_attr nodeName attrName attrValue n; Some (base ++ p)%list.

(** The first node with a name among [l], which starts at index [i]. *)
Fixpoint find_sibling (i : nat) (l : list xmlNode) (childName : string) : option nat :=
  match l with
  | [] => None
  | c :: l => if String.eqb (x_name c) childName then Some i else find_sibling (S i) l childName
  end.

(** The path without its last index, and that index. *)
Definition parent_of (p : path) : path := removelast p.
Definition index_of (p : path) : nat := List.last p 0%nat.

(** The root element has no sibling that the program looks at. *)
Definition getNextChild (root : xmlNode) (node : option path) (childName : string)
    (prev_node : option path) : option path :=
  match node with
  | None => None
  | Some node =>
      match prev_node with
      | None =>
          n ← node_at root node;
          i ← find_sibling 0 (x_children n) childName; Some (node ++ [i])%list
      | Some [] => None
      | Some prev =>
          n ← node_at root (parent_of prev);
          i ← find_sibling (S (index_of prev)) (drop (S (index_of prev)) (x_children n)) childName;
          Some (parent_of prev ++ [i])%list
      end
  end.

(** * Writing *)

Section writing.
Context `{LibXml}.

(** The new element is the last child of its parent. *)
Definition new_child_path (root : xmlNode) (parent : path) : option path :=
  n ← node_at root parent; Some (parent ++ [length (x_children n)])%list.

(** [setAttr]: nothing for a null node. *)
Definition setAttr (root : xmlNode) (node : option path) (attrName value : string)
    : option xmlNode :=
  match node with
  | None => Some root
  | Some p => change_at root p (xmlSetProp attrName value)
  end.

(** [xmlNodeSetContent] is called on [addressNode], which is still null:
    an existing node is left as it is and the result is null. *)
Definition setNode (root : xmlNode) (node : option path) (nodeName : string)
    (value : option string) : option (xmlNode * option path) :=
  let parent := default [] node in
  match FindElementWithName root (Some parent) nodeName with
  | Some _ => Some (root, None)
  | None =>
      root' ← change_at root parent (xmlNewChild nodeName value);
      p ← new_child_path root parent; Some (root', Some p)
  end.

Definition setNodeWithAttr (root : xmlNode) (node : option path) (nodeName : string)
    (value : option string) (attrName attrValue : string)
    : option (xmlNode * option path) :=
  let parent := default [] node in
  match FindElementWithNameAndAttr root (Some parent) nodeName attrName attrValue with
  | Some _ => Some (root, None)
  | None =>
      root' ← change_at root parent (xmlNewChild nodeName value);
      p ← new_child_path root parent;
      root'' ← setAttr root' (Some p) attrName attrValue;
      Some (root'', Some p)
  end.

(** [removeNode]: the pointer dangles from here on. *)
Definition removeNode (root : xmlNode) (node : path) : option xmlNode :=
  match node with
  | [] => None
  | _ => change_at root (parent_of node) (xmlUnlinkNode (index_of node))
  end.
End writing.

(** * A concrete library, used by the witnesses *)

Fixpoint set_prop (a v : string) (l : list (string * string)) : list (string * string) :=
  match l with
  | [] => [(a, v)]
  | (b, w) :: l => if String.eqb b a then (a, v) :: l else (b, w) :: set_prop a v l
  end.

Definition text_of (value : option string) : list xmlNode :=
  match value with Some _ => [XNode "text" [] []] | None => [] end.

Lemma set_prop_same a v l :
  snd <$> List.find (fun p => String.eqb (fst p) a) (set_prop a v l) = Some v.
Proof.
  induction l as [|[b w] l IH]; simpl; [by rewrite String.eqb_refl|].
  destruct (String.eqb_spec b a) as [->|Hne]; simpl; [by rewrite String.eqb_refl|].
  by destruct (String.eqb_spec b a).
Qed.

Lemma set_prop_other a b v l : a <> b ->
  List.find (fun p => String.eqb (fst p) b) (set_prop a v l)
  = List.find (fun p => String.eqb (fst p) b) l.
Proof.
  intros Hne. induction l as [|[c w] l IH]; simpl.
  - by destruct (String.eqb_spec a b).
  - destruct (String.eqb_spec c a) as [->|]; simpl; [by destruct (String.eqb_spec a b)|].
    by rewrite IH.
Qed.

Definition tree_lib : LibXml.
Proof.
  refine {|
    xmlSetProp := fun a v n => XNode (x_name n) (set_prop a v (x_properties n)) (x_children n);
    xmlNewChild := fun t v n =>
      XNode (x_name n) (x_properties n) (x_children n ++ [XNode t [] (text_of v)]);
    xmlUnlinkNode := fun i n => XNode (x_name n) (x_properties n) (delete i (x_children n))
  |}; simpl; try done.
  - intros. apply set_prop_same.
  - intros. by apply set_prop_other.
  - intros. eexists. split; [done|]. simpl. by destruct v.
Defined.

(** * Lemmas *)

(** Rule of [find_sibling]. *)
Lemma find_sibling_spec i l name :
  match find_sibling i l name with
  | Some j => exists c, (i <= j < i + length l)%nat /\ l !! (j - i)%nat = Some c
              /\ x_name c = name /\ forall k, (i <= k < j)%nat ->
                   exists d, l !! (k - i)%nat = Some d /\ x_name d <> name
  | None => forall c, c ∈ l -> x_name c <> name
  end.
Proof.
  revert i. induction l as [|c l IH]; intros i; simpl; [by intros c Hc; apply elem_of_nil in Hc|].
  destruct (String.eqb_spec (x_name c) name).
  - exists c. rewrite Nat.sub_diag. split; [lia|]. split; [done|]. split; [done|]. lia.
  - specialize (IH (S i)). destruct (find_sibling (S i) l name) as [j|].
    + destruct IH as (d & Hj & Hd & Hn & Hk). exists d. split; [lia|].
      replace (j - i)%nat with (S (j - S i)) by lia. split; [done|]. split; [done|].
      intros k Hk'. destruct (Nat.eq_dec k i) as [->|].
      * rewrite Nat.sub_diag. by exists c.
      * replace (k - i)%nat with (S (k - S i)) by lia. apply Hk. lia.
    + intros d Hd. apply elem_of_cons in Hd as [->|Hd]; [done|by apply IH].
Qed.

Lemma change_at_node n p f m : node_at n p = Some m ->
  exists n', change_at n p f = Some n' /\ node_at n' p = Some (f m).
Proof.
  revert n. induction p as [|i p IH]; intros n E; simpl in *.
  - injection E as ->. by eexists.
  - destruct (x_children n !! i) as [c|] eqn:Ec; [|done]. simpl in *.
    destruct (IH c E) as (c' & -> & E'). simpl. eexists. split; [done|]. simpl.
    rewrite list_lookup_insert_eq; [done|]. by apply lookup_lt_Some in Ec.
Qed.

Lemma getElemAttr_set `{LibXml} a v n : getElemAttr (xmlSetProp a v n) a = Some v.
Proof. apply xmlSetProp_same. Qed.

Lemma getElemAttr_set_other `{LibXml} a b v n : a <> b ->
  getElemAttr (xmlSetProp a v n) b = getElemAttr n b.
Proof. intros. unfold getElemAttr. by rewrite xmlSetProp_other. Qed.

#[export] Hint Rewrite @getElemAttr_set : gov.

(** * Properties *)

(** setNodeWithAttr, on a document without a matching element, appends one below the
    root with the given name and attribute, and keeps the elements before it. *)
Lemma setNodeWithAttr_creates `{LibXml} (root : xmlNode) (nodeName attrName attrValue : string) :
  FindElementWithNameAndAttr root None nodeName attrName attrValue = None ->
  exists root' i n, setNodeWithAttr root None nodeName None attrName attrValue
                    = Some (root', Some [i])
    /\ i = length (x_children root)
    /\ node_at root' [i] = Some n /\ x_name n = nodeName
    /\ getElemAttr n attrName = Some attrValue
    /\ take i (x_children root') = x_children root.
Proof.
  intros Hf. unfold setNodeWithAttr. cbn [default].
  change (FindElementWithNameAndAttr root (Some []) nodeName attrName attrValue)
    with (FindElementWithNameAndAttr root None nodeName attrName attrValue).
  rewrite Hf. simpl. destruct (xmlNewChild_children nodeName None root) as (c & Ec & Hc & Hp & _).
  rewrite Ec. rewrite list_lookup_middle by done. simpl.
  eexists _, (length (x_children root)), _. split; [done|]. split; [done|]. simpl.
  rewrite insert_app_r_alt, Nat.sub_diag by done. simpl.
  rewrite list_lookup_middle by done. simpl. split; [done|].
  rewrite xmlSetProp_name, getElemAttr_set. split; [done|]. split; [done|].
  by rewrite take_app_length.
Qed.
