(* ===== verification/XmlFile.v ===== *)
(** Documents in files ([src/xml.c]): the file is read into a tree with its
    path ([parseConfigData]), a tree is saved ([saveXML]), and the attributes
    of a node are walked through ([getNextAttr]).

    The parser and the printer are libxml2's: the operations of the class
    [XmlFiles], which says that the elements of what is saved are read back. *)

From S2P Require Import Prelude CDouble CString Data Xml.
Open Scope string_scope.
Open Scope Z_scope.

(** * libxml2 *)

(** A name the program gives to an element or an attribute, and a text that
    the program gives as a value. *)
Definition xml_name (s : string) : bool :=
  negb (String.eqb s "") && forallb (fun c => (97 <=? code c) && (code c <=? 122) || Ascii.eqb c "_") (list_ascii_of_string s).
Definition xml_text (s : string) : bool := forallb isprint (list_ascii_of_string s).

(** A node of text is one without properties and children ([Xml]). *)
Definition is_text (n : xmlNode) : bool :=
  String.eqb (x_name n) "text" && match x_properties n, x_children n with [], [] => true | _, _ => false end.

(** A tree without its texts. *)
Fixpoint elements (n : xmlNode) : xmlNode :=
  XNode (x_name n) (x_properties n)
    ((fix go (l : list xmlNode) : list xmlNode :=
        match l with
        | [] => []
        | c :: l => if is_text c then go l else elements c :: go l
        end) (x_children n)).

(** [file]: the bytes of a file.  [xmlReadFile], with [xmlKeepBlanksDefault
    (0)], yields a document, which may have no root element.  [document]: the
    trees of the documents read and what the library makes of them.

    A tree that is saved and read has the same elements, but not always the
    same texts: with [xmlKeepBlanksDefault (0)] the library puts blanks
    between the elements that it saves and drops blank texts next to elements
    when it reads, and texts that came to stand side by side are read as
    one. *)
Class XmlFiles `{LibXml} := {
  file : Type;
  xmlReadFile : file -> option (option xmlNode);
  xmlSaveFormatFile : xmlNode -> file;
  file_size : file -> Z;
  document : xmlNode -> Prop;
  file_size_pos : forall f, 0 <= file_size f;
  read_document : forall f n, xmlReadFile f = Some (Some n) -> document n;
  read_saved : forall n, document n -> exists n', xmlReadFile (xmlSaveFormatFile n) = Some (Some n')
    /\ elements n' = elements n;
  document_child : forall n i c, document n -> x_children n !! i = Some c -> document c;
  document_change : forall n i c c', document n -> x_children n !! i = Some c -> document c' ->
    document (XNode (x_name n) (x_properties n) (<[i := c']> (x_children n)));
  document_prop : forall a v n, xml_name a = true -> xml_text v = true ->
    document n -> document (xmlSetProp a v n);
  document_new : forall t n, xml_name t = true -> document n -> document (xmlNewChild t None n);
  document_unlink : forall i n, document n -> document (xmlUnlinkNode i n)
}.

(** * Files *)

Notation disk := (gmap string file).

Section files.
Context `{XmlFiles}.

Definition MAX_XML_PATH : Z := 4096.

(** [xd_path] is the array; a path that fills it has no NUL. *)
Record xml_data := mkXmlData { xd_root : xmlNode; xd_path : string }.

(** [snprintf] into [n] bytes. *)
Definition error_text (n : Z) (s : string) : string := prefix_n (n - 1) s.

Definition parseConfigData (d : disk) (path : option string) (maxErrDescr : Z) : xml_data + string :=
  match path with
  | Some path =>
      match f ← d !! path; xmlReadFile f with
      | Some (Some root) => inl (mkXmlData root (strncpy_str path MAX_XML_PATH))
      | Some None => inr (error_text maxErrDescr ("Document is empty " +:+ path))
      | None => inr (error_text maxErrDescr ("Can't parse file " +:+ path))
      end
  | None => inr (error_text maxErrDescr "Path to config file shouldn't be empty")
  end.

(** What becomes of a file that is written: all of it, nothing because it
    cannot be opened, or a part. *)
Inductive save_io := Written | Refused | Cut (f : file).

Definition xml_save (io : save_io) (path : string) (root : xmlNode) (d : disk) : Z * disk :=
  match io with
  | Written => let f := xmlSaveFormatFile root in (file_size f, <[path := f]> d)
  | Refused => (-1, d)
  | Cut f => (-1, <[path := f]> d)
  end.

(** [None]: the text of the path is read past its array. *)
Definition saveXML (io : save_io) (data : option xml_data) (path : option string) (d : disk)
    : option (Z * disk) :=
  match data with
  | None => Some (-1, d)
  | Some data =>
      p ← match path with
          | Some p => Some p
          | None => if strlen (xd_path data) <? MAX_XML_PATH then Some (xd_path data) else None
          end;
      Some (xml_save io p (xd_root data) d)
  end.
End files.

(** * Attributes *)

(** An attribute is its place in the list of its node. *)
Definition getNextAttr (nodeValue : xmlNode) (prev_attr : option nat) : option nat :=
  let attr := match prev_attr with Some i => S i | None => 0%nat end in
  if (attr <? length (x_properties nodeValue))%nat then Some attr else None.

Definition getAttributeName (nodeValue : xmlNode) (attr : option nat) : option string :=
  i ← attr; fst <$> x_properties nodeValue !! i.
Definition getAttributeValue (nodeValue : xmlNode) (attr : option nat) : option string :=
  i ← attr; snd <$> x_properties nodeValue !! i.

(** The loop over the attributes of a node. *)
Fixpoint attr_loop {T} (fuel : nat) (n : xmlNode) (attr : option nat)
    (body : option string -> option string -> T -> T) (t : T) : T :=
  match fuel, attr with
  | S fuel, Some i =>
      attr_loop fuel n (getNextAttr n (Some i)) body (body (getAttributeName n attr) (getAttributeValue n attr) t)
  | _, _ => t
  end.

(** It meets the attributes in their order. *)
Lemma attr_loop_from {T} n k body (t : T) : (k <= length (x_properties n))%nat ->
  attr_loop (length (x_properties n) - k) n
    (if (k <? length (x_properties n))%nat then Some k else None) body t
  = fold_left (fun t p => body (Some (fst p)) (Some (snd p)) t) (drop k (x_properties n)) t.
Proof.
  intros Hk. remember (length (x_properties n) - k)%nat as m eqn:Em. revert k t Hk Em.
  induction m as [|m IH]; intros k t Hk Em.
  - rewrite drop_ge by lia. done.
  - assert (k < length (x_properties n))%nat as Hlt by lia. rewrite (proj2 (Nat.ltb_lt _ _) Hlt).
    destruct (lookup_lt_is_Some_2 _ _ Hlt) as [p Ep]. rewrite (drop_S _ _ _ Ep). cbn [attr_loop fold_left].
    unfold getAttributeName, getAttributeValue. cbn [mbind option_bind]. rewrite Ep. cbn [fmap option_fmap option_map].
    unfold getNextAttr. apply IH; lia.
Qed.

Lemma attr_loop_spec {T} n body (t : T) :
  attr_loop (length (x_properties n)) n (getNextAttr n None) body t
  = fold_left (fun t p => body (Some (fst p)) (Some (snd p)) t) (x_properties n) t.
Proof. pose proof (attr_loop_from n 0 body t ltac:(lia)) as E. by rewrite Nat.sub_0_r in E. Qed.

(** * Lemmas *)

Lemma elements_children n : x_children (elements n) = elements <$> List.filter (fun c => negb (is_text c)) (x_children n).
Proof.
  destruct n as [nm pr l]. cbn [elements x_children]. induction l as [|c l IH]; [done|].
  cbn [List.filter]. destruct (is_text c); cbn [negb]; [exact IH|]. by rewrite IH.
Qed.
Lemma elements_name n : x_name (elements n) = x_name n.
Proof. by destruct n. Qed.
Lemma elements_properties n : x_properties (elements n) = x_properties n.
Proof. by destruct n. Qed.

Section lemmas.
Context `{XmlFiles}.

Lemma document_node n p c : document n -> node_at n p = Some c -> document c.
Proof.
  revert n. induction p as [|i p IH]; intros n Hn; [by intros [= <-]|]. cbn.
  destruct (x_children n !! i) as [m|] eqn:Em; [|done]. apply IH. by eapply document_child.
Qed.

(** A change of one node that the library makes leaves a document. *)
Lemma document_change_at n p f n' : document n -> (forall m, document m -> document (f m)) ->
  change_at n p f = Some n' -> document n'.
Proof.
  intros Hn Hf. revert n n' Hn. induction p as [|i p IH]; intros n n' Hn; [intros [= <-]; by apply Hf|]. cbn.
  destruct (x_children n !! i) as [m|] eqn:Em; [|done]. cbn [mbind option_bind].
  destruct (change_at m p f) as [m'|] eqn:Ec; [|done]. intros [= <-].
  eapply document_change; [done..|]. apply (IH m m'); [by eapply document_child|done].
Qed.

Lemma document_put n p c n' : document n -> document c -> change_at n p (fun _ => c) = Some n' -> document n'.
Proof. intros Hn Hc. by apply document_change_at. Qed.

Lemma removeNode_document n p n' : document n -> removeNode n p = Some n' -> document n'.
Proof.
  intros Hn. unfold removeNode. destruct p as [|i p]; [done|]. apply document_change_at; [done|].
  intros m. apply document_unlink.
Qed.

Lemma setAttr_document n p a v n' : xml_name a = true -> xml_text v = true -> document n ->
  setAttr n p a v = Some n' -> document n'.
Proof.
  intros Ha Hv Hn. unfold setAttr. destruct p as [p|]; [|by intros [= <-]].
  apply document_change_at; [done|]. intros m. by apply document_prop.
Qed.

Lemma setNode_document n p t n' q : xml_name t = true -> document n ->
  setNode n p t None = Some (n', q) -> document n'.
Proof.
  intros Ht Hn. unfold setNode. destruct (FindElementWithName _ _ _); [by intros [= <- _]|].
  destruct (change_at n _ _) as [m|] eqn:Ec; [|done]. cbn [mbind option_bind].
  destruct (new_child_path _ _); [|done]. intros [= <- _]. eapply document_change_at; [done| |exact Ec].
  intros. by apply document_new.
Qed.

Lemma setNodeWithAttr_document n p t a v n' q : xml_name t = true -> xml_name a = true -> xml_text v = true ->
  document n -> setNodeWithAttr n p t None a v = Some (n', q) -> document n'.
Proof.
  intros Ht Ha Hv Hn. unfold setNodeWithAttr. destruct (FindElementWithNameAndAttr _ _ _ _ _); [by intros [= <- _]|].
  destruct (change_at n _ _) as [m|] eqn:Ec; [|done]. cbn [mbind option_bind].
  destruct (new_child_path _ _) as [r|]; [|done]. cbn [mbind option_bind].
  destruct (setAttr m (Some r) a v) as [m'|] eqn:Es; [|done]. intros [= <- _].
  eapply setAttr_document; [exact Ha|exact Hv| |exact Es]. eapply document_change_at; [done| |exact Ec].
  intros. by apply document_new.
Qed.
End lemmas.

(** * A concrete library, used by the witnesses *)

(** A file is the tree it holds. *)
Definition tree_files : @XmlFiles tree_lib.
Proof.
  refine {| file := xmlNode; xmlReadFile := fun f => Some (Some f); xmlSaveFormatFile := fun n => n;
            file_size := fun _ => 1; document := fun _ => True |}; try done.
  intros n _. by exists n.
Defined.
