(* ===== verification/Config.v ===== *)
(** The configuration ([src/governor_config.c]): the conversions, the
    reader of [mysql-governor.xml], the limits of an account, the copy for
    the users.  [Exit] is a call of [exit(-1)] with its message, [Crash] a
    null pointer dereference. *)

From S2P Require Import Prelude CDouble CString Data FifoStats Xml.
Open Scope string_scope.
Open Scope Z_scope.

(** * Outcomes *)

Inductive outcome (A : Type) := Ok (a : A) | Exit (msg : string) | Crash.
Arguments Ok {A}. Arguments Exit {A}. Arguments Crash {A}.

Definition obind {A B} (m : outcome A) (f : A -> outcome B) : outcome B :=
  match m with Ok a => f a | Exit s => Exit s | Crash => Crash end.

Declare Scope outcome_scope.
Notation "x <-- m ;; k" := (obind m (fun x => k))
  (at level 100, m at next level, right associativity) : outcome_scope.
Open Scope outcome_scope.

(** * Conversions *)

Definition mode_type_str_to_enum (mode_str : option string) : outcome MODE_TYPE :=
  match mode_str with
  | None => Exit "Error: mode attribute is absent"
  | Some s =>
      if strcasecmp_eq s "TEST" then Ok TEST_MODE
      else if strcasecmp_eq s "PRODUCTION" then Ok PRODUCTION_MODE
      else if strcasecmp_eq s "DEBUG" then Ok DEBUG_MODE
      else if strcasecmp_eq s "ERROR" then Ok ERROR_MODE
      else if strcasecmp_eq s "RESTRICT" then Ok RESTRICT_MODE
      else if strcasecmp_eq s "NORESTRICT" then Ok NORESTRICT_MODE
      else if strcasecmp_eq s "IGNORE" then Ok IGNORE_MODE
      else if strcasecmp_eq s "OLD" then Ok OLD_RESTRICT_MODE
      else if strcasecmp_eq s "NEW" then Ok NEW_RESTRICT_MODE
      else Exit "Error: invalid mode"
  end.

Definition mode_type_enum_to_str (tp : MODE_TYPE) : string :=
  match tp with
  | TEST_MODE => "TEST"
  | PRODUCTION_MODE => "PRODUCTION"
  | DEBUG_MODE => "DEBUG"
  | ERROR_MODE => "ERROR"
  | RESTRICT_MODE => "RESTRICT"
  | NORESTRICT_MODE => "NORESTRICT"
  | IGNORE_MODE => "IGNORE"
  | OLD_RESTRICT_MODE => "OLD RESTRICT MODE"
  | NEW_RESTRICT_MODE => "NEW RESTRICT MODE"
  end.

Definition getRestrictFormat (mode : option string) : Z :=
  match mode with
  | Some m =>
      if strcasecmp_eq m "SHORT" then 0
      else if strcasecmp_eq m "MEDIUM" then 1
      else if strcasecmp_eq m "LONG" then 2
      else if strcasecmp_eq m "VERYLONG" then 3
      else if strcasecmp_eq m "CHECKTICKS" then 4
      else 2
  | None => 2
  end.

Definition getRestrictFormatStr (tp : Z) : string :=
  if tp =? 0 then "SHORT"
  else if tp =? 1 then "MEDIUM"
  else if tp =? 2 then "LONG"
  else if tp =? 3 then "VERYLONG"
  else if tp =? 4 then "CHECKTICKS"
  else "WOW!!!".

Definition unit_factor (unit : ascii) : Z :=
  if Ascii.eqb unit "s" || Ascii.eqb unit "S" then 1
  else if Ascii.eqb unit "m" || Ascii.eqb unit "M" then 60
  else if Ascii.eqb unit "h" || Ascii.eqb unit "H" then 60 * 60
  else if Ascii.eqb unit "d" || Ascii.eqb unit "D" then 60 * 60 * 24
  else 1.

Definition get_seconds (value : string) (unit : ascii) : outcome Z :=
  match sscanf_u value with
  | None => Exit "Error while parsing period"
  | Some val => Ok (u32 (val * unit_factor unit))
  end.

Definition MAX_VAL_LEN : Z := 10.

(** [value] holds the digits since the last unit, [pos] of them. *)
Fixpoint parse_period_loop (period value : string) (result : Z) : outcome Z :=
  match period with
  | EmptyString => Ok result
  | String c rest =>
      if isdigit c then
        if MAX_VAL_LEN <=? strlen value then Exit "Error: value of period is too large"
        else parse_period_loop rest (value +:+ String c EmptyString) result
      else
        s <-- get_seconds value c;;
        parse_period_loop rest "" (u32 (result + s))
  end.

Definition parse_period (period : string) : outcome Z :=
  result <-- parse_period_loop period "" 0;;
  Ok (if result =? 0 then u32 (atoi period) else result).

(** * Limits *)

Definition _set_val (limit : T_LONG) (ptr name : string) (value : Z * Z * Z * Z) : T_LONG * bool :=
  if strcmp_eq ptr name then
    let '(v0, v1, v2, v3) := value in (mkTLong v0 v1 v2 v3, true)
  else (limit, false).

Definition attr_or (n : xmlNode) (attrName : string) (d : Z) : Z :=
  match getElemAttr n attrName with
  | None => d
  | Some s => to_ll (dtrunc (atof s))
  end.

Definition set_stats_limit (inner_xml : xmlNode) (st : Stats_cfg) : outcome Stats_cfg :=
  match getElemAttr inner_xml "current" with
  | None => Exit "Error: attribute 'current' is absent"
  | Some val =>
      match getElemAttr inner_xml "name" with
      | None => Crash
      | Some ptr =>
          value <-- (if strcmp_eq ptr "slow" then
                       v <-- parse_period val;; Ok (v, -1, -1, -1)
                     else
                       Ok (to_ll (dtrunc (atof val)), attr_or inner_xml "short" (-1),
                           attr_or inner_xml "mid" (-1), attr_or inner_xml "long" (-1)));;
          Ok (let set name l := _set_val l ptr name value in
              let '(c, ok) := set "cpu" (l_cpu st) in
              let st := mkStatsCfg c (l_write st) (l_read st) (l_slow st) (account_flag st) (mode st) in
              if ok then st else
              let '(w, ok) := set "write" (l_write st) in
              let st := mkStatsCfg (l_cpu st) w (l_read st) (l_slow st) (account_flag st) (mode st) in
              if ok then st else
              let '(r, ok) := set "read" (l_read st) in
              let st := mkStatsCfg (l_cpu st) (l_write st) r (l_slow st) (account_flag st) (mode st) in
              if ok then st else
              let '(s, ok) := set "slow" (l_slow st) in
              mkStatsCfg (l_cpu st) (l_write st) (l_read st) s (account_flag st) (mode st))
      end
  end.

Definition zero_limits : T_LONG := mkTLong 0 0 0 0.
(** [calloc] of a [stats_limit_cfg]; the first constant of [MODE_TYPE] is
    [TEST_MODE]. *)
Definition zero_cfg : Stats_cfg :=
  mkStatsCfg zero_limits zero_limits zero_limits zero_limits false TEST_MODE.

(** [for (c = getNextChild (node, name, NULL); c; c = getNextChild (node,
    name, c))] over a tree that the body does not change. *)
Fixpoint child_loop {S} (fuel : nat) (root : xmlNode) (node : path) (name : string)
    (cur : option path) (body : xmlNode -> S -> outcome S) (s : S) : outcome S :=
  match fuel with
  | O => Ok s
  | Datatypes.S fuel =>
      match cur with
      | None => Ok s
      | Some p =>
          match node_at root p with
          | None => Crash
          | Some n =>
              s' <-- body n s;;
              child_loop fuel root node name (getNextChild root (Some node) name (Some p)) body s'
          end
      end
  end.

(** The fuel is the number of siblings plus one. *)
Definition for_children {S} (root : xmlNode) (node : path) (name : string)
    (body : xmlNode -> S -> outcome S) (s : S) : outcome S :=
  match node_at root node with
  | None => Crash
  | Some n =>
      child_loop (Datatypes.S (length (x_children n))) root node name
        (getNextChild root (Some node) name None) body s
  end.

(** * The configuration record *)

Record governor_config := mkConfig {
  db_login : string; db_password : string; default_limit : Stats_cfg;
  account_limits : gmap string Stats_cfg; host : string; log : string; log_mode : MODE_TYPE;
  restrict_log : option string; separator : ascii;
  level1 : Z; level2 : Z; level3 : Z; level4 : Z; c_timeout : Z;
  c_intervals : intervals;
  restrict_format : Z; exec_script : option string;
  use_lve : Z; statistic_mode : Z; logqueries_use : Z; daemon_monitor : Z;
  max_user_connections : Z; killuser : Z; is_gpl : Z; separate_lve : Z; all_lve : Z;
  slow_queries : Z; restrict_mode : Z; l_unlimit : Z; slow_queries_log : option string;
  debug_user : option string; save_statistic_uid : Z
}.

Definition config_get_account_limit (cfg : governor_config) (account_id : string) : Stats_cfg :=
  match account_limits cfg !! account_id with
  | Some ptr => ptr
  | None => default_limit cfg
  end.

Definition set_account_limits (cfg : governor_config) (m : gmap string Stats_cfg)
    : governor_config :=
  mkConfig (db_login cfg) (db_password cfg) (default_limit cfg) m (host cfg) (log cfg)
    (log_mode cfg) (restrict_log cfg) (separator cfg) (level1 cfg) (level2 cfg) (level3 cfg)
    (level4 cfg) (c_timeout cfg) (c_intervals cfg) (restrict_format cfg) (exec_script cfg)
    (use_lve cfg) (statistic_mode cfg) (logqueries_use cfg) (daemon_monitor cfg)
    (max_user_connections cfg) (killuser cfg) (is_gpl cfg) (separate_lve cfg) (all_lve cfg)
    (slow_queries cfg) (restrict_mode cfg) (l_unlimit cfg) (slow_queries_log cfg)
    (debug_user cfg) (save_statistic_uid cfg).

(** The [memcpy] copies [sizeof (Stats)] bytes, 24, of the default limits:
    the first three fields of [cpu].  The rest stays zero. *)
Definition config_add_work_user (cfg : governor_config) (user_name : option string)
    : governor_config :=
  match user_name with
  | Some u =>
      if negb (String.eqb u "") then
        match account_limits cfg !! u with
        | Some _ => cfg
        | None =>
            let d := l_cpu (default_limit cfg) in
            let l := mkStatsCfg (mkTLong (t_current d) (t_short d) (t_mid d) 0)
                       zero_limits zero_limits zero_limits false IGNORE_MODE in
            set_account_limits cfg (<[u := l]> (account_limits cfg))
        end
      else cfg
  | None => cfg
  end.

(** * Reading the configuration, section by section *)

Section config_init.
Variable root : xmlNode.

(** [FindElementWithName (xml, NULL, name)]. *)
Definition section (name : string) : option xmlNode :=
  p ← FindElementWithName root None name; node_at root p.

Definition attr_is (tag : option xmlNode) (attrName value : string) : bool :=
  match (n ← tag; getElemAttr n attrName) with
  | Some s => strcasecmp_eq s value
  | None => false
  end.

Definition cfg_log : outcome (string * MODE_TYPE) :=
  match section "log" with
  | None => Exit "No log path"
  | Some n =>
      m <-- (match getElemAttr n "mode" with
             | None => Ok ERROR_MODE
             | Some s => mode_type_str_to_enum (Some s)
             end);;
      Ok (default "" (getElemAttr n "file"), m)
  end.

Definition cfg_interval (n : xmlNode) (a : string) (d : Z) : Z :=
  match getElemAttr n a with None => d | Some s => u32 (atoi s) end.

Definition cfg_intervals : outcome intervals :=
  match section "intervals" with
  | None => Exit "No 'intervals' parameter"
  | Some n => Ok (mkIntervals (cfg_interval n "short" 5) (cfg_interval n "mid" 15)
                    (cfg_interval n "long" 30))
  end.

(** [use_lve], [all_lve], [separate_lve]. *)
Definition cfg_lve : Z * Z * Z :=
  let t := section "lve" in
  let '(use, all, sep) := (0, 0, 0) in
  let use := if attr_is t "use" "On" || attr_is t "use" "Single" then 1 else use in
  let '(use, sep) := if attr_is t "use" "AbUsers" then (1, 1) else (use, sep) in
  if attr_is t "use" "All" then (1, 1, 1) else (use, all, sep).

(** [statistic_mode], [save_statistic_uid]. *)
Definition cfg_statistic : Z * Z :=
  let t := section "statistic" in
  (if attr_is t "mode" "Off" then 0 else 1, if attr_is t "save_uid" "On" then 1 else 0).

Definition cfg_debug_user : option string := n ← section "debug_user"; getElemAttr n "name".

Definition cfg_logqueries : Z :=
  let t := section "logqueries" in
  if attr_is t "use" "Before" then 2 else if attr_is t "use" "On" then 1 else 0.

Definition cfg_daemon : Z := if attr_is (section "daemon") "monitor" "Off" then 0 else 1.

Definition cfg_slow_queries : Z * option string :=
  let t := section "slow_queries" in
  (if attr_is t "run" "On" then 1 else 0, n ← t; getElemAttr n "log").

Definition period_or (n : option xmlNode) (a d : string) : outcome Z :=
  match (n ← n; getElemAttr n a) with
  | None => parse_period d
  | Some s => parse_period s
  end.

(** [restrict_mode], [l_unlimit]. *)
Definition cfg_restrict_mode : outcome (Z * Z) :=
  let t := section "restrict_mode" in
  l <-- period_or t "unlimit" "60s";;
  Ok (if attr_is t "use" "period" then 0 else 1, l).

(** [restrict_log], [killuser], [max_user_connections], [restrict_format]
    and the four levels and the timeout. *)
Definition cfg_restrict
    : outcome (xmlNode * (option string * Z * Z * Z) * (Z * Z * Z * Z * Z)) :=
  match section "restrict" with
  | None => Exit "No 'restrict' parameter"
  | Some n =>
      let killuser := if attr_is (Some n) "killuser" "on" then 1 else 0 in
      let conns := match getElemAttr n "user_max_connections" with
                   | None => 30
                   | Some s => let c := atoi s in if c <? 0 then 30 else c
                   end in
      l1 <-- period_or (Some n) "level1" "60s";;
      l2 <-- period_or (Some n) "level2" "15m";;
      l3 <-- period_or (Some n) "level3" "1h";;
      l4 <-- period_or (Some n) "level4" "1d";;
      tm <-- period_or (Some n) "timeout" "1h";;
      Ok (n, (getElemAttr n "log", killuser, conns, getRestrictFormat (getElemAttr n "format")),
          (l1, l2, l3, l4, tm))
  end.

(** [stat] of a path: [None] when it fails, else whether it is a directory. *)
Definition cfg_script (script_stat : string -> option bool) (n : xmlNode) : option string :=
  match getElemAttr n "script" with
  | None => None
  | Some s =>
      if String.eqb s "" then None
      else match script_stat s with
           | None => None
           | Some is_dir => if is_dir then None else Some s
           end
  end.

(** [db_login], [db_password], [host], [separator]; the first character of
    an empty separator is the NUL. *)
Definition cfg_connector : outcome (string * string * string * ascii) :=
  match section "connector" with
  | None => Exit "No connector parameter"
  | Some n =>
      Ok (default "" (getElemAttr n "login"), default "" (getElemAttr n "password"),
          default "" (getElemAttr n "host"),
          match getElemAttr n "prefix_separator" with None => "_"%char | Some s => first_char s end)
  end.

Definition set_mode (l : Stats_cfg) (flag : bool) (m : MODE_TYPE) : Stats_cfg :=
  mkStatsCfg (l_cpu l) (l_write l) (l_read l) (l_slow l) flag m.

Definition cfg_default : outcome Stats_cfg :=
  match FindElementWithName root None "default" with
  | None => Exit "No default limits"
  | Some p =>
      l <-- for_children root p "limit" set_stats_limit (set_mode zero_cfg false RESTRICT_MODE);;
      Ok (set_mode l true RESTRICT_MODE)
  end.

(** The limits of one [user] element: the default ones, then its own. *)
Definition user_cfg (dl : Stats_cfg) (n : xmlNode) : outcome (string * Stats_cfg) :=
  let limits flag :=
    m <-- (match getElemAttr n "mode" with
           | None => Ok RESTRICT_MODE
           | Some s => mode_type_str_to_enum (Some s)
           end);;
    for_children n [] "limit" set_stats_limit (set_mode dl flag m) in
  match getElemAttr n "name", getElemAttr n "mysql_name" with
  | None, None => Exit "Error: both 'name' and 'mysql_name' attributes are absent"
  | Some _, Some _ => Exit "Error: both 'name' and 'mysql_name' attributes are present"
  | Some account, None => l <-- limits true;; Ok (account, l)
  | None, Some mysql_name => l <-- limits false;; Ok (mysql_name, l)
  end.

Definition cfg_users (dl : Stats_cfg) : outcome (gmap string Stats_cfg) :=
  for_children root [] "user"
    (fun n m => ul <-- user_cfg dl n;; Ok (<[ul.1 := ul.2]> m)) ∅.
End config_init.

(** The duplicate for the users is the document without its connector; the
    result is the tree written and the return value. *)
Definition save_duplicate_config `{LibXml} (saved : bool) (root : xmlNode)
    : option (xmlNode * Z) :=
  root' ← (match FindElementWithName root None "connector" with
           | Some p => removeNode root p
           | None => Some root
           end);
  Some (root', if saved then 0 else 1).

(** [document] is what [parseConfigData] yields, [liblve] whether the library
    can be loaded ([check_liblve]). *)
Definition config_init (liblve : bool) (script_stat : string -> option bool)
    (document : option xmlNode) : outcome governor_config :=
  match document with
  | None => Exit "Error reading config file"
  | Some root =>
      lg <-- cfg_log root;;
      iv <-- cfg_intervals root;;
      rm <-- cfg_restrict_mode root;;
      rs <-- cfg_restrict root;;
      let '(restrict_node, (rlog, kill, conns, fmt), (l1, l2, l3, l4, tm)) := rs in
      co <-- cfg_connector root;;
      let '(login, pass, h, sep) := co in
      dl <-- cfg_default root;;
      users <-- cfg_users root dl;;
      let '(use, all, separate) := cfg_lve root in
      let '(smode, suid) := cfg_statistic root in
      let '(sq, sqlog) := cfg_slow_queries root in
      Ok (mkConfig login pass dl users h (fst lg) (snd lg) rlog sep l1 l2 l3 l4 tm iv fmt
            (cfg_script script_stat restrict_node) use smode (cfg_logqueries root) (cfg_daemon root)
            conns kill (if liblve then 0 else 1) separate all sq (fst rm) (snd rm) sqlog
            (cfg_debug_user root) suid)
  end.

(** [reread_config]: the old configuration is freed and the file read anew. *)
Definition reread_config (liblve : bool) (script_stat : string -> option bool)
    (files : string -> option xmlNode) (_ : governor_config) : outcome governor_config :=
  config_init liblve script_stat (files CONFIG_PATH).

Definition get_config_log_mode (cfg : governor_config) : MODE_TYPE := log_mode cfg.

(** ** [print_config_full]: the lines it prints *)

Definition print_limit (key what : string) (t : T_LONG) : list string :=
  [key +:+ "_" +:+ what +:+ "_CUR " +:+ dec (t_current t);
   key +:+ "_" +:+ what +:+ "_SHORT " +:+ dec (t_short t);
   key +:+ "_" +:+ what +:+ "_MID " +:+ dec (t_mid t);
   key +:+ "_" +:+ what +:+ "_LONG " +:+ dec (t_long t)].

Definition print_account_configs (key : string) (ptr : Stats_cfg) : list string :=
  (print_limit key "CPU" (l_cpu ptr) ++ print_limit key "READ" (l_read ptr)
   ++ print_limit key "WRITE" (l_write ptr) ++ print_limit key "SLOW" (l_slow ptr)
   ++ [key +:+ "_ACC_TP " +:+ (if account_flag ptr then "ACCOUNT" else "MYSQL_USER");
       key +:+ "_MODE " +:+ mode_type_enum_to_str (mode ptr)])%list.

(** The text of the mode of the LVEs; another combination leaves it empty. *)
Definition lve_text (cfg : governor_config) : string :=
  let on := nonzero (use_lve cfg) in
  let all := nonzero (all_lve cfg) in
  let separate := nonzero (separate_lve cfg) in
  if on && all && separate then "All"
  else if on && negb all && separate then "AbUsers"
  else if on && negb (nonzero (s32 (all_lve cfg + separate_lve cfg))) then "Single or On"
  else "".

Definition or_NULL (s : option string) : string := default "NULL" s.
Definition on_off (v : Z) : string := if nonzero v then "ON" else "OFF".

Definition print_config_full `{HashOrder} (cfg : governor_config) : list string :=
  let d v := dec (s32 v) in
  (["CONFIG DUMP:"; "CONNECTOR_HOST " +:+ host cfg; "CONNECTOR_LOGIN " +:+ db_login cfg;
    "CONNECTOR_PASSWORD " +:+ db_password cfg;
    "CONNECTOR_PREFFIX_SEPARATOR " +:+ String (separator cfg) "";
    "INTERVALS_SHORT " +:+ d (interval_short (c_intervals cfg));
    "INTERVALS_MID " +:+ d (interval_mid (c_intervals cfg));
    "INTERVALS_LONG " +:+ d (interval_long (c_intervals cfg));
    "LVE " +:+ lve_text cfg +:+ ", USE_LVE " +:+ d (use_lve cfg) +:+ ", ALL_LVE " +:+ d (all_lve cfg)
      +:+ ", SEP_LVE " +:+ d (separate_lve cfg);
    "LOG " +:+ log cfg +:+ ", MODE " +:+ mode_type_enum_to_str (log_mode cfg);
    "RESTRICT_LEVEL_1 " +:+ d (level1 cfg); "RESTRICT_LEVEL_2 " +:+ d (level2 cfg);
    "RESTRICT_LEVEL_3 " +:+ d (level3 cfg); "RESTRICT_LEVEL_4 " +:+ d (level4 cfg);
    "RESTRICT_TIMEOUT " +:+ d (c_timeout cfg);
    "RESTRICT_LOG " +:+ or_NULL (restrict_log cfg) +:+ ", RESTRICT_FORMAT "
      +:+ getRestrictFormatStr (restrict_format cfg);
    "RESTRICT_SCRIPT " +:+ default "(null)" (exec_script cfg);
    "RESTRICT_KILLUSER " +:+ on_off (killuser cfg);
    "RESTRICT_USER_MAX_CONNECTION " +:+ d (max_user_connections cfg);
    "RESTRICTMODE " +:+ (if nonzero (restrict_mode cfg) then "limit" else "period")
      +:+ ", RESTRICTMODE_ULIMIT " +:+ d (l_unlimit cfg);
    "SLOWQUERIES " +:+ on_off (slow_queries cfg) +:+ ", SLOWQUERIES_LOG " +:+ or_NULL (slow_queries_log cfg);
    "STATISTICMODE " +:+ on_off (statistic_mode cfg) +:+ ", STATISTIC_MODE_SAVEUID "
      +:+ on_off (save_statistic_uid cfg);
    "LOGQUERIES " +:+ (if negb (nonzero (logqueries_use cfg)) then "OFF"
                       else if logqueries_use cfg =? 1 then "ON" else "BEFORE");
    "DEBUG_USER " +:+ or_NULL (debug_user cfg); "DAEMON_MONITOR " +:+ on_off (daemon_monitor cfg);
    "IS_GPL " +:+ d (is_gpl cfg)]
   ++ print_limit "DEFAULT" "CPU" (l_cpu (default_limit cfg))
   ++ print_limit "DEFAULT" "READ" (l_read (default_limit cfg))
   ++ print_limit "DEFAULT" "WRITE" (l_write (default_limit cfg))
   ++ print_limit "DEFAULT" "SLOW" (l_slow (default_limit cfg))
   ++ ["DEFAULT_ACC_TP " +:+ (if account_flag (default_limit cfg) then "ACCOUNT" else "MYSQL_USER");
       "DEFAULTMODE " +:+ mode_type_enum_to_str (mode (default_limit cfg))]
   ++ ht_foreach (account_limits cfg) (fun key ptr out => out ++ print_account_configs key ptr) [])%list.

(** * Lemmas *)

(** ** Loops over children are folds *)

#[local] Arguments getNextChild : simpl never.

Definition named (name : string) (l : list xmlNode) : list xmlNode :=
  List.filter (fun c => String.eqb (x_name c) name) l.

Fixpoint ofold {A S} (body : A -> S -> outcome S) (l : list A) (s : S) : outcome S :=
  match l with
  | [] => Ok s
  | a :: l => s <-- body a s;; ofold body l s
  end.

Lemma find_sibling_named i l name :
  match find_sibling i l name with
  | Some j => (i <= j)%nat /\ exists c, l !! (j - i)%nat = Some c
              /\ named name l = c :: named name (drop (S (j - i)) l)
  | None => named name l = []
  end.
Proof.
  revert i. induction l as [|c l IH]; intros i; simpl; [done|].
  destruct (String.eqb (x_name c) name).
  - split; [done|]. exists c. by rewrite Nat.sub_diag.
  - specialize (IH (S i)). destruct (find_sibling (S i) l name) as [j|]; [|done].
    destruct IH as (Hj & d & Hd & E). split; [lia|]. exists d.
    by replace (j - i)%nat with (S (j - S i)) by lia.
Qed.

Lemma node_at_snoc root p n i : node_at root p = Some n ->
  node_at root (p ++ [i])%list = x_children n !! i.
Proof.
  revert root. induction p as [|j p IH]; intros root E; simpl in *.
  - injection E as ->. by destruct (x_children n !! i).
  - destruct (x_children root !! j) as [c|]; [|done]. simpl in *. by apply IH.
Qed.

Lemma getNextChild_next root node n name j : node_at root node = Some n ->
  getNextChild root (Some node) name (Some (node ++ [j])%list)
  = (i ← find_sibling (S j) (drop (S j) (x_children n)) name; Some (node ++ [i])%list).
Proof.
  intros E. unfold getNextChild, parent_of, index_of. rewrite removelast_last, List.last_last, E.
  by destruct node.
Qed.

Lemma child_loop_fold {T} fuel root node n name body (s : T) i :
  node_at root node = Some n -> (length (x_children n) < fuel + i)%nat ->
  child_loop fuel root node name
    (j ← find_sibling i (drop i (x_children n)) name; Some (node ++ [j])%list) body s
  = ofold body (named name (drop i (x_children n))) s.
Proof.
  intros E. revert i s. induction fuel as [|fuel IH]; intros i s Hf.
  - rewrite drop_ge by lia. done.
  - pose proof (find_sibling_named i (drop i (x_children n)) name) as F. cbn [child_loop].
    destruct (find_sibling i (drop i (x_children n)) name) as [j|]; simpl; [|by rewrite F].
    destruct F as (Hj & c & Hc & ->). rewrite lookup_drop in Hc.
    replace (i + (j - i))%nat with j in Hc by lia.
    rewrite (node_at_snoc _ _ _ _ E), Hc. simpl.
    destruct (body c s) as [s'| |]; simpl; [|done|done].
    rewrite (getNextChild_next _ _ _ _ _ E), drop_drop.
    replace (i + S (j - i))%nat with (S j) by lia. apply IH. lia.
Qed.

Lemma for_children_fold {T} root node n name body (s : T) :
  node_at root node = Some n ->
  for_children root node name body s = ofold body (named name (x_children n)) s.
Proof.
  intros E. unfold for_children. rewrite E.
  change (getNextChild root (Some node) name None)
    with (n ← node_at root node; i ← find_sibling 0 (x_children n) name; Some (node ++ [i])%list).
  rewrite E. apply (child_loop_fold (S (length (x_children n))) root node n name body s 0 E). lia.
Qed.

Lemma find_name_valid root name p :
  FindElementWithName root None name = Some p -> is_Some (node_at root p).
Proof.
  unfold FindElementWithName. simpl.
  assert (forall n p, find_name name n = Some p -> is_Some (node_at n p)) as G.
  { fix IHn 1. intros [nm pr ch] q. simpl.
    assert (forall l i, (forall k, l !! k = ch !! (i + k)%nat) ->
      (fix go (i : nat) (l : list xmlNode) : option path :=
         match l with
         | [] => None
         | c :: l => if String.eqb (x_name c) name then Some [i]
                     else match find_name name c with Some p => Some (i :: p) | None => go (S i) l end
         end) i l = Some q -> is_Some (node_at (XNode nm pr ch) q)) as G.
    { clear -IHn. induction l as [|c l IHl]; intros i Hl; [done|].
      pose proof (Hl 0%nat) as Hc. rewrite Nat.add_0_r in Hc. simpl in Hc.
      destruct (String.eqb (x_name c) name).
      - intros [= <-]. simpl. by rewrite <- Hc.
      - destruct (find_name name c) as [p|] eqn:Ep.
        + intros [= <-]. simpl. rewrite <- Hc. simpl. by apply IHn.
        + apply IHl. intros k. rewrite Nat.add_succ_comm. exact (Hl (S k)). }
    apply G. done. }
  destruct (find_name name root) as [q|] eqn:E; simpl; [|done]. intros [= <-]. by apply G.
Qed.

(** ** Periods *)

(** A part of a period: a number and its unit, e.g. [10h]. *)
Record period_part := mkPart { p_value : Z; p_unit : ascii }.
Definition part_ok (p : period_part) : Prop :=
  0 <= p_value p < 2 ^ 32 /\ isdigit (p_unit p) = false.
Definition render_period (ps : list period_part) : string :=
  fold_right (fun p t => dec_nat (p_value p) +:+ String (p_unit p) t) "" ps.
Definition period_seconds (ps : list period_part) : Z :=
  fold_right (fun p t => p_value p * unit_factor (p_unit p) + t) 0 ps.

Lemma sscanf_dec v : 0 <= v < 2 ^ 32 -> sscanf_u (dec_nat v) = Some v.
Proof.
  intros Hv. unfold sscanf_u. destruct (dec_nat_first v) as (d & s & Hd & Es); [lia|].
  destruct (digit_not_special d Hd) as (Ns & Nm & Np & _).
  pose proof (scan_dec_nat v "" ltac:(lia)) as Hs. rewrite append_nil_r in Hs.
  rewrite Es in *. cbn [skip_spaces]. rewrite Ns. cbn [scan_sign]. rewrite Nm, Np.
  unfold has_digit. rewrite digit_val_chr by done. rewrite Hs. simpl.
  destruct (Z.leb_spec (2 ^ 64) v); [lia|]. by rewrite u32_id.
Qed.

Lemma parse_digits ds rest value r : all_digits ds = true -> strlen value + strlen ds <= 10 ->
  parse_period_loop (ds +:+ rest) value r = parse_period_loop rest (value +:+ ds) r.
Proof.
  revert value. induction ds as [|c ds IH]; intros value Hd Hl.
  - by rewrite append_nil_l, append_nil_r.
  - cbn [all_digits] in Hd. apply andb_prop in Hd as [Hc Hd]. rewrite append_cons.
    cbn [parse_period_loop]. rewrite Hc. unfold MAX_VAL_LEN.
    change (strlen (String c ds)) with (Z.of_nat (S (String.length ds))) in Hl.
    destruct (Z.leb_spec 10 (strlen value)); [unfold strlen in *; lia|].
    rewrite IH; [by rewrite append_assoc|done|].
    unfold strlen in *. rewrite string_length_app. simpl. lia.
Qed.

Lemma parse_period_parts ps r : Forall part_ok ps ->
  parse_period_loop (render_period ps) "" r
  = Ok (match ps with [] => r | _ => u32 (r + period_seconds ps) end).
Proof.
  revert r. induction ps as [|p ps IH]; intros r Hp; [done|].
  apply list.Forall_cons in Hp as [[Hv Hu] Hp]. cbn [render_period fold_right].
  fold (render_period ps). rewrite parse_digits.
  - cbn [parse_period_loop]. rewrite Hu, append_nil_l. unfold get_seconds.
    rewrite sscanf_dec by done. simpl. rewrite IH by done. f_equal.
    destruct ps as [|q ps]; cbn [period_seconds fold_right].
    + by rewrite Z.add_0_r, u32_add_r.
    + rewrite u32_add_l. rewrite <- Z.add_assoc, (Z.add_comm (u32 _)), Z.add_assoc, u32_add_r.
      f_equal. lia.
  - apply dec_digits_all. lia.
  - unfold strlen. simpl. pose proof (dec_digits_len (S (Z.to_nat (Z.log2 (p_value p)))) 10 (p_value p)).
    unfold dec_nat. lia.
Qed.

(** ** The types of the fields *)

(** A property of the elements of a list that is written out. *)
Ltac listed tac := repeat (apply list.Forall_cons_2; [solve [tac]|]); apply list.Forall_nil_2.

(** The four bounds of a limit, [long long]s; those of a limit for slow
    queries are a period, or 0 where no limit is given. *)
Definition bounds_typed (t : T_LONG) : Prop :=
  in_s64 (t_current t) /\ in_s64 (t_short t) /\ in_s64 (t_mid t) /\ in_s64 (t_long t).
Record limits_typed (l : Stats_cfg) : Prop := {
  lt_cpu : bounds_typed (l_cpu l); lt_write : bounds_typed (l_write l);
  lt_read : bounds_typed (l_read l); lt_slow : in_u32 (t_current (l_slow l))
}.

Definition is_flag (z : Z) : Prop := z = 0 \/ z = 1.
Record cfg_typed (cfg : governor_config) : Prop := {
  ty_levels : Forall in_u32 [level1 cfg; level2 cfg; level3 cfg; level4 cfg; c_timeout cfg; l_unlimit cfg];
  ty_intervals : Forall in_u32 [interval_short (c_intervals cfg); interval_mid (c_intervals cfg);
                                interval_long (c_intervals cfg)];
  ty_flags : Forall is_flag [use_lve cfg; all_lve cfg; separate_lve cfg; statistic_mode cfg;
                          save_statistic_uid cfg; daemon_monitor cfg; killuser cfg; is_gpl cfg;
                          slow_queries cfg; restrict_mode cfg];
  ty_lve : all_lve cfg <= separate_lve cfg <= use_lve cfg;
  ty_format : 0 <= restrict_format cfg <= 4; ty_logqueries : 0 <= logqueries_use cfg <= 2;
  ty_connections : 0 <= max_user_connections cfg < 2 ^ 31
}.

(** What an outcome holds when there is one. *)
Definition returns {A} (m : outcome A) (P : A -> Prop) : Prop := forall a, m = Ok a -> P a.

Lemma returns_bind {A B} (m : outcome A) (f : A -> outcome B) (P : A -> Prop) (Q : B -> Prop) :
  returns m P -> (forall a, P a -> returns (f a) Q) -> returns (obind m f) Q.
Proof. intros Hm Hf b. destruct m as [a| |]; [|done|done]. exact (Hf a (Hm a eq_refl) b). Qed.

Lemma returns_ok {A} (a : A) (P : A -> Prop) : P a -> returns (Ok a) P.
Proof. by intros Ha b [= <-]. Qed.

Lemma returns_exit {A} (s : string) (P : A -> Prop) : returns (Exit s) P.
Proof. done. Qed.

Lemma returns_crash {A} (P : A -> Prop) : returns Crash P.
Proof. done. Qed.

Lemma returns_fold {A T} (body : A -> T -> outcome T) (l : list A) (s : T) (P : T -> Prop) :
  (forall a s, P s -> returns (body a s) P) -> P s -> returns (ofold body l s) P.
Proof.
  intros Hb. revert s. induction l as [|a l IH]; intros s Hs; [by apply returns_ok|].
  cbn [ofold]. apply (returns_bind _ _ P); [by apply Hb|exact IH].
Qed.

Lemma returns_children {T} root node name (body : xmlNode -> T -> outcome T) (s : T) (P : T -> Prop) :
  (forall n s, P s -> returns (body n s) P) -> P s -> returns (for_children root node name body s) P.
Proof.
  intros Hb Hs. destruct (node_at root node) as [n|] eqn:E.
  - rewrite (for_children_fold root node n) by done. by apply returns_fold.
  - unfold for_children. rewrite E. apply returns_crash.
Qed.

#[local] Hint Resolve returns_ok returns_exit returns_crash : core.

Lemma get_seconds_typed value unit : returns (get_seconds value unit) in_u32.
Proof. unfold get_seconds. destruct (sscanf_u value); auto using u32_range. Qed.

Lemma parse_period_typed period : returns (parse_period period) in_u32.
Proof.
  unfold parse_period. apply (returns_bind _ _ in_u32).
  - assert (in_u32 0) as H by (unfold in_u32; lia). revert H. generalize 0, "".
    induction period as [|c rest IH]; intros r value Hr; [by apply returns_ok|].
    cbn [parse_period_loop]. split_ifs; auto.
    apply (returns_bind _ _ in_u32); [apply get_seconds_typed|]. intros s _. apply IH, u32_range.
  - intros r Hr. apply returns_ok. split_ifs; [apply u32_range|done].
Qed.

Lemma period_or_typed n a d : returns (period_or n a d) in_u32.
Proof. unfold period_or. destruct (n ≫= _); apply parse_period_typed. Qed.

Lemma to_ll_typed z : in_s64 (to_ll z).
Proof. unfold to_ll, in_s64. split_ifs; bools; lia. Qed.

Lemma attr_or_typed n a d : in_s64 d -> in_s64 (attr_or n a d).
Proof. intros Hd. unfold attr_or. destruct (getElemAttr n a); [apply to_ll_typed|done]. Qed.

(** [value] of [set_stats_limit]: a period for [slow], else four numbers. *)
Lemma set_stats_limit_typed n l : limits_typed l -> returns (set_stats_limit n l) limits_typed.
Proof.
  intros [Hc Hw Hr Hs]. unfold set_stats_limit, _set_val.
  destruct (getElemAttr n "current") as [val|]; [|done].
  destruct (getElemAttr n "name") as [ptr|]; [|done].
  apply (returns_bind _ _ (fun '(v0, v1, v2, v3) => bounds_typed (mkTLong v0 v1 v2 v3)
                           /\ (strcmp_eq ptr "slow" = true -> in_u32 v0))).
  - destruct (strcmp_eq ptr "slow").
    + apply (returns_bind _ _ in_u32); [apply parse_period_typed|]. intros v Hv. apply returns_ok.
      unfold bounds_typed, in_u32, in_s64 in *. simpl. lia.
    + apply returns_ok. split; [|done].
      assert (in_s64 (-1)) by (unfold in_s64; lia). unfold bounds_typed; simpl; auto 7 using to_ll_typed, attr_or_typed.
  - intros [[[v0 v1] v2] v3] [Hb H0]. apply returns_ok.
    destruct (strcmp_eq ptr "cpu"), (strcmp_eq ptr "write"), (strcmp_eq ptr "read"),
      (strcmp_eq ptr "slow"); split; simpl; auto.
Qed.

Lemma set_mode_typed l fl m : limits_typed l -> limits_typed (set_mode l fl m).
Proof. by intros []. Qed.

Lemma zero_cfg_typed : limits_typed zero_cfg.
Proof. repeat split; simpl; try lia; done. Qed.

Lemma cfg_default_typed root : returns (cfg_default root) limits_typed.
Proof.
  unfold cfg_default. destruct (FindElementWithName root None "default"); [|done].
  apply (returns_bind _ _ limits_typed).
  - apply returns_children; [exact set_stats_limit_typed|]. apply set_mode_typed, zero_cfg_typed.
  - intros l Hl. apply returns_ok. by apply set_mode_typed.
Qed.

Lemma user_cfg_typed dl n : limits_typed dl -> returns (user_cfg dl n) (fun ul => limits_typed ul.2).
Proof.
  intros Hd. unfold user_cfg.
  destruct (getElemAttr n "name"), (getElemAttr n "mysql_name"); try done;
    (apply (returns_bind _ _ limits_typed); [|intros l ?; by apply returns_ok];
     apply (returns_bind _ _ (fun _ => True)); [done|]; intros m _;
     apply returns_children; [exact set_stats_limit_typed|by apply set_mode_typed]).
Qed.

Lemma cfg_users_typed root dl : limits_typed dl ->
  returns (cfg_users root dl) (map_Forall (fun _ => limits_typed)).
Proof.
  intros Hd. apply returns_children; [|by apply map_Forall_empty]. intros n m Hm.
  apply (returns_bind _ _ (fun ul => limits_typed ul.2)); [by apply user_cfg_typed|].
  intros ul Hu. apply returns_ok. by apply map_Forall_insert_2.
Qed.

Lemma config_limit_typed cfg u : limits_typed (default_limit cfg) ->
  map_Forall (fun _ => limits_typed) (account_limits cfg) -> limits_typed (config_get_account_limit cfg u).
Proof.
  intros Hd Hm. unfold config_get_account_limit.
  destruct (account_limits cfg !! u) as [l|] eqn:E; [exact (Hm u l E)|done].
Qed.

Lemma cfg_interval_typed n a d : in_u32 d -> in_u32 (cfg_interval n a d).
Proof. intros Hd. unfold cfg_interval. destruct (getElemAttr n a); [apply u32_range|done]. Qed.

Lemma cfg_intervals_typed root : returns (cfg_intervals root) (fun iv =>
  Forall in_u32 [interval_short iv; interval_mid iv; interval_long iv]).
Proof.
  unfold cfg_intervals. destruct (section root "intervals"); [|done]. apply returns_ok. simpl.
  listed ltac:(apply cfg_interval_typed; by unfold in_u32).
Qed.

Lemma cfg_restrict_mode_typed root :
  returns (cfg_restrict_mode root) (fun rm => is_flag rm.1 /\ in_u32 rm.2).
Proof.
  unfold cfg_restrict_mode. apply (returns_bind _ _ in_u32); [apply period_or_typed|].
  intros l Hl. apply returns_ok. simpl. unfold is_flag. split; [split_ifs; auto|done].
Qed.

Lemma getRestrictFormat_range m : 0 <= getRestrictFormat m <= 4.
Proof. unfold getRestrictFormat. split_ifs; lia. Qed.

(** [level1] to [level4], [timeout] and the numbers beside them. *)
Lemma cfg_restrict_typed root :
  returns (cfg_restrict root) (fun '(_, (_, kill, conns, fmt), (l1, l2, l3, l4, tm)) =>
    Forall in_u32 [l1; l2; l3; l4; tm] /\ is_flag kill /\ 0 <= conns < 2 ^ 31 /\ 0 <= fmt <= 4).
Proof.
  unfold cfg_restrict. destruct (section root "restrict") as [n|]; [|done].
  do 5 (apply (returns_bind _ _ in_u32); [apply period_or_typed|intros ? ?]).
  apply returns_ok. split; [listed ltac:(assumption)|]. unfold is_flag.
  split; [split_ifs; auto|]. split; [|apply getRestrictFormat_range].
  destruct (getElemAttr n "user_max_connections") as [s|]; [|lia].
  destruct (Z.ltb_spec (atoi s) 0); [lia|]. pose proof (s32_range (strtol10 s)) as R.
  unfold atoi, in_s32 in *. lia.
Qed.

(** The three flags of the LVE mode are nested. *)
Lemma cfg_lve_typed root use all separate : cfg_lve root = (use, all, separate) ->
  Forall is_flag [use; all; separate] /\ all <= separate <= use.
Proof.
  unfold cfg_lve. intros E.
  destruct (attr_is _ "use" "AbUsers"); [|destruct (attr_is _ "use" "On" || attr_is _ "use" "Single")];
    cbv beta iota zeta in E; destruct (attr_is _ "use" "All"); injection E as <- <- <-;
    (split; [listed ltac:(unfold is_flag; auto)|lia]).
Qed.

Lemma u32_of_s32 z : u32 (s32 z) = u32 z.
Proof. unfold u32, s32, wrap_u, wrap_s. rewrite Zminus_mod_idemp_l. f_equal. lia. Qed.

(** What [atoi] makes of such a text. *)
Lemma render_period_atoi p ps : part_ok p -> u32 (atoi (render_period (p :: ps))) = p_value p.
Proof.
  intros [Hv Hu]. cbn [render_period fold_right]. fold (render_period ps). unfold atoi.
  replace (dec_nat (p_value p)) with (dec (p_value p)) by (unfold dec; by destruct (Z.ltb_spec (p_value p) 0); [lia|]).
  rewrite strtol10_dec; [|unfold in_s64; lia|].
  - rewrite u32_of_s32. by apply u32_id.
  - cbn [has_digit]. unfold digit_val. rewrite Hu.
    destruct ((97 <=? code (tolower (p_unit p))) && (code (tolower (p_unit p)) <=? 122)) eqn:E; [|done].
    apply andb_true_iff in E as [?%Z.leb_le _]. by destruct (Z.ltb_spec (code (tolower (p_unit p)) - 87) 10); [lia|].
Qed.

(** * Properties *)

(** C37: A period written as numbers with units is parsed as the total number of seconds
    modulo 2^32, with s, m, h and d for seconds, minutes, hours and days and any other unit for
    seconds; when this total is 0 modulo 2^32, the result is the first number of the text
    instead. Conditions: there is at least one part, each number is a decimal one below 2^32,
    and no unit is a digit. *)
Theorem parse_period_total_seconds (p : period_part) (ps : list period_part) :
  Forall part_ok (p :: ps) -> let total := u32 (period_seconds (p :: ps)) in
  parse_period (render_period (p :: ps)) = Ok (if total =? 0 then p_value p else total).
Proof.
  intros Hp total. unfold parse_period. rewrite parse_period_parts by done. cbn [obind]. rewrite Z.add_0_l.
  fold total. destruct (total =? 0); [|done]. f_equal. apply list.Forall_cons in Hp as [Hp _].
  by apply render_period_atoi.
Qed.

Lemma parse_period_total_seconds_witness :
  parse_period "2d10h30m45s" = Ok 210645.
Proof.
  apply (parse_period_total_seconds (mkPart 2 "d") [mkPart 10 "h"; mkPart 30 "m"; mkPart 45 "s"]).
  repeat (apply list.Forall_cons_2; [split; [simpl; lia|reflexivity]|]). apply list.Forall_nil_2.
Defined.

(** A total of 2^32 seconds is taken for a number without a unit. *)
Example period_wraps_to_number : parse_period "49710d23296s" = Ok 49710.
Proof. vm_compute. reflexivity. Qed.

(** A mode printed by [mode_type_enum_to_str] is read back, but for two. *)
Lemma mode_string_roundtrip (m : MODE_TYPE) :
  mode_type_str_to_enum (Some (mode_type_enum_to_str m))
  = match m with
    | OLD_RESTRICT_MODE | NEW_RESTRICT_MODE => Exit "Error: invalid mode"
    | _ => Ok m
    end.
Proof. by destruct m. Qed.

(** The user elements of a document. *)
Definition user_elems (root : xmlNode) : list xmlNode := named "user" (x_children root).

Lemma cfg_users_spec dl (l : list xmlNode) (m0 m : gmap string Stats_cfg) :
  ofold (fun n m => ul <-- user_cfg dl n;; Ok (<[ul.1 := ul.2]> m)) l m0 = Ok m ->
  forall u,
    (exists n lim, n ∈ l /\ user_cfg dl n = Ok (u, lim) /\ m !! u = Some lim)
    \/ ((forall n lim, n ∈ l -> user_cfg dl n <> Ok (u, lim)) /\ m !! u = m0 !! u).
Proof.
  revert m0. induction l as [|n l IH]; intros m0 E u; simpl in E.
  - injection E as ->. right. split; [|done]. intros n lim Hn. by apply elem_of_nil in Hn.
  - destruct (user_cfg dl n) as [[v lim]| |] eqn:En; [|done|done]. simpl in E.
    destruct (IH _ E u) as [(n' & lim' & Hin & Hu & Hm)|[Hno Hm]].
    + left. exists n', lim'. split; [by right|done].
    + destruct (String.eqb_spec v u) as [->|Hne].
      * left. exists n, lim. split; [by left|]. split; [done|]. by rewrite Hm, lookup_insert_eq.
      * right. split; [|by rewrite Hm, lookup_insert_ne].
        intros n' lim' [->|Hin]%elem_of_cons; [congruence|by apply Hno].
Qed.

Definition example_root : xmlNode :=
  XNode "governor" []
    [XNode "lve" [("use", "abusers")] []; XNode "connector" [("login", "root")] [];
     XNode "intervals" [("short", "5"); ("mid", "15"); ("long", "30")] [];
     XNode "log" [("file", "/var/log/g.log"); ("mode", "TEST")] [];
     XNode "restrict" [("level1", "60s"); ("level2", "15m")] [];
     XNode "default" []
       [XNode "limit" [("name", "cpu"); ("current", "150"); ("short", "100"); ("mid", "90");
                       ("long", "65")] [];
        XNode "limit" [("name", "read"); ("current", "100000000")] []];
     XNode "user" [("name", "bob"); ("mode", "ignore")]
       [XNode "limit" [("name", "cpu"); ("current", "400")] []]].

(** Whatever the document of the configuration holds, config_init stops the program or
    fills the structure with values of the types of its fields: the periods and the intervals
    are unsigned, the switches are 0 or 1 and those of the LVE mode nested, the other numbers
    are in the ranges of their use, and the limits of every account are of 64 bits, its limit
    for slow queries of 32 bits without a sign. *)
Lemma config_init_typed (liblve : bool) (script_stat : string -> option bool)
    (document : option xmlNode) (cfg : governor_config) :
  config_init liblve script_stat document = Ok cfg ->
  cfg_typed cfg /\ forall u, limits_typed (config_get_account_limit cfg u).
Proof.
  cut (returns (config_init liblve script_stat document)
         (fun cfg => cfg_typed cfg /\ forall u, limits_typed (config_get_account_limit cfg u)));
    [intros R; exact (R cfg)|].
  destruct document as [root|]; [|done]. cbn [config_init].
  apply (returns_bind _ _ (fun _ => True)); [done|intros lg _].
  apply (returns_bind _ _ _ _ (cfg_intervals_typed root)). intros iv Hiv.
  apply (returns_bind _ _ _ _ (cfg_restrict_mode_typed root)). intros rm [Hrm Hul].
  apply (returns_bind _ _ _ _ (cfg_restrict_typed root)).
  intros [[rn [[[rlog kill] conns] fmt]] [[[[l1 l2] l3] l4] tm]] (Hl & Hk & Hc & Hf).
  apply (returns_bind _ _ (fun _ => True)); [done|intros [[[login pass] h] sep] _].
  apply (returns_bind _ _ _ _ (cfg_default_typed root)). intros dl Hdl.
  apply (returns_bind _ _ _ _ (cfg_users_typed root dl Hdl)). intros users Hus.
  destruct (cfg_lve root) as [[use all] separate] eqn:Elve.
  apply cfg_lve_typed in Elve as [Hlve Hnest].
  destruct (cfg_statistic root) as [smode suid] eqn:Est, (cfg_slow_queries root) as [sq sqlog] eqn:Esq.
  injection Est as <- <-. injection Esq as <- <-. apply returns_ok.
  split; [|intros u; by apply config_limit_typed].
  rewrite !list.Forall_cons in Hl. rewrite !list.Forall_cons in Hlve. destruct Hlve as (H1 & H2 & H3 & _).
  constructor; simpl; try done.
  - rewrite !list.Forall_cons. tauto.
  - unfold cfg_daemon. listed ltac:(done || (unfold is_flag; split_ifs; auto)).
  - unfold cfg_logqueries. split_ifs; lia.
Qed.

(** config_add_work_user gives an unknown user a limit in the mode ignore and copies
    only the first 24 bytes of the defaults: the current, short and mid limits of the processor
    are inherited, all the others are 0. Known users and other names are not touched. *)
Lemma config_add_work_user_limits (cfg : governor_config) (u v : string) :
  u <> "" ->
  let cfg' := config_add_work_user cfg (Some u) in
  (account_limits cfg !! u = None ->
     let l := config_get_account_limit cfg' u in
     mode l = IGNORE_MODE
     /\ t_current (l_cpu l) = t_current (l_cpu (default_limit cfg))
     /\ t_short (l_cpu l) = t_short (l_cpu (default_limit cfg))
     /\ t_mid (l_cpu l) = t_mid (l_cpu (default_limit cfg))
     /\ t_long (l_cpu l) = 0 /\ l_read l = zero_limits /\ l_write l = zero_limits
     /\ l_slow l = zero_limits)
  /\ (is_Some (account_limits cfg !! u) -> cfg' = cfg)
  /\ (v <> u -> config_get_account_limit cfg' v = config_get_account_limit cfg v)
  /\ default_limit cfg' = default_limit cfg.
Proof.
  intros Hu. unfold config_add_work_user. destruct (String.eqb_spec u ""); [done|]. simpl.
  destruct (account_limits cfg !! u) as [l|] eqn:E.
  - split; [done|]. split; [done|]. split; done.
  - unfold config_get_account_limit. cbn [account_limits set_account_limits default_limit].
    split; [intros _; by rewrite lookup_insert_eq|]. split; [by intros []|].
    split; [|done]. intros Hv. by rewrite lookup_insert_ne.
Qed.

(** A configuration for the witnesses, by [restrict_mode] and [all_lve]. *)
Definition example_config_of (mode all : Z) : governor_config :=
  mkConfig "root" "" (mkStatsCfg (mkTLong 150 100 90 65) zero_limits (mkTLong 9 8 7 6) zero_limits
                        true RESTRICT_MODE) ∅ "" "" ERROR_MODE None "_" 60 900 3600 86400 3600
    (mkIntervals 5 15 30) 2 None 1 1 0 1 30 0 0 1 all 0 mode 60 None None 0.
Definition example_config : governor_config := example_config_of 1 0.
