(* ===== verification/ConfigEdit.v ===== *)
(** What an edit of one [user] element means for the configuration reader:
    the sections of the document are found as before, and only the limits of
    that user change. *)

From S2P Require Import Prelude CDouble CString Data FifoStats Xml Config.
Open Scope string_scope.
Open Scope Z_scope.

(** * Sections *)

(** The names that [config_init] searches for in the whole document. *)
Definition section_names : list string :=
  ["log"; "intervals"; "restrict_mode"; "restrict"; "connector"; "default"; "lve"; "statistic";
   "slow_queries"; "logqueries"; "daemon"; "debug_user"].

(** The search of a section passes over the element. *)
Definition no_sections (n : xmlNode) : Prop :=
  forall t, t ∈ section_names -> x_name n <> t /\ find_name t n = None.

Definition same_sections (root root' : xmlNode) : Prop :=
  forall t, t ∈ section_names -> section root t = section root' t.

(** The node that a search finds, without the path to it. *)
Fixpoint found (t : string) (l : list xmlNode) : option xmlNode :=
  match l with
  | [] => None
  | c :: l =>
      if String.eqb (x_name c) t then Some c
      else match (p ← find_name t c; node_at c p) with Some n => Some n | None => found t l end
  end.

Fixpoint find_in (t : string) (i : nat) (l : list xmlNode) : option path :=
  match l with
  | [] => None
  | c :: l =>
      if String.eqb (x_name c) t then Some [i]
      else match find_name t c with Some p => Some (i :: p) | None => find_in t (S i) l end
  end.

Lemma find_name_in t n : find_name t n = find_in t 0 (x_children n).
Proof.
  destruct n as [nm pr l]. cbn [find_name x_children]. generalize 0%nat.
  induction l as [|c l IH]; intros i; [done|]. cbn [find_in].
  destruct (String.eqb (x_name c) t); [done|]. destruct (find_name t c); [done|]. apply IH.
Qed.

Lemma find_in_found t n i l : (forall k, x_children n !! (i + k)%nat = l !! k) ->
  (p ← find_in t i l; node_at n p) = found t l.
Proof.
  revert i. induction l as [|c l IH]; intros i Hn; [done|]. cbn [find_in found].
  pose proof (Hn 0%nat) as Hc. rewrite Nat.add_0_r in Hc. cbn in Hc.
  destruct (String.eqb (x_name c) t); [cbn; by rewrite Hc|].
  pose proof (find_name_valid c t) as Hv. unfold FindElementWithName in Hv. cbn in Hv.
  destruct (find_name t c) as [p|]; cbn.
  - rewrite Hc. cbn. destruct (Hv p eq_refl) as [m ->]. done.
  - apply IH. intros k. rewrite Nat.add_succ_comm. apply Hn.
Qed.

Lemma section_found root t : section root t = found t (x_children root).
Proof.
  unfold section, FindElementWithName. cbn. rewrite find_name_in.
  rewrite <- (find_in_found t root 0 (x_children root)) by done. by destruct (find_in t 0 _).
Qed.

Lemma found_skip t a c b : x_name c <> t -> find_name t c = None ->
  found t (a ++ c :: b)%list = found t (a ++ b)%list.
Proof.
  intros Hn Hf. induction a as [|d a IH]; cbn [app found].
  - rewrite (proj2 (String.eqb_neq _ _) Hn), Hf. done.
  - by rewrite IH.
Qed.

(** Elements without sections may come, go and change. *)
Lemma sections_skip root root' a c b : x_children root = (a ++ c :: b)%list -> no_sections c ->
  x_children root' = (a ++ b)%list -> same_sections root root'.
Proof.
  intros E Hc E' t Ht. destruct (Hc t Ht) as [Hn Hf]. rewrite !section_found, E, E'. by apply found_skip.
Qed.

Lemma same_sections_sym root root' : same_sections root root' -> same_sections root' root.
Proof. intros Hs t Ht. symmetry. by apply Hs. Qed.

Lemma same_sections_trans r1 r2 r3 : same_sections r1 r2 -> same_sections r2 r3 -> same_sections r1 r3.
Proof. intros H1 H2 t Ht. rewrite H1 by done. by apply H2. Qed.

(** * Users *)

(** A [user] element names a user by its account or by its MySQL name. *)
Definition name_of (n : xmlNode) (u : string) : Prop :=
  getElemAttr n "name" = Some u \/ getElemAttr n "mysql_name" = Some u.

Definition add_user (dl : Stats_cfg) (n : xmlNode) (m : gmap string Stats_cfg)
    : outcome (gmap string Stats_cfg) :=
  ul <-- user_cfg dl n;; Ok (<[ul.1 := ul.2]> m).

Lemma obind_ok {A B} (m : outcome A) (f : A -> outcome B) b :
  obind m f = Ok b -> exists a, m = Ok a /\ f a = Ok b.
Proof. destruct m as [a| |]; [|done..]. by exists a. Qed.

Lemma user_cfg_name dl n u v lim : name_of n u -> user_cfg dl n = Ok (v, lim) -> v = u.
Proof.
  unfold user_cfg. intros [E|E] Eu; rewrite E in Eu;
    [destruct (getElemAttr n "mysql_name")|destruct (getElemAttr n "name")]; try done;
    by apply obind_ok in Eu as (l & _ & [= <-]).
Qed.

Lemma user_cfg_named dl n v lim : user_cfg dl n = Ok (v, lim) -> name_of n v.
Proof.
  unfold user_cfg, name_of. intros Eu.
  destruct (getElemAttr n "name"), (getElemAttr n "mysql_name"); try done;
    apply obind_ok in Eu as (l & _ & [= <-]); auto.
Qed.

Lemma users_union dl l x m :
  ofold (add_user dl) l (x ∪ m) = (y <-- ofold (add_user dl) l x;; Ok (y ∪ m)).
Proof.
  revert x. induction l as [|n l IH]; intros x; [done|]. cbn [ofold]. unfold add_user at 1 3.
  destruct (user_cfg dl n) as [[v lim]| |]; [|done|done]. cbn [obind fst snd].
  by rewrite insert_union_l, IH.
Qed.

Lemma users_from dl l m : ofold (add_user dl) l m = (y <-- ofold (add_user dl) l ∅;; Ok (y ∪ m)).
Proof. rewrite <- users_union. by rewrite (left_id_L ∅ (∪)). Qed.

Lemma users_absent dl l u m : (forall n, n ∈ l -> ~ name_of n u) ->
  ofold (add_user dl) l ∅ = Ok m -> m !! u = None.
Proof.
  intros Hn E. destruct (cfg_users_spec dl l ∅ m E u) as [(n & lim & Hin & Hu & _)|[_ ->]]; [|done].
  destruct (Hn n Hin). by apply (user_cfg_named dl n u lim).
Qed.

Lemma cfg_users_fold root dl :
  cfg_users root dl = ofold (add_user dl) (named "user" (x_children root)) ∅.
Proof. unfold cfg_users. by rewrite (for_children_fold _ [] root). Qed.

Lemma named_app t a b : named t (a ++ b) = (named t a ++ named t b)%list.
Proof. apply List.filter_app. Qed.

Lemma ofold_split {A T} (body : A -> T -> outcome T) a b s :
  ofold body (a ++ b) s = (s' <-- ofold body a s;; ofold body b s').
Proof. revert s. induction a as [|x a IH]; intros s; [done|]. cbn. destruct (body x s); cbn; [apply IH|done..]. Qed.

(** The user elements before and after one of them. *)
Lemma cfg_users_at root dl a c b : x_children root = (a ++ c :: b)%list -> x_name c = "user" ->
  cfg_users root dl
  = (ma <-- ofold (add_user dl) (named "user" a) ∅;;
     ul <-- user_cfg dl c;;
     mb <-- ofold (add_user dl) (named "user" b) ∅;; Ok (mb ∪ <[ul.1 := ul.2]> ma)).
Proof.
  intros E Hc. rewrite cfg_users_fold, E, named_app, ofold_split.
  destruct (ofold _ (named "user" a) ∅) as [ma| |]; [|done..]. cbn [obind].
  change (named "user" (c :: b)) with (if String.eqb (x_name c) "user" then c :: named "user" b else named "user" b).
  rewrite Hc. change (String.eqb "user" "user") with true. cbn [ofold].
  change (add_user dl c ma) with (ul <-- user_cfg dl c;; Ok (<[ul.1 := ul.2]> ma)).
  destruct (user_cfg dl c) as [ul| |]; [|reflexivity..]. cbn [obind]. apply users_from.
Qed.

Lemma named_in t (l : list xmlNode) (P : xmlNode -> Prop) : (forall n, n ∈ l -> x_name n = t -> P n) ->
  forall n, n ∈ named t l -> P n.
Proof.
  intros Hl n Hn. unfold named in Hn. apply list_elem_of_In, filter_In in Hn as [Hn Et].
  apply Hl; [by apply list_elem_of_In|by apply String.eqb_eq].
Qed.

(** A new version of an element: the last of its name counts. *)
Lemma cfg_users_replace root root' dl a c c' b u f users :
  x_children root = (a ++ c :: b)%list -> x_children root' = (a ++ c' :: b)%list ->
  x_name c = "user" -> x_name c' = "user" -> name_of c u ->
  (forall n, n ∈ b -> x_name n = "user" -> ~ name_of n u) ->
  (forall lim, user_cfg dl c = Ok (u, lim) -> user_cfg dl c' = Ok (u, f lim)) ->
  cfg_users root dl = Ok users ->
  exists lim, users !! u = Some lim /\ cfg_users root' dl = Ok (<[u := f lim]> users).
Proof.
  intros E E' Hc Hc' Hn Hb Hf. rewrite (cfg_users_at root dl a c b E Hc), (cfg_users_at root' dl a c' b E' Hc').
  destruct (ofold _ (named "user" a) ∅) as [ma| |]; [|done..]. cbn [obind].
  destruct (user_cfg dl c) as [[v lim]| |] eqn:Eu; [|done..]. cbn [obind].
  assert (v = u) as -> by by eapply user_cfg_name. rewrite (Hf lim eq_refl). cbn [obind fst snd].
  destruct (ofold _ (named "user" b) ∅) as [mb| |] eqn:Em; [|done..]. cbn [obind]. intros [= <-].
  assert (mb !! u = None) as Hmb by (eapply users_absent; [|exact Em]; by apply named_in).
  exists lim. split; [by rewrite lookup_union_r, lookup_insert_eq by done|].
  by rewrite insert_union_r, insert_insert_eq by done.
Qed.

(** * The configuration *)

Lemma cfg_default_section root :
  cfg_default root =
  match section root "default" with
  | None => Exit "No default limits"
  | Some n => l <-- ofold set_stats_limit (named "limit" (x_children n)) (set_mode zero_cfg false RESTRICT_MODE);;
              Ok (set_mode l true RESTRICT_MODE)
  end.
Proof.
  unfold cfg_default, section. destruct (FindElementWithName root None "default") as [p|] eqn:E; [|done].
  destruct (find_name_valid root "default" p E) as [n En]. cbn [mbind option_bind]. rewrite En.
  by rewrite (for_children_fold root p n).
Qed.

(** The parts of the document that do not depend on the [user] elements. *)
Lemma same_parts root root' : same_sections root root' ->
  cfg_log root = cfg_log root' /\ cfg_intervals root = cfg_intervals root'
  /\ cfg_restrict_mode root = cfg_restrict_mode root' /\ cfg_restrict root = cfg_restrict root'
  /\ cfg_connector root = cfg_connector root' /\ cfg_default root = cfg_default root'
  /\ cfg_lve root = cfg_lve root' /\ cfg_statistic root = cfg_statistic root'
  /\ cfg_slow_queries root = cfg_slow_queries root' /\ cfg_logqueries root = cfg_logqueries root'
  /\ cfg_daemon root = cfg_daemon root' /\ cfg_debug_user root = cfg_debug_user root'.
Proof.
  intros Hs. rewrite !cfg_default_section. unfold cfg_log, cfg_intervals, cfg_restrict_mode, cfg_restrict, cfg_connector,
    cfg_lve, cfg_statistic, cfg_slow_queries, cfg_logqueries, cfg_daemon, cfg_debug_user.
  rewrite !Hs by (unfold section_names; set_solver). done.
Qed.

(** The reader on a document whose user elements alone are others: what it
    makes of them decides. *)
Lemma config_reader liblve script_stat root root' cfg : same_sections root root' ->
  config_init liblve script_stat (Some root) = Ok cfg ->
  config_init liblve script_stat (Some root')
  = (users <-- cfg_users root' (default_limit cfg);; Ok (set_account_limits cfg users)).
Proof.
  intros Hs. destruct (same_parts root root' Hs) as (E1 & E2 & E3 & E4 & E5 & E6 & E7 & E8 & E9 & E10 & E11 & E12).
  unfold config_init. rewrite E1, E2, E3, E4, E5, E6, E7, E8, E9, E10, E11, E12.
  intros (lg & -> & Ec)%obind_ok. revert Ec. intros (iv & -> & Ec)%obind_ok. revert Ec.
  intros (rm & -> & Ec)%obind_ok. revert Ec. intros (rs & -> & Ec)%obind_ok. revert Ec.
  destruct rs as [[rn [[[rlog kill] conns] fmt]] [[[[l1 l2] l3] l4] tm]].
  intros (co & -> & Ec)%obind_ok. revert Ec. destruct co as [[[login pass] h] sep].
  intros (dl & -> & Ec)%obind_ok. revert Ec. intros (us & _ & Ec)%obind_ok. revert Ec. cbn [obind].
  destruct (cfg_lve root') as [[use all] separate], (cfg_statistic root') as [smode suid],
    (cfg_slow_queries root') as [sq sqlog]. intros [= <-]. cbn [default_limit]. done.
Qed.

Lemma config_edit liblve script_stat root root' cfg users : same_sections root root' ->
  config_init liblve script_stat (Some root) = Ok cfg -> cfg_users root' (default_limit cfg) = Ok users ->
  config_init liblve script_stat (Some root') = Ok (set_account_limits cfg users).
Proof. intros Hs Hc Hu. by rewrite (config_reader _ _ root root' cfg Hs Hc), Hu. Qed.

Lemma config_users liblve script_stat root cfg : config_init liblve script_stat (Some root) = Ok cfg ->
  cfg_users root (default_limit cfg) = Ok (account_limits cfg).
Proof.
  unfold config_init. destruct (cfg_log root) as [lg| |]; [|done..]. cbn [obind].
  destruct (cfg_intervals root) as [iv| |]; [|done..]. cbn [obind].
  destruct (cfg_restrict_mode root) as [rm| |]; [|done..]. cbn [obind].
  destruct (cfg_restrict root) as [[[rn [[[rlog kill] conns] fmt]] [[[[l1 l2] l3] l4] tm]]| |]; [|done..].
  cbn [obind]. destruct (cfg_connector root) as [[[[login pass] h] sep]| |]; [|done..]. cbn [obind].
  destruct (cfg_default root) as [dl| |]; [|done..]. cbn [obind].
  destruct (cfg_users root dl) as [us| |] eqn:E; [|done..]. cbn [obind].
  destruct (cfg_lve root) as [[use all] separate], (cfg_statistic root) as [smode suid],
    (cfg_slow_queries root) as [sq sqlog]. by intros [= <-].
Qed.

Lemma config_default liblve script_stat root cfg : config_init liblve script_stat (Some root) = Ok cfg ->
  cfg_default root = Ok (default_limit cfg).
Proof.
  unfold config_init. intros (lg & _ & E)%obind_ok. apply obind_ok in E as (iv & _ & E).
  apply obind_ok in E as (rm & _ & E). apply obind_ok in E as ([[rn [[[rlog kill] conns] fmt]] [[[[l1 l2] l3] l4] tm]] & _ & E).
  apply obind_ok in E as ([[[login pass] h] sep] & _ & E). apply obind_ok in E as (dl & -> & E).
  apply obind_ok in E as (us & _ & E). revert E. destruct (cfg_lve root) as [[use all] separate],
    (cfg_statistic root) as [smode suid], (cfg_slow_queries root) as [sq sqlog]. by intros [= <-].
Qed.

Lemma default_restricts liblve script_stat root cfg : config_init liblve script_stat (Some root) = Ok cfg ->
  mode (default_limit cfg) = RESTRICT_MODE.
Proof.
  intros E%config_default. rewrite cfg_default_section in E. destruct (section root "default"); [|done].
  by apply obind_ok in E as (l & _ & [= <-]).
Qed.

(** From the document to the limits: an element [c] of the user [u] becomes
    [c'], and the reader finds the limits of [u] changed by [f]. *)
Lemma config_replace liblve script_stat root root' a c c' b u f cfg :
  x_children root = (a ++ c :: b)%list -> x_children root' = (a ++ c' :: b)%list ->
  x_name c = "user" -> x_name c' = "user" -> no_sections c -> no_sections c' -> name_of c u ->
  (forall n, n ∈ b -> x_name n = "user" -> ~ name_of n u) ->
  (forall dl lim, user_cfg dl c = Ok (u, lim) -> user_cfg dl c' = Ok (u, f lim)) ->
  config_init liblve script_stat (Some root) = Ok cfg ->
  config_init liblve script_stat (Some root')
  = Ok (set_account_limits cfg (<[u := f (config_get_account_limit cfg u)]> (account_limits cfg)))
  /\ is_Some (account_limits cfg !! u).
Proof.
  intros E E' Hc Hc' Hs Hs' Hn Hb Hf Hcfg. pose proof (config_users _ _ _ _ Hcfg) as Hus.
  destruct (cfg_users_replace root root' (default_limit cfg) a c c' b u f (account_limits cfg))
    as (lim & Hl & Hus'); try done; [by apply Hf|].
  split; [|by exists lim]. unfold config_get_account_limit. rewrite Hl.
  apply (config_edit _ _ root); [|done|done].
  pose (mid := XNode "" [] (a ++ b)).
  eapply same_sections_trans; [by apply (sections_skip root mid a c b)|].
  apply same_sections_sym. by apply (sections_skip root' mid a c' b).
Qed.

(** A new element at the end: what the reader makes of it decides. *)
Lemma config_appended liblve script_stat root root' n cfg :
  x_children root' = (x_children root ++ [n])%list -> x_name n = "user" -> no_sections n ->
  config_init liblve script_stat (Some root) = Ok cfg ->
  config_init liblve script_stat (Some root')
  = (ul <-- user_cfg (default_limit cfg) n;;
     Ok (set_account_limits cfg (<[ul.1 := ul.2]> (account_limits cfg)))).
Proof.
  intros E Hn Hs Hcfg. rewrite (config_reader _ _ root root' cfg); [|..|done].
  - rewrite (cfg_users_at root' (default_limit cfg) (x_children root) n [] E Hn), <- cfg_users_fold,
      (config_users _ _ _ _ Hcfg). cbn [obind]. destruct (user_cfg _ n); [|done..]. cbn.
    by rewrite (left_id_L ∅ (∪)).
  - apply same_sections_sym, (sections_skip root' root (x_children root) n []); [done|done|].
    by rewrite app_nil_r.
Qed.

Lemma config_append liblve script_stat root root' n u lim cfg :
  x_children root' = (x_children root ++ [n])%list -> x_name n = "user" -> no_sections n ->
  user_cfg (default_limit cfg) n = Ok (u, lim) ->
  config_init liblve script_stat (Some root) = Ok cfg ->
  config_init liblve script_stat (Some root') = Ok (set_account_limits cfg (<[u := lim]> (account_limits cfg))).
Proof. intros E Hn Hs Hu Hcfg. by rewrite (config_appended _ _ root root' n cfg E Hn Hs Hcfg), Hu. Qed.

(** What the reader finds for the others. *)
Lemma limit_inserted cfg u lim v :
  config_get_account_limit (set_account_limits cfg (<[u := lim]> (account_limits cfg))) v
  = if String.eqb v u then lim else config_get_account_limit cfg v.
Proof.
  unfold config_get_account_limit. cbn. destruct (String.eqb_spec v u) as [->|Hne].
  - by rewrite lookup_insert_eq.
  - by rewrite lookup_insert_ne.
Qed.
