(* ===== verification/ConfigShare.v ===== *)
(** The configuration as the threads of the daemon share it
    ([src/governor_config.c]): one structure on the heap behind a read-write
    lock, which [reread_config] frees and makes anew, and the copies that the
    threads take of it ([get_config_data]) and use when they have given the
    lock back.  A copy holds the pointers of the structure.

    A step is one call inside the lock or outside; the steps of the threads
    interleave in any order. *)

From S2P Require Import Prelude CDouble CString Data FifoStats Xml Config.
Open Scope string_scope.
Open Scope Z_scope.

(** * The structure on the heap *)

(** The identity of a block that the heap gave out; a new block gets a new
    one, also where the memory is used again. *)
Definition block := Z.

(** The structure and its pointers; [None] is null. *)
Record config_blocks := mkBlocks {
  cb_self : block; cb_debug_user : option block; cb_account_limits : option block;
  cb_db_login : option block; cb_db_password : option block; cb_host : option block;
  cb_log : option block; cb_restrict_log : option block; cb_slow_queries_log : option block;
  cb_exec_script : option block
}.
#[export] Instance config_blocks_eq : EqDecision config_blocks.
Proof. solve_decision. Defined.

Definition free_block (p : option block) (h : gset block) : option (gset block) :=
  match p with
  | None => Some h
  | Some b => if bool_decide (b ∈ h) then Some (h ∖ {[b]}) else None
  end.

(** [None] when a block is freed that is not there.  The path of the script
    is not freed. *)
Definition config_free (c : config_blocks) (h : gset block) : option (gset block) :=
  h ← free_block (cb_debug_user c) h;
  h ← free_block (cb_account_limits c) h;
  h ← free_block (cb_db_login c) h;
  h ← free_block (cb_db_password c) h;
  h ← free_block (cb_host c) h;
  h ← free_block (cb_log c) h;
  h ← free_block (cb_restrict_log c) h;
  h ← free_block (cb_slow_queries_log c) h;
  free_block (Some (cb_self c)) h.

(** The blocks that [config_init] allocates for what it read; [n] is the
    first one that is new. *)
Definition config_blocks_of (cfg : governor_config) (n : block) : config_blocks :=
  let present {A} (o : option A) b := match o with Some _ => Some b | None => None end in
  mkBlocks n (present (debug_user cfg) (n + 1)) (Some (n + 2)) (Some (n + 3)) (Some (n + 4)) (Some (n + 5))
    (Some (n + 6)) (present (restrict_log cfg) (n + 7)) (present (slow_queries_log cfg) (n + 8))
    (present (exec_script cfg) (n + 9)).

(** * The threads *)

Inductive rereading := Locked | Freed | Read_again.
Inductive rwlock := Readers (r : gset Z) | Writer (t : Z) (p : rereading).

(** [sh_copies]: the local [data_cfg] of a thread. *)
Record shared := mkShared {
  sh_heap : gset block; sh_next : block; sh_cfg : config_blocks; sh_lock : rwlock;
  sh_copies : gmap Z config_blocks
}.

Definition set_lock (l : rwlock) (s : shared) : shared :=
  mkShared (sh_heap s) (sh_next s) (sh_cfg s) l (sh_copies s).

(** [*data = *cfg], inside the lock. *)
Definition get_config_data (t : Z) (s : shared) : option shared :=
  if bool_decide (cb_self (sh_cfg s) ∈ sh_heap s)
  then Some (mkShared (sh_heap s) (sh_next s) (sh_cfg s) (sh_lock s) (<[t := sh_cfg s]> (sh_copies s)))
  else None.

(** [config_get_account_limit] inside the lock: whether its look-up reads
    blocks that are there. *)
Definition lookup_safe (s : shared) : bool :=
  bool_decide (cb_self (sh_cfg s) ∈ sh_heap s)
  && match cb_account_limits (sh_cfg s) with Some b => bool_decide (b ∈ sh_heap s) | None => false end.

(** [add_new_stats] looks at [data_cfg.debug_user]: whether [strlen] reads a
    block that is there. *)
Definition debug_user_safe (t : Z) (s : shared) : bool :=
  match sh_copies s !! t with
  | Some c => match cb_debug_user c with Some b => bool_decide (b ∈ sh_heap s) | None => true end
  | None => true
  end.

(** The blocks that [config_free] frees, and all of them. *)
Definition freed_blocks (c : config_blocks) : list block :=
  omap id [cb_debug_user c; cb_account_limits c; cb_db_login c; cb_db_password c; cb_host c; cb_log c;
           cb_restrict_log c; cb_slow_queries_log c; Some (cb_self c)].
Definition all_blocks (c : config_blocks) : list block := (freed_blocks c ++ omap id [cb_exec_script c])%list.

(** [reread_config], first half and second half. *)
Definition reread_free (t : Z) (s : shared) : option shared :=
  h ← config_free (sh_cfg s) (sh_heap s);
  Some (mkShared h (sh_next s) (sh_cfg s) (Writer t Freed) (sh_copies s)).
Definition reread_init (t : Z) (cfg : governor_config) (s : shared) : shared :=
  let c := config_blocks_of cfg (sh_next s) in
  mkShared (list_to_set (all_blocks c) ∪ sh_heap s) (sh_next s + 10) c (Writer t Read_again) (sh_copies s).

Inductive share_step : shared -> shared -> Prop :=
  | sh_rdlock t r s : sh_lock s = Readers r -> t ∉ r -> share_step s (set_lock (Readers ({[t]} ∪ r)) s)
  | sh_copy t r s s' : sh_lock s = Readers r -> t ∈ r -> get_config_data t s = Some s' -> share_step s s'
  | sh_rdunlock t r s : sh_lock s = Readers r -> t ∈ r -> share_step s (set_lock (Readers (r ∖ {[t]})) s)
  | sh_wrlock t s : sh_lock s = Readers ∅ -> share_step s (set_lock (Writer t Locked) s)
  | sh_free t s s' : sh_lock s = Writer t Locked -> reread_free t s = Some s' -> share_step s s'
  | sh_init t cfg s : sh_lock s = Writer t Freed -> share_step s (reread_init t cfg s)
  | sh_wrunlock t s : sh_lock s = Writer t Read_again -> share_step s (set_lock (Readers ∅) s).

(** The first [config_init], before the threads. *)
Definition start_shared (cfg : governor_config) : shared :=
  let c := config_blocks_of cfg 0 in mkShared (list_to_set (all_blocks c)) 10 c (Readers ∅) ∅.

Inductive share_reachable : shared -> Prop :=
  | sr_start cfg : share_reachable (start_shared cfg)
  | sr_step s s' : share_reachable s -> share_step s s' -> share_reachable s'.

(** The structure is gone and the new one not there yet. *)
Definition in_between (s : shared) : bool := match sh_lock s with Writer _ Freed => true | _ => false end.

(** * Invariant *)

Record share_ok (s : shared) : Prop := {
  so_heap : forall b, b ∈ sh_heap s -> b < sh_next s;
  so_bound : forall b, b ∈ all_blocks (sh_cfg s) -> b < sh_next s;
  so_nodup : NoDup (all_blocks (sh_cfg s));
  so_live : in_between s = false -> forall b, b ∈ all_blocks (sh_cfg s) -> b ∈ sh_heap s;
  so_gone : in_between s = true -> forall b, b ∈ freed_blocks (sh_cfg s) -> b ∉ sh_heap s;
  so_copies : forall t c, sh_copies s !! t = Some c ->
    c = sh_cfg s \/ forall b, b ∈ freed_blocks c -> b ∉ sh_heap s /\ b < sh_next s
}.

Lemma blocks_of_range cfg n b : b ∈ all_blocks (config_blocks_of cfg n) -> n <= b < n + 10.
Proof.
  unfold all_blocks, freed_blocks, config_blocks_of. cbn [cb_self cb_debug_user cb_account_limits cb_db_login
    cb_db_password cb_host cb_log cb_restrict_log cb_slow_queries_log cb_exec_script].
  destruct (debug_user cfg), (restrict_log cfg), (slow_queries_log cfg), (exec_script cfg);
    cbn; rewrite !elem_of_cons, elem_of_nil; lia.
Qed.

Lemma blocks_of_nodup cfg n : NoDup (all_blocks (config_blocks_of cfg n)).
Proof.
  unfold all_blocks, freed_blocks, config_blocks_of. cbn [cb_self cb_debug_user cb_account_limits cb_db_login
    cb_db_password cb_host cb_log cb_restrict_log cb_slow_queries_log cb_exec_script].
  destruct (debug_user cfg), (restrict_log cfg), (slow_queries_log cfg), (exec_script cfg); cbn;
    repeat (apply list.NoDup_cons; split; [rewrite ?elem_of_cons, elem_of_nil; lia|]); apply base.NoDup_nil_2.
Qed.

Lemma freed_in_all c b : b ∈ freed_blocks c -> b ∈ all_blocks c.
Proof. intros Hb. apply elem_of_app. by left. Qed.

(** Freeing pointers one after the other. *)
Fixpoint free_all (l : list (option block)) (h : gset block) : option (gset block) :=
  match l with [] => Some h | p :: l => h ← free_block p h; free_all l h end.

Lemma config_free_all c h :
  config_free c h = free_all [cb_debug_user c; cb_account_limits c; cb_db_login c; cb_db_password c; cb_host c;
                              cb_log c; cb_restrict_log c; cb_slow_queries_log c; Some (cb_self c)] h.
Proof.
  unfold config_free. cbn [free_all].
  repeat match goal with |- context [free_block ?p ?h] => destruct (free_block p h); cbn [mbind option_bind]; [|done] end.
  done.
Qed.

Lemma free_all_spec l h : NoDup (omap id l) -> (forall b, b ∈ omap id l -> b ∈ h) ->
  free_all l h = Some (h ∖ list_to_set (omap id l)).
Proof.
  revert h. induction l as [|[b|] l IH]; intros h Hn Hin.
  - cbn. by rewrite difference_empty_L.
  - change (omap id (Some b :: l)) with (b :: omap id l) in *. apply list.NoDup_cons in Hn as [Hb Hn].
    cbn [free_all mbind option_bind free_block]. rewrite bool_decide_eq_true_2 by (apply Hin; by left).
    cbn [mbind option_bind]. rewrite IH; [|done|].
    + cbn. by rewrite difference_difference_l_L.
    + intros x Hx. apply elem_of_difference. split; [apply Hin; by right|].
      rewrite elem_of_singleton. by intros ->.
  - by apply IH.
Qed.

Lemma config_free_ok s : share_ok s -> in_between s = false ->
  config_free (sh_cfg s) (sh_heap s) = Some (sh_heap s ∖ list_to_set (freed_blocks (sh_cfg s))).
Proof.
  intros Hs Hb. rewrite config_free_all. apply free_all_spec.
  - pose proof (so_nodup _ Hs) as Hn. by apply list.NoDup_app in Hn as [Hn _].
  - intros b Hin. apply (so_live _ Hs Hb). by apply freed_in_all.
Qed.

Lemma start_share_ok cfg : share_ok (start_shared cfg).
Proof.
  split; cbn [start_shared sh_heap sh_next sh_cfg sh_lock sh_copies].
  - intros b Hb%elem_of_list_to_set. apply blocks_of_range in Hb. lia.
  - intros b Hb%blocks_of_range. lia.
  - apply blocks_of_nodup.
  - intros _ b Hb. by apply elem_of_list_to_set.
  - discriminate.
  - intros t c Hc. by rewrite lookup_empty in Hc.
Qed.

(** A change of the lock that does not go through the middle of a reread. *)
Lemma set_lock_ok l s : share_ok s -> in_between s = false -> in_between (set_lock l s) = false ->
  share_ok (set_lock l s).
Proof. intros [] Hb Hb'. split; try done; [by intros _; auto|by rewrite Hb']. Qed.

Lemma reread_free_ok t s s' : share_ok s -> in_between s = false -> reread_free t s = Some s' -> share_ok s'.
Proof.
  intros Hs Hb. unfold reread_free. rewrite config_free_ok by done. cbn [mbind option_bind]. intros [= <-].
  destruct Hs as [Hh Hbd Hnd Hl _ Hc]. split; cbn [sh_heap sh_next sh_cfg sh_lock sh_copies].
  - intros b [Hin _]%elem_of_difference. by apply Hh.
  - done.
  - done.
  - discriminate.
  - intros _ b Hin [_ Hn]%elem_of_difference. by apply Hn, elem_of_list_to_set.
  - intros u c Hu. destruct (Hc u c Hu) as [->|Hd]; [by left|right]. intros b Hin.
    destruct (Hd b Hin). split; [|done]. by intros [? _]%elem_of_difference.
Qed.

Lemma reread_init_ok t cfg s : share_ok s -> in_between s = true -> share_ok (reread_init t cfg s).
Proof.
  intros [Hh Hbd _ _ Hg Hc] Hb. split; cbn [reread_init sh_heap sh_next sh_cfg sh_lock sh_copies].
  - intros b [Hin%elem_of_list_to_set|Hin]%elem_of_union; [apply blocks_of_range in Hin; lia|].
    specialize (Hh b Hin). lia.
  - intros b Hin%blocks_of_range. lia.
  - apply blocks_of_nodup.
  - intros _ b Hin. apply elem_of_union. left. by apply elem_of_list_to_set.
  - discriminate.
  - intros u c Hu. right. intros b Hin. assert (b ∉ sh_heap s /\ b < sh_next s) as [Hn Hlt].
    { destruct (Hc u c Hu) as [->|Hd]; [|by apply Hd]. split; [by apply Hg|]. by apply Hbd, freed_in_all. }
    split; [|lia]. intros [Hx%elem_of_list_to_set|Hx]%elem_of_union; [|done]. apply blocks_of_range in Hx. lia.
Qed.

Lemma share_step_ok s s' : share_ok s -> share_step s s' -> share_ok s'.
Proof.
  intros Hs Hst. revert Hs.
  destruct Hst as [t r s E _|t r s s' E _ E'|t r s E _|t s E|t s s' E E'|t cfg s E|t s E]; intros Hs.
  - apply set_lock_ok; [done| |done]. unfold in_between. by rewrite E.
  - revert E'. unfold get_config_data. destruct (bool_decide _); [|done]. intros [= <-].
    destruct Hs as [Hh Hbd Hnd Hl Hg Hc]. split; try done. cbn. intros u c.
    destruct (decide (u = t)) as [->|Hne]; [rewrite lookup_insert_eq; intros [= <-]; by left|].
    rewrite lookup_insert_ne by done. apply Hc.
  - apply set_lock_ok; [done| |done]. unfold in_between. by rewrite E.
  - apply set_lock_ok; [done| |done]. unfold in_between. by rewrite E.
  - apply (reread_free_ok t s s' Hs); [|done]. unfold in_between. by rewrite E.
  - apply reread_init_ok; [done|]. unfold in_between. by rewrite E.
  - apply set_lock_ok; [done| |done]. unfold in_between. by rewrite E.
Qed.

Lemma share_reachable_ok s : share_reachable s -> share_ok s.
Proof. induction 1 as [cfg|s s' _ IH Hst]; [apply start_share_ok|by eapply share_step_ok]. Qed.

Lemma account_limits_given s : share_reachable s -> is_Some (cb_account_limits (sh_cfg s)).
Proof.
  induction 1 as [cfg|s s' _ IH Hst]; [by eexists|]. revert IH.
  destruct Hst as [| t r s s' _ _ E'| | |t s s' _ E'|t cfg s _|]; try done.
  - revert E'. unfold get_config_data. destruct (bool_decide _); [|done]. by intros [= <-].
  - revert E'. unfold reread_free. destruct (config_free _ _); [|done]. by intros [= <-].
Qed.

(** * Properties *)

(** C16: The configuration behind its lock: whatever the threads do in turn, taking a copy
    and looking up a limit inside the lock read memory that is there, and a reread frees every
    block once. A copy of the structure that a thread took is good until the next reread begins;
    from then on all that it points to, the path of the script apart, is freed, and the look at
    the debug user through it reads freed memory. *)
Theorem config_copies_dangle (s : shared) : share_reachable s ->
  (forall r t, sh_lock s = Readers r -> is_Some (get_config_data t s) /\ lookup_safe s = true)
  /\ (forall t, sh_lock s = Writer t Locked -> is_Some (reread_free t s))
  /\ forall t c, sh_copies s !! t = Some c ->
       (c = sh_cfg s -> in_between s = false -> debug_user_safe t s = true)
       /\ (c <> sh_cfg s \/ in_between s = true ->
           (forall b, b ∈ freed_blocks c -> b ∉ sh_heap s)
           /\ (is_Some (cb_debug_user c) -> debug_user_safe t s = false)).
Proof.
  intros Hr. pose proof (share_reachable_ok s Hr) as Hs. destruct (account_limits_given s Hr) as [al Hal].
  assert (forall b, Some b ∈ [cb_debug_user (sh_cfg s); cb_account_limits (sh_cfg s); Some (cb_self (sh_cfg s))] ->
            b ∈ freed_blocks (sh_cfg s)) as Hown.
  { intros b Hb. unfold freed_blocks. apply list_elem_of_omap. exists (Some b). split; [|done]. set_solver. }
  split; [|split].
  - intros r t E. assert (in_between s = false) as Hb by (unfold in_between; by rewrite E).
    assert (cb_self (sh_cfg s) ∈ sh_heap s) as Hself by (apply (so_live _ Hs Hb), freed_in_all, Hown; set_solver).
    unfold get_config_data, lookup_safe. rewrite bool_decide_eq_true_2, Hal by done. split; [by eexists|].
    cbn. apply bool_decide_eq_true_2, (so_live _ Hs Hb), freed_in_all, Hown. rewrite Hal. set_solver.
  - intros t E. unfold reread_free. rewrite config_free_ok; [by eexists|done|]. unfold in_between. by rewrite E.
  - intros t c Hc. split.
    + intros -> Hb. unfold debug_user_safe. rewrite Hc. destruct (cb_debug_user (sh_cfg s)) as [b|] eqn:E; [|done].
      apply bool_decide_eq_true_2, (so_live _ Hs Hb), freed_in_all, Hown. set_solver.
    + intros Hor. assert (forall b, b ∈ freed_blocks c -> b ∉ sh_heap s) as Hgone.
      { destruct (so_copies _ Hs t c Hc) as [->|Hd]; [|intros b Hb; apply (Hd b Hb)].
        destruct Hor as [?|Hb]; [done|]. by apply (so_gone _ Hs Hb). }
      split; [done|]. intros [b E]. unfold debug_user_safe. rewrite Hc, E. apply bool_decide_eq_false_2, Hgone.
      unfold freed_blocks. apply list_elem_of_omap. exists (Some b). split; [|done]. rewrite E. by left.
Qed.

(** A user whose queries are to be shown. *)
Definition debug_config : governor_config :=
  mkConfig "root" "" (mkStatsCfg (mkTLong 150 100 90 65) zero_limits (mkTLong 9 8 7 6) zero_limits
                        true RESTRICT_MODE) ∅ "" "" ERROR_MODE None "_" 60 900 3600 86400 3600
    (mkIntervals 5 15 30) 2 None 1 1 0 1 30 0 0 1 0 0 1 60 None (Some "bob") 0.

(** Thread 1 takes its copy, and thread 2 rereads the configuration before
    thread 1 looks at the debug user. *)
Definition after_reread : shared :=
  let s := start_shared debug_config in
  let s := mkShared (sh_heap s) (sh_next s) (sh_cfg s) (sh_lock s) {[1 := sh_cfg s]} in
  match reread_free 2 s with
  | Some s => set_lock (Readers ∅) (reread_init 2 debug_config s)
  | None => s
  end.

Lemma after_reread_reachable : share_reachable after_reread.
Proof.
  set (s0 := start_shared debug_config).
  set (s1 := set_lock (Readers {[1]}) s0).
  set (s2 := mkShared (sh_heap s0) 10 (sh_cfg s0) (Readers {[1]}) {[1 := sh_cfg s0]}).
  set (s3 := set_lock (Readers ∅) s2).
  set (s4 := set_lock (Writer 2 Locked) s3).
  destruct (reread_free 2 s4) as [s5|] eqn:E5; [|by vm_compute in E5].
  assert (share_reachable s1) as R1.
  { apply (sr_step s0); [apply sr_start|]. exact (sh_rdlock 1 ∅ s0 eq_refl ltac:(set_solver)). }
  assert (share_reachable s3) as R3.
  { apply (sr_step s2); [apply (sr_step s1); [done|]|].
    - apply (sh_copy 1 {[1]}); [done|set_solver|reflexivity].
    - exact (sh_rdunlock 1 {[1]} s2 eq_refl ltac:(set_solver)). }
  assert (share_reachable s5) as R5.
  { apply (sr_step s4); [apply (sr_step s3); [done|by apply sh_wrlock]|by apply (sh_free 2)]. }
  assert (after_reread = set_lock (Readers ∅) (reread_init 2 debug_config s5)) as ->.
  { unfold after_reread. change (reread_free 2 _) with (reread_free 2 s4). by rewrite E5. }
  revert E5. vm_compute. intros [= <-].
  refine (sr_step _ _ (sr_step _ _ R5 (sh_init 2 debug_config _ _)) (sh_wrunlock 2 _ _)); reflexivity.
Qed.

Lemma config_copies_dangle_witness :
  share_reachable after_reread /\ lookup_safe after_reread = true
  /\ exists c, sh_copies after_reread !! 1 = Some c /\ c <> sh_cfg after_reread /\ debug_user_safe 1 after_reread = false.
Proof.
  destruct (config_copies_dangle after_reread after_reread_reachable) as (Hl & _ & Hc).
  split; [exact after_reread_reachable|]. split; [by eapply (Hl ∅ 1)|]. eexists. split; [vm_compute; reflexivity|].
  split; [by vm_compute|]. eapply (Hc 1); [reflexivity|left; by vm_compute|by eexists].
Defined.
