(* ===== verification/Log.v ===== *)
(** The log files ([src/log.c]): the three streams, the lines written to them
    and the result codes.  What a stream has taken, flushed or not, counts as
    the contents of its file. *)

From S2P Require Import Prelude CDouble CString Data UserMap FifoStats Xml Config.
Open Scope string_scope.
Open Scope Z_scope.

Definition EIO : Z := 5.
Definition EINVAL : Z := 22.

(** * Streams *)

(** The static streams [log], [restrict_log] and [slow_queries_log]; an open
    one is the path of its file. *)
Inductive stream := Log | Restrict_log | Slow_queries_log.
#[export] Instance stream_eq : EqDecision stream. Proof. solve_decision. Defined.

Record logs := mkLogs {
  g_log : option string; g_restrict_log : option string; g_slow_queries_log : option string;
  g_files : gmap string string
}.

Definition get_stream (k : stream) (s : logs) : option string :=
  match k with
  | Log => g_log s | Restrict_log => g_restrict_log s | Slow_queries_log => g_slow_queries_log s
  end.
Definition set_stream (k : stream) (f : option string) (s : logs) : logs :=
  match k with
  | Log => mkLogs f (g_restrict_log s) (g_slow_queries_log s) (g_files s)
  | Restrict_log => mkLogs (g_log s) f (g_slow_queries_log s) (g_files s)
  | Slow_queries_log => mkLogs (g_log s) (g_restrict_log s) f (g_files s)
  end.
Definition contents (path : string) (s : logs) : string := default "" (g_files s !! path).
(** A stream opened with the mode [a] writes at the end of its file. *)
Definition put_file (path text : string) (s : logs) : logs :=
  mkLogs (g_log s) (g_restrict_log s) (g_slow_queries_log s) (<[path := contents path s +:+ text]> (g_files s)).

(** [open_log], [open_restrict_log], [open_slow_queries_log]; [fopen] is the
    error number of the call, 0 for success. *)
Definition open_stream (k : stream) (fopen : Z) (log_file : string) (s : logs) : Z * logs :=
  if fopen =? 0 then (0, put_file log_file "" (set_stream k (Some log_file) s))
  else (fopen, set_stream k None s).
Definition open_log := open_stream Log.
Definition open_restrict_log := open_stream Restrict_log.
Definition open_slow_queries_log := open_stream Slow_queries_log.

Definition close_stream (k : stream) (fclose : Z) (s : logs) : Z * logs :=
  match get_stream k s with
  | Some _ => (fclose, set_stream k None s)
  | None => (0, set_stream k None s)
  end.
Definition close_log := close_stream Log.
Definition close_restrict_log := close_stream Restrict_log.
Definition close_slow_queries_log := close_stream Slow_queries_log.

Definition get_log (s : logs) : option string := get_stream Log s.
Definition get_restrict_log (s : logs) : option string := get_stream Restrict_log s.
Definition get_slow_queries_log (s : logs) : option string := get_stream Slow_queries_log s.

(** * Texts *)

Definition nl : string := String "010" "".

Definition print_long (val : Z) : string := "= " +:+ dec val +:+ ", ".
Definition print_long_last (val : Z) : string := "= " +:+ dec val.
Definition print_double (val : double) : string := "= " +:+ fmt_f val +:+ ", ".

Definition print_long_cfg (val : T_LONG) : string :=
  let more name v := if 0 <=? v then ", " +:+ name +:+ " = " +:+ dec v else "" in
  "current = " +:+ dec (t_current val) +:+ more "short" (t_short val) +:+ more "mid" (t_mid val)
  +:+ more "long" (t_long val) +:+ nl.

Definition print_stats_cfg (s : Stats_cfg) : string :=
  "cpu " +:+ print_long_cfg (l_cpu s) +:+ "read " +:+ print_long_cfg (l_read s)
  +:+ "write " +:+ print_long_cfg (l_write s).
Definition print_stats : Stats_cfg -> string := print_stats_cfg.

Definition print_stats_easy (s : Stats) : string :=
  "cpu " +:+ print_double (st_cpu s) +:+ "read " +:+ print_long (st_read s)
  +:+ "write " +:+ print_long_last (st_write s).

Definition print_account_limits (key : string) (value : Stats_cfg) : string :=
  key +:+ " -- " +:+ print_stats value +:+ nl.

(** The names of this file; two modes are behind the end of its array, but
    the configuration is only printed in one mode. *)
Definition mode_names : list string :=
  ["TEST_MODE"; "PRODUCTION_MODE"; "DEBUG_MODE"; "ERROR_MODE"; "RESTRICT_MODE"; "NORESTRICT_MODE"; "IGNORE_MODE"].
Definition mode_index (m : MODE_TYPE) : nat :=
  match m with
  | TEST_MODE => 0 | PRODUCTION_MODE => 1 | DEBUG_MODE => 2 | ERROR_MODE => 3 | RESTRICT_MODE => 4
  | NORESTRICT_MODE => 5 | IGNORE_MODE => 6 | OLD_RESTRICT_MODE => 7 | NEW_RESTRICT_MODE => 8
  end.

(** A null string is printed as the library prints it. *)
Definition or_null (s : option string) : string := default "(null)" s.

Definition config_text `{HashOrder} (cfg : governor_config) : string :=
  let line name v := name +:+ " " +:+ v +:+ nl in
  line "db_login" (db_login cfg) +:+ line "db_password" (db_password cfg) +:+ line "host" (host cfg)
  +:+ line "log" (log cfg) +:+ line "log_mode" (or_null (mode_names !! mode_index (log_mode cfg)))
  +:+ line "restrict_log" (or_null (restrict_log cfg)) +:+ line "separator" (String (separator cfg) "")
  +:+ "level1 " +:+ dec (level1 cfg) +:+ ", level2 " +:+ dec (level2 cfg) +:+ ", level3 "
  +:+ dec (level3 cfg) +:+ ", level4 " +:+ dec (level4 cfg) +:+ nl
  +:+ line "timeout" (dec (c_timeout cfg)) +:+ line "interval_short" (dec (interval_short (c_intervals cfg)))
  +:+ line "interval_mid" (dec (interval_mid (c_intervals cfg)))
  +:+ line "interval_long" (dec (interval_long (c_intervals cfg)))
  +:+ line "restrict log format" (dec (restrict_format cfg))
  +:+ nl +:+ "default" +:+ nl +:+ print_stats_cfg (default_limit cfg)
  +:+ ht_foreach (account_limits cfg) (fun key value t => t +:+ print_account_limits key value) "" +:+ nl.

(** * Writing *)

(** The date of the moment ([None]: [localtime_r] fails), whether [fprintf]
    works, the error number of [fflush]. *)
Record log_io := mkLogIo { l_date : option string; l_fprintf : bool; l_fflush : Z }.

(** The lines of the three functions, and their result. *)
Definition write_line (k : stream) (io : log_io) (text : string -> string) (s : logs) : Z * logs :=
  match get_stream k s with
  | None => (-1, s)
  | Some f =>
      match l_date io with
      | None => (EINVAL, s)
      | Some current_date =>
          if l_fprintf io then (l_fflush io, put_file f (text current_date) s) else (EIO, s)
      end
  end.

Definition write_log (io : log_io) (error_file : string) (error_line : Z) (error_string : string)
    (mode : MODE_TYPE) : logs -> Z * logs :=
  write_line Log io (fun date =>
    if decide (mode = DEBUG_MODE)
    then "[" +:+ date +:+ "] " +:+ error_file +:+ ":" +:+ dec error_line +:+ " " +:+ error_string +:+ nl
    else "[" +:+ date +:+ "] " +:+ error_string +:+ nl).

Definition write_restrict_log (cfg : governor_config) (io : log_io) (error_string : string)
    (limits : option Stats) : logs -> Z * logs :=
  write_line Restrict_log io (fun date =>
    "[" +:+ date +:+ "] " +:+ error_string +:+ "  "
    +:+ match limits with
        | Some l => if 0 <? restrict_format cfg then print_stats_easy l else ""
        | None => ""
        end +:+ nl).

Definition write_slow_queries_log (io : log_io) (error_string : string) : logs -> Z * logs :=
  write_line Slow_queries_log io (fun date => "[" +:+ date +:+ "] " +:+ error_string +:+ "  " +:+ nl).

(** A null stream is used when the log is not open. *)
Definition write_restrict_log_second_line (io : log_io) (error_string : string) (need_end_line : Z)
    (s : logs) : option (Z * logs) :=
  f ← get_stream Restrict_log s;
  Some (if l_fprintf io
        then (l_fflush io, put_file f (error_string +:+ if nonzero need_end_line then nl else "") s)
        else (EIO, s)).

Definition print_config `{HashOrder} (cfg : governor_config) (s : logs) : logs :=
  if decide (log_mode cfg = DEBUG_MODE) then
    match get_log s with Some f => put_file f (config_text cfg) s | None => s end
  else s.

(** [WRITE_LOG]: the stream is chosen by the type. *)
Definition WRITE_LOG (cfg : governor_config) (io : log_io) (file : string) (line : Z)
    (stats : option Stats) (type : Z) (message : string) (mode : MODE_TYPE) (s : logs) : logs :=
  if type =? 0 then snd (write_log io file line message mode s)
  else if type =? 1 then snd (write_restrict_log cfg io message stats s)
  else if type =? 2 then snd (write_slow_queries_log io message s)
  else s.

(** * Lemmas *)

Lemma contents_put f text p s :
  contents p (put_file f text s) = contents p s +:+ (if decide (p = f) then text else "").
Proof.
  unfold contents at 1, put_file. cbn [g_files]. destruct (decide (p = f)) as [->|Hne].
  - by rewrite lookup_insert_eq.
  - rewrite lookup_insert_ne by done. by rewrite append_nil_r.
Qed.

Lemma contents_set k f p s : contents p (set_stream k f s) = contents p s.
Proof. by destruct k. Qed.

(** The calls that change the logs. *)
Inductive log_op :=
  | Open (k : stream) (fopen : Z) (log_file : string)
  | Close (k : stream) (fclose : Z)
  | Write (k : stream) (io : log_io) (text : string -> string)
  | Config (cfg : governor_config).

Definition run_op `{HashOrder} (o : log_op) (s : logs) : logs :=
  match o with
  | Open k fopen f => snd (open_stream k fopen f s)
  | Close k fclose => snd (close_stream k fclose s)
  | Write k io text => snd (write_line k io text s)
  | Config cfg => print_config cfg s
  end.

(** The files only grow, whatever is opened, closed and written. *)
Lemma logs_only_grow `{HashOrder} (ops : list log_op) (s : logs) (path : string) :
  exists t, contents path (fold_left (fun s o => run_op o s) ops s) = contents path s +:+ t.
Proof.
  revert s. induction ops as [|o ops IH]; intros s; [by exists ""; rewrite append_nil_r|].
  cbn [fold_left]. destruct (IH (run_op o s)) as [t ->].
  assert (exists t', contents path (run_op o s) = contents path s +:+ t') as [t' ->];
    [|exists (t' +:+ t); by rewrite append_assoc].
  destruct o as [k e f|k e|k io text|cfg]; cbn [run_op].
  - unfold open_stream. destruct (e =? 0); cbn [snd].
    + rewrite contents_put, contents_set. by eexists.
    + exists "". by rewrite contents_set, append_nil_r.
  - exists "". unfold close_stream. destruct (get_stream k s); cbn [snd];
      by rewrite contents_set, append_nil_r.
  - unfold write_line. destruct (get_stream k s) as [f|]; [destruct (l_date io), (l_fprintf io)|]; cbn [snd];
      try (exists ""; by rewrite append_nil_r). rewrite contents_put. by eexists.
  - unfold print_config. destruct (decide _); [|exists ""; by rewrite append_nil_r].
    destruct (get_log s); [|exists ""; by rewrite append_nil_r]. rewrite contents_put. by eexists.
Qed.

(** A line that is written with no error is in its file, once, at the end. *)
Lemma write_line_zero k io text s s' : write_line k io text s = (0, s') ->
  exists f date, get_stream k s = Some f /\ l_date io = Some date
    /\ contents f s' = contents f s +:+ text date
    /\ forall p, p <> f -> contents p s' = contents p s.
Proof.
  unfold write_line. destruct (get_stream k s) as [f|]; [|done].
  destruct (l_date io) as [date|]; [|done]. destruct (l_fprintf io); [|done].
  intros [= _ <-]. exists f, date. split; [done|]. split; [done|]. split.
  - rewrite contents_put. by rewrite decide_True.
  - intros p Hp. rewrite contents_put, decide_False by done. by rewrite append_nil_r.
Qed.
