(* ===== verification/DbCtlSet.v ===== *)
(** The edits of [dbctl] ([src/dbctl_set.c], [src/dbctl_rest.c] and the
    writing part of [src/dbctl_cfg.c]): limits and modes are set in the
    configuration tree, the tree is saved and the daemon is told.  A pointer
    to an element below [child] is a path inside the subtree of [child].
    [None] is a null or freed pointer that is used. *)

From S2P Require Import Prelude CDouble CString Data FifoStats Xml Config ConfigEdit.
Open Scope string_scope.
Open Scope Z_scope.

(** * Messages to the daemon ([dbctl_rest.c]) *)

Definition empty_command (c : dbctl_command_l) : DbCtlCommand :=
  mkDbCtlCommand c "" (mkDbCtlOptions "" 0 0 0 0 0 0).
Definition user_command (c : dbctl_command_l) (user : string) (level : Z) : DbCtlCommand :=
  mkDbCtlCommand c "" (mkDbCtlOptions (strncpy_str user (USERNAMEMAXLEN - 1)) 0 0 0 level 0 0).

(** What reaches the daemon; [sock] is the success of [opensock]. *)
Definition send_if (sock : bool) (c : DbCtlCommand) : list DbCtlCommand := if sock then [c] else [].

Definition is_default (user : string) : bool := strncmp_eq user "default" (USERNAMEMAXLEN - 1).

Definition restrict_user (sock : bool) (user : string) (level : option string) : list DbCtlCommand :=
  if is_default user then []
  else send_if sock (user_command RESTRICT user (atoi (default "-1" level))).
Definition unrestrict (sock : bool) (user : string) : list DbCtlCommand :=
  if is_default user then [] else send_if sock (user_command UNRESTRICT user 0).
Definition dbupdatecmd (sock : bool) : list DbCtlCommand := send_if sock (empty_command DBUSER_MAP_CMD).
Definition unrestrict_all (sock : bool) : list DbCtlCommand := send_if sock (empty_command UNRESTRICT_A).
Definition reread_cfg_cmd (sock : bool) : list DbCtlCommand := send_if sock (empty_command REREAD_CFG).
Definition reinit_users_list_cmd (sock : bool) : list DbCtlCommand :=
  send_if sock (empty_command REINIT_USERS_LIST).

(** * Values *)

Definition non_negative (v : Z) : string := dec (if v <? 0 then -1 else v).
Definition get_mb (s : string) : string := non_negative (s64 (atoll s * (1024 * 1024))).
Definition get_kb (s : string) : string := non_negative (s64 (atoll s * 1024)).
Definition get_bb (s : string) : string := non_negative (atoll s).

Definition newline : ascii := "010"%char.

Fixpoint count_char (c : ascii) (s : string) : Z :=
  match s with
  | EmptyString => 0
  | String a s => (if Ascii.eqb a c then 1 else 0) + count_char c s
  end.

(** The pieces between the separators. *)
Fixpoint pieces (t : ascii) (s cur : string) : list string :=
  match s with
  | EmptyString => [cur]
  | String a s =>
      if Ascii.eqb a t then cur :: pieces t s "" else pieces t s (cur +:+ String a EmptyString)
  end.

(** [Some None] is the result 0.  The commas are counted whatever [t] is;
    with more than four fields the positions are not set: [None]. *)
Definition split (str : string) (t : ascii) : option (option (list string)) :=
  let cnt := count_char "," str + 1 in
  let cnt' := if Ascii.eqb t newline then 1 else cnt in
  if negb (Ascii.eqb t newline) && (cnt <? 4) then Some None
  else if cnt' =? 4 then Some (Some (pieces t str ""))
  else if cnt' =? 1 then Some (Some [str])
  else None.

(** The unit of a read or write limit is the last of its first 100
    characters. *)
Definition scale (v : string) : string :=
  let limit_l := Z.min (strlen v) 100 in
  let mb v := if isprint (first_char v) then get_mb v else v in
  if nonzero limit_l then
    let units := first_char (skip_n (limit_l - 1) v) in
    let cut := prefix_n (limit_l - 1) v in
    if Ascii.eqb units "b" then (if isprint (first_char cut) then get_bb cut else cut)
    else if Ascii.eqb units "k" then (if isprint (first_char cut) then get_kb cut else cut)
    else if Ascii.eqb units "m" then mb cut
    else mb v
  else mb v.

(** * Elements *)

(** The number of attributes missing, in all the limits of a name. *)
Definition missing (n : xmlNode) (attrName : string) : Z :=
  match getElemAttr n attrName with Some _ => 0 | None => 1 end.
Definition count_missing (s : string) (limit : xmlNode) (cnt : Z) : outcome Z :=
  Ok (match getElemAttr limit "name" with
      | Some attr =>
          if strcmp_eq attr s then
            cnt + missing limit "current"
            + (if strcmp_eq "slow" s then 0
               else missing limit "short" + missing limit "mid" + missing limit "long")
          else cnt
      | None => cnt
      end).

Definition checkCorrectAttrs (child : xmlNode) (s : string) : Z :=
  match for_children child [] "limit" (count_missing s) 0 with
  | Ok cnt => if cnt =? 4 then 1 else if strcmp_eq "slow" s then cnt else 0
  | _ => 0
  end.

Section edit.
Context `{LibXml}.

(** The limit is removed and freed, and its [next] is read then: [None] once
    a limit has the name.  A limit without a name is a null pointer in
    [strcmp]. *)
Fixpoint removeBadLimit_loop (l : list xmlNode) (s : string) : option unit :=
  match l with
  | [] => Some tt
  | limit :: l =>
      if String.eqb (x_name limit) "limit" then
        attr ← getElemAttr limit "name";
        if strcmp_eq attr s then None else removeBadLimit_loop l s
      else removeBadLimit_loop l s
  end.
Definition removeBadLimit (child : xmlNode) (s : string) : option xmlNode :=
  _ ← removeBadLimit_loop (x_children child) s; Some child.

Definition set_if_print (attrName v : string) (n : xmlNode) : xmlNode :=
  if isprint (first_char v) then xmlSetProp attrName v n else n.

Definition format_error : string := "Error format parameter!".

(** The changed limit and what is printed. *)
Definition setLimitAttr (limit : xmlNode) (s : string) : option (xmlNode * list string) :=
  let slowAttr := getElemAttr limit "name" in
  data ← split s ",";
  match data with
  | Some data =>
      nameAttr ← slowAttr;
      let data := if strcmp_eq nameAttr "read" || strcmp_eq nameAttr "write"
                  then scale <$> data else data in
      match data with
      | c :: sh :: m :: l :: _ =>
          Some (set_if_print "long" l (set_if_print "mid" m (set_if_print "short" sh
                  (set_if_print "current" c limit))), [])
      | _ => None
      end
  | None =>
      match slowAttr with
      | Some name =>
          if strcmp_eq name "slow" then
            data ← split s newline;
            match data with
            | Some (d :: _) => Some (set_if_print "current" d limit, [])
            | _ => Some (limit, [format_error])
            end
          else Some (limit, [format_error])
      | None => Some (limit, [format_error])
      end
  end.

(** [limit] is null when an element of the kind exists deeper. *)
Definition addLimit (child : xmlNode) (n s : string) : option (xmlNode * list string) :=
  '(child, limit) ← setNodeWithAttr child None "limit" None "name" n;
  match limit with
  | Some p =>
      l ← node_at child p;
      '(l', out) ← setLimitAttr l s;
      child ← change_at child p (fun _ => l');
      Some (child, out)
  | None =>
      data ← split s ",";
      match data with Some _ => None | None => Some (child, [format_error]) end
  end.

(** The loop over the limits of [child]: those with the name get the new
    values; [cnt_attr] counts them. *)
Fixpoint limit_loop (fuel : nat) (child : xmlNode) (limit : option path) (name s : string)
    (cnt_attr : Z) (out : list string) : option (xmlNode * Z * list string) :=
  match fuel with
  | O => None
  | S fuel =>
      match limit with
      | None => Some (child, cnt_attr, out)
      | Some p =>
          n ← node_at child p;
          nameAttr ← getElemAttr n "name";
          '(child, cnt_attr, out) ←
            (if strcmp_eq nameAttr name then
               '(n', o) ← setLimitAttr n s;
               child ← change_at child p (fun _ => n');
               Some (child, cnt_attr + 1, (out ++ o)%list)
             else Some (child, cnt_attr, out));
          limit_loop fuel child (getNextChild child (Some []) "limit" (Some p)) name s cnt_attr out
      end
  end.

(** The block of [setUser] and [setDefault] for one limit of an element that
    exists. *)
Definition set_limit (name : string) (s : option string) (child : xmlNode)
    : option (xmlNode * list string) :=
  match s with
  | None => Some (child, [])
  | Some s =>
      '(child, cnt_attr, out) ←
        limit_loop (S (length (x_children child))) child
          (getNextChild child (Some []) "limit" None) name s 0 [];
      '(child, out) ← (if cnt_attr =? 0 then '(c, o) ← addLimit child name s; Some (c, (out ++ o)%list)
                       else Some (child, out));
      child ← (if nonzero (checkCorrectAttrs child name) then removeBadLimit child name
               else Some child);
      Some (child, out)
  end.

(** The blocks in a row. *)
Definition set_limits (cpu read write slow : option string) (child : xmlNode)
    : option (xmlNode * list string) :=
  '(child, o1) ← set_limit "cpu" cpu child;
  '(child, o2) ← set_limit "read" read child;
  '(child, o3) ← set_limit "write" write child;
  '(child, o4) ← set_limit "slow" slow child;
  Some (child, (o1 ++ o2 ++ o3 ++ o4)%list).

Definition add_limit (name : string) (s : option string) (child : xmlNode)
    : option (xmlNode * list string) :=
  match s with Some s => addLimit child name s | None => Some (child, []) end.
Definition add_limits (cpu read write slow : option string) (child : xmlNode)
    : option (xmlNode * list string) :=
  '(child, o1) ← add_limit "cpu" cpu child;
  '(child, o2) ← add_limit "read" read child;
  '(child, o3) ← add_limit "write" write child;
  '(child, o4) ← add_limit "slow" slow child;
  Some (child, (o1 ++ o2 ++ o3 ++ o4)%list).

Definition drop_bad (name : string) (child : xmlNode) : option xmlNode :=
  if nonzero (checkCorrectAttrs child name) then removeBadLimit child name else Some child.
Definition drop_all_bad (child : xmlNode) : option xmlNode :=
  child ← drop_bad "cpu" child; child ← drop_bad "read" child;
  child ← drop_bad "write" child; drop_bad "slow" child.

(** The blocks for an element just created: when it could not be, the limits
    land below the root and nothing is checked. *)
Definition fill_new (root : xmlNode) (child : option path) (cpu read write slow : option string)
    : option (xmlNode * list string) :=
  match child with
  | Some p =>
      c ← node_at root p;
      '(c, out) ← add_limits cpu read write slow c;
      c ← drop_all_bad c;
      root ← change_at root p (fun _ => c);
      Some (root, out)
  | None => add_limits cpu read write slow root
  end.

(** * Commands *)

(** The first element of the tag with the name, or the first at all. *)
Fixpoint search_tag (i : nat) (l : list xmlNode) (name_tag : string) (name : option string)
    : option path :=
  match l with
  | [] => None
  | c :: l =>
      if String.eqb (x_name c) name_tag then
        match name with
        | None => Some [i]
        | Some name =>
            let matches a := match getElemAttr c a with Some v => strcmp_eq v name | None => false end in
            if matches "name" then Some [i] else if matches "mysql_name" then Some [i]
            else search_tag (S i) l name_tag (Some name)
        end
      else search_tag (S i) l name_tag name
  end.
Definition SearchTagByName (root : xmlNode) (name_tag : string) (name : option string)
    : option path := search_tag 0 (x_children root) name_tag name.

(** The result, the tree saved, the messages sent and the lines printed. *)
Record edit_result := mkEdit {
  er_rc : Z; er_saved : option xmlNode; er_sent : list DbCtlCommand; er_out : list string
}.

Definition unreadable : edit_result := mkEdit 0 None [] [].
Definition saved (sock : bool) (root : xmlNode) (out : list string) : edit_result :=
  mkEdit 1 (Some root) (reread_cfg_cmd sock) out.

Definition setDefault (sock : bool) (cfg : option xmlNode) (cpu read write slow : option string)
    : option edit_result :=
  match cfg with
  | None => Some unreadable
  | Some root =>
      '(root, out) ←
        match SearchTagByName root "default" None with
        | None =>
            '(root, child) ← setNode root None "default" None;
            fill_new root child cpu read write slow
        | Some p =>
            c ← node_at root p;
            '(c, out) ← set_limits cpu read write slow c;
            root ← change_at root p (fun _ => c);
            Some (root, out)
        end;
      Some (saved sock root out)
  end.

Definition setUser (sock : bool) (cfg : option xmlNode) (para : string)
    (cpu read write slow : option string) : option edit_result :=
  match cfg with
  | None => Some unreadable
  | Some root =>
      '(root, out) ←
        match SearchTagByName root "user" (Some para) with
        | None =>
            '(root, child) ← setNodeWithAttr root None "user" None "name" para;
            root ← setAttr root child "mode" "restrict";
            fill_new root child cpu read write slow
        | Some p =>
            c ← node_at root p;
            '(c, out) ← set_limits cpu read write slow c;
            root ← change_at root p (fun _ => c);
            Some (root, out)
        end;
      Some (saved sock root out)
  end.

Definition deleteUser (sock : bool) (cfg : option xmlNode) (user : string) : option edit_result :=
  match cfg with
  | None => Some unreadable
  | Some root =>
      if is_default user then Some (mkEdit 1 None [] [])
      else match SearchTagByName root "user" (Some user) with
           | Some p => root ← removeNode root p; Some (saved sock root [])
           | None => Some (mkEdit 1 None [] [])
           end
  end.

(** The element of a user, created when it is not there, with a new mode. *)
Definition set_user_mode (sock : bool) (root : xmlNode) (user m : string) : option edit_result :=
  '(root, child) ←
    match SearchTagByName root "user" (Some user) with
    | Some p => Some (root, Some p)
    | None => setNodeWithAttr root None "user" None "name" user
    end;
  root ← setAttr root child "mode" m;
  Some (saved sock root []).

Definition ignoreUser (sock : bool) (cfg : option xmlNode) (user : string) : option edit_result :=
  let sent := unrestrict sock user in
  r ← match cfg with
      | None => Some unreadable
      | Some root =>
          if is_default user then Some (mkEdit 1 None [] [])
          else set_user_mode sock root user "ignore"
      end;
  Some (mkEdit (er_rc r) (er_saved r) (sent ++ er_sent r)%list (er_out r)).

Definition watchUser (sock : bool) (cfg : option xmlNode) (user : string) : option edit_result :=
  match cfg with
  | None => Some unreadable
  | Some root =>
      if is_default user then Some (mkEdit 1 None [] [])
      else set_user_mode sock root user "restrict"
  end.

(** [mode] is null when the option is missing. *)
Definition setLveMode (sock : bool) (cfg : option xmlNode) (mode : option string)
    : option edit_result :=
  match cfg with
  | None => Some unreadable
  | Some root =>
      mode ← mode;
      if existsb (strcmp_eq mode) ["off"; "abusers"; "all"; "single"; "on"] then
        '(root, child) ← match SearchTagByName root "lve" None with
                         | Some p => Some (root, Some p)
                         | None => setNode root None "lve" None
                         end;
        root ← setAttr root child "use" mode;
        Some (mkEdit 1 (Some root) (reinit_users_list_cmd sock) [])
      else Some (mkEdit 0 None [] ["Incorrect value mode"])
  end.
End edit.

(** * Lemmas *)

(** ** Values *)

(** The units of a read or write limit, bytes per second in the file. *)
Inductive size_unit := Plain | Bytes | Kilobytes | Megabytes.
Definition size_suffix (u : size_unit) : string :=
  match u with Plain => "" | Bytes => "b" | Kilobytes => "k" | Megabytes => "m" end.
Definition size_factor (u : size_unit) : Z :=
  match u with Bytes => 1 | Kilobytes => 1024 | Plain | Megabytes => 1024 * 1024 end.

Definition small (u : size_unit) (z : Z) : Prop := 0 <= z /\ z * size_factor u < 2 ^ 53.

Lemma count_char_none c s : has_char c s = false -> count_char c s = 0.
Proof. induction s as [|a s IH]; [done|]. simpl. intros [-> E]%orb_false_elim. by rewrite IH. Qed.

Lemma count_char_app c a b : count_char c (a +:+ b) = count_char c a + count_char c b.
Proof. induction a as [|x a IH]; [done|]. rewrite append_cons. simpl. rewrite IH. lia. Qed.

Lemma pieces_app c a s cur : has_char c a = false ->
  pieces c (a +:+ String c s) cur = (cur +:+ a) :: pieces c s "".
Proof.
  revert cur. induction a as [|x a IH]; intros cur.
  - intros _. rewrite append_nil_l, append_nil_r. simpl. by rewrite Ascii.eqb_refl.
  - rewrite append_cons. simpl. intros [-> E]%orb_false_elim. rewrite IH by done.
    by rewrite append_assoc, append_cons, append_nil_l.
Qed.

Lemma pieces_last c a cur : has_char c a = false -> pieces c a cur = [cur +:+ a].
Proof.
  revert cur. induction a as [|x a IH]; intros cur; [by rewrite append_nil_r|].
  simpl. intros [-> E]%orb_false_elim. rewrite IH by done.
  by rewrite append_assoc, append_cons, append_nil_l.
Qed.

Definition four (a b c d : string) : string :=
  a +:+ "," +:+ b +:+ "," +:+ c +:+ "," +:+ d.

Lemma split_four a b c d : Forall (fun s => has_char "," s = false) [a; b; c; d] ->
  split (four a b c d) "," = Some (Some [a; b; c; d]).
Proof.
  intros Hl. repeat (apply list.Forall_cons in Hl as [? Hl]). unfold split, four.
  rewrite !count_char_app, (count_char_none _ a), (count_char_none _ b), (count_char_none _ c),
    (count_char_none _ d) by done.
  rewrite !(append_cons ","), !append_nil_l, !pieces_app, pieces_last by done. by rewrite !append_nil_l.
Qed.

Lemma dec_nat_print z : 0 <= z -> isprint (first_char (dec_nat z)) = true.
Proof.
  intros Hz. destruct (dec_nat_first z Hz) as (d & s & Hd & ->).
  by destruct (digit_not_special d Hd) as (_ & _ & _ & _ & P).
Qed.

Lemma non_negative_dec z : 0 <= z -> non_negative z = dec_nat z.
Proof. intros Hz. unfold non_negative, dec. by destruct (Z.ltb_spec z 0); [lia|]; destruct (Z.ltb_spec z 0); [lia|]. Qed.

Lemma atoll_dec_nat z : 0 <= z < 2 ^ 63 -> atoll (dec_nat z) = z.
Proof.
  intros Hz. pose proof (atoll_dec z) as E. unfold dec in E.
  destruct (Z.ltb_spec z 0); [lia|]. apply E. unfold in_s64. lia.
Qed.

(** The last character of a printed number is not a unit. *)
Lemma last_digit d : all_digits d = true -> d <> "" ->
  isdigit (first_char (skip_n (strlen d - 1) d)) = true.
Proof.
  intros Hd Hne. induction d as [|c d IH]; [done|]. simpl in Hd. apply andb_prop in Hd as [Hc Hd].
  destruct d as [|c' d]; [done|]. specialize (IH Hd ltac:(done)).
  replace (skip_n (strlen (String c (String c' d)) - 1) (String c (String c' d)))
    with (skip_n (strlen (String c' d) - 1) (String c' d)); [done|].
  unfold skip_n, strlen. cbn [String.length]. rewrite !Nat2Z.inj_succ.
  replace (Z.to_nat (Z.succ (Z.succ (Z.of_nat (String.length d))) - 1))
    with (S (Z.to_nat (Z.succ (Z.of_nat (String.length d)) - 1))) by lia. done.
Qed.

Lemma scale_plain z : small Plain z -> scale (dec_nat z) = dec_nat (z * (1024 * 1024)).
Proof.
  intros [H0 Hz]. cbn [size_factor] in Hz.
  assert (get_mb (dec_nat z) = dec_nat (z * (1024 * 1024))) as Emb.
  { unfold get_mb. rewrite atoll_dec_nat, s64_id by (unfold in_s64; lia). apply non_negative_dec. lia. }
  pose proof (dec_nat_digits z H0) as Hd. pose proof (dec_nat_len z ltac:(lia)) as Hl.
  assert (dec_nat z <> "") as Hne by (destruct (dec_nat_first z H0) as (? & ? & _ & ->); done).
  pose proof (last_digit _ Hd Hne) as Hlast. unfold scale. rewrite Z.min_l by lia.
  set (c := first_char (skip_n _ _)) in *.
  assert (Ascii.eqb c "b" = false /\ Ascii.eqb c "k" = false /\ Ascii.eqb c "m" = false) as (-> & -> & ->).
  { repeat split; apply Ascii.eqb_neq; intros E; by rewrite E in Hlast. }
  rewrite dec_nat_print, Emb by done. by destruct (nonzero _).
Qed.

Lemma scale_unit u z : small u z ->
  scale (dec_nat z +:+ size_suffix u) = dec_nat (z * size_factor u).
Proof.
  destruct u; [intros Hz; unfold size_suffix; rewrite append_nil_r; by apply scale_plain| | |];
    intros [H0 Hz]; cbn [size_factor size_suffix] in *.
  all: pose proof (dec_nat_len z ltac:(lia)) as Hl; unfold scale.
  all: rewrite Z.min_l by (unfold strlen in *; rewrite string_length_app; simpl; lia).
  all: assert (forall x, strlen (dec_nat z +:+ String x "") - 1 = strlen (dec_nat z)) as ->
    by (intros; unfold strlen; rewrite string_length_app; simpl; lia).
  all: rewrite skip_n_app, prefix_n_app, dec_nat_print by done.
  all: assert (forall x, nonzero (strlen (dec_nat z +:+ String x "")) = true) as ->
    by (intros; apply negb_true_iff, Z.eqb_neq; unfold strlen; rewrite string_length_app; simpl; lia).
  all: cbn [first_char Ascii.eqb Bool.eqb].
  - change (if Ascii.eqb "b" "b" then get_bb (dec_nat z) else "") with (get_bb (dec_nat z)).
    unfold get_bb. rewrite atoll_dec_nat by lia. rewrite Z.mul_1_r. by apply non_negative_dec.
  - unfold get_kb. rewrite atoll_dec_nat, s64_id by (unfold in_s64; lia). apply non_negative_dec. lia.
  - unfold get_mb. rewrite atoll_dec_nat, s64_id by (unfold in_s64; lia). apply non_negative_dec. lia.
Qed.

(** ** One limit *)

(** An amount as it is typed: a number, with a unit for a read or write
    limit. *)
Record amount := mkAmount { a_number : Z; a_size : size_unit }.
Definition io_limit (name : string) : bool := String.eqb name "read" || String.eqb name "write".
Definition amount_text (name : string) (a : amount) : string :=
  dec_nat (a_number a) +:+ (if io_limit name then size_suffix (a_size a) else "").
Definition amount_value (name : string) (a : amount) : Z :=
  if io_limit name then a_number a * size_factor (a_size a) else a_number a.
Definition amount_ok (name : string) (a : amount) : Prop :=
  small (if io_limit name then a_size a else Bytes) (a_number a).

Record amounts := mkAmounts { a_current : amount; a_short : amount; a_mid : amount; a_long : amount }.
Definition amounts_list (q : amounts) : list amount := [a_current q; a_short q; a_mid q; a_long q].
Definition amounts_text (name : string) (q : amounts) : string :=
  four (amount_text name (a_current q)) (amount_text name (a_short q))
    (amount_text name (a_mid q)) (amount_text name (a_long q)).
Definition amounts_value (name : string) (q : amounts) : T_LONG :=
  mkTLong (amount_value name (a_current q)) (amount_value name (a_short q))
    (amount_value name (a_mid q)) (amount_value name (a_long q)).

(** The limits that have four values. *)
Definition quad_name (name : string) : Prop := name ∈ ["cpu"; "read"; "write"].

(** A change of the limit called [name], as the configuration reader makes
    it. *)
Definition with_limit (name : string) (t : T_LONG) (st : Stats_cfg) : Stats_cfg :=
  if String.eqb name "cpu" then mkStatsCfg t (l_write st) (l_read st) (l_slow st) (account_flag st) (mode st)
  else if String.eqb name "write" then
    mkStatsCfg (l_cpu st) t (l_read st) (l_slow st) (account_flag st) (mode st)
  else if String.eqb name "read" then
    mkStatsCfg (l_cpu st) (l_write st) t (l_slow st) (account_flag st) (mode st)
  else if String.eqb name "slow" then
    mkStatsCfg (l_cpu st) (l_write st) (l_read st) t (account_flag st) (mode st)
  else st.

Definition with_amounts (name : string) (q : option amounts) (st : Stats_cfg) : Stats_cfg :=
  match q with Some q => with_limit name (amounts_value name q) st | None => st end.

Lemma with_limit_same name v w st : with_limit name v (with_limit name w st) = with_limit name v st.
Proof. unfold with_limit. by repeat destruct (String.eqb _ _). Qed.

Lemma with_limit_comm a b v w st : a <> b ->
  with_limit a v (with_limit b w st) = with_limit b w (with_limit a v st).
Proof.
  intros Hne. unfold with_limit.
  repeat (match goal with |- context [String.eqb ?x ?y] => destruct (String.eqb_spec x y) end;
          subst; try done).
Qed.

(** What a [limit] element says. *)
Definition limit_value (n : xmlNode) : outcome (string * T_LONG) :=
  match getElemAttr n "current" with
  | None => Exit "Error: attribute 'current' is absent"
  | Some val =>
      match getElemAttr n "name" with
      | None => Crash
      | Some ptr =>
          if strcmp_eq ptr "slow" then v <-- parse_period val;; Ok (ptr, mkTLong v (-1) (-1) (-1))
          else Ok (ptr, mkTLong (to_ll (dtrunc (atof val))) (attr_or n "short" (-1))
                          (attr_or n "mid" (-1)) (attr_or n "long" (-1)))
      end
  end.

Lemma set_stats_limit_value n st :
  set_stats_limit n st = (v <-- limit_value n;; Ok (with_limit v.1 v.2 st)).
Proof.
  unfold set_stats_limit, limit_value. destruct (getElemAttr n "current"); [|done].
  destruct (getElemAttr n "name") as [p|]; [|done].
  assert (forall c s m l, Ok (with_limit p (mkTLong c s m l) st) = Ok (
    let set name l' := _set_val l' p name (c, s, m, l) in
    let '(x, ok) := set "cpu" (l_cpu st) in
    let st := mkStatsCfg x (l_write st) (l_read st) (l_slow st) (account_flag st) (mode st) in
    if ok then st else
    let '(w, ok) := set "write" (l_write st) in
    let st := mkStatsCfg (l_cpu st) w (l_read st) (l_slow st) (account_flag st) (mode st) in
    if ok then st else
    let '(r, ok) := set "read" (l_read st) in
    let st := mkStatsCfg (l_cpu st) (l_write st) r (l_slow st) (account_flag st) (mode st) in
    if ok then st else
    let '(s', ok) := set "slow" (l_slow st) in
    mkStatsCfg (l_cpu st) (l_write st) (l_read st) s' (account_flag st) (mode st))) as G.
  { intros. unfold with_limit, _set_val, strcmp_eq. destruct st.
    by repeat destruct (String.eqb _ _). }
  destruct (strcmp_eq p "slow"); [destruct (parse_period _) as [x| |]|]; simpl; [by rewrite G|done|done|].
  by rewrite G.
Qed.

Lemma amount_bounds name a : amount_ok name a ->
  0 <= a_number a /\ 0 <= amount_value name a < 2 ^ 53.
Proof.
  unfold amount_ok, amount_value, small. destruct (io_limit name); cbn [size_factor]; [|lia].
  destruct (a_size a); cbn [size_factor]; lia.
Qed.

Lemma amount_no_comma name a : amount_ok name a -> has_char "," (amount_text name a) = false.
Proof.
  intros [H0 _]%amount_bounds. unfold amount_text.
  rewrite has_char_app, has_char_digits by (done || by apply dec_nat_digits). simpl.
  destruct (io_limit name); [by destruct (a_size a)|done].
Qed.

(** The text stored for an amount. *)
Lemma amount_stored name a : amount_ok name a ->
  (if io_limit name then scale (amount_text name a) else amount_text name a)
  = dec_nat (amount_value name a).
Proof.
  unfold amount_ok, amount_text, amount_value. destruct (io_limit name).
  - apply scale_unit.
  - intros _. by rewrite append_nil_r.
Qed.

Section limits.
Context `{LibXml}.

(** [c] is [n] with other values of a limit. *)
Definition same_limit (n c : xmlNode) : Prop :=
  x_name c = x_name n /\ x_children c = x_children n /\ getElemAttr c "name" = getElemAttr n "name".

Definition complete (n : xmlNode) : Prop :=
  forall a, a ∈ ["current"; "short"; "mid"; "long"] -> is_Some (getElemAttr n a).

Lemma stored_values c name v0 v1 v2 v3 : quad_name name ->
  0 <= v0 < 2 ^ 53 -> 0 <= v1 < 2 ^ 53 -> 0 <= v2 < 2 ^ 53 -> 0 <= v3 < 2 ^ 53 ->
  getElemAttr c "name" = Some name -> getElemAttr c "current" = Some (dec_nat v0) ->
  getElemAttr c "short" = Some (dec_nat v1) -> getElemAttr c "mid" = Some (dec_nat v2) ->
  getElemAttr c "long" = Some (dec_nat v3) ->
  complete c /\ limit_value c = Ok (name, mkTLong v0 v1 v2 v3).
Proof.
  intros Hname ? ? ? ? E0 E1 E2 E3 E4. split.
  - intros x Hx. set_unfold in Hx. by destruct Hx as [->|[->|[->|[->|[]]]]]; eexists.
  - unfold limit_value, attr_or. rewrite E0, E1, E2, E3, E4. simpl. rewrite !atof_dec_nat by done.
    unfold quad_name in Hname. set_unfold in Hname. by destruct Hname as [->|[->|[->|[]]]].
Qed.

Lemma setLimitAttr_amounts (n : xmlNode) (name : string) (q : amounts) :
  quad_name name -> getElemAttr n "name" = Some name -> Forall (amount_ok name) (amounts_list q) ->
  exists c, setLimitAttr n (amounts_text name q) = Some (c, [])
    /\ same_limit n c /\ complete c /\ limit_value c = Ok (name, amounts_value name q).
Proof.
  intros Hname En Hq. destruct q as [a b d e]. unfold amounts_list in Hq. simpl in Hq.
  repeat (apply list.Forall_cons in Hq as [? Hq]). unfold setLimitAttr, amounts_text. simpl.
  rewrite En, split_four by (repeat (apply list.Forall_cons; split; [by apply amount_no_comma|]); done).
  assert ((if strcmp_eq name "read" || strcmp_eq name "write"
           then scale <$> [amount_text name a; amount_text name b; amount_text name d; amount_text name e]
           else [amount_text name a; amount_text name b; amount_text name d; amount_text name e])
          = dec_nat <$> [amount_value name a; amount_value name b; amount_value name d; amount_value name e]) as E.
  { cbn [fmap list_fmap]. rewrite <- !amount_stored by done. unfold io_limit, strcmp_eq.
    by destruct (_ || _). }
  simpl. simpl in E. rewrite E. unfold set_if_print.
  rewrite !dec_nat_print by (apply amount_bounds; done).
  eexists. split; [done|]. split.
  { unfold same_limit. rewrite !xmlSetProp_name, !xmlSetProp_children, !getElemAttr_set_other by done.
    done. }
  apply stored_values; [done|by apply amount_bounds..| | | | |];
    repeat (rewrite getElemAttr_set_other by done); by rewrite ?getElemAttr_set.
Qed.

(** ** The limits of an element *)

Definition hit (name : string) (c : xmlNode) : bool :=
  String.eqb (x_name c) "limit"
  && match getElemAttr c "name" with Some v => String.eqb v name | None => false end.

(** A child after the loop over the limits. *)
Definition edited (name s : string) (c : xmlNode) : xmlNode :=
  if hit name c then match setLimitAttr c s with Some (c', _) => c' | None => c end else c.

Definition hits (name : string) (l : list xmlNode) : Z :=
  Z.of_nat (length (List.filter (hit name) l)).

Lemma hits_cons name c l : hits name (c :: l) = (if hit name c then 1 else 0) + hits name l.
Proof. unfold hits. cbn [List.filter]. destruct (hit name c); [|done]. cbn [length]. lia. Qed.

Definition limits_named (l : list xmlNode) : Prop :=
  Forall (fun c => x_name c = "limit" -> is_Some (getElemAttr c "name")) l.

#[local] Arguments getNextChild : simpl never.

Lemma limit_loop_step fuel nm pr pre c suf name s cnt out :
  limit_loop (S fuel) (XNode nm pr (pre ++ c :: suf)) (Some [length pre]) name s cnt out
  = (nameAttr ← getElemAttr c "name";
     '(c', cnt, out) ←
       (if strcmp_eq nameAttr name
        then '(n', o) ← setLimitAttr c s; Some (n', cnt + 1, (out ++ o)%list)
        else Some (c, cnt, out));
     limit_loop fuel (XNode nm pr ((pre ++ [c']) ++ suf))
       (j ← find_sibling (length (pre ++ [c'])) suf "limit"; Some [j]) name s cnt out).
Proof.
  assert (forall c', getNextChild (XNode nm pr ((pre ++ [c']) ++ suf)) (Some []) "limit" (Some [length pre])
          = (j ← find_sibling (length (pre ++ [c'])) suf "limit"; Some [j])) as G.
  { intros c'.
    pose proof (getNextChild_next _ [] (XNode nm pr ((pre ++ [c']) ++ suf)) "limit" (length pre) eq_refl) as E.
    etrans; [exact E|]. cbn [x_children].
    replace (S (length pre)) with (length (pre ++ [c'])) by (rewrite length_app; simpl; lia).
    by rewrite drop_app_length. }
  cbn [limit_loop]. unfold node_at at 1. cbn [x_children]. rewrite list_lookup_middle by done. simpl.
  destruct (getElemAttr c "name") as [v|]; [|done]. simpl. destruct (strcmp_eq v name).
  - destruct (setLimitAttr c s) as [[c' o]|]; [|done]. simpl. rewrite list_lookup_middle by done. simpl.
    rewrite insert_app_r_alt, Nat.sub_diag by done. simpl.
    specialize (G c'). rewrite <- app_assoc in *. by f_equal.
  - simpl. specialize (G c). rewrite <- app_assoc in *. by f_equal.
Qed.

Lemma limit_loop_spec fuel nm pr pre suf name q cnt :
  quad_name name -> Forall (amount_ok name) (amounts_list q) -> limits_named suf ->
  (length suf < fuel)%nat ->
  limit_loop fuel (XNode nm pr (pre ++ suf)) (j ← find_sibling (length pre) suf "limit"; Some [j])
    name (amounts_text name q) cnt []
  = Some (XNode nm pr (pre ++ (edited name (amounts_text name q) <$> suf)), cnt + hits name suf, []).
Proof.
  intros Hname Hq. revert fuel pre cnt. induction suf as [|c suf IH]; intros fuel pre cnt Hl Hf.
  { destruct fuel; [simpl in Hf; lia|]. simpl. by rewrite Z.add_0_r. }
  apply list.Forall_cons in Hl as [Hc Hl]. simpl in Hf.
  assert (forall c', (pre ++ c' :: suf)%list = ((pre ++ [c']) ++ suf)%list) as Epre
    by (intros; by rewrite <- app_assoc).
  rewrite hits_cons. cbn [find_sibling fmap list_fmap]. unfold edited at 1, hit.
  destruct (String.eqb_spec (x_name c) "limit") as [El|]; simpl.
  - destruct fuel as [|fuel]; [lia|]. destruct (Hc El) as [v Ev]. rewrite limit_loop_step, Ev. simpl.
    unfold strcmp_eq. destruct (String.eqb_spec v name) as [->|]; simpl.
    + destruct (setLimitAttr_amounts c name q Hname Ev Hq) as (c' & -> & _). simpl.
      rewrite IH by (done || lia). rewrite <- app_assoc. do 3 f_equal. lia.
    + rewrite IH by (done || lia). by rewrite <- app_assoc.
  - replace (S (length pre)) with (length (pre ++ [c])) by (rewrite length_app; simpl; lia).
    rewrite Epre, IH by (done || lia). by rewrite <- app_assoc.
Qed.

(** The limits have names and are not nested, and hold no section. *)
Definition plain (child : xmlNode) : Prop :=
  limits_named (x_children child)
  /\ Forall (fun c => find_name "limit" c = None /\ no_sections c) (x_children child).

Lemma find_name_same t a b : x_children a = x_children b -> find_name t a = find_name t b.
Proof. destruct a, b. simpl. by intros ->. Qed.

Lemma hit_spec name c :
  hit name c = true <-> x_name c = "limit" /\ getElemAttr c "name" = Some name.
Proof.
  unfold hit. rewrite andb_true_iff, String.eqb_eq.
  destruct (getElemAttr c "name") as [v|]; [rewrite String.eqb_eq|]; naive_solver.
Qed.

Lemma hits_none name l : hits name l = 0 <-> Forall (fun c => hit name c = false) l.
Proof.
  induction l as [|c l IH]; [done|]. rewrite hits_cons, list.Forall_cons, <- IH. unfold hits.
  destruct (hit name c); split; intros; [lia| |split; [done|lia]|lia]. naive_solver.
Qed.

Lemma edited_none name s l : hits name l = 0 -> edited name s <$> l = l.
Proof.
  intros Hh%hits_none. induction Hh as [|c l Hc _ IH]; [done|]. rewrite fmap_cons, IH.
  unfold edited. by rewrite Hc.
Qed.

Lemma edited_hit name q c : quad_name name -> Forall (amount_ok name) (amounts_list q) ->
  hit name c = true -> let c' := edited name (amounts_text name q) c in
  same_limit c c' /\ complete c' /\ limit_value c' = Ok (name, amounts_value name q).
Proof.
  intros Hname Hq Hc. unfold edited. rewrite Hc. apply hit_spec in Hc as [_ En].
  by destruct (setLimitAttr_amounts c name q Hname En Hq) as (c' & -> & ?).
Qed.

Lemma edited_same name q c : quad_name name -> Forall (amount_ok name) (amounts_list q) ->
  same_limit c (edited name (amounts_text name q) c).
Proof.
  intros Hname Hq. destruct (hit name c) eqn:E; [by apply edited_hit|].
  unfold edited. by rewrite E.
Qed.

Lemma same_limit_hit name a b : same_limit a b -> hit name b = hit name a.
Proof. intros (En & _ & Ea). unfold hit. by rewrite En, Ea. Qed.

Lemma plain_fmap nm pr l f : (forall c, same_limit c (f c)) ->
  plain (XNode nm pr l) -> plain (XNode nm pr (f <$> l)).
Proof.
  intros Hf [Hl Hn]. unfold plain, limits_named in *. cbn [x_children] in *.
  rewrite !list.Forall_fmap. split; [eapply list.Forall_impl; [exact Hl|]|eapply list.Forall_impl; [exact Hn|]];
    intros c Hc; destruct (Hf c) as (En & Ec & Ea); simpl.
  - by rewrite En, Ea.
  - destruct Hc as [Hc Hs]. split; [by rewrite (find_name_same _ _ c)|].
    intros t Ht. rewrite En, (find_name_same _ _ c) by done. by apply Hs.
Qed.

Lemma no_sections_limit c : x_name c = "limit" -> x_children c = [] -> no_sections c.
Proof.
  intros Hn Hc t Ht. rewrite Hn. split; [|by destruct c; cbn in Hc; subst].
  intros <-. unfold section_names in Ht. set_solver.
Qed.

(** A user element of this kind holds no section. *)
Lemma plain_no_sections c : x_name c = "user" -> plain c -> no_sections c.
Proof.
  intros Hn [_ Hf] t Ht. rewrite Hn. split; [intros <-; unfold section_names in Ht; set_solver|].
  rewrite find_name_in. generalize 0%nat. revert Hf. induction (x_children c) as [|d l IH]; intros Hf i; [done|].
  apply list.Forall_cons in Hf as [[_ Hd] Hf]. destruct (Hd t Ht) as [En Ed]. cbn [find_in].
  rewrite (proj2 (String.eqb_neq _ _) En), Ed. by apply IH.
Qed.

Lemma count_missing_complete s c : x_name c = "limit" -> (hit s c = true -> complete c) ->
  count_missing s c 0 = Ok 0.
Proof.
  unfold hit, count_missing, strcmp_eq. intros -> Hc.
  destruct (getElemAttr c "name") as [v|]; [|done]. rewrite String.eqb_refl in Hc.
  destruct (String.eqb v s); [|done]. specialize (Hc eq_refl). unfold missing.
  destruct (Hc "current" ltac:(set_solver)) as [? ->], (Hc "short" ltac:(set_solver)) as [? ->],
    (Hc "mid" ltac:(set_solver)) as [? ->], (Hc "long" ltac:(set_solver)) as [? ->]. by destruct (String.eqb "slow" s).
Qed.

Lemma checkCorrectAttrs_complete child s :
  Forall (fun c => hit s c = true -> complete c) (x_children child) ->
  checkCorrectAttrs child s = 0.
Proof.
  intros Hc. unfold checkCorrectAttrs. rewrite (for_children_fold child [] child) by done.
  assert (ofold (count_missing s) (named "limit" (x_children child)) 0 = Ok 0) as ->.
  { induction Hc as [|c l Hc _ IH]; [done|]. unfold named. cbn [List.filter].
    destruct (String.eqb_spec (x_name c) "limit"); [|done]. cbn [ofold].
    by rewrite count_missing_complete. }
  by destruct (strcmp_eq "slow" s).
Qed.

(** What the configuration reader makes of a list of children. *)
Definition limits_cfg (l : list xmlNode) (st : Stats_cfg) : outcome Stats_cfg :=
  ofold set_stats_limit (named "limit" l) st.

(** [l'] says the same as [l], but for the limit called [name]. *)
Definition overrides (name : string) (t : T_LONG) (l l' : list xmlNode) : Prop :=
  forall st r, limits_cfg l st = Ok r -> limits_cfg l' st = Ok (with_limit name t r).

Lemma limits_cfg_cons c l st :
  limits_cfg (c :: l) st
  = if String.eqb (x_name c) "limit" then
      v <-- limit_value c;; limits_cfg l (with_limit v.1 v.2 st)
    else limits_cfg l st.
Proof.
  unfold limits_cfg, named. cbn [List.filter]. destruct (String.eqb _ _); [|done].
  cbn [ofold]. rewrite set_stats_limit_value. by destruct (limit_value c).
Qed.

Lemma limit_value_name c v : limit_value c = Ok v -> getElemAttr c "name" = Some v.1.
Proof.
  unfold limit_value. destruct (getElemAttr c "current"); [|done].
  destruct (getElemAttr c "name") as [p|]; [|done].
  destruct (strcmp_eq p "slow"); [destruct (parse_period _); [|done|done]|]; simpl;
    by intros [= <-].
Qed.

Lemma overrides_app name t l c : x_name c = "limit" -> limit_value c = Ok (name, t) ->
  overrides name t l (l ++ [c]).
Proof.
  intros Hc Hv. induction l as [|d l IH]; intros st r.
  - simpl. rewrite limits_cfg_cons, Hc, Hv. simpl. by intros [= ->].
  - rewrite <- app_comm_cons, !limits_cfg_cons. destruct (String.eqb (x_name d) "limit"); [|apply IH].
    destruct (limit_value d); [apply IH|done|done].
Qed.

Lemma edited_cfg name q l : quad_name name -> Forall (amount_ok name) (amounts_list q) ->
  let t := amounts_value name q in
  forall st st' r, limits_cfg l st = Ok r -> with_limit name t st' = with_limit name t st ->
    hits name l <> 0 \/ st' = with_limit name t st' ->
    limits_cfg (edited name (amounts_text name q) <$> l) st' = Ok (with_limit name t r).
Proof.
  intros Hname Hq t. induction l as [|c l IH]; intros st st' r E Hs Hd.
  - injection E as <-. destruct Hd as [[]|Hd]; [done|]. simpl. by rewrite <- Hs, <- Hd.
  - rewrite fmap_cons, limits_cfg_cons in *. rewrite hits_cons in Hd.
    destruct (edited_same name q c Hname Hq) as (En & _). rewrite En.
    destruct (hit name c) eqn:Eh.
    + destruct (edited_hit name q c Hname Hq Eh) as (_ & _ & ->).
      apply hit_spec in Eh as [El Ea]. rewrite El in *. simpl in *. destruct (limit_value c) as [v| |] eqn:Ev; [|done|done].
      apply limit_value_name in Ev. rewrite Ea in Ev. injection Ev as Ev. simpl in E. rewrite <- Ev in E.
      eapply IH; [exact E| |right]; by rewrite !with_limit_same.
    + unfold edited. rewrite Eh. destruct (String.eqb_spec (x_name c) "limit") as [El|]; [|by eapply IH].
      destruct (limit_value c) as [v| |] eqn:Ev; [|done|done]. simpl in *.
      assert (name <> v.1) as Hne.
      { intros ->. apply limit_value_name in Ev. assert (hit v.1 c = true) by by apply hit_spec. congruence. }
      eapply IH; [exact E| |]; rewrite !(with_limit_comm name) by done; [by rewrite Hs|].
      destruct Hd as [Hd|Hd]; [by left|right; by rewrite <- Hd].
Qed.

Lemma find_name_attr_none name (l : list xmlNode) nm pr :
  Forall (fun c => hit name c = false) l ->
  Forall (fun c => find_name "limit" c = None /\ no_sections c) l -> find_name_attr "limit" "name" name (XNode nm pr l) = None.
Proof.
  intros Hh Hf. unfold find_name_attr. cbn [x_children]. generalize 0%nat.
  induction l as [|c l IH]; intros i; [done|].
  apply list.Forall_cons in Hh as [Hc Hh]. apply list.Forall_cons in Hf as [[Ef _] Hf].
  unfold hit in Hc. unfold strcmp_eq. rewrite Hc, Ef. by apply IH.
Qed.

Lemma addLimit_spec nm pr l name q : quad_name name -> Forall (amount_ok name) (amounts_list q) ->
  plain (XNode nm pr l) -> hits name l = 0 ->
  exists c, addLimit (XNode nm pr l) name (amounts_text name q) = Some (XNode nm pr (l ++ [c]), [])
    /\ x_name c = "limit" /\ getElemAttr c "name" = Some name /\ x_children c = []
    /\ complete c /\ limit_value c = Ok (name, amounts_value name q).
Proof.
  intros Hname Hq [_ Hf] Hh. apply hits_none in Hh. 
  assert (FindElementWithNameAndAttr (XNode nm pr l) (Some ([] : path)) "limit" "name" name
          = None) as E.
  { unfold FindElementWithNameAndAttr.
    change (node_at _ _) with (Some (XNode nm pr l)). cbn [mbind option_bind].
    by rewrite find_name_attr_none. }
  unfold addLimit, setNodeWithAttr. cbv zeta.
  replace (FindElementWithNameAndAttr _ _ _ _ _) with (@None path) by exact (eq_sym E). simpl.
  destruct (xmlNewChild_children "limit" None (XNode nm pr l)) as (c & Ec & Hc & Hp & Hn).
  rewrite Ec, xmlNewChild_name, xmlNewChild_props. simpl. rewrite list_lookup_middle by done. simpl.
  rewrite insert_app_r_alt, Nat.sub_diag by done. simpl. rewrite list_lookup_middle by done. simpl.
  destruct (setLimitAttr_amounts (xmlSetProp "name" name c) name q Hname (getElemAttr_set _ _ _) Hq)
    as (c' & -> & (En & Ech & Ea) & Hco & Hv). simpl.
  rewrite insert_app_r_alt, Nat.sub_diag by done. simpl.
  exists c'. split; [done|]. rewrite En, Ech, Ea, xmlSetProp_name, xmlSetProp_children, getElemAttr_set.
  split; [done|]. split; [done|]. split; [by apply Hn|done].
Qed.

Lemma plain_app nm pr l c : plain (XNode nm pr l) -> is_Some (getElemAttr c "name") ->
  x_name c = "limit" -> x_children c = [] -> plain (XNode nm pr (l ++ [c])).
Proof.
  intros [Hl Hf] Hn Hnm Hc. pose proof (no_sections_limit c Hnm Hc). unfold plain, limits_named in *. cbn [x_children] in *.
  rewrite !list.Forall_app, !list.Forall_singleton. split; (split; [done|]); [done|].
  split; [|done]. destruct c as [? ? ch]. simpl in Hc. by subst.
Qed.

(** The block for a limit of an element that exists. *)
Lemma set_limit_spec nm pr l name q : quad_name name -> Forall (amount_ok name) (amounts_list q) ->
  plain (XNode nm pr l) ->
  exists l', set_limit name (Some (amounts_text name q)) (XNode nm pr l) = Some (XNode nm pr l', [])
    /\ plain (XNode nm pr l') /\ overrides name (amounts_value name q) l l'.
Proof.
  intros Hname Hq Hp. unfold set_limit.
  pose proof (limit_loop_spec (S (length l)) nm pr [] l name q 0 Hname Hq (proj1 Hp) ltac:(lia)) as E.
  replace (limit_loop _ _ _ _ _ _ _) with
    (Some (XNode nm pr (edited name (amounts_text name q) <$> l), hits name l, @nil string))
    by exact (eq_sym E). simpl.
  destruct (Z.eqb_spec (hits name l) 0) as [Eh|Eh].
  - rewrite edited_none by done.
    destruct (addLimit_spec nm pr l name q Hname Hq Hp Eh) as (c & -> & Hc & Hn & Hch & Hco & Hv). simpl.
    exists (l ++ [c])%list. rewrite checkCorrectAttrs_complete.
    + split; [done|]. split; [by apply plain_app|by apply overrides_app].
    + cbn [x_children]. rewrite list.Forall_app, list.Forall_singleton. split; [|done].
      apply hits_none in Eh. eapply list.Forall_impl; [exact Eh|]. simpl. congruence.
  - exists (edited name (amounts_text name q) <$> l). simpl. rewrite checkCorrectAttrs_complete.
    + split; [done|]. split; [by apply plain_fmap; [intros; apply edited_same|]|].
      intros st r Hr. by eapply edited_cfg; [..|left].
    + cbn [x_children]. rewrite list.Forall_fmap. apply list.Forall_true. intros c. simpl.
      rewrite (same_limit_hit name c) by by apply edited_same. by apply edited_hit.
Qed.

Definition amounts_opt_ok (name : string) (q : option amounts) : Prop :=
  forall a, q = Some a -> Forall (amount_ok name) (amounts_list a).

(** [l'] says the same as [l], but for what is given for a limit. *)
Definition updates (f : Stats_cfg -> Stats_cfg) (l l' : list xmlNode) : Prop :=
  forall st r, limits_cfg l st = Ok r -> limits_cfg l' st = Ok (f r).

Lemma updates_trans f g a b c : updates f a b -> updates g b c -> updates (fun st => g (f st)) a c.
Proof. intros F G st r E. by apply G, F. Qed.

Lemma set_limit_opt nm pr l name q : quad_name name -> amounts_opt_ok name q ->
  plain (XNode nm pr l) ->
  exists l', set_limit name (amounts_text name <$> q) (XNode nm pr l) = Some (XNode nm pr l', [])
    /\ plain (XNode nm pr l') /\ updates (with_amounts name q) l l'.
Proof.
  intros Hname Hq Hp. destruct q as [q|]; [by apply set_limit_spec; [|apply Hq|]|].
  exists l. split; [done|]. split; [done|]. by intros st r.
Qed.

(** What [--cpu], [--read] and [--write] change. *)
Definition with_options (cpu read write : option amounts) (st : Stats_cfg) : Stats_cfg :=
  with_amounts "write" write (with_amounts "read" read (with_amounts "cpu" cpu st)).
Definition options_ok (cpu read write : option amounts) : Prop :=
  amounts_opt_ok "cpu" cpu /\ amounts_opt_ok "read" read /\ amounts_opt_ok "write" write.

Lemma set_limits_spec nm pr l cpu read write : options_ok cpu read write -> plain (XNode nm pr l) ->
  exists l', set_limits (amounts_text "cpu" <$> cpu) (amounts_text "read" <$> read)
               (amounts_text "write" <$> write) None (XNode nm pr l) = Some (XNode nm pr l', [])
    /\ plain (XNode nm pr l') /\ updates (with_options cpu read write) l l'.
Proof.
  intros (Hc & Hr & Hw) Hp. unfold set_limits.
  destruct (set_limit_opt nm pr l "cpu" cpu) as (l1 & -> & P1 & U1); [set_solver|done..|]. simpl.
  destruct (set_limit_opt nm pr l1 "read" read) as (l2 & -> & P2 & U2); [set_solver|done..|]. simpl.
  destruct (set_limit_opt nm pr l2 "write" write) as (l3 & -> & P3 & U3); [set_solver|done..|]. simpl.
  exists l3. split; [done|]. split; [done|]. apply (updates_trans _ _ _ _ _ (updates_trans _ _ _ _ _ U1 U2) U3).
Qed.

(** A limit added to an element whose limits are complete. *)
Lemma add_limit_opt nm pr l name q : quad_name name -> amounts_opt_ok name q ->
  plain (XNode nm pr l) -> Forall complete l -> hits name l = 0 ->
  exists l', add_limit name (amounts_text name <$> q) (XNode nm pr l) = Some (XNode nm pr l', [])
    /\ plain (XNode nm pr l') /\ Forall complete l'
    /\ (forall other, other <> name -> hits other l = 0 -> hits other l' = 0)
    /\ updates (with_amounts name q) l l'.
Proof.
  intros Hname Hq Hp Hco Hh. destruct q as [q|]; simpl.
  - destruct (addLimit_spec nm pr l name q Hname (Hq _ eq_refl) Hp Hh) as (c & -> & Hc & Hn & Hch & Hcc & Hv).
    exists (l ++ [c])%list. split; [done|]. split; [by apply plain_app|].
    split; [by rewrite list.Forall_app, list.Forall_singleton|]. split; [|by apply overrides_app].
    intros o Ho. rewrite !hits_none, list.Forall_app, list.Forall_singleton. intros Hl. split; [done|].
    apply not_true_is_false. intros [_ E]%hit_spec. congruence.
  - exists l. split; [done|]. split; [done|]. split; [done|]. split; [done|]. by intros st r.
Qed.

Lemma add_limits_spec nm pr cpu read write : options_ok cpu read write ->
  exists l', add_limits (amounts_text "cpu" <$> cpu) (amounts_text "read" <$> read)
               (amounts_text "write" <$> write) None (XNode nm pr []) = Some (XNode nm pr l', [])
    /\ drop_all_bad (XNode nm pr l') = Some (XNode nm pr l') /\ plain (XNode nm pr l')
    /\ updates (with_options cpu read write) [] l'.
Proof.
  intros (Hc & Hr & Hw). unfold add_limits.
  destruct (add_limit_opt nm pr [] "cpu" cpu) as (l1 & -> & P1 & C1 & O1 & U1);
    [set_solver|done|by repeat constructor|constructor|done|]. simpl.
  destruct (add_limit_opt nm pr l1 "read" read) as (l2 & -> & P2 & C2 & O2 & U2);
    [set_solver|done|done|done|by apply O1|]. simpl.
  destruct (add_limit_opt nm pr l2 "write" write) as (l3 & -> & P3 & C3 & _ & U3);
    [set_solver|done|done|done|by apply O2, O1|]. simpl.
  exists l3. split; [done|]. split.
  - assert (forall s, drop_bad s (XNode nm pr l3) = Some (XNode nm pr l3)) as D.
    { intros s. unfold drop_bad. rewrite checkCorrectAttrs_complete; [done|].
      cbn [x_children]. eapply list.Forall_impl; [exact C3|]. done. }
    unfold drop_all_bad. by rewrite !D; simpl; rewrite !D; simpl; rewrite !D; simpl; rewrite !D.
  - split; [done|]. apply (updates_trans _ _ _ _ _ (updates_trans _ _ _ _ _ U1 U2) U3).
Qed.

Lemma user_limits n flag m dl :
  for_children n [] "limit" set_stats_limit (set_mode dl flag m)
  = limits_cfg (x_children n) (set_mode dl flag m).
Proof. by rewrite (for_children_fold _ [] n). Qed.

Lemma user_cfg_updates nm pr l l' f dl u r : updates f l l' ->
  user_cfg dl (XNode nm pr l) = Ok (u, r) -> user_cfg dl (XNode nm pr l') = Ok (u, f r).
Proof.
  intros Hf. unfold user_cfg.
  change (getElemAttr (XNode nm pr l')) with (getElemAttr (XNode nm pr l)).
  set (g := getElemAttr (XNode nm pr l)).
  destruct (match g "mode" with Some s => _ | None => _ end) as [m| |];
    [|by destruct (g "name"), (g "mysql_name")..].
  cbn [obind]. rewrite !user_limits. cbn [x_children].
  destruct (g "name"), (g "mysql_name"); try done;
    (destruct (limits_cfg l _) as [x| |] eqn:E; [|done|done]); apply Hf in E; rewrite E; simpl;
    by intros [= -> ->].
Qed.

Lemma search_tag_child i l tag nm p : search_tag i l tag nm = Some p ->
  exists j c, p = [j] /\ (i <= j)%nat /\ l !! (j - i)%nat = Some c /\ x_name c = tag.
Proof.
  revert i. induction l as [|c l IH]; intros i; [done|]. cbn [search_tag].
  assert (search_tag (S i) l tag nm = Some p -> exists j c0, p = [j] /\ (i <= j)%nat
          /\ (c :: l) !! (j - i)%nat = Some c0 /\ x_name c0 = tag) as G.
  { intros E. destruct (IH _ E) as (j & d & -> & Hj & Hd & Hn). exists j, d. split; [done|].
    split; [lia|]. by replace (j - i)%nat with (S (j - S i)) by lia. }
  assert (x_name c = tag -> Some [i] = Some p -> exists j c0, p = [j] /\ (i <= j)%nat
          /\ (c :: l) !! (j - i)%nat = Some c0 /\ x_name c0 = tag) as G0.
  { intros Hc [= <-]. exists i, c. by rewrite Nat.sub_diag. }
  destruct (String.eqb_spec (x_name c) tag); [|done]. destruct nm as [nm|]; [|by apply G0].
  repeat case_match; auto.
Qed.

(** Replacing the child that a search found. *)
Definition with_child (root : xmlNode) (i : nat) (c : xmlNode) : xmlNode :=
  XNode (x_name root) (x_properties root) (<[i := c]> (x_children root)).

Lemma user_limits_mode l dl flag m m' r : limits_cfg l (set_mode dl flag m) = Ok r ->
  limits_cfg l (set_mode dl flag m') = Ok (set_mode r flag m').
Proof.
  assert (forall st r, limits_cfg l st = Ok r ->
            limits_cfg l (set_mode st flag m') = Ok (set_mode r flag m')) as G.
  { induction l as [|c l IH]; intros st x; [by intros [= ->]|]. rewrite !limits_cfg_cons.
    destruct (String.eqb _ _); [|apply IH]. destruct (limit_value c) as [v| |]; [|done|done]. simpl.
    intros E. apply IH in E. rewrite <- E. f_equal. unfold with_limit, set_mode.
    by repeat destruct (String.eqb _ _). }
  intros E. by apply G in E.
Qed.

(** A new mode for a [user] element. *)
Lemma user_cfg_mode c s m dl u lim : mode_type_str_to_enum (Some s) = Ok m ->
  user_cfg dl c = Ok (u, lim) ->
  user_cfg dl (xmlSetProp "mode" s c) = Ok (u, set_mode lim (account_flag lim) m).
Proof.
  intros Em. unfold user_cfg. rewrite getElemAttr_set, !getElemAttr_set_other by done.
  rewrite Em. cbn [obind]. rewrite !user_limits, xmlSetProp_children.
  assert (forall flag m0 r, limits_cfg (x_children c) (set_mode dl flag m0) = Ok r ->
            account_flag r = flag) as Hflag.
  { intros flag m0 r E. pose proof (user_limits_mode _ _ _ _ m0 _ E) as E'. rewrite E in E'.
    injection E' as E'. by rewrite E'. }
  destruct (match getElemAttr c "mode" with Some s => _ | None => _ end) as [m0| |];
    [|by destruct (getElemAttr c "name"), (getElemAttr c "mysql_name")..].
  cbn [obind]. rewrite !user_limits.
  destruct (getElemAttr c "name"), (getElemAttr c "mysql_name"); try done;
    (destruct (limits_cfg (x_children c) _) as [x| |] eqn:E; [|done|done]); intros [= -> ->];
    rewrite (Hflag _ _ _ E); apply (user_limits_mode _ _ _ _ m) in E; by rewrite E.
Qed.

Lemma set_user_mode_spec sock root user i c m : SearchTagByName root "user" (Some user) = Some [i] ->
  node_at root [i] = Some c ->
  set_user_mode sock root user m = Some (saved sock (with_child root i (xmlSetProp "mode" m c)) []).
Proof.
  intros E Hc. unfold set_user_mode. rewrite E. simpl in *.
  destruct (x_children root !! i) as [d|]; [|done]. by injection Hc as ->.
Qed.

(** A [user] element as [setUser] creates it. *)
Lemma new_user_limits c para : x_name c = "user" -> x_properties c = [] -> x_children c = [] ->
  exists pr, xmlSetProp "mode" "restrict" (xmlSetProp "name" para c) = XNode "user" pr []
    /\ forall l dl, user_cfg dl (XNode "user" pr l)
                   = (lim <-- limits_cfg l (set_mode dl true RESTRICT_MODE);; Ok (para, lim)).
Proof.
  intros Hn Hp Hc. set (n := xmlSetProp "mode" "restrict" (xmlSetProp "name" para c)).
  assert (n = XNode "user" (x_properties n) []) as En.
  { transitivity (XNode (x_name n) (x_properties n) (x_children n)); [by destruct n|].
    unfold n. by rewrite !xmlSetProp_name, !xmlSetProp_children, Hn, Hc. }
  exists (x_properties n). split; [done|]. intros l dl. unfold user_cfg.
  change (getElemAttr (XNode "user" (x_properties n) l)) with (getElemAttr n).
  assert (getElemAttr n "mysql_name" = None) as ->.
  { unfold n. rewrite !getElemAttr_set_other by done. unfold getElemAttr. by rewrite Hp. }
  assert (getElemAttr n "name" = Some para) as ->.
  { unfold n. by rewrite getElemAttr_set_other, getElemAttr_set by done. }
  unfold n at 1. rewrite getElemAttr_set.
  change (mode_type_str_to_enum (Some "restrict")) with (Ok RESTRICT_MODE). cbn [obind].
  by rewrite user_limits.
Qed.

End limits.

(** * Properties *)

(** dbctl set on a user that has an element, with non nested limits, gives its limits
    exactly the amounts typed for cpu, read and write, in bytes: whatever the element said
    before, the configuration reader then finds the old limits with those overridden. No other
    element of the document changes, and the daemon is told to read it again. *)
Lemma setUser_changes_limits `{LibXml} (sock : bool) (root c : xmlNode) (para : string) (i : nat)
    (cpu read write : option amounts) :
  SearchTagByName root "user" (Some para) = Some [i] -> node_at root [i] = Some c ->
  plain c -> options_ok cpu read write ->
  exists c',
    setUser sock (Some root) para (amounts_text "cpu" <$> cpu) (amounts_text "read" <$> read)
      (amounts_text "write" <$> write) None
    = Some (mkEdit 1 (Some (with_child root i c')) (reread_cfg_cmd sock) [])
    /\ x_name c' = x_name c /\ plain c'
    /\ forall dl u lim, user_cfg dl c = Ok (u, lim) ->
         user_cfg dl c' = Ok (u, with_options cpu read write lim).
Proof.
  intros Es Hc Hp Ho. destruct c as [nm pr l].
  destruct (set_limits_spec nm pr l cpu read write Ho Hp) as (l' & El & Hp' & Hu).
  exists (XNode nm pr l'). split; [|split; [done|split; [done|intros; by eapply user_cfg_updates]]].
  unfold setUser. rewrite Es. simpl in *.
  destruct (x_children root !! i) as [d|]; [|done]. simpl in Hc. injection Hc as ->. simpl.
  by rewrite El.
Qed.

(** The options of [dbctl set bob --cpu=10,20,30,40 --read=5m,6k,7b,8], and
    what they mean. *)
Definition example_cpu : amounts :=
  mkAmounts (mkAmount 10 Plain) (mkAmount 20 Plain) (mkAmount 30 Plain) (mkAmount 40 Plain).
Definition example_read : amounts :=
  mkAmounts (mkAmount 5 Megabytes) (mkAmount 6 Kilobytes) (mkAmount 7 Bytes) (mkAmount 8 Plain).

Lemma example_options_ok : options_ok (Some example_cpu) (Some example_read) None.
Proof.
  repeat split; intros a; intros [= <-]; repeat (apply list.Forall_cons; split); try done;
    unfold amount_ok, small; simpl; lia.
Qed.

(** dbctl set on a user without an element appends one, with the limits that
    [add_limits] gives a bare element. *)
Lemma setUser_appends `{LibXml} (sock : bool) (root : xmlNode) (para : string)
    (cpu read write slow : option string) :
  SearchTagByName root "user" (Some para) = None ->
  FindElementWithNameAndAttr root None "user" "name" para = None ->
  exists pr,
    (forall l dl, user_cfg dl (XNode "user" pr l)
                  = (lim <-- limits_cfg l (set_mode dl true RESTRICT_MODE);; Ok (para, lim)))
    /\ forall l out, add_limits cpu read write slow (XNode "user" pr []) = Some (XNode "user" pr l, out) ->
         drop_all_bad (XNode "user" pr l) = Some (XNode "user" pr l) ->
         exists root', setUser sock (Some root) para cpu read write slow
                       = Some (mkEdit 1 (Some root') (reread_cfg_cmd sock) out)
           /\ x_children root' = (x_children root ++ [XNode "user" pr l])%list.
Proof.
  intros Es Ef. destruct (xmlNewChild_children "user" None root) as (c & Ec & Hc & Hp & Hn).
  destruct (new_user_limits c para Hc Hp (Hn eq_refl)) as (pr & En & Hnew).
  exists pr. split; [done|]. intros l out El Hd. unfold setUser. rewrite Es. unfold setNodeWithAttr. cbv zeta.
  replace (FindElementWithNameAndAttr _ _ _ _ _) with (@None path) by exact (eq_sym Ef). simpl.
  rewrite Ec. rewrite list_lookup_middle by done. simpl.
  rewrite insert_app_r_alt, Nat.sub_diag by done. simpl.
  rewrite list_lookup_middle by done. simpl. rewrite insert_app_r_alt, Nat.sub_diag by done. simpl.
  rewrite list_lookup_middle by done. simpl. rewrite En, El. simpl. rewrite Hd. simpl.
  rewrite insert_app_r_alt, Nat.sub_diag by done. simpl. by eexists.
Qed.

(** The configuration reader then finds the user restricted, with the default
    limits overridden by the amounts typed for cpu, read and write, in bytes. *)
Lemma setUser_adds_user `{LibXml} (sock : bool) (root : xmlNode) (para : string)
    (cpu read write : option amounts) :
  SearchTagByName root "user" (Some para) = None ->
  FindElementWithNameAndAttr root None "user" "name" para = None ->
  options_ok cpu read write ->
  exists root' n,
    setUser sock (Some root) para (amounts_text "cpu" <$> cpu) (amounts_text "read" <$> read)
      (amounts_text "write" <$> write) None
    = Some (mkEdit 1 (Some root') (reread_cfg_cmd sock) [])
    /\ x_children root' = (x_children root ++ [n])%list /\ x_name n = "user" /\ plain n
    /\ forall dl, user_cfg dl n = Ok (para, with_options cpu read write (set_mode dl true RESTRICT_MODE)).
Proof.
  intros Es Ef Ho.
  destruct (setUser_appends sock root para (amounts_text "cpu" <$> cpu) (amounts_text "read" <$> read)
              (amounts_text "write" <$> write) None Es Ef) as (pr & Hnew & Happ).
  destruct (add_limits_spec "user" pr cpu read write Ho) as (l' & El & Hd & Hpl & Hu).
  destruct (Happ l' [] El Hd) as (root' & E & En). exists root', (XNode "user" pr l').
  split; [exact E|]. split; [done|]. split; [done|]. split; [done|]. intros dl. by rewrite Hnew, (Hu _ _ eq_refl).
Qed.

(** dbctl ignore and dbctl monitor, on a user that has an element, change its mode to
    IGNORE and to RESTRICT and nothing else of what the configuration reader finds; ignoring
    also asks the daemon first to lift the restriction of the user. *)
Lemma user_modes `{LibXml} (sock : bool) (root c : xmlNode) (user : string) (i : nat) :
  is_default user = false -> SearchTagByName root "user" (Some user) = Some [i] ->
  node_at root [i] = Some c ->
  exists ignored watched, x_name ignored = x_name c /\ x_name watched = x_name c
    /\ x_children ignored = x_children c /\ x_children watched = x_children c /\
    ignoreUser sock (Some root) user
    = Some (mkEdit 1 (Some (with_child root i ignored)) (unrestrict sock user ++ reread_cfg_cmd sock)%list [])
    /\ watchUser sock (Some root) user
       = Some (mkEdit 1 (Some (with_child root i watched)) (reread_cfg_cmd sock) [])
    /\ forall dl u lim, user_cfg dl c = Ok (u, lim) ->
         user_cfg dl ignored = Ok (u, set_mode lim (account_flag lim) IGNORE_MODE)
         /\ user_cfg dl watched = Ok (u, set_mode lim (account_flag lim) RESTRICT_MODE).
Proof.
  intros Hd Es Hc. exists (xmlSetProp "mode" "ignore" c), (xmlSetProp "mode" "restrict" c).
  unfold ignoreUser, watchUser. rewrite Hd, !(set_user_mode_spec sock root user i c) by done.
  rewrite !xmlSetProp_name, !xmlSetProp_children. split_and!; try done.
  intros dl u lim E. split; by apply user_cfg_mode.
Qed.
