(* ===== verification/ConfigRead.v ===== *)
(** What the reader of the configuration ([config_init] of
    [src/governor_config.c]) makes of a document, stated by its attributes: the
    limits of every account, read off the elements that count. *)

From S2P Require Import Prelude CDouble CString GLib Data UserMap FifoStats Xml Config ConfigEdit DbCtlSet.
Open Scope string_scope.
Open Scope Z_scope.

(** * Specification *)

Definition quads : list string := ["cpu"; "read"; "write"; "slow"].

Definition limit_named (nm : string) (st : Stats_cfg) : T_LONG :=
  if String.eqb nm "cpu" then l_cpu st else if String.eqb nm "write" then l_write st
  else if String.eqb nm "read" then l_read st else l_slow st.

(** The amount of a period, -1 when it is not given. *)
Definition amount_at (c : xmlNode) (p : string) (v : Z) : Prop :=
  match getElemAttr c p with Some s => v = to_ll (dtrunc (atof s)) | None => v = -1 end.

(** What a [limit] element says: amounts, or the one period of slow queries. *)
Definition says (c : xmlNode) (nm : string) (t : T_LONG) : Prop :=
  exists s, getElemAttr c "current" = Some s
    /\ if String.eqb nm "slow" then
         parse_period s = Ok (t_current t) /\ t_short t = -1 /\ t_mid t = -1 /\ t_long t = -1
       else t_current t = to_ll (dtrunc (atof s)) /\ amount_at c "short" (t_short t)
            /\ amount_at c "mid" (t_mid t) /\ amount_at c "long" (t_long t).

(** The last [limit] child of each name counts; the others are inherited. *)
Definition reads_limits (l : list xmlNode) (inherited lim : Stats_cfg) : Prop :=
  forall nm, nm ∈ quads ->
    match list.last (List.filter (hit nm) l) with
    | Some c => says c nm (limit_named nm lim)
    | None => limit_named nm lim = limit_named nm inherited
    end.

(** The limits of an element of a user, under the default ones [dl]. *)
Record user_says (dl : Stats_cfg) (n : xmlNode) (u : string) (lim : Stats_cfg) : Prop := {
  us_name : getElemAttr n (if account_flag lim then "name" else "mysql_name") = Some u;
  us_only : getElemAttr n (if account_flag lim then "mysql_name" else "name") = None;
  us_mode : match getElemAttr n "mode" with
            | Some s => mode_type_str_to_enum (Some s) = Ok (mode lim)
            | None => mode lim = RESTRICT_MODE
            end;
  us_limits : reads_limits (x_children n) dl lim
}.

(** * The reader follows it *)

Lemma limit_named_with nm nm' t st : nm ∈ quads ->
  limit_named nm (with_limit nm' t st) = if String.eqb nm' nm then t else limit_named nm st.
Proof.
  unfold quads, limit_named, with_limit. intros Hq. set_unfold in Hq.
  destruct Hq as [->|[->|[->|[->|[]]]]];
    repeat (match goal with |- context [String.eqb nm' ?y] => destruct (String.eqb_spec nm' y) as [->|] end; try done).
Qed.

Lemma attr_or_amount c p : amount_at c p (attr_or c p (-1)).
Proof. unfold amount_at, attr_or. by destruct (getElemAttr c p). Qed.

Lemma limit_value_says c v : limit_value c = Ok v -> says c v.1 v.2.
Proof.
  unfold limit_value, says. destruct (getElemAttr c "current") as [s|]; [|done].
  destruct (getElemAttr c "name") as [p|]; [|done]. intros E. exists s. split; [done|]. revert E.
  unfold strcmp_eq. destruct (String.eqb_spec p "slow") as [->|Hne].
  - intros (x & E & [= <-])%obind_ok. by rewrite E.
  - intros [= <-]. cbn. apply String.eqb_neq in Hne. rewrite Hne. split; [done|]. by split_and!; apply attr_or_amount.
Qed.

Lemma limit_value_hit c v nm : x_name c = "limit" -> limit_value c = Ok v -> hit nm c = String.eqb v.1 nm.
Proof.
  intros Hn E. unfold hit. rewrite Hn. revert E. unfold limit_value. destruct (getElemAttr c "current") as [s|]; [|done].
  destruct (getElemAttr c "name") as [p|]; [|done]. destruct (strcmp_eq p "slow"); [|by intros [= <-]].
  by intros (x & _ & [= <-])%obind_ok.
Qed.

Lemma limits_cfg_reads l st r : limits_cfg l st = Ok r -> reads_limits l st r.
Proof.
  revert st. induction l as [|c l IH]; intros st E nm Hq; [by injection E as ->|].
  rewrite limits_cfg_cons in E. cbn [List.filter]. destruct (String.eqb_spec (x_name c) "limit") as [Hn|Hn].
  - apply obind_ok in E as (v & Ev & E). specialize (IH _ E nm Hq). rewrite (limit_value_hit c v nm Hn Ev).
    rewrite limit_named_with in IH by done. destruct (String.eqb_spec v.1 nm) as [En|_]; [|done].
    rewrite list.last_cons. destruct (list.last _); [done|]. rewrite IH, <- En. by apply limit_value_says.
  - assert (hit nm c = false) as -> by (unfold hit; by rewrite (proj2 (String.eqb_neq _ _) Hn)). by apply IH.
Qed.

Lemma limits_cfg_flag l st r : limits_cfg l st = Ok r -> account_flag r = account_flag st /\ mode r = mode st.
Proof.
  revert st. induction l as [|c l IH]; intros st E; [by injection E as ->|]. rewrite limits_cfg_cons in E.
  destruct (String.eqb _ _); [|by apply IH]. apply obind_ok in E as (v & _ & E). apply IH in E as [-> ->].
  unfold with_limit. by repeat destruct (String.eqb _ _).
Qed.

Lemma user_cfg_says dl n u lim : user_cfg dl n = Ok (u, lim) -> user_says dl n u lim.
Proof.
  assert (forall flag m r, for_children n [] "limit" set_stats_limit (set_mode dl flag m) = Ok r ->
            account_flag r = flag /\ mode r = m /\ reads_limits (x_children n) dl r) as G.
  { intros flag m r. rewrite user_limits. intros E. destruct (limits_cfg_flag _ _ _ E) as [Ef Em].
    split; [done|]. split; [done|]. intros nm Hq. pose proof (limits_cfg_reads _ _ _ E nm Hq) as R.
    by destruct (list.last _). }
  unfold user_cfg. destruct (getElemAttr n "name") as [a|] eqn:Ea, (getElemAttr n "mysql_name") as [b|] eqn:Eb; try done;
    intros (r & E & [= <- <-])%obind_ok; apply obind_ok in E as (m & Em & E); apply G in E as (Ef & <- & Hr);
    split; rewrite ?Ef; try done; by (destruct (getElemAttr n "mode"); [|injection Em as <-]).
Qed.

(** The last element of a name counts. *)
Lemma users_last dl u l (m0 m : gmap string Stats_cfg) : ofold (fun n m => ul <-- user_cfg dl n;; Ok (<[ul.1 := ul.2]> m)) l m0 = Ok m ->
  (exists a n b lim, l = (a ++ n :: b)%list /\ (forall n', n' ∈ b -> ~ name_of n' u)
     /\ user_cfg dl n = Ok (u, lim) /\ m !! u = Some lim)
  \/ ((forall n, n ∈ l -> ~ name_of n u) /\ m !! u = m0 !! u).
Proof.
  revert m0. induction l as [|n l IH]; intros m0 E; cbn [ofold] in E.
  - injection E as ->. right. split; [|done]. intros n Hn. by apply elem_of_nil in Hn.
  - apply obind_ok in E as (m1 & E1 & E). apply obind_ok in E1 as ([v lim] & Ev & [= <-]).
    destruct (IH _ E) as [(a & n' & b & lim' & -> & Hb & Hu & Hm)|[Hno Hm]].
    + left. by exists (n :: a), n', b, lim'.
    + destruct (String.eqb_spec v u) as [->|Hne].
      * left. exists [], n, l, lim. split_and!; [done..|]. by rewrite Hm, lookup_insert_eq.
      * right. split; [|by rewrite Hm, lookup_insert_ne]. intros n' [->|Hin]%elem_of_cons; [|by apply Hno].
        intros Hn'. by rewrite (user_cfg_name dl n u v lim Hn' Ev) in Hne.
Qed.

Lemma default_says root dl : cfg_default root = Ok dl -> exists n, section root "default" = Some n
  /\ reads_limits (x_children n) zero_cfg dl /\ mode dl = RESTRICT_MODE /\ account_flag dl = true.
Proof.
  rewrite cfg_default_section. destruct (section root "default") as [n|]; [|done].
  intros (r & E & [= <-])%obind_ok. exists n. split; [done|]. split; [|done].
  intros nm Hq. pose proof (limits_cfg_reads _ _ _ E nm Hq) as R. by destruct (list.last _).
Qed.

(** * Property *)

(** C17: When config_init accepts a document, the limits it finds are these. The default
    limits are those of the first section default: of each of cpu, read, write and slow the last
    limit element of this name counts, an absent one is 0, and the mode is restrict. The limits
    of any user are those of the last user element that bears the name, as name or as
    mysql_name, with the flag of the account for the first and not for the second, in the mode
    of the element, or restrict when it gives none; of each kind the last limit element counts
    and an absent one is inherited from the defaults. A limit takes the amount of each period
    from its attribute, cut to a whole number, -1 for an absent period other than the current
    one; slow takes its current text as a period. A user that no element bears has the default
    limits. *)
Theorem config_read_exactly (liblve : bool) (script_stat : string -> option bool) (root : xmlNode)
    (cfg : governor_config) :
  config_init liblve script_stat (Some root) = Ok cfg ->
  (exists n, section root "default" = Some n /\ reads_limits (x_children n) zero_cfg (default_limit cfg)
     /\ mode (default_limit cfg) = RESTRICT_MODE)
  /\ forall u,
     (exists a n b, user_elems root = (a ++ n :: b)%list /\ (forall n', n' ∈ b -> ~ name_of n' u)
        /\ user_says (default_limit cfg) n u (config_get_account_limit cfg u))
     \/ ((forall n, n ∈ user_elems root -> ~ name_of n u) /\ config_get_account_limit cfg u = default_limit cfg).
Proof.
  intros E. split.
  - destruct (default_says root (default_limit cfg)) as (n & Hn & Hr & Hm & _); [|by exists n].
    by apply (config_default liblve script_stat root cfg).
  - intros u. pose proof (config_users liblve script_stat root cfg E) as Eu. unfold cfg_users in Eu.
    rewrite (for_children_fold root [] root) in Eu by done. unfold config_get_account_limit.
    destruct (users_last _ u _ _ _ Eu) as [(a & n & b & lim & El & Hb & Hu & ->)|[Hno ->]].
    + left. exists a, n, b. split; [done|]. split; [done|]. by apply user_cfg_says.
    + right. by rewrite lookup_empty.
Qed.

(** "bob" inherits what his element does not say. *)
Lemma config_read_exactly_witness :
  match config_init true (fun _ => None) (Some example_root) with
  | Ok cfg => exists n, user_says (default_limit cfg) n "bob" (config_get_account_limit cfg "bob")
                /\ t_current (l_cpu (config_get_account_limit cfg "bob")) = 400
                /\ t_current (l_read (config_get_account_limit cfg "bob")) = 100000000
  | _ => False
  end.
Proof.
  destruct (config_init true (fun _ => None) (Some example_root)) as [cfg| |] eqn:E;
    [|vm_compute in E; discriminate E..].
  destruct (config_read_exactly true (fun _ => None) example_root cfg E) as [_ H].
  vm_compute in E. injection E as <-.
  destruct (H "bob") as [(a & n & b & _ & _ & Hs)|[Hno _]].
  - exists n. split; [exact Hs|]. split; vm_compute; reflexivity.
  - destruct (Hno (XNode "user" [("name", "bob"); ("mode", "ignore")]
                     [XNode "limit" [("name", "cpu"); ("current", "400")] []])).
    + apply list_elem_of_singleton. reflexivity.
    + left. reflexivity.
Defined.
