(* ===== verification/Accounts.v ===== *)
(** Accounts and their users ([src/user_account.c], the allocation part of
    [src/stats.c], [src/tick_generator.c] and the first part of
    [src/calc_stats.c]).

    The structures point at each other: [Account.users] at users,
    [User_stats.account] at an account.  The model keeps the two tables and
    writes a pointer as the key of the structure it leads to. *)

From S2P Require Import Prelude CDouble CString Data UserMap FifoStats Xml Config.
Open Scope string_scope.
Open Scope Z_scope.

(** * Data *)

Record Account := mkAccount {
  ac_id : string; ac_users : list string;
  ac_current : Stats; ac_long_average : Stats; ac_mid_average : Stats; ac_short_average : Stats;
  ac_restricted : Z; ac_timeout : Z; ac_start_count : Z; ac_info : restrict_info; ac_need_dbg : Z
}.

Record User_stats := mkUser {
  us_id : string; us_account : string; us_samples : samples; us_tick : Z
}.

Record user_account := mkUa { ua_username : string; ua_account : string }.

Record acc_state := mkAcc {
  accounts : gmap string Account; users : gmap string User_stats;
  user_account_table : gmap string user_account; tick_id : Z
}.

Definition zero_stats : Stats := mkStats d0 0 0.
Definition no_info : restrict_info := mkInfo NO_PERIOD NORESTRICT_PARAM2.

Definition init_account (id : string) : Account :=
  mkAccount id [] zero_stats zero_stats zero_stats zero_stats 0 0 0 no_info 0.

Definition init_user_stats (cfg : governor_config) (id : string) (ac : string)
    : option User_stats :=
  sm ← init_samples (c_intervals cfg); Some (mkUser id ac sm 0).

Definition init_accounts_and_users (tick : Z) : acc_state := mkAcc ∅ ∅ ∅ tick.

Definition set_account (k : string) (ac : Account) (s : acc_state) : acc_state :=
  mkAcc (<[k := ac]> (accounts s)) (users s) (user_account_table s) (tick_id s).
Definition set_user (k : string) (us : User_stats) (s : acc_state) : acc_state :=
  mkAcc (accounts s) (<[k := us]> (users s)) (user_account_table s) (tick_id s).

Definition with_users (ac : Account) (l : list string) : Account :=
  mkAccount (ac_id ac) l (ac_current ac) (ac_long_average ac) (ac_mid_average ac)
    (ac_short_average ac) (ac_restricted ac) (ac_timeout ac) (ac_start_count ac) (ac_info ac)
    (ac_need_dbg ac).
Definition with_dbg (ac : Account) (d : Z) : Account :=
  mkAccount (ac_id ac) (ac_users ac) (ac_current ac) (ac_long_average ac) (ac_mid_average ac)
    (ac_short_average ac) (ac_restricted ac) (ac_timeout ac) (ac_start_count ac) (ac_info ac) d.

(** * [user_account.c] *)

(** The account part of [get_user_account] for a name seen for the first
    time; [map_locked]: [lock_read_map] returned 0. *)
Definition account_of `{HashOrder} (cfg : governor_config)
    (userMap : option (gmap string UserMap)) (map_locked : bool) (username : string) : string :=
  let sl := config_get_account_limit cfg (strlcpy_str username USERNAMEMAXLEN) in
  if account_flag sl then
    match (if map_locked then get_account userMap username else None) with
    | None =>
        match strchr username (separator cfg) with
        | Some p => if p =? 0 then strlcpy_str username USERNAMEMAXLEN
                    else strlcpy_str username (p + 1)
        | None => strlcpy_str username USERNAMEMAXLEN
        end
    | Some a => strlcpy_str a USERNAMEMAXLEN
    end
  else strlcpy_str username USERNAMEMAXLEN.

Definition get_user_account `{HashOrder} (cfg : governor_config)
    (userMap : option (gmap string UserMap)) (map_locked : bool) (username : string)
    (s : acc_state) : acc_state * user_account :=
  match user_account_table s !! username with
  | Some ua => (s, ua)
  | None =>
      let name := strlcpy_str username USERNAMEMAXLEN in
      let ua := mkUa name (account_of cfg userMap map_locked username) in
      (mkAcc (accounts s) (users s) (<[name := ua]> (user_account_table s)) (tick_id s), ua)
  end.

(** A null pointer if the account is unknown: [None]. *)
Definition check_if_user_restricted `{HashOrder} (cfg : governor_config)
    (userMap : option (gmap string UserMap)) (map_locked : bool) (username : string)
    (s : acc_state) : acc_state * option bool :=
  let '(s, ua) := get_user_account cfg userMap map_locked username s in
  (s, ac ← accounts s !! ua_account ua; Some (0 <? ac_timeout ac)).

Definition add_user_stats `{HashOrder} (cfg : governor_config)
    (userMap : option (gmap string UserMap)) (map_locked : bool) (username : string)
    (s : acc_state) : option (acc_state * User_stats) :=
  let '(s, ua) := get_user_account cfg userMap map_locked username s in
  let ac := default (init_account (ua_account ua)) (accounts s !! ua_account ua) in
  us ← init_user_stats cfg (ua_username ua) (ua_account ua);
  let s := set_user (ua_username ua) us s in
  Some (set_account (ua_account ua) (with_users ac (ac_users ac ++ [ua_username ua])%list) s, us).

(** * [tick_generator.c] *)

Definition increment_tick (s : acc_state) : acc_state :=
  mkAcc (accounts s) (users s) (user_account_table s) (u64 (tick_id s + 1)).
Definition get_current_tick (s : acc_state) : Z := tick_id s.
Definition is_new_tick (tick : Z) (s : acc_state) : bool := negb (u64 tick =? tick_id s).

(** * [calc_stats.c]: statistics of the users *)

Definition with_tick (us : User_stats) (sm : samples) (t : Z) : User_stats :=
  mkUser (us_id us) (us_account us) sm t.

(** The debug mark: [strncmp (debug_user, account->id, strlen (debug_user))]. *)
Definition mark_debug (cfg : governor_config) (us : User_stats) (s : acc_state) : option acc_state :=
  match debug_user cfg with
  | None => Some s
  | Some d =>
      ac ← accounts s !! us_account us;
      if (ac_need_dbg ac =? 0) && strncmp_eq d (ac_id ac) (strlen d)
      then Some (set_account (us_account us) (with_dbg ac 1) s)
      else Some s
  end.

Definition add_new_stats `{HashOrder} (cfg : governor_config)
    (userMap : option (gmap string UserMap)) (map_locked : bool) (username : string) (st : Stats)
    (tick : Z) (s : acc_state) : option acc_state :=
  '(s, us) ← (match users s !! username with
              | Some us => Some (s, us)
              | None => add_user_stats cfg userMap map_locked username s
              end);
  s ← mark_debug cfg us s;
  if us_tick us =? tick then
    sm ← refresh_stats (c_intervals cfg) st (us_samples us);
    Some (set_user (us_id us) (with_tick us sm (us_tick us)) s)
  else
    sm ← push_stats (c_intervals cfg) st (us_samples us);
    Some (set_user (us_id us) (with_tick us sm (s64 (get_current_tick s))) s).

Definition add_empty_stats_for_uid `{HashOrder} (cfg : governor_config)
    (userMap : option (gmap string UserMap)) (map_locked : bool) (username : string)
    (s : acc_state) : option acc_state :=
  match users s !! username with
  | Some _ => Some s
  | None => '(s, _) ← add_user_stats cfg userMap map_locked username s; Some s
  end.

Definition tick_empty_users (cfg : governor_config) (key : string) (us : User_stats)
    (r : option acc_state) : option acc_state :=
  s ← r;
  if is_new_tick (us_tick us) s then
    sm ← push_stats (c_intervals cfg) reset_stats (us_samples us);
    Some (set_user key (with_tick us sm (s64 (get_current_tick s))) s)
  else Some s.

(** The four sums of an account over its users. *)
Record sums := mkSums { sm_current : Stats; sm_short : Stats; sm_mid : Stats; sm_long : Stats }.

Definition user_sums (us : User_stats) : option sums :=
  cur ← fifo_stats_get (us_stats (us_samples us)) 0;
  Some (mkSums cur (us_short_average (us_samples us)) (us_mid_average (us_samples us))
          (us_long_average (us_samples us))).

Definition add_sums (a b : sums) : sums :=
  mkSums (sum_stats (sm_current a) (sm_current b)) (sum_stats (sm_short a) (sm_short b))
    (sum_stats (sm_mid a) (sm_mid b)) (sum_stats (sm_long a) (sm_long b)).

Definition user_of (s : acc_state) (u : string) : option sums := us ← users s !! u; user_sums us.

Fixpoint sum_users (s : acc_state) (l : list string) (acc : sums) : option sums :=
  match l with
  | [] => Some acc
  | u :: l => x ← user_of s u; sum_users s l (add_sums acc x)
  end.

(** The first user sets the sums, the others are added; an account without
    users has no element 0. *)
Definition calc_acc_stats (key : string) (ac : Account) (r : option acc_state)
    : option acc_state :=
  s ← r;
  match ac_users ac with
  | [] => None
  | u :: l =>
      first ← user_of s u;
      t ← sum_users s l first;
      Some (set_account key
              (mkAccount (ac_id ac) (ac_users ac) (sm_current t) (sm_long t) (sm_mid t) (sm_short t)
                 (ac_restricted ac) (ac_timeout ac) (ac_start_count ac) (ac_info ac)
                 (ac_need_dbg ac)) s)
  end.

(** * Looking an account up by a user *)

(** 0 when the user is one of the account's. *)
Definition comapre_users_name (username : string) (ac : Account) : Z :=
  if existsb (fun u => strncmp_eq u username USERNAMEMAXLEN) (ac_users ac) then 0 else 1.

Definition find_acount_cmp (data : string) (key : string) (ac : Account) : bool :=
  existsb (fun u => strncmp_eq u data USERNAMEMAXLEN) (ac_users ac).

Definition is_user_ignored `{HashOrder} (cfg : governor_config) (user_name : string)
    (s : acc_state) : Z :=
  let sl := config_get_account_limit cfg
              (match ht_find (accounts s) (find_acount_cmp user_name) with
               | Some ac => ac_id ac
               | None => user_name
               end) in
  if bool_decide (mode sl = IGNORE_MODE) then 0 else s32 (t_current (l_slow sl)).

(** * Invariant: the two tables describe one partition of the users *)

Definition user_ok (us : User_stats) : Prop :=
  fifo_wf (us_stats (us_samples us)).

Record acc_wf (s : acc_state) : Prop := {
  wf_user_key : forall u us, users s !! u = Some us -> us_id us = u;
  wf_user_account : forall u us, users s !! u = Some us ->
    exists ac, accounts s !! us_account us = Some ac /\ u ∈ ac_users ac;
  wf_account_key : forall a ac, accounts s !! a = Some ac -> ac_id ac = a;
  wf_account_users : forall a ac u, accounts s !! a = Some ac -> u ∈ ac_users ac ->
    exists us, users s !! u = Some us /\ us_account us = a;
  wf_account_nodup : forall a ac, accounts s !! a = Some ac -> NoDup (ac_users ac);
  wf_account_nonempty : forall a ac, accounts s !! a = Some ac -> ac_users ac <> [];
  wf_samples : forall u us, users s !! u = Some us -> user_ok us;
  wf_ua_key : forall u ua, user_account_table s !! u = Some ua ->
    ua_username ua = u /\ strlen u < USERNAMEMAXLEN
}.

(** * Lemmas *)

Lemma init_samples_some iv : intervals_wf iv ->
  exists sm, init_samples iv = Some sm /\ fifo_wf (us_stats sm)
    /\ size (us_stats sm)
       = Z.max (interval_long iv) (Z.max (interval_mid iv) (interval_short iv)).
Proof.
  intros (Hs & Hm & Hl). unfold init_samples.
  assert (COMPARE_MAX_3 (interval_long iv) (interval_mid iv) (interval_short iv)
          = Z.max (interval_long iv) (Z.max (interval_mid iv) (interval_short iv))) as ->.
  { unfold COMPARE_MAX_3. split_ifs; bools; lia. }
  rewrite s32_id by (unfold in_s32; lia).
  set (sz := Z.max _ _). assert (0 < sz) by lia.
  destruct (fifo_stats_init sz) as [f|] eqn:E.
  - destruct (init_wf sz f ltac:(lia) E) as (Hw & Hz & _). simpl. eexists. split; [done|].
    by split.
  - unfold fifo_stats_init in E. by destruct (Z.ltb_spec sz 0); [lia|].
Qed.

Lemma push_some iv st us : fifo_wf (us_stats us) -> intervals_wf iv ->
  exists us', push_stats iv st us = Some us' /\ fifo_wf (us_stats us')
    /\ history (us_stats us')
       = st :: take (Z.to_nat (size (us_stats us)) - 1) (history (us_stats us)).
Proof.
  intros Hw Hiv. unfold push_stats.
  destruct (fifo_push_some (us_stats us) st Hw) as [f Ef]. rewrite Ef. simpl.
  destruct (fifo_push_history _ _ _ Hw Ef) as (Hw' & Hs & Hh).
  destruct (average_all_some iv f Hw' Hiv) as (us' & -> & E). exists us'. by rewrite E.
Qed.

Lemma get_user_account_spec `{HashOrder} cfg um lk u s :
  strlen u < USERNAMEMAXLEN ->
  (forall v ua, user_account_table s !! v = Some ua -> ua_username ua = v /\ strlen v < USERNAMEMAXLEN) ->
  let '(s', ua) := get_user_account cfg um lk u s in
  accounts s' = accounts s /\ users s' = users s /\ tick_id s' = tick_id s
  /\ ua_username ua = u /\ user_account_table s' = <[u := ua]> (user_account_table s)
  /\ (user_account_table s !! u = None -> ua_account ua = account_of cfg um lk u)
  /\ (forall ua', user_account_table s !! u = Some ua' -> ua = ua').
Proof.
  intros Hu Hk. unfold get_user_account.
  destruct (user_account_table s !! u) as [ua|] eqn:E.
  - destruct (Hk _ _ E) as [Hn _]. split_and!; try done.
    + by rewrite insert_id.
    + by intros ua' [= ->].
  - by rewrite strlcpy_str_id.
Qed.

(** The two tables after a user [u] joined the account [a]. *)
Definition joined (a u : string) (us : User_stats) (s : acc_state) (t : gmap string user_account)
    : acc_state :=
  let ac := default (init_account a) (accounts s !! a) in
  mkAcc (<[a := with_users ac (ac_users ac ++ [u])%list]> (accounts s)) (<[u := us]> (users s)) t
    (tick_id s).

(** An account, old or fresh, fits the users before the join. *)
Lemma joined_account s a u : acc_wf s -> users s !! u = None ->
  let ac := default (init_account a) (accounts s !! a) in
  ac_id ac = a /\ NoDup (ac_users ac) /\ u ∉ ac_users ac
  /\ forall v, v ∈ ac_users ac -> exists us, users s !! v = Some us /\ us_account us = a.
Proof.
  intros Hw Hn. destruct (accounts s !! a) as [ac|] eqn:E; simpl.
  - split; [by apply (wf_account_key _ Hw)|]. split; [by eapply (wf_account_nodup _ Hw)|]. split.
    + intros Hv. destruct (wf_account_users _ Hw a ac u E Hv) as (us & Hus & _). congruence.
    + intros v. by apply (wf_account_users _ Hw).
  - split; [done|]. split; [constructor|]. split; [apply not_elem_of_nil|].
    intros v Hv. by apply elem_of_nil in Hv.
Qed.

(** The part of the invariant on the users. *)
Lemma joined_users s a u us t v us' : acc_wf s -> users s !! u = None ->
  us_id us = u -> us_account us = a -> user_ok us ->
  users (joined a u us s t) !! v = Some us' ->
  us_id us' = v /\ user_ok us'
  /\ exists ac, accounts (joined a u us s t) !! us_account us' = Some ac /\ v ∈ ac_users ac.
Proof.
  intros Hw Hn Hid Hac Hok. unfold joined. cbn [users accounts]. rewrite lookup_insert_Some.
  intros [[<- <-]|[Hne Hv]].
  - split_and!; try done. rewrite Hac, lookup_insert_eq. eexists. split; [done|]. simpl. set_solver.
  - split; [by apply (wf_user_key _ Hw)|]. split; [by eapply (wf_samples _ Hw)|].
    destruct (wf_user_account _ Hw v us' Hv) as (ac' & Hac' & Hin).
    destruct (String.eqb_spec (us_account us') a) as [Ea|Hna].
    + rewrite Ea, lookup_insert_eq. eexists. split; [done|]. rewrite <- Ea, Hac'. simpl. set_solver.
    + rewrite lookup_insert_ne by done. by exists ac'.
Qed.

(** The part on the accounts. *)
Lemma joined_accounts s a u us t b ac' : acc_wf s -> users s !! u = None ->
  us_account us = a -> accounts (joined a u us s t) !! b = Some ac' ->
  ac_id ac' = b /\ NoDup (ac_users ac') /\ ac_users ac' <> []
  /\ forall v, v ∈ ac_users ac' ->
       exists us', users (joined a u us s t) !! v = Some us' /\ us_account us' = b.
Proof.
  intros Hw Hn Hac. destruct (joined_account s a u Hw Hn) as (Hid & Hnd & Hnot & Hus).
  unfold joined. cbn [users accounts]. set (ac := default _ _) in *. rewrite lookup_insert_Some.
  intros [[<- <-]|[Hne Hb]]; cbn [ac_id ac_users with_users].
  - split; [done|]. split; [|split].
    + apply list.NoDup_app. split_and!; [done| |apply NoDup_singleton].
      by intros v Hv ->%list_elem_of_singleton.
    + by destruct (ac_users ac).
    + intros v [Hv|Hv]%elem_of_app.
      * destruct (Hus v Hv) as (us' & Hus' & Hacc). exists us'. split; [|done].
        rewrite lookup_insert_ne; [done|]. by intros ->.
      * apply list_elem_of_singleton in Hv as ->. rewrite lookup_insert_eq. by eexists.
  - split; [by apply (wf_account_key _ Hw)|]. split; [by eapply (wf_account_nodup _ Hw)|].
    split; [by eapply (wf_account_nonempty _ Hw)|]. intros v Hv.
    destruct (wf_account_users _ Hw b ac' v Hb Hv) as (us' & Hus' & Hacc).
    exists us'. split; [|done]. rewrite lookup_insert_ne; [done|]. intros ->. congruence.
Qed.

Lemma joined_wf s a u us t : acc_wf s -> users s !! u = None ->
  us_id us = u -> us_account us = a -> user_ok us ->
  (forall v ua, t !! v = Some ua -> ua_username ua = v /\ strlen v < USERNAMEMAXLEN) ->
  acc_wf (joined a u us s t).
Proof.
  intros Hw Hn Hid Hac Hok Ht.
  pose proof (fun v us' => joined_users s a u us t v us' Hw Hn Hid Hac Hok) as HU.
  pose proof (fun b ac' => joined_accounts s a u us t b ac' Hw Hn Hac) as HA.
  split; [..|exact Ht]; intros x y.
  all: try (intros Hy; by destruct (HU x y Hy) as (? & ? & ?)).
  all: try (intros Hy; by destruct (HA x y Hy) as (? & ? & ? & ?)).
  intros v Hy Hv. destruct (HA x y Hy) as (_ & _ & _ & Hx). by apply Hx.
Qed.

(** A new user joins one account; nothing else changes. *)
Lemma add_user_stats_spec `{HashOrder} cfg um lk u s :
  intervals_wf (c_intervals cfg) -> acc_wf s ->
  strlen u < USERNAMEMAXLEN -> users s !! u = None ->
  exists s' us, add_user_stats cfg um lk u s = Some (s', us)
    /\ acc_wf s' /\ us_id us = u
    /\ users s' = <[u := us]> (users s)
    /\ tick_id s' = tick_id s
    /\ (user_account_table s !! u = None -> us_account us = account_of cfg um lk u)
    /\ (forall a, a <> us_account us -> accounts s' !! a = accounts s !! a).
Proof.
  intros Hiv Hw Hu Hnone. unfold add_user_stats.
  pose proof (get_user_account_spec cfg um lk u s Hu (wf_ua_key _ Hw)) as G.
  destruct (get_user_account cfg um lk u s) as [s1 ua].
  destruct G as (Ga & Gu & Gt & Gn & Gk & Gf & Go). rewrite Ga, Gn. unfold init_user_stats.
  destruct (init_samples_some _ Hiv) as (sm & -> & Hsm & _). cbn [mbind option_bind].
  set (us := mkUser u (ua_account ua) sm _). exists (joined (ua_account ua) u us s (user_account_table s1)), us.
  split; [unfold set_account, set_user, joined; cbn; by rewrite Ga, Gu, Gt|].
  split; [|split_and!; try done; by intros b Hb; cbn; rewrite lookup_insert_ne].
  apply joined_wf; try done. rewrite Gk. intros v ua'. rewrite lookup_insert_Some.
  intros [[<- <-]|[Hne Hv]]; [by rewrite Gn|by apply (wf_ua_key _ Hw)].
Qed.

Lemma add_user_stats_tick `{HashOrder} cfg um lk u s s' us :
  add_user_stats cfg um lk u s = Some (s', us) -> us_tick us = 0.
Proof.
  unfold add_user_stats, init_user_stats. destruct (get_user_account _ _ _ _ _) as [s1 ua].
  destruct (init_samples _); [|done]. by intros [= _ <-].
Qed.

(** Changing what the invariant does not mention. *)
Lemma acc_wf_samples s u us sm t : acc_wf s -> users s !! u = Some us ->
  fifo_wf (us_stats sm) -> acc_wf (set_user u (with_tick us sm t) s).
Proof.
  intros Hw Hu Hsm. split; cbn [accounts users user_account_table set_user].
  - intros v us'. rewrite lookup_insert_Some. intros [[<- <-]|[_ Hv]]; [|by apply (wf_user_key _ Hw)].
    simpl. by apply (wf_user_key _ Hw).
  - intros v us'. rewrite lookup_insert_Some. intros [[<- <-]|[_ Hv]]; [|by apply (wf_user_account _ Hw)].
    simpl. by apply (wf_user_account _ Hw).
  - apply (wf_account_key _ Hw).
  - intros a ac v Ha Hv. destruct (wf_account_users _ Hw a ac v Ha Hv) as (us' & Hus & Hacc).
    destruct (String.eqb_spec v u) as [->|Hne].
    + rewrite lookup_insert_eq. eexists. split; [done|]. simpl. congruence.
    + rewrite lookup_insert_ne by done. by exists us'.
  - apply (wf_account_nodup _ Hw).
  - apply (wf_account_nonempty _ Hw).
  - intros v us'. rewrite lookup_insert_Some. intros [[<- <-]|[_ Hv]]; [done|].
    by apply (wf_samples _ Hw v).
  - apply (wf_ua_key _ Hw).
Qed.

Lemma acc_wf_account s a ac ac' : acc_wf s -> accounts s !! a = Some ac ->
  ac_id ac' = ac_id ac -> ac_users ac' = ac_users ac -> acc_wf (set_account a ac' s).
Proof.
  intros Hw Ha Hid Hus. split; cbn [accounts users user_account_table set_account].
  - apply (wf_user_key _ Hw).
  - intros u us Hu. destruct (wf_user_account _ Hw u us Hu) as (ac0 & H0 & Hin).
    destruct (String.eqb_spec (us_account us) a) as [E|Hne].
    + rewrite E, lookup_insert_eq. eexists. split; [done|]. congruence.
    + rewrite lookup_insert_ne by done. by exists ac0.
  - intros b ac0. rewrite lookup_insert_Some. intros [[<- <-]|[_ Hb]];
      [rewrite Hid|]; by apply (wf_account_key _ Hw).
  - intros b ac0 v. rewrite lookup_insert_Some. intros [[<- <-]|[_ Hb]];
      [rewrite Hus|]; by apply (wf_account_users _ Hw).
  - intros b ac0. rewrite lookup_insert_Some. intros [[<- <-]|[_ Hb]];
      [rewrite Hus|]; by eapply (wf_account_nodup _ Hw).
  - intros b ac0. rewrite lookup_insert_Some. intros [[<- <-]|[_ Hb]];
      [rewrite Hus|]; by eapply (wf_account_nonempty _ Hw).
  - apply (wf_samples _ Hw).
  - apply (wf_ua_key _ Hw).
Qed.

Lemma refresh_some iv st us : fifo_wf (us_stats us) -> intervals_wf iv ->
  exists us', refresh_stats iv st us = Some us' /\ fifo_wf (us_stats us')
    /\ size (us_stats us') = size (us_stats us).
Proof.
  intros [Hs Hf] Hiv. unfold refresh_stats, fifo_stats_refresh_last, ar_get.
  destruct (Z.ltb_spec (first (us_stats us)) 0); [lia|].
  destruct (nth_lookup_or_length (ar (us_stats us)) (Z.to_nat (first (us_stats us))) reset_stats)
    as [Hn|Hn]; [|lia].
  rewrite Hn. simpl. set (x := mkStats _ _ _). unfold ar_set.
  destruct (_ || _) eqn:E; [apply orb_prop in E as [E|E]; bools; lia|]. simpl.
  set (f := mkFifo _ _ _).
  assert (fifo_wf f) as Hw by (split; simpl; rewrite ?length_insert; done).
  destruct (average_all_some iv f Hw Hiv) as (us' & -> & E'). exists us'. rewrite E'. by split.
Qed.

Lemma mark_debug_spec cfg us s : acc_wf s -> users s !! us_id us = Some us ->
  exists s', mark_debug cfg us s = Some s' /\ acc_wf s' /\ users s' = users s
    /\ tick_id s' = tick_id s.
Proof.
  intros Hw Hu. unfold mark_debug. destruct (debug_user cfg) as [d|]; [|by exists s].
  destruct (wf_user_account _ Hw _ _ Hu) as (ac & Hac & _). rewrite Hac. simpl.
  destruct (_ && _); [|by exists s]. eexists. split; [done|]. split_and!; try done.
  by eapply acc_wf_account.
Qed.

(** The first occurrence of a character. *)
Lemma strchr_from_app a c b i : ~ In c (list_ascii_of_string a) ->
  strchr_from i (a +:+ String c b) c = Some (i + strlen a).
Proof.
  revert i. induction a as [|x a IH]; intros i Hn.
  - rewrite append_nil_l. cbn [strchr_from]. rewrite Ascii.eqb_refl.
    change (strlen "") with 0. by rewrite Z.add_0_r.
  - rewrite append_cons. cbn [strchr_from]. simpl in Hn.
    destruct (Ascii.eqb_spec x c) as [->|]; [tauto|]. rewrite IH by tauto.
    f_equal. unfold strlen. simpl. lia.
Qed.

Lemma strchr_app a c b : ~ In c (list_ascii_of_string a) ->
  strchr (a +:+ String c b) c = Some (strlen a).
Proof. intros. unfold strchr. by rewrite strchr_from_app. Qed.

(** * Properties *)

Lemma add_new_stats_preserves_partition `{HashOrder} (cfg : governor_config)
    (um : option (gmap string UserMap)) (lk : bool) (u : string) (st : Stats) (s : acc_state) :
  intervals_wf (c_intervals cfg) -> acc_wf s ->
  strlen u < USERNAMEMAXLEN -> 0 <= tick_id s < 2 ^ 63 ->
  exists s' us, add_new_stats cfg um lk u st (get_current_tick s) s = Some s'
    /\ acc_wf s'
    /\ users s' !! u = Some us /\ us_tick us = tick_id s /\ tick_id s' = tick_id s
    /\ (forall v, v <> u -> users s' !! v = users s !! v)
    /\ (forall us0, users s !! u = Some us0 -> us_tick us0 <> tick_id s ->
          us_account us = us_account us0
          /\ history (us_stats (us_samples us))
             = st :: take (Z.to_nat (size (us_stats (us_samples us0))) - 1)
                       (history (us_stats (us_samples us0)))).
Proof.
  intros Hiv Hw Hu Ht. unfold add_new_stats, get_current_tick.
  assert (exists s1 us1, (match users s !! u with
              | Some us => Some (s, us)
              | None => add_user_stats cfg um lk u s
              end) = Some (s1, us1)
    /\ acc_wf s1 /\ users s1 = <[u := us1]> (users s) /\ us_id us1 = u
    /\ tick_id s1 = tick_id s
    /\ (forall us0, users s !! u = Some us0 -> us1 = us0)) as (s1 & us1 & -> & Hw1 & Hu1 & Hid & Htk & Hold).
  { destruct (users s !! u) as [us|] eqn:E.
    - exists s, us. rewrite insert_id by done. split_and!; try done.
      + by apply (wf_user_key _ Hw).
      + by intros us0 [= ->].
    - destruct (add_user_stats_spec cfg um lk u s Hiv Hw Hu E)
        as (s1 & us1 & Ea & Hw1 & Hid & Hu1 & Htk & _). by exists s1, us1. }
  cbn [mbind option_bind].
  assert (users s1 !! us_id us1 = Some us1) as Hlk by (by rewrite Hid, Hu1, lookup_insert_eq).
  destruct (mark_debug_spec cfg us1 s1 Hw1 Hlk) as (s2 & -> & Hw2 & Hu2 & Ht2).
  cbn [mbind option_bind].
  pose proof (wf_samples _ Hw1 _ _ Hlk) as Hsm. rewrite <- Hu2 in Hlk.
  assert (s64 (tick_id s) = tick_id s) as E64 by (apply s64_id; unfold in_s64; lia).
  destruct (Z.eqb_spec (us_tick us1) (tick_id s)) as [Eq|Hne].
  - destruct (refresh_some (c_intervals cfg) st _ Hsm Hiv) as (sm & -> & Hsm' & _).
    cbn [mbind option_bind]. eexists _, _. split; [reflexivity|].
    split; [by apply acc_wf_samples|]. unfold set_user. cbn [users]. rewrite Hid, Hu2, Hu1.
    split; [by rewrite lookup_insert_eq|]. split; [done|]. split; [simpl; congruence|]. split.
    + intros v Hv. by rewrite !lookup_insert_ne.
    + intros us0 H0 Hn. by rewrite <- (Hold us0 H0) in Hn.
  - destruct (push_some (c_intervals cfg) st _ Hsm Hiv) as (sm & -> & Hsm' & Hh).
    cbn [mbind option_bind]. eexists _, _. split; [reflexivity|].
    split; [by apply acc_wf_samples|]. unfold set_user. cbn [users]. rewrite Hid, Hu2, Hu1.
    split; [by rewrite lookup_insert_eq|]. split; [simpl; by rewrite Ht2, Htk, E64|].
    split; [simpl; congruence|]. split.
    + intros v Hv. by rewrite !lookup_insert_ne.
    + intros us0 H0 Hn. by rewrite <- (Hold us0 H0).
Qed.

Lemma empty_wf t : acc_wf (init_accounts_and_users t).
Proof. split; intros *; cbn [accounts users user_account_table init_accounts_and_users]; by rewrite lookup_empty. Qed.


(** A MySQL user whose name is an account followed by the separator belongs to that
    account when the account has its own limits in the configuration: the account is the part
    before the first separator, or the whole name when that part is empty. *)
Lemma account_of_prefix `{HashOrder} (cfg : governor_config) (a b : string) :
  account_flag (config_get_account_limit cfg (a +:+ String (separator cfg) b)) = true ->
  ~ In (separator cfg) (list_ascii_of_string a) ->
  strlen (a +:+ String (separator cfg) b) < USERNAMEMAXLEN ->
  account_of cfg None true (a +:+ String (separator cfg) b)
  = if String.eqb a "" then a +:+ String (separator cfg) b else a.
Proof.
  intros Hf Hn Hl. unfold account_of. rewrite strlcpy_str_id by done. rewrite Hf. simpl.
  rewrite strchr_app by done. destruct a as [|c a]; [done|].
  change (String.eqb (String c a) "") with false.
  destruct (Z.eqb_spec (strlen (String c a)) 0) as [E|_]; [by unfold strlen in E|].
  unfold strlcpy_str. replace (strlen (String c a) + 1 - 1) with (strlen (String c a)) by lia.
  apply prefix_n_app.
Qed.

Lemma tick_empty_users_one_sample `{HashOrder} (cfg : governor_config) (s : acc_state) :
  intervals_wf (c_intervals cfg) -> acc_wf s -> 0 <= tick_id s < 2 ^ 63 ->
  exists s', ht_foreach (users s) (tick_empty_users cfg) (Some s) = Some s'
    /\ acc_wf s' /\ accounts s' = accounts s /\ tick_id s' = tick_id s
    /\ forall u us, users s !! u = Some us -> exists us', users s' !! u = Some us'
       /\ us_account us' = us_account us
       /\ (is_new_tick (us_tick us) s = false -> us' = us)
       /\ (is_new_tick (us_tick us) s = true ->
           us_tick us' = tick_id s
           /\ history (us_stats (us_samples us'))
              = reset_stats :: take (Z.to_nat (size (us_stats (us_samples us))) - 1)
                                 (history (us_stats (us_samples us)))).
Proof.
  intros Hiv Hw Ht.
  pose proof (ht_foreach_ind (tick_empty_users cfg)
    (fun done r => exists s', r = Some s' /\ acc_wf s' /\ accounts s' = accounts s
       /\ tick_id s' = tick_id s
       /\ (forall u, u ∉ done -> users s' !! u = users s !! u)
       /\ forall u us, u ∈ done -> users s !! u = Some us -> exists us', users s' !! u = Some us'
          /\ us_account us' = us_account us
          /\ (is_new_tick (us_tick us) s = false -> us' = us)
          /\ (is_new_tick (us_tick us) s = true ->
              us_tick us' = tick_id s
              /\ history (us_stats (us_samples us'))
                 = reset_stats :: take (Z.to_nat (size (us_stats (us_samples us))) - 1)
                                    (history (us_stats (us_samples us)))))
    (users s) (Some s)) as G.
  destruct G as (s' & E & Hw' & Ha & Htk & _ & Hs).
  - exists s. split_and!; try done; intros u us Hu; set_solver.
  - intros dn u us r Hu Hfr (s1 & -> & Hw1 & Ha1 & Ht1 & Hnd1 & Hd1). unfold tick_empty_users.
    cbn [mbind option_bind].
    assert (is_new_tick (us_tick us) s1 = is_new_tick (us_tick us) s) as En by
      (unfold is_new_tick; by rewrite Ht1). rewrite En.
    assert (users s1 !! u = Some us) as Hu1 by (by rewrite Hnd1).
    destruct (is_new_tick (us_tick us) s) eqn:Enew.
    + pose proof (wf_samples _ Hw1 _ _ Hu1) as Hsm.
      destruct (push_some (c_intervals cfg) reset_stats _ Hsm Hiv) as (sm & -> & Hsm' & Hh).
      cbn [mbind option_bind]. eexists. split; [reflexivity|]. split; [by apply acc_wf_samples|].
      split; [done|]. split; [done|]. cbn [users set_user]. split.
      * intros v Hv. rewrite lookup_insert_ne by set_solver. apply Hnd1. set_solver.
      * intros v us0 Hv H0. destruct (String.eqb_spec v u) as [->|Hne].
        -- rewrite lookup_insert_eq. eexists. split; [done|]. rewrite Hu in H0. injection H0 as <-.
           split; [done|]. split; [congruence|]. intros _. cbn [with_tick us_tick us_samples].
           split; [|done]. unfold get_current_tick. rewrite Ht1. apply s64_id. unfold in_s64. lia.
        -- rewrite lookup_insert_ne by done. apply Hd1; set_solver.
    + exists s1. split_and!; try done.
      * intros v Hv. apply Hnd1. set_solver.
      * intros v us0 Hv H0. destruct (String.eqb_spec v u) as [->|Hne]; [|apply Hd1; set_solver].
        exists us. rewrite Hu in H0. injection H0 as <-. split; [done|]. split; [done|]. split; [done|].
        congruence.
  - exists s'. split_and!; try done. intros u us Hu. apply Hs; [|done].
    apply elem_of_dom. by exists us.
Qed.

(** One account with two users. *)
Definition example_user (u : string) (t : Z) : User_stats :=
  mkUser u "bob" (mkSamples (mkFifo [mkStats d0 1 2; mkStats d0 3 4] 2 0) reset_stats reset_stats
                    reset_stats) t.
Definition example_state : acc_state :=
  mkAcc {[ "bob" := with_users (init_account "bob") ["bob_wp"; "bob_db"] ]}
    {[ "bob_wp" := example_user "bob_wp" 3; "bob_db" := example_user "bob_db" 4 ]} ∅ 4.

Lemma example_wf : acc_wf example_state.
Proof.
  assert (forall u us, users example_state !! u = Some us ->
    (u = "bob_wp" /\ us = example_user "bob_wp" 3) \/ (u = "bob_db" /\ us = example_user "bob_db" 4)) as Hus.
  { intros u us. cbn [users example_state]. rewrite lookup_insert_Some, lookup_singleton_Some.
    naive_solver. }
  assert (forall a ac, accounts example_state !! a = Some ac ->
    a = "bob" /\ ac = with_users (init_account "bob") ["bob_wp"; "bob_db"]) as Hac.
  { intros a ac. cbn [accounts example_state]. rewrite lookup_singleton_Some. naive_solver. }
  split.
  - by intros u us [[-> ->]|[-> ->]]%Hus.
  - intros u us [[-> ->]|[-> ->]]%Hus; (eexists; split; [reflexivity|simpl; set_solver]).
  - by intros a ac [-> ->]%Hac.
  - intros a ac u [-> ->]%Hac Hu. simpl in Hu. rewrite !elem_of_cons, elem_of_nil in Hu.
    destruct Hu as [->|[->|[]]]; (eexists; split; reflexivity).
  - intros a ac [-> ->]%Hac. simpl. apply list.NoDup_cons. split; [set_solver|apply NoDup_singleton].
  - by intros a ac [-> ->]%Hac.
  - intros u us [[-> ->]|[-> ->]]%Hus; split; simpl; lia.
  - intros u ua. cbn [user_account_table example_state]. by rewrite lookup_empty.
Qed.


(** The newest sample of a user, as [calc_acc_stats] reads it. *)
Definition newest_read (s : acc_state) (u : string) : Z :=
  match user_of s u with Some x => st_read (sm_current x) | None => 0 end.
Definition sum_reads (s : acc_state) (l : list string) : Z :=
  foldr (fun u t => newest_read s u + t) 0 l.

Lemma user_of_some s u us : acc_wf s -> users s !! u = Some us ->
  exists x, user_of s u = Some x.
Proof.
  intros Hw Hu. unfold user_of, user_sums. rewrite Hu. simpl.
  pose proof (wf_samples _ Hw _ _ Hu) as [Hs Hf].
  rewrite fifo_get_history by (split; lia).
  destruct (lookup_lt_is_Some_2 (history (us_stats (us_samples us))) (Z.to_nat 0)) as [x ->].
  { rewrite history_length. lia. }
  simpl. by eexists.
Qed.

Lemma sum_users_read s l acc :
  (forall u, u ∈ l -> exists x, user_of s u = Some x) ->
  exists t, sum_users s l acc = Some t
    /\ (in_s64 (st_read (sm_current acc)) ->
        st_read (sm_current t) = s64 (st_read (sm_current acc) + sum_reads s l)).
Proof.
  revert acc. induction l as [|u l IH]; intros acc Hl; simpl.
  - exists acc. split; [done|]. intros Ha. by rewrite Z.add_0_r, s64_id.
  - destruct (Hl u) as [x Hx]; [set_solver|]. rewrite Hx. simpl.
    destruct (IH (add_sums acc x)) as (t & -> & Et); [set_solver|].
    exists t. split; [done|]. intros _. rewrite Et by (simpl; apply s64_range). simpl. rewrite s64_add_l. f_equal.
    assert (newest_read s u = st_read (sm_current x)) as -> by (unfold newest_read; by rewrite Hx).
    lia.
Qed.

Lemma calc_acc_stats_sums `{HashOrder} (cfg : governor_config) (s : acc_state) :
  acc_wf s ->
  exists s', ht_foreach (accounts s) calc_acc_stats (Some s) = Some s'
    /\ acc_wf s' /\ users s' = users s /\ tick_id s' = tick_id s
    /\ forall a ac, accounts s !! a = Some ac -> exists ac', accounts s' !! a = Some ac'
       /\ ac_users ac' = ac_users ac
       /\ (ac_restricted ac', ac_timeout ac', ac_start_count ac', ac_info ac')
          = (ac_restricted ac, ac_timeout ac, ac_start_count ac, ac_info ac)
       /\ ((forall u, in_s64 (newest_read s u)) ->
           st_read (ac_current ac') = s64 (sum_reads s (ac_users ac))).
Proof.
  intros Hw.
  pose proof (ht_foreach_ind calc_acc_stats
    (fun done r => exists s', r = Some s' /\ acc_wf s' /\ users s' = users s /\ tick_id s' = tick_id s
       /\ (forall a, a ∉ done -> accounts s' !! a = accounts s !! a)
       /\ forall a ac, a ∈ done -> accounts s !! a = Some ac -> exists ac', accounts s' !! a = Some ac'
          /\ ac_users ac' = ac_users ac
          /\ (ac_restricted ac', ac_timeout ac', ac_start_count ac', ac_info ac')
             = (ac_restricted ac, ac_timeout ac, ac_start_count ac, ac_info ac)
          /\ ((forall u, in_s64 (newest_read s u)) ->
              st_read (ac_current ac') = s64 (sum_reads s (ac_users ac))))
    (accounts s) (Some s)) as G.
  destruct G as (s' & E & Hw' & Hu & Htk & _ & Hs).
  - exists s. split_and!; try done; intros a ac Ha; set_solver.
  - intros dn a ac r Ha Hfr (s1 & -> & Hw1 & Hu1 & Ht1 & Hnd & Hd). unfold calc_acc_stats.
    cbn [mbind option_bind].
    assert (forall u, user_of s1 u = user_of s u) as Huo by (intros; unfold user_of; by rewrite Hu1).
    assert (accounts s1 !! a = Some ac) as Ha1 by (by rewrite Hnd).
    assert (forall u, u ∈ ac_users ac -> exists x, user_of s1 u = Some x) as Hall.
    { intros u Hin. destruct (wf_account_users _ Hw1 a ac u Ha1 Hin) as (us & Hus & _).
      by eapply user_of_some. }
    pose proof (wf_account_nonempty _ Hw1 a ac Ha1) as Hne.
    destruct (ac_users ac) as [|u l] eqn:El; [done|].
    destruct (Hall u) as [x Hx]; [set_solver|]. rewrite Hx. cbn [mbind option_bind].
    assert (newest_read s u = st_read (sm_current x)) as En by
      (unfold newest_read; by rewrite <- Huo, Hx).
    destruct (sum_users_read s1 l x) as (t & -> & Et); [set_solver|].
    cbn [mbind option_bind]. eexists. split; [reflexivity|].
    split; [by eapply acc_wf_account; [..|simpl; rewrite El]|]. split; [done|]. split; [done|].
    cbn [accounts set_account]. split.
    + intros b Hb. rewrite lookup_insert_ne by set_solver. apply Hnd. set_solver.
    + intros b ac0 Hb H0. destruct (String.eqb_spec b a) as [->|Hne'].
      * rewrite lookup_insert_eq. eexists. split; [done|]. rewrite Ha in H0. injection H0 as <-.
        split; [done|]. split; [done|]. intros Hr. rewrite El. cbn [ac_current].
        rewrite Et by (rewrite <- En; apply Hr). simpl.
        rewrite En. f_equal. f_equal. unfold sum_reads, newest_read. clear -Huo.
        induction l as [|v l IH]; [done|]. cbn [foldr]. by rewrite Huo, IH.
      * rewrite lookup_insert_ne by done. apply Hd; set_solver.
  - exists s'. split_and!; try done. intros a ac Ha. apply Hs; [|done]. apply elem_of_dom. by exists ac.
Qed.

