(* ===== verification/MysqlConnector.v ===== *)
(** The connections of the daemon to MySQL
    ([src/mysql_connector_common.c]).  The client library and the servers
    behind it are the class [MySqlClient]; every call that reaches it is
    recorded, so that theorems can say what was asked. *)

From S2P Require Import Prelude CDouble CString Data.
Open Scope string_scope.
Open Scope Z_scope.

(** * The client library *)

(** A row of a result: its fields, some of them NULL. *)
Definition row_t : Type := list (option string).

Class MySqlClient := {
  client : Type;
  MYSQL : Type;
  mysql_init : client -> option MYSQL * client;
  (** host, user, password, database, socket; true when it succeeds. *)
  mysql_real_connect : client -> MYSQL -> option string -> option string -> option string ->
    option string -> option string -> bool * client;
  (** [mysql_options] with a group of the option files; true when it fails. *)
  mysql_read_default_group : client -> MYSQL -> string -> bool * client;
  mysql_opt_reconnect : client -> MYSQL -> client;
  (** True when they fail. *)
  mysql_ping : client -> MYSQL -> bool * client;
  mysql_query : client -> MYSQL -> string -> bool * client;
  mysql_store_result : client -> MYSQL -> option (list row_t) * client;
  mysql_close : client -> MYSQL -> client;
  mysql_real_escape_string : client -> MYSQL -> string -> string;
  mysql_escape_length : forall c m s, strlen (mysql_real_escape_string c m s) <= 2 * strlen s
}.

(** * State *)

(** The three connections of the program. *)
Inductive handle := mysql_send_governor | mysql_do_command | mysql_do_kill.
#[export] Instance handle_eq : EqDecision handle. Proof. solve_decision. Defined.

(** What was asked: a request of the program, a query sent for it, the
    making, opening, testing and closing of a connection. *)
Inductive call :=
  | CRequest (h : handle) (query : string)
  | CQuery (query : string) (ok : bool)
  | CInit | CPing (ok : bool) | CClose
  | CConnect (host user password name : option string) (ok : bool).

(** Parameters kept for a later connection. *)
Record globals := mkGlobals {
  global_user_name : string; global_host : string; global_user_password : string;
  global_db_name : string
}.

Section connector.
Context `{MySqlClient}.

Record db := mkDb {
  d_client : client;
  d_send : option MYSQL; d_command : option MYSQL; d_kill : option MYSQL;
  d_globals : globals; unix_socket_address : option string; work_user : string;
  is_plugin_version : Z;
  d_calls : list call
}.

Definition get_handle (h : handle) (d : db) : option MYSQL :=
  match h with
  | mysql_send_governor => d_send d
  | mysql_do_command => d_command d
  | mysql_do_kill => d_kill d
  end.

Definition set_handle (h : handle) (m : option MYSQL) (d : db) : db :=
  let pick h' old := if decide (h = h') then m else old in
  mkDb (d_client d) (pick mysql_send_governor (d_send d)) (pick mysql_do_command (d_command d))
    (pick mysql_do_kill (d_kill d)) (d_globals d) (unix_socket_address d) (work_user d)
    (is_plugin_version d) (d_calls d).

(** The library after a call, and the record of the call. *)
Definition called (c : client) (e : list call) (d : db) : db :=
  mkDb c (d_send d) (d_command d) (d_kill d) (d_globals d) (unix_socket_address d) (work_user d)
    (is_plugin_version d) (d_calls d ++ e)%list.
Definition set_globals (g : globals) (d : db) : db :=
  mkDb (d_client d) (d_send d) (d_command d) (d_kill d) g (unix_socket_address d) (work_user d)
    (is_plugin_version d) (d_calls d).
Definition set_socket (s : option string) (d : db) : db :=
  mkDb (d_client d) (d_send d) (d_command d) (d_kill d) (d_globals d) s (work_user d)
    (is_plugin_version d) (d_calls d).
Definition set_work_user (u : string) (d : db) : db :=
  mkDb (d_client d) (d_send d) (d_command d) (d_kill d) (d_globals d) (unix_socket_address d) u
    (is_plugin_version d) (d_calls d).
Definition set_plugin (n : Z) (d : db) : db :=
  mkDb (d_client d) (d_send d) (d_command d) (d_kill d) (d_globals d) (unix_socket_address d)
    (work_user d) n (d_calls d).

Definition init (d : db) : option MYSQL * db :=
  let '(m, c) := mysql_init (d_client d) in (m, called c [CInit] d).
Definition real_connect (m : MYSQL) (host user password name : option string) (d : db) : bool * db :=
  let '(ok, c) := mysql_real_connect (d_client d) m host user password name (unix_socket_address d) in
  (ok, called c [CConnect host user password name ok] d).
Definition opt_reconnect (m : MYSQL) (d : db) : db := called (mysql_opt_reconnect (d_client d) m) [] d.
Definition read_group (m : MYSQL) (group : string) (d : db) : bool * db :=
  let '(failed, c) := mysql_read_default_group (d_client d) m group in (failed, called c [] d).
Definition ping (m : MYSQL) (d : db) : bool * db :=
  let '(failed, c) := mysql_ping (d_client d) m in (failed, called c [CPing (negb failed)] d).
Definition query (m : MYSQL) (q : string) (d : db) : bool * db :=
  let '(failed, c) := mysql_query (d_client d) m q in (failed, called c [CQuery q (negb failed)] d).
Definition store_result (m : MYSQL) (d : db) : option (list row_t) * db :=
  let '(r, c) := mysql_store_result (d_client d) m in (r, called c [] d).
(** [mysql_close] does nothing to a null pointer. *)
Definition close (m : option MYSQL) (d : db) : db :=
  match m with Some m => called (mysql_close (d_client d) m) [CClose] d | None => d end.

(** * Opening *)

(** [load_defaults] of the library, when it has it: the options that
    [getopt_long] then finds. *)
Variable _load_defaults : option (list (ascii * option string)).

(** The options read: user, password; the socket is a global. *)
Definition read_option (o : ascii * option string) (acc : option string * option string * db)
    : option string * option string * db :=
  let '(user, password, d) := acc in
  let '(c, optarg) := o in
  if Ascii.eqb c "S" then (user, password, set_socket optarg d)
  else if Ascii.eqb c "r" then (user, password, d)
  else if Ascii.eqb c "g" then (optarg, password, d)
  else if Ascii.eqb c "j" then (user, optarg, d)
  else if Ascii.eqb c "i" then (user, optarg, d)
  else (user, password, d).

(** The groups of the option files, each read when the one before fails. *)
Definition read_groups (m : MYSQL) (d : db) : db :=
  let '(failed, d) := read_group m "client" d in
  if failed then
    let '(failed, d) := read_group m "mysqld" d in
    if failed then snd (read_group m "dbgovernor" d) else d
  else d.

Definition read_groups_if (m : MYSQL) (d : db) : db :=
  match _load_defaults with Some _ => d | None => read_groups m d end.

Definition save (save_global : bool) (host user password name : option string) (d : db) : db :=
  if save_global then
    set_globals (mkGlobals (strlcpy_str (default "" user) 128) (strlcpy_str (default "" host) 512)
                   (strlcpy_str (default "" password) 256) (strlcpy_str (default "" name) 512)) d
  else d.

Definition db_connect_common (h : handle) (host user_name user_password db_name : option string)
    (save_global : bool) (d : db) : Z * db :=
  match get_handle h d with
  | Some _ => (-1, d)
  | None =>
      let '(m, d) := init d in
      let d := set_handle h m d in
      match m with
      | None => (-1, d)
      | Some m =>
          let '(user, password, d) :=
            match _load_defaults with
            | Some l => fold_left (fun acc o => read_option o acc) l (None, None, d)
            | None => (None, None, read_groups m d)
            end in
          let d := set_work_user "" d in
          let d := match user_name with
                   | Some u => set_work_user (strlcpy_str u USERNAMEMAXLEN) d
                   | None => d
                   end in
          let d := opt_reconnect m d in
          let '(ok, d) := real_connect m host user_name user_password db_name d in
          if ok then (0, save save_global host user_name user_password db_name d)
          else
            let d := match user with
                     | Some u => set_work_user (strlcpy_str u USERNAMEMAXLEN) d
                     | None => d
                     end in
            let d := opt_reconnect m d in
            let '(ok, d) := real_connect m host user password db_name d in
            if ok then (0, save save_global host user password db_name d)
            else
              let d := opt_reconnect m d in
              let d := read_groups_if m d in
              let '(ok, d) := real_connect m None None None None d in
              (if ok then 0 else -1, d)
      end
  end.

Definition db_connect (host user_name user_password db_name : option string) (d : db) : Z * db :=
  let d := set_globals (mkGlobals "" "" "" "") d in
  let '(r, d) := db_connect_common mysql_send_governor host user_name user_password db_name true d in
  if r <? 0 then (-1, d)
  else
    let '(r, d) := db_connect_common mysql_do_command host user_name user_password db_name false d in
    if r <? 0 then (-1, d)
    else
      let '(r, d) := db_connect_common mysql_do_kill host user_name user_password db_name false d in
      (if r <? 0 then -1 else 0, d).

Definition close_handle (h : handle) (d : db) : db := set_handle h None (close (get_handle h d) d).
Definition db_close_kill : db -> db := close_handle mysql_do_kill.
Definition db_close_command : db -> db := close_handle mysql_do_command.
Definition db_close_send : db -> db := close_handle mysql_send_governor.
Definition db_close (d : db) : db := db_close_send (db_close_command (db_close_kill d)).

Definition non_empty (s : string) : option string := if String.eqb s "" then None else Some s.

Definition local_reconnect (h : handle) (d : db) : Z * db :=
  let d := set_handle h None (close (get_handle h d) d) in
  let '(m, d) := init d in
  let d := set_handle h m d in
  match m with
  | None => (-1, d)
  | Some m =>
      let g := d_globals d in
      let d := opt_reconnect m d in
      let '(ok, d) := real_connect m (Some (global_host g)) (non_empty (global_user_name g))
                        (non_empty (global_user_password g)) (Some (global_db_name g)) d in
      if ok then (0, d)
      else
        let d := opt_reconnect m d in
        let d := read_groups_if m d in
        let '(ok, d) := real_connect m None None None None d in
        (if ok then 0 else -1, d)
  end.

(** * Requests *)

Definition EXEC_QUERY_TRIES : Z := 3.

(** The loop over the query; [None] when the connection is null, which the
    library does not allow. *)
Fixpoint query_loop (fuel : nat) (execution_counters : Z) (q : string) (h : handle) (d : db)
    : option (Z * db) :=
  match fuel with
  | O => None
  | S fuel =>
      m ← get_handle h d;
      let '(failed, d) := query m q d in
      if failed then
        let execution_counters := execution_counters - 1 in
        let d := if execution_counters =? 1 then snd (local_reconnect h d) else d in
        if execution_counters =? 0 then Some (-1, d)
        else query_loop fuel execution_counters q h d
      else Some (0, d)
  end.

Definition db_mysql_exec_query (q : string) (h : handle) (d : db) : option (Z * db) :=
  let d := called (d_client d) [CRequest h q] d in
  m ← get_handle h d;
  let '(failed, d) := ping m d in
  let '(r, d) := if failed then local_reconnect h d else (0, d) in
  if r <? 0 then Some (-1, d)
  else query_loop (Z.to_nat EXEC_QUERY_TRIES) EXEC_QUERY_TRIES q h d.

(** ** What a field holds *)

Fixpoint get_integer_loop (s : string) (result_number : Z) : Z :=
  match s with
  | String c s =>
      if (48 <=? code c) && (code c <=? 57)
      then get_integer_loop s (s64 (result_number * 10 + (code c - 48)))
      else result_number
  | EmptyString => result_number
  end.
Definition db_mysql_get_integer (result : string) : Z := get_integer_loop result 0.

Definition tenth : double := ddiv d1 (dof_Z 10).

Fixpoint get_float_loop (s : string) (result_number after_point_mul : double) (after_point : bool)
    : double :=
  match s with
  | String c s =>
      if Ascii.eqb c Ascii.zero then result_number
      else
        let mul := if after_point then dmul after_point_mul tenth else after_point_mul in
        let after := if Ascii.eqb c "." || Ascii.eqb c "," then true else after_point in
        let v := dof_Z (code c - 48) in
        let r := if (48 <=? code c) && (code c <=? 57) then
                   if after then dadd result_number (dmul v mul)
                   else dadd (dmul result_number (dof_Z 10)) v
                 else result_number in
        get_float_loop s r mul after
  | EmptyString => result_number
  end.
Definition db_mysql_get_float (result : string) : double := get_float_loop result d0 d1 false.

(** The text left in a buffer of [max_bufer_len] bytes; [None] when the NUL
    is written behind it. *)
Definition db_mysql_get_string (result : option string) (max_bufer_len : Z) : option string :=
  let s := default "" result in
  if max_bufer_len <? strlen s then Some (prefix_n (max_bufer_len - 1) s)
  else if strlen s =? max_bufer_len then None
  else Some s.

(** ** Requests without an answer *)

(** The result is fetched and dropped, whether or not the request worked. *)
Definition drop_result (h : handle) (d : db) : option db :=
  m ← get_handle h d; Some (snd (store_result m d)).

Definition run (q : string) (h : handle) (d : db) : option db :=
  '(_, d) ← db_mysql_exec_query q h d; drop_result h d.

Definition escaped (m : MYSQL) (user_name : string) (d : db) : string :=
  mysql_real_escape_string (d_client d) m user_name.

Definition run_for_user (before after : string) (n : Z) (user_name : string) (d : db) : option db :=
  match d_command d with
  | None => Some d
  | Some m => run (prefix_n n (before +:+ escaped m user_name d +:+ after)) mysql_do_command d
  end.

Definition flush_user_priv (d : db) : option db :=
  match d_command d with
  | None => Some d
  | Some _ => run "FLUSH PRIVILEGES" mysql_do_command d
  end.

Definition update_user_limit_no_flush (user_name : string) (limit : Z) : db -> option db :=
  run_for_user ("update mysql.user set max_user_connections=" +:+ dec limit +:+ " where User='") "'"
    8190 user_name.
Definition update_user_limit (user_name : string) (limit : Z) (d : db) : option db :=
  d ← update_user_limit_no_flush user_name limit d; flush_user_priv d.
Definition kill_query : string -> db -> option db := run_for_user "KILL QUERY '" "'" 8191.
Definition kill_connection : string -> db -> option db := run_for_user "KILL CONNECTION '" "'" 8191.
Definition lve_connection (user_name : string) (d : db) : option db :=
  match d_command d with
  | None => None
  | Some _ => run_for_user "LVECMD '" "'" 8191 user_name d
  end.

Definition kill_query_by_id (id : Z) (h : handle) (d : db) : option db :=
  match get_handle h d with
  | None => Some d
  | Some _ => run (prefix_n 8190 ("KILL CONNECTION " +:+ dec id)) h d
  end.

Definition then_flush (q : string) (d : db) : option db :=
  '(r, d) ← db_mysql_exec_query q mysql_do_command d;
  if nonzero r then Some d else flush_user_priv d.

Definition unfreaze_all : db -> option db :=
  then_flush (prefix_n 2046 ("update mysql.user set max_user_connections=0 where max_user_connections="
                             +:+ dec (u64 (-1)))).
Definition unfreaze_lve : db -> option db :=
  then_flush "update mysql.user set max_user_connections=0 where max_user_connections<>0".
Definition unfreaze_daily (d : db) : option db :=
  match d_command d with
  | None => Some d
  | Some _ => then_flush (prefix_n 2046 ("update mysql.user set max_user_connections=0 where max_user_connections="
                                         +:+ dec (u64 (-1)))) d
  end.

(** ** Modes of the server *)

(** The text for a server with the plugin and the one without. *)
Definition enable (plg plain : string) (d : db) : option db :=
  '(_, d) ← db_mysql_exec_query (if nonzero (is_plugin_version d) then plg else plain)
              mysql_send_governor d;
  match d_send d with
  | Some m => Some (snd (store_result m d))
  | None => Some d
  end.

Definition governor_enable : db -> option db :=
  enable "SET GLOBAL governor_enable = true" "ENABLE_GOVERNOR".
Definition governor_enable_reconn : db -> option db :=
  enable "SET GLOBAL governor_enable_reconnect = true" "ENABLE_GOVERNOR_RECON".
Definition governor_enable_lve : db -> option db :=
  enable "SET GLOBAL governor_enable_lve = true" "ENABLE_GOVERNOR_LVE".
Definition governor_enable_reconn_lve : db -> option db :=
  enable "SET GLOBAL governor_enable_reconnect_lve = true" "ENABLE_GOVERNOR_RECON_LVE".

(** ** Questions *)

(** The rows that answer a request; a null result is not looked through. *)
Definition rows_of (h : handle) (d : db) : option (list row_t * db) :=
  m ← get_handle h d;
  let '(res, d) := store_result m d in
  rows ← res; Some (rows, d).

Definition contains (s key : string) : bool :=
  match strstr s key with Some _ => true | None => false end.

(** [None] also when the end of the function is reached without a value:
    the plugin is listed but not active. *)
Definition check_mysql_version (d : db) : option (Z * db) :=
  match d_send d with
  | None => Some (0, d)
  | Some _ =>
      '(r, d) ← db_mysql_exec_query "SELECT VERSION()" mysql_send_governor d;
      if nonzero r then Some (0, d)
      else
        '(rows, d) ← rows_of mysql_send_governor d;
        match rows with
        | [] => Some (0, d)
        | row :: _ =>
            f ← row !! 0%nat; buffer ← db_mysql_get_string f 2048;
            if contains buffer "-cll-lve" then Some (1, d)
            else
              '(r, d) ← db_mysql_exec_query
                "select PLUGIN_STATUS from INFORMATION_SCHEMA.PLUGINS where PLUGIN_NAME='GOVERNOR'"
                mysql_send_governor d;
              if nonzero r then Some (0, d)
              else
                '(rows, d) ← rows_of mysql_send_governor d;
                match rows with
                | [] => Some (1, d)
                | row :: _ =>
                    f ← row !! 0%nat; buffer ← db_mysql_get_string f 2048;
                    if contains buffer "ACTIVE" then Some (1, set_plugin 1 d) else None
                end
        end
  end.

Definition get_work_user (d : db) : string := work_user d.
Definition get_mysql_connect : handle := mysql_do_kill.

(** Whether one of the rows names the plugin. *)
Fixpoint plugin_listed (rows : list row_t) (found : bool) : option bool :=
  match rows with
  | [] => Some found
  | row :: rows =>
      f ← row !! 0%nat; buffer ← db_mysql_get_string f 2048;
      plugin_listed rows (found || strcasecmp_eq (prefix_n 2048 buffer) "GOVERNOR")
  end.

(** The result of the installation is fetched from the connection of the
    commands. *)
Definition activate_plugin (d : db) : option (Z * db) :=
  if nonzero (is_plugin_version d) then
    match d_send d with
    | None => Some (0, d)
    | Some _ =>
        '(r, d) ← db_mysql_exec_query "show plugins" mysql_send_governor d;
        if nonzero r then Some (0, d)
        else
          '(rows, d) ← rows_of mysql_send_governor d;
          found ← plugin_listed rows false;
          if found : bool then Some (1, d)
          else
            '(r, d) ← db_mysql_exec_query "INSTALL PLUGIN governor SONAME 'governor.so'"
                        mysql_send_governor d;
            if nonzero r then Some (0, d)
            else d ← drop_result mysql_do_command d; Some (1, d)
    end
  else Some (1, d).

(** ** The log of the queries of a user *)

(** The directory of the logs and the one of the day, made and entered. *)
Definition create_dir (mkdir chdir mkdir_day chdir_day : bool) : bool :=
  mkdir && chdir && mkdir_day && chdir_day.

Fixpoint user_queries (user_name : string) (rows : list row_t) : option (list string) :=
  match rows with
  | [] => Some []
  | row :: rows =>
      u ← row !! 1%nat; u ← u;
      if strcmp_eq u user_name then
        f ← row !! 7%nat; buffer ← db_mysql_get_string f 8192;
        l ← user_queries user_name rows; Some (buffer :: l)
      else user_queries user_name rows
  end.

(** The file written, if one is: its name and its lines. *)
Definition log_user_queries (dirs fopen : bool) (now : Z) (user_name : string) (d : db)
    : option (option (string * list string) * db) :=
  match d_command d with
  | None => Some (None, d)
  | Some _ =>
      '(r, d) ← db_mysql_exec_query "SHOW FULL PROCESSLIST" mysql_do_command d;
      if nonzero r then Some (None, d)
      else
        '(rows, d) ← rows_of mysql_do_command d;
        if dirs && negb (bool_decide (rows = [])) && fopen then
          l ← user_queries user_name rows;
          Some (Some (prefix_n (USERNAMEMAXLEN + 1 + 10 - 1) (user_name +:+ "." +:+ dec now), l), d)
        else Some (None, d)
  end.
End connector.

(** * Lemmas *)

(** The results of the queries among the calls, and the requests. *)
Definition sent_of (e : list call) : list (string * bool) :=
  omap (fun c => match c with CQuery q ok => Some (q, ok) | _ => None end) e.
Definition requests_of (e : list call) : list (handle * string) :=
  omap (fun c => match c with CRequest h q => Some (h, q) | _ => None end) e.
Definition connects_of (e : list call) : nat :=
  length (List.filter (fun c => match c with CConnect _ _ _ _ _ => true | _ => false end) e).

Lemma sent_of_app a b : sent_of (a ++ b)%list = (sent_of a ++ sent_of b)%list.
Proof. unfold sent_of. apply omap_app. Qed.
Lemma requests_of_app a b : requests_of (a ++ b)%list = (requests_of a ++ requests_of b)%list.
Proof. unfold requests_of. apply omap_app. Qed.

Section facts.
Context `{MySqlClient} (ld : option (list (ascii * option string))).

(** There is memory for a connection. *)
Definition memory : Prop := forall c, is_Some (fst (mysql_init c)).

(** A step that works on the connection [h] alone and asks for [e]. *)
Definition moves (h : handle) (d : db) (e : list call) (d' : db) : Prop :=
  d_calls d' = (d_calls d ++ e)%list /\ is_Some (get_handle h d')
  /\ forall h', h' <> h -> get_handle h' d' = get_handle h' d.

Lemma get_set h m d : get_handle h (set_handle h m d) = m.
Proof. by destruct h. Qed.
Lemma get_set_ne h h' m d : h' <> h -> get_handle h' (set_handle h m d) = get_handle h' d.
Proof. by destruct h, h'. Qed.
Lemma get_called h c e d : get_handle h (called c e d) = get_handle h d.
Proof. by destruct h. Qed.
Lemma calls_set h m d : d_calls (set_handle h m d) = d_calls d.
Proof. done. Qed.
Lemma close_called m d : exists c e, close m d = called c e d /\ sent_of e = [] /\ requests_of e = [].
Proof.
  destruct m as [m|]; [by exists (mysql_close (d_client d) m), [CClose]|].
  exists (d_client d), []. split; [|done]. destruct d. unfold called. simpl. by rewrite app_nil_r.
Qed.

Lemma get_close h h' d : get_handle h' (close_handle h d) = if decide (h' = h) then None else get_handle h' d.
Proof.
  unfold close_handle. destruct (close_called (get_handle h d) d) as (c & e & -> & _).
  destruct (decide (h' = h)) as [->|]; [apply get_set|]. by rewrite get_set_ne, get_called.
Qed.

Lemma called_calls c e d : d_calls (called c e d) = (d_calls d ++ e)%list.
Proof. done. Qed.

Lemma read_groups_called m d : exists c, read_groups m d = called c [] d.
Proof.
  assert (forall c1 c2, called c2 [] (called c1 [] d) = called c2 [] d) as Hc.
  { intros. unfold called. simpl. by rewrite !app_nil_r. }
  unfold read_groups, read_group. destruct (mysql_read_default_group _ m "client") as [[] c]; [|by eexists].
  destruct (mysql_read_default_group _ m "mysqld") as [[] c']; [|exists c'; apply Hc].
  destruct (mysql_read_default_group _ m "dbgovernor") as [f c'']. exists c''. cbn [snd]. by rewrite !Hc.
Qed.

Lemma read_groups_if_called m d : exists c, read_groups_if ld m d = called c [] d.
Proof.
  unfold read_groups_if. destruct ld; [|apply read_groups_called].
  exists (d_client d). destruct d. unfold called. simpl. by rewrite app_nil_r.
Qed.

(** What making a connection anew asks for, and whether it opened: with the
    parameters kept, then with those of the option files. *)
Definition reconnects (e : list call) (ok : bool) : Prop :=
  exists host user password name o1 o2,
    e = ([CClose; CInit; CConnect host user password name o1]
         ++ if o1 then [] else [CConnect None None None None o2])%list /\ ok = o1 || o2.

Lemma reconnects_quiet e ok : reconnects e ok -> sent_of e = [] /\ requests_of e = [].
Proof. intros (? & ? & ? & ? & o1 & o2 & -> & _). by destruct o1. Qed.

(** It leaves a connection, whether or not it opens. *)
Lemma local_reconnect_moves h d : memory -> is_Some (get_handle h d) ->
  exists ok e d', local_reconnect ld h d = (if ok : bool then 0 else -1, d') /\ moves h d e d' /\ reconnects e ok.
Proof.
  intros Hm [m0 H0]. unfold local_reconnect. rewrite H0. cbn [close]. unfold init.
  set (d0 := set_handle h None _). destruct (mysql_init (d_client d0)) as [m c1] eqn:Ei.
  destruct (Hm (d_client d0)) as [m' Em]. rewrite Ei in Em. cbn [fst] in Em. subst m.
  unfold opt_reconnect, real_connect. set (g := d_globals _). set (d1 := set_handle h (Some m') _).
  assert (d_calls d1 = (d_calls d ++ [CClose; CInit])%list
    /\ get_handle h d1 = Some m' /\ forall h', h' <> h -> get_handle h' d1 = get_handle h' d)
    as (Ec & Hg & Ho).
  { unfold d1, d0. rewrite calls_set, called_calls, calls_set, called_calls, <- app_assoc.
    repeat split; [by rewrite get_set|].
    intros h' Hne. by rewrite get_set_ne, get_called, get_set_ne, get_called. }
  clearbody d1 d0. destruct (mysql_real_connect _ m' _ _ _ _ _) as [[] c2].
  - eexists true, _, _. split; [reflexivity|]. split; [|by eexists _, _, _, _, true, true].
    split; [rewrite !called_calls, Ec, <- !app_assoc; reflexivity|].
    rewrite !get_called, Hg. split; [by eexists|]. intros h' Hne. rewrite !get_called. by apply Ho.
  - match goal with |- context [read_groups_if ld m' ?x] => destruct (read_groups_if_called m' x) as [c3 ->] end.
    destruct (mysql_real_connect _ m' None None None None _) as [ok c4].
    eexists ok, _, _. split; [reflexivity|]. split; [|by eexists _, _, _, _, false, ok].
    split; [rewrite !called_calls, Ec, <- !app_assoc; reflexivity|].
    rewrite !get_called, Hg. split; [by eexists|]. intros h' Hne. rewrite !get_called. by apply Ho.
Qed.

Lemma moves_trans h d e d' e' d'' : moves h d e d' -> moves h d' e' d'' -> moves h d (e ++ e')%list d''.
Proof.
  intros (Hc & _ & Ho) (Hc' & Hh & Ho'). split; [by rewrite Hc', Hc, app_assoc|]. split; [done|].
  intros h' Hne. by rewrite Ho', Ho.
Qed.

(** ** The attempts *)

(** One query. *)
Lemma query_moves m q h d : get_handle h d = Some m -> exists failed d', query m q d = (failed, d')
  /\ moves h d [CQuery q (negb failed)] d'.
Proof.
  intros Hm. unfold query. destruct (mysql_query (d_client d) m q) as [failed c]. exists failed. eexists.
  split; [reflexivity|]. split; [done|]. rewrite get_called, Hm. split; [by eexists|]. intros. by rewrite get_called.
Qed.

(** The query is sent until it works, with a new connection before the last
    of three attempts. *)
Definition attempts (q : string) (e : list call) (r : Z) : Prop :=
  e = [CQuery q true] /\ r = 0
  \/ e = [CQuery q false; CQuery q true] /\ r = 0
  \/ exists rc ok b, reconnects rc ok
       /\ e = ([CQuery q false; CQuery q false] ++ rc ++ [CQuery q b])%list /\ r = if b : bool then 0 else -1.

Lemma query_loop_moves q h d : memory -> is_Some (get_handle h d) ->
  exists r e d', query_loop ld 3 3 q h d = Some (r, d') /\ moves h d e d' /\ attempts q e r.
Proof.
  intros Hmem [m Hm]. cbn [query_loop]. rewrite Hm. cbn [mbind option_bind].
  destruct (query_moves m q h d Hm) as (f1 & d1 & -> & M1). destruct f1; cbn [negb] in M1.
  2: { eexists 0, _, d1. split; [done|]. split; [exact M1|]. by left. }
  change (3 - 1 =? 0) with false. change (3 - 1 =? 1) with false. cbv iota.
  pose proof M1 as (_ & [m1 Hm1] & _). rewrite Hm1. cbn [mbind option_bind].
  destruct (query_moves m1 q h d1 Hm1) as (f2 & d2 & -> & M2). pose proof (moves_trans _ _ _ _ _ _ M1 M2) as M12.
  destruct f2; cbn [negb] in M2, M12.
  2: { eexists 0, _, d2. split; [done|]. split; [exact M12|]. right. by left. }
  change (3 - 1 - 1 =? 0) with false. change (3 - 1 - 1 =? 1) with true. change (3 - 1 - 1 - 1 =? 0) with true. cbv iota.
  destruct (local_reconnect_moves h d2 Hmem ltac:(apply M2)) as (ok & rc & d3 & -> & M3 & R). cbn [snd].
  pose proof (moves_trans _ _ _ _ _ _ M12 M3) as M13.
  pose proof M3 as (_ & [m3 Hm3] & _). rewrite Hm3. cbn [mbind option_bind].
  destruct (query_moves m3 q h d3 Hm3) as (f3 & d4 & -> & M4). pose proof (moves_trans _ _ _ _ _ _ M13 M4) as M14.
  eexists (if f3 then -1 else 0), _, d4. split; [by destruct f3|]. split; [exact M14|]. right. right.
  exists rc, ok, (negb f3). split; [done|]. split; [by rewrite <- !app_assoc|by destruct f3].
Qed.

Lemma attempts_sent q e r : attempts q e r -> requests_of e = []
  /\ (r = 0 /\ (exists k, (k < 3)%nat /\ sent_of e = (replicate k (q, false) ++ [(q, true)])%list)
      \/ r = -1 /\ sent_of e = replicate 3 (q, false)).
Proof.
  intros [[-> ->]|[[-> ->]|(rc & ok & b & R & -> & ->)]].
  - split; [done|]. left. split; [done|]. exists 0%nat. split; [lia|done].
  - split; [done|]. left. split; [done|]. exists 1%nat. split; [lia|done].
  - destruct (reconnects_quiet _ _ R) as [Rs Rr]. rewrite !requests_of_app, !sent_of_app, Rs, Rr.
    split; [done|]. destruct b; [left|by right]. split; [done|]. exists 2%nat. split; [lia|done].
Qed.

(** A request over a connection: the connection is tested, made anew when it
    is lost, and when that fails nothing is sent. *)
Definition outcome_of (q : string) (e : list call) (r : Z) : Prop :=
  exists open e1 e2, e = (e1 ++ e2)%list
    /\ (e1 = [CPing true] /\ open = true \/ exists rc, e1 = CPing false :: rc /\ reconnects rc open)
    /\ if open : bool then attempts q e2 r else e2 = [] /\ r = -1.

Definition requested (q : string) (h : handle) (d : db) (r : Z) (e : list call) (d' : db) : Prop :=
  moves h d (CRequest h q :: e) d' /\ requests_of e = [] /\ outcome_of q e r.

Lemma exec_query_spec q h d : memory -> is_Some (get_handle h d) ->
  exists r e d', db_mysql_exec_query ld q h d = Some (r, d') /\ requested q h d r e d'.
Proof.
  intros Hmem [m Hm]. unfold db_mysql_exec_query. set (d0 := called (d_client d) _ d).
  assert (get_handle h d0 = Some m) as -> by (unfold d0; by rewrite get_called). cbn [mbind option_bind]. unfold ping.
  destruct (mysql_ping (d_client d0) m) as [failed c] eqn:Ep. set (d1 := called c _ d0).
  assert (moves h d [CRequest h q; CPing (negb failed)] d1) as M1.
  { split; [unfold d1, d0; by rewrite !called_calls, <- app_assoc|]. unfold d1, d0. rewrite !get_called, Hm.
    split; [by eexists|]. intros. by rewrite !get_called. }
  assert (exists (open : bool) e d2, (if failed then local_reconnect ld h d1 else (0, d1)) = (if open then 0 else -1, d2)
    /\ moves h d (CRequest h q :: CPing (negb failed) :: e) d2 /\ requests_of e = []
    /\ (e = [] /\ failed = false /\ open = true \/ failed = true /\ reconnects e open))
    as (open & e & d2 & -> & M2 & Hr & Hd).
  { destruct failed; [|exists true, [], d1; split; [done|]; split; [exact M1|]; split; [done|]; by left].
    destruct (local_reconnect_moves h d1 Hmem ltac:(apply M1)) as (ok & e & d2 & -> & M & R).
    exists ok, e, d2. split; [done|]. split; [exact (moves_trans _ _ _ _ _ _ M1 M)|].
    split; [by apply (reconnects_quiet e ok)|by right]. }
  assert (outcome_head : CPing (negb failed) :: e = [CPing true] /\ open = true
            \/ exists rc, CPing (negb failed) :: e = CPing false :: rc /\ reconnects rc open).
  { destruct Hd as [(-> & -> & ->)|[-> R]]; [by left|right; by eexists]. }
  destruct open; cbn [Z.ltb].
  - destruct (query_loop_moves q h d2 Hmem ltac:(apply M2)) as (r & e' & d' & E & M' & Ha).
    exists r, ((CPing (negb failed) :: e) ++ e')%list, d'. split; [exact E|].
    split; [exact (moves_trans _ _ _ _ _ _ M2 M')|]. split; [|by eexists true, _, e'].
    rewrite requests_of_app. cbn. fold (requests_of e). by rewrite Hr, (proj1 (attempts_sent _ _ _ Ha)).
  - exists (-1), (CPing (negb failed) :: e), d2. split; [reflexivity|]. split; [done|]. split; [exact Hr|].
    exists false, (CPing (negb failed) :: e), []. by rewrite app_nil_r.
Qed.

Lemma store_called m d : exists r c, store_result m d = (r, called c [] d).
Proof. unfold store_result. destruct (mysql_store_result _ _) as [r c]. by eexists _, _. Qed.

Lemma run_moves q h d : memory -> is_Some (get_handle h d) ->
  exists e d', run ld q h d = Some d' /\ moves h d (CRequest h q :: e) d' /\ requests_of e = [].
Proof.
  intros Hm Hh. destruct (exec_query_spec q h d Hm Hh) as (r & e & d' & E & (Hc & [m' Hm'] & Ho) & Hr & _).
  unfold run, drop_result. rewrite E. cbn [mbind option_bind]. rewrite Hm'. cbn [mbind option_bind].
  destruct (store_called m' d') as (res & c & ->). exists e, (called c [] d'). split; [done|]. split; [|done].
  split; [by rewrite called_calls, app_nil_r|]. rewrite get_called, Hm'. split; [by eexists|].
  intros h' Hne. rewrite get_called. by apply Ho.
Qed.
End facts.

(** ** Opening keeps what it made *)

Section opening.
Context `{MySqlClient} (ld : option (list (ascii * option string))).

(** No connection is made or closed. *)
Definition same_handles (d d' : db) : Prop := forall h, get_handle h d' = get_handle h d.

Lemma same_handles_trans d d' d'' : same_handles d d' -> same_handles d' d'' -> same_handles d d''.
Proof. intros A B h. by rewrite B, A. Qed.
Lemma same_called c e d : same_handles d (called c e d).
Proof. intros h. by destruct h. Qed.
Lemma same_set_globals g d : same_handles d (set_globals g d).
Proof. intros h. by destruct h. Qed.
Lemma same_set_work_user u d : same_handles d (set_work_user u d).
Proof. intros h. by destruct h. Qed.

Lemma same_connect m host user password name d :
  same_handles d (snd (real_connect m host user password name d)).
Proof. unfold real_connect. destruct (mysql_real_connect _ _ _ _ _ _ _). apply same_called. Qed.

Lemma same_save b host user password name d : same_handles d (save b host user password name d).
Proof. destruct b; [apply same_set_globals|done]. Qed.

Lemma same_options l user password d : same_handles d (fold_left (fun acc o => read_option o acc) l (user, password, d)).2.
Proof.
  revert user password d. induction l as [|[c o] l IH]; intros user password d; [done|]. cbn [fold_left read_option].
  destruct (Ascii.eqb c "S"); [apply (same_handles_trans _ (set_socket o d)); [intros h; by destruct h|apply IH]|].
  by repeat (destruct (Ascii.eqb c _); [apply IH|]); apply IH.
Qed.

(** The connections are made even when none of the attempts opens one. *)
Lemma db_connect_common_made h host user password name b d r d' : memory ->
  get_handle h d = None -> db_connect_common ld h host user password name b d = (r, d') ->
  is_Some (get_handle h d') /\ forall h', h' <> h -> get_handle h' d' = get_handle h' d.
Proof.
  intros Hm Hn. unfold db_connect_common. rewrite Hn. unfold init.
  destruct (mysql_init (d_client d)) as [m c] eqn:Ei.
  destruct (Hm (d_client d)) as [m' Em]. rewrite Ei in Em. cbn [fst] in Em. subst m.
  set (d1 := set_handle h (Some m') (called c [CInit] d)). intros E.
  assert (same_handles d1 d') as Hs.
  2: { rewrite Hs. unfold d1. rewrite get_set. split; [by eexists|]. intros h' Hne. rewrite Hs. unfold d1.
       by rewrite get_set_ne, get_called. }
  clearbody d1. clear -E.
  destruct (match ld with Some l => _ | None => _ end) as [[u p] d2] eqn:E2.
  assert (same_handles d1 d2) as H2.
  { destruct ld as [l|]; [pose proof (same_options l None None d1) as Ho; by rewrite E2 in Ho|].
    destruct (read_groups_called m' d1) as [c' Eg]. rewrite Eg in E2. injection E2 as _ _ <-. apply same_called. }
  eapply same_handles_trans; [exact H2|]. clear H2 E2 d1.
  set (d3 := opt_reconnect _ _) in E. assert (same_handles d2 d3) as H3.
  { unfold d3, opt_reconnect. by destruct user; intros h'; destruct h'. }
  eapply same_handles_trans; [exact H3|]. clearbody d3. clear H3 d2.
  pose proof (same_connect m' host user password name d3) as H4. destruct (real_connect m' host user password name d3) as [[] d4].
  { injection E as _ <-. eapply same_handles_trans; [exact H4|apply same_save]. }
  eapply same_handles_trans; [exact H4|]. clear H4.
  set (d5 := opt_reconnect _ _) in E. assert (same_handles d4 d5) as H5 by (unfold d5; by destruct u; intros h'; destruct h').
  eapply same_handles_trans; [exact H5|]. clearbody d5. clear H5.
  pose proof (same_connect m' host u p name d5) as H6. destruct (real_connect m' host u p name d5) as [[] d6].
  { injection E as _ <-. eapply same_handles_trans; [exact H6|apply same_save]. }
  eapply same_handles_trans; [exact H6|]. clear H6.
  destruct (read_groups_if_called ld m' (opt_reconnect m' d6)) as [c' Eg]. rewrite Eg in E.
  set (d7 := called c' _ _) in E. assert (same_handles d6 d7) as H7 by (unfold d7; intros h'; by destruct h').
  eapply same_handles_trans; [exact H7|].
  pose proof (same_connect m' None None None None d7) as H8. destruct (real_connect m' None None None None d7) as [ok d8].
  injection E as _ <-. exact H8.
Qed.

(** With a connection that was made before, opening fails at once. *)
Lemma db_connect_again host user password name d : is_Some (get_handle mysql_send_governor d) ->
  db_connect ld host user password name d = (-1, set_globals (mkGlobals "" "" "" "") d).
Proof. intros [m Hm]. unfold db_connect, db_connect_common. cbn [get_handle set_globals d_send] in *. by rewrite Hm. Qed.

(** Opening makes the first connection, whatever becomes of it. *)
Lemma db_connect_made host user password name d : memory -> (forall h, get_handle h d = None) ->
  is_Some (get_handle mysql_send_governor (snd (db_connect ld host user password name d))).
Proof.
  intros Hm Hn'. unfold db_connect. set (d0 := set_globals _ d).
  assert (forall h, get_handle h d0 = None) as Hn by (intros h; unfold d0; rewrite same_set_globals; apply Hn').
  destruct (db_connect_common ld mysql_send_governor host user password name true d0) as [r d1] eqn:E1.
  destruct (db_connect_common_made _ _ _ _ _ _ d0 _ _ Hm (Hn _) E1) as [H1 O1].
  destruct (r <? 0); [done|].
  destruct (db_connect_common ld mysql_do_command host user password name false d1) as [r2 d2] eqn:E2.
  destruct (db_connect_common_made _ _ _ _ _ _ d1 _ _ Hm ltac:(rewrite (O1 mysql_do_command) by discriminate; apply Hn) E2) as [_ O2].
  assert (is_Some (get_handle mysql_send_governor d2)) as H2 by (by rewrite O2).
  destruct (r2 <? 0); [done|].
  destruct (db_connect_common ld mysql_do_kill host user password name false d2) as [r3 d3] eqn:E3.
  destruct (db_connect_common_made _ _ _ _ _ _ d2 _ _ Hm ltac:(rewrite (O2 mysql_do_kill), (O1 mysql_do_kill) by discriminate; apply Hn) E3) as [_ O3].
  cbn [snd]. by rewrite O3.
Qed.
End opening.

(** [db_mysql_get_integer] is [strtol] on a text that begins with a digit
    and holds a number that fits. *)
Lemma digit_val_10 c : digit_val 10 c = if isdigit c then Some (code c - 48) else None.
Proof.
  unfold digit_val, isdigit. destruct ((48 <=? code c) && (code c <=? 57)) eqn:Ed.
  - apply andb_true_iff in Ed as [E1%Z.leb_le E2%Z.leb_le]. by destruct (Z.ltb_spec (code c - 48) 10); [|lia].
  - cbv zeta. destruct ((97 <=? code (tolower c)) && _) eqn:Ea; [|done].
    apply andb_true_iff in Ea as [E1%Z.leb_le _]. by destruct (Z.ltb_spec (code (tolower c) - 87) 10); [lia|].
Qed.

Lemma scan_digits_mono s a : 0 <= a -> a <= fst (scan_digits 10 s a).
Proof.
  revert a. induction s as [|x s IH]; intros a Ha; [done|]. cbn [scan_digits]. rewrite digit_val_10.
  destruct (isdigit x) eqn:Ed; [|done]. unfold isdigit in Ed. apply andb_true_iff in Ed as [E1%Z.leb_le _].
  etransitivity; [|apply IH; lia]. lia.
Qed.

Lemma get_integer_scan s acc : 0 <= acc -> fst (scan_digits 10 s acc) < 2 ^ 63 ->
  get_integer_loop s acc = fst (scan_digits 10 s acc).
Proof.
  revert acc. induction s as [|c s IH]; intros acc Ha Hf; [done|]. cbn [scan_digits get_integer_loop] in *.
  rewrite digit_val_10 in *. change ((48 <=? code c) && (code c <=? 57)) with (isdigit c).
  destruct (isdigit c) eqn:Ed; [|done]. unfold isdigit in Ed. apply andb_true_iff in Ed as [E1%Z.leb_le _].
  pose proof (scan_digits_mono s (acc * 10 + (code c - 48)) ltac:(lia)).
  rewrite s64_id by (unfold in_s64; lia). apply IH; [lia|done].
Qed.

Lemma get_integer_strtol s : isdigit (first_char s) = true -> fst (scan_digits 10 s 0) < 2 ^ 63 ->
  db_mysql_get_integer s = strtol10 s.
Proof.
  intros Hd Hf. unfold db_mysql_get_integer. rewrite get_integer_scan by done.
  destruct s as [|c s]; [done|]. cbn [first_char] in Hd. unfold isdigit in Hd.
  apply andb_true_iff in Hd as [E1%Z.leb_le E2%Z.leb_le].
  assert (isspace c = false) as Es.
  { unfold isspace. destruct (Z.eqb_spec (code c) 32); [lia|]. destruct (Z.leb_spec (code c) 13); [lia|].
    by rewrite andb_false_r. }
  assert (Ascii.eqb c "-" = false /\ Ascii.eqb c "+" = false) as [Em Ep].
  { split; apply Ascii.eqb_neq; intros ->; vm_compute in E1; done. }
  unfold strtol10. cbn [skip_spaces]. rewrite Es. cbn [scan_sign]. rewrite Em, Ep. cbv zeta iota.
  pose proof (scan_digits_mono (String c s) 0 ltac:(lia)). unfold clamp. lia.
Qed.

(** * Properties *)


(** A library for the witnesses: its state says which of the next queries
    fail, and the next results. *)
Definition scripted : MySqlClient := {|
  client := list bool * list (option (list row_t));
  MYSQL := unit;
  mysql_init := fun c => (Some tt, c);
  mysql_real_connect := fun c _ _ _ _ _ _ => (true, c);
  mysql_read_default_group := fun c _ _ => (false, c);
  mysql_opt_reconnect := fun c _ => c;
  mysql_ping := fun c _ => (false, c);
  mysql_query := fun c _ _ => match c.1 with [] => (false, c) | b :: l => (b, (l, c.2)) end;
  mysql_store_result := fun c _ => match c.2 with [] => (None, c) | r :: l => (r, (c.1, l)) end;
  mysql_close := fun c _ => c;
  mysql_real_escape_string := fun _ _ s => s;
  mysql_escape_length := fun _ _ s => ltac:(unfold strlen; lia)
|}.

Definition example_db (fails : list bool) (results : list (option (list row_t))) : db (H := scripted) :=
  mkDb (H := scripted) (fails, results) (Some tt) (Some tt) (Some tt) (mkGlobals "" "" "" "") None "" 0 [].

