(* ===== verification/SlowQueries.v ===== *)
(** The thread that ends the connections of slow queries
    ([src/slow_queries.c]), with the formatting of its log
    ([prepare_output] of [src/log.c]). *)

From S2P Require Import Prelude CDouble CString Data UserMap FifoStats Xml Config Accounts MysqlConnector.
Open Scope string_scope.
Open Scope Z_scope.

(** Seconds between two rounds. *)
Definition DELTA_TIME : Z := 15.

Definition state_to_kill : list string :=
  ["Copying to tmp table"; "Copying to group table"; "Copying to tmp table on disk";
   "removing tmp table"; "Sending data"; "Sorting for group"; "Sorting for order"].

Definition upper (s : string) : string := map_string toupper s.

(** The test is commented out in the round. *)
Definition is_request_in_state (s : string) : bool :=
  existsb (fun k => strncmp_eq s k 256) state_to_kill.

(** [prepare_output] without arguments for the conversions of its format:
    [%%] is a percent sign, any other conversion is undefined. *)
Fixpoint format0 (fmt : string) : option string :=
  match fmt with
  | EmptyString => Some EmptyString
  | String c s =>
      if Ascii.eqb c "%" then
        match s with
        | String c' s => if Ascii.eqb c' "%" then t ← format0 s; Some (String "%" t) else None
        | EmptyString => None
        end
      else t ← format0 s; Some (String c t)
  end.
Definition prepare_output (size : Z) (fmt : string) : option string :=
  t ← format0 fmt; Some (prefix_n (size - 1) t).

(** The fields of a row of the process list that are read. *)
Record fields := mkFields { f_Id : string; f_User : string; f_Time : string; f_State : string; f_Info : string }.

Section slow_queries.
Context `{HashOrder} `{MySqlClient} (ld : option (list (ascii * option string))).
(** [stack] is what the memory holds behind a text that fills its array. *)
Variables (cfg : governor_config) (accs : acc_state) (stack : string).

(** [db_mysql_get_string] into the buffer of 8192 bytes and [strncpy] of
    [n] bytes into an array of [n + 1]. *)
Definition field (row : row_t) (i : nat) (n : Z) : option string :=
  f ← row !! i; buffer ← db_mysql_get_string f 8192;
  Some (if strlen buffer <? n then buffer else strncpy_str buffer n +:+ stack).

Definition read_row (row : row_t) : option fields :=
  Id ← field row 0 2047;
  User ← field row 1 (USERNAMEMAXLEN - 1);
  Time ← field row 5 2047;
  State ← field row 6 255;
  Info ← field row 7 2047;
  Some (mkFields Id User Time State (upper Info)).

(** Whether the connection is ended. *)
Definition is_slow (f : fields) : bool :=
  let slow_time := is_user_ignored cfg (f_User f) accs in
  (0 <? slow_time) && strncmp_eq "SELECT" (f_Info f) 6 && (slow_time <? atoi (f_Time f)).

(** The line for the log, formatted once more as a format. *)
Definition killed_line (f : fields) : option string :=
  let Info_ := if strlen (f_Info f) <? 600 then f_Info f else strncpy_str (f_Info f) 600 +:+ stack in
  prepare_output 2048 ("Query killed - " +:+ f_User f +:+ " : " +:+ Info_).

Fixpoint row_loop (rows : list row_t) (d : db) (log : list string) : option (db * list string) :=
  match rows with
  | [] => Some (d, log)
  | row :: rows =>
      f ← read_row row;
      if is_slow f then
        d ← kill_query_by_id ld (atoi (f_Id f)) get_mysql_connect d;
        l ← killed_line f;
        row_loop rows d (log ++ [l])%list
      else row_loop rows d log
  end.

(** One round of [parse_slow_query], and the lines logged.  The number of
    rows is asked of a result that may be null. *)
Definition slow_round (d : db) : option (db * list string) :=
  match get_handle get_mysql_connect d with
  | None => Some (d, [])
  | Some _ =>
      '(r, d) ← db_mysql_exec_query ld "SHOW FULL PROCESSLIST" get_mysql_connect d;
      if nonzero r then Some (d, [])
      else
        '(rows, d) ← rows_of get_mysql_connect d;
        row_loop rows d []
  end.
End slow_queries.

(** * Lemmas *)

Lemma format0_plain s : has_char "%" s = false -> format0 s = Some s.
Proof.
  induction s as [|c s IH]; [done|]. cbn [has_char format0]. intros [Hc Hs]%orb_false_iff.
  by rewrite Hc, IH.
Qed.

Lemma format0_app a b : has_char "%" a = false ->
  format0 (a +:+ b) = (t ← format0 b; Some (a +:+ t)).
Proof.
  induction a as [|c a IH]; intros Ha.
  - rewrite append_nil_l. destruct (format0 b); [|done]. cbn. by rewrite append_nil_l.
  - cbn [has_char] in Ha. apply orb_false_iff in Ha as [Hc Ha]. rewrite append_cons. cbn [format0].
    rewrite Hc, IH by done. destruct (format0 b); [|done]. cbn. by rewrite append_cons.
Qed.

(** A process of the server, and the row that shows it. *)
Record process := mkProcess { p_id : Z; p_user : string; p_time : Z; p_info : option string }.

Definition row_of (p : process) : row_t :=
  [Some (dec (p_id p)); Some (p_user p); Some "localhost"; None; Some "Query"; Some (dec (p_time p));
   Some "Sending data"; p_info p].

Definition process_ok (p : process) : Prop :=
  in_s32 (p_id p) /\ in_s32 (p_time p) /\ strlen (p_user p) < USERNAMEMAXLEN - 1
  /\ strlen (default "" (p_info p)) < 2047.

Lemma field_of row stack i s n : row !! i = Some s -> strlen (default "" s) < n -> n < 8192 ->
  field stack row i n = Some (default "" s).
Proof.
  intros E Hs Hn. unfold field, db_mysql_get_string. rewrite E. cbn [mbind option_bind].
  destruct (Z.ltb_spec 8192 (strlen (default "" s))); [lia|].
  destruct (Z.eqb_spec (strlen (default "" s)) 8192); [lia|]. cbn [mbind option_bind].
  by destruct (Z.ltb_spec (strlen (default "" s)) n); [|lia].
Qed.

Lemma dec_short z : in_s32 z -> strlen (dec z) <= 20.
Proof.
  unfold in_s32, dec. intros Hz. destruct (Z.ltb_spec z 0).
  - rewrite append_cons, append_nil_l. pose proof (dec_nat_len (- z) ltac:(lia)). unfold strlen in *. cbn [String.length]. lia.
  - pose proof (dec_nat_len z ltac:(lia)). lia.
Qed.

Lemma read_row_of stack p : process_ok p ->
  read_row stack (row_of p)
  = Some (mkFields (dec (p_id p)) (p_user p) (dec (p_time p)) "Sending data" (upper (default "" (p_info p)))).
Proof.
  intros (Hi & Ht & Hu & Hn). unfold read_row.
  pose proof (dec_short _ Hi). pose proof (dec_short _ Ht).
  rewrite (field_of _ _ 0 (Some (dec (p_id p)))) by (done || (simpl; lia)).
  rewrite (field_of _ _ 1 (Some (p_user p))) by (done || unfold USERNAMEMAXLEN in *; simpl; lia).
  rewrite (field_of _ _ 5 (Some (dec (p_time p)))) by (done || (simpl; lia)).
  rewrite (field_of _ _ 6 (Some "Sending data")) by done.
  by rewrite (field_of _ _ 7 (p_info p)) by (done || (simpl; lia)).
Qed.

(** A slow process: a SELECT that runs longer than the limit of its account,
    which has one. *)
Definition slow_process `{HashOrder} (cfg : governor_config) (accs : acc_state) (p : process) : bool :=
  let slow_time := is_user_ignored cfg (p_user p) accs in
  (0 <? slow_time) && strncmp_eq "SELECT" (upper (default "" (p_info p))) 6 && (slow_time <? p_time p).

Definition kill_text (p : process) : handle * string :=
  (mysql_do_kill, "KILL CONNECTION " +:+ dec (p_id p)).

(** What the log can hold. *)
Definition plain_text (s : string) : Prop := has_char "%" s = false.

Lemma plain_prefix n s : plain_text s -> plain_text (prefix_n n s).
Proof.
  unfold plain_text, prefix_n. generalize (Z.to_nat n) as k. induction s as [|c s IH]; intros [|k] Hs; try done.
  cbn [has_char substring] in *. apply orb_false_iff in Hs as [Hc Hs]. by rewrite Hc, IH.
Qed.

Lemma plain_upper s : plain_text s -> plain_text (upper s).
Proof.
  unfold plain_text, upper. induction s as [|c s IH]; [done|]. cbn [has_char map_string].
  intros [Hc Hs]%orb_false_iff. rewrite IH by done. rewrite orb_false_r. apply Ascii.eqb_neq.
  apply Ascii.eqb_neq in Hc. unfold toupper. destruct ((97 <=? code c) && (code c <=? 122)) eqn:E; [|done].
  apply andb_true_iff in E as [E1%Z.leb_le E2%Z.leb_le]. intros Ec. apply (f_equal code) in Ec.
  unfold code, chr in *. rewrite N_ascii_embedding in Ec by lia. vm_compute (Z.of_N (N_of_ascii "%")) in Ec. lia.
Qed.

Lemma plain_text_app a b : plain_text a -> plain_text b -> plain_text (a +:+ b).
Proof. unfold plain_text. rewrite has_char_app. by intros -> ->. Qed.

Lemma killed_line_plain stack f : plain_text stack -> plain_text (f_User f) -> plain_text (f_Info f) ->
  is_Some (killed_line stack f).
Proof.
  intros Hs Hu Hi. unfold killed_line, prepare_output. rewrite format0_plain; [by eexists|].
  apply plain_text_app; [done|]. apply plain_text_app; [done|]. apply plain_text_app; [done|].
  destruct (_ <? 600); [done|]. apply plain_text_app; [by apply plain_prefix|done].
Qed.

(** The requests of the rows. *)
Lemma row_loop_kills `{HashOrder} `{MySqlClient} ld cfg accs stack ps d log : memory ->
  is_Some (get_handle mysql_do_kill d) -> Forall process_ok ps -> plain_text stack ->
  Forall (fun p => slow_process cfg accs p = true -> plain_text (p_user p) /\ plain_text (default "" (p_info p))) ps ->
  exists e d' log', row_loop ld cfg accs stack (row_of <$> ps) d log = Some (d', log')
    /\ moves mysql_do_kill d e d'
    /\ requests_of e = kill_text <$> filter (fun p => slow_process cfg accs p = true) ps
    /\ length log' = (length log + length (filter (fun p => slow_process cfg accs p = true) ps))%nat.
Proof.
  intros Hm Hh Hok Hst Hpl. revert d log Hh Hpl. induction Hok as [|p ps Hp _ IH]; intros d log Hh Hpl.
  - exists [], d, log. split; [done|]. split; [|split; [done|simpl; lia]].
    split; [by rewrite app_nil_r|done].
  - apply list.Forall_cons in Hpl as [Hpp Hpl]. rewrite fmap_cons. cbn [row_loop]. rewrite (read_row_of _ _ Hp).
    cbn [mbind option_bind]. rewrite filter_cons.
    assert (is_slow cfg accs (mkFields (dec (p_id p)) (p_user p) (dec (p_time p)) "Sending data" (upper (default "" (p_info p))))
            = slow_process cfg accs p) as ->.
    { unfold is_slow, slow_process. cbn [f_User f_Info f_Time]. by rewrite atoi_dec by apply Hp. }
    destruct (slow_process cfg accs p) eqn:Es.
    + destruct (Hpp eq_refl) as [Hu Hi]. destruct Hh as [m Hm']. unfold kill_query_by_id, get_mysql_connect.
      rewrite Hm'. cbn [f_Id]. rewrite atoi_dec by apply Hp.
      assert (prefix_n 8190 ("KILL CONNECTION " +:+ dec (p_id p)) = "KILL CONNECTION " +:+ dec (p_id p)) as ->.
      { apply prefix_n_all. pose proof (dec_short (p_id p) ltac:(apply Hp)). unfold strlen in *.
        rewrite string_length_app. cbn [String.length]. lia. }
      destruct (run_moves ld ("KILL CONNECTION " +:+ dec (p_id p)) mysql_do_kill d Hm ltac:(by eexists))
        as (e & d1 & -> & M1 & Hr1). cbn [mbind option_bind].
      destruct (killed_line_plain stack (mkFields (dec (p_id p)) (p_user p) (dec (p_time p)) "Sending data" (upper (default "" (p_info p)))))
        as [l ->]; [done|done|by apply plain_upper|]. cbn [mbind option_bind].
      destruct (IH d1 (log ++ [l])%list ltac:(apply M1) Hpl) as (e' & d' & log' & -> & M' & Hr' & Hl).
      eexists _, d', log'. split; [done|]. split; [exact (moves_trans _ _ _ _ _ _ M1 M')|].
      destruct (decide (true = true)) as [_|?]; [|done]. split.
      * rewrite fmap_cons. cbn. fold (requests_of (e ++ e')%list). by rewrite requests_of_app, Hr1, Hr'.
      * rewrite Hl, length_app. simpl. lia.
    + destruct (IH d log Hh Hpl) as (e & d' & log' & -> & M & Hr & Hl). by exists e, d', log'.
Qed.

(** * Properties *)


(** A slow query that contains a percent sign other than a doubled one leaves the slow
    query thread without a defined behaviour: its text is used as the format of the log. *)
Lemma percent_in_query_undefined `{HashOrder} `{MySqlClient} (ld : option (list (ascii * option string)))
    (cfg : governor_config) (accs : acc_state) (stack : string) (p : process) (rows : list row_t)
    (d : db) (log : list string) (before after : string) (c : ascii) :
  memory -> is_Some (get_handle mysql_do_kill d) -> process_ok p ->
  slow_process cfg accs p = true -> plain_text (p_user p) -> plain_text before ->
  upper (default "" (p_info p)) = before +:+ "%" +:+ String c after -> c <> "%"%char ->
  strlen (default "" (p_info p)) < 600 ->
  row_loop ld cfg accs stack (row_of p :: rows) d log = None.
Proof.
  intros Hm Hh Hp Hs Hu Hb Hi Hc Hl. cbn [row_loop]. rewrite (read_row_of _ _ Hp). cbn [mbind option_bind].
  assert (is_slow cfg accs (mkFields (dec (p_id p)) (p_user p) (dec (p_time p)) "Sending data" (upper (default "" (p_info p))))
          = slow_process cfg accs p) as ->.
  { unfold is_slow, slow_process. cbn [f_User f_Info f_Time]. by rewrite atoi_dec by apply Hp. }
  rewrite Hs. unfold kill_query_by_id, get_mysql_connect. destruct Hh as [m Hm']. rewrite Hm'.
  destruct (run_moves ld (prefix_n 8190 ("KILL CONNECTION " +:+ dec (atoi (f_Id (mkFields (dec (p_id p)) (p_user p) (dec (p_time p)) "Sending data" (upper (default "" (p_info p)))))))) mysql_do_kill d Hm ltac:(by eexists)) as (e & d1 & -> & _).
  cbn [mbind option_bind]. unfold killed_line. cbn [f_Info f_User].
  assert (strlen (upper (default "" (p_info p))) = strlen (default "" (p_info p))) as El.
  { unfold upper, strlen. f_equal. generalize (default "" (p_info p)) as t. induction t as [|x t IH]; [done|]. simpl. by rewrite IH. }
  destruct (Z.ltb_spec (strlen (upper (default "" (p_info p)))) 600); [|lia]. rewrite Hi.
  assert (format0 ("Query killed - " +:+ p_user p +:+ " : " +:+ before +:+ "%" +:+ String c after) = None) as E.
  { assert (plain_text ("Query killed - " +:+ p_user p +:+ " : " +:+ before)) as Hpre.
    { apply plain_text_app; [done|]. apply plain_text_app; [done|]. by apply plain_text_app. }
    pose proof (format0_app _ ("%" +:+ String c after) Hpre) as E. rewrite !append_assoc in E. rewrite E.
    change ("%" +:+ String c after) with (String "%" (String c after)). cbn [format0].
    change (Ascii.eqb "%" "%") with true. cbv iota. by destruct (Ascii.eqb_spec c "%"). }
  unfold prepare_output. by rewrite E.
Qed.

Definition slow_cfg : governor_config :=
  set_account_limits example_config
    {[ "bob" := mkStatsCfg zero_limits zero_limits zero_limits (mkTLong 30 (-1) (-1) (-1)) true RESTRICT_MODE ]}.
Definition example_processes : list process :=
  [mkProcess 7 "bob_wp" 31 (Some "select 1"); mkProcess 8 "bob_wp" 29 (Some "select 2");
   mkProcess 9 "bob_db" 500 (Some "update t"); mkProcess 10 "bob_db" 500 None;
   mkProcess 11 "bob_db" 500 (Some "Select 3")].

