(* ===== verification/Main.v ===== *)
(** The start of the daemon ([src/governor.c]) and [mysql_unfreeze]
    ([src/mysql_unfreeze.c]): the connection to MySQL with its attempts, the
    order of the start-up, its threads and what it undoes when a step fails.

    The results of the steps that other files model or that the system
    decides are fields of [start_io]. *)

From S2P Require Import Prelude CDouble CString Data UserMap FifoStats Xml Config MysqlConnector.
Open Scope string_scope.
Open Scope Z_scope.

(** * The command line *)

Inductive run_mode := RunVersion | RunConfig | RunDaemon | RunError.

(** The last argument decides. *)
Definition main_mode (args : list string) : run_mode :=
  match List.rev args with
  | [] => RunDaemon
  | a :: _ =>
      if strcmp_eq a "-v" || strcmp_eq a "--version" then RunVersion
      else if strcmp_eq a "-c" || strcmp_eq a "--config" then RunConfig
      else RunError
  end.

(** * Warnings about the default limits *)

Definition warn_zero (prefix name : string) (v : Z) : list string :=
  if v =? 0 then ["WARNING!!! " +:+ prefix +:+ "default " +:+ name +:+ "  = 0"] else [].

Definition check_for_zero (st : Stats_cfg) : list string :=
  let all prefix f :=
    (warn_zero prefix "cpu" (f (l_cpu st)) ++ warn_zero prefix "read" (f (l_read st))
     ++ warn_zero prefix "write" (f (l_write st)))%list in
  (all "" t_current ++ all "short " t_short ++ all "mid " t_mid ++ all "long " t_long)%list.

(** * Start *)

Inductive thread :=
  | get_data_from_client | send_governor | run_server | proceed_data_every_second
  | parse_map_file_every_hour | parse_slow_query | renew_map_on_request.
#[export] Instance thread_eq : EqDecision thread. Proof. solve_decision. Defined.

(** What the start does beside its requests to MySQL. *)
Inductive act :=
  | Init_tables | Create (t : thread) | Cancel (t : thread) | Detach (t : thread) | Join (t : thread)
  | Init_bad_list (r : Z) | Remove_bad_list | No_lve
  | Free_tables | Delete_mysql_function | Close_logs | Config_free.

(** Whether the library could be loaded, the result of
    [init_bad_users_list], the results of [pthread_create]. *)
Record start_io := mkStart { functions_ok : bool; bad_list_result : Z; create_result : thread -> Z }.

Section main.
Context `{MySqlClient} (ld : option (list (ascii * option string))) (cfg : governor_config) (io : start_io).

(** The attempts to connect; [true] when one works. *)
Fixpoint connect_loop (fuel : nat) (trying_to_connect : Z) (d : db) : option (bool * db) :=
  match fuel with
  | O => None
  | S fuel =>
      let '(r, d) := db_connect ld (Some (host cfg)) (Some (db_login cfg)) (Some (db_password cfg))
                       (Some "information_schema") d in
      if r <? 0 then
        let trying_to_connect := trying_to_connect + 1 in
        if 3 <? trying_to_connect then Some (false, d) else connect_loop fuel trying_to_connect d
      else Some (true, d)
  end.

(** How the process ends: with a code, or not at all ([None] above). *)
Record ended := mkEnd { e_code : Z; e_acts : list act; e_db : db }.

Definition leave : list act := [Delete_mysql_function; Close_logs; Config_free].
Definition fail (acts more : list act) (d : db) : ended :=
  mkEnd 1 (acts ++ more ++ leave)%list (db_close d).

Definition remove_if (b : bool) : list act := if b then [Remove_bad_list] else [].
Definition lve_kernel : bool := negb (nonzero (is_gpl cfg)).

(** The threads in the order of their creation. *)
Definition threads : list thread :=
  ([get_data_from_client; send_governor; run_server; proceed_data_every_second; parse_map_file_every_hour]
   ++ (if nonzero (slow_queries cfg) then [parse_slow_query] else []) ++ [renew_map_on_request])%list.

(** The last two look at [use_lve] too before the list is removed. *)
Definition removes_list (t : thread) : bool :=
  match t with
  | parse_slow_query | renew_map_on_request => lve_kernel && nonzero (use_lve cfg)
  | _ => lve_kernel
  end.

(** [started]: the threads made so far. *)
Fixpoint create_threads (todo started : list thread) (acts : list act) (d : db) : list act * option ended :=
  match todo with
  | [] => (acts, None)
  | t :: todo =>
      let acts := (acts ++ [Create t])%list in
      if create_result io t <? 0
      then (acts, Some (fail acts ((Cancel <$> started) ++ remove_if (removes_list t))%list d))
      else create_threads todo (started ++ [t])%list acts d
  end.

(** The list of the restricted users and the mode of MySQL. *)
Definition start_mode (acts : list act) (d : db) : option (list act * db) :=
  if lve_kernel then
    let acts := (acts ++ [Init_bad_list (bad_list_result io)])%list in
    if bad_list_result io <? 0 then
      d ← governor_enable_reconn ld d; Some ((acts ++ [No_lve])%list, d)
    else d ← governor_enable_reconn_lve ld d; Some (acts, d)
  else d ← governor_enable_reconn ld d; Some (acts, d).

(** From the end of the thread of the reports on. *)
Definition stop (acts : list act) (d : db) : ended :=
  let others := List.tl threads in
  mkEnd 0 (acts ++ (Detach <$> others) ++ [Join get_data_from_client] ++ (Cancel <$> others)
           ++ remove_if lve_kernel ++ [Free_tables] ++ leave)%list (db_close d).

(** [main] once it is a daemon. *)
Definition start (d : db) : option ended :=
  if negb (functions_ok io) then Some (mkEnd 1 [Close_logs; Config_free] d)
  else
    '(ok, d) ← connect_loop 4 0 d;
    if negb (ok : bool) then Some (mkEnd 1 leave d)
    else
      '(version, d) ← check_mysql_version ld d;
      if negb (nonzero version) then Some (fail [] [] d)
      else
        d ← unfreaze_lve ld d;
        let acts := [Init_tables] in
        '(active, d) ← activate_plugin ld d;
        if negb (nonzero active) then Some (fail acts (remove_if lve_kernel) d)
        else
          '(acts, d) ← start_mode acts d;
          let '(acts, failed) := create_threads threads [] acts d in
          match failed with
          | Some e => Some e
          | None => Some (stop acts d)
          end.

(** The configuration after the start: the user of the connection is added
    to it. *)
Definition started_config (d : db) : governor_config := config_add_work_user cfg (Some (get_work_user d)).

(** A round of [send_governor] ([src/commands.c]), which has read the
    configuration when it began. *)
Definition send_governor_round (d : db) : option db :=
  if lve_kernel && nonzero (use_lve cfg) then governor_enable_lve ld d else governor_enable ld d.

(** * [mysql_unfreeze] *)

Inductive unfreeze_result :=
  | U_usage | U_exit | U_show | U_done (list_result : option Z) (d : db) | U_nothing.

Definition unfreeze_command (arg : option string) : Z :=
  match arg with
  | None => 0
  | Some a =>
      let cmd := if strcasecmp_eq a "force-old" then 1 else 0 in
      let cmd := if strcasecmp_eq a "show-bad-users-list" then 2 else cmd in
      if strcasecmp_eq a "help" then 3 else cmd
  end.

(** [utility] is the result of [init_bad_users_list_utility]. *)
Definition mysql_unfreeze (arg : option string) (utility : Z) (d : db) : option unfreeze_result :=
  let cmd := unfreeze_command arg in
  let connect d := db_connect ld (Some (host cfg)) (Some (db_login cfg)) (Some (db_password cfg))
                     (Some "information_schema") d in
  if cmd =? 3 then Some U_usage
  else if lve_kernel && nonzero (use_lve cfg) && negb (cmd =? 1) then
    if cmd =? 0 then
      let '(r, d) := connect d in
      if r <? 0 then Some U_exit
      else d ← unfreaze_lve ld d; Some (U_done (Some utility) (db_close d))
    else Some U_show
  else if lve_kernel then
    let '(r, d) := connect d in
    if r <? 0 then Some U_exit
    else d ← unfreaze_lve ld d; Some (U_done None (db_close d))
  else Some U_nothing.
End main.

(** * Lemmas *)

Lemma closed_all `{MySqlClient} d h : get_handle h (db_close d) = None.
Proof. unfold db_close, db_close_send, db_close_command, db_close_kill. rewrite !get_close. by destruct h. Qed.

(** The threads are made in order; the first that fails ends the program
    after those before it were cancelled and the connections closed. *)
Lemma create_threads_spec `{MySqlClient} cfg io todo started acts d :
  match create_threads cfg io todo started acts d with
  | (acts', None) => acts' = (acts ++ (Create <$> todo))%list /\ Forall (fun t => 0 <= create_result io t) todo
  | (_, Some e) =>
      exists pre t post, todo = (pre ++ t :: post)%list /\ create_result io t < 0
        /\ Forall (fun t => 0 <= create_result io t) pre /\ e_code e = 1
        /\ e_acts e = (acts ++ (Create <$> (pre ++ [t])) ++ (Cancel <$> (started ++ pre))
                        ++ remove_if (removes_list cfg t) ++ leave)%list
        /\ forall h, get_handle h (e_db e) = None
  end.
Proof.
  revert started acts. induction todo as [|t todo IH]; intros started acts; cbn [create_threads].
  - by rewrite app_nil_r.
  - destruct (Z.ltb_spec (create_result io t) 0) as [Hl|Hl].
    + exists [], t, todo. split; [done|]. split; [done|]. split; [constructor|]. split; [done|]. split.
      * cbn [fail e_acts]. rewrite app_nil_r, <- !app_assoc. done.
      * intros h. apply closed_all.
    + specialize (IH (started ++ [t])%list (acts ++ [Create t])%list).
      destruct (create_threads cfg io todo _ _ d) as [acts' [e|]].
      * destruct IH as (pre & t' & post & -> & Ht & Hp & Hc & Ha & Hd). exists (t :: pre), t', post.
        split; [done|]. split; [done|]. split; [by constructor|]. split; [done|]. split; [|done].
        rewrite Ha, <- !app_assoc. done.
      * destruct IH as [-> Hf]. split; [by rewrite <- app_assoc|by constructor].
Qed.

(** * Properties *)

(** When the first attempt of the daemon to connect to MySQL fails, the three others
    are made without asking the server: they find the connection that the first one left and
    fail at once, so the daemon ends although the server may have come up. *)
Lemma connect_attempts_useless `{MySqlClient} (ld : option (list (ascii * option string)))
    (cfg : governor_config) (d d1 : db) (r : Z) :
  memory -> (forall h, get_handle h d = None) ->
  db_connect ld (Some (host cfg)) (Some (db_login cfg)) (Some (db_password cfg))
    (Some "information_schema") d = (r, d1) -> r < 0 ->
  exists d', connect_loop ld cfg 4 0 d = Some (false, d') /\ d_calls d' = d_calls d1.
Proof.
  intros Hm Hn E Hr.
  pose proof (db_connect_made ld (Some (host cfg)) (Some (db_login cfg)) (Some (db_password cfg))
                (Some "information_schema") d Hm Hn) as Hs. rewrite E in Hs. cbn [snd] in Hs.
  cbn [connect_loop]. rewrite E. destruct (Z.ltb_spec r 0); [|lia]. change (3 <? 0 + 1) with false. cbv iota.
  assert (forall x, is_Some (get_handle mysql_send_governor x) ->
    is_Some (get_handle mysql_send_governor (set_globals (mkGlobals "" "" "" "") x))) as Hg by done.
  rewrite db_connect_again by done. change (-1 <? 0) with true. change (3 <? 0 + 1 + 1) with false. cbv iota.
  rewrite db_connect_again by done. change (-1 <? 0) with true. change (3 <? 0 + 1 + 1 + 1) with false. cbv iota.
  rewrite db_connect_again by done. change (-1 <? 0) with true. change (3 <? 0 + 1 + 1 + 1 + 1) with true. cbv iota.
  by eexists.
Qed.

(** A library to which no server answers. *)
Definition deaf : MySqlClient := {|
  client := unit; MYSQL := unit;
  mysql_init := fun c => (Some tt, c);
  mysql_real_connect := fun c _ _ _ _ _ _ => (false, c);
  mysql_read_default_group := fun c _ _ => (false, c);
  mysql_opt_reconnect := fun c _ => c;
  mysql_ping := fun c _ => (true, c);
  mysql_query := fun c _ _ => (true, c);
  mysql_store_result := fun c _ => (None, c);
  mysql_close := fun c _ => c;
  mysql_real_escape_string := fun _ _ s => s;
  mysql_escape_length := fun _ _ s => ltac:(unfold strlen; lia)
|}.
