(* ===== verification/Daemonize.v ===== *)
(** The birth of the daemon ([src/governor.c]): the pid file and its lock,
    the forks, the descriptors that are closed, the logs that are opened, and
    the supervisor that makes the daemon again when it has died.

    Each function is followed in the process that goes on; the results of the
    system calls are fields of the [_io] records. *)

From S2P Require Import Prelude CDouble CString Data UserMap FifoStats Xml Config Log MysqlConnector Main.
Open Scope string_scope.
Open Scope Z_scope.

Definition EXIT_FAILURE : string := "1".
Definition EXIT_SUCCESS : string := "0".

(** * The pid file *)

(** Its text, and the process that holds the lock of the whole file. *)
Record pidfile := mkPidFile { pf_text : string; pf_locker : option Z }.

(** [lockRegion_III] with [F_WRLCK] on the whole file: refused when another
    process holds the lock. *)
Definition lockRegion_III (pid : Z) (f : pidfile) : option pidfile :=
  match pf_locker f with
  | Some q => if q =? pid then Some f else None
  | None => Some (mkPidFile (pf_text f) (Some pid))
  end.

(** [regionIsLocked_III]. *)
Definition regionIsLocked_III (pid : Z) (f : pidfile) : Z :=
  match pf_locker f with Some q => if q =? pid then 0 else q | None => 0 end.

(** A process that closes a descriptor of a file loses its locks on it. *)
Definition close_pid (pid : Z) (f : pidfile) : pidfile :=
  match pf_locker f with
  | Some q => if q =? pid then mkPidFile (pf_text f) None else f
  | None => f
  end.

Definition BUF_SIZE_III : Z := 100.
Definition pid_text (pid : Z) : string := prefix_n (BUF_SIZE_III - 1) (dec pid +:+ String "010" "").

(** [write] with the number of characters it takes, -1 for none. *)
Record pid_io := mkPidIo {
  open_ok : bool; getfd_ok : bool; setfd_ok : bool; ftruncate_ok : bool; write_n : Z -> Z
}.

Definition createPidFile_III (io : pid_io) (pid : Z) (file : option pidfile) : Z * option pidfile :=
  if negb (open_ok io) then (-1, file)
  else
    let f := default (mkPidFile "" None) file in
    let failed f := (-1, Some (close_pid pid f)) in
    if negb (getfd_ok io) then failed f
    else if negb (setfd_ok io) then failed f
    else
      match lockRegion_III pid f with
      | None => failed f
      | Some f =>
          if negb (ftruncate_ok io) then failed f
          else
            let buf := pid_text pid in
            let n := write_n io (strlen buf) in
            let f := mkPidFile (prefix_n n buf) (pf_locker f) in
            if negb (n =? strlen buf) then failed f else (0, Some (close_pid pid f))
      end.

(** * Processes *)

(** The open descriptors, and those of the three logs. *)
Record proc := mkProc {
  p_pid : Z; p_fds : gset Z; p_log : option Z; p_restrict_log : option Z; p_slow_queries_log : option Z;
  p_umask : Z
}.

Definition set_fds (fds : gset Z) (p : proc) : proc :=
  mkProc (p_pid p) fds (p_log p) (p_restrict_log p) (p_slow_queries_log p) (p_umask p).
Definition set_pid (pid : Z) (p : proc) : proc :=
  mkProc pid (p_fds p) (p_log p) (p_restrict_log p) (p_slow_queries_log p) (p_umask p).
Definition set_umask (m : Z) (p : proc) : proc :=
  mkProc (p_pid p) (p_fds p) (p_log p) (p_restrict_log p) (p_slow_queries_log p) m.
Definition set_streams (l r s : option Z) (p : proc) : proc :=
  mkProc (p_pid p) (p_fds p) l r s (p_umask p).

(** The lowest descriptor that is not open. *)
Fixpoint lowest (fuel : nat) (n : Z) (fds : gset Z) : Z :=
  match fuel with
  | O => n
  | S fuel => if bool_decide (n ∈ fds) then lowest fuel (n + 1) fds else n
  end.
Definition lowest_free (fds : gset Z) : Z := lowest (base.size fds) 0 fds.

Definition is_stream (p : proc) (fd : Z) : bool :=
  bool_decide (p_log p = Some fd \/ p_restrict_log p = Some fd \/ p_slow_queries_log p = Some fd).

(** * The daemon *)

(** [fork] answers -1, 0 in the child, or the pid of the child; [child] is
    the pid that the child has. *)
Record fork_io := mkFork { f_result : Z; f_child : Z }.

(** The process that goes on after a fork. *)
Definition forked (f : fork_io) (on_error : string) (p : proc) : outcome proc :=
  if f_result f =? -1 then Exit on_error
  else if f_result f =? 0 then Ok (set_pid (f_child f) p)
  else Exit EXIT_SUCCESS.

Record daemon_io := mkDaemonIo {
  fork1 : fork_io; fork2 : fork_io; setsid_ok : bool; chdir_ok : bool; pidfile_io : pid_io; open_max : Z
}.

(** The loop over all descriptors: those of the logs stay open. *)
Definition close_all (maxfd : Z) (p : proc) : proc :=
  set_fds (fold_left (fun fds fd => if is_stream p fd then fds else fds ∖ {[fd]})
             (Z.of_nat <$> seq 0 (Z.to_nat maxfd)) (p_fds p)) p.

(** [systemd] is SYSTEMD_FLAG; the pid file is threaded through. *)
Definition becameDaemon (systemd : bool) (self_supporting : bool) (io : daemon_io) (p : proc)
    (file : option pidfile) : outcome (proc * option pidfile) :=
  p <-- (if self_supporting then forked (fork1 io) "Can't start daemon" p else Ok p);;
  _ <-- (if negb systemd && negb (setsid_ok io) then Exit "Can't start setsid" else Ok tt);;
  p <-- (if self_supporting then forked (fork2 io) "Can't start daemon" p else Ok p);;
  let p := set_umask 0 p in
  if negb (chdir_ok io) then Exit "Child chdir error"
  else
    let '(rc, file) := createPidFile_III (pidfile_io io) (p_pid p) file in
    if rc =? -1 then Exit "Unable to create PID file"
    else
      let maxfd := if open_max io =? -1 then 8192 else open_max io in
      let p := close_all maxfd p in
      Ok (set_fds (p_fds p ∖ {[0; 1; 2]}) p, file).

(** * Start of the governor *)

(** The results of the three [fopen]. *)
Record open_io := mkOpenIo { fopen_log : Z; fopen_restrict : Z; fopen_slow : Z }.

(** A log that is opened gets the lowest descriptor. *)
Definition opened (rc : Z) (p : proc) : option Z * gset Z :=
  if rc =? 0 then (Some (lowest_free (p_fds p)), {[lowest_free (p_fds p)]} ∪ p_fds p) else (None, p_fds p).

Definition install_signals_handlers : Z := 0.

(** [initGovernor]: the logs are opened anew, the streams they had are not
    closed.  [warn] are the results of the lines of [check_for_zero], with the
    file and the line they stand in. *)
Definition initGovernor `{HashOrder} (cfg : outcome governor_config) (io : open_io) (warn : nat -> log_io * (string * Z))
    (p : proc) (s : logs) : outcome (governor_config * proc * logs) :=
  cfg <-- cfg;;
  if install_signals_handlers <? 0 then Exit "Can't install signal catcher"
  else
    let '(rc, s) := open_log (fopen_log io) (log cfg) s in
    let '(l, fds) := opened (fopen_log io) p in
    let p := set_streams l (p_restrict_log p) (p_slow_queries_log p) (set_fds fds p) in
    if nonzero rc then Exit "Can't open log file"
    else
      let s := print_config cfg s in
      let s := snd (fold_left (fun '(i, s) line =>
                      let '(w, (file, n)) := warn i in
                      (S i, snd (write_log w file n line (get_config_log_mode cfg) s)))
                    (check_for_zero (default_limit cfg)) (0%nat, s)) in
      let '(p, s) :=
        match restrict_log cfg with
        | Some f =>
            let '(r, fds) := opened (fopen_restrict io) p in
            (set_streams (p_log p) r (p_slow_queries_log p) (set_fds fds p),
             snd (open_restrict_log (fopen_restrict io) f s))
        | None => (p, s)
        end in
      let '(p, s) :=
        match slow_queries_log cfg with
        | Some f =>
            let '(w, fds) := opened (fopen_slow io) p in
            (set_streams (p_log p) (p_restrict_log p) w (set_fds fds p),
             snd (open_slow_queries_log (fopen_slow io) f s))
        | None => (p, s)
        end in
      Ok (cfg, p, s).

(** * The supervisor *)

(** A round of [trackingDaemon]: the configuration read, the results of the
    opened logs, the fork, and the limit of the loop that closes. *)
Record round_io := mkRound {
  r_cfg : outcome governor_config; r_open : open_io; r_warn : nat -> log_io * (string * Z); r_fork : fork_io;
  r_date : log_io * (string * Z); r_max : Z
}.

(** What happens in a round: the child that becomes the daemon, and the
    supervisor, which is the daemon itself when the fork fails. *)
Inductive tracked :=
  | Supervises (child supervisor : proc) (s : logs)
  | Is_daemon (p : proc) (s : logs).

(** The descriptors from 2 on are closed, those of the logs too. *)
Definition close_from_2 (max_file_descriptor : Z) (p : proc) : proc :=
  set_fds (fold_left (fun fds fd => fds ∖ {[fd]})
             (Z.of_nat <$> seq 2 (Z.to_nat (max_file_descriptor - 2))) (p_fds p)) p.

Definition tracking_round `{HashOrder} (io : round_io) (p : proc) (s : logs) : outcome tracked :=
  r <-- initGovernor (r_cfg io) (r_open io) (r_warn io) p s;;
  let '(cfg, p, s) := r in
  if 0 <? f_result (r_fork io) then
    let '(w, (file, n)) := r_date io in
    let s := snd (write_log w file n "Failed governor daemon, restart daemon" (log_mode cfg) s) in
    Ok (Supervises (set_pid (f_child (r_fork io)) p) (close_from_2 (r_max io) p) s)
  else if f_result (r_fork io) =? 0 then Ok (Is_daemon (set_pid (f_child (r_fork io)) p) s)
  else Ok (Is_daemon p s).

(** The rounds of a supervisor, one for each daemon that died. *)
Inductive supervised `{HashOrder} (max : Z) (p0 : proc) (s0 : logs) : nat -> proc -> logs -> Prop :=
  | supervised_start : supervised max p0 s0 0 p0 s0
  | supervised_round n p s io child p' s' :
      supervised max p0 s0 n p s -> r_max io = max ->
      tracking_round io p s = Ok (Supervises child p' s') ->
      supervised max p0 s0 (S n) p' s'.

(** * Start of the program *)

(** How [main] goes on: the configuration or the version printed, or the
    process that runs the daemon or its supervisor. *)
Inductive entry :=
  | Printed (lines : list string)
  | Runs (supervised : bool) (cfg : governor_config) (p : proc) (s : logs) (file : option pidfile).

Definition version_line (version : string) : string := "governor-mysql version " +:+ version.

Definition main_entry `{HashOrder} (version : string) (systemd : bool) (args : list string) (root : bool)
    (cfg : outcome governor_config) (io : open_io) (warn : nat -> log_io * (string * Z))
    (monitor_fork : fork_io) (dio : daemon_io) (p : proc) (s : logs) (file : option pidfile) : outcome entry :=
  match main_mode args with
  | RunVersion => Ok (Printed [version_line version])
  | RunError => Exit "governor-mysql starting error"
  | m =>
      r <-- initGovernor cfg io warn p s;;
      let '(cfg, p, s) := r in
      match m with
      | RunConfig => Ok (Printed (if root then print_config_full cfg else [version_line version]))
      | _ =>
          if negb systemd && nonzero (daemon_monitor cfg) then
            if f_result monitor_fork =? 0 then
              r <-- becameDaemon systemd false dio (set_pid (f_child monitor_fork) p) file;;
              Ok (Runs true cfg (fst r) s (snd r))
            else Exit EXIT_SUCCESS
          else
            r <-- becameDaemon systemd (negb systemd) dio p file;;
            Ok (Runs false cfg (fst r) s (snd r))
      end
  end.

(** * Lemmas *)

Lemma lowest_range fuel n fds : n <= lowest fuel n fds <= n + Z.of_nat fuel.
Proof.
  revert n. induction fuel as [|fuel IH]; intros n; cbn [lowest]; [lia|].
  destruct (bool_decide _); [specialize (IH (n + 1)); lia|lia].
Qed.

Lemma lowest_free_0 fds : 0 ∉ fds -> lowest_free fds = 0.
Proof.
  intros H0. unfold lowest_free. destruct (base.size fds); [done|]. cbn [lowest].
  by rewrite bool_decide_eq_false_2.
Qed.

Lemma lowest_skip n fds : 0 <= n -> (forall m, 0 <= m < n -> m ∈ fds) -> n ∉ fds -> lowest_free fds = n.
Proof.
  intros Hn Hin Hout. unfold lowest_free.
  assert (Z.to_nat n <= base.size fds)%nat as Hsz.
  { trans (base.size (list_to_set (Z.of_nat <$> seq 0 (Z.to_nat n)) : gset Z)).
    { rewrite size_list_to_set by (apply NoDup_fmap_2; [intros ? ?; lia|apply NoDup_seq]).
      by rewrite length_fmap, length_seq. }
    apply subseteq_size. intros m. rewrite elem_of_list_to_set, list_elem_of_fmap.
    intros (k & -> & Hk). apply elem_of_seq in Hk. apply Hin. lia. }
  assert (forall fuel m, (Z.to_nat (n - m) <= fuel)%nat -> 0 <= m <= n -> lowest fuel m fds = n) as G.
  { induction fuel as [|fuel IH]; intros m Hf Hm; cbn [lowest]; [lia|].
    destruct (decide (m = n)) as [->|Hne]; [by rewrite bool_decide_eq_false_2|].
    rewrite bool_decide_eq_true_2 by (apply Hin; lia). apply IH; lia. }
  apply G; [|lia]. by rewrite Z.sub_0_r.
Qed.

Lemma foldl_delete (l : list Z) (fds : gset Z) fd :
  fd ∈ fold_left (fun fds fd => fds ∖ {[fd]}) l fds <-> fd ∈ fds /\ fd ∉ l.
Proof.
  revert fds. induction l as [|x l IH]; intros fds; [set_solver|]. cbn [fold_left]. rewrite IH. set_solver.
Qed.

Lemma close_from_2_spec m p fd : fd ∈ p_fds (close_from_2 m p) <-> fd ∈ p_fds p /\ ~ (2 <= fd < m).
Proof.
  unfold close_from_2. cbn [p_fds set_fds]. rewrite foldl_delete, list_elem_of_fmap.
  split; intros [Hin Hn]; (split; [done|]).
  - intros Hr. apply Hn. exists (Z.to_nat fd). rewrite elem_of_seq. lia.
  - intros (k & -> & Hk). apply elem_of_seq in Hk. lia.
Qed.

(** One log opened. *)
Definition grows (p p' : proc) (k : nat) : Prop :=
  p_fds p ⊆ p_fds p' /\ (base.size (p_fds p') <= base.size (p_fds p) + k)%nat
  /\ forall fd, fd ∈ p_fds p' -> fd ∈ p_fds p \/ 0 <= fd < Z.of_nat (base.size (p_fds p) + k).

Lemma grows_refl p k : grows p p k.
Proof. split; [done|]. split; [lia|]. by left. Qed.

Lemma grows_trans a b c j k : grows a b j -> grows b c k -> grows a c (j + k).
Proof.
  intros (S1 & N1 & F1) (S2 & N2 & F2). split; [set_solver|]. split; [lia|]. intros fd Hfd.
  destruct (F2 fd Hfd) as [Hb|?]; [|right; lia]. destruct (F1 fd Hb) as [?|?]; [by left|right; lia].
Qed.

Lemma opened_grows rc p l fds a b c : opened rc p = (l, fds) -> grows p (set_streams a b c (set_fds fds p)) 1.
Proof.
  unfold opened. destruct (rc =? 0); intros [= <- <-]; [|exact (grows_refl p 1)].
  pose proof (lowest_range (base.size (p_fds p)) 0 (p_fds p)) as Hr. fold (lowest_free (p_fds p)) in Hr.
  split; [cbn; set_solver|]. cbn [p_fds set_streams set_fds]. split.
  - pose proof (size_union_alt {[lowest_free (p_fds p)]} (p_fds p)) as E. rewrite E, size_singleton.
    pose proof (subseteq_size (p_fds p ∖ {[lowest_free (p_fds p)]}) (p_fds p) ltac:(set_solver)). lia.
  - intros fd. rewrite elem_of_union, elem_of_singleton. intros [->|?]; [right; lia|by left].
Qed.

Lemma initGovernor_grows `{HashOrder} cfg io warn p s cfg' p' s' :
  initGovernor cfg io warn p s = Ok (cfg', p', s') -> grows p p' 3.
Proof.
  unfold initGovernor. destruct cfg as [c| |]; try done. cbn [obind].
  change (install_signals_handlers <? 0) with false. cbv iota.
  destruct (open_log _ _ _) as [rc s1]. destruct (opened (fopen_log io) p) as [l fds] eqn:E1.
  apply opened_grows with (a := l) (b := p_restrict_log p) (c := p_slow_queries_log p) in E1.
  set (p1 := set_streams _ _ _ _) in *. destruct (nonzero rc); [done|].
  destruct (restrict_log c) as [f|].
  - destruct (opened (fopen_restrict io) p1) as [r fds1] eqn:E2.
    apply opened_grows with (a := p_log p1) (b := r) (c := p_slow_queries_log p1) in E2.
    set (p2 := set_streams _ _ _ (set_fds fds1 p1)) in *. pose proof (grows_trans _ _ _ _ _ E1 E2) as E12.
    destruct (slow_queries_log c) as [f'|].
    + destruct (opened (fopen_slow io) p2) as [w fds2] eqn:E3. intros [= _ <- _].
      apply opened_grows with (a := p_log p2) (b := p_restrict_log p2) (c := w) in E3.
      exact (grows_trans _ _ _ _ _ E12 E3).
    + intros [= _ <- _]. exact (grows_trans _ _ _ _ 1 E12 (grows_refl _ _)).
  - destruct (slow_queries_log c) as [f'|].
    + destruct (opened (fopen_slow io) p1) as [w fds2] eqn:E3. intros [= _ <- _].
      apply opened_grows with (a := p_log p1) (b := p_restrict_log p1) (c := w) in E3.
      exact (grows_trans _ _ _ _ 1 (grows_trans _ _ _ _ _ E1 E3) (grows_refl _ _)).
    + intros [= _ <- _]. exact (grows_trans _ _ _ _ 2 E1 (grows_refl _ _)).
Qed.

(** * Properties *)

(** A pid file that can be written. *)
Definition works (io : pid_io) : Prop :=
  open_ok io = true /\ getfd_ok io = true /\ setfd_ok io = true /\ ftruncate_ok io = true
  /\ forall n, write_n io n = n.

Lemma close_pid_own pid t : close_pid pid (mkPidFile t (Some pid)) = mkPidFile t None.
Proof. unfold close_pid. cbn. by rewrite Z.eqb_refl. Qed.

Lemma prefix_strlen s : prefix_n (strlen s) s = s.
Proof. apply prefix_n_all. lia. Qed.

Lemma create_works io pid t : works io ->
  createPidFile_III io pid (Some (mkPidFile t None)) = (0, Some (mkPidFile (pid_text pid) None)).
Proof.
  intros (Ho & Hg & Hs & Ht & Hw). unfold createPidFile_III. rewrite Ho, Hg, Hs.
  cbn -[pid_text close_pid]. rewrite Ht, Hw, Z.eqb_refl. cbn [negb]. by rewrite prefix_strlen, close_pid_own.
Qed.

(** The pid file keeps no second daemon away: whenever createPidFile_III succeeds, it
    has closed the file and with it given up the lock it took, so nobody holds the lock and any
    other process that can write the file succeeds too and replaces the number in it. *)
Lemma pid_file_excludes_nobody (io io' : pid_io) (pid pid' : Z) (file file' : option pidfile) :
  createPidFile_III io pid file = (0, file') -> works io' ->
  exists f', file' = Some f' /\ pf_text f' = pid_text pid /\ pf_locker f' = None
    /\ regionIsLocked_III pid' f' = 0
    /\ createPidFile_III io' pid' file' = (0, Some (mkPidFile (pid_text pid') None)).
Proof.
  unfold createPidFile_III at 1. destruct (open_ok io); [|done]. cbn [negb].
  destruct (getfd_ok io); [|done]. destruct (setfd_ok io); [|done]. cbn [negb].
  destruct (lockRegion_III pid _) as [f|] eqn:El; [|done]. destruct (ftruncate_ok io); [|done]. cbn [negb].
  destruct (Z.eqb_spec (write_n io (strlen (pid_text pid))) (strlen (pid_text pid))) as [->|]; [|done].
  cbn [negb]. rewrite prefix_strlen. intros [= <-] Hw.
  assert (pf_locker f = Some pid) as ->.
  { revert El. unfold lockRegion_III. destruct (pf_locker (default _ file)) as [q|] eqn:Eq; [|by intros [= <-]].
    destruct (Z.eqb_spec q pid) as [->|]; [|done]. by intros [= <-]. }
  rewrite close_pid_own. eexists. do 4 (split; [done|]). by apply create_works.
Qed.

(** A supervisor does not collect descriptors: from its first daemon that died on, at most the
    first two are open when a round begins. *)
Lemma supervisor_keeps_no_descriptor `{HashOrder} (max : Z) (p0 p : proc) (s0 s : logs) (n : nat) :
  5 <= max -> Z.of_nat (base.size (p_fds p0)) + 3 <= max ->
  (forall fd, fd ∈ p_fds p0 -> 0 <= fd < max) ->
  supervised max p0 s0 (S n) p s -> p_fds p ⊆ {[0; 1]}.
Proof.
  intros H5 Hsz H0 Hs.
  assert (forall m q t, supervised max p0 s0 m q t ->
    Z.of_nat (base.size (p_fds q)) + 3 <= max /\ (forall fd, fd ∈ p_fds q -> 0 <= fd < max)
    /\ (m <> 0%nat -> p_fds q ⊆ {[0; 1]})) as G; [|by apply (G (S n) p s)].
  intros m q t Hq. induction Hq as [|m q t io c q' t' Hq (IHs & IHf & _) Hm Ht]; [by split_and!|].
  unfold tracking_round in Ht. destruct (initGovernor _ _ _ q t) as [[[cfg q1] t1]| |] eqn:Ei; try done.
  cbn [obind] in Ht. apply initGovernor_grows in Ei as (_ & _ & Hf).
  destruct (0 <? _); [|by destruct (_ =? 0)]. destruct (r_date io) as [w [f k]]. injection Ht as _ <- _.
  assert (p_fds (close_from_2 (r_max io) q1) ⊆ ({[0; 1]} : gset Z)) as Hsub.
  { intros fd. rewrite close_from_2_spec. intros [Hin Hn]. destruct (Hf fd Hin) as [Hb|Hb];
      [specialize (IHf fd Hb)|]; rewrite elem_of_union, !elem_of_singleton; lia. }
  pose proof (subseteq_size _ _ Hsub) as Hle. change (base.size ({[0; 1]} : gset Z)) with 2%nat in Hle.
  split; [lia|]. split; [|done]. intros fd Hfd. apply Hsub in Hfd. set_unfold. lia.
Qed.

(** Under the supervisor the daemon has its logs as standard input, output and error:
    becameDaemon has closed these descriptors, so the logs that initGovernor opens then get the
    numbers 0, 1 and 2, while the descriptors of the logs opened before stay open and belong to
    no stream. *)
Lemma supervised_logs_are_standard `{HashOrder} (systemd b : bool) (dio : daemon_io) (p p' p'' : proc)
    (file file' : option pidfile) (cfg : governor_config) (warn : nat -> log_io * (string * Z)) (s s' : logs)
    (f f' : string) :
  becameDaemon systemd b dio p file = Ok (p', file') ->
  restrict_log cfg = Some f -> slow_queries_log cfg = Some f' ->
  initGovernor (Ok cfg) (mkOpenIo 0 0 0) warn p' s = Ok (cfg, p'', s') ->
  p_log p'' = Some 0 /\ p_restrict_log p'' = Some 1 /\ p_slow_queries_log p'' = Some 2
  /\ (forall fd, is_stream p' fd = true -> 2 < fd -> fd ∈ p_fds p' -> fd ∈ p_fds p'' /\ is_stream p'' fd = false).
Proof.
  intros Hb Hf Hf'.
  assert (0 ∉ p_fds p' /\ 1 ∉ p_fds p' /\ 2 ∉ p_fds p') as (N0 & N1 & N2).
  { revert Hb. unfold becameDaemon.
    destruct (if b then _ else Ok p) as [q| |]; try done. cbn [obind].
    destruct (if negb systemd && _ then _ else Ok tt); try done. cbn [obind].
    destruct (if b then _ else Ok q) as [q'| |]; try done. cbn [obind].
    destruct (chdir_ok dio); [|done]. cbn [negb]. destruct (createPidFile_III _ _ _) as [rc fl].
    destruct (rc =? -1); [done|]. intros [= <- _]. cbn [p_fds set_fds]. set_solver. }
  unfold initGovernor. cbn [obind]. change (install_signals_handlers <? 0) with false. cbv iota.
  cbn [fopen_log fopen_restrict fopen_slow open_log open_stream]. rewrite Hf, Hf'.
  unfold opened. change (0 =? 0) with true. cbv iota.
  destruct (open_log 0 _ s) as [rc s1] eqn:Eo. assert (rc = 0) as -> by (by injection Eo as <- _).
  change (nonzero 0) with false. cbv iota. cbn [p_fds p_log p_restrict_log p_slow_queries_log set_streams set_fds].
  rewrite (lowest_free_0 (p_fds p')) by done.
  rewrite (lowest_skip 1 ({[0]} ∪ p_fds p')); [|lia| |set_solver].
  2:{ intros m Hm. assert (m = 0) as -> by lia. set_solver. }
  rewrite (lowest_skip 2 ({[1]} ∪ ({[0]} ∪ p_fds p'))); [|lia| |set_solver].
  2:{ intros m Hm. assert (m = 0 \/ m = 1) as [-> | ->] by lia; set_solver. }
  intros [= <- _]. cbn. do 3 (split; [done|]). intros fd _ H2 Hin. split; [set_solver|].
  apply bool_decide_eq_false_2. cbn. intros [[= E]|[[= E]|[= E]]]; lia.
Qed.

(** ** Examples *)

Definition example_logs_config : governor_config :=
  let c := example_config in
  mkConfig (db_login c) (db_password c) (default_limit c) (account_limits c) (host c) "/var/log/g.log" (log_mode c)
    (Some "/var/log/r.log") (separator c) (level1 c) (level2 c) (level3 c) (level4 c) (c_timeout c)
    (c_intervals c) (restrict_format c) (exec_script c) (use_lve c) (statistic_mode c) (logqueries_use c)
    1 (max_user_connections c) (killuser c) (is_gpl c) (separate_lve c) (all_lve c)
    (slow_queries c) (restrict_mode c) (l_unlimit c) (Some "/var/log/s.log")
    (debug_user c) (save_statistic_uid c).
Definition example_place (_ : nat) : log_io * (string * Z) := (mkLogIo (Some "now") true 0, ("governor.c", 242)).
Definition example_dio : daemon_io :=
  mkDaemonIo (mkFork 0 11) (mkFork 0 12) true true (mkPidIo true true true true (fun n => n)) 1024.
(** Started from a terminal, with its three logs open. *)
Definition example_proc : proc :=
  mkProc 10 {[0; 1; 2; 3; 4; 5]} (Some 3) (Some 4) (Some 5) 18.
Definition example_logs : logs := mkLogs None None None ∅.
