(* ===== verification/Listing.v ===== *)
(** The listings of the accounts: the daemon's side of the streams
    ([src/dbtop_server.c]), the retrying calls of stdio ([src/wrappers.c])
    and the client that reads and prints them ([src/dbctl_list.c]).

    A stream carries the items that the programs write as a whole: integers
    and account records. *)

From S2P Require Import Prelude CDouble CString GLib Data UserMap FifoStats Xml Config Accounts.
Open Scope string_scope.
Open Scope Z_scope.

(** * [wrappers.c] *)

(** A call of [fread] or [fwrite]: the count it returns, and whether the
    stream is in error because of a signal. *)
Record stdio_result := mkStdio { sr_res : Z; sr_intr : bool }.

(** [fread_wrapper] and [fwrite_wrapper], which differ in the call only. *)
Fixpoint wrapper_loop (fuel : nat) (n : Z) (call : nat -> stdio_result) (k : nat) : option Z :=
  match fuel with
  | O => None
  | S fuel =>
      let r := call k in
      if sr_res r =? n then Some (sr_res r)
      else if sr_intr r then wrapper_loop fuel n call (S k)
      else Some 0
  end.

(** * The stream *)

Inductive wire := WInt (n : Z) | WExch (dt : dbtop_exch).

(** The daemon's end: the answers of the client that are still to be read,
    what was written, the number of writes. *)
Record stream := mkStream { s_in : list Z; s_out : list wire; s_writes : nat }.

Section server.
Context `{HashOrder} (cfg : governor_config).
(** [room k]: the write number [k] succeeds.  [stack] is what the record
    holds behind an id that fills its array. *)
Variables (room : nat -> bool) (stack : string).

Definition put (x : wire) (st : stream) : bool * stream :=
  if room (s_writes st) then (true, mkStream (s_in st) (s_out st ++ [x])%list (S (s_writes st)))
  else (false, mkStream (s_in st) (s_out st) (S (s_writes st))).

Definition get (st : stream) : option Z * stream :=
  match s_in st with
  | [] => (None, st)
  | r :: l => (Some r, mkStream l (s_out st) (s_writes st))
  end.

(** [strncpy] of one byte less than the array. *)
Definition exch_id (id : string) : string :=
  if strlen id <? USERNAMEMAXLEN - 1 then id
  else strncpy_str id (USERNAMEMAXLEN - 1) +:+ stack.

Definition exch_of (ac : Account) : dbtop_exch :=
  mkExch (exch_id (ac_id ac)) (ac_current ac) (ac_short_average ac) (ac_mid_average ac)
    (ac_long_average ac) (ac_restricted ac) (ac_timeout ac) (ac_info ac) (ac_start_count ac).

(** The account [ac] is what the lock of the accounts shows when it is taken
    for this account alone, and [cfg] gives the mode looked up before. *)
Definition send_account (key : string) (ac : Account) (out : stream) : stream :=
  let sl := config_get_account_limit cfg (ac_id ac) in
  if bool_decide (mode sl <> IGNORE_MODE) then
    let '(ok, out) := put (WInt 0) out in
    if ok then snd (put (WExch (exch_of ac)) out) else out
  else out.

(** [fdopen1] and [fdopen2]: the two attempts to make the stream.  The walk
    holds no lock: [accs] is what it finds, each account as it is at the moment
    that [send_account] locks it, and need not be the table of one state
    ([DbtopRun.walked] says what it can be while the threads go on). *)
Definition run_dbtop_command (fdopen1 fdopen2 : bool) (accs : gmap string Account) (out : stream)
    : stream :=
  if fdopen1 || fdopen2 then
    let '(resp, out) := put (WInt 1) out in
    if negb resp then out
    else
      let '(resp, out) := get out in
      match resp with
      | None => out
      | Some _ =>
          let out := ht_foreach accs send_account out in
          snd (put (WInt 2) out)
      end
  else out.

(** The loop of a listing; [accs i] are the accounts that the walk of the
    round [i] finds, each at its own moment.  The
    end of the stream is seen by the read that meets it. *)
Fixpoint listing_loop (fuel : nat) (accs : nat -> gmap string Account) (i : nat) (out : stream)
    : option stream :=
  match fuel with
  | O => None
  | S fuel =>
      let out := snd (put (WInt 1) out) in
      let '(resp, out) := get out in
      match resp with
      | None => Some out
      | Some _ =>
          let out := ht_foreach (accs i) send_account out in
          let '(ok, out) := put (WInt 2) out in
          if ok then listing_loop fuel accs (S i) out else Some out
      end
  end.

(** One round per answer, and the one that finds none. *)
Definition listing_fuel (st : stream) : nat := S (length (s_in st)).

Definition run_writer (fdopen1 fdopen2 : bool) (accs : nat -> gmap string Account) (out : stream)
    : option stream :=
  if fdopen1 || fdopen2 then listing_loop (listing_fuel out) accs 0 out else Some out.

(** The listing of [run_dbctl_command] does not look at the result of
    [fdopen]. *)
Definition run_list (fdopen : bool) (accs : nat -> gmap string Account) (out : stream)
    : option stream :=
  if fdopen then listing_loop (listing_fuel out) accs 0 out else None.
End server.

(** * The client ([dbctl_list.c]) *)

(** The account made from a record; [users] is null and [need_dbg] is not
    set. *)
Definition received (dt : dbtop_exch) : Account :=
  mkAccount (strncpy_str (x_id dt) USERNAMEMAXLEN) [] (x_current dt) (x_long_average dt)
    (x_mid_average dt) (x_short_average dt) (x_restricted dt) (x_timeout dt) (x_start_count dt)
    (x_info dt) 0.

(** [read_info]: the accounts received and the number of answers written.
    A record where a number should be would be read as a number; that case
    is [Crash] here. *)
Fixpoint read_info (inp : list wire) (recv_accounts : list Account) (answers : nat)
    : outcome (list Account * nat) :=
  match inp with
  | [] => Ok (recv_accounts, answers)
  | WInt new_record :: inp =>
      if new_record =? 1 then read_info inp recv_accounts (S answers)
      else if new_record =? 0 then
        match inp with
        | WExch dt :: inp => read_info inp (recv_accounts ++ [received dt])%list answers
        | [] => Exit "Done"
        | WInt _ :: _ => Crash
        end
      else Ok (recv_accounts, answers)
  | WExch _ :: _ => Crash
  end.

Definition CompareAccountByUsername (a b : Account) : Z :=
  cmp_int (strncmp (ac_id a) (ac_id b) USERNAMEMAXLEN).

Definition get_restrict_level (restrict_level : Z) : string :=
  if restrict_level =? 0 then "1"
  else if restrict_level =? 1 then "2"
  else if restrict_level =? 2 then "3"
  else "4".

Definition read_restrict_reriod (ac : Account) : string :=
  match field_restrict (ac_info ac) with
  | NO_PERIOD => ""
  | CURRENT_PERIOD => "current"
  | SHORT_PERIOD => "short"
  | MID_PERIOD => "mid"
  | LONG_PERIOD => "long"
  end.

Definition read_restrict_reason (ac : Account) : string :=
  match field_restrict (ac_info ac) with
  | NO_PERIOD => ""
  | _ => match field_level_restrict (ac_info ac) with
         | CPU_PARAM => "cpu"
         | READ_PARAM => "read"
         | WRITE_PARAM => "write"
         | _ => ""
         end
  end.

(** The clock is read for the test and again for the result. *)
Definition get_time_to_end (now now' : Z) (ac : Account) : Z :=
  let stop := s64 (ac_start_count ac + ac_timeout ac) in
  if s64 (stop - now) <? 0 then 0 else s32 (s64 (stop - now')).

Definition rest_line (now now' : Z) (ac : Account) : string :=
  " " +:+ pad_right 16 (ac_id ac) +:+ " " +:+ pad_right 6 (read_restrict_reason ac) +:+ "  "
  +:+ pad_right 6 (read_restrict_reriod ac) +:+ "   " +:+ get_restrict_level (ac_restricted ac)
  +:+ "     " +:+ dec (get_time_to_end now now' ac).

Fixpoint rest_lines (clk : clock Z) (l : list Account) : list string :=
  match l with
  | [] => []
  | ac :: l =>
      if bool_decide (field_restrict (ac_info ac) <> NO_PERIOD)
      then rest_line (clk 0%nat) (clk 1%nat) ac :: rest_lines (clk_skip 2 clk) l
      else rest_lines clk l
  end.

Definition rest_header : string := " USER             REASON  PERIOD  LEVEL   TIME LEFT(s)".

(** The lines printed. *)
Definition print_list_rest `{GListSort} (clk : clock Z) (inp : list wire) : outcome (list string) :=
  r <-- read_info inp [] 0;;
  Ok (rest_header :: rest_lines clk (g_list_sort CompareAccountByUsername (fst r))).

(** * Lemmas *)

(** A call that signals do not interrupt for ever returns. *)
Lemma wrapper_loop_ends n call k fuel : (exists j, (j < fuel)%nat /\ sr_intr (call (k + j)%nat) = false) ->
  exists r, wrapper_loop fuel n call k = Some r /\ (r = n \/ r = 0).
Proof.
  revert k. induction fuel as [|fuel IH]; intros k (j & Hj & E); [lia|]. cbn [wrapper_loop].
  destruct (Z.eqb_spec (sr_res (call k)) n) as [En|_]; [exists n; split; [by rewrite En|by left]|].
  destruct (sr_intr (call k)) eqn:Ei; [|exists 0; split; [done|by right]].
  destruct j as [|j]; [rewrite Nat.add_0_r in E; congruence|].
  apply IH. exists j. split; [lia|]. by replace (S k + j)%nat with (k + S j)%nat by lia.
Qed.

(** The accounts of the table in the order it is walked. *)
Definition table_list `{HashOrder} (accs : gmap string Account) : list Account :=
  omap (fun k => accs !! k) (ht_keys accs).

Lemma table_list_perm `{HashOrder} accs : table_list accs ≡ₚ (map_to_list accs).*2.
Proof.
  unfold table_list.
  assert (omap (fun k => accs !! k) ((map_to_list accs).*1) = (map_to_list accs).*2) as <-.
  { assert (forall l, (forall k v, (k, v) ∈ l -> accs !! k = Some v) ->
      omap (fun k => accs !! k) l.*1 = l.*2) as G.
    { induction l as [|[k v] l IH]; intros Hl; [done|]. csimpl.
      rewrite (Hl k v) by left. f_equal. apply IH. intros k' v' Hin. apply Hl. by right. }
    apply G. intros k v. apply elem_of_map_to_list. }
  by rewrite ht_keys_spec.
Qed.

Lemma foreach_table `{HashOrder} {S} accs (f : string -> Account -> S -> S) (g : Account -> S -> S) s :
  (forall k ac st, f k ac st = g ac st) ->
  ht_foreach accs f s = fold_left (fun st ac => g ac st) (table_list accs) s.
Proof.
  intros E. unfold ht_foreach, table_list. revert s.
  induction (ht_keys accs) as [|k l IH]; intros s; [done|]. simpl.
  destruct (accs !! k) as [ac|]; simpl; [by rewrite E|done].
Qed.

Definition shown (cfg : governor_config) (ac : Account) : Prop :=
  mode (config_get_account_limit cfg (ac_id ac)) <> IGNORE_MODE.
#[export] Instance shown_dec cfg ac : Decision (shown cfg ac).
Proof. unfold shown. apply _. Defined.

Definition items_of (stack : string) (l : list Account) : list wire :=
  l ≫= (fun ac => [WInt 0; WExch (exch_of stack ac)]).

(** With room for every write. *)
Definition always (k : nat) : bool := true.

Lemma put_always x st :
  put always x st = (true, mkStream (s_in st) (s_out st ++ [x])%list (S (s_writes st))).
Proof. done. Qed.

Lemma send_accounts `{HashOrder} cfg stack accs st :
  exists n, ht_foreach accs (send_account cfg always stack) st
    = mkStream (s_in st) (s_out st ++ items_of stack (filter (shown cfg) (table_list accs)))%list n.
Proof.
  rewrite (foreach_table accs _ (send_account cfg always stack "")) by done.
  generalize (table_list accs) as l. intros l. revert st.
  induction l as [|ac l IH]; intros st.
  - exists (s_writes st). simpl. rewrite app_nil_r. by destruct st.
  - cbn [fold_left]. destruct (IH (send_account cfg always stack "" ac st)) as [n ->].
    exists n. rewrite filter_cons. unfold send_account, shown.
    destruct (decide (mode (config_get_account_limit cfg (ac_id ac)) <> IGNORE_MODE)) as [Hs|Hs].
    + rewrite bool_decide_eq_true_2 by done. simpl. by rewrite <- !app_assoc.
    + by rewrite bool_decide_eq_false_2.
Qed.

(** An account on the other side of the stream. *)
Definition arrived (stack : string) (ac : Account) : Account := received (exch_of stack ac).

Lemma read_items stack l rest recv n :
  read_info (items_of stack l ++ rest)%list recv n
  = read_info rest (recv ++ (arrived stack <$> l))%list n.
Proof.
  revert recv. induction l as [|ac l IH]; intros recv; [by rewrite app_nil_r|].
  cbn. fold (items_of stack l). rewrite IH. by rewrite <- app_assoc.
Qed.

(** A name that leaves room for its NUL arrives. *)
Lemma received_id stack ac : strlen (ac_id ac) < USERNAMEMAXLEN - 1 ->
  ac_id (arrived stack ac) = ac_id ac.
Proof.
  intros Hl. unfold arrived, received, exch_of, exch_id. cbn [ac_id x_id].
  destruct (Z.ltb_spec (strlen (ac_id ac)) (USERNAMEMAXLEN - 1)); [|lia].
  apply prefix_n_all. lia.
Qed.

(** What a listing shows of an account survives the stream. *)
Definition same_view (ac ac' : Account) : Prop :=
  ac_id ac' = ac_id ac /\ ac_current ac' = ac_current ac
  /\ ac_short_average ac' = ac_short_average ac /\ ac_mid_average ac' = ac_mid_average ac
  /\ ac_long_average ac' = ac_long_average ac /\ ac_restricted ac' = ac_restricted ac
  /\ ac_timeout ac' = ac_timeout ac /\ ac_start_count ac' = ac_start_count ac
  /\ ac_info ac' = ac_info ac.

Lemma received_view stack ac : strlen (ac_id ac) < USERNAMEMAXLEN - 1 ->
  same_view ac (arrived stack ac).
Proof. intros Hl. split; [by apply received_id|done]. Qed.

Lemma listing_rounds `{HashOrder} cfg stack fuel accs i st : (length (s_in st) < fuel)%nat ->
  exists st', listing_loop cfg always stack fuel accs i st = Some st' /\ s_in st' = []
    /\ s_out st' = (s_out st ++ mjoin (imap (fun j _ => WInt 1 ::
           (items_of stack (filter (shown cfg) (table_list (accs (i + j)%nat))) ++ [WInt 2])%list) (s_in st))
         ++ [WInt 1])%list.
Proof.
  revert i st. induction fuel as [|fuel IH]; intros i st Hf; [lia|]. cbn [listing_loop].
  rewrite put_always. unfold get. cbn [snd s_in s_out s_writes]. destruct (s_in st) as [|r inp] eqn:Ei.
  - eexists. split; [reflexivity|]. split; [done|]. by rewrite app_nil_l.
  - set (st1 := mkStream inp _ _). destruct (send_accounts cfg stack (accs i) st1) as [n ->].
    rewrite put_always. cbn [s_in s_out s_writes st1]. set (st2 := mkStream inp _ _).
    destruct (IH (S i) st2) as (st' & -> & Hin & Hout); [simpl in *; lia|].
    exists st'. split; [done|]. split; [done|]. rewrite Hout. cbn [st2 s_in s_out imap].
    rewrite Nat.add_0_r. csimpl. rewrite <- !app_assoc. simpl. do 4 f_equal.
    apply (f_equal (fun l => mjoin l ++ [WInt 1])%list). apply imap_ext. intros j x _. simpl. by rewrite Nat.add_succ_r.
Qed.

(** ** The printed lines *)

Lemma rest_lines_filter clk l :
  rest_lines clk l = rest_lines clk (filter (fun ac => field_restrict (ac_info ac) <> NO_PERIOD) l).
Proof.
  revert clk. induction l as [|ac l IH]; intros clk; [done|]. rewrite filter_cons. cbn [rest_lines].
  destruct (decide (field_restrict (ac_info ac) <> NO_PERIOD)) as [Hr|Hr].
  - rewrite bool_decide_eq_true_2 by done. cbn [rest_lines]. rewrite bool_decide_eq_true_2 by done.
    by rewrite IH.
  - rewrite bool_decide_eq_false_2 by done. apply IH.
Qed.

Lemma rest_line_view now now' ac ac' : same_view ac ac' -> rest_line now now' ac' = rest_line now now' ac.
Proof.
  intros (Ei & _ & _ & _ & _ & Er & Et & Es & En). unfold rest_line, read_restrict_reason,
    read_restrict_reriod, get_time_to_end. by rewrite Ei, Er, Et, Es, En.
Qed.

Lemma rest_lines_arrived clk stack l : Forall (fun ac => strlen (ac_id ac) < USERNAMEMAXLEN - 1) l ->
  rest_lines clk (arrived stack <$> l) = rest_lines clk l.
Proof.
  intros Hl. revert clk. induction Hl as [|ac l Hac Hl IH]; intros clk; [done|].
  pose proof (received_view stack ac Hac) as Hv. pose proof Hv as (_ & _ & _ & _ & _ & _ & _ & _ & En).
  rewrite fmap_cons. cbn [rest_lines]. rewrite En.
  destruct (bool_decide _); [|apply IH]. by rewrite IH, (rest_line_view _ _ _ _ Hv).
Qed.

Lemma sorted_by_name `{GListSort} l :
  StronglySorted (fun a b => CompareAccountByUsername a b <= 0) (g_list_sort CompareAccountByUsername l).
Proof.
  apply (g_list_sort_sorted _ (fun _ => True)); [|by apply list.Forall_true].
  apply (strncmp_order ac_id).
Qed.

Lemma strongly_sorted_filter {A} (R : A -> A -> Prop) (P : A -> Prop) `{!forall x, Decision (P x)} l :
  StronglySorted R l -> StronglySorted R (filter P l).
Proof.
  induction 1 as [|x l Hs IH Hx]; [constructor|]. rewrite filter_cons. destruct (decide (P x)); [|done].
  constructor; [done|]. apply list.Forall_forall. intros y Hy. apply list_elem_of_filter in Hy as [_ Hy].
  rewrite list.Forall_forall in Hx. by apply Hx.
Qed.

Lemma strongly_sorted_fmap {A B} (R : B -> B -> Prop) (f : A -> B) l :
  StronglySorted R (f <$> l) <-> StronglySorted (fun x y => R (f x) (f y)) l.
Proof.
  induction l as [|x l IH]; [split; constructor|]. rewrite fmap_cons.
  split; intros Hs; apply StronglySorted_inv in Hs as [Hs Hx]; constructor; try by apply IH.
  - by rewrite list.Forall_fmap in Hx.
  - by rewrite list.Forall_fmap.
Qed.

Lemma strongly_sorted_weaken {A} (R R' : A -> A -> Prop) l :
  (forall x y, x ∈ l -> y ∈ l -> R x y -> R' x y) -> StronglySorted R l -> StronglySorted R' l.
Proof.
  intros HR Hs. induction Hs as [|x l Hs IH Hx]; constructor.
  - apply IH. intros a b Ha Hb. apply HR; by right.
  - rewrite list.Forall_forall in Hx |- *. intros y Hy. apply HR; [by left|by right|by apply Hx].
Qed.

(** The table of the accounts: a key is the id, and leaves room for its NUL. *)
Definition keys_ok (accs : gmap string Account) : Prop :=
  forall a ac, accs !! a = Some ac -> ac_id ac = a /\ strlen a < USERNAMEMAXLEN - 1.

Lemma table_list_ok `{HashOrder} accs : keys_ok accs ->
  Forall (fun ac => strlen (ac_id ac) < USERNAMEMAXLEN - 1 /\ accs !! ac_id ac = Some ac) (table_list accs).
Proof.
  intros Hk. apply list.Forall_forall. intros ac Hin.
  apply list_elem_of_omap in Hin as (k & _ & E). destruct (Hk k ac E) as [Hid Hl]. by rewrite Hid.
Qed.

(** Accounts of a table with the same name are one. *)
Lemma same_name (accs : gmap string Account) ac ac' :
  strlen (ac_id ac) < USERNAMEMAXLEN - 1 /\ accs !! ac_id ac = Some ac ->
  strlen (ac_id ac') < USERNAMEMAXLEN - 1 /\ accs !! ac_id ac' = Some ac' ->
  CompareAccountByUsername ac ac' <= 0 -> CompareAccountByUsername ac' ac <= 0 -> ac = ac'.
Proof.
  intros [Hl H1] [Hl' H2] C1 C2. pose proof (strncmp_antisym _ _ _ C1 C2) as E.
  rewrite !prefix_n_all in E by lia. congruence.
Qed.

(** What the client reads of one round. *)
Lemma listing_read `{HashOrder} cfg stack accs answer :
  exists out, run_list cfg always stack true (fun _ => accs) (mkStream [answer] [] 0) = Some out
    /\ read_info (s_out out) [] 0 = Ok (arrived stack <$> filter (shown cfg) (table_list accs), 1%nat).
Proof.
  unfold run_list, listing_fuel. set (st := mkStream [answer] [] 0).
  destruct (listing_rounds cfg stack (S (length (s_in st))) (fun _ => accs) 0 st) as (out & -> & _ & Ho);
    [simpl; lia|]. exists out. split; [done|]. rewrite Ho. cbn [st s_in s_out imap].
  csimpl. change (1 =? 1) with true. cbv iota. rewrite <- !app_assoc, read_items. done.
Qed.

Lemma shown_ok `{HashOrder} cfg accs : keys_ok accs ->
  Forall (fun ac => strlen (ac_id ac) < USERNAMEMAXLEN - 1 /\ accs !! ac_id ac = Some ac)
    (filter (shown cfg) (table_list accs)).
Proof.
  intros Hk. apply list.Forall_forall. intros ac [_ Hin]%list_elem_of_filter.
  pose proof (table_list_ok accs Hk) as Hok. rewrite list.Forall_forall in Hok. by apply Hok.
Qed.

(** A sort of accounts that arrived is a sort of the accounts. *)
Lemma sorted_arrived `{GListSort} stack L :
  Forall (fun ac => strlen (ac_id ac) < USERNAMEMAXLEN - 1) L ->
  exists L', g_list_sort CompareAccountByUsername (arrived stack <$> L) = arrived stack <$> L'
    /\ L' ≡ₚ L /\ StronglySorted (fun a b => CompareAccountByUsername a b <= 0) L'.
Proof.
  intros HL. pose proof (g_list_sort_perm CompareAccountByUsername (arrived stack <$> L)) as Hsrt.
  destruct (Permutation_map_inv _ _ Hsrt) as (L' & El & Hp). exists L'. split; [exact El|]. split; [done|].
  assert (Forall (fun ac => strlen (ac_id ac) < USERNAMEMAXLEN - 1) L') as HL' by (by rewrite <- Hp).
  apply (strongly_sorted_weaken (fun a b => CompareAccountByUsername (arrived stack a) (arrived stack b) <= 0)).
  - intros a b Ha Hb. rewrite list.Forall_forall in HL'. unfold CompareAccountByUsername.
    by rewrite !received_id by (by apply HL').
  - apply (strongly_sorted_fmap (fun a b => CompareAccountByUsername a b <= 0) (arrived stack)).
    change (arrived stack <$> L') with (map (arrived stack) L'). rewrite <- El. apply sorted_by_name.
Qed.

(** * Properties *)

(** What the daemon writes for one request of dbtop is read back by the client: exactly
    the accounts that are not ignored arrive, with their names, samples, averages, level, times
    and cause, and the one answer is consumed. *)
Lemma listing_reaches_client `{HashOrder} (cfg : governor_config) (stack : string)
    (accs : gmap string Account) (answer : Z) :
  keys_ok accs ->
  let out := run_dbtop_command cfg always stack true true accs (mkStream [answer] [] 0) in
  s_in out = []
  /\ exists sel l, sel ≡ₚ filter (shown cfg) (map_to_list accs).*2
       /\ read_info (s_out out) [] 0 = Ok (l, 1%nat) /\ Forall2 same_view sel l.
Proof.
  intros Hk out. subst out. unfold run_dbtop_command. cbn [orb]. rewrite put_always.
  cbn [negb get s_in]. set (st := mkStream [] _ _).
  destruct (send_accounts cfg stack accs st) as [n ->]. rewrite put_always. split; [done|].
  exists (filter (shown cfg) (table_list accs)), (arrived stack <$> filter (shown cfg) (table_list accs)).
  split; [by rewrite table_list_perm|]. split.
  - cbn [snd s_out st app]. cbn [read_info]. change (1 =? 1) with true. cbv iota. by rewrite read_items.
  - pose proof (table_list_ok accs Hk) as Hok.
    induction (table_list accs) as [|ac l IH]; [constructor|].
    apply list.Forall_cons in Hok as [[Hl _] Hok]. rewrite filter_cons.
    destruct (decide (shown cfg ac)); [|by apply IH]. rewrite fmap_cons.
    constructor; [by apply received_view|by apply IH].
Qed.

(** dbctl list-restricted, on the stream that the daemon writes for it, prints the
    header and one line for each restricted account that is not ignored, in the order of the
    names, as if it read the table of the daemon itself. *)
Lemma list_restricted_spec `{HashOrder} `{GListSort} (cfg : governor_config) (stack : string)
    (accs : gmap string Account) (answer : Z) (clk : clock Z) (sel : list Account) :
  keys_ok accs ->
  sel ≡ₚ filter (fun ac => shown cfg ac /\ field_restrict (ac_info ac) <> NO_PERIOD) (map_to_list accs).*2 ->
  StronglySorted (fun a b => CompareAccountByUsername a b <= 0) sel ->
  exists out, run_list cfg always stack true (fun _ => accs) (mkStream [answer] [] 0) = Some out
    /\ print_list_rest clk (s_out out) = Ok (rest_header :: rest_lines clk sel).
Proof.
  intros Hk Hsel Hss. destruct (listing_read cfg stack accs answer) as (out & -> & Er).
  exists out. split; [done|]. unfold print_list_rest. rewrite Er. cbn [obind fst]. do 2 f_equal.
  pose proof (shown_ok cfg accs Hk) as HL. set (L := filter (shown cfg) (table_list accs)) in *.
  destruct (sorted_arrived stack L) as (L' & -> & Hp & Hs').
  { eapply list.Forall_impl; [exact HL|]. by intros ? []. }
  rewrite <- Hp in HL. rewrite rest_lines_arrived by (eapply list.Forall_impl; [exact HL|by intros ? []]).
  rewrite rest_lines_filter. f_equal.
  apply (sorted_unique (fun a b => CompareAccountByUsername a b <= 0)); [| |done|].
  - rewrite list.Forall_forall in HL. intros a b Ha Hb. apply list_elem_of_filter in Ha as [_ Ha], Hb as [_ Hb].
    apply (same_name accs); by apply HL.
  - by apply strongly_sorted_filter.
  - rewrite Hsel, Hp. unfold L. rewrite table_list_perm, list_filter_filter.
    apply Permutation_refl', list_filter_iff. naive_solver.
Qed.

(** A table of three accounts, one of them ignored. *)
Definition example_restricted (id : string) : Account :=
  mkAccount id [] zero_stats zero_stats zero_stats zero_stats 1 60 100
    (mkInfo SHORT_PERIOD READ_PARAM) 0.
Definition example_table : gmap string Account :=
  {[ "zoe" := example_restricted "zoe"; "bob" := example_restricted "bob"; "eve" := init_account "eve" ]}.

Lemma example_keys : keys_ok example_table.
Proof.
  intros a ac. unfold example_table. rewrite !lookup_insert_Some, lookup_singleton_Some.
  intros [[<- <-]|[_ [[<- <-]|[_ [<- <-]]]]]; by split.
Qed.
