(* ===== verification/DbCtlCfg.v ===== *)
(** The listing of the limits: the part of [src/dbctl_cfg.c] that reads the
    elements of the configuration and prints them, and [print_list] of
    [src/dbctl_list.c], which merges them with the accounts of the daemon.

    A text printed with ["%i"] from a [long long] shows its low 32 bits, as
    the x86-64 calling convention passes it. *)

From S2P Require Import Prelude CDouble CString GLib Data UserMap FifoStats Xml Config DbCtlSet Accounts Listing.
Open Scope string_scope.
Open Scope Z_scope.

(** * Data ([src/dbctl_cfg.h]) *)

Record DbCtlLimitAttr := mkLimitAttr {
  l_name : string; l_current : string; l_short : string; l_mid : string; l_long : string
}.

Record DbCtlFoundTag := mkFoundTag {
  tag : string; attr : gmap string string; limit_attr : list DbCtlLimitAttr
}.

Record DbCtlPrintList := mkPrint { pl_name : string; pl_data : string }.

(** * Attributes *)

Definition divider (flag : Z) : Z := if flag =? 1 then 1024 else if flag =? 2 then 1 else 1024 * 1024.

Definition get_mb_str (s : string) (flag : Z) : string :=
  let mb := atoll s in
  let mb := if mb =? -1 then mb else Z.quot mb (divider flag) in
  dec (if mb <? -1 then 0 else mb).

Definition GetAttr (attr : gmap string string) (name_attr : string) : option string :=
  attr !! name_attr.

(** The field of a limit that a period names. *)
Definition period_field (attr : DbCtlLimitAttr) (name_attr : string) : option string :=
  if strcmp_eq name_attr "current" then Some (l_current attr)
  else if strcmp_eq name_attr "short" then Some (l_short attr)
  else if strcmp_eq name_attr "mid" then Some (l_mid attr)
  else if strcmp_eq name_attr "long" then Some (l_long attr)
  else None.

Fixpoint GetLimitAttr (limit_attr : list DbCtlLimitAttr) (name_limit name_attr : string) : string :=
  match limit_attr with
  | [] => "0"
  | attr :: limit_attr =>
      if strcmp_eq (l_name attr) name_limit then
        match period_field attr name_attr with
        | Some v => v
        | None => GetLimitAttr limit_attr name_limit name_attr
        end
      else GetLimitAttr limit_attr name_limit name_attr
  end.

Definition GetUserName (attr : gmap string string) : option string := GetAttr attr "name".
Definition GetUserMysqlName (attr : gmap string string) : option string := GetAttr attr "mysql_name".

(** * [ReadCfg] *)

(** An attribute copied into a zeroed array of 256 bytes. *)
Definition attr_copy (n : xmlNode) (a : string) : string :=
  match getElemAttr n a with Some v => strncpy_str v 255 | None => "" end.

Definition read_limit (n : xmlNode) : DbCtlLimitAttr :=
  mkLimitAttr (attr_copy n "name") (attr_copy n "current") (attr_copy n "short")
    (attr_copy n "mid") (attr_copy n "long").

(** A later attribute replaces an earlier one in the table. *)
Definition read_attrs (n : xmlNode) : gmap string string :=
  fold_left (fun m p => <[fst p := snd p]> m) (x_properties n) ∅.

Definition read_tag (tag : string) (n : xmlNode) : outcome DbCtlFoundTag :=
  limits <-- for_children n [] "limit" (fun l acc => Ok (acc ++ [read_limit l])%list) [];;
  Ok (mkFoundTag tag (read_attrs n) limits).

Definition ReadCfg (file : option xmlNode) (tag : string) : outcome (list DbCtlFoundTag) :=
  match file with
  | None => Exit "Error reading config file"
  | Some root =>
      for_children root [] tag (fun n acc => t <-- read_tag tag n;; Ok (acc ++ [t])%list) []
  end.

(** * [GetDefaultForUsers] *)

Definition ComparePrintByName (x y : DbCtlPrintList) : Z := cmp_int (strcmp (pl_name x) (pl_name y)).

(** The four periods, by the name of the attribute and by the field. *)
Definition per_period (f : string -> (DbCtlLimitAttr -> string) -> Z) : T_LONG :=
  mkTLong (f "current" l_current) (f "short" l_short) (f "mid" l_mid) (f "long" l_long).

Definition cpu_shown (la : list DbCtlLimitAttr) (cpu_def : option DbCtlLimitAttr) : T_LONG :=
  per_period (fun p field =>
    let cpu := atoi (GetLimitAttr la "cpu" p) in
    match cpu_def with
    | Some d => if cpu =? 0 then atoi (field d) else cpu
    | None => cpu
    end).

(** The read and the write limit, in the unit of the listing. *)
Definition io_shown (flag : Z) (la : list DbCtlLimitAttr) (what : string)
    (def : option DbCtlLimitAttr) : T_LONG :=
  per_period (fun p field =>
    let s := GetLimitAttr la what p in
    let real_size := atoll s in
    let v := atoll (get_mb_str s flag) in
    match def with
    | Some d =>
        if (v =? 0) && (real_size <=? 0) && negb (real_size =? -1)
        then atoll (get_mb_str (field d) flag) else v
    | None => v
    end).

Definition amount (flag v : Z) : string :=
  if (v <? 1) && negb (flag =? 2) && negb (v =? -1) then "<1" else dec (s32 v).

Definition slashes (f : Z -> string) (t : T_LONG) : string :=
  f (t_current t) +:+ "/" +:+ f (t_short t) +:+ "/" +:+ f (t_mid t) +:+ "/" +:+ f (t_long t).

Definition tab : string := String (chr 9) "".

(** A null name is printed as glibc does. *)
Definition print_row (flag : Z) (name : option string) (cpu read write : T_LONG) : DbCtlPrintList :=
  let name := default "(null)" name in
  if nonzero flag then
    mkPrint name (tab +:+ slashes dec cpu +:+ tab +:+ slashes (amount flag) read
                  +:+ tab +:+ slashes (amount flag) write)
  else
    let buffer_cpu := prefix_n 23 (slashes dec cpu) in
    let buffer_read := prefix_n 27 (slashes (amount flag) read) in
    let buffer_write := prefix_n 27 (slashes (amount flag) write) in
    mkPrint (prefix_n 14 (pad_right 16 name))
      (prefix_n 88 ("  " +:+ pad_right 25 buffer_cpu +:+ "  " +:+ pad_right 29 buffer_read
                    +:+ "     " +:+ pad_right 29 buffer_write)).

(** One element; [defs] are the default limits, null when the defaults
    themselves are printed. *)
Definition tag_row (flag : Z) (defs : option (DbCtlLimitAttr * DbCtlLimitAttr * DbCtlLimitAttr))
    (t : DbCtlFoundTag) : option (list DbCtlPrintList) :=
  let '(c, r, w) := match defs with
                    | Some (c, r, w) => (Some c, Some r, Some w)
                    | None => (None, None, None)
                    end in
  let name := match defs with Some _ => GetUserName (attr t) | None => Some "default" end in
  m ← match defs with Some _ => GetAttr (attr t) "mode" | None => Some "monitor" end;
  Some (if strcmp_eq m "ignore" then []
        else
          let name := match name with Some _ => name | None => GetUserMysqlName (attr t) end in
          [print_row flag name (cpu_shown (limit_attr t) c) (io_shown flag (limit_attr t) "read" r)
             (io_shown flag (limit_attr t) "write" w)]).

Fixpoint tag_rows (flag : Z) (defs : option (DbCtlLimitAttr * DbCtlLimitAttr * DbCtlLimitAttr))
    (tags : list DbCtlFoundTag) : option (list DbCtlPrintList) :=
  match tags with
  | [] => Some []
  | t :: tags => r ← tag_row flag defs t; rs ← tag_rows flag defs tags; Some (r ++ rs)%list
  end.

Definition print_line (p : DbCtlPrintList) : string := pl_name p +:+ pl_data p.

(** The lines printed; [None] is the comparison with an absent mode. *)
Definition GetDefaultForUsers `{GListSort} (tags : list DbCtlFoundTag)
    (defs : option (DbCtlLimitAttr * DbCtlLimitAttr * DbCtlLimitAttr)) (flag : Z)
    : option (list string) :=
  rows ← tag_rows flag defs (match defs with Some _ => tags | None => take 1 tags end);
  Some (print_line <$> g_list_sort ComparePrintByName rows).

(** The element number 0 of an empty array is not there. *)
Definition GetDefault `{GListSort} (tags : list DbCtlFoundTag) (flag : Z) : option (list string) :=
  match tags with
  | [] => None
  | _ => GetDefaultForUsers tags None flag
  end.

(** * [print_list] of [dbctl_list.c] *)

Definition memory_tag (id : string) : DbCtlFoundTag :=
  mkFoundTag "user" (<["mode" := "restrict"]> (<["name" := id]> ∅)) [].

Definition named_by (id : string) (t : DbCtlFoundTag) : bool :=
  match GetUserName (attr t) with Some name_list => strcmp_eq name_list id | None => false end.

Definition addMemoryUser (inp : list wire) (tags : list DbCtlFoundTag)
    : outcome (list DbCtlFoundTag) :=
  r <-- read_info inp [] 0;;
  Ok (fold_left (fun tags ac =>
        if existsb (named_by (ac_id ac)) tags then tags
        else (tags ++ [memory_tag (ac_id ac)])%list) (fst r) tags).

(** [strncpy] of 255 bytes into an array of 256 on the stack; [stack] is
    what follows a text that fills them. *)
Definition def_copy (stack s : string) : string :=
  if strlen s <? 255 then s else strncpy_str s 255 +:+ stack.

Definition default_of (stack : string) (t : DbCtlFoundTag) (what : string) : DbCtlLimitAttr :=
  let get p := def_copy stack (GetLimitAttr (limit_attr t) what p) in
  mkLimitAttr stack (get "current") (get "short") (get "mid") (get "long").

Definition list_header (flag : Z) : string :=
  let val := String (if flag =? 1 then "K"%char else if flag =? 2 then " "%char else "M"%char) "" in
  if nonzero flag
  then " user" +:+ tab +:+ "cpu(%)" +:+ tab +:+ "read(" +:+ val +:+ "B/s)" +:+ tab
       +:+ "write(" +:+ val +:+ "B/s)"
  else " user             cpu(%)                     read(" +:+ val
       +:+ "B/s)                        write(" +:+ val +:+ "B/s)".

Definition of_option {A} (m : option A) : outcome A :=
  match m with Some a => Ok a | None => Crash end.

(** [files] and [files'] are the documents of the two readings, [readable]
    the access to the configuration itself. *)
Definition print_list `{GListSort} (stack : string) (readable : bool)
    (files files' : string -> option xmlNode) (inp : list wire) (flag : Z)
    : outcome (list string) :=
  let path := if readable then CONFIG_PATH else DUPLICATE_CONFIG_PATH in
  dtags <-- ReadCfg (files path) "default";;
  dlines <-- of_option (GetDefault dtags flag);;
  found_tag <-- of_option (dtags !! 0%nat);;
  let defs := (default_of stack found_tag "cpu", default_of stack found_tag "read",
               default_of stack found_tag "write") in
  utags <-- ReadCfg (files' path) "user";;
  tags <-- addMemoryUser inp utags;;
  ulines <-- of_option (GetDefaultForUsers tags (Some defs) flag);;
  Ok (list_header flag :: dlines ++ ulines)%list.

(** [list] and [list_restricted]: the message sent, and the lines printed
    from the stream [inp] that answers it. *)
Definition list_limits `{GListSort} (sock : bool) (stack : string) (readable : bool)
    (files files' : string -> option xmlNode) (inp : list wire) (flag : Z)
    : list DbCtlCommand * outcome (list string) :=
  (send_if sock (empty_command LIST),
   if sock then print_list stack readable files files' inp flag else Ok []).

Definition list_restricted `{GListSort} (sock : bool) (clk : clock Z) (inp : list wire)
    : list DbCtlCommand * outcome (list string) :=
  (send_if sock (empty_command LIST_R), if sock then print_list_rest clk inp else Ok []).

(** * Lemmas *)

(** ** Reading the elements *)

Lemma ofold_append {A B} (f : A -> outcome B) (g : A -> B) l acc : Forall (fun a => f a = Ok (g a)) l ->
  ofold (fun a acc => b <-- f a;; Ok (acc ++ [b])%list) l acc = Ok (acc ++ (g <$> l))%list.
Proof.
  intros Hl. revert acc. induction Hl as [|a l Ha Hl IH]; intros acc; [by rewrite app_nil_r|].
  cbn [ofold]. rewrite Ha. cbn [obind]. rewrite IH. by rewrite <- app_assoc.
Qed.

Definition tag_of (tag : string) (n : xmlNode) : DbCtlFoundTag :=
  mkFoundTag tag (read_attrs n) (read_limit <$> named "limit" (x_children n)).

Lemma read_tag_of tag n : read_tag tag n = Ok (tag_of tag n).
Proof.
  unfold read_tag. rewrite (for_children_fold n [] n) by done.
  pose proof (ofold_append (fun l => Ok (read_limit l)) read_limit (named "limit" (x_children n)) []) as E.
  cbn [obind] in E. rewrite E by (by apply list.Forall_true). done.
Qed.

Lemma ReadCfg_spec root tag :
  ReadCfg (Some root) tag = Ok (tag_of tag <$> named tag (x_children root)).
Proof.
  unfold ReadCfg. rewrite (for_children_fold root [] root) by done.
  rewrite (ofold_append (read_tag tag) (tag_of tag)); [done|].
  apply list.Forall_true. intros. apply read_tag_of.
Qed.

(** ** The accounts of the daemon *)

Lemma named_by_memory id id' : named_by id (memory_tag id') = String.eqb id' id.
Proof.
  unfold named_by, memory_tag, GetUserName, GetAttr, strcmp_eq. cbn [attr].
  by rewrite lookup_insert_ne, lookup_insert_eq.
Qed.

Lemma filter_same {A} (P Q : A -> Prop) `{!forall x, Decision (P x), !forall x, Decision (Q x)} (l : list A) :
  (forall x, x ∈ l -> P x <-> Q x) -> filter P l = filter Q l.
Proof.
  induction l as [|x l IH]; intros HPQ; [done|]. rewrite !filter_cons.
  rewrite IH by (intros y Hy; apply HPQ; by right). pose proof (HPQ x ltac:(by left)).
  by destruct (decide (P x)), (decide (Q x)); tauto.
Qed.

Lemma memory_fold ids tags : NoDup ids ->
  fold_left (fun tags id => if existsb (named_by id) tags then tags
                            else (tags ++ [memory_tag id])%list) ids tags
  = (tags ++ (memory_tag <$> filter (fun id => existsb (named_by id) tags = false) ids))%list.
Proof.
  intros Hn. revert tags. induction Hn as [|id ids Hid Hn IH]; intros tags; [by rewrite app_nil_r|].
  cbn [fold_left]. rewrite filter_cons. destruct (existsb (named_by id) tags) eqn:E.
  - rewrite IH. by destruct (decide _).
  - rewrite IH. destruct (decide _); [|done]. rewrite fmap_cons, <- app_assoc. do 2 f_equal.
    cbn [app]. f_equal. f_equal. apply filter_same. intros id' Hin.
    rewrite existsb_app. cbn [existsb]. rewrite named_by_memory, orb_false_r.
    destruct (String.eqb_spec id id') as [->|]; [done|]. by rewrite orb_false_r.
Qed.

(** ** The rows *)

Definition listed (t : DbCtlFoundTag) : bool :=
  match GetAttr (attr t) "mode" with Some m => negb (strcmp_eq m "ignore") | None => false end.

Definition user_row (flag : Z) (defs : DbCtlLimitAttr * DbCtlLimitAttr * DbCtlLimitAttr)
    (t : DbCtlFoundTag) : DbCtlPrintList :=
  let '(c, r, w) := defs in
  print_row flag (match GetUserName (attr t) with Some _ => GetUserName (attr t) | None => GetUserMysqlName (attr t) end)
    (cpu_shown (limit_attr t) (Some c)) (io_shown flag (limit_attr t) "read" (Some r))
    (io_shown flag (limit_attr t) "write" (Some w)).

Lemma tag_rows_spec flag defs tags : Forall (fun t => is_Some (GetAttr (attr t) "mode")) tags ->
  tag_rows flag (Some defs) tags = Some (user_row flag defs <$> filter (fun t => listed t = true) tags).
Proof.
  destruct defs as [[c r] w]. induction 1 as [|t tags [m Hm] _ IH]; [done|].
  cbn [tag_rows]. rewrite IH, filter_cons. unfold tag_row, listed. rewrite Hm.
  cbn [mbind option_bind]. by destruct (strcmp_eq m "ignore").
Qed.

Lemma tag_rows_crash flag defs tags : Exists (fun t => GetAttr (attr t) "mode" = None) tags ->
  tag_rows flag (Some defs) tags = None.
Proof.
  destruct defs as [[c r] w]. induction 1 as [t tags Hm|t tags _ IH]; cbn [tag_rows].
  - unfold tag_row. by rewrite Hm.
  - rewrite IH. by destruct (tag_row _ _ t).
Qed.

Lemma rows_sorted `{GListSort} rows :
  g_list_sort ComparePrintByName rows ≡ₚ rows
  /\ StronglySorted (fun x y => ComparePrintByName x y <= 0) (g_list_sort ComparePrintByName rows).
Proof.
  split; [apply g_list_sort_perm|]. apply (g_list_sort_sorted _ (fun _ => True)); [|by apply list.Forall_true].
  apply (strcmp_order pl_name).
Qed.

Lemma sort_one `{GListSort} {A} (cmp : A -> A -> Z) x : g_list_sort cmp [x] = [x].
Proof. apply Permutation_singleton_r, g_list_sort_perm. Qed.

Definition defaults (stack : string) (d : xmlNode) : DbCtlLimitAttr * DbCtlLimitAttr * DbCtlLimitAttr :=
  let t := tag_of "default" d in
  (default_of stack t "cpu", default_of stack t "read", default_of stack t "write").

(** The elements of the users of a document. *)
Definition user_tags (root : xmlNode) : list DbCtlFoundTag := tag_of "user" <$> user_elems root.
Definition unknown (root : xmlNode) (id : string) : Prop := existsb (named_by id) (user_tags root) = false.
#[export] Instance unknown_dec root id : Decision (unknown root id).
Proof. unfold unknown. apply _. Defined.

Lemma table_ids `{HashOrder} accs : keys_ok accs -> NoDup (ac_id <$> table_list accs).
Proof.
  intros Hk. rewrite table_list_perm.
  assert (ac_id <$> (map_to_list accs).*2 = (map_to_list accs).*1) as ->; [|apply NoDup_fst_map_to_list].
  rewrite <- list_fmap_compose. apply list_fmap_ext. intros i [k ac] Hi. simpl.
  apply list_elem_of_lookup_2, elem_of_map_to_list in Hi. by apply Hk in Hi as [-> _].
Qed.

Lemma arrived_ids stack l : Forall (fun ac => strlen (ac_id ac) < USERNAMEMAXLEN - 1) l ->
  ac_id <$> (arrived stack <$> l) = ac_id <$> l.
Proof.
  induction 1 as [|ac l Hac _ IH]; [done|]. rewrite !fmap_cons, IH. by rewrite received_id.
Qed.

(** The accounts of the daemon join the elements of the document. *)
Lemma addMemoryUser_spec `{HashOrder} cfg stack accs answer root : keys_ok accs ->
  exists out ids, run_list cfg always stack true (fun _ => accs) (mkStream [answer] [] 0) = Some out
    /\ ids ≡ₚ filter (unknown root) (ac_id <$> filter (shown cfg) (map_to_list accs).*2)
    /\ addMemoryUser (s_out out) (user_tags root) = Ok (user_tags root ++ (memory_tag <$> ids))%list.
Proof.
  intros Hk. destruct (listing_read cfg stack accs answer) as (out & E & Er).
  pose proof (shown_ok cfg accs Hk) as HL. pose proof (table_ids accs Hk) as Hn.
  exists out. eexists. split; [done|]. split.
  2: { unfold addMemoryUser. rewrite Er. cbn [obind fst]. f_equal.
       assert (forall l tags, fold_left (fun tags ac => if existsb (named_by (ac_id ac)) tags then tags
           else (tags ++ [memory_tag (ac_id ac)])%list) l tags
         = fold_left (fun tags id => if existsb (named_by id) tags then tags
             else (tags ++ [memory_tag id])%list) (ac_id <$> l) tags) as ->.
       { induction l as [|ac l IH]; intros tags; [done|]. simpl. by rewrite IH. }
       rewrite arrived_ids by (eapply list.Forall_impl; [exact HL|by intros ? []]).
       apply memory_fold. eapply list.sublist_NoDup; [exact Hn|]. apply fmap_sublist, sublist_filter. }
  unfold unknown. by rewrite table_list_perm.
Qed.

Lemma memory_listed (ids : list string) :
  filter (fun t => listed t = true) (memory_tag <$> ids) = memory_tag <$> ids.
Proof. induction ids as [|id ids IH]; [done|]. by rewrite !fmap_cons, filter_cons, IH. Qed.

(** The row of the limits that the element [d] gives, without others below
    them. *)
Definition default_row (flag : Z) (d : xmlNode) : DbCtlPrintList :=
  let l := limit_attr (tag_of "default" d) in
  print_row flag (Some "default") (cpu_shown l None) (io_shown flag l "read" None) (io_shown flag l "write" None).

Lemma GetDefault_line `{GListSort} d ds flag :
  GetDefault (tag_of "default" d :: ds) flag = Some [print_line (default_row flag d)].
Proof.
  unfold GetDefault, GetDefaultForUsers. cbn [take]. unfold tag_rows, tag_row.
  cbn [mbind option_bind]. rewrite take_0. cbn [mbind option_bind].
  change (strcmp_eq "monitor" "ignore") with false. cbv iota. by rewrite app_nil_r, sort_one.
Qed.

(** ** One limit, as the daemon and as [dbctl] read it *)

Definition periods : list string := ["current"; "short"; "mid"; "long"].

(** A limit that is set: not bounded, or a number above 0 that is printed
    and converted without loss. *)
Definition level_ok (nm s : string) : Prop :=
  s = "-1" \/ exists z, 0 < z < (if String.eqb nm "cpu" then 2 ^ 31 else 2 ^ 53) /\ s = dec_nat z.

(** Every kind of limit is given at most once, for all the periods. *)
Definition well_limited (l : list xmlNode) : Prop :=
  forall nm, quad_name nm -> hits nm l <= 1
    /\ forall c p, c ∈ l -> hit nm c = true -> p ∈ periods ->
         exists s, getElemAttr c p = Some s /\ level_ok nm s.

Definition limit_of (nm : string) (st : Stats_cfg) : T_LONG :=
  if String.eqb nm "cpu" then l_cpu st
  else if String.eqb nm "write" then l_write st else l_read st.

Definition of_periods (f : string -> Z) : T_LONG :=
  mkTLong (f "current") (f "short") (f "mid") (f "long").

(** The text that [dbctl] takes from the children [l] of an element. *)
Definition text_of (l : list xmlNode) (nm p : string) : string :=
  match List.filter (hit nm) l with [] => "0" | c :: _ => default "" (getElemAttr c p) end.

Lemma level_value nm s : level_ok nm s ->
  strlen s <= 20 /\ to_ll (dtrunc (atof s)) = atoll s
  /\ (atoll s = -1 \/ 0 < atoll s < (if String.eqb nm "cpu" then 2 ^ 31 else 2 ^ 53)).
Proof.
  intros [->|(z & Hz & ->)]; [split; [done|]; split; [by vm_compute|by left]|].
  assert (0 < z < 2 ^ 53) as Hz' by (destruct (String.eqb nm "cpu"); lia).
  rewrite atof_dec_nat, atoll_dec_nat by lia. pose proof (dec_nat_len z ltac:(lia)).
  split; [lia|]. split; [done|]. by right.
Qed.

Lemma hit_children nm l : List.filter (hit nm) (named "limit" l) = List.filter (hit nm) l.
Proof.
  induction l as [|c l IH]; [done|]. unfold named in *. cbn [List.filter].
  destruct (String.eqb (x_name c) "limit") eqn:E.
  - cbn [List.filter]. by rewrite IH.
  - assert (hit nm c = false) as -> by (unfold hit; by rewrite E). done.
Qed.

(** A copied name is a short name only when it is that name. *)
Lemma prefix_short n v s : prefix_n n v = s -> strlen s < n -> v = s.
Proof.
  intros E Hs. destruct (Z.le_gt_cases (strlen v) n) as [Hl|Hl]; [by rewrite prefix_n_all in E|].
  exfalso. assert (strlen (prefix_n n v) = n) as Hn; [|rewrite E in Hn; lia].
  unfold prefix_n, strlen in *. clear E. assert (0 <= n) by lia.
  assert (forall v k, (k <= String.length v)%nat -> String.length (substring 0 k v) = k) as G.
  { clear. induction v as [|c v IH]; intros [|k] Hk; simpl in *; try lia; try done. rewrite IH; lia. }
  rewrite G by lia. lia.
Qed.

Lemma copied_name nm c : quad_name nm -> x_name c = "limit" ->
  strcmp_eq (l_name (read_limit c)) nm = hit nm c.
Proof.
  intros Hq Hc. unfold hit, strcmp_eq, read_limit, attr_copy. cbn [l_name]. rewrite Hc.
  assert (0 < strlen nm < 255) as Hl by (unfold quad_name in Hq; set_unfold in Hq; naive_solver).
  change (String.eqb "limit" "limit") with true. cbn [andb].
  destruct (getElemAttr c "name") as [v|].
  - destruct (String.eqb_spec v nm) as [->|Hne].
    + apply String.eqb_eq. apply prefix_n_all. lia.
    + apply String.eqb_neq. intros E. apply Hne. apply (prefix_short 255); [exact E|lia].
  - destruct nm; [unfold strlen in Hl; simpl in Hl; lia|done].
Qed.

Lemma copied_period c p : p ∈ periods -> period_field (read_limit c) p = Some (attr_copy c p).
Proof. intros Hp. set_unfold in Hp. by destruct Hp as [->|[->|[->|[->|[]]]]]. Qed.

(** What [GetLimitAttr] finds. *)
Lemma GetLimitAttr_text l nm p : quad_name nm -> well_limited l -> p ∈ periods ->
  GetLimitAttr (read_limit <$> named "limit" l) nm p = text_of l nm p.
Proof.
  intros Hq Hw Hp. unfold text_of. rewrite <- hit_children.
  assert (Forall (fun c => x_name c = "limit" /\ c ∈ l) (named "limit" l)) as Hn.
  { apply List.Forall_forall. intros c [Hin He]%filter_In. split; [by apply String.eqb_eq|].
    by apply list_elem_of_In. }
  induction Hn as [|c l' [Hc Hin] _ IH]; [done|]. rewrite fmap_cons. cbn [GetLimitAttr List.filter].
  rewrite copied_name by done. destruct (hit nm c) eqn:E; [|exact IH].
  rewrite copied_period by done. destruct (Hw nm Hq) as [_ Ha]. destruct (Ha c p Hin E Hp) as (s & Es & Hs).
  unfold attr_copy. rewrite Es. apply level_value in Hs as [Hl _]. apply prefix_n_all. cbn. lia.
Qed.

(** What the configuration reader finds. *)
Lemma limit_of_with nm nm' t st : quad_name nm ->
  limit_of nm (with_limit nm' t st) = if String.eqb nm' nm then t else limit_of nm st.
Proof.
  unfold quad_name, limit_of, with_limit. intros Hq. set_unfold in Hq.
  destruct Hq as [->|[->|[->|[]]]];
    repeat (match goal with |- context [String.eqb nm' ?y] => destruct (String.eqb_spec nm' y) as [->|] end; try done).
Qed.

Lemma limit_value_periods c nm v : quad_name nm -> hit nm c = true ->
  (forall p, p ∈ periods -> exists s, getElemAttr c p = Some s /\ level_ok nm s) ->
  limit_value c = Ok v -> v = (nm, of_periods (fun p => atoll (default "" (getElemAttr c p)))).
Proof.
  intros Hq Hh Hp. apply hit_spec in Hh as [_ En].
  destruct (Hp "current" ltac:(set_solver)) as (s0 & E0 & H0), (Hp "short" ltac:(set_solver)) as (s1 & E1 & H1),
    (Hp "mid" ltac:(set_solver)) as (s2 & E2 & H2), (Hp "long" ltac:(set_solver)) as (s3 & E3 & H3).
  unfold limit_value, attr_or, of_periods. rewrite E0, E1, E2, E3, En.
  assert (strcmp_eq nm "slow" = false) as -> by (unfold quad_name in Hq; set_unfold in Hq; naive_solver).
  apply level_value in H0 as (_ & -> & _), H1 as (_ & -> & _), H2 as (_ & -> & _), H3 as (_ & -> & _).
  by intros [= <-].
Qed.

Lemma limits_cfg_of l st r nm : quad_name nm -> well_limited l -> limits_cfg l st = Ok r ->
  limit_of nm r = match List.filter (hit nm) l with
                  | [] => limit_of nm st
                  | _ => of_periods (fun p => atoll (text_of l nm p))
                  end.
Proof.
  intros Hq Hw. destruct (Hw nm Hq) as [Hh Ha]. clear Hw. unfold text_of.
  assert (forall c p, c ∈ l -> hit nm c = true -> p ∈ periods ->
    exists s, getElemAttr c p = Some s /\ level_ok nm s) as Ha' by exact Ha. clear Ha.
  revert st Hh. induction l as [|c l IH]; intros st Hh E; [by injection E as ->|].
  rewrite limits_cfg_cons in E. rewrite hits_cons in Hh. cbn [List.filter].
  specialize (IH ltac:(intros c' p Hc'; apply Ha'; by right)).
  destruct (hit nm c) eqn:Eh.
  - pose proof Eh as [Hx _]%hit_spec. rewrite Hx in E. cbn [String.eqb] in E.
    destruct (limit_value c) as [v| |] eqn:Ev; [|done|done].
    pose proof (limit_value_periods c nm v Hq Eh ltac:(intros p Hp; apply (Ha' c p); [by left|done|done]) Ev) as ->.
    cbn [obind fst snd] in E. rewrite (IH _ ltac:(lia) E).
    assert (hits nm l = 0) as H0 by (unfold hits in *; lia).
    assert (List.filter (hit nm) l = []) as -> by (apply length_zero_iff_nil; unfold hits in H0; lia).
    rewrite limit_of_with, String.eqb_refl by done. done.
  - destruct (String.eqb (x_name c) "limit") eqn:Hx; [|by apply IH].
    destruct (limit_value c) as [v| |] eqn:Ev; [|done|done]. cbn [obind] in E.
    rewrite (IH _ ltac:(lia) E). rewrite limit_of_with by done. apply limit_value_name in Ev.
    destruct (String.eqb_spec v.1 nm) as [<-|]; [|done]. unfold hit in Eh.
    by rewrite Hx, Ev, String.eqb_refl in Eh.
Qed.

(** A limit in the unit of a listing. *)
Definition in_unit (flag z : Z) : Z := if z =? -1 then -1 else Z.quot z (divider flag).
Definition limit_in_unit (flag : Z) (t : T_LONG) : T_LONG :=
  mkTLong (in_unit flag (t_current t)) (in_unit flag (t_short t)) (in_unit flag (t_mid t))
    (in_unit flag (t_long t)).

Lemma divider_pos flag : 1 <= divider flag.
Proof. unfold divider. destruct (flag =? 1); [lia|]. destruct (flag =? 2); lia. Qed.

(** ** Specification of a row *)

(** An amount in the unit of the listing, whole: ["<1"] below one unit. *)
Definition shown_amount (flag z : Z) : string :=
  if z =? -1 then "-1"
  else if (z <? divider flag) && negb (flag =? 2) then "<1" else dec (z / divider flag).

(** The limits [lim] of a user: with a flag in one line, without in columns,
    which are cut at 23 and 27 characters. *)
Definition limits_row (flag : Z) (name : string) (lim : Stats_cfg) : DbCtlPrintList :=
  let cpu := slashes dec (l_cpu lim) in
  let read := slashes (shown_amount flag) (l_read lim) in
  let write := slashes (shown_amount flag) (l_write lim) in
  if nonzero flag then mkPrint name (tab +:+ cpu +:+ tab +:+ read +:+ tab +:+ write)
  else mkPrint (prefix_n 14 (pad_right 16 name))
         (prefix_n 88 ("  " +:+ pad_right 25 (prefix_n 23 cpu) +:+ "  " +:+ pad_right 29 (prefix_n 27 read)
                       +:+ "     " +:+ pad_right 29 (prefix_n 27 write))).

(** The amount fits the 32 bits that are printed. *)
Definition printable (flag z : Z) : Prop := z = -1 \/ 0 <= z /\ z / divider flag < 2 ^ 31.
Definition printable_limit (flag : Z) (t : T_LONG) : Prop :=
  Forall (printable flag) [t_current t; t_short t; t_mid t; t_long t].

Lemma amount_shown flag z : printable flag z -> amount flag (in_unit flag z) = shown_amount flag z.
Proof.
  pose proof (divider_pos flag) as Hd. intros [->|[Hz Hp]].
  - unfold amount, in_unit, shown_amount. change (-1 =? -1) with true. cbv iota. by rewrite andb_false_r.
  - unfold amount, in_unit, shown_amount. destruct (Z.eqb_spec z (-1)) as [?|Hne]; [lia|].
    rewrite Z.quot_div_nonneg by lia. assert (0 <= z / divider flag) as H0 by (apply Z.div_pos; lia).
    destruct (Z.eqb_spec (z / divider flag) (-1)); [lia|]. rewrite andb_true_r, s32_id by (unfold in_s32; lia).
    assert ((z / divider flag <? 1) = (z <? divider flag)) as ->; [|done].
    destruct (Z.ltb_spec z (divider flag)) as [Hl|Hl].
    + by rewrite Z.div_small by lia.
    + apply Z.ltb_ge. pose proof (Z.div_le_mono (divider flag) z (divider flag) ltac:(lia) Hl) as G.
      by rewrite Z.div_same in G by lia.
Qed.

Lemma print_row_shown flag name lim : printable_limit flag (l_read lim) -> printable_limit flag (l_write lim) ->
  print_row flag (Some name) (l_cpu lim) (limit_in_unit flag (l_read lim)) (limit_in_unit flag (l_write lim))
  = limits_row flag name lim.
Proof.
  assert (forall t, printable_limit flag t -> slashes (amount flag) (limit_in_unit flag t) = slashes (shown_amount flag) t) as G.
  { intros t. unfold printable_limit. rewrite !list.Forall_cons. intros (A & B & C & D & _).
    unfold slashes, limit_in_unit. cbn [t_current t_short t_mid t_long]. by rewrite !amount_shown. }
  intros Hr Hw. unfold print_row, limits_row. by rewrite !G.
Qed.

Lemma in_unit_range flag z : z = -1 \/ 0 <= z < 2 ^ 53 -> in_unit flag z = -1 \/ 0 <= in_unit flag z < 2 ^ 53.
Proof.
  pose proof (divider_pos flag). unfold in_unit. destruct (Z.eqb_spec z (-1)); [by left|].
  intros [?|Hz]; [done|]. right. split; [apply Z.quot_pos; lia|].
  apply Z.le_lt_trans with z; [|lia]. apply Z.quot_le_upper_bound; nia.
Qed.

Lemma mb_value flag s : atoll s = -1 \/ 0 <= atoll s < 2 ^ 53 ->
  atoll (get_mb_str s flag) = in_unit flag (atoll s).
Proof.
  intros Hs. pose proof (in_unit_range flag _ Hs) as Hr. unfold get_mb_str.
  assert ((if atoll s =? -1 then atoll s else Z.quot (atoll s) (divider flag)) = in_unit flag (atoll s)) as ->.
  { unfold in_unit. by destruct (Z.eqb_spec (atoll s) (-1)) as [->|]. }
  destruct (Z.ltb_spec (in_unit flag (atoll s)) (-1)); [lia|]. apply atoll_dec. unfold in_s64. lia.
Qed.

Lemma of_periods_ext f g : (forall p, p ∈ periods -> f p = g p) -> of_periods f = of_periods g.
Proof. intros E. unfold of_periods. rewrite !E by set_solver. done. Qed.

(** The text of a kind of limit: the "0" of an absent one, or a limit. *)
Lemma text_cases l nm p : quad_name nm -> well_limited l -> p ∈ periods ->
  match List.filter (hit nm) l with [] => text_of l nm p = "0" | _ => level_ok nm (text_of l nm p) end.
Proof.
  intros Hq Hw Hp. unfold text_of. destruct (List.filter (hit nm) l) as [|c l'] eqn:E; [done|].
  assert (In c (List.filter (hit nm) l)) as [Hin Hh]%filter_In by (rewrite E; by left).
  destruct (Hw nm Hq) as [_ Ha].
  destruct (Ha c p ltac:(by apply list_elem_of_In) Hh Hp) as (s & -> & Hs). done.
Qed.

Lemma text_range l nm p : quad_name nm -> well_limited l -> p ∈ periods ->
  strlen (text_of l nm p) <= 20 /\
  (atoll (text_of l nm p) = -1 \/ 0 <= atoll (text_of l nm p) < (if String.eqb nm "cpu" then 2 ^ 31 else 2 ^ 53)).
Proof.
  intros Hq Hw Hp. pose proof (text_cases l nm p Hq Hw Hp) as Hc.
  destruct (List.filter (hit nm) l); [rewrite Hc|apply level_value in Hc as (? & _ & ?); lia].
  split; [done|]. right. by destruct (String.eqb nm "cpu").
Qed.

(** The limit of a user: its own, or the default when it has none. *)
Lemma user_limit_of dch nch dl l st st0 nm : quad_name nm -> well_limited dch -> well_limited nch ->
  limits_cfg dch st0 = Ok dl -> limit_of nm st0 = zero_limits ->
  limit_of nm st = limit_of nm dl -> limits_cfg nch st = Ok l ->
  limit_of nm dl = of_periods (fun p => atoll (text_of dch nm p))
  /\ limit_of nm l = of_periods (fun p => let v := atoll (text_of nch nm p) in
                                       if v =? 0 then atoll (text_of dch nm p) else v).
Proof.
  intros Hq Hwd Hwn Ed E0 Es En.
  assert (limit_of nm dl = of_periods (fun p => atoll (text_of dch nm p))) as Hd.
  { rewrite (limits_cfg_of _ _ _ nm Hq Hwd Ed), E0. unfold text_of. by destruct (List.filter _ _). }
  split; [done|]. rewrite (limits_cfg_of _ _ _ nm Hq Hwn En), Es, Hd.
  pose proof (text_cases nch nm) as Hc. destruct (List.filter (hit nm) nch) as [|c cs].
  - apply of_periods_ext. intros p Hp. by rewrite (Hc p Hq Hwn Hp).
  - apply of_periods_ext. intros p Hp. specialize (Hc p Hq Hwn Hp). apply level_value in Hc as (_ & _ & Hv).
    cbv zeta. destruct (Z.eqb_spec (atoll (text_of nch nm p)) 0); [lia|done].
Qed.

Lemma def_copy_short stack s : strlen s <= 20 -> def_copy stack s = s.
Proof. intros. unfold def_copy. by destruct (Z.ltb_spec (strlen s) 255); [|lia]. Qed.

Lemma atoi_atoll s : 0 <= atoll s < 2 ^ 31 \/ atoll s = -1 -> atoi s = atoll s.
Proof. intros Hs. apply s32_id. unfold in_s32. unfold atoll in *. lia. Qed.

Section shown_limits.
Variables (stack tg : string) (d n : xmlNode).
Hypotheses (Hd : well_limited (x_children d)) (Hn : well_limited (x_children n)).

Lemma cpu_shown_value :
  cpu_shown (limit_attr (tag_of tg n)) (Some (default_of stack (tag_of "default" d) "cpu"))
  = of_periods (fun p => let v := atoll (text_of (x_children n) "cpu" p) in
                         if v =? 0 then atoll (text_of (x_children d) "cpu" p) else v).
Proof.
  assert (quad_name "cpu") as Hq by (unfold quad_name; set_solver).
  change (cpu_shown _ _) with (of_periods (fun p =>
    let cpu := atoi (GetLimitAttr (read_limit <$> named "limit" (x_children n)) "cpu" p) in
    if cpu =? 0 then atoi (def_copy stack (GetLimitAttr (read_limit <$> named "limit" (x_children d)) "cpu" p))
    else cpu)).
  apply of_periods_ext. intros p Hp. rewrite !GetLimitAttr_text by done.
  destruct (text_range _ "cpu" p Hq Hd Hp) as [Hl Hr], (text_range _ "cpu" p Hq Hn Hp) as [_ Hr'].
  rewrite def_copy_short by done. cbn [String.eqb] in *. by rewrite !atoi_atoll by tauto.
Qed.

Lemma io_shown_value flag nm : nm = "read" \/ nm = "write" ->
  io_shown flag (limit_attr (tag_of tg n)) nm (Some (default_of stack (tag_of "default" d) nm))
  = limit_in_unit flag (of_periods (fun p => let v := atoll (text_of (x_children n) nm p) in
                         if v =? 0 then atoll (text_of (x_children d) nm p) else v)).
Proof.
  intros Hnm. assert (quad_name nm) as Hq by (unfold quad_name; set_solver).
  change (io_shown _ _ _ _) with (of_periods (fun p =>
    let s := GetLimitAttr (read_limit <$> named "limit" (x_children n)) nm p in
    let real_size := atoll s in
    let v := atoll (get_mb_str s flag) in
    if (v =? 0) && (real_size <=? 0) && negb (real_size =? -1)
    then atoll (get_mb_str (def_copy stack (GetLimitAttr (read_limit <$> named "limit" (x_children d)) nm p)) flag)
    else v)).
  change (limit_in_unit flag (of_periods ?f)) with (of_periods (fun p => in_unit flag (f p))).
  apply of_periods_ext. intros p Hp. cbv zeta. rewrite !GetLimitAttr_text by done.
  destruct (text_range _ nm p Hq Hd Hp) as [Hl Hr], (text_range _ nm p Hq Hn Hp) as [_ Hr'].
  assert (String.eqb nm "cpu" = false) as Ec by (destruct Hnm as [->| ->]; done). rewrite Ec in *.
  rewrite def_copy_short by done. rewrite !mb_value by done. unfold in_unit at 1.
  destruct (Z.eqb_spec (atoll (text_of (x_children n) nm p)) (-1)) as [E1|E1].
  - rewrite E1. done.
  - destruct (Z.eqb_spec (atoll (text_of (x_children n) nm p)) 0) as [E0|E0].
    + rewrite E0. rewrite Z.quot_0_l by (pose proof (divider_pos flag); lia). done.
    + destruct (Z.leb_spec (atoll (text_of (x_children n) nm p)) 0); [lia|]. by rewrite andb_false_r.
Qed.
End shown_limits.

Lemma read_attrs_lookup n a : NoDup (x_properties n).*1 -> read_attrs n !! a = getElemAttr n a.
Proof.
  intros Hn. unfold read_attrs, getElemAttr.
  assert (forall l m, NoDup l.*1 -> fold_left (fun m (p : string * string) => <[fst p := snd p]> m) l m !! a
    = match List.find (fun p => String.eqb (fst p) a) l with Some p => Some p.2 | None => m !! a end) as ->.
  { induction l as [|[k v] l IH]; intros m Hl; [done|]. cbn [fold_left List.find fst snd].
    apply list.NoDup_cons in Hl as [Hk Hl]. rewrite IH by done. destruct (String.eqb_spec k a) as [->|Hne].
    - assert (List.find (fun p => String.eqb (fst p) a) l = None) as ->; [|by rewrite lookup_insert_eq].
      destruct (List.find _ l) as [[k' v']|] eqn:Ef; [|done]. apply find_some in Ef as [Hin E].
      apply String.eqb_eq in E. cbn in E. subst. destruct Hk. apply list_elem_of_fmap.
      exists (a, v'). split; [done|]. by apply list_elem_of_In.
    - by rewrite lookup_insert_ne. }
  2: done. destruct (List.find _ _) as [[k v]|]; [done|]. simpl. apply lookup_empty.
Qed.

Lemma user_cfg_parts n dl u l : user_cfg dl n = Ok (u, l) ->
  (getElemAttr n "name" = Some u \/ getElemAttr n "name" = None /\ getElemAttr n "mysql_name" = Some u)
  /\ exists flag m, limits_cfg (x_children n) (set_mode dl flag m) = Ok l.
Proof.
  unfold user_cfg. destruct (match getElemAttr n "mode" with Some s => _ | None => _ end) as [m| |];
    [|by destruct (getElemAttr n "name"), (getElemAttr n "mysql_name")..].
  cbn [obind]. rewrite !user_limits.
  destruct (getElemAttr n "name") as [a|], (getElemAttr n "mysql_name") as [b|]; try done;
    destruct (limits_cfg _ _) eqn:El; try done; intros [= -> ->]; split; eauto.
Qed.

(** The two readers of a document, that of the listing and that of the daemon,
    find the same limits. *)
Lemma listing_rows (root d n : xmlNode) (p : path) (dl l : Stats_cfg)
    (u stack id : string) (flag : Z) :
  FindElementWithName root None "default" = Some p -> node_at root p = Some d ->
  cfg_default root = Ok dl -> user_cfg dl n = Ok (u, l) ->
  well_limited (x_children d) -> well_limited (x_children n) -> NoDup (x_properties n).*1 ->
  user_row flag (defaults stack d) (tag_of "user" n)
    = print_row flag (Some u) (l_cpu l) (limit_in_unit flag (l_read l)) (limit_in_unit flag (l_write l))
  /\ user_row flag (defaults stack d) (memory_tag id)
    = print_row flag (Some id) (l_cpu dl) (limit_in_unit flag (l_read dl)) (limit_in_unit flag (l_write dl)).
Proof.
  intros Ep Ed Ecd Eu Hd Hn Hnd. unfold cfg_default in Ecd.
  rewrite Ep, (for_children_fold root p d) in Ecd by done.
  destruct (ofold _ _ _) as [dl0| |] eqn:Ed0; [|done|done]. injection Ecd as Edl.
  destruct (user_cfg_parts n dl u l Eu) as (Hname & fl & m & El).
  assert (forall nm, quad_name nm -> limit_of nm dl = limit_of nm dl0 /\ limit_of nm (set_mode dl fl m) = limit_of nm dl0) as Hlim.
  { intros nm _. subst dl. by unfold limit_of; repeat destruct (String.eqb _ _). }
  assert (forall nm, quad_name nm -> limit_of nm dl = of_periods (fun p => atoll (text_of (x_children d) nm p))
     /\ limit_of nm l = of_periods (fun p => let v := atoll (text_of (x_children n) nm p) in
           if v =? 0 then atoll (text_of (x_children d) nm p) else v)) as HL.
  { intros nm Hq. destruct (Hlim nm Hq) as [-> Hs].
    apply (user_limit_of _ _ dl0 l (set_mode dl fl m) (set_mode zero_cfg false RESTRICT_MODE)); try done.
    by unfold limit_of; repeat destruct (String.eqb _ _). }
  destruct (HL "cpu" ltac:(unfold quad_name; set_solver)) as [Cd Cl],
    (HL "read" ltac:(unfold quad_name; set_solver)) as [Rd Rl], (HL "write" ltac:(unfold quad_name; set_solver)) as [Wd Wl].
  cbn in Cd, Cl, Rd, Rl, Wd, Wl. split.
  - unfold user_row, defaults. rewrite cpu_shown_value, !io_shown_value by auto. cbv zeta in *.
    rewrite Cl, Rl, Wl. f_equal. unfold GetUserName, GetUserMysqlName, GetAttr, tag_of. cbn [attr].
    rewrite !read_attrs_lookup by done. by destruct Hname as [->|[-> ->]].
  - assert (well_limited []) as H0.
    { intros nm _. split; [done|]. intros c q Hc. by apply elem_of_nil in Hc. }
    change (memory_tag id) with (mkFoundTag "user" (attr (memory_tag id)) (limit_attr (tag_of "user" (XNode "user" [] [])))).
    unfold user_row, defaults. cbn [limit_attr].
    rewrite (cpu_shown_value stack "user" d (XNode "user" [] []) Hd H0),
      !(io_shown_value stack "user" d (XNode "user" [] []) Hd H0) by auto.
    rewrite Cd, Rd, Wd. done.
Qed.

(** * Properties *)

(** C25: dbctl list, on the stream that the daemon writes from a table of accounts that does
    not change during the walk, and on two documents it can read, the first of which has an
    element default: it crashes when some user element has no mode; otherwise it prints its
    header, the line of the first default element, and below them, sorted by name, exactly one
    line for each user element whose mode is not the text ignore, in lower case, and for each
    account that the daemon does not ignore and that no element names. Conditions: the names of
    the accounts are shorter than 63 characters and the writes of the daemon succeed. *)
Theorem print_list_shows_everyone `{HashOrder} `{GListSort} (cfg : governor_config)
    (stack stack' : string) (accs : gmap string Account) (answer flag : Z) (readable : bool)
    (files files' : string -> option xmlNode) (droot root d : xmlNode) :
  keys_ok accs ->
  let path := if readable then CONFIG_PATH else DUPLICATE_CONFIG_PATH in
  files path = Some droot -> head (named "default" (x_children droot)) = Some d ->
  files' path = Some root ->
  exists out, run_list cfg always stack true (fun _ => accs) (mkStream [answer] [] 0) = Some out
  /\ (Exists (fun n => read_attrs n !! "mode" = None) (user_elems root) ->
        print_list stack' readable files files' (s_out out) flag = Crash)
  /\ (Forall (fun n => is_Some (read_attrs n !! "mode")) (user_elems root) -> exists rows,
    print_list stack' readable files files' (s_out out) flag
       = Ok (list_header flag :: print_line (default_row flag d) :: (print_line <$> rows))
    /\ StronglySorted (fun x y => ComparePrintByName x y <= 0) rows
    /\ rows ≡ₚ user_row flag (defaults stack' d) <$>
         (filter (fun t => listed t = true) (user_tags root)
          ++ (memory_tag <$> filter (unknown root)
                (ac_id <$> filter (shown cfg) (map_to_list accs).*2)))%list).
Proof.
  intros Hk path Ed Hd Er. destruct (addMemoryUser_spec cfg stack accs answer root Hk) as (out & ids & E & Hids & Ea).
  destruct (named "default" (x_children droot)) as [|d' ds] eqn:En; [done|]. injection Hd as ->.
  pose proof (GetDefault_line d (tag_of "default" <$> ds) flag) as El.
  exists out. unfold print_list. fold path. rewrite Ed, Er, !ReadCfg_spec. cbn [obind].
  rewrite En, fmap_cons, El. cbn [of_option obind lookup list_lookup].
  fold (user_elems root). fold (user_tags root). rewrite Ea. cbn [obind]. unfold GetDefaultForUsers.
  change (default_of stack' _ "cpu", _, _) with (defaults stack' d). split; [done|]. split.
  { intros Hm. rewrite tag_rows_crash; [done|]. apply Exists_app. left. unfold user_tags. by apply Exists_fmap. }
  intros Hm. rewrite tag_rows_spec.
  - cbn [mbind option_bind of_option obind]. set (rows := user_row _ _ <$> _).
    exists (g_list_sort ComparePrintByName rows). split; [reflexivity|].
    destruct (rows_sorted rows) as [Hp Hs]. split; [done|]. rewrite Hp. unfold rows.
    by rewrite list.filter_app, <- Hids, memory_listed.
  - apply list.Forall_app. split; [|apply list.Forall_fmap, list.Forall_true; intros id; by eexists].
    unfold user_tags. by apply list.Forall_fmap.
Qed.

(** C24: The listing of dbctl and the configuration reader of the daemon, two separate
    readers of the document, agree: the row printed for a user element holds the name and the
    limits that the daemon enforces on it, each amount as the whole number of units of the
    listing, <1 below a unit, -1 for no bound, and the row of an account without an element
    holds the default limits. In the listing with columns the name is cut at 14 characters and
    the amounts at 23 and 27. Conditions: both readers accept the document and find the same
    default element; each of cpu, read and write is given at most once in the defaults and in
    the user, with all four periods, as -1 or a decimal number above 0, for cpu below 2^31 and
    for bytes below 2^53; no attribute is given twice; and the read and write amounts printed,
    counted in the unit of the listing, are below 2^31, since the rest is cut to 32 bits. *)
Theorem listing_shows_enforced_limits (root d n : xmlNode) (p : path) (dl l : Stats_cfg)
    (u stack id : string) (flag : Z) :
  FindElementWithName root None "default" = Some p -> node_at root p = Some d ->
  cfg_default root = Ok dl -> user_cfg dl n = Ok (u, l) ->
  well_limited (x_children d) -> well_limited (x_children n) -> NoDup (x_properties n).*1 ->
  (printable_limit flag (l_read l) -> printable_limit flag (l_write l) ->
     user_row flag (defaults stack d) (tag_of "user" n) = limits_row flag u l)
  /\ (printable_limit flag (l_read dl) -> printable_limit flag (l_write dl) ->
     user_row flag (defaults stack d) (memory_tag id) = limits_row flag id dl).
Proof.
  intros Ep Ed Ecd Eu Hd Hn Hnd.
  destruct (listing_rows root d n p dl l u stack id flag Ep Ed Ecd Eu Hd Hn Hnd) as [-> ->].
  split; apply print_row_shown.
Qed.

(** ** Examples *)

Definition example_limit (nm c s m l : string) : xmlNode :=
  XNode "limit" [("name", nm); ("current", c); ("short", s); ("mid", m); ("long", l)] [].
Definition example_default : xmlNode :=
  XNode "default" [] [example_limit "cpu" "150" "100" "90" "65";
                      example_limit "read" "104857600" "52428800" "-1" "1048576"].
Definition example_user : xmlNode :=
  XNode "user" [("name", "bob"); ("mode", "restrict")]
    [example_limit "read" "209715200" "-1" "1024" "1048576"].
Definition example_listing : xmlNode := XNode "governor" [] [example_default; example_user].

Lemma level_ok_dec nm s z : s = dec_nat z -> 0 < z < 2 ^ 31 -> level_ok nm s.
Proof. intros -> Hz. right. exists z. split; [|done]. by destruct (String.eqb nm "cpu"); lia. Qed.

Lemma example_limited : well_limited (x_children example_default) /\ well_limited (x_children example_user).
Proof.
  split; intros nm Hq; unfold quad_name in Hq; set_unfold in Hq; destruct Hq as [->|[->|[->|[]]]];
    (split; [by vm_compute|]); intros c p Hc Hh Hp; set_unfold in Hc; set_unfold in Hp;
    repeat (destruct Hc as [->|Hc]); try done; try (vm_compute in Hh; discriminate Hh);
    destruct Hp as [->|[->|[->|[->|[]]]]]; (eexists; split; [reflexivity|]);
    first [by left|match goal with |- level_ok _ ?s =>
             apply (level_ok_dec _ _ (atoll s)); [by vm_compute|by vm_compute] end].
Qed.

Lemma listing_shows_enforced_limits_witness :
  match cfg_default example_listing with
  | Ok dl =>
      match user_cfg dl example_user with
      | Ok (u, l) =>
          print_line (user_row 0 (defaults "" example_default) (tag_of "user" example_user))
          = print_line (limits_row 0 u l)
          /\ l_read l = mkTLong 209715200 (-1) 1024 1048576 /\ l_cpu l = l_cpu dl
          /\ pl_data (user_row 1 (defaults "" example_default) (tag_of "user" example_user))
             = tab +:+ "150/100/90/65" +:+ tab +:+ "204800/-1/1/1024" +:+ tab +:+ "<1/<1/<1/<1"
      | _ => False
      end
  | _ => False
  end.
Proof.
  destruct (cfg_default example_listing) as [dl| |] eqn:Ed; [|vm_compute in Ed; discriminate Ed..].
  destruct (user_cfg dl example_user) as [[u l]| |] eqn:Eu;
    [|vm_compute in Ed; injection Ed as <-; vm_compute in Eu; discriminate Eu..].
  destruct example_limited as [Hd Hn].
  assert (NoDup (x_properties example_user).*1) as Hp by (apply (bool_decide_unpack _); by vm_compute).
  split; [|].
  - destruct (listing_shows_enforced_limits example_listing example_default example_user [0%nat] dl l u
                "" "eve" 0 eq_refl eq_refl Ed Eu Hd Hn Hp) as [E _].
    rewrite E; [reflexivity|..]; vm_compute in Ed; injection Ed as <-; vm_compute in Eu; injection Eu as <- <-;
      repeat constructor; unfold printable; cbn; lia.
  - vm_compute in Ed. injection Ed as <-. vm_compute in Eu. injection Eu as <- <-. by vm_compute.
Defined.

Lemma print_list_shows_everyone_witness :
  exists out rows,
    run_list (H := default_order) example_config always "" true (fun _ => example_table)
      (mkStream [7] [] 0) = Some out
    /\ print_list (H := insertion_list_sort) "" true (fun _ => Some example_listing)
         (fun _ => Some example_listing) (s_out out) 1
       = Ok (list_header 1 :: print_line (default_row 1 example_default) :: (print_line <$> rows))
    /\ length rows = 3%nat.
Proof.
  destruct (print_list_shows_everyone (H := default_order) (H0 := insertion_list_sort) example_config "" ""
              example_table 7 1 true (fun _ => Some example_listing) (fun _ => Some example_listing)
              example_listing example_listing example_default example_keys eq_refl eq_refl eq_refl)
    as (out & A & _ & H). destruct H as (rows & B & _ & C).
  - repeat constructor; by eexists.
  - exists out, rows. split; [exact A|]. split; [exact B|]. rewrite C. by vm_compute.
Defined.

(** A limit without all its periods is shown with those of the default,
    although the daemon does not bound them. *)
Lemma missing_period_shown_as_default :
  let n := XNode "user" [("name", "bob"); ("mode", "restrict")]
             [XNode "limit" [("name", "cpu"); ("current", "400")] []] in
  t_short (cpu_shown (limit_attr (tag_of "user" n))
             (Some (default_of "" (tag_of "default" example_default) "cpu"))) = 100
  /\ match dl <-- cfg_default example_listing;; user_cfg dl n with
     | Ok (_, l) => t_short (l_cpu l) = -1
     | _ => False
     end.
Proof. by vm_compute. Qed.

(** A user element without a mode, which the configuration reader accepts,
    ends the listing. *)
Lemma listing_without_mode_crashes `{GListSort} :
  let n := XNode "user" [("name", "bob")] [] in
  GetDefaultForUsers [tag_of "user" n] (Some (defaults "" example_default)) 0 = None
  /\ exists r, (dl <-- cfg_default example_listing;; user_cfg dl n) = Ok r.
Proof. split; [done|]. eexists. vm_compute. reflexivity. Qed.
