(* ===== verification/XmlText.v ===== *)
(** The texts of a document do not matter: the reader of the configuration
    ([config_init] of [src/governor_config.c]) and that of the listing
    ([ReadCfg] of [src/dbctl_cfg.c]) find the same in a document and in its
    elements alone.  So what libxml2 does to the texts of a document that is
    saved and read again ([XmlFile]) is not noticed. *)

From S2P Require Import Prelude CDouble CString GLib Data UserMap FifoStats Xml XmlFile Config ConfigEdit Accounts DbCtlSet Listing DbCtlCfg.
Open Scope string_scope.
Open Scope Z_scope.

(** * Searches *)

Lemma elements_attr n a : getElemAttr (elements n) a = getElemAttr n a.
Proof. unfold getElemAttr. by rewrite elements_properties. Qed.

(** A text has nothing below it. *)
Lemma is_text_none n : is_text n = true -> x_name n = "text" /\ x_properties n = [] /\ x_children n = [].
Proof.
  unfold is_text. intros [E%String.eqb_eq H]%andb_prop. by destruct (x_properties n), (x_children n).
Qed.

Lemma named_elements t l : t <> "text" ->
  named t (elements <$> List.filter (fun c => negb (is_text c)) l) = elements <$> named t l.
Proof.
  intros Ht. unfold named. induction l as [|c l IH]; [done|]. cbn [List.filter].
  destruct (is_text c) eqn:Ec; cbn [negb].
  - apply is_text_none in Ec as (-> & _). rewrite (proj2 (String.eqb_neq _ _)) by congruence. exact IH.
  - cbn [fmap list_fmap List.filter]. rewrite elements_name. destruct (String.eqb (x_name c) t); cbn [fmap list_fmap]; by rewrite <- IH.
Qed.

Lemma named_children t n : t <> "text" ->
  named t (x_children (elements n)) = elements <$> named t (x_children n).
Proof. rewrite elements_children. apply named_elements. Qed.

Lemma found_elements t n : t <> "text" ->
  found t (x_children (elements n)) = elements <$> found t (x_children n).
Proof.
  intros Ht. revert n. fix IH 1. intros [nm pr l]. rewrite elements_children. cbn [x_children].
  induction l as [|c l IHl]; [done|]. cbn [List.filter found].
  pose proof (section_found c t) as Sc. pose proof (section_found (elements c) t) as Se. pose proof (IH c) as Hc.
  unfold section, FindElementWithName in Sc, Se. cbn in Sc, Se.
  assert (forall n, (p ← (p ← find_name t n; Some p); node_at n p) = (p ← find_name t n; node_at n p)) as Hid
    by (intros n; by destruct (find_name t n)).
  rewrite Hid in Sc, Se. rewrite Sc. clear IH.
  destruct (is_text c) eqn:Ec; cbn [negb].
  - apply is_text_none in Ec as (-> & _ & Ech). rewrite (proj2 (String.eqb_neq "text" t)) by congruence.
    rewrite Ech. cbn [found]. exact IHl.
  - cbn [fmap list_fmap found]. rewrite elements_name, Se, Hc. destruct (String.eqb (x_name c) t); [done|].
    destruct (found t (x_children c)) as [m|]; [done|]. cbn [fmap option_fmap option_map]. exact IHl.
Qed.

Lemma section_elements root t : t <> "text" -> section (elements root) t = elements <$> section root t.
Proof. intros Ht. rewrite !section_found. by apply found_elements. Qed.

Lemma ofold_fmap {A B T} (g : A -> B) (body : B -> T -> outcome T) l s :
  ofold body (g <$> l) s = ofold (fun a => body (g a)) l s.
Proof. revert s. induction l as [|a l IH]; intros s; [done|]. cbn. destruct (body (g a) s); [apply IH|done..]. Qed.

Lemma ofold_same {A T} (body body' : A -> T -> outcome T) l s : (forall a s, body a s = body' a s) ->
  ofold body l s = ofold body' l s.
Proof. intros Hb. revert s. induction l as [|a l IH]; intros s; [done|]. cbn. rewrite Hb. destruct (body' a s); [apply IH|done..]. Qed.

(** * The reader of the configuration *)

Lemma limit_elements n st : set_stats_limit (elements n) st = set_stats_limit n st.
Proof.
  unfold set_stats_limit, attr_or. by rewrite !elements_attr.
Qed.

Lemma limits_elements n st : for_children (elements n) [] "limit" set_stats_limit st
  = for_children n [] "limit" set_stats_limit st.
Proof.
  rewrite (for_children_fold _ [] (elements n)), (for_children_fold _ [] n) by done.
  rewrite named_children by done. rewrite ofold_fmap. apply ofold_same. intros. apply limit_elements.
Qed.

Lemma user_elements dl n : user_cfg dl (elements n) = user_cfg dl n.
Proof.
  unfold user_cfg. rewrite !elements_attr.
  assert (forall m, for_children (elements n) [] "limit" set_stats_limit m = for_children n [] "limit" set_stats_limit m)
    as E by (intros; apply limits_elements).
  destruct (getElemAttr n "name"), (getElemAttr n "mysql_name"); try done;
    (destruct (match getElemAttr n "mode" with None => _ | Some s => _ end); [|done..]); cbn [obind]; by rewrite E.
Qed.

Lemma users_elements root dl : cfg_users (elements root) dl = cfg_users root dl.
Proof.
  unfold cfg_users. rewrite (for_children_fold _ [] (elements root)), (for_children_fold _ [] root) by done.
  rewrite named_children by done. rewrite ofold_fmap. apply ofold_same. intros. by rewrite user_elements.
Qed.

Lemma default_elements root : cfg_default (elements root) = cfg_default root.
Proof.
  rewrite !cfg_default_section, section_elements by done. destruct (section root "default") as [n|]; [|done].
  cbn [fmap option_fmap option_map]. rewrite named_children by done. rewrite ofold_fmap.
  by rewrite (ofold_same _ set_stats_limit) by (intros; apply limit_elements).
Qed.

Lemma attr_is_elements t a v : attr_is (elements <$> t) a v = attr_is t a v.
Proof. unfold attr_is. destruct t as [n|]; [|done]. cbn. by rewrite elements_attr. Qed.

Lemma period_elements t a d : period_or (elements <$> t) a d = period_or t a d.
Proof. unfold period_or. destruct t as [n|]; [|done]. cbn. by rewrite elements_attr. Qed.

Lemma restrict_elements root : cfg_restrict (elements root)
  = (r <-- cfg_restrict root;; let '(n, a, b) := r in Ok (elements n, a, b)).
Proof.
  unfold cfg_restrict. rewrite section_elements by done. destruct (section root "restrict") as [n|]; [|done].
  cbn [fmap option_fmap option_map]. change (Some (elements n)) with (elements <$> Some n).
  rewrite !period_elements, attr_is_elements, !elements_attr.
  do 5 (destruct (period_or _ _ _); [|done..]; cbn [obind]). done.
Qed.

Lemma config_elements liblve script_stat root :
  config_init liblve script_stat (Some (elements root)) = config_init liblve script_stat (Some root).
Proof.
  assert (cfg_log (elements root) = cfg_log root) as E1.
  { unfold cfg_log. rewrite section_elements by done. destruct (section root "log"); [|done]. cbn. by rewrite !elements_attr. }
  assert (cfg_intervals (elements root) = cfg_intervals root) as E2.
  { unfold cfg_intervals, cfg_interval. rewrite section_elements by done. destruct (section root "intervals"); [|done].
    cbn. by rewrite !elements_attr. }
  assert (cfg_restrict_mode (elements root) = cfg_restrict_mode root) as E3
    by (unfold cfg_restrict_mode; by rewrite section_elements, period_elements, attr_is_elements by done).
  assert (cfg_connector (elements root) = cfg_connector root) as E4.
  { unfold cfg_connector. rewrite section_elements by done. destruct (section root "connector"); [|done]. cbn. by rewrite !elements_attr. }
  assert (cfg_lve (elements root) = cfg_lve root /\ cfg_statistic (elements root) = cfg_statistic root
    /\ cfg_slow_queries (elements root) = cfg_slow_queries root /\ cfg_logqueries (elements root) = cfg_logqueries root
    /\ cfg_daemon (elements root) = cfg_daemon root /\ cfg_debug_user (elements root) = cfg_debug_user root)
    as (E5 & E6 & E7 & E8 & E9 & E10).
  { unfold cfg_lve, cfg_statistic, cfg_slow_queries, cfg_logqueries, cfg_daemon, cfg_debug_user.
    rewrite !section_elements, !attr_is_elements by done. split_and!; try done.
    - destruct (section root "slow_queries"); [|done]. cbn. by rewrite elements_attr.
    - destruct (section root "debug_user"); [|done]. cbn. by rewrite elements_attr. }
  unfold config_init. rewrite E1, E2, E3, restrict_elements, E4, default_elements, E5, E6, E7, E8, E9, E10.
  destruct (cfg_log root); [|done..]. cbn [obind]. destruct (cfg_intervals root); [|done..]. cbn [obind].
  destruct (cfg_restrict_mode root); [|done..]. cbn [obind].
  destruct (cfg_restrict root) as [[[n [[[rlog kill] conns] fmt]] [[[[l1 l2] l3] l4] tm]]| |]; [|done..]. cbn [obind].
  destruct (cfg_connector root) as [[[[login pass] h] sep]| |]; [|done..]. cbn [obind].
  destruct (cfg_default root); [|done..]. cbn [obind]. rewrite users_elements.
  unfold cfg_script. by rewrite elements_attr.
Qed.

Lemma config_same_elements liblve script_stat a b : elements a = elements b ->
  config_init liblve script_stat (Some a) = config_init liblve script_stat (Some b).
Proof. intros E. by rewrite <- (config_elements _ _ a), E, config_elements. Qed.

(** * The reader of the listing *)

Lemma tag_elements tag n : tag_of tag (elements n) = tag_of tag n.
Proof.
  unfold tag_of, read_attrs. rewrite elements_properties, named_children by done. f_equal.
  rewrite <- list_fmap_compose. apply list_fmap_ext. intros i c _. unfold compose, read_limit, attr_copy.
  by rewrite !elements_attr.
Qed.

Lemma ReadCfg_same_elements a b tag : tag <> "text" -> elements a = elements b ->
  ReadCfg (Some a) tag = ReadCfg (Some b) tag.
Proof.
  intros Ht E. assert (forall n, ReadCfg (Some (elements n)) tag = ReadCfg (Some n) tag) as G.
  { intros n. rewrite !ReadCfg_spec, named_children by done. f_equal. rewrite <- list_fmap_compose.
    apply list_fmap_ext. intros i c _. apply tag_elements. }
  by rewrite <- (G a), E, G.
Qed.
