(* ===== verification/DbCtl.v ===== *)
(** The command line of [dbctl] ([src/dbctl.c]) and its connections
    ([src/dbctl_conn.c]): the check of the words, the options, the choice of
    the command.  [args] is [argv] without the name of the program, so [argc]
    is one more than its length.  [getopt_long] of the C library is modelled
    for the options of [dbctl], without POSIXLY_CORRECT. *)

From S2P Require Import Prelude CDouble CString GLib Data UserMap FifoStats BadList Xml Config DbCtlSet Listing DbCtlCfg.
Open Scope string_scope.
Open Scope Z_scope.

(** * Connections *)

(** A connection: the descriptor, its two streams, whether it can be used. *)
Record conn := mkConn { c_socket : Z; c_in : bool; c_out : bool }.

(** The result, and the descriptors closed; [socket] and [connect] are what
    the calls return. *)
Definition connect_to_server_dbctl (socket connect : Z) : Z * list Z :=
  if socket <? 0 then (-1, [])
  else if connect <? 0 then (-2, [socket])
  else (socket, []).

(** [s] is the result of [connect_to_server_dbctl]. *)
Definition opensock (s : Z) (fdopen_in fdopen_out : bool) : conn * bool * list string :=
  let c := if 0 <=? s then mkConn s fdopen_in fdopen_out else mkConn s false false in
  if negb (c_in c) || negb (c_out c)
  then (c, false, ["Configuration saved. Unable to apply to live instance - can't connect to socket. Maybe governor is not started"])
  else (c, true, []).

(** The closings of the descriptor. *)
Definition closesock (c : conn) : list Z :=
  ((if c_in c then [c_socket c] else []) ++ (if c_out c then [c_socket c] else [])
   ++ (if 0 <? c_socket c then [c_socket c] else []))%list.

(** * Words *)

Definition level_111 : list string := ["set"; "restrict"].
Definition level_110 : list string := ["ignore"; "monitor"; "delete"; "unrestrict"].
Definition level_100 : list string :=
  ["list"; "list-restricted"; "unrestrict-all"; "list-restricted-shm"; "dbupdate"].

Definition one_of (words : list string) (s : string) : bool := existsb (fun w => strcmp_eq w s) words.

Definition both_words (a b : string) : string :=
  "Incorrect syntax. Both parameters " +:+ a +:+ " and " +:+ b +:+ " can't be used together".

(** The second word is a command: the three loops. *)
Definition is_word (s : string) : bool := one_of level_100 s || one_of level_110 s || one_of level_111 s.

Definition lve_mode_option (s : string) : bool := strcmp_eq "--lve-mode" (strlcpy_str s 11).

(** The result and the line printed. *)
Definition valid_comm (args : list string) : bool * list string :=
  match args with
  | [] => (false, [])
  | a :: args =>
      let argc := Z.of_nat (length args) + 2 in
      if strcmp_eq "--help" a || strcmp_eq "--version" a || lve_mode_option a then (true, [])
      else if negb (is_word a) then (false, [])
      else if one_of level_100 a && negb (strcmp_eq a "list" && (argc =? 3)) && (2 <? argc)
      then (false, ["Incorrect syntax. Command " +:+ a +:+ " shouldn't has any parameter"])
      else if one_of level_110 a then
        match args with
        | [b] =>
            if is_word b then (false, [both_words a b])
            else if strcmp_eq "default" b
            then (false, ["Incorrect syntax. default in parameter can't use with this command"])
            else (true, [])
        | _ => (false, ["Incorrect syntax. Command " +:+ a +:+ " should has 3 parameters"])
        end
      else if one_of level_111 a then
        match args with
        | b :: _ =>
            if strcmp_eq a "set" then
              if strcmp_eq "default" b then
                if argc =? 3 then (false, ["Incorrect syntax"]) else (true, [])
              else if is_word b then (false, [both_words a b]) else (true, [])
            else if is_word b then (false, [both_words a b]) else (true, [])
        | [] => (false, ["Incorrect syntax"])
        end
      else (true, [])
  end.

(** * Options *)

(** A long option: its name, whether it takes an argument, and its value: the
    character of the option, or the flag that it sets. *)
Inductive flag := Helpflag | Verflag | Kb_flag (n : Z).
Definition loptions : list (string * (Z + flag)) :=
  [("cpu", inl (code "c")); ("read", inl (code "r")); ("write", inl (code "w"));
   ("slow", inl (code "s")); ("level", inl (code "l")); ("lve-mode", inl 100);
   ("help", inr Helpflag); ("version", inr Verflag);
   ("kb", inr (Kb_flag 1)); ("bb", inr (Kb_flag 2)); ("mb", inr (Kb_flag 3))].
Definition short_options : string := "crws".

(** What one call of [getopt_long] finds: an option with its argument, a flag,
    or an error. *)
Inductive found := Given (opt : Z) (val : string) | Flag (f : flag) | Wrong.

(** The option of a name, or of a beginning that only one option has. *)
Definition find_option (name : string) : option (Z + flag) :=
  match List.find (fun o => String.eqb (fst o) name) loptions with
  | Some o => Some (snd o)
  | None =>
      match filter (fun o => String.prefix name (fst o) = true) loptions with
      | [o] => Some (snd o)
      | _ => None
      end
  end.

(** The name and the argument of [name=argument]. *)
Fixpoint cut_equal (s : string) : string * option string :=
  match s with
  | EmptyString => (EmptyString, None)
  | String c s =>
      if Ascii.eqb c "=" then (EmptyString, Some s)
      else let '(name, val) := cut_equal s in (String c name, val)
  end.

(** The calls of [getopt_long] up to the first error; the arguments that are
    no options are passed over. *)
Fixpoint getopt_long (args : list string) : list found :=
  match args with
  | [] => []
  | a :: rest =>
      let argument (opt : Z) : list found :=
        match rest with v :: rest => Given opt v :: getopt_long rest | [] => [Wrong] end in
      match a with
      | String "-" (String "-" EmptyString) => []
      | String "-" (String "-" body) =>
          let '(name, val) := cut_equal body in
          match find_option name, val with
          | Some (inl opt), Some v => Given opt v :: getopt_long rest
          | Some (inl opt), None => argument opt
          | Some (inr f), None => Flag f :: getopt_long rest
          | Some (inr _), Some _ | None, _ => [Wrong]
          end
      | String "-" (String c body) =>
          if has_char c short_options then
            match body with
            | EmptyString => argument (code c)
            | _ => Given (code c) body :: getopt_long rest
            end
          else [Wrong]
      | _ => getopt_long rest
      end
  end.

(** The list of [GetOptList], the flags and the result. *)
Record options := mkOptions {
  o_opts : list (Z * string); o_help : bool; o_version : bool; o_kb : Z; o_ret : Z
}.

Definition with_flag (f : flag) (o : options) : options :=
  match f with
  | Helpflag => mkOptions (o_opts o) true (o_version o) (o_kb o) (o_ret o)
  | Verflag => mkOptions (o_opts o) (o_help o) true (o_kb o) (o_ret o)
  | Kb_flag n => mkOptions (o_opts o) (o_help o) (o_version o) n (o_ret o)
  end.

(** The option and its argument at the end of the list; the arguments of
    three of them are split at once. *)
Definition checked (opt : Z) (val : string) : outcome unit :=
  if (opt =? code "c") || (opt =? code "r") || (opt =? code "w") then
    match split val "," with
    | None => Crash
    | Some None => Exit "Error format parameter!"
    | Some (Some _) => Ok tt
    end
  else Ok tt.

Fixpoint option_loop (l : list found) (o : options) : outcome options :=
  match l with
  | [] => Ok (mkOptions (o_opts o) (o_help o) (o_version o) (o_kb o) 0)
  | Given opt val :: l =>
      _ <-- checked opt val;;
      option_loop l (mkOptions (o_opts o ++ [(opt, val)])%list (o_help o) (o_version o) (o_kb o) (o_ret o))
  | Flag f :: l => option_loop l (with_flag f o)
  | Wrong :: _ => Ok (mkOptions (o_opts o) (o_help o) (o_version o) (o_kb o) 1)
  end.

(** The texts printed; the lines of the help are not repeated here. *)
Inductive printed := Line (s : string) | Help_text | Version_text | Usage_text.

Definition GetOptList (args : list string) : outcome (options * list printed) :=
  o <-- option_loop (getopt_long args) (mkOptions [] false false 0 0);;
  Ok (o, if nonzero (o_ret o) then []
         else match o_opts o with
              | [] => if o_help o then [Help_text] else if o_version o then [Version_text] else []
              | _ => []
              end).

Definition GetVal (opt : Z) (l : list (Z * string)) : option string :=
  snd <$> List.find (fun o => fst o =? opt) l.

(** * Commands *)

(** The function that a command calls. *)
Inductive call :=
  | Set_default (cpu read write slow : option string)
  | Set_user (user : string) (cpu read write slow : option string)
  | Ignore_user (user : string) | Watch_user (user : string) | Delete_user (user : string)
  | List_limits (flag : Z) | List_restricted | List_restricted_shm
  | Restrict_user (user : string) (level : option string)
  | Unrestrict (user : string) | Unrestrict_all
  | Set_lve_mode (mode : option string) | Dbupdate.

(** The result, the call and what is printed.  [set], [restrict] and
    [--lve-mode] do not look at the result of the options. *)
Definition GetCmd (args : list string) : outcome (Z * option call * list printed) :=
  let '(valid, lines) := valid_comm args in
  if negb valid then Ok (1, None, Line <$> lines)
  else
    match args with
    | [] => Ok (1, None, [])
    | a :: args' =>
        let options (f : list (Z * string) -> call) : outcome (Z * option call * list printed) :=
          r <-- GetOptList args;; Ok (0, Some (f (o_opts (fst r))), snd r) in
        let with_user (f : string -> call) : outcome (Z * option call * list printed) :=
          match args' with u :: _ => Ok (0, Some (f u), []) | [] => Ok (1, None, []) end in
        if strcmp_eq "set" a then
          match args' with
          | u :: _ =>
              options (fun l =>
                let '(c, r, w, s) := (GetVal (code "c") l, GetVal (code "r") l, GetVal (code "w") l,
                                      GetVal (code "s") l) in
                if strcmp_eq "default" u then Set_default c r w s else Set_user u c r w s)
          | [] => Ok (1, None, [])
          end
        else if strcmp_eq "ignore" a then with_user Ignore_user
        else if strcmp_eq "monitor" a then with_user Watch_user
        else if strcmp_eq "delete" a then with_user Delete_user
        else if strcmp_eq "list" a then
          let kb_flag := match args' with
                         | [o] => if strcmp_eq o "--mb" then 3 else if strcmp_eq o "--kb" then 1
                                  else if strcmp_eq o "--bb" then 2 else 0
                         | _ => 0
                         end in
          Ok (0, Some (List_limits kb_flag), [])
        else if strcmp_eq "list-restricted" a then Ok (0, Some List_restricted, [])
        else if strcmp_eq "list-restricted-shm" a then Ok (0, Some List_restricted_shm, [])
        else if strcmp_eq "restrict" a then
          match args' with
          | u :: _ => options (fun l => Restrict_user u (GetVal (code "l") l))
          | [] => Ok (1, None, [])
          end
        else if strcmp_eq "unrestrict" a then with_user Unrestrict
        else if strcmp_eq "unrestrict-all" a then Ok (0, Some Unrestrict_all, [])
        else if lve_mode_option a then options (fun l => Set_lve_mode (GetVal 100 l))
        else if strcmp_eq "dbupdate" a then Ok (0, Some Dbupdate, [])
        else r <-- GetOptList args;; Ok (o_ret (fst r), None, snd r)
    end.

(** [main]: the call made and what is printed before it. *)
Definition dbctl (args : list string) : outcome (option call * list printed) :=
  match args with
  | [] => Ok (None, [Usage_text])
  | _ =>
      r <-- GetCmd args;;
      let '(rc, c, out) := r in
      Ok (c, if rc =? 1 then (out ++ [Usage_text])%list else out)
  end.

(** The functions called, with the state of the connection, the documents,
    the stream of the daemon and the list in shared memory. *)
Record dbctl_env := mkEnv {
  e_sock : bool; e_cfg : option xmlNode; e_stack : string; e_readable : bool;
  e_files : string -> option xmlNode; e_files' : string -> option xmlNode;
  e_stream : list wire; e_clock : clock Z;
  e_bad : option shm_structure; e_tries : nat -> wait_result; e_opens : nat -> bool
}.

Definition listing_result (r : list DbCtlCommand * outcome (list string)) : outcome edit_result :=
  out <-- snd r;; Ok (mkEdit 0 None (fst r) out).

Definition perform `{LibXml, GListSort} (e : dbctl_env) (c : call) : outcome edit_result :=
  let sock := e_sock e in
  let cfg := e_cfg e in
  match c with
  | Set_default cpu read write slow => of_option (setDefault sock cfg cpu read write slow)
  | Set_user user cpu read write slow => of_option (setUser sock cfg user cpu read write slow)
  | Ignore_user user => of_option (ignoreUser sock cfg user)
  | Watch_user user => of_option (watchUser sock cfg user)
  | Delete_user user => of_option (deleteUser sock cfg user)
  | List_limits flag =>
      listing_result (list_limits sock (e_stack e) (e_readable e) (e_files e) (e_files' e) (e_stream e) flag)
  | List_restricted => listing_result (list_restricted sock (e_clock e) (e_stream e))
  | List_restricted_shm => 
      out <-- of_option (printf_bad_list_cleint_persistent (e_bad e) (e_tries e) (e_opens e));;
      Ok (mkEdit 0 None [] out)
  | Restrict_user user level => Ok (mkEdit 0 None (restrict_user sock user level) [])
  | Unrestrict user => Ok (mkEdit 0 None (unrestrict sock user) [])
  | Unrestrict_all => Ok (mkEdit 0 None (unrestrict_all sock) [])
  | Set_lve_mode mode => of_option (setLveMode sock cfg mode)
  | Dbupdate => Ok (mkEdit 0 None (dbupdatecmd sock) [])
  end.

(** * Lemmas *)

(** ** Options as they are typed *)

Inductive word := Cpu | Read | Write | Slow | Level | Lve_mode.
Definition word_code (o : word) : Z :=
  match o with
  | Cpu => code "c" | Read => code "r" | Write => code "w" | Slow => code "s" | Level => code "l"
  | Lve_mode => 100
  end.
Definition word_name (o : word) : string :=
  match o with
  | Cpu => "cpu" | Read => "read" | Write => "write" | Slow => "slow" | Level => "level"
  | Lve_mode => "lve-mode"
  end.
#[global] Instance word_eq_dec : EqDecision word.
Proof. solve_decision. Defined.

(** [--cpu=v], [--cpu v], [-cv] and [-c v]. *)
Inductive style := Long_equal | Long_next | Short_attached | Short_next.
Record typed := mkTyped { t_word : word; t_style : style; t_value : string }.

Definition dash (c : Z) : string := String "-" (String (chr c) EmptyString).
Definition type (t : typed) : list string :=
  match t_style t with
  | Long_equal => ["--" +:+ word_name (t_word t) +:+ "=" +:+ t_value t]
  | Long_next => ["--" +:+ word_name (t_word t); t_value t]
  | Short_attached => [dash (word_code (t_word t)) +:+ t_value t]
  | Short_next => [dash (word_code (t_word t)); t_value t]
  end.
Definition typed_ok (t : typed) : Prop :=
  match t_style t with
  | Long_equal | Long_next => True
  | Short_attached => t_word t ∈ [Cpu; Read; Write; Slow] /\ t_value t <> ""
  | Short_next => t_word t ∈ [Cpu; Read; Write; Slow]
  end.
Definition given (t : typed) : found := Given (word_code (t_word t)) (t_value t).
Definition pair_of (t : typed) : Z * string := (word_code (t_word t), t_value t).

Definition operand (s : string) : Prop :=
  match s with String "-" (String _ _) => False | _ => True end.

Lemma getopt_operand a rest : operand a -> getopt_long (a :: rest) = getopt_long rest.
Proof.
  destruct a as [|c a]; [done|]. cbn [getopt_long operand].
  destruct a as [|c' a]; destruct c as [[] [] [] [] [] [] [] []]; done.
Qed.

Lemma getopt_typed t rest : typed_ok t -> getopt_long (type t ++ rest)%list = given t :: getopt_long rest.
Proof.
  destruct t as [o st v]. unfold typed_ok, type, given. cbn [t_word t_style t_value].
  destruct st; [intros _|intros _|intros [Ho Hv]|intros Ho]; [by destruct o|by destruct o| |];
    rewrite !elem_of_cons, elem_of_nil in Ho; destruct v as [|c v]; try done;
    destruct Ho as [->|[->|[->|[->|[]]]]]; reflexivity.
Qed.

Lemma getopt_all l rest : Forall typed_ok l ->
  getopt_long (concat (type <$> l) ++ rest)%list = ((given <$> l) ++ getopt_long rest)%list.
Proof.
  induction 1 as [|t l Ht _ IH]; [done|]. cbn [fmap list_fmap concat]. rewrite <- app_assoc.
  rewrite getopt_typed by done. by rewrite IH.
Qed.

(** The arguments that [GetOptList] accepts. *)
Definition accepted (t : typed) : Prop :=
  t_word t ∈ [Cpu; Read; Write] -> exists l, split (t_value t) "," = Some (Some l).

Lemma option_loop_given l rest o : Forall accepted l ->
  option_loop ((given <$> l) ++ rest)%list o
  = option_loop rest (mkOptions (o_opts o ++ (pair_of <$> l))%list (o_help o) (o_version o) (o_kb o) (o_ret o)).
Proof.
  intros Hl. revert o. induction Hl as [|t l Ht _ IH]; intros o; [rewrite app_nil_r; by destruct o|].
  cbn [fmap list_fmap app given option_loop].
  assert (checked (word_code (t_word t)) (t_value t) = Ok tt) as ->.
  { unfold accepted, checked in *. destruct (t_word t); try reflexivity;
      (destruct Ht as [d ->]; [set_solver|reflexivity]). }
  cbn [obind]. rewrite IH. cbn [o_opts o_help o_version o_kb o_ret]. by rewrite <- app_assoc.
Qed.

Lemma GetVal_typed o l : GetVal (word_code o) (pair_of <$> l) = t_value <$> List.find (fun t => bool_decide (t_word t = o)) l.
Proof.
  unfold GetVal. induction l as [|t l IH]; [done|]. cbn [fmap list_fmap List.find pair_of fst].
  replace (word_code (t_word t) =? word_code o) with (bool_decide (t_word t = o)); [|by destruct (t_word t), o].
  destruct (bool_decide (t_word t = o)); [done|exact IH].
Qed.
Definition stops (args : list string) : Prop := getopt_long args = [] \/ getopt_long args = [Wrong].

Lemma GetOptList_typed words l tail : Forall operand words -> Forall typed_ok l -> Forall accepted l ->
  stops tail ->
  exists o, GetOptList (words ++ concat (type <$> l) ++ tail)%list = Ok (o, []) /\ o_opts o = pair_of <$> l.
Proof.
  intros Hw Hl Ha Ht. unfold GetOptList.
  assert (getopt_long (words ++ concat (type <$> l) ++ tail)%list = ((given <$> l) ++ getopt_long tail)%list) as ->.
  { induction Hw as [|w words Hw _ IH]; [by apply getopt_all|]. cbn [app]. by rewrite getopt_operand. }
  rewrite option_loop_given by done. cbn [o_opts o_help o_version o_kb o_ret app].
  destruct Ht as [->| ->].
  - exists (mkOptions (pair_of <$> l) false false 0 0). split; [cbn; by destruct (pair_of <$> l)|done].
  - by exists (mkOptions (pair_of <$> l) false false 0 1).
Qed.

Lemma set_user_typed user l tail : is_word user = false -> user <> "default" -> operand user ->
  Forall typed_ok l -> Forall accepted l -> stops tail ->
  dbctl ("set" :: user :: concat (type <$> l) ++ tail)%list
  = Ok (Some (let value o := GetVal (word_code o) (pair_of <$> l) in
              Set_user user (value Cpu) (value Read) (value Write) (value Slow)), []).
Proof.
  intros Hu Hd Hop Hl Ha Ht. apply String.eqb_neq in Hd. rewrite String.eqb_sym in Hd.
  destruct (GetOptList_typed ["set"; user] l tail) as (o & E & Ho); try done; [by repeat constructor|].
  cbn [app] in E. unfold dbctl, GetCmd.
  assert (valid_comm ("set" :: user :: concat (type <$> l) ++ tail)%list = (true, [])) as ->.
  { unfold valid_comm. rewrite Hu. unfold strcmp_eq. by rewrite Hd. }
  cbn [negb]. change (strcmp_eq "set" "set") with true. cbv iota. rewrite E. cbn [obind fst snd].
  unfold strcmp_eq. by rewrite Hd, Ho.
Qed.

(** * Properties *)

(** The amounts of an option. *)
Definition amounts_of (cpu read write : option amounts) (o : word) : option string :=
  match o with
  | Cpu => amounts_text "cpu" <$> cpu | Read => amounts_text "read" <$> read
  | Write => amounts_text "write" <$> write | _ => None
  end.

Lemma amounts_split name q : Forall (amount_ok name) (amounts_list q) ->
  exists l, split (amounts_text name q) "," = Some (Some l).
Proof.
  intros Hq. unfold amounts_text. rewrite split_four; [by eexists|].
  unfold amounts_list in Hq. repeat (apply list.Forall_cons in Hq as [? Hq]).
  repeat constructor; by apply amount_no_comma.
Qed.

Lemma typed_amounts cpu read write l :
  Forall (fun t => amounts_of cpu read write (t_word t) = Some (t_value t)) l ->
  (forall o, is_Some (amounts_of cpu read write o) -> o ∈ t_word <$> l) ->
  forall o, GetVal (word_code o) (pair_of <$> l) = amounts_of cpu read write o.
Proof.
  intros Hl Hall o. rewrite GetVal_typed. rewrite list.Forall_forall in Hl.
  destruct (List.find _ l) as [t|] eqn:E.
  - apply List.find_some in E as [Hin Ht]. apply bool_decide_eq_true in Ht as <-.
    symmetry. apply Hl. by apply list_elem_of_In.
  - destruct (amounts_of cpu read write o) as [v|] eqn:Ev; [|done].
    assert (o ∈ t_word <$> l) as Hin by (apply Hall; by rewrite Ev).
    apply list_elem_of_fmap in Hin as (t & -> & Hin).
    pose proof (List.find_none _ _ E t (proj1 (list_elem_of_In _ _) Hin)) as Hn.
    cbv beta in Hn. by apply bool_decide_eq_false in Hn.
Qed.

(** A line [dbctl set] with a user and with options for cpu, read and write in
    any order, and with their amounts. *)
Record set_line (user : string) (cpu read write : option amounts) (l : list typed) : Prop := {
  sl_user : is_word user = false; sl_default : user <> "default"; sl_operand : operand user;
  sl_typed : Forall typed_ok l;
  sl_values : Forall (fun t => amounts_of cpu read write (t_word t) = Some (t_value t)) l;
  sl_all : forall o, is_Some (amounts_of cpu read write o) -> o ∈ t_word <$> l;
  sl_options : options_ok cpu read write
}.

(** The call that such a line makes: the user and the texts of the amounts. *)
Lemma set_line_call user cpu read write l : set_line user cpu read write l ->
  dbctl ("set" :: user :: concat (type <$> l))
  = Ok (Some (Set_user user (amounts_text "cpu" <$> cpu) (amounts_text "read" <$> read)
                (amounts_text "write" <$> write) None), []).
Proof.
  intros [Hu Hd Hop Hl Hv Hall (Hoc & Hor & How)].
  pose proof (set_user_typed user l [] Hu Hd Hop Hl) as Hs. rewrite app_nil_r in Hs. cbv beta zeta in Hs.
  rewrite !(typed_amounts cpu read write l Hv Hall) in Hs. apply Hs; [|by left].
  eapply list.Forall_impl; [exact Hv|]. intros t Ht Hin.
  cbv beta in Ht. revert Ht. destruct (t_word t); intros Ht; simpl in Ht; try discriminate Ht;
    [destruct cpu as [q|]|destruct read as [q|]|destruct write as [q|]]; try done;
    injection Ht as <-; apply amounts_split; auto.
Qed.

(** A mistake in the options of dbctl set passes in silence: an option that it does not
    know ends the reading of the line, everything after it is dropped, and the command is
    carried out with what was read before, as if the line had ended there. *)
Lemma dbctl_ignores_bad_option (user bad : string) (l : list typed) (rest : list string) :
  is_word user = false -> user <> "default" -> operand user -> Forall typed_ok l -> Forall accepted l ->
  bad <> "" -> find_option (fst (cut_equal bad)) = None ->
  let line := ("set" :: user :: concat (type <$> l))%list in
  exists c, dbctl line = Ok (Some c, []) /\ dbctl (line ++ ("--" +:+ bad) :: rest)%list = Ok (Some c, []).
Proof.
  intros Hu Hd Hop Hl Ha Hb Hf line. eexists. split.
  - pose proof (set_user_typed user l [] Hu Hd Hop Hl Ha) as Hs. rewrite app_nil_r in Hs. apply Hs. by left.
  - cbn [app line]. apply set_user_typed; try done. right. destruct bad as [|c bad]; [done|].
    change ("--" +:+ String c bad) with (String "-" (String "-" (String c bad))). cbn [getopt_long].
    destruct (cut_equal (String c bad)) as [name val]. cbn [fst] in Hf. by rewrite Hf.
Qed.

(** The user that a call is about. *)
Definition user_named (c : call) : option string :=
  match c with
  | Set_user u _ _ _ _ | Ignore_user u | Watch_user u | Delete_user u | Restrict_user u _ | Unrestrict u => Some u
  | _ => None
  end.

Lemma valid_second a u more lines : valid_comm (a :: u :: more) = (true, lines) ->
  a ∈ (level_110 ++ level_111)%list ->
  (is_word u = false \/ a = "set" /\ u = "default") /\ (u = "default" -> a ∈ level_111).
Proof.
  intros Hv Ha. revert Hv. unfold level_110, level_111 in Ha. cbn [app] in Ha.
  rewrite !elem_of_cons, elem_of_nil in Ha.
  unfold valid_comm. destruct (is_word u) eqn:Eu, (strcmp_eq "default" u) eqn:Ed.
  all: destruct Ha as [->|[->|[->|[->|[->|[->|[]]]]]]]; cbn -[both_words append Z.of_nat Z.add Z.eqb Z.ltb]; try (destruct more; discriminate).
  all: try (intros _; split; [by left|set_solver]).
  all: try (intros _; split; [by right; split; [|apply String.eqb_eq in Ed]|set_solver]).
Qed.

(** Which commands name a user. *)
Lemma call_word a args rc c u out : GetCmd (a :: args) = Ok (rc, Some c, out) -> user_named c = Some u ->
  exists more, args = u :: more
    /\ (a ∈ level_110 \/ a = "set" /\ u <> "default" \/ a = "restrict" /\ exists level, c = Restrict_user u level).
Proof.
  unfold GetCmd. destruct (valid_comm (a :: args)) as [[] lines] eqn:Ev; [|done]. cbn [negb].
  intros Hc Hu. revert Hc. unfold lve_mode_option, strcmp_eq.
  repeat match goal with |- context [String.eqb ?w a] => destruct (String.eqb_spec w a) as [<-|_] end.
  all: try (destruct (String.eqb _ _)).
  all: try (destruct (GetOptList _) as [[o pr]| |]; try done).
  all: destruct args as [|u' more]; try done; cbn [obind fst snd].
  all: try (destruct (String.eqb_spec "default" u')).
  all: intros [= <- <- <-]; try discriminate Hu; injection Hu as <-.
  all: exists more; split; [done|]; set_solver.
Qed.

(** dbctl never takes one of its own words for a user: whenever a command line leads to
    a call about a user, that user is the second word of the line, is not the name of a command,
    and is not the word default unless the command is restrict, which ignores it. *)
Lemma dbctl_user_is_no_word (args : list string) (c : call) (u : string) (out : list printed) :
  dbctl args = Ok (Some c, out) -> user_named c = Some u ->
  is_word u = false /\ (u = "default" -> exists level, c = Restrict_user u level)
  /\ exists a more, args = a :: u :: more.
Proof.
  destruct args as [|a args]; [done|]. cbn [dbctl].
  destruct (GetCmd (a :: args)) as [[[rc [c'|]] o]| |] eqn:Eg; cbn [obind]; try done.
  intros [= -> _] Hu. destruct (call_word a args rc c u o Eg Hu) as (more & -> & Ha).
  unfold GetCmd in Eg. destruct (valid_comm (a :: u :: more)) as [[] lines] eqn:Ev; [|done].
  destruct (valid_second a u more lines Ev) as [Hw Hd]; [set_solver|].
  assert (a ∉ level_111 \/ (a = "set" /\ u <> "default") \/ exists level, c = Restrict_user u level) as Hr
    by (destruct Ha as [Ha|[?|[_ ?]]]; [left|by right; left|by right; right]; set_solver).
  split; [|split; [|by eexists _, _]].
  - destruct Hw as [?|[-> ->]]; [done|reflexivity].
  - intros ->. specialize (Hd eq_refl). destruct Hr as [?|[[_ ?]|?]]; [done|done|done].
Qed.

Example dbctl_set : dbctl ["set"; "bob"; "--cpu=1,2,3,4"; "-r"; "5,6,7,8"]
  = Ok (Some (Set_user "bob" (Some "1,2,3,4") (Some "5,6,7,8") None None), []).
Proof. reflexivity. Qed.
Example dbctl_help : dbctl ["--help"] = Ok (None, [Help_text]).
Proof. reflexivity. Qed.
Example dbctl_swapped : dbctl ["set"; "--cpu=1,2,3,4"; "bob"]
  = Ok (Some (Set_user "--cpu=1,2,3,4" (Some "1,2,3,4") None None None), []).
Proof. reflexivity. Qed.
Example dbctl_abbreviated : dbctl ["restrict"; "bob"; "--le"; "2"]
  = Ok (Some (Restrict_user "bob" (Some "2")), []).
Proof. reflexivity. Qed.

(** The command line [dbctl set bob --cpu=10,20,30,40 -r 5m,6k,7b,8]. *)
Definition example_env : dbctl_env :=
  mkEnv true (Some example_root) "" true (fun _ => None) (fun _ => None) [] (clk_const 0) None
    (fun _ => WOk) (fun _ => true).
Definition example_typed : list typed :=
  [mkTyped Cpu Long_equal "10,20,30,40"; mkTyped Read Short_next "5m,6k,7b,8"].

Lemma example_accepted : Forall typed_ok example_typed /\ Forall accepted example_typed.
Proof.
  unfold example_typed. split; (apply list.Forall_cons_2; [|apply list.Forall_cons_2; [|apply list.Forall_nil_2]]).
  - exact I.
  - unfold typed_ok. cbn. set_solver.
  - intros _. eexists. vm_compute. reflexivity.
  - intros _. eexists. vm_compute. reflexivity.
Qed.

Lemma example_set_line user : is_word user = false -> user <> "default" -> operand user ->
  set_line user (Some example_cpu) (Some example_read) None example_typed.
Proof.
  intros Hu Hd Ho. split; try done.
  - apply example_accepted.
  - by repeat constructor.
  - intros [] [v Ev]; try discriminate Ev; [left|right; left].
  - apply example_options_ok.
Qed.
