(* ===== verification/ConfigFile.v ===== *)
(** The configuration file on the disk, between the tools and the daemon:
    [dbctl] reads it, edits it and saves it ([rewrite_cfg] of
    [src/dbctl_cfg.c]), the daemon reads it and saves a duplicate without the
    connector ([config_init] and [save_duplicate_config] of
    [src/governor_config.c]), and a listing reads one or the other
    ([print_list] of [src/dbctl_list.c]). *)

From S2P Require Import Prelude CDouble CString GLib Data FifoStats UserMap BadList Xml XmlFile Config ConfigEdit DbCtlSet Listing DbCtlCfg XmlText DbCtl.
Open Scope string_scope.
Open Scope Z_scope.

Section disk.
Context `{XmlFiles}.

(** * The daemon *)

(** [xd_root] of what [parseConfigData] yields. *)
Definition read_doc (d : disk) (path : string) : option xmlNode :=
  match parseConfigData d (Some path) (MAX_XML_PATH - 1) with
  | inl xml => Some (xd_root xml)
  | inr _ => None
  end.

(** [check_liblve]: [opened] is the result of [dlopen]. *)
Definition check_liblve (opened : bool) : Z := if opened then 0 else 1.

Definition no_connector (root : xmlNode) : list string :=
  match FindElementWithName root None "connector" with
  | Some _ => []
  | None => ["No connector tag in xml struct"]
  end.

(** [config_init (path)]: the configuration, the disk and what is printed about
    the duplicate.
    [io] is what becomes of the duplicate. *)
Definition config_init_file (liblve : bool) (script_stat : string -> option bool) (io : save_io)
    (path : string) (d : disk) : outcome (governor_config * disk * list string) :=
  match parseConfigData d (Some path) (MAX_XML_PATH - 1) with
  | inr xml_parse_error => Exit ("Error reading config file " +:+ xml_parse_error)
  | inl xml =>
      cfg <-- config_init liblve script_stat (Some (xd_root xml));;
      r <-- of_option (save_duplicate_config (match io with Written => true | _ => false end) (xd_root xml));;
      let '(root, rc) := r in
      s <-- of_option (saveXML io (Some (mkXmlData root (xd_path xml))) (Some DUPLICATE_CONFIG_PATH) d);;
      Ok (cfg, snd s,
          (no_connector (xd_root xml)
           ++ (if fst s <? 0 then ["Error reading config file " +:+ DUPLICATE_CONFIG_PATH] else [])
           ++ (if nonzero rc then ["Error save duplicate config file " +:+ DUPLICATE_CONFIG_PATH] else []))%list)
  end.

(** * The tools *)

(** What [dbctl] finds apart from the disk; [t_readable]: the user may read
    the configuration. *)
Record tool_io := mkToolIo {
  t_sock : bool; t_readable : bool; t_stack : string; t_stream : list wire; t_clock : clock Z;
  t_bad : option shm_structure; t_tries : nat -> wait_result; t_opens : nat -> bool; t_save : save_io
}.

(** The documents that the user can read. *)
Definition visible (readable : bool) (d : disk) (path : string) : option xmlNode :=
  if String.eqb path CONFIG_PATH && negb readable then None else read_doc d path.

Definition env_of (io : tool_io) (d : disk) : dbctl_env :=
  mkEnv (t_sock io) (visible (t_readable io) d CONFIG_PATH) (t_stack io) (t_readable io)
    (visible (t_readable io) d) (visible (t_readable io) d) (t_stream io) (t_clock io)
    (t_bad io) (t_tries io) (t_opens io).

(** [rewrite_cfg] does not look at the result. *)
Definition rewrite_cfg (io : save_io) (xml : xml_data) (d : disk) : option disk :=
  r ← saveXML io (Some xml) (Some CONFIG_PATH) d; Some (snd r).

(** A command line: what it does, the disk behind it and what is printed
    before the call. *)
Definition dbctl_on_disk `{GListSort} (io : tool_io) (args : list string) (d : disk)
    : outcome (edit_result * disk * list printed) :=
  r <-- dbctl args;;
  match fst r with
  | None => Ok (mkEdit 0 None [] [], d, snd r)
  | Some cl =>
      e <-- perform (env_of io d) cl;;
      d <-- match er_saved e with
            | Some root => of_option (rewrite_cfg (t_save io) (mkXmlData root CONFIG_PATH) d)
            | None => Ok d
            end;;
      Ok (e, d, snd r)
  end.

(** The listing of the limits as [print_list] makes it. *)
Definition list_on_disk `{GListSort} (readable : bool) (stack : string) (inp : list wire) (flag : Z) (d : disk)
    : outcome (list string) :=
  print_list stack readable (visible readable d) (visible readable d) inp flag.
End disk.

(** * Texts *)

Lemma xml_text_app a b : xml_text (a +:+ b) = xml_text a && xml_text b.
Proof.
  unfold xml_text. induction a as [|c a IH]; [done|]. rewrite append_cons. cbn [list_ascii_of_string forallb].
  by rewrite IH, andb_assoc.
Qed.

Lemma xml_text_cons c s : xml_text (String c s) = isprint c && xml_text s.
Proof. done. Qed.

Lemma xml_text_prefix n s : xml_text s = true -> xml_text (prefix_n n s) = true.
Proof.
  unfold prefix_n. generalize (Z.to_nat n). intros m. revert s. induction m as [|m IH]; intros [|c s]; try done.
  cbn [substring]. rewrite !xml_text_cons. intros [-> Hs]%andb_prop. by apply IH.
Qed.

Lemma xml_text_digits s : all_digits s = true -> xml_text s = true.
Proof.
  induction s as [|c s IH]; [done|]. cbn [all_digits]. rewrite xml_text_cons. intros [Hc Hs]%andb_prop.
  rewrite IH by done. unfold isdigit in Hc. unfold isprint. bools. rewrite andb_true_r. apply andb_true_iff.
  split; apply Z.leb_le; lia.
Qed.

Lemma xml_text_dec z : xml_text (dec z) = true.
Proof.
  unfold dec. destruct (z <? 0) eqn:E; bools.
  - rewrite xml_text_app, (xml_text_digits (dec_nat (- z))) by (apply dec_nat_digits; lia). done.
  - apply xml_text_digits, dec_nat_digits. lia.
Qed.

Lemma xml_text_pieces t s cur : xml_text s = true -> xml_text cur = true ->
  Forall (fun p => xml_text p = true) (pieces t s cur).
Proof.
  revert cur. induction s as [|c s IH]; intros cur Hs Hc; cbn [pieces]; [by repeat constructor|].
  rewrite xml_text_cons in Hs. apply andb_prop in Hs as [Hp Hs]. destruct (Ascii.eqb c t).
  - constructor; [done|]. by apply IH.
  - apply IH; [done|]. rewrite xml_text_app, Hc, xml_text_cons, Hp. done.
Qed.

Lemma xml_text_split s t l : xml_text s = true -> split s t = Some (Some l) -> Forall (fun p => xml_text p = true) l.
Proof.
  intros Hs. unfold split. split_ifs; try done; intros [= <-].
  - by apply xml_text_pieces.
  - by repeat constructor.
Qed.

Lemma xml_text_scale v : xml_text v = true -> xml_text (scale v) = true.
Proof.
  intros Hv. unfold scale, get_mb, get_kb, get_bb, non_negative.
  split_ifs; (apply xml_text_dec || by apply xml_text_prefix || done).
Qed.

(** * Edits leave a document *)

(** The words of a call, as they come from the command line. *)
Definition printable (o : option string) : Prop := forall s, o = Some s -> xml_text s = true.
Definition call_text (cl : call) : Prop :=
  match cl with
  | Set_default c r w s => printable c /\ printable r /\ printable w /\ printable s
  | Set_user u c r w s => xml_text u = true /\ printable c /\ printable r /\ printable w /\ printable s
  | Ignore_user u | Watch_user u | Delete_user u | Unrestrict u => xml_text u = true
  | Restrict_user u l => xml_text u = true /\ printable l
  | Set_lve_mode m => printable m
  | _ => True
  end.

Section edits.
Context `{XmlFiles}.

Lemma set_if_print_document a v n : xml_name a = true -> xml_text v = true -> document n ->
  document (set_if_print a v n).
Proof. intros Ha Hv Hn. unfold set_if_print. destruct (isprint _); [by apply document_prop|done]. Qed.

Lemma setLimitAttr_document limit s l out : xml_text s = true -> document limit ->
  setLimitAttr limit s = Some (l, out) -> document l.
Proof.
  intros Hs Hl. unfold setLimitAttr. destruct (split s ",") as [[data|]|] eqn:Ed; [| |done]; cbn [mbind option_bind].
  - destruct (getElemAttr limit "name") as [nm|]; [|done]. cbn [mbind option_bind].
    assert (Forall (fun p => xml_text p = true)
              (if strcmp_eq nm "read" || strcmp_eq nm "write" then scale <$> data else data)) as Ht.
    { pose proof (xml_text_split s "," data Hs Ed) as Hd. destruct (_ || _); [|done].
      apply list.Forall_fmap. eapply list.Forall_impl; [exact Hd|]. intros v. apply xml_text_scale. }
    destruct (if _ || _ then _ else _) as [|c [|sh [|m [|lg rest]]]]; try done. intros [= <- _].
    repeat (apply list.Forall_cons in Ht as [? Ht]). by repeat apply set_if_print_document.
  - destruct (getElemAttr limit "name") as [nm|]; [|by intros [= <- _]].
    destruct (strcmp_eq nm "slow"); [|by intros [= <- _]].
    destruct (split s newline) as [[[|v data]|]|] eqn:En; try done; cbn [mbind option_bind]; intros [= <- _]; try done.
    pose proof (xml_text_split s newline _ Hs En) as Hv. apply list.Forall_cons in Hv as [Hv _].
    by apply set_if_print_document.
Qed.

Lemma addLimit_document child nm s c out : xml_text nm = true -> xml_text s = true -> document child ->
  addLimit child nm s = Some (c, out) -> document c.
Proof.
  intros Hnm Hs Hc. unfold addLimit.
  destruct (setNodeWithAttr _ _ _ _ _ _) as [[c1 [p|]]|] eqn:E; [| |done]; cbn [mbind option_bind].
  - assert (document c1) as H1 by (by eapply setNodeWithAttr_document; [..|exact E]).
    destruct (node_at c1 p) as [l|] eqn:El; [|done]. cbn [mbind option_bind].
    destruct (setLimitAttr l s) as [[l' o]|] eqn:Es; [|done]. cbn [mbind option_bind].
    destruct (change_at c1 p _) as [c2|] eqn:E2; [|done]. intros [= <- _].
    eapply document_put; [exact H1| |exact E2]. eapply setLimitAttr_document; [exact Hs| |exact Es].
    by eapply document_node.
  - destruct (split s ",") as [[|]|]; try done. intros [= <- _].
    by eapply setNodeWithAttr_document; [..|exact E].
Qed.

Lemma limit_loop_document fuel child limit nm s k out c k' out' : xml_text s = true -> document child ->
  limit_loop fuel child limit nm s k out = Some (c, k', out') -> document c.
Proof.
  intros Hs. revert child limit k out. induction fuel as [|fuel IH]; intros child limit k out Hc; [done|].
  cbn [limit_loop]. destruct limit as [p|]; [|by intros [= <- _ _]].
  destruct (node_at child p) as [n|] eqn:En; [|done]. cbn [mbind option_bind].
  destruct (getElemAttr n "name") as [a|]; [|done]. cbn [mbind option_bind].
  destruct (strcmp_eq a nm); [|cbn [mbind option_bind]; by apply IH].
  destruct (setLimitAttr n s) as [[n' o]|] eqn:Es; [|done]. cbn [mbind option_bind].
  destruct (change_at child p _) as [c1|] eqn:Ec; [|done]. cbn [mbind option_bind]. apply IH.
  eapply document_put; [exact Hc| |exact Ec]. eapply setLimitAttr_document; [exact Hs| |exact Es].
  by eapply document_node.
Qed.

Lemma removeBadLimit_document child s c : document child -> removeBadLimit child s = Some c -> document c.
Proof. intros Hc. unfold removeBadLimit. destruct (removeBadLimit_loop _ _); [|done]. by intros [= <-]. Qed.

Lemma drop_bad_document nm child c : document child -> drop_bad nm child = Some c -> document c.
Proof.
  intros Hc. unfold drop_bad. destruct (nonzero _); [by apply removeBadLimit_document|by intros [= <-]].
Qed.

Lemma set_limit_document nm s child c out : xml_text nm = true -> printable s -> document child ->
  set_limit nm s child = Some (c, out) -> document c.
Proof.
  intros Hnm Hs Hc. unfold set_limit. destruct s as [s|]; [|by intros [= <- _]].
  specialize (Hs s eq_refl). destruct (limit_loop _ _ _ _ _ _ _) as [[[c1 k] o1]|] eqn:E1; [|done].
  cbn [mbind option_bind]. assert (document c1) as H1 by (by eapply limit_loop_document).
  destruct (if k =? 0 then _ else _) as [[c2 o2]|] eqn:E2; [|done]. cbn [mbind option_bind].
  assert (document c2) as H2.
  { destruct (k =? 0); [|by injection E2 as <- _]. destruct (addLimit c1 nm s) as [[c3 o3]|] eqn:E3; [|done].
    injection E2 as <- _. by apply (addLimit_document c1 nm s c3 o3). }
  destruct (if nonzero _ then _ else _) as [c3|] eqn:E3; [|done]. intros [= <- _].
  by apply (drop_bad_document nm c2).
Qed.

Lemma add_limit_document nm s child c out : xml_text nm = true -> printable s -> document child ->
  add_limit nm s child = Some (c, out) -> document c.
Proof.
  intros Hnm Hs Hc. unfold add_limit. destruct s as [s|]; [|by intros [= <- _]].
  apply addLimit_document; [done|by apply Hs|done].
Qed.
End edits.

Section commands.
Context `{XmlFiles}.

(** Four blocks in a row. *)
Lemma set_limits_document cpu read write slow child c out :
  printable cpu -> printable read -> printable write -> printable slow -> document child ->
  set_limits cpu read write slow child = Some (c, out) -> document c.
Proof.
  intros Hp1 Hp2 Hp3 Hp4 Hc. unfold set_limits.
  destruct (set_limit "cpu" cpu child) as [[c1 o1]|] eqn:E1; [|done]. cbn [mbind option_bind].
  destruct (set_limit "read" read c1) as [[c2 o2]|] eqn:E2; [|done]. cbn [mbind option_bind].
  destruct (set_limit "write" write c2) as [[c3 o3]|] eqn:E3; [|done]. cbn [mbind option_bind].
  destruct (set_limit "slow" slow c3) as [[c4 o4]|] eqn:E4; [|done]. intros [= <- _].
  apply (set_limit_document "slow" slow c3 c4 o4); try done. apply (set_limit_document "write" write c2 c3 o3); try done.
  apply (set_limit_document "read" read c1 c2 o2); try done. by apply (set_limit_document "cpu" cpu child c1 o1).
Qed.

Lemma add_limits_document cpu read write slow child c out :
  printable cpu -> printable read -> printable write -> printable slow -> document child ->
  add_limits cpu read write slow child = Some (c, out) -> document c.
Proof.
  intros Hp1 Hp2 Hp3 Hp4 Hc. unfold add_limits.
  destruct (add_limit "cpu" cpu child) as [[c1 o1]|] eqn:E1; [|done]. cbn [mbind option_bind].
  destruct (add_limit "read" read c1) as [[c2 o2]|] eqn:E2; [|done]. cbn [mbind option_bind].
  destruct (add_limit "write" write c2) as [[c3 o3]|] eqn:E3; [|done]. cbn [mbind option_bind].
  destruct (add_limit "slow" slow c3) as [[c4 o4]|] eqn:E4; [|done]. intros [= <- _].
  apply (add_limit_document "slow" slow c3 c4 o4); try done. apply (add_limit_document "write" write c2 c3 o3); try done.
  apply (add_limit_document "read" read c1 c2 o2); try done. by apply (add_limit_document "cpu" cpu child c1 o1).
Qed.

Lemma drop_all_bad_document child c : document child -> drop_all_bad child = Some c -> document c.
Proof.
  intros Hc. unfold drop_all_bad.
  destruct (drop_bad "cpu" child) as [c1|] eqn:E1; [|done]. cbn [mbind option_bind].
  destruct (drop_bad "read" c1) as [c2|] eqn:E2; [|done]. cbn [mbind option_bind].
  destruct (drop_bad "write" c2) as [c3|] eqn:E3; [|done]. cbn [mbind option_bind]. intros E4.
  pose proof (drop_bad_document "cpu" child c1 Hc E1) as H1. pose proof (drop_bad_document "read" c1 c2 H1 E2) as H2.
  pose proof (drop_bad_document "write" c2 c3 H2 E3) as H3. exact (drop_bad_document "slow" c3 c H3 E4).
Qed.

Lemma fill_new_document root p cpu read write slow root' out :
  printable cpu -> printable read -> printable write -> printable slow -> document root ->
  fill_new root p cpu read write slow = Some (root', out) -> document root'.
Proof.
  intros Hp1 Hp2 Hp3 Hp4 Hr. unfold fill_new. destruct p as [p|]; [|by apply add_limits_document].
  destruct (node_at root p) as [c|] eqn:Ec; [|done]. cbn [mbind option_bind].
  destruct (add_limits _ _ _ _ c) as [[c1 o1]|] eqn:E1; [|done]. cbn [mbind option_bind].
  destruct (drop_all_bad c1) as [c2|] eqn:E2; [|done]. cbn [mbind option_bind].
  destruct (change_at root p _) as [r|] eqn:Er; [|done]. intros [= <- _].
  eapply document_put; [exact Hr| |exact Er]. apply (drop_all_bad_document c1 c2); [|done].
  apply (add_limits_document cpu read write slow c c1 o1); try done. by eapply document_node.
Qed.

(** The block for an element that exists. *)
Lemma change_limits_document root p cpu read write slow root' out :
  printable cpu -> printable read -> printable write -> printable slow -> document root ->
  (c ← node_at root p; '(c, out) ← set_limits cpu read write slow c;
   root ← change_at root p (fun _ => c); Some (root, out)) = Some (root', out) -> document root'.
Proof.
  intros Hp1 Hp2 Hp3 Hp4 Hr. destruct (node_at root p) as [c|] eqn:Ec; [|done]. cbn [mbind option_bind].
  destruct (set_limits _ _ _ _ c) as [[c1 o1]|] eqn:E1; [|done]. cbn [mbind option_bind].
  destruct (change_at root p _) as [r|] eqn:Er; [|done]. intros [= <- _].
  eapply document_put; [exact Hr| |exact Er].
  apply (set_limits_document cpu read write slow c c1 o1); try done. by eapply document_node.
Qed.

Lemma setDefault_document sock root cpu read write slow r root' :
  printable cpu -> printable read -> printable write -> printable slow -> document root ->
  setDefault sock (Some root) cpu read write slow = Some r -> er_saved r = Some root' -> document root'.
Proof.
  intros Hp1 Hp2 Hp3 Hp4 Hr. unfold setDefault. intros ([r1 o] & E & [= <-])%bind_Some [= <-]. revert E. destruct (SearchTagByName _ _ _) as [p|]; [by apply change_limits_document|].
  destruct (setNode root None "default" None) as [[r2 p]|] eqn:E2; [|done]. cbn [mbind option_bind].
  apply fill_new_document; try done. by apply (setNode_document root None "default" r2 p).
Qed.

Lemma setUser_document sock root user cpu read write slow r root' : xml_text user = true ->
  printable cpu -> printable read -> printable write -> printable slow -> document root ->
  setUser sock (Some root) user cpu read write slow = Some r -> er_saved r = Some root' -> document root'.
Proof.
  intros Hu Hp1 Hp2 Hp3 Hp4 Hr. unfold setUser. intros ([r1 o] & E & [= <-])%bind_Some [= <-]. revert E. destruct (SearchTagByName _ _ _) as [p|]; [by apply change_limits_document|].
  destruct (setNodeWithAttr _ _ _ _ _ _) as [[r2 p]|] eqn:E2; [|done]. cbn [mbind option_bind].
  destruct (setAttr r2 p _ _) as [r3|] eqn:E3; [|done]. cbn [mbind option_bind].
  apply fill_new_document; try done. apply (setAttr_document r2 p "mode" "restrict" r3); try done.
  by apply (setNodeWithAttr_document root None "user" "name" user r2 p).
Qed.

Lemma set_user_mode_document sock root user m r root' : xml_text user = true -> xml_text m = true -> document root ->
  set_user_mode sock root user m = Some r -> er_saved r = Some root' -> document root'.
Proof.
  intros Hu Hm Hr. unfold set_user_mode. intros ([r1 p] & E & Er)%bind_Some. revert Er.
  destruct (setAttr r1 p "mode" m) as [r2|] eqn:E2; [|done]. intros [= <-] [= <-].
  apply (setAttr_document r1 p "mode" m r2); try done. revert E.
  destruct (SearchTagByName _ _ _); [by intros [= <- _]|].
  by apply (setNodeWithAttr_document root None "user" "name" user r1 p).
Qed.

Lemma setLveMode_document sock root m r root' : printable m -> document root ->
  setLveMode sock (Some root) m = Some r -> er_saved r = Some root' -> document root'.
Proof.
  intros Hm Hr. unfold setLveMode. destruct m as [m|]; [|done]. cbn [mbind option_bind].
  destruct (existsb _ _); [|by intros [= <-]].
  intros ([r1 p] & E & Er)%bind_Some. revert Er.
  destruct (setAttr r1 p "use" m) as [r2|] eqn:E2; [|done]. intros [= <-] [= <-].
  apply (setAttr_document r1 p "use" m r2); [done|by apply Hm| |done]. revert E.
  destruct (SearchTagByName _ _ _); [by intros [= <- _]|]. by apply (setNode_document root None "lve" r1 p).
Qed.
End commands.

Section calls.
Context `{XmlFiles, GListSort}.

Lemma perform_document e cl root r root' : e_cfg e = Some root -> call_text cl -> document root ->
  perform e cl = Ok r -> er_saved r = Some root' -> document root'.
Proof.
  intros Ee Ht Hr. assert (forall (m : option edit_result), of_option m = Ok r -> m = Some r) as Hof.
  { intros [x|]; [by intros [= ->]|done]. }
  unfold perform. rewrite Ee.
  destruct cl as [c rd w s|u c rd w s|u|u|u| | | | | | |m|]; cbn [call_text] in Ht.
  - intros E%Hof. destruct Ht as (? & ? & ? & ?). by apply (setDefault_document (e_sock e) root c rd w s).
  - intros E%Hof. destruct Ht as (? & ? & ? & ? & ?). by apply (setUser_document (e_sock e) root u c rd w s).
  - intros E%Hof. unfold ignoreUser in E. apply bind_Some in E as (r1 & E & [= <-]). cbn [er_saved].
    destruct (is_default u); [by injection E as <-|].
    by apply (set_user_mode_document (e_sock e) root u "ignore" r1 root' Ht eq_refl Hr E).
  - intros E%Hof. unfold watchUser in E. destruct (is_default u); [by injection E as <-|].
    by apply (set_user_mode_document (e_sock e) root u "restrict" r root' Ht eq_refl Hr E).
  - intros E%Hof. unfold deleteUser in E. destruct (is_default u); [by injection E as <-|].
    destruct (SearchTagByName _ _ _) as [p|]; [|by injection E as <-].
    apply bind_Some in E as (r1 & E & [= <-]). intros [= <-]. by apply (removeNode_document root p).
  - intros (out & _ & [= <-])%obind_ok. done.
  - intros (out & _ & [= <-])%obind_ok. done.
  - intros (out & _ & [= <-])%obind_ok. done.
  - by intros [= <-].
  - by intros [= <-].
  - by intros [= <-].
  - intros E%Hof. by apply (setLveMode_document (e_sock e) root m r).
  - by intros [= <-].
Qed.
End calls.

(** ** The words of the command line *)

Lemma cut_equal_text s name v : xml_text s = true -> cut_equal s = (name, Some v) -> xml_text v = true.
Proof.
  revert name. induction s as [|c s IH]; intros name Hs; cbn [cut_equal]; [done|].
  rewrite xml_text_cons in Hs. apply andb_prop in Hs as [_ Hs].
  destruct (Ascii.eqb c "="); [by intros [= _ <-]|]. destruct (cut_equal s) as [nm vo]; intros [= _ ->].
  by apply (IH nm).
Qed.

Definition found_text (f : DbCtl.found) : Prop := match f with Given _ v => xml_text v = true | _ => True end.

(** [getopt_long] passes over one or two words at a time. *)
Lemma getopt_long_text args : Forall (fun a => xml_text a = true) args -> Forall found_text (getopt_long args).
Proof.
  remember (length args) as n eqn:En. revert args En. induction n as [n IH] using lt_wf_ind. intros args -> Ha.
  assert (forall l, (length l < length args)%nat -> Forall (fun a => xml_text a = true) l ->
            Forall found_text (getopt_long l)) as IH' by (intros l Hl; by apply (IH (length l))).
  clear IH. destruct Ha as [|a rest Ha Hr]; [done|].
  assert (forall opt, Forall found_text match rest with v :: rest => Given opt v :: getopt_long rest | [] => [Wrong] end) as Harg.
  { intros opt. destruct Hr as [|v rest Hv Hr]; [by repeat constructor|]. constructor; [done|]. apply IH'; [cbn; lia|done]. }
  assert (Forall found_text (getopt_long rest)) as Hrest by (apply IH'; [cbn; lia|done]).
  cbn [getopt_long].
  repeat match goal with
  | |- Forall _ (match cut_equal ?b with _ => _ end) => destruct (cut_equal b) as [nm vo] eqn:Ec
  | |- Forall _ (if ?x then _ else _) => destruct x
  | |- Forall _ (match ?x with _ => _ end) => first [exact (Harg _) | destruct x]
  | |- Forall _ (_ :: getopt_long rest) => constructor; [|exact Hrest]
  end; try exact (Harg _); try done; try (by repeat constructor);
  rewrite ?xml_text_cons in *; bools.
  all: cbn [found_text]; try done; try (rewrite xml_text_cons; by apply andb_true_iff).
  eapply cut_equal_text; [|exact Ec]. rewrite ?xml_text_cons. rewrite ?andb_true_iff. done.
Qed.

Lemma option_loop_text l o o' : Forall found_text l -> Forall (fun ov => xml_text (snd ov) = true) (o_opts o) ->
  option_loop l o = Ok o' -> Forall (fun ov => xml_text (snd ov) = true) (o_opts o').
Proof.
  intros Hl. revert o. induction Hl as [|f l Hf Hl IH]; intros o Ho; [by intros [= <-]|]. cbn [option_loop].
  destruct f as [opt v|fl|]; [|apply IH; by destruct fl|by intros [= <-]].
  intros (u & _ & E)%obind_ok. revert E. apply IH. cbn [o_opts]. apply list.Forall_app. split; [done|].
  by repeat constructor.
Qed.

Lemma GetVal_text opt l : Forall (fun ov => xml_text (snd ov) = true) l -> printable (GetVal opt l).
Proof.
  intros Hl v. unfold GetVal. destruct (List.find _ l) as [[o w]|] eqn:E; [|done]. intros [= <-].
  apply find_some in E as [Hin _]. rewrite list.Forall_forall in Hl. apply (Hl (o, w)). by apply list_elem_of_In.
Qed.

(** A printable command line makes a printable call. *)
Lemma dbctl_call_text args cl out : Forall (fun a => xml_text a = true) args ->
  dbctl args = Ok (Some cl, out) -> call_text cl.
Proof.
  intros Ha. unfold dbctl. destruct args as [|a args']; [done|].
  intros ([[rc c] o] & E & E')%obind_ok. injection E' as -> _. revert E.
  assert (forall f : options * list printed -> call,
            (forall r, Forall (fun ov => xml_text (snd ov) = true) (o_opts (fst r)) -> call_text (f r)) -> forall n,
            (r <-- GetOptList (a :: args');; Ok (n, Some (f r), snd r)) = Ok (rc, Some cl, o) ->
            call_text cl) as Hopt.
  { intros f Hf n ([os ps] & E & [= _ <- _])%obind_ok. apply Hf. unfold GetOptList in E.
    apply obind_ok in E as (os' & E & [= -> _]). apply (option_loop_text _ _ _ (getopt_long_text _ Ha)) in E; [done|].
    by constructor. }
  apply list.Forall_cons in Ha as [_ Ha]. unfold GetCmd.
  destruct (valid_comm (a :: args')) as [valid lines]. destruct (negb valid); [done|].
  repeat match goal with
  | |- (if ?x then _ else _) = _ -> _ => destruct x
  | |- match ?l with [] => _ | _ => _ end = _ -> _ => destruct Ha as [|u l Hu Ha]
  end; try done; try (by intros [= _ <- _]); try (by intros ([? ?] & _ & [= _ <- _])%obind_ok).
  all: apply Hopt; intros l' Hl'; repeat case_match; cbn [call_text]; repeat split; try done; by apply GetVal_text.
Qed.

(** * The document without its connector *)

(** How many elements below a node have a name. *)
Fixpoint count_name (t : string) (n : xmlNode) : nat :=
  (fix go (l : list xmlNode) : nat :=
     match l with
     | [] => 0
     | c :: l => (if String.eqb (x_name c) t then 1 else 0) + count_name t c + go l
     end)%nat (x_children n).

Definition count_here (t : string) (c : xmlNode) : nat :=
  ((if String.eqb (x_name c) t then 1 else 0) + count_name t c)%nat.

Lemma count_name_sum t n : count_name t n = sum_list_with (count_here t) (x_children n).
Proof. destruct n as [nm pr l]. cbn [count_name x_children]. induction l as [|c l IH]; [done|]. cbn. by rewrite IH. Qed.

Lemma sum_list_delete {A} (f : A -> nat) l i c : l !! i = Some c ->
  sum_list_with f l = (f c + sum_list_with f (delete i l))%nat.
Proof.
  revert i. induction l as [|x l IH]; intros [|i]; [done|done|by intros [= ->]|]. intros E.
  change (delete (S i) (x :: l)) with (x :: delete i l). cbn [sum_list_with]. rewrite (IH i E). lia.
Qed.

Lemma sum_list_insert {A} (f : A -> nat) l i c c' : l !! i = Some c ->
  (sum_list_with f (<[i := c']> l) + f c = sum_list_with f l + f c')%nat.
Proof.
  revert i. induction l as [|x l IH]; intros [|i]; [done|done|intros [= ->]|].
  - change (<[0%nat := c']> (c :: l)) with (c' :: l). cbn [sum_list_with]. lia.
  - intros E. specialize (IH i E). change (<[S i := c']> (x :: l)) with (x :: <[i := c']> l). cbn [sum_list_with]. lia.
Qed.

Lemma find_in_none t i l : sum_list_with (count_here t) l = 0%nat ->
  Forall (fun c => count_name t c = 0%nat -> find_name t c = None) l -> find_in t i l = None.
Proof.
  intros Hs Hl. revert i Hs. induction Hl as [|c l Hc Hl IH]; intros i Hs; [done|]. cbn [find_in].
  cbn [sum_list_with] in Hs. unfold count_here in Hs at 1. destruct (String.eqb (x_name c) t); [lia|].
  rewrite Hc by lia. apply IH. lia.
Qed.

Lemma find_name_none t n : count_name t n = 0%nat -> find_name t n = None.
Proof.
  revert n. fix IH 1. intros [nm pr l] Hn. rewrite find_name_in. rewrite count_name_sum in Hn. cbn [x_children] in *.
  apply find_in_none; [done|]. clear Hn. induction l as [|c l IHl]; constructor; [apply IH|exact IHl].
Qed.

(** No element of the name at all. *)
Lemma count_name_none t n p m : count_name t n = 0%nat -> node_at n p = Some m -> p <> [] -> x_name m <> t.
Proof.
  revert n. induction p as [|i p IH]; intros n Hn; [done|]. cbn [node_at].
  destruct (x_children n !! i) as [c|] eqn:Ec; [|done]. cbn [mbind option_bind]. intros Hm _.
  rewrite count_name_sum, (sum_list_delete _ _ i c Ec) in Hn. unfold count_here at 1 in Hn.
  destruct (String.eqb_spec (x_name c) t) as [|Hne]; [lia|]. destruct p as [|j p]; [by injection Hm as <-|].
  apply (IH c); [lia|done|done].
Qed.

(** Where a search leads to. *)
Lemma find_in_step t i l p : find_in t i l = Some p ->
  exists k c q, p = (i + k)%nat :: q /\ l !! k = Some c
    /\ (q = [] /\ x_name c = t \/ find_name t c = Some q).
Proof.
  revert i. induction l as [|c l IH]; intros i; [done|]. cbn [find_in].
  destruct (String.eqb_spec (x_name c) t) as [Hc|_].
  - intros [= <-]. exists 0%nat, c, []. rewrite Nat.add_0_r. split; [done|]. split; [done|by left].
  - destruct (find_name t c) as [q|] eqn:Eq.
    + intros [= <-]. exists 0%nat, c, q. rewrite Nat.add_0_r. split; [done|]. split; [done|by right].
    + intros E. destruct (IH (S i) E) as (k & d & q & -> & Hk & Hd). exists (S k), d, q.
      split; [by rewrite Nat.add_succ_r|by split].
Qed.

Lemma find_name_step t n p : find_name t n = Some p ->
  exists i c q, p = i :: q /\ x_children n !! i = Some c
    /\ (q = [] /\ x_name c = t \/ q <> [] /\ find_name t c = Some q).
Proof.
  rewrite find_name_in. intros (k & c & q & -> & Hk & Hc)%find_in_step. exists k, c, q. split; [done|].
  split; [done|]. destruct Hc as [Hc|Hc]; [by left|]. right. split; [|done]. intros ->.
  rewrite find_name_in in Hc. by apply find_in_step in Hc as (? & ? & ? & ? & _).
Qed.

Lemma find_name_at t n p : find_name t n = Some p -> exists m, node_at n p = Some m /\ x_name m = t /\ p <> [].
Proof.
  revert n. induction p as [|i p IH]; intros n (j & c & q & E & Hi & Hc)%find_name_step; [done|].
  injection E as <- <-. cbn [node_at]. rewrite Hi. cbn [mbind option_bind].
  destruct Hc as [[-> Hc]|[_ Hc]]; [by exists c|]. destruct (IH c Hc) as (m & Hm & Hnm & _). by exists m.
Qed.

(** Two nodes that the readers, who look [k] levels deep for other names than
    [t], do not tell apart. *)
Fixpoint alike (t : string) (k : nat) (a b : xmlNode) : Prop :=
  x_name a = x_name b /\ x_properties a = x_properties b
  /\ match k with
     | O => True
     | S k => Forall2 (alike t k) (filter (fun c => x_name c <> t) (x_children a))
                (filter (fun c => x_name c <> t) (x_children b))
     end.

Lemma alike_refl t k n : alike t k n n.
Proof.
  revert n. induction k as [|k IH]; intros n; cbn; [done|]. split; [done|]. split; [done|].
  apply Forall_Forall2_diag, list.Forall_true, IH.
Qed.

Lemma alike_name t k a b : alike t k a b -> x_name a = x_name b.
Proof. by destruct k; intros [? _]. Qed.

Lemma alike_insert t k l i c c' : l !! i = Some c -> alike t k c c' ->
  Forall2 (alike t k) (filter (fun c => x_name c <> t) l) (filter (fun c => x_name c <> t) (<[i := c']> l)).
Proof.
  intros Hi Hc. pose proof (alike_name t k c c' Hc) as Hn. revert i Hi. induction l as [|x l IH]; intros [|i]; try done.
  - intros [= ->]. change (<[0%nat := c']> (c :: l)) with (c' :: l). rewrite !list.filter_cons, Hn.
    destruct (decide (x_name c' <> t)); [constructor; [done|]|]; apply Forall_Forall2_diag, list.Forall_true, alike_refl.
  - intros Hi. change (<[S i := c']> (x :: l)) with (x :: <[i := c']> l). rewrite !list.filter_cons. destruct (decide (x_name x <> t)); [constructor; [apply alike_refl|]|]; by apply IH.
Qed.

Lemma filter_delete t (l : list xmlNode) i c : l !! i = Some c -> x_name c = t ->
  filter (fun c => x_name c <> t) (delete i l) = filter (fun c => x_name c <> t) l.
Proof.
  revert i. induction l as [|x l IH]; intros [|i]; try done.
  - intros [= ->] Hc. change (delete 0%nat (c :: l)) with l. rewrite list.filter_cons. by rewrite decide_False by tauto.
  - intros Hi Hc. change (delete (S i) (x :: l)) with (x :: delete i l). rewrite !list.filter_cons. by rewrite (IH i) by done.
Qed.

Section removal.
Context `{LibXml}.

(** The removal of the element found: one less, and nothing else changes. *)
Lemma remove_found t n p : find_name t n = Some p ->
  exists n', removeNode n p = Some n' /\ (count_name t n' < count_name t n)%nat
    /\ forall k, alike t k n n'.
Proof.
  unfold removeNode. revert n. induction p as [|i p IH]; intros n E.
  { by apply find_name_step in E as (i & c & q & Hp & _). }
  apply find_name_step in E as (i' & c & q & [= <- <-] & Hi & [[-> Hc]|[Hq Hc]]).
  - exists (xmlUnlinkNode i n). split; [done|]. split.
    + rewrite !count_name_sum, xmlUnlink_children, (sum_list_delete _ _ i c Hi).
      unfold count_here at 2. rewrite Hc, String.eqb_refl. lia.
    + intros k. destruct k; cbn [alike]; rewrite xmlUnlink_name, xmlUnlink_props; [done|]. split; [done|]. split; [done|].
      rewrite xmlUnlink_children, (filter_delete t _ i c) by done. apply Forall_Forall2_diag, list.Forall_true, alike_refl.
  - destruct p as [|j p]; [done|]. destruct (IH c Hc) as (c' & Ec & Hlt & Hal).
    assert (change_at n (parent_of (i :: j :: p)) (xmlUnlinkNode (index_of (i :: j :: p)))
            = Some (XNode (x_name n) (x_properties n) (<[i := c']> (x_children n)))) as Ech.
    { change (parent_of (i :: j :: p)) with (i :: parent_of (j :: p)).
      change (index_of (i :: j :: p)) with (index_of (j :: p)). cbn [change_at]. rewrite Hi. cbn [mbind option_bind].
      by rewrite Ec. }
    eexists. split; [exact Ech|]. split.
    + rewrite !count_name_sum. cbn [x_children]. pose proof (sum_list_insert (count_here t) _ i c c' Hi) as Hs.
      unfold count_here in Hs at 2 4. rewrite (alike_name t 0 c c' (Hal 0%nat)) in Hs. lia.
    + intros k. destruct k; cbn [alike x_name x_properties x_children]; [done|]. split; [done|]. split; [done|].
      apply (alike_insert t k _ i c c' Hi (Hal k)).
Qed.
End removal.

(** ** What the readers find *)

Lemma named_filter u t l : u <> t -> named u (filter (fun c => x_name c <> t) l) = named u l.
Proof.
  intros Hn. induction l as [|c l IH]; [done|]. rewrite list.filter_cons. unfold named in *. cbn [List.filter].
  destruct (decide (x_name c <> t)) as [|Hc].
  - cbn [List.filter]. by rewrite IH.
  - rewrite IH. destruct (String.eqb_spec (x_name c) u) as [E|]; [|done]. by destruct Hc; rewrite E.
Qed.

Lemma named_alike u t k l l' : Forall2 (alike t k) l l' -> Forall2 (alike t k) (named u l) (named u l').
Proof.
  unfold named. induction 1 as [|c c' l l' Hc Hl IH]; [constructor|]. cbn [List.filter].
  rewrite (alike_name t k c c' Hc). destruct (String.eqb (x_name c') u); [by constructor|done].
Qed.

Lemma children_alike u t k a b : alike t (S k) a b -> u <> t ->
  Forall2 (alike t k) (named u (x_children a)) (named u (x_children b)).
Proof.
  intros (_ & _ & Hc) Hn. rewrite <- (named_filter u t (x_children a)), <- (named_filter u t (x_children b)) by done.
  by apply named_alike.
Qed.

Lemma fmap_Forall2 {A B} (f : A -> B) (R : A -> A -> Prop) l l' : (forall a b, R a b -> f a = f b) ->
  Forall2 R l l' -> f <$> l = f <$> l'.
Proof. intros Hf. induction 1 as [|a b l l' Hab Hl IH]; [done|]. rewrite !fmap_cons, IH. by rewrite (Hf a b). Qed.

Lemma read_limit_alike t a b : alike t 0 a b -> read_limit a = read_limit b.
Proof. intros (_ & Hp & _). unfold read_limit, attr_copy, getElemAttr. by rewrite Hp. Qed.

Lemma tag_of_alike t a b tag : t <> "limit" -> alike t 1 a b -> tag_of tag a = tag_of tag b.
Proof.
  intros Ht Hab. pose proof (children_alike "limit" t 0 a b Hab ltac:(congruence)) as Hl.
  destruct Hab as (_ & Hp & _). unfold tag_of, read_attrs. rewrite Hp. f_equal.
  by apply (fmap_Forall2 read_limit (alike t 0)); [apply read_limit_alike|].
Qed.

Lemma ReadCfg_alike t a b tag : t <> "limit" -> tag <> t -> alike t 2 a b ->
  ReadCfg (Some a) tag = ReadCfg (Some b) tag.
Proof.
  intros Ht Htag Hab. rewrite !ReadCfg_spec. f_equal.
  apply (fmap_Forall2 _ (alike t 1)); [by intros ? ?; apply tag_of_alike|by apply children_alike].
Qed.

(** Two documents, of which the second is read from a file in which it was
    saved. *)
Lemma print_list_alike `{GListSort} stack (readable readable' : bool) (files files' : string -> option xmlNode) inp flag a b b' :
  files (if readable then CONFIG_PATH else DUPLICATE_CONFIG_PATH) = Some a ->
  files' (if readable' then CONFIG_PATH else DUPLICATE_CONFIG_PATH) = Some b' -> elements b' = elements b ->
  alike "connector" 2 a b ->
  print_list stack readable files files inp flag = print_list stack readable' files' files' inp flag.
Proof.
  intros Ea Eb E Hab. unfold print_list. rewrite Ea, Eb.
  rewrite (ReadCfg_same_elements b' b "default"), (ReadCfg_same_elements b' b "user") by done.
  by rewrite (ReadCfg_alike "connector" a b "default"), (ReadCfg_alike "connector" a b "user").
Qed.

Lemma count_elements t n : t <> "text" -> count_name t (elements n) = count_name t n.
Proof.
  intros Ht. revert n. fix IH 1. intros [nm pr l]. rewrite !count_name_sum, elements_children. cbn [x_children].
  induction l as [|c l IHl]; [done|]. cbn [List.filter sum_list_with]. pose proof (IH c) as Hc. clear IH.
  destruct (is_text c) eqn:Ec; cbn [negb].
  - apply is_text_none in Ec as (Hn & _ & Ech). rewrite IHl. unfold count_here.
    rewrite Hn, (proj2 (String.eqb_neq "text" t)) by congruence. rewrite count_name_sum, Ech. done.
  - cbn [fmap list_fmap sum_list_with]. unfold count_here at 1 3. rewrite elements_name, Hc. f_equal. exact IHl.
Qed.

(** * Files *)

Section properties.
Context `{XmlFiles}.

Lemma read_doc_saved (d : disk) path n : document n ->
  exists n', read_doc (<[path := xmlSaveFormatFile n]> d) path = Some n' /\ elements n' = elements n.
Proof.
  intros Hn. unfold read_doc, parseConfigData. rewrite lookup_insert_eq. cbn [mbind option_bind].
  destruct (read_saved n Hn) as (n' & -> & E). by exists n'.
Qed.

Lemma read_doc_other (d : disk) path path' (f : file) : path <> path' -> read_doc (<[path := f]> d) path' = read_doc d path'.
Proof. intros Hn. unfold read_doc, parseConfigData. by rewrite lookup_insert_ne. Qed.

Lemma read_doc_document (d : disk) path n : read_doc d path = Some n -> document n.
Proof.
  unfold read_doc, parseConfigData. destruct (d !! path) as [f|]; [|done]. cbn [mbind option_bind].
  destruct (xmlReadFile f) as [[root|]|] eqn:E; [|done|done]. intros [= <-]. by apply (read_document f).
Qed.

Lemma paths_differ : CONFIG_PATH <> DUPLICATE_CONFIG_PATH.
Proof. done. Qed.

Lemma config_has_connector liblve script_stat root cfg : config_init liblve script_stat (Some root) = Ok cfg ->
  exists p, find_name "connector" root = Some p.
Proof.
  unfold config_init. intros (lg & _ & E)%obind_ok. apply obind_ok in E as (iv & _ & E).
  apply obind_ok in E as (rm & _ & E). apply obind_ok in E as ([[nd [[[rl k] cn] fm]] [[[[l1 l2] l3] l4] tm]] & _ & E).
  apply obind_ok in E as (co & E & _). revert E. unfold cfg_connector, section, FindElementWithName.
  cbn [default mbind option_bind node_at]. destruct (find_name "connector" root) as [p|]; [by exists p|done].
Qed.

(** The daemon that reads a document, and can save the duplicate. *)
Lemma config_init_stops liblve script_stat save (d : disk) path root e : read_doc d path = Some root ->
  config_init liblve script_stat (Some root) = Exit e -> config_init_file liblve script_stat save path d = Exit e.
Proof.
  unfold read_doc, config_init_file. destruct (parseConfigData _ _ _) as [xml|]; [|done]. by intros [= ->] ->.
Qed.

Lemma config_init_written liblve script_stat (d : disk) root cfg : read_doc d CONFIG_PATH = Some root ->
  config_init liblve script_stat (Some root) = Ok cfg ->
  exists dup, config_init_file liblve script_stat Written CONFIG_PATH d
      = Ok (cfg, <[DUPLICATE_CONFIG_PATH := xmlSaveFormatFile dup]> d, [])
    /\ document dup /\ alike "connector" 2 root dup
    /\ (count_name "connector" dup < count_name "connector" root)%nat.
Proof.
  intros Er Ec. pose proof (read_doc_document d CONFIG_PATH root Er) as Hdoc.
  destruct (config_has_connector liblve script_stat root cfg Ec) as [p Ep].
  destruct (remove_found "connector" root p Ep) as (dup & Erm & Hlt & Hal). exists dup.
  split; [|split; [by apply (removeNode_document root p)|by split]]. unfold config_init_file. revert Er. unfold read_doc.
  destruct (parseConfigData _ _ _) as [xml|e]; [|done]. intros [= ->]. rewrite Ec. cbn [obind].
  unfold save_duplicate_config, no_connector, FindElementWithName. cbn [default mbind option_bind node_at].
  rewrite Ep. cbn [app mbind option_bind]. rewrite Erm. cbn [mbind option_bind of_option obind saveXML xml_save xd_root fst snd].
  pose proof (file_size_pos (xmlSaveFormatFile dup)) as Hs. rewrite (proj2 (Z.ltb_ge _ _) Hs). done.
Qed.

Definition with_save (s : save_io) (io : tool_io) : tool_io :=
  mkToolIo (t_sock io) (t_readable io) (t_stack io) (t_stream io) (t_clock io) (t_bad io) (t_tries io) (t_opens io) s.

(** The disk is changed in no file but the configuration. *)
Lemma dbctl_on_disk_spec `{GListSort} io args (d d' : disk) r out : dbctl_on_disk io args d = Ok (r, d', out) ->
  (forall path, path <> CONFIG_PATH -> d' !! path = d !! path)
  /\ match er_saved r with
     | None => d' = d
     | Some root => d' = snd (xml_save (t_save io) CONFIG_PATH root d)
         /\ exists cl o, dbctl args = Ok (Some cl, o) /\ perform (env_of io d) cl = Ok r
     end.
Proof.
  unfold dbctl_on_disk. intros ([[cl|] o] & Ed & E)%obind_ok; cbn [fst snd] in E.
  2: by injection E as <- <- <-.
  apply obind_ok in E as (r1 & Er & E). apply obind_ok in E as (d1 & E1 & [= -> -> ->]).
  destruct (er_saved r) as [root|]; [|by injection E1 as ->].
  unfold rewrite_cfg, saveXML in E1. cbn [mbind option_bind of_option xd_root] in E1. injection E1 as <-.
  split; [|split; [done|by exists cl, out]]. intros path Hp.
  destruct (t_save io); cbn [xml_save snd]; [by rewrite lookup_insert_ne|done|by rewrite lookup_insert_ne].
Qed.

(** The tool does not notice what becomes of the saving. *)
Lemma edit_unnoticed `{GListSort} s io args (d d' : disk) r out : dbctl_on_disk io args d = Ok (r, d', out) ->
  exists d2, dbctl_on_disk (with_save s io) args d = Ok (r, d2, out) /\ (s = Refused -> d2 = d).
Proof.
  unfold dbctl_on_disk. destruct (dbctl args) as [[[cl|] o]| |]; try done; cbn [obind fst snd].
  2: intros [= <- _ <-]; by exists d.
  change (env_of (with_save s io) d) with (env_of io d). destruct (perform (env_of io d) cl) as [r1| |]; try done.
  cbn [obind]. destruct (er_saved r1) as [root|] eqn:Es; cbn [of_option obind].
  - intros [= <- _ <-]. eexists. split; [reflexivity|]. by intros ->.
  - intros [= <- _ <-]. by exists d.
Qed.

Lemma edit_document `{GListSort} io args (d d' : disk) r out root' : Forall (fun a => xml_text a = true) args ->
  dbctl_on_disk io args d = Ok (r, d', out) -> er_saved r = Some root' -> document root'.
Proof.
  intros Ha (_ & E)%dbctl_on_disk_spec Es. rewrite Es in E. destruct E as (_ & cl & o & Ed & Ep).
  assert (exists root, e_cfg (env_of io d) = Some root /\ document root) as (root & Ee & Hr).
  { cbn [e_cfg env_of]. destruct (visible (t_readable io) d CONFIG_PATH) as [root|] eqn:E.
    - exists root. split; [done|]. unfold visible in E. destruct (_ && _); [done|]. by apply (read_doc_document d CONFIG_PATH).
    - exfalso. revert Ep. unfold perform. cbn [e_cfg env_of]. rewrite E.
      destruct cl; cbn [setDefault setUser ignoreUser watchUser deleteUser setLveMode of_option mbind option_bind];
        try (by intros [= <-]); by intros (x & _ & [= <-])%obind_ok. }
  by apply (perform_document (env_of io d) cl root r root' Ee (dbctl_call_text args cl o Ha Ed) Hr Ep).
Qed.

(** Two tools at once, both of which read the file before one saves it: the
    disk is the one that the second alone would have left. *)
Lemma edits_at_once `{GListSort} io1 io2 args1 args2 (d d1 d2 : disk) r1 r2 out1 out2 root1 root2 :
  t_save io1 = Written -> t_save io2 = Written ->
  dbctl_on_disk io1 args1 d = Ok (r1, d1, out1) -> er_saved r1 = Some root1 ->
  dbctl_on_disk io2 args2 d = Ok (r2, d2, out2) -> er_saved r2 = Some root2 ->
  rewrite_cfg (t_save io2) (mkXmlData root2 CONFIG_PATH) d1 = Some d2.
Proof.
  intros Hw1 Hw2 [_ E1]%dbctl_on_disk_spec Es1 [_ E2]%dbctl_on_disk_spec Es2. rewrite Es1 in E1. rewrite Es2 in E2.
  destruct E1 as [-> _], E2 as [-> _]. rewrite Hw1, Hw2. unfold rewrite_cfg, saveXML. cbn [mbind option_bind xml_save snd xd_root].
  by rewrite insert_insert_eq.
Qed.

(** C22: What dbctl writes into the configuration file is what everybody finds there
    afterwards: for a command line of printable words on which dbctl does not crash, with the
    file written, the document read back has the elements of the one that the command made, with
    their names, attributes, order and nesting, and the configuration reader and the listing
    find in it what they would find in that one; when the command makes none the document is the
    one from before, and no other file has changed. Texts between the elements, which neither
    reader looks at, may differ. When the file cannot be written nothing changes, and dbctl
    reports and sends the same. That libxml2 reads back the elements it saved is assumed. *)
Theorem edit_is_read_back `{GListSort} (io : tool_io) (args : list string) (d d' : disk) (r : edit_result)
    (out : list printed) :
  Forall (fun a => xml_text a = true) args -> t_save io = Written ->
  dbctl_on_disk io args d = Ok (r, d', out) ->
  (forall path, path <> CONFIG_PATH -> read_doc d' path = read_doc d path)
  /\ match er_saved r with
     | Some root => exists root', read_doc d' CONFIG_PATH = Some root' /\ elements root' = elements root
         /\ (forall liblve script_stat,
               config_init liblve script_stat (Some root') = config_init liblve script_stat (Some root))
         /\ forall tag, tag <> "text" -> ReadCfg (Some root') tag = ReadCfg (Some root) tag
     | None => read_doc d' CONFIG_PATH = read_doc d CONFIG_PATH
     end
  /\ dbctl_on_disk (with_save Refused io) args d = Ok (r, d, out).
Proof.
  intros Ha Hw Hd. destruct (dbctl_on_disk_spec io args d d' r out Hd) as [Ho E].
  split; [intros path Hp; unfold read_doc, parseConfigData; by rewrite Ho|]. split.
  2: { destruct (edit_unnoticed Refused io args d d' r out Hd) as (d2 & E2 & Hr). by rewrite E2, Hr. }
  destruct (er_saved r) as [root|] eqn:Es; [|by rewrite E]. destruct E as [-> _]. rewrite Hw.
  destruct (read_doc_saved d CONFIG_PATH root) as (root' & Er & Ee); [by apply (edit_document _ _ _ _ _ _ _ Ha Hd)|].
  exists root'. split; [done|]. split; [done|]. split; intros; [by apply config_same_elements|by apply ReadCfg_same_elements].
Qed.

(** C23: The daemon that reads its configuration leaves a duplicate for ordinary users: the
    configuration file is as it was, and a listing of the limits from the duplicate is the
    listing from the configuration itself; when the document has one connector element, the
    duplicate has none, so the login and the password are not in it, and it cannot be taken for
    a configuration. *)
Theorem duplicate_shows_configuration `{GListSort} (liblve : bool) (script_stat : string -> option bool)
    (d : disk) (root : xmlNode) (cfg : governor_config) :
  read_doc d CONFIG_PATH = Some root -> config_init liblve script_stat (Some root) = Ok cfg ->
  exists d' dup,
    config_init_file liblve script_stat Written CONFIG_PATH d = Ok (cfg, d', [])
    /\ read_doc d' CONFIG_PATH = Some root /\ read_doc d' DUPLICATE_CONFIG_PATH = Some dup
    /\ (forall stack inp flag,
          list_on_disk false stack inp flag d' = list_on_disk true stack inp flag d')
    /\ (count_name "connector" root = 1%nat ->
        (forall p n, node_at dup p = Some n -> p <> [] -> x_name n <> "connector")
        /\ forall cfg', config_init liblve script_stat (Some dup) <> Ok cfg').
Proof.
  intros Er Ec. destruct (config_init_written liblve script_stat d root cfg Er Ec) as (dup & E & Hd & Hal & Hlt).
  destruct (read_doc_saved d DUPLICATE_CONFIG_PATH dup Hd) as (dup' & E2 & Ee).
  eexists _, dup'. split; [exact E|].
  assert (read_doc (<[DUPLICATE_CONFIG_PATH := xmlSaveFormatFile dup]> d) CONFIG_PATH = Some root) as E1
    by (by rewrite read_doc_other).
  split; [done|]. split; [done|]. split.
  - intros stack inp flag. unfold list_on_disk. symmetry. by apply (print_list_alike _ _ _ _ _ _ _ root dup dup').
  - intros Hc. assert (count_name "connector" dup' = 0%nat) as Hz.
    { rewrite <- count_elements, Ee, count_elements by done. lia. }
    split.
    + intros p n Hn Hp. by apply (count_name_none "connector" dup' p n).
    + intros cfg' (p & Ep)%config_has_connector. by rewrite (find_name_none "connector" dup' Hz) in Ep.
Qed.
End properties.

(** * A concrete disk *)

#[local] Existing Instances tree_lib tree_files insertion_list_sort.

Definition example_disk : gmap string (file (XmlFiles := tree_files)) := {[CONFIG_PATH := example_root]}.
Definition example_tool : tool_io :=
  mkToolIo true true "" [] (clk_const 0) None (fun _ => WOk) (fun _ => true) Written.
Definition example_line : list string := ["ignore"; "eve"].

Definition with_eve : xmlNode :=
  XNode "governor" [] (x_children example_root ++ [XNode "user" [("name", "eve"); ("mode", "ignore")] []])%list.

Lemma example_edit :
  dbctl_on_disk example_tool example_line example_disk
  = Ok (mkEdit 1 (Some with_eve) [user_command UNRESTRICT "eve" 0; empty_command REREAD_CFG] [],
        <[CONFIG_PATH := with_eve]> example_disk, []).
Proof.
  unfold dbctl_on_disk. change (dbctl example_line) with (Ok (Some (Ignore_user "eve"), @nil printed)).
  cbn [obind fst snd]. unfold perform.
  assert (ignoreUser (e_sock (env_of example_tool example_disk)) (e_cfg (env_of example_tool example_disk)) "eve"
          = Some (mkEdit 1 (Some with_eve) [user_command UNRESTRICT "eve" 0; empty_command REREAD_CFG] [])) as -> by
    (vm_compute; reflexivity).
  reflexivity.
Qed.

Lemma edit_is_read_back_witness :
  exists d', dbctl_on_disk example_tool example_line example_disk
      = Ok (mkEdit 1 (Some with_eve) [user_command UNRESTRICT "eve" 0; empty_command REREAD_CFG] [], d', [])
    /\ exists root', read_doc d' CONFIG_PATH = Some root' /\ elements root' = elements with_eve.
Proof.
  eexists. split; [exact example_edit|].
  destruct (edit_is_read_back example_tool example_line example_disk _ _ _ ltac:(by repeat constructor) eq_refl example_edit)
    as (_ & (root' & A & B & _) & _).
  exists root'. split; [exact A|exact B].
Defined.

Lemma duplicate_shows_configuration_witness :
  exists cfg d' dup,
    config_init_file true (fun _ => None) Written CONFIG_PATH example_disk = Ok (cfg, d', [])
    /\ read_doc d' DUPLICATE_CONFIG_PATH = Some dup /\ count_name "connector" example_root = 1%nat
    /\ FindElementWithName dup None "connector" = None
    /\ list_on_disk false "" [] 0 d' = list_on_disk true "" [] 0 d'.
Proof.
  destruct (config_init true (fun _ => None) (Some example_root)) as [cfg| |] eqn:Ec;
    [|vm_compute in Ec; discriminate Ec..].
  destruct (duplicate_shows_configuration true (fun _ => None) example_disk example_root cfg eq_refl Ec)
    as (d' & dup & E & _ & Ed & Hl & Hc).
  exists cfg, d', dup. split; [exact E|]. split; [exact Ed|]. split; [reflexivity|]. split; [|apply Hl].
  destruct (Hc eq_refl) as [Hn _]. unfold FindElementWithName. cbn [default mbind option_bind node_at].
  destruct (find_name "connector" dup) as [p|] eqn:Ep; [|reflexivity].
  destruct (find_name_at "connector" dup p Ep) as (m & Hm & Hnm & Hp). by destruct (Hn p m Hm Hp).
Defined.
