(* ===== verification/Dbtop.v ===== *)
(** The table of the accounts ([src/dbtop.c]): its reader of the stream, its
    orders, its columns and its keys.  The screen of ncurses is the list of
    the cells written to it, [width] the number of its columns. *)

From S2P Require Import Prelude CDouble CString GLib Data UserMap FifoStats Xml Config Accounts Listing.
Open Scope string_scope.
Open Scope Z_scope.

(** * Orders *)

(** [GINT_COMPARE_FUNCTION]: the greater value first, then by name. *)
Definition by_name (a b : Account) : Z := cmp_int (strncmp (ac_id a) (ac_id b) USERNAMEMAXLEN).

Definition gint_compare_by_cpu (a b : Account) : Z :=
  if dltb (st_cpu (ac_current b)) (st_cpu (ac_current a)) then -1
  else if deqb (st_cpu (ac_current a)) (st_cpu (ac_current b)) then by_name a b
  else 1.
Definition gint_compare_by_read (a b : Account) : Z :=
  if st_read (ac_current b) <? st_read (ac_current a) then -1
  else if st_read (ac_current a) =? st_read (ac_current b) then by_name a b
  else 1.
Definition gint_compare_by_write (a b : Account) : Z :=
  if st_write (ac_current b) <? st_write (ac_current a) then -1
  else if st_write (ac_current a) =? st_write (ac_current b) then by_name a b
  else 1.
Definition gint_compare_by_restrict (a b : Account) : Z :=
  if ac_timeout b <? ac_timeout a then -1 else if ac_timeout a =? ac_timeout b then 0 else 1.
Definition gint_compare_by_username : Account -> Account -> Z := by_name.

Definition getTimeToEnd (now now' : Z) (ac : Account) : Z := get_time_to_end now now' ac.

(** The clock does not advance during a sort. *)
Definition gint_compare_by_tte (now : Z) (a b : Account) : Z :=
  let tte_a := getTimeToEnd now now a in
  let tte_b := getTimeToEnd now now b in
  if tte_b <? tte_a then -1 else if tte_a =? tte_b then 0 else 1.

(** * Texts *)

Definition getRestrictInfo (ac : Account) : string :=
  match field_restrict (ac_info ac) with
  | NO_PERIOD => ""
  | p =>
      let ch := match p with
                | CURRENT_PERIOD => "c" | SHORT_PERIOD => "s" | MID_PERIOD => "m"
                | LONG_PERIOD => "l" | NO_PERIOD => "u"
                end in
      ch +:+ ":" +:+ match field_level_restrict (ac_info ac) with
                     | CPU_PARAM => "cpu" | READ_PARAM => "read" | WRITE_PARAM => "write"
                     | _ => "unk"
                     end +:+ "/"
  end.

Definition getRestrictChar (restrict_level : Z) : string :=
  if restrict_level =? 0 then "1"
  else if restrict_level =? 1 then "2"
  else if restrict_level =? 2 then "3"
  else if restrict_level =? 1000 then "R"
  else "4".

(** [abs] of the low 32 bits of a [long long]. *)
Definition abs_int (number : Z) : Z :=
  let n := s32 number in if n =? - 2 ^ 31 then n else Z.abs n.

(** The digits of a positive [int]: ten steps are enough. *)
Fixpoint count_digits (fuel : nat) (tmpNumber : Z) : Z :=
  match fuel with
  | O => 0
  | S fuel => if 0 <? tmpNumber then 1 + count_digits fuel (tmpNumber / 10) else 0
  end.

Definition formatIntNumber (number len : Z) : string :=
  let needChars := count_digits 10 (abs_int number) in
  if needChars <? len then dec number
  else if needChars - 3 <? len - 1 then dec (Z.quot (s64 (number + 500)) 1000) +:+ "K"
  else if needChars - 6 <? len - 1 then dec (Z.quot (s64 (number + 500000)) 1000000) +:+ "M"
  else if needChars - 9 <? len - 1 then dec (Z.quot (s64 (number + 500000000)) 1000000000) +:+ "G"
  else "Ovf".

Definition formatIntString (delim : string) (vals : list Z) : string :=
  fold_left (fun buffer val =>
    let data := formatIntNumber val 6 in
    if strcmp_eq buffer "" then data else buffer +:+ delim +:+ data) vals "".

(** Control characters are shown as stars. *)
Definition print_formatted_user_name (name : string) : string :=
  map_string (fun c => if (code c <? 32) && (0 <? code c) then "*"%char else c)
    (strlcpy_str name USERNAMEMAXLEN).

Definition percent (x : double) : string := dec (to_int (dceil (dabs (dmul x d100)))).

Definition cpu_text (ac : Account) : string :=
  percent (st_cpu (ac_current ac)) +:+ "/" +:+ percent (st_cpu (ac_mid_average ac)) +:+ "/"
  +:+ percent (st_cpu (ac_long_average ac)) +:+ " ".
Definition read_text (ac : Account) : string :=
  formatIntString "/" [st_read (ac_current ac); st_read (ac_mid_average ac); st_read (ac_long_average ac)].
Definition write_text (ac : Account) : string :=
  formatIntString "/" [st_write (ac_current ac); st_write (ac_mid_average ac); st_write (ac_long_average ac)].
Definition cause_text (now now' : Z) (ac : Account) : string :=
  if bool_decide (field_restrict (ac_info ac) <> NO_PERIOD)
  then getRestrictChar (ac_restricted ac) +:+ "/" +:+ getRestrictInfo ac +:+ dec (getTimeToEnd now now' ac)
  else "-".

(** * The screen *)

Inductive attr := A_NORMAL | A_BOLD | A_REVERSE.
(** A character with its attribute, bold and underlined when it follows a
    plus sign. *)
Inductive scr := Cell (c : ascii) (a : attr) (key : bool) | Newline.

(** Every character after the first is counted by the one before it. *)
Fixpoint str_real_len (str : string) : Z :=
  match str with
  | EmptyString => 0
  | String _ rest =>
      (match rest with String c _ => if Ascii.eqb c "+" then 0 else 1 | EmptyString => 1 end)
      + str_real_len rest
  end.

(** The loop of [printString] from [index] on: the column reached, the cells
    written, whether the line was full. *)
Fixpoint print_cells (n : nat) (index ln : Z) (str : string) (a : attr) (width x_counter : Z)
    : Z * list scr * bool :=
  match n with
  | O => (x_counter, [], false)
  | S n =>
      if width - 1 <=? x_counter then (x_counter, [Newline], true)
      else
        let '(cell, rest) :=
          if index <? ln then
            match str with
            | EmptyString => (Cell Ascii.zero a false, EmptyString)
            | String c rest =>
                if Ascii.eqb c "+" then
                  match rest with
                  | EmptyString => (Cell Ascii.zero a true, EmptyString)
                  | String c' rest => (Cell c' a true, rest)
                  end
                else (Cell c a false, rest)
            end
          else (Cell " " a false, str) in
        let '(x, out, isend) := print_cells n (index + 1) ln rest a width (x_counter + 1) in
        (x, cell :: out, isend)
  end.

(** The column counter is static. *)
Definition printString (width : Z) (str : string) (a : attr) (len : Z) (endline : bool)
    (x_counter : Z) : Z * list scr :=
  if width - 1 <=? x_counter then (if endline then 0 else x_counter, [])
  else
    let ln := if len <? str_real_len str then len else str_real_len str in
    let '(x, out, isend) := print_cells (Z.to_nat len) 0 ln str a width x_counter in
    (if endline then 0 else x, (out ++ (if endline && negb isend then [Newline] else []))%list).

(** A column: its text, attribute, length, and whether it ends the line. *)
Definition column : Type := string * attr * Z * bool.

Definition print_columns (width : Z) (cols : list column) (x_counter : Z) : Z * list scr :=
  fold_left (fun '(x, out) '(str, a, len, endline) =>
    let '(x, o) := printString width str a len endline x in (x, (out ++ o)%list)) cols (x_counter, []).

Definition print_account_screen1 (now now' : Z) (ac : Account) : list column :=
  [(print_formatted_user_name (ac_id ac), A_BOLD, 17, false); (cpu_text ac, A_NORMAL, 20, false);
   (pad_right 19 (read_text ac) +:+ " ", A_NORMAL, 19, false);
   (pad_right 17 (write_text ac) +:+ " ", A_NORMAL, 17, false);
   (cause_text now now' ac, A_NORMAL, 24, true)].

Definition print_account_screen1_no_curses (now now' : Z) (ac : Account) : string :=
  pad_right 18 (prefix_n 1023 (print_formatted_user_name (ac_id ac))) +:+ " "
  +:+ pad_right 20 (cpu_text ac) +:+ " " +:+ pad_right 21 (read_text ac) +:+ " "
  +:+ pad_right 18 (write_text ac) +:+ " " +:+ cause_text now now' ac.

(** * The table *)

Record dbtop := mkDbtop {
  accounts : list Account; recv_accounts : list Account;
  sort_type : Z; screen_view : Z; is_colorize : bool
}.

Definition set_shown (l : list Account) (s : dbtop) : dbtop :=
  mkDbtop l (recv_accounts s) (sort_type s) (screen_view s) (is_colorize s).
Definition set_recv (l : list Account) (s : dbtop) : dbtop :=
  mkDbtop (accounts s) l (sort_type s) (screen_view s) (is_colorize s).
Definition set_sort (n : Z) (s : dbtop) : dbtop :=
  mkDbtop (accounts s) (recv_accounts s) n (screen_view s) (is_colorize s).
Definition set_view (n : Z) (s : dbtop) : dbtop :=
  mkDbtop (accounts s) (recv_accounts s) (sort_type s) n (is_colorize s).
Definition set_colorize (b : bool) (s : dbtop) : dbtop :=
  mkDbtop (accounts s) (recv_accounts s) (sort_type s) (screen_view s) b.

Definition sort_cmp (now : Z) (sort_type : Z) : Account -> Account -> Z :=
  if sort_type =? 0 then gint_compare_by_cpu
  else if sort_type =? 1 then gint_compare_by_read
  else if sort_type =? 2 then gint_compare_by_write
  else if sort_type =? 3 then gint_compare_by_username
  else if sort_type =? 4 then gint_compare_by_restrict
  else if sort_type =? 5 then gint_compare_by_tte now
  else gint_compare_by_username.

Section dbtop.
Context `{GListSort}.

Definition sort_accounts (now : Z) (s : dbtop) : dbtop :=
  set_shown (g_list_sort (sort_cmp now (sort_type s)) (accounts s)) s.

(** [_copy_to_showed_accounts]; [need_dbg] is not copied. *)
Definition copy_account (ac : Account) : Account :=
  mkAccount (strlcpy_str (ac_id ac) USERNAMEMAXLEN) [] (ac_current ac) (ac_long_average ac)
    (ac_mid_average ac) (ac_short_average ac) (ac_restricted ac) (ac_timeout ac) (ac_start_count ac)
    (ac_info ac) 0.

(** [read_info]: until the end of the stream.  The answers written are
    counted; a record where a number should be is [Crash], as in the client
    of [dbctl]. *)
Fixpoint read_info (now : Z) (inp : list wire) (s : dbtop) (answers : nat) : outcome (dbtop * nat) :=
  match inp with
  | [] => Ok (s, answers)
  | WInt new_record :: inp =>
      if new_record =? 1 then read_info now inp (set_recv [] s) (S answers)
      else if new_record =? 0 then
        match inp with
        | WExch dt :: inp =>
            read_info now inp (set_recv (recv_accounts s ++ [received dt])%list s) answers
        | [] => Exit "Done"
        | WInt _ :: _ => Crash
        end
      else
        read_info now inp (sort_accounts now (set_shown (copy_account <$> recv_accounts s) s)) answers
  | WExch _ :: _ => Crash
  end.

(** ** The screen *)

Definition star (s : dbtop) (n : Z) : string := if sort_type s =? n then "*" else " ".

Definition header_buf (s : dbtop) : string :=
  " +User" +:+ star s 3 +:+ "          .+cpu(%)  " +:+ star s 0 +:+ "         . +read(B/s)" +:+ star s 1
  +:+ "        . +write(B/s)   " +:+ star s 2 +:+ " . CAUSE    ".

Definition printHeader (width : Z) (s : dbtop) : list column :=
  [("h,? - help; z - toggle color-mode; q,F10,Ctrl-c - quit", A_NORMAL, width, true);
   (header_buf s, if is_colorize s then A_NORMAL else A_REVERSE, width, true)].

(** The rows of the screen: the loop ends when the last line is reached. *)
Fixpoint screen_rows (clk : clock Z) (height counter : Z) (l : list Account) : list column :=
  match l with
  | [] => []
  | ac :: l =>
      (print_account_screen1 (clk 0%nat) (clk 1%nat) ac
       ++ (if height - 3 <=? counter then [] else screen_rows (clk_skip 2 clk) height (counter + 1) l))%list
  end.

(** [help] holds the lines of the help screen. *)
Definition printOneScreen (clk : clock Z) (help : list string) (width height : Z) (s : dbtop)
    : list string + list column :=
  if screen_view s =? 5 then inl help
  else inr (printHeader width s ++ screen_rows clk height 0 (accounts s))%list.

Definition no_curses_header : string :=
  "  User            . cpu(%)             .  read(B/s)          .  write(B/s)      . CAUSE  ".

Fixpoint no_curses_rows (clk : clock Z) (l : list Account) : list string :=
  match l with
  | [] => []
  | ac :: l => print_account_screen1_no_curses (clk 0%nat) (clk 1%nat) ac
                 :: no_curses_rows (clk_skip 2 clk) l
  end.

Definition printOneScreenNoCurses (clk : clock Z) (s : dbtop) : list string :=
  no_curses_header :: no_curses_rows clk (accounts (sort_accounts (clk 0%nat) (set_sort 3 s))).

(** ** Keys *)

Definition CTRLC : Z := 3.
(** [KEY_F (10)] of ncurses. *)
Definition KEY_F10 : Z := 274.
Definition key (c : ascii) : Z := code c.

Definition colorize (has_colors : bool) (s : dbtop) : dbtop :=
  set_colorize (if has_colors then negb (is_colorize s) else false) s.

(** The switch of [read_keys]; [None] ends the program. *)
Definition press (now : Z) (has_colors : bool) (ch : Z) (s : dbtop) : option dbtop :=
  let sort n := Some (sort_accounts now (set_sort n s)) in
  if ch =? key "c" then sort 0
  else if ch =? key "r" then sort 1
  else if ch =? key "w" then sort 2
  else if ch =? key "u" then sort 3
  else if ch =? key "l" then sort 4
  else if ch =? key "t" then sort 5
  else if ch =? key "1" then Some (sort_accounts now (set_view 1 s))
  else if (ch =? KEY_F10) || (ch =? CTRLC) || (ch =? key "q") then None
  else if (ch =? key "h") || (ch =? key "?") then Some (set_view 5 s)
  else if ch =? key "z" then Some (colorize has_colors s)
  else Some s.

Definition refresh_due (current_time start_time refresh_time : Z) : bool :=
  refresh_time <=? s64 (current_time - start_time).

(** [screen_regenerate]: the answer of the daemon on the connection, which
    was closed when the last one could not be made. *)
Definition screen_regenerate (now : Z) (conn : option (list wire)) (s : dbtop) : outcome dbtop :=
  match conn with
  | None => Crash
  | Some inp => r <-- read_info now inp s 0;; Ok (fst r)
  end.

(** The option [-r]. *)
Definition refresh_option (optarg : string) (refresh_time : Z) : Z :=
  let t := atoi optarg in
  if nonzero t && (t <=? 60) then t else refresh_time.

(** [dbtop -c]. *)
Definition dbtop_once (clk : clock Z) (inp : list wire) : outcome (list string) :=
  r <-- read_info (clk 0%nat) inp (mkDbtop [] [] 0 1 true) 0;;
  Ok (printOneScreenNoCurses clk (fst r)).
End dbtop.

(** * Lemmas *)

(** ** The comparisons are orders *)

Lemma klt_trans a b c : klt a b -> klt b c -> klt a c.
Proof. destruct a as [[] ?], b as [[] ?], c as [[] ?]. unfold klt. lia. Qed.
Lemma klt_total a b : klt a b \/ a = b \/ klt b a.
Proof.
  destruct a as [[a1 a2] a3], b as [[b1 b2] b3]. unfold klt.
  destruct (Z.lt_trichotomy a1 b1) as [?|[->|?]]; [left; lia| |right; right; lia].
  destruct (Z.lt_trichotomy a2 b2) as [?|[->|?]]; [left; lia| |right; right; lia].
  destruct (Z.lt_trichotomy a3 b3) as [?|[->|?]]; [left; lia|by right; left|right; right; lia].
Qed.
Lemma klt_irrefl a : ~ klt a a.
Proof. destruct a as [[] ?]. unfold klt. lia. Qed.

(** Descending in a key, then by another order. *)
Lemma descending_order {A} (k : A -> Z * Z * Z) (gt eq : A -> A -> bool) (c : A -> A -> Z) (P : A -> Prop) :
  (forall x y, P x -> P y -> (gt x y = true <-> klt (k y) (k x)) /\ (eq x y = true <-> k x = k y)) ->
  order_on c P -> order_on (fun x y => if gt x y then -1 else if eq x y then c x y else 1) P.
Proof.
  intros Hk [Ht Htr].
  assert (forall x y, P x -> P y -> (if gt x y then -1 else if eq x y then c x y else 1) <= 0
    <-> klt (k y) (k x) \/ k x = k y /\ c x y <= 0) as E.
  { intros x y Px Py. destruct (Hk x y Px Py) as [Hg He]. destruct (gt x y).
    - split; [left; by apply Hg|lia].
    - destruct (eq x y).
      + split; [intros; right; split; [by apply He|done]|]. intros [L|[_ ?]]; [|done]. by apply Hg in L.
      + split; [lia|]. intros [L|[L _]]; [by apply Hg in L|by apply He in L]. }
  split.
  - intros x y Px Py. rewrite !E by done. destruct (klt_total (k x) (k y)) as [?|[Ek|?]]; [by right; left| |by left; left].
    destruct (Ht x y Px Py); [left; right; done|right; right; done].
  - intros x y z Px Py Pz. rewrite !E by done. intros [L1|[E1 C1]] [L2|[E2 C2]].
    + left. by eapply klt_trans.
    + left. by rewrite <- E2.
    + left. by rewrite E1.
    + right. split; [congruence|by eapply (Htr x y z)].
Qed.

(** Accounts whose processor load is a number. *)
Definition cpu_number (ac : Account) : Prop := dnum (st_cpu (ac_current ac)) = true.

Lemma zero_order {A} (P : A -> Prop) : order_on (fun _ _ => 0) P.
Proof. split; intros; lia. Qed.

Lemma by_name_order : order_on by_name cpu_number.
Proof. destruct (strncmp_order ac_id USERNAMEMAXLEN) as [A B]. split; intros; [by apply A|by eapply (B x y z)]. Qed.

Lemma key_order (f : Account -> Z) c : order_on c cpu_number ->
  order_on (fun a b => if f b <? f a then -1 else if f a =? f b then c a b else 1) cpu_number.
Proof.
  apply (descending_order (fun a => (f a, 0, 0)) (fun a b => f b <? f a) (fun a b => f a =? f b)).
  intros x y _ _. unfold klt. rewrite Z.ltb_lt, Z.eqb_eq. split; [lia|]. split; [by intros ->|by intros [=]].
Qed.

Lemma sort_cmp_order now n : order_on (sort_cmp now n) cpu_number.
Proof.
  unfold sort_cmp. repeat (match goal with |- context [if ?b then _ else _] => destruct b end).
  - apply (descending_order (fun a => dkey (st_cpu (ac_current a)))
             (fun a b => dltb (st_cpu (ac_current b)) (st_cpu (ac_current a)))
             (fun a b => deqb (st_cpu (ac_current a)) (st_cpu (ac_current b)))); [|apply by_name_order].
    intros x y Hx Hy. split; [split; [apply dltb_klt|by apply klt_dltb]|by apply deqb_key].
  - apply (key_order (fun a => st_read (ac_current a))), by_name_order.
  - apply (key_order (fun a => st_write (ac_current a))), by_name_order.
  - apply by_name_order.
  - apply (key_order ac_timeout), zero_order.
  - apply (key_order (fun a => getTimeToEnd now now a)), zero_order.
  - apply by_name_order.
Qed.

(** ** The stream *)

Lemma dbtop_read_items `{GListSort} now stack l rest s n :
  read_info now (items_of stack l ++ rest)%list s n
  = read_info now rest (set_recv (recv_accounts s ++ (arrived stack <$> l))%list s) n.
Proof.
  revert s. induction l as [|ac l IH]; intros s; [rewrite app_nil_r; by destruct s|].
  cbn. fold (items_of stack l). rewrite IH. cbn [set_recv recv_accounts]. unfold set_recv. cbn.
  by rewrite <- app_assoc.
Qed.

Lemma copied_view stack ac : strlen (ac_id ac) < USERNAMEMAXLEN - 1 ->
  same_view ac (copy_account (arrived stack ac)).
Proof.
  intros Hl. destruct (received_view stack ac Hl) as (Hi & Hrest). split; [|exact Hrest].
  cbn [copy_account ac_id]. rewrite Hi. apply strlcpy_str_id. lia.
Qed.

(** ** Numbers *)

Lemma count_digits_spec fuel n : 0 <= n < 10 ^ Z.of_nat fuel ->
  0 <= count_digits fuel n <= Z.of_nat fuel /\ n < 10 ^ count_digits fuel n
  /\ (n = 0 /\ count_digits fuel n = 0 \/ 1 <= count_digits fuel n /\ 10 ^ (count_digits fuel n - 1) <= n).
Proof.
  revert n. induction fuel as [|fuel IH]; intros n Hn; [simpl in *; split; [lia|split; [lia|left; lia]]|].
  cbn [count_digits]. destruct (Z.ltb_spec 0 n); [|split; [lia|split; [simpl; lia|left; lia]]].
  rewrite Nat2Z.inj_succ, Z.pow_succ_r in Hn by lia.
  destruct (IH (n / 10)) as (Hr & Hlt & Hd); [split; [apply Z.div_pos; lia|apply Z.div_lt_upper_bound; lia]|].
  set (k := count_digits fuel (n / 10)) in *. pose proof (Z.div_mod n 10 ltac:(lia)). pose proof (Z.mod_pos_bound n 10 ltac:(lia)).
  split; [lia|]. rewrite Z.add_comm, Z.pow_add_r by lia. split; [lia|]. right. split; [lia|].
  replace (k + 1 - 1) with k by lia. destruct Hd as [[E ->]|[Hk Hd]]; [simpl; lia|].
  replace k with (k - 1 + 1) by lia. rewrite Z.pow_add_r by lia. lia.
Qed.

Lemma dec_length k n : 0 < k -> 0 <= n < 10 ^ k -> strlen (dec n) <= k.
Proof.
  intros Hk Hn. unfold dec. destruct (Z.ltb_spec n 0); [lia|]. unfold dec_nat.
  pose proof (dec_digits_len (S (Z.to_nat (Z.log2 n))) (Z.to_nat k) n ltac:(lia)) as E.
  rewrite Z2Nat.id in E by lia. specialize (E Hn). unfold strlen. lia.
Qed.

Lemma rounded n u : 0 <= n -> 0 < u -> let q := Z.quot (n + u / 2) u in
  0 <= q /\ 2 * Z.abs (q * u - n) <= u /\ q * u <= n + u / 2.
Proof.
  intros Hn Hu q. subst q. rewrite Z.quot_div_nonneg by (pose proof (Z.div_pos u 2); lia).
  pose proof (Z.div_mod u 2 ltac:(lia)). pose proof (Z.mod_pos_bound u 2 ltac:(lia)).
  pose proof (Z.div_mod (n + u / 2) u ltac:(lia)). pose proof (Z.mod_pos_bound (n + u / 2) u ltac:(lia)).
  split; [apply Z.div_pos; lia|]. lia.
Qed.

(** ** Cells *)

Definition is_cell (c : scr) : Prop := match c with Cell _ _ _ => True | Newline => False end.

Lemma print_cells_spec n index ln str a width x : x <= width - 1 ->
  exists cells, Forall is_cell cells
    /\ if Z.of_nat n <=? width - 1 - x
       then print_cells n index ln str a width x = (x + Z.of_nat n, cells, false) /\ length cells = n
       else print_cells n index ln str a width x = (width - 1, (cells ++ [Newline])%list, true)
            /\ Z.of_nat (length cells) = width - 1 - x.
Proof.
  revert index str x. induction n as [|n IH]; intros index str x Hx.
  - exists []. split; [constructor|]. destruct (Z.leb_spec (Z.of_nat 0) (width - 1 - x)); [|lia].
    by rewrite Z.add_0_r.
  - cbn [print_cells]. destruct (Z.leb_spec (width - 1) x).
    + exists []. split; [constructor|]. destruct (Z.leb_spec (Z.of_nat (S n)) (width - 1 - x)); [lia|].
      split; [do 2 f_equal; lia|simpl; lia].
    + destruct (if index <? ln then _ else _) as [cell rest] eqn:Ec.
      assert (is_cell cell) as Hc.
      { destruct (index <? ln); [|by injection Ec as <- _]. destruct str as [|c r]; [by injection Ec as <- _|].
        destruct (Ascii.eqb c "+"); [|by injection Ec as <- _]. by destruct r; injection Ec as <- _. }
      destruct (IH (index + 1) rest (x + 1) ltac:(lia)) as (cells & Hcs & E).
      exists (cell :: cells). split; [by constructor|].
      destruct (Z.leb_spec (Z.of_nat n) (width - 1 - (x + 1))), (Z.leb_spec (Z.of_nat (S n)) (width - 1 - x)); try lia;
        destruct E as [-> Hl]; (split; [|simpl; lia]); [do 2 f_equal; lia|done].
Qed.

(** A column as numbers: the column reached, the cells, the end of a line. *)
Definition advance (w x len : Z) (endline : bool) : Z * Z * bool :=
  if w <=? x then (if endline then 0 else x, 0, false)
  else if len <=? w - x then (if endline then 0 else x + len, len, endline)
  else (if endline then 0 else w, w - x, true).

Lemma printString_advance width str a len endline x : 0 <= len ->
  let '(x', k, nl) := advance (width - 1) x len endline in
  exists cells, Forall is_cell cells /\ Z.of_nat (length cells) = k
    /\ printString width str a len endline x = (x', (cells ++ if nl then [Newline] else [])%list).
Proof.
  intros Hl. unfold advance, printString. destruct (Z.leb_spec (width - 1) x) as [|Hx].
  - exists []. split; [constructor|done].
  - destruct (print_cells_spec (Z.to_nat len) 0 (if len <? str_real_len str then len else str_real_len str)
                str a width x ltac:(lia)) as (cells & Hc & E). rewrite Z2Nat.id in E by lia.
    destruct (Z.leb_spec len (width - 1 - x)); destruct E as [-> E]; exists cells; (split; [done|]); (split; [lia|]).
    + by rewrite andb_true_r.
    + by rewrite andb_false_r, app_nil_r.
Qed.

(** The columns where the columns of a row start. *)
Fixpoint starts (x : Z) (cols : list column) : list Z :=
  match cols with
  | [] => []
  | (_, _, len, _) :: cols => x :: starts (x + len) cols
  end.

(** Only the last column ends the line. *)
Fixpoint is_row (cols : list column) : Prop :=
  match cols with
  | [] => False
  | (_, _, len, endline) :: cols => 0 <= len /\ if endline then cols = [] else is_row cols
  end.

Definition row_len (cols : list column) : Z :=
  foldr (fun '(_, _, len, _) n => len + n) 0 cols.

Lemma print_columns_cons width str a len endline cols x :
  print_columns width ((str, a, len, endline) :: cols) x
  = let '(x', o) := printString width str a len endline x in
    let '(x'', o') := print_columns width cols x' in (x'', (o ++ o')%list).
Proof.
  unfold print_columns. cbn [fold_left]. destruct (printString _ _ _ _ _ _) as [y o]. cbn [app].
  revert y o. induction cols as [|[[[s' a'] len'] e'] cols IH]; intros y o; [simpl; by rewrite app_nil_r|].
  cbn [fold_left]. destruct (printString _ _ _ _ _ _) as [y' o1]. cbn [app]. rewrite IH, (IH y' o1).
  destruct (fold_left _ _ _). by rewrite app_assoc.
Qed.

Lemma starts_ge cols x : is_row cols -> Forall (fun y => x <= y) (starts x cols).
Proof.
  revert x. induction cols as [|[[[s a] len] e] cols IH]; intros x; [done|]. intros [Hl Hr]. cbn [starts].
  constructor; [lia|]. destruct e; [by subst|]. eapply list.Forall_impl; [by apply IH|]. simpl. lia.
Qed.

Lemma row_len_nonneg cols : is_row cols -> 0 <= row_len cols.
Proof.
  induction cols as [|[[[s a] len] e] cols IH]; [done|]. intros [Hl Hr]. simpl. fold (row_len cols).
  destruct e; [by subst; simpl; lia|]. specialize (IH Hr). lia.
Qed.

Lemma print_columns_full width cols x : is_row cols -> width - 1 <= x -> print_columns width cols x = (0, []).
Proof.
  intros Hr Hx. induction cols as [|[[[s a] len] e] cols IH]; [done|]. destruct Hr as [Hl Hr].
  rewrite print_columns_cons. unfold printString. destruct (Z.leb_spec (width - 1) x); [|lia].
  destruct e; [by subst|]. by rewrite IH.
Qed.

(** A row fills the line and ends it, unless the line is full where one of
    its columns starts. *)
Lemma print_columns_row width cols x : is_row cols -> x <= width - 1 ->
  exists cells, Forall is_cell cells
    /\ Z.of_nat (length cells) = Z.min (width - 1) (x + row_len cols) - x
    /\ print_columns width cols x
       = (0, (cells ++ if bool_decide (width - 1 ∈ starts x cols) then [] else [Newline])%list).
Proof.
  revert x. induction cols as [|[[[s a] len] e] cols IH]; intros x; [done|]. intros [Hl Hr] Hx.
  cbn [starts]. pose proof (printString_advance width s a len e x Hl) as Hp. rewrite print_columns_cons.
  unfold advance in Hp. cbn [row_len foldr]. fold (row_len cols).
  destruct (Z.leb_spec (width - 1) x).
  { assert (width - 1 = x) as <- by lia. rewrite bool_decide_eq_true_2 by left. exists [].
    split; [constructor|]. destruct Hp as (cells & _ & Hn & ->). destruct cells; [|simpl in Hn; lia]. 
    assert (0 <= row_len cols) by (destruct e; [by subst; simpl; lia|by apply row_len_nonneg]).
    split; [simpl; lia|]. destruct e; [by subst|]. by rewrite print_columns_full. }
  destruct (Z.leb_spec len (width - 1 - x)), Hp as (cells & Hc & Hn & ->).
  - destruct e.
    + subst cols. exists cells. split; [done|]. split; [simpl; lia|].
      rewrite bool_decide_eq_false_2 by (cbn [starts]; rewrite list_elem_of_singleton; lia).
      simpl. by rewrite app_nil_r.
    + destruct (IH (x + len) Hr ltac:(lia)) as (cells' & Hc' & Hn' & ->).
      exists (cells ++ cells')%list. split; [by apply list.Forall_app|]. split; [rewrite length_app; lia|].
      rewrite app_nil_r, app_assoc. rewrite (bool_decide_ext _ (width - 1 ∈ x :: starts (x + len) cols)); [done|].
      rewrite elem_of_cons. naive_solver lia.
  - exists cells. split; [done|].
    assert (0 <= row_len cols) by (destruct e; [by subst; simpl; lia|by apply row_len_nonneg]).
    split; [lia|]. rewrite bool_decide_eq_false_2.
    + destruct e; [by subst; simpl; rewrite app_nil_r|]. rewrite print_columns_full by (done || lia).
      by rewrite app_nil_r.
    + rewrite elem_of_cons. intros [?|Hi]; [lia|]. destruct e; [subst; by apply elem_of_nil in Hi|].
      pose proof (starts_ge cols (x + len) Hr) as Hs. rewrite list.Forall_forall in Hs. specialize (Hs _ Hi). lia.
Qed.

(** * Properties *)

(** What one refresh makes of the table of the daemon. *)
Lemma table_shown `{HashOrder} `{GListSort} (cfg : governor_config) (stack : string)
    (accs : gmap string Account) (answer now : Z) (s : dbtop) :
  keys_ok accs ->
  let out := run_dbtop_command cfg always stack true true accs (mkStream [answer] [] 0) in
  exists sel s', read_info now (s_out out) s 0 = Ok (s', 1%nat)
    /\ sort_type s' = sort_type s /\ screen_view s' = screen_view s /\ is_colorize s' = is_colorize s
    /\ sel ≡ₚ filter (shown cfg) (map_to_list accs).*2 /\ Forall2 same_view sel (accounts s')
    /\ (Forall cpu_number (accounts s') ->
        StronglySorted (fun a b => sort_cmp now (sort_type s) a b <= 0) (accounts s')).
Proof.
  intros Hk out. subst out. unfold run_dbtop_command. cbn [orb]. rewrite put_always.
  cbn [negb get s_in]. set (st := mkStream [] _ _).
  destruct (send_accounts cfg stack accs st) as [n ->]. rewrite put_always.
  pose proof (shown_ok cfg accs Hk) as HL. pose proof (table_list_perm accs) as Hp.
  cbn [snd s_out st app]. set (L := filter (shown cfg) (table_list accs)) in *.
  cbn [read_info]. change (1 =? 1) with true. cbv iota. rewrite dbtop_read_items. cbn [read_info].
  change (2 =? 1) with false. change (2 =? 0) with false. cbv iota. cbn [read_info recv_accounts set_recv app].
  unfold sort_accounts. cbn [set_shown set_recv accounts sort_type recv_accounts].
  rewrite <- list_fmap_compose. set (f := copy_account ∘ arrived stack).
  pose proof (g_list_sort_perm (sort_cmp now (sort_type s)) (f <$> L)) as Hs.
  destruct (Permutation_map_inv _ _ Hs) as (L' & El & HL'). exists L'. eexists. split; [reflexivity|].
  cbn [accounts sort_type screen_view is_colorize]. do 3 (split; [done|]).
  split; [by rewrite <- HL'; unfold L; rewrite Hp|]. split.
  - rewrite El. rewrite HL' in HL. clear -HL. induction HL as [|ac l [Hac _] _ IH]; constructor; [by apply copied_view|done].
  - intros Hc. apply (g_list_sort_sorted _ cpu_number); [apply sort_cmp_order|].
    by apply g_list_sort_forall in Hc.
Qed.

(** A number of 31 bits is shown by dbtop in at most six characters, as a number of a
    unit (one, K or M) that is at most half a unit from it. *)
Lemma formatIntNumber_close (number : Z) :
  0 <= number < 2 ^ 31 ->
  exists q unit suffix, formatIntNumber number 6 = dec q +:+ suffix
    /\ (unit, suffix) ∈ [(1, ""); (1000, "K"); (1000000, "M")]
    /\ 2 * Z.abs (q * unit - number) <= unit /\ strlen (formatIntNumber number 6) <= 6.
Proof.
  intros Hn. unfold formatIntNumber, abs_int. rewrite s32_id by (unfold in_s32; lia). cbv zeta.
  destruct (Z.eqb_spec number (- 2 ^ 31)); [lia|]. rewrite Z.abs_eq by lia.
  destruct (count_digits_spec 10 number ltac:(simpl; lia)) as (Hr & Hlt & Hd).
  set (k := count_digits 10 number) in *. rewrite !s64_id by (unfold in_s64; lia).
  assert (forall j, 0 <= j -> k <= j -> number < 10 ^ j) as Hle.
  { intros j ? ?. apply Z.lt_le_trans with (10 ^ k); [done|]. by apply Z.pow_le_mono_r. }
  destruct (Z.ltb_spec k 6).
  - exists number, 1, "". rewrite append_nil_r. split; [done|]. split; [by left|]. split; [lia|].
    pose proof (dec_length 5 number ltac:(lia) ltac:(split; [lia|apply Hle; lia])). lia.
  - destruct (Z.ltb_spec (k - 3) (6 - 1)).
    + destruct (rounded number 1000 ltac:(lia) ltac:(lia)) as (Hq & Hc & Hb). change (1000 / 2) with 500 in *.
      eexists _, 1000, "K". split; [reflexivity|]. split; [right; by left|]. split; [exact Hc|].
      pose proof (Hle 7 ltac:(lia) ltac:(lia)).
      pose proof (dec_length 5 (Z.quot (number + 500) 1000) ltac:(lia) ltac:(lia)).
      unfold strlen in *. rewrite string_length_app. cbn [String.length]. lia.
    + destruct (Z.ltb_spec (k - 6) (6 - 1)); [|lia].
      destruct (rounded number 1000000 ltac:(lia) ltac:(lia)) as (Hq & Hc & Hb). change (1000000 / 2) with 500000 in *.
      eexists _, 1000000, "M". split; [reflexivity|]. split; [right; right; by left|]. split; [exact Hc|].
      pose proof (dec_length 4 (Z.quot (number + 500000) 1000000) ltac:(lia) ltac:(lia)).
      unfold strlen in *. rewrite string_length_app. cbn [String.length]. lia.
Qed.

(** The row of an account takes one line of the screen: all its columns but the last,
    at most 97, are written and the line is ended, except on screens 18, 38, 57 and 74 columns
    wide, where the line is full where a column starts and rows run together. *)
Lemma screen_row_newline (width now now' : Z) (ac : Account) :
  2 <= width ->
  exists cells, Forall is_cell cells /\ Z.of_nat (length cells) = Z.min (width - 1) 97
    /\ print_columns width (print_account_screen1 now now' ac) 0
       = (0, (cells ++ if bool_decide (width ∈ [18; 38; 57; 74]) then [] else [Newline])%list).
Proof.
  intros Hw. assert (is_row (print_account_screen1 now now' ac)) as Hr
    by (unfold print_account_screen1; repeat split; lia).
  destruct (print_columns_row width _ 0 Hr ltac:(lia)) as (cells & Hc & Hn & ->).
  exists cells. split; [done|]. split; [simpl in Hn; lia|]. erewrite bool_decide_ext; [reflexivity|].
  simpl. set_unfold. lia.
Qed.
