(* ===== verification/LogDecoder.v ===== *)
(** What the restriction of an account is reported as ([src/log-decoder.c]):
    the value, the limit and the names for the log and for the script. *)

From S2P Require Import Prelude CDouble CString Data UserMap FifoStats Xml Config Accounts.
Open Scope string_scope.
Open Scope Z_scope.

Definition getLimitValuePeriod (ac : Account) (lm : T_LONG) : Z :=
  match field_restrict (ac_info ac) with
  | CURRENT_PERIOD => t_current lm
  | SHORT_PERIOD => t_short lm
  | MID_PERIOD => t_mid lm
  | LONG_PERIOD => t_long lm
  | NO_PERIOD => -1
  end.

(** The switch shared by the four [get*RestrictValue]. *)
Definition restrict_value_of (ac : Account) (st : Stats) : Z :=
  match field_level_restrict (ac_info ac) with
  | CPU_PARAM => to_ll (dceil (dmul (st_cpu st) d100))
  | READ_PARAM => st_read st
  | WRITE_PARAM => st_write st
  | _ => -1
  end.
Definition getCurrentRestrictValue (ac : Account) : Z := restrict_value_of ac (ac_current ac).
Definition getShortRestrictValue (ac : Account) : Z := restrict_value_of ac (ac_short_average ac).
Definition getMidRestrictValue (ac : Account) : Z := restrict_value_of ac (ac_mid_average ac).
Definition getLongRestrictValue (ac : Account) : Z := restrict_value_of ac (ac_long_average ac).

Definition getRestrictValue (ac : Account) : Z :=
  match field_restrict (ac_info ac) with
  | CURRENT_PERIOD => getCurrentRestrictValue ac
  | SHORT_PERIOD => getShortRestrictValue ac
  | MID_PERIOD => getMidRestrictValue ac
  | LONG_PERIOD => getLongRestrictValue ac
  | NO_PERIOD => -1
  end.

Definition getLimitValue (ac : Account) (lm : Stats_cfg) : Z :=
  match field_level_restrict (ac_info ac) with
  | CPU_PARAM => getLimitValuePeriod ac (l_cpu lm)
  | READ_PARAM => getLimitValuePeriod ac (l_read lm)
  | WRITE_PARAM => getLimitValuePeriod ac (l_write lm)
  | _ => -1
  end.

Definition getPeriodName (ac : Account) : string :=
  match field_restrict (ac_info ac) with
  | CURRENT_PERIOD => "current value"
  | SHORT_PERIOD => "short av.value"
  | MID_PERIOD => "middle av.value"
  | LONG_PERIOD => "long av.value"
  | NO_PERIOD => "undef"
  end.

Definition getParamName (ac : Account) : string :=
  match field_level_restrict (ac_info ac) with
  | CPU_PARAM => "cpu"
  | READ_PARAM => "read"
  | WRITE_PARAM => "write"
  | _ => "manual"
  end.

Definition getRestrictDump (ac : Account) : option Stats :=
  match field_restrict (ac_info ac) with
  | CURRENT_PERIOD => Some (ac_current ac)
  | SHORT_PERIOD => Some (ac_short_average ac)
  | MID_PERIOD => Some (ac_mid_average ac)
  | LONG_PERIOD => Some (ac_long_average ac)
  | NO_PERIOD => None
  end.

(** What [/proc/loadavg] and [/proc/vmstat] give ([src/getsysinfo.c]). *)
Record sysinfo := mkSysinfo { loadavg : string; vmstat : string }.

(** The buffers hold 8192 bytes. *)
Definition insertSystemInfo (sys : sysinfo) (buffer : string) : string :=
  prefix_n 8191 (buffer +:+ " loadavg(" +:+ loadavg sys +:+ ") vmstat(" +:+ vmstat sys +:+ ")").

(** The part common to both descriptions. *)
Definition describe_restrict (ac : Account) (limit : Stats_cfg) : string :=
  ac_id ac +:+ " LIMIT_ENFORCED period " +:+ getPeriodName ac +:+ ", field " +:+ getParamName ac
  +:+ " value " +:+ dec (u64 (getRestrictValue ac)) +:+ "/limit " +:+ dec (getLimitValue ac limit).

Definition with_sysinfo (cfg : governor_config) (sys : sysinfo) (buffer : string) : string :=
  if 2 <=? restrict_format cfg then insertSystemInfo sys buffer else buffer.

Definition prepareRestrictDescription (cfg : governor_config) (sys : sysinfo) (ac : Account)
    (limit : Stats_cfg) : string :=
  match field_restrict (ac_info ac) with
  | NO_PERIOD => with_sysinfo cfg sys "unrestrict"
  | _ => with_sysinfo cfg sys
           (describe_restrict ac limit +:+ " restrict level " +:+ dec (s32 (ac_restricted ac + 1)))
  end.

Definition prepareRestrictDescriptionLimit (cfg : governor_config) (sys : sysinfo) (ac : Account)
    (limit : Stats_cfg) : string :=
  match field_restrict (ac_info ac) with
  | NO_PERIOD => with_sysinfo cfg sys "unrestrict"
  | _ => with_sysinfo cfg sys (describe_restrict ac limit)
  end.
