(* ===== verification/Commands.v ===== *)
(** The queue of freeze and unfreeze commands ([src/commands.c]).

    The analysis of the accounts appends to [command_list].  Once per period
    [send_commands_cycle] moves the queue to [command_list_send] and starts a
    thread that carries the commands out; the flag [is_send_command_cycle]
    keeps a second thread from starting.  A [GList] made by [g_list_alloc]
    starts with a node without data, which is written [None] here. *)

From S2P Require Import Prelude CDouble CString Data UserMap BadList FifoStats Xml Config Accounts LogDecoder.
Open Scope string_scope.
Open Scope Z_scope.

(** What leaves the daemon: requests to MySQL, the script, the thread and
    the lines of the restrict log. *)
Inductive event :=
  | EvLogQueries (user : string)
  | EvScript (script : string) (args : list string)
  | EvUserLimit (user : string) (max_connections : Z)
  | EvFlush
  | EvThread
  | EvRestrictLog (line : string).

Definition glist := option (list (option Command)).

Record cmd_state := mkCmd {
  command_list : glist; command_list_send : glist;
  is_send_command_cycle : Z; is_any_flush : Z; cm_events : list event
}.

Definition set_list (l : glist) (q : cmd_state) : cmd_state :=
  mkCmd l (command_list_send q) (is_send_command_cycle q) (is_any_flush q) (cm_events q).
Definition emit (e : event) (q : cmd_state) : cmd_state :=
  mkCmd (command_list q) (command_list_send q) (is_send_command_cycle q) (is_any_flush q)
    (cm_events q ++ [e])%list.

Definition g_list_alloc : glist := Some [None].
Definition g_list_append (l : list (option Command)) (c : Command) : list (option Command) :=
  (l ++ [Some c])%list.

Definition free_commands_list (q : cmd_state) : cmd_state := set_list None q.
Definition reinit_command_list (q : cmd_state) : cmd_state :=
  set_list g_list_alloc (free_commands_list q).
Definition reinit_command_list_send (q : cmd_state) : cmd_state :=
  mkCmd (command_list q) g_list_alloc (is_send_command_cycle q) (is_any_flush q) (cm_events q).

Definition print_stats_to_buffer (s : option Stats) : string :=
  match s with
  | Some s => "cpu=" +:+ fmt_f (st_cpu s) +:+ " read=" +:+ dec (st_read s) +:+ " write="
              +:+ dec (st_write s)
  | None => "Not found"
  end.

(** A command for one user; it is lost while there is no queue. *)
Definition queue_command (c : command_t) (u : string) (q : cmd_state) : cmd_state :=
  match command_list q with
  | Some l => set_list (Some (g_list_append l (mkCommand (strlcpy_str u USERNAMEMAXLEN) c))) q
  | None => q
  end.

Definition account_unrestrict (cfg : governor_config) (ac : Account) (q : cmd_state) : cmd_state :=
  if nonzero (is_gpl cfg) then q
  else if nonzero (all_lve cfg) then q
  else if negb (nonzero (use_lve cfg)) && negb (nonzero (separate_lve cfg)) then q
  else fold_left (fun q u => queue_command UNFREEZE u q) (ac_users ac) q.

(** With [logqueries use="Before"] the queries of a user are logged as soon
    as its command is queued. *)
Definition restrict_user (cfg : governor_config) (q : cmd_state) (u : string) : cmd_state :=
  let logq q := if logqueries_use cfg =? 2
                then emit (EvLogQueries (strlcpy_str u USERNAMEMAXLEN)) q else q in
  match command_list q with
  | Some _ => logq (queue_command FREEZE u q)
  | None => q
  end.

Definition script_args (sys : sysinfo) (ac : Account) (limit : Stats_cfg) : list string :=
  [ac_id ac; getPeriodName ac; getParamName ac; dec (getRestrictValue ac);
   dec (getLimitValue ac limit); dec (s32 (ac_restricted ac + 1)); loadavg sys; vmstat sys;
   print_stats_to_buffer (getRestrictDump ac)].

Definition account_restrict (cfg : governor_config) (sys : sysinfo) (ac : Account)
    (limit : Stats_cfg) (q : cmd_state) : cmd_state :=
  if nonzero (is_gpl cfg) then q
  else if nonzero (all_lve cfg) || negb (nonzero (use_lve cfg)) then q
  else
    let q := fold_left (restrict_user cfg) (ac_users ac) q in
    match exec_script cfg with
    | Some script => emit (EvScript script (script_args sys ac limit)) q
    | None => q
    end.

(** * Carrying the commands out *)

(** The shared list of restricted users, the flag and the events. *)
Record send_state := mkSend {
  sd_bad : option shm_structure; sd_flush : Z; sd_events : list event
}.

Definition sd_emit (e : event) (flush : bool) (s : send_state) : send_state :=
  mkSend (sd_bad s) (if flush then 1 else sd_flush s) (sd_events s ++ [e])%list.
Definition sd_set_bad (b : option shm_structure) (s : send_state) : send_state :=
  mkSend b (sd_flush s) (sd_events s).

Section send.
Context `{HashOrder} (userMap : option (gmap string UserMap)) (cfg : governor_config).

Definition update_limit (u : string) (n : Z) (s : send_state) : send_state :=
  if nonzero (max_user_connections cfg) then sd_emit (EvUserLimit u n) true s else s.

(** [None] stands for a node without data. *)
Definition send_commands (cmd : option Command) (s : send_state) : option send_state :=
  match cmd with
  | None => Some s
  | Some cmd =>
      let u := c_username cmd in
      match c_command cmd with
      | FREEZE =>
          s ← (if nonzero (use_lve cfg) then
                 '(b, r) ← add_user_to_list userMap true true (sd_bad s) u (all_lve cfg);
                 let s := sd_set_bad b s in
                 Some (if r <? 0 then s else update_limit u (u32 (max_user_connections cfg)) s)
               else Some s);
          Some (if logqueries_use cfg =? 1 then sd_emit (EvLogQueries u) false s else s)
      | UNFREEZE =>
          if nonzero (use_lve cfg) then
            '(b, r) ← delete_user_from_list (fun _ => true) (sd_bad s) u;
            Some (update_limit u 0 (sd_set_bad b s))
          else Some (update_limit u 0 s)
      | _ => Some s
      end
  end.

Fixpoint send_all (l : list (option Command)) (s : send_state) : option send_state :=
  match l with
  | [] => Some s
  | c :: l => s ← send_commands c s; send_all l s
  end.

(** The thread. *)
Definition send_commands_cycle_in (b : option shm_structure) (q : cmd_state)
    : option (option shm_structure * cmd_state) :=
  s ← send_all (default [] (command_list_send q)) (mkSend b 0 (cm_events q));
  let ev := if nonzero (max_user_connections cfg) && nonzero (sd_flush s)
            then (sd_events s ++ [EvFlush])%list else sd_events s in
  Some (sd_bad s, mkCmd (command_list q) (command_list_send q) 0 0 ev).

Definition copy_commands (q : cmd_state) (cmd : option Command) : cmd_state :=
  match cmd, command_list_send q with
  | Some c, Some l =>
      mkCmd (command_list q)
        (Some (g_list_append l (mkCommand (strlcpy_str (c_username c) USERNAMEMAXLEN) (c_command c))))
        (is_send_command_cycle q) (is_any_flush q) (cm_events q)
  | _, _ => q
  end.

(** [send_command_copy_list] takes [mtx_commands] twice: for the copy, and
    again in [reinit_command_list].  What is queued in between goes into the
    list that is freed. *)
Definition copy_list (q : cmd_state) : cmd_state :=
  let q := reinit_command_list_send q in
  fold_left copy_commands (default [] (command_list q)) q.
Definition send_command_copy_list (q : cmd_state) : cmd_state := reinit_command_list (copy_list q).

(** [send_commands_cycle] before and after the second critical section;
    [cycle_begin] tells whether the copy was made, [cycle_end] whether a
    thread was started. *)
Definition cycle_begin (q : cmd_state) : cmd_state * bool :=
  if nonzero (is_gpl cfg) then (q, false)
  else if negb (nonzero (is_send_command_cycle q)) then
    (copy_list (mkCmd (command_list q) (command_list_send q) 1 (is_any_flush q) (cm_events q)), true)
  else (q, false).
Definition cycle_end (q : cmd_state) : cmd_state * bool :=
  match command_list_send q with
  | Some (_ :: _) => (emit EvThread q, true)
  | _ => (mkCmd (command_list q) (command_list_send q) 0 (is_any_flush q) (cm_events q), false)
  end.

(** Without another thread in between: the new state and whether a thread
    was started. *)
Definition send_commands_cycle (q : cmd_state) : cmd_state * bool :=
  if nonzero (is_gpl cfg) then (q, false)
  else if negb (nonzero (is_send_command_cycle q)) then
    let q := mkCmd (command_list q) (command_list_send q) 1 (is_any_flush q) (cm_events q) in
    cycle_end (send_command_copy_list q)
  else (q, false).
End send.

(** * The daemon as a system of three threads

    The second runs [send_commands_cycle], its worker carries the commands
    out, and the second and the clients of the administrator queue commands,
    each in a critical section of its own.  [s_stage] is where the second is
    in [send_command_copy_list]: [Copied] when the queue was copied and not
    yet freed, [Freed] when it is freed and not yet allocated again.  [s_worker]: the worker
    runs.  [s_issued] are the commands given to the queue, each with whether
    it was given outside of [send_command_copy_list], [s_done] the commands
    carried out. *)
Inductive stage := Idle | Copied | Freed.

Record system := mkSystem {
  s_stage : stage; s_q : cmd_state; s_bad : option shm_structure; s_worker : bool;
  s_issued : list (Command * bool); s_done : list Command
}.

Definition commands_of (l : glist) : list Command := omap id (default [] l).

(** The commands given while the queue was not being copied. *)
Definition kept (l : list (Command * bool)) : list Command := (filter (fun c => c.2 = true) l).*1.

(** What is queued and will be copied by the next cycle. *)
Definition pending (s : system) : list Command :=
  match s_stage s with Idle => commands_of (command_list (s_q s)) | _ => [] end.

Inductive step `{HashOrder} (um : option (gmap string UserMap)) (cfg : governor_config)
    : system -> system -> Prop :=
  | step_queue s u c : strlen u < USERNAMEMAXLEN -> c = FREEZE \/ c = UNFREEZE ->
      step um cfg s
        (mkSystem (s_stage s) (queue_command c u (s_q s)) (s_bad s) (s_worker s)
           (s_issued s ++ [(mkCommand u c, match s_stage s with Idle => true | _ => false end)]) (s_done s))
  | step_copy s q (b : bool) : s_stage s = Idle -> cycle_begin cfg (s_q s) = (q, b) ->
      step um cfg s
        (mkSystem (if b then Copied else Idle) q (s_bad s) (s_worker s) (s_issued s) (s_done s))
  | step_free s : s_stage s = Copied ->
      step um cfg s
        (mkSystem Freed (free_commands_list (s_q s)) (s_bad s) (s_worker s) (s_issued s) (s_done s))
  | step_alloc s q b : s_stage s = Freed -> cycle_end (set_list g_list_alloc (s_q s)) = (q, b) ->
      step um cfg s (mkSystem Idle q (s_bad s) b (s_issued s) (s_done s))
  | step_worker s q bl : s_worker s = true ->
      send_commands_cycle_in um cfg (s_bad s) (s_q s) = Some (bl, q) ->
      step um cfg s
        (mkSystem (s_stage s) q bl false (s_issued s) (s_done s ++ commands_of (command_list_send (s_q s)))).

Definition initial (q : cmd_state) : system :=
  mkSystem Idle (reinit_command_list (mkCmd (command_list q) (command_list_send q) 0 0 []))
    (Some clear_bad_users_list) false [] [].

Inductive reachable `{HashOrder} (um : option (gmap string UserMap)) (cfg : governor_config)
    (q : cmd_state) : system -> Prop :=
  | reach_initial : reachable um cfg q (initial q)
  | reach_step s s' : reachable um cfg q s -> step um cfg s s' -> reachable um cfg q s'.

(** Whether a user is to be on the list after some commands: the last
    command for it decides. *)
Definition frozen (b : bool) (u : string) (cmds : list Command) : bool :=
  fold_left (fun b c => if String.eqb (c_username c) u then bool_decide (c_command c = FREEZE)
                        else b) cmds b.

Definition users_of (cmds : list Command) : gset string := list_to_set (c_username <$> cmds).

Definition cmd_ok (c : Command) : Prop :=
  strlen (c_username c) < USERNAMEMAXLEN /\ (c_command c = FREEZE \/ c_command c = UNFREEZE).

(** * Lemmas *)

Definition listed (l : shm_structure) (u : string) : bool := bool_decide (is_Some (abs l !! u)).

Lemma listed_insert l l' u v d : abs l' = <[v := d]> (abs l) ->
  listed l' u = if String.eqb v u then true else listed l u.
Proof.
  intros E. unfold listed. rewrite E. destruct (String.eqb_spec v u) as [->|Hne].
  - rewrite lookup_insert_eq. apply bool_decide_eq_true_2. eauto.
  - by rewrite lookup_insert_ne.
Qed.

Lemma listed_delete l l' u v : abs l' = delete v (abs l) ->
  listed l' u = if String.eqb v u then false else listed l u.
Proof.
  intros E. unfold listed. rewrite E. destruct (String.eqb_spec v u) as [->|Hne].
  - rewrite lookup_delete_eq. apply bool_decide_eq_false_2. by intros [? ?].
  - by rewrite lookup_delete_ne.
Qed.

Lemma size_bound l (A : gset string) : list_inv l -> dom (abs l) ⊆ A ->
  numbers l <= Z.of_nat (base.size A).
Proof.
  intros Hi Hd. rewrite <- (abs_size l Hi), <- size_dom. apply inj_le.
  by apply subseteq_size.
Qed.

(** One command acts on the list as specified. *)
Lemma send_command_spec `{HashOrder} um cfg c s l (A : gset string) :
  nonzero (use_lve cfg) = true -> cmd_ok c -> sd_bad s = Some l -> list_inv l ->
  dom (abs l) ⊆ A -> c_username c ∈ A -> Z.of_nat (base.size A) < MAX_ITEMS_IN_TABLE - 1 ->
  exists s' l', send_commands um cfg (Some c) s = Some s' /\ sd_bad s' = Some l' /\ list_inv l'
    /\ dom (abs l') ⊆ A /\ forall u, listed l' u = frozen (listed l u) u [c].
Proof.
  intros Hl [Hu Hc] Hb Hi Hd Hin Hsz. unfold send_commands, frozen. cbn [fold_left].
  pose proof (size_bound l A Hi Hd) as Hn.
  destruct (c_command c) eqn:Ec; [naive_solver| | |naive_solver]; rewrite Hl, Hb.
  - destruct (run_add um l (c_username c) (all_lve cfg) Hi Hu) as (l' & -> & Hi' & Ha').
    set (sp := spec_op (get_uid um) (OpAdd (c_username c) (all_lve cfg)) (abs l)) in *.
    cbn [mbind option_bind].
    assert (exists d, abs l' = <[c_username c := d]> (abs l)) as [d Ed].
    { unfold sp, spec_op in Ha'. destruct (abs l !! c_username c) as [v|] eqn:El; simpl in Ha'.
      - exists v. by rewrite insert_id.
      - rewrite abs_size in Ha' by done.
        destruct (Z.eqb_spec (numbers l + 1) MAX_ITEMS_IN_TABLE); [lia|]. eauto. }
    eexists _, l'. split; [reflexivity|]. split.
    { unfold update_limit.
      by destruct (logqueries_use cfg =? 1), (sp.2 <? 0), (nonzero (max_user_connections cfg)). }
    split; [done|].
    split; [rewrite Ed, dom_insert; set_solver|].
    intros u. rewrite (listed_insert l l' u _ _ Ed), bool_decide_eq_true_2 by done. done.
  - destruct (run_del l (c_username c) Hi Hu) as (l' & -> & Hi' & Ha'). cbn [mbind option_bind].
    eexists _, l'. split; [reflexivity|]. unfold update_limit.
    split; [by destruct (nonzero (max_user_connections cfg))|]. split; [done|].
    split; [rewrite Ha', dom_delete; set_solver|].
    intros u. rewrite (listed_delete l l' u _ Ha'), bool_decide_eq_false_2 by done. done.
Qed.

Lemma send_all_spec `{HashOrder} um cfg cmds s l (A : gset string) :
  nonzero (use_lve cfg) = true -> Forall cmd_ok cmds -> sd_bad s = Some l -> list_inv l ->
  dom (abs l) ⊆ A -> users_of cmds ⊆ A -> Z.of_nat (base.size A) < MAX_ITEMS_IN_TABLE - 1 ->
  exists s' l', send_all um cfg (Some <$> cmds) s = Some s' /\ sd_bad s' = Some l' /\ list_inv l'
    /\ dom (abs l') ⊆ A /\ forall u, listed l' u = frozen (listed l u) u cmds.
Proof.
  intros Hl. revert s l. induction cmds as [|c cmds IH]; intros s l Hok Hb Hi Hd Hin Hsz.
  - exists s, l. done.
  - apply list.Forall_cons in Hok as [Hc Hok]. unfold users_of in Hin. simpl in Hin.
    rewrite fmap_cons. cbn [send_all].
    destruct (send_command_spec um cfg c s l A) as (s1 & l1 & -> & Hb1 & Hi1 & Hd1 & Hf1);
      [done|done|done|done|done|set_solver|done|].
    cbn [mbind option_bind].
    destruct (IH s1 l1) as (s2 & l2 & -> & Hb2 & Hi2 & Hd2 & Hf2);
      [done|done|done|done|unfold users_of; set_solver|done|].
    exists s2, l2. split_and!; try done. intros u. rewrite Hf2, Hf1. done.
Qed.

Lemma frozen_app b u l1 l2 : frozen b u (l1 ++ l2) = frozen (frozen b u l1) u l2.
Proof. apply fold_left_app. Qed.

Lemma users_of_app l1 l2 : users_of (l1 ++ l2) = users_of l1 ∪ users_of l2.
Proof. unfold users_of. by rewrite fmap_app, list_to_set_app_L. Qed.

Definition node_list (l : list Command) : glist := Some (None :: (Some <$> l)).

Lemma commands_of_nodes l : commands_of (node_list l) = l.
Proof. unfold commands_of. simpl. induction l as [|c l IH]; simpl; by f_equal. Qed.

Lemma queue_nodes c u q p : command_list q = node_list p -> strlen u < USERNAMEMAXLEN ->
  command_list (queue_command c u q) = node_list (p ++ [mkCommand u c])
  /\ command_list_send (queue_command c u q) = command_list_send q
  /\ is_send_command_cycle (queue_command c u q) = is_send_command_cycle q.
Proof.
  intros E Hu. unfold queue_command. rewrite E. simpl. split; [|done].
  unfold node_list, g_list_append. rewrite strlcpy_str_id by done. by rewrite fmap_app.
Qed.

#[local] Arguments copy_commands : simpl never.

(** The copy of the queue is the queue. *)
Lemma copy_nodes p q sent : Forall cmd_ok p -> command_list_send q = node_list sent ->
  let q' := fold_left copy_commands (Some <$> p) q in
  command_list_send q' = node_list (sent ++ p) /\ is_send_command_cycle q' = is_send_command_cycle q
  /\ command_list q' = command_list q.
Proof.
  cbv zeta. revert q sent. induction p as [|c p IH]; intros q sent Hok E; [by rewrite app_nil_r|].
  apply list.Forall_cons in Hok as [[Hc _] Hok]. rewrite fmap_cons. cbn [fold_left].
  destruct (IH (copy_commands q (Some c)) (sent ++ [c])%list Hok) as (E1 & E2 & E3).
  - unfold copy_commands. rewrite E. simpl. rewrite strlcpy_str_id by done.
    unfold node_list, g_list_append. rewrite fmap_app. by destruct c.
  - rewrite E1, E2, E3, <- app_assoc. split; [done|]. unfold copy_commands. by rewrite E.
Qed.

(** * Invariant of the system *)

(** [sent] is with the worker, or copied for it; [pend] is in the queue. *)
Definition queue_inv (s : system) (sent pend : list Command) : Prop :=
  match s_stage s with
  | Idle => command_list (s_q s) = node_list pend
            /\ (s_worker s = true -> command_list_send (s_q s) = node_list sent)
            /\ (s_worker s = false -> sent = [])
            /\ nonzero (is_send_command_cycle (s_q s)) = s_worker s
  | st => (st = Copied -> exists l, command_list (s_q s) = node_list l)
          /\ (st = Freed -> command_list (s_q s) = None)
          /\ command_list_send (s_q s) = node_list sent /\ pend = [] /\ s_worker s = false
          /\ nonzero (is_send_command_cycle (s_q s)) = true
  end.

Definition sys_inv (cfg : governor_config) (s : system) : Prop :=
  exists sent pend, queue_inv s sent pend
    /\ kept (s_issued s) = (s_done s ++ sent ++ pend)%list
    /\ Forall cmd_ok (kept (s_issued s))
    /\ (Z.of_nat (base.size (users_of (kept (s_issued s)))) < MAX_ITEMS_IN_TABLE - 1 ->
        exists l, s_bad s = Some l /\ list_inv l /\ dom (abs l) ⊆ users_of (s_done s)
          /\ forall u, listed l u = frozen false u (s_done s)).

Lemma kept_app l1 l2 : kept (l1 ++ l2) = (kept l1 ++ kept l2)%list.
Proof. unfold kept. by rewrite list.filter_app, fmap_app. Qed.

Lemma inv_initial cfg q : sys_inv cfg (initial q).
Proof.
  exists [], []. split_and!; try done. intros _.
  exists clear_bad_users_list. destruct clear_inv as [Hi Ha]. split_and!; try done.
Qed.

(** A command that comes while the queue is copied changes nothing that
    counts. *)
Lemma inv_queue cfg s u c : strlen u < USERNAMEMAXLEN -> c = FREEZE \/ c = UNFREEZE ->
  sys_inv cfg s ->
  sys_inv cfg (mkSystem (s_stage s) (queue_command c u (s_q s)) (s_bad s) (s_worker s)
           (s_issued s ++ [(mkCommand u c, match s_stage s with Idle => true | _ => false end)]) (s_done s)).
Proof.
  intros Hu Hc (sent & pend & Hq & Hiss & Hok & Hbad).
  destruct (s_stage s) eqn:Est; unfold queue_inv in Hq; rewrite Est in Hq.
  - destruct Hq as (Hl & Hw & Hnw & Hf). destruct (queue_nodes c u (s_q s) pend Hl Hu) as (E1 & E2 & E3).
    exists sent, (pend ++ [mkCommand u c])%list. unfold queue_inv. cbn [s_stage s_q s_bad s_worker s_issued s_done].
    rewrite E1, E2, E3, kept_app. change (kept [(mkCommand u c, true)]) with [mkCommand u c]. split_and!; try done.
    + rewrite Hiss. by rewrite <- !app_assoc.
    + apply list.Forall_app. split; [done|]. by apply list.Forall_singleton.
    + intros Hsz. apply Hbad. eapply Z.le_lt_trans; [|exact Hsz]. apply inj_le, subseteq_size.
      rewrite users_of_app. set_solver.
  - destruct Hq as (Hl & _ & Hs & Hp & Hw & Hf). destruct (Hl eq_refl) as [l El].
    destruct (queue_nodes c u (s_q s) l El Hu) as (E1 & E2 & E3).
    exists sent, pend. unfold queue_inv. cbn [s_stage s_q s_bad s_worker s_issued s_done].
    rewrite E1, E2, E3, kept_app, app_nil_r. split_and!; try done. by exists (l ++ [mkCommand u c])%list.
  - destruct Hq as (_ & Hl & Hs & Hp & Hw & Hf). unfold queue_command. rewrite (Hl eq_refl).
    exists sent, pend. unfold queue_inv. cbn [s_stage s_q s_bad s_worker s_issued s_done].
    rewrite kept_app, app_nil_r. split_and!; try done.
Qed.

Lemma inv_copy cfg s q (b : bool) : s_stage s = Idle -> cycle_begin cfg (s_q s) = (q, b) -> sys_inv cfg s ->
  sys_inv cfg (mkSystem (if b then Copied else Idle) q (s_bad s) (s_worker s) (s_issued s) (s_done s)).
Proof.
  intros Est E (sent & pend & Hq & Hiss & Hok & Hbad). unfold queue_inv in Hq. rewrite Est in Hq.
  destruct Hq as (Hl & Hw & Hnw & Hf). unfold cycle_begin in E.
  destruct (nonzero (is_gpl cfg)); [injection E as <- <-; by exists sent, pend|].
  destruct (nonzero (is_send_command_cycle (s_q s))) eqn:Ef; cbn [negb] in E.
  { injection E as <- <-. exists sent, pend. unfold queue_inv. cbn [s_stage s_q]. by rewrite Ef. }
  rewrite <- Hf in Hnw. specialize (Hnw eq_refl) as ->. injection E as <- <-.
  assert (Forall cmd_ok pend) as Hokp.
  { rewrite Hiss in Hok. apply list.Forall_app in Hok as [_ Hok]. by apply list.Forall_app in Hok as [_ ?]. }
  unfold copy_list, reinit_command_list_send.
  cbn [command_list command_list_send is_send_command_cycle is_any_flush cm_events]. rewrite Hl.
  set (q1 := mkCmd _ g_list_alloc _ _ _).
  destruct (copy_nodes pend q1 [] Hokp eq_refl) as (E1 & E2 & E3).
  change (fold_left copy_commands (default [] (node_list pend)) q1) with (fold_left copy_commands (Some <$> pend) q1).
  exists pend, []. unfold queue_inv. cbn [s_stage s_q s_bad s_worker s_issued s_done]. rewrite E1, E2, E3.
  split_and!; try done; [by exists pend|by rewrite Hiss, app_nil_r].
Qed.

Lemma inv_free cfg s : s_stage s = Copied -> sys_inv cfg s ->
  sys_inv cfg (mkSystem Freed (free_commands_list (s_q s)) (s_bad s) (s_worker s) (s_issued s) (s_done s)).
Proof.
  intros Est (sent & pend & Hq & H). unfold queue_inv in Hq. rewrite Est in Hq. exists sent, pend. split; [|done].
  unfold queue_inv. cbn. naive_solver.
Qed.

Lemma inv_alloc cfg s q b : s_stage s = Freed -> cycle_end (set_list g_list_alloc (s_q s)) = (q, b) ->
  sys_inv cfg s -> sys_inv cfg (mkSystem Idle q (s_bad s) b (s_issued s) (s_done s)).
Proof.
  intros Est E (sent & pend & Hq & H). unfold queue_inv in Hq. rewrite Est in Hq.
  destruct Hq as (_ & _ & Hs & -> & Hw & Hf). unfold cycle_end in E. cbn [set_list command_list_send] in E.
  rewrite Hs in E. unfold node_list in E. injection E as <- <-. exists sent, []. split; [|done].
  unfold queue_inv. cbn. by rewrite Hf.
Qed.

Lemma send_nodes `{HashOrder} um cfg sent s :
  send_all um cfg (default [] (node_list sent)) s = send_all um cfg (Some <$> sent) s.
Proof. done. Qed.

(** The worker runs only outside of the copy. *)
Lemma worker_idle s sent pend : queue_inv s sent pend -> s_worker s = true ->
  s_stage s = Idle /\ command_list (s_q s) = node_list pend /\ command_list_send (s_q s) = node_list sent.
Proof. unfold queue_inv. intros Hq Hw. rewrite Hw in Hq. destruct (s_stage s); naive_solver. Qed.

Lemma worker_runs `{HashOrder} um cfg s : nonzero (use_lve cfg) = true -> sys_inv cfg s ->
  s_worker s = true ->
  Z.of_nat (base.size (users_of (kept (s_issued s)))) < MAX_ITEMS_IN_TABLE - 1 ->
  exists l q, send_commands_cycle_in um cfg (s_bad s) (s_q s) = Some (Some l, q) /\ list_inv l
    /\ dom (abs l) ⊆ users_of (s_done s ++ commands_of (command_list_send (s_q s)))
    /\ forall u, listed l u
                 = frozen false u (s_done s ++ commands_of (command_list_send (s_q s))).
Proof.
  intros Hl (sent & pend & Hq & Hiss & Hok & Hbad) Hwk Hsz.
  destruct (Hbad Hsz) as (l & Hb & Hi & Hd & Hfr). destruct (worker_idle s sent pend Hq Hwk) as (_ & _ & Hw).
  rewrite Hw, commands_of_nodes.
  assert (Forall cmd_ok sent) as Hoks.
  { rewrite Hiss in Hok. apply list.Forall_app in Hok as [_ Hok]. by apply list.Forall_app in Hok as [? _]. }
  assert (users_of (s_done s ++ sent) ⊆ users_of (kept (s_issued s))) as Hsub.
  { rewrite Hiss, !users_of_app. set_solver. }
  assert (Z.of_nat (base.size (users_of (s_done s ++ sent))) < MAX_ITEMS_IN_TABLE - 1) as Hsz'.
  { eapply Z.le_lt_trans; [|exact Hsz]. by apply inj_le, subseteq_size. }
  destruct (send_all_spec um cfg sent (mkSend (s_bad s) 0 (cm_events (s_q s))) l
              (users_of (s_done s ++ sent))) as (s' & l' & Es & Hb' & Hi' & Hd' & Hf');
    [done|done|done|done|rewrite users_of_app; set_solver|rewrite users_of_app; set_solver|done|].
  unfold send_commands_cycle_in. rewrite Hw, send_nodes, Es. cbn [mbind option_bind]. rewrite Hb'.
  eexists l', _. split; [reflexivity|]. split; [done|]. split; [done|].
  intros u. by rewrite Hf', Hfr, frozen_app.
Qed.

Lemma inv_worker `{HashOrder} um cfg s q bl : nonzero (use_lve cfg) = true -> s_worker s = true ->
  send_commands_cycle_in um cfg (s_bad s) (s_q s) = Some (bl, q) -> sys_inv cfg s ->
  sys_inv cfg (mkSystem (s_stage s) q bl false (s_issued s)
                 (s_done s ++ commands_of (command_list_send (s_q s)))).
Proof.
  intros Hl Hwk E Hinv. pose proof (worker_runs um cfg s Hl Hinv Hwk) as Hrun.
  destruct Hinv as (sent & pend & Hq & Hiss & Hok & Hbad).
  destruct (worker_idle s sent pend Hq Hwk) as (Est & Hp & Hs).
  assert (command_list q = node_list pend /\ is_send_command_cycle q = 0) as [Eq1 Eq2].
  { unfold send_commands_cycle_in in E. destruct (send_all _ _ _ _) as [s'|]; [|done].
    by injection E as _ <-. }
  exists [], pend. unfold queue_inv. cbn [s_stage s_q s_bad s_worker s_issued s_done]. rewrite Est.
  split_and!; try done.
  - by rewrite Eq2.
  - rewrite Hiss, Hs, commands_of_nodes. by rewrite <- app_assoc.
  - intros Hsz. destruct (Hrun Hsz) as (l & q' & E' & Hi & Hd & Hfr).
    rewrite E in E'. injection E' as -> ->. by exists l.
Qed.

Lemma inv_reachable `{HashOrder} um cfg q s : nonzero (use_lve cfg) = true ->
  reachable um cfg q s -> sys_inv cfg s.
Proof.
  intros Hl. induction 1 as [|s s' _ IH Hst]; [apply inv_initial|].
  destruct Hst.
  - by apply inv_queue.
  - by eapply inv_copy.
  - by apply inv_free.
  - by eapply inv_alloc.
  - by eapply inv_worker.
Qed.

Lemma listed_in_list l u : list_inv l -> strlen u < USERNAMEMAXLEN ->
  is_user_in_list (Some l) u = Some (if listed l u then 1 else 0).
Proof.
  intros Hi Hu. unfold is_user_in_list, listed. destruct (find_user_spec l u Hi Hu) as (r & -> & Hr).
  cbn [mbind option_bind]. destruct r as [j|].
  - destruct Hr as (_ & _ & ->). by rewrite bool_decide_eq_true_2 by eauto.
  - rewrite Hr, bool_decide_eq_false_2; [done|]. by intros [? ?].
Qed.

(** * Properties *)

(** C1: Commands are carried out in the order they were issued, exactly once, but for those
    issued while the queue is being copied, which are lost. The copy and the emptying of the
    queue are two critical sections, and the test whether there is a queue is made outside of
    them: a command that is appended between the two, or that finds no queue while it is made
    anew, is not kept. In every state that issuing commands, the parts of the copy and the
    worker can reach from an empty queue and an empty list, the commands kept are the commands
    done, followed by those handed to the worker, followed by those queued for the next copy;
    the worker can always finish; and the shared list holds exactly the users whose last carried
    out command is FREEZE. Conditions: LVE is switched on, the names are shorter than 64
    characters, the commands kept name fewer than 99999 users, and the map and the configuration
    stay the same. *)
Theorem commands_reach_bad_list `{HashOrder} (um : option (gmap string UserMap))
    (cfg : governor_config) (q : cmd_state) (s : system) :
  nonzero (use_lve cfg) = true -> reachable um cfg q s ->
  Z.of_nat (base.size (users_of (kept (s_issued s)))) < MAX_ITEMS_IN_TABLE - 1 ->
  (exists sent, kept (s_issued s) = (s_done s ++ sent ++ pending s)%list
     /\ (s_stage s = Idle -> s_worker s = false -> sent = []))
  /\ (s_worker s = true ->
      is_Some (send_commands_cycle_in um cfg (s_bad s) (s_q s)))
  /\ exists l, s_bad s = Some l /\ list_inv l
     /\ forall u, strlen u < USERNAMEMAXLEN ->
          is_user_in_list (Some l) u = Some (if frozen false u (s_done s) then 1 else 0).
Proof.
  intros Hl Hr Hsz. pose proof (inv_reachable um cfg q s Hl Hr) as Hinv.
  split; [|split].
  - destruct Hinv as (sent & pend & Hq & Hiss & _). exists sent. unfold pending, queue_inv in *.
    destruct (s_stage s); destruct Hq as (Hp & Hq).
    + rewrite Hp, commands_of_nodes. naive_solver.
    + assert (pend = []) as -> by naive_solver. done.
    + assert (pend = []) as -> by naive_solver. done.
  - intros Hw. destruct (worker_runs um cfg s Hl Hinv Hw Hsz) as (l & q' & -> & _). eauto.
  - destruct Hinv as (sent & pend & _ & _ & _ & Hbad).
    destruct (Hbad Hsz) as (l & Hb & Hi & _ & Hf). exists l. split; [done|]. split; [done|].
    intros u Hu. by rewrite listed_in_list, Hf.
Qed.

Definition example_run : list (Command * bool) := [(mkCommand "bob" FREEZE, true); (mkCommand "eve" FREEZE, true);
  (mkCommand "bob" UNFREEZE, true); (mkCommand "ann" FREEZE, false)].

(** The steps as a function. *)
Inductive action := AQueue (u : string) (c : command_t) | ACopy | AFree | AAlloc | AWorker.

Definition act `{HashOrder} (um : option (gmap string UserMap)) (cfg : governor_config) (a : action) (s : system)
    : option system :=
  match a, s_stage s, s_worker s with
  | AQueue u c, st, _ =>
      if (strlen u <? USERNAMEMAXLEN) && bool_decide (c = FREEZE \/ c = UNFREEZE) then
        Some (mkSystem st (queue_command c u (s_q s)) (s_bad s) (s_worker s)
                (s_issued s ++ [(mkCommand u c, match st with Idle => true | _ => false end)]) (s_done s))
      else None
  | ACopy, Idle, _ =>
      let '(q, b) := cycle_begin cfg (s_q s) in
      Some (mkSystem (if b : bool then Copied else Idle) q (s_bad s) (s_worker s) (s_issued s) (s_done s))
  | AFree, Copied, _ =>
      Some (mkSystem Freed (free_commands_list (s_q s)) (s_bad s) (s_worker s) (s_issued s) (s_done s))
  | AAlloc, Freed, _ =>
      let '(q, b) := cycle_end (set_list g_list_alloc (s_q s)) in
      Some (mkSystem Idle q (s_bad s) b (s_issued s) (s_done s))
  | AWorker, st, true =>
      '(bl, q) ← send_commands_cycle_in um cfg (s_bad s) (s_q s);
      Some (mkSystem st q bl false (s_issued s) (s_done s ++ commands_of (command_list_send (s_q s))))
  | _, _, _ => None
  end.

Lemma act_step `{HashOrder} um cfg a s s' : act um cfg a s = Some s' -> step um cfg s s'.
Proof.
  destruct s as [st q b w i d]. unfold act. cbn [s_stage s_worker s_q s_bad s_issued s_done].
  destruct a as [u c| | | |].
  - destruct (strlen u <? USERNAMEMAXLEN) eqn:El; [|done]. case_bool_decide; [|done]. cbn [andb]. intros [= <-].
    bools. by apply (step_queue um cfg (mkSystem st q b w i d)).
  - destruct st; try done. destruct (cycle_begin cfg q) as [q' x] eqn:E. intros [= <-].
    by apply (step_copy um cfg (mkSystem Idle q b w i d)).
  - destruct st; try done. intros [= <-]. by apply (step_free um cfg (mkSystem Copied q b w i d)).
  - destruct st; try done. destruct (cycle_end _) as [q' x] eqn:E. intros [= <-].
    by apply (step_alloc um cfg (mkSystem Freed q b w i d)).
  - destruct w; [|by destruct st]. assert (forall st : stage,
      ('(bl, q') ← send_commands_cycle_in um cfg b q;
       Some (mkSystem st q' bl false i (d ++ commands_of (command_list_send q)))) = Some s' ->
      step um cfg (mkSystem st q b true i d) s') as G; [|by destruct st; apply G].
    intros st'. destruct (send_commands_cycle_in um cfg b q) as [[bl q']|] eqn:E; [|done].
    intros [= <-]. by apply (step_worker um cfg (mkSystem st' q b true i d)).
Qed.

Definition example_acts : option system :=
  fold_left (fun s a => s ← s; act (H := default_order) None example_config a s)
    [AQueue "bob" FREEZE; AQueue "eve" FREEZE; AQueue "bob" UNFREEZE; ACopy; AQueue "ann" FREEZE;
     AFree; AAlloc; AWorker] (Some (initial (mkCmd None None 0 0 []))).

(** Two users are frozen and one of them is released; a command for a third
    one comes while the queue is copied, and is lost. *)
Lemma example_run_reachable :
  exists s, reachable (H := default_order) None example_config (mkCmd None None 0 0 []) s
    /\ s_issued s = example_run /\ s_done s = kept example_run /\ s_stage s = Idle /\ s_worker s = false
    /\ pending s = [].
Proof.
  assert ((fun s => (s_issued s, s_done s, s_stage s, s_worker s, pending s)) <$> example_acts
          = Some (example_run, kept example_run, Idle, false, [])) as E by (vm_compute; reflexivity).
  destruct example_acts as [s|] eqn:Es; [|clear Es; discriminate E].
  exists s. split; [|clear Es; by injection E as -> -> -> -> ->]. clear E. revert Es.
  unfold example_acts. generalize (reach_initial (H := default_order) None example_config (mkCmd None None 0 0 [])).
  generalize (initial (mkCmd None None 0 0 [])). set (l := [_; _; _; _; _; _; _; _]). clearbody l.
  induction l as [|a l IH]; intros s0 H0; cbn [fold_left mbind option_bind]; [by intros [= <-]|].
  destruct (act None example_config a s0) as [s1|] eqn:E.
  - apply IH. eapply reach_step; [exact H0|]. by apply act_step in E.
  - clear. induction l; [done|done].
Qed.

Lemma commands_reach_bad_list_witness :
  exists s, reachable (H := default_order) None example_config
              (mkCmd None None 0 0 []) s
    /\ exists l, s_bad s = Some l /\ list_inv l
       /\ is_user_in_list (Some l) "bob" = Some 0 /\ is_user_in_list (Some l) "eve" = Some 1.
Proof.
  destruct example_run_reachable as (s & Hr & Hi & Hd & _).
  exists s. split; [exact Hr|].
  destruct (commands_reach_bad_list (H := default_order) None example_config _ s eq_refl Hr)
    as (_ & _ & l & Hb & Hli & Hf).
  { rewrite Hi. by vm_compute. }
  exists l. split; [exact Hb|]. split; [exact Hli|]. rewrite !Hf, Hd by reflexivity. by vm_compute.
Defined.

(** The user of the lost command is not on the list once everything has been
    worked off. *)
Lemma command_lost_in_copy :
  exists s l, reachable (H := default_order) None example_config (mkCmd None None 0 0 []) s
    /\ (mkCommand "ann" FREEZE, false) ∈ s_issued s /\ mkCommand "ann" UNFREEZE ∉ (s_issued s).*1
    /\ s_stage s = Idle /\ s_worker s = false /\ pending s = []
    /\ s_bad s = Some l /\ is_user_in_list (Some l) "ann" = Some 0.
Proof.
  destruct example_run_reachable as (s & Hr & Hi & Hd & Hst & Hw & Hp).
  destruct (inv_reachable None example_config _ s eq_refl Hr) as (_ & _ & _ & _ & _ & Hbad).
  destruct Hbad as (l & Hb & Hl & _ & Hf); [by rewrite Hi; vm_compute|]. exists s, l. rewrite Hi.
  split; [done|]. split; [set_solver|]. split.
  { intros Hin. unfold example_run in Hin. cbn in Hin.
    repeat (apply elem_of_cons in Hin as [Hin|Hin]; [discriminate|]). by apply elem_of_nil in Hin. }
  do 4 (split; [done|]). rewrite listed_in_list, Hf, Hd by done. by vm_compute.
Qed.
