(* ===== verification/Restrict.v ===== *)
(** The restriction of accounts ([src/calc_stats.c]): the comparison of the
    averages with the limits, the penalty levels, and the analysis of an
    account in the "period" and in the "limit" mode.

    A handler works on one account, on the table of restriction counts and
    on the command queue; it reads the clock through [clk]. *)

From S2P Require Import Prelude CDouble CString Data UserMap BadList FifoStats Xml Config Accounts LogDecoder Commands.
Open Scope string_scope.
Open Scope Z_scope.

Record statistics_restrict_info := mkRestricts { number_of_restricts : Z; cause_of_restricts : Z }.

Definition RESTRICT_BY_CPU : Z := 1.
Definition RESTRICT_BY_READ : Z := 2.
Definition RESTRICT_BY_WRITE : Z := 4.

(** [DbGovNumberOfRestricts]. *)
Abbreviation counts := (gmap string statistics_restrict_info).

Record rstate := mkR { r_ac : Account; r_counts : counts; r_q : cmd_state }.

(** * Limits *)

(** The macro [is_stat_overlimit], for the period that [x] selects. *)
Definition is_stat_overlimit (x : T_LONG -> Z) (st : Stats) (limit : Stats_cfg)
    : GOVERNORS_FIELD_NAME :=
  if dltb (ddiv (dof_Z (x (l_cpu limit))) d100) (st_cpu st) && (0 <=? x (l_cpu limit))
  then CPU_PARAM
  else if (x (l_read limit) <? st_read st) && (0 <=? x (l_read limit)) then READ_PARAM
  else if (x (l_write limit) <? st_write st) && (0 <=? x (l_write limit)) then WRITE_PARAM
  else NORESTRICT_PARAM2.

Definition is_stat_overlimit_current := is_stat_overlimit t_current.
Definition is_stat_overlimit_short := is_stat_overlimit t_short.
Definition is_stat_overlimit_mid := is_stat_overlimit t_mid.
Definition is_stat_overlimit_long := is_stat_overlimit t_long.

Definition is_over (f : GOVERNORS_FIELD_NAME) : bool := bool_decide (f <> NORESTRICT_PARAM2).

(** The new level and the time-out of that level, an [unsigned] returned as
    an [int]. *)
Definition get_timeout (cfg : governor_config) (restrict_level penalty : Z) : Z * Z :=
  let l := s32 (restrict_level + penalty) in
  let l := if 3 <? l then 3 else l in
  let l := if l <? 0 then 0 else l in
  (l, s32 (if l =? 0 then level1 cfg else if l =? 1 then level2 cfg
           else if l =? 2 then level3 cfg else level4 cfg)).

Definition IncNumberOfRestricts (username : string) (cause : Z) (c : counts) : counts :=
  match c !! username with
  | Some i => <[username := mkRestricts (s32 (number_of_restricts i + 1))
                              (Z.lor (cause_of_restricts i) cause)]> c
  | None => <[username := mkRestricts 1 cause]> c
  end.

Definition get_cause_of_restrict (_cur : GOVERNORS_FIELD_NAME) : Z :=
  match _cur with
  | CPU_PARAM => RESTRICT_BY_CPU
  | READ_PARAM => RESTRICT_BY_READ
  | WRITE_PARAM => RESTRICT_BY_WRITE
  | _ => 0
  end.

(** * Restricting an account *)

Definition set_restrict (ac : Account) (restricted timeout start : Z) (info : restrict_info)
    : Account :=
  mkAccount (ac_id ac) (ac_users ac) (ac_current ac) (ac_long_average ac) (ac_mid_average ac)
    (ac_short_average ac) restricted timeout start info (ac_need_dbg ac).

Section handlers.
Variables (cfg : governor_config) (sys : sysinfo).

Definition count_restrict (ac : Account) (cause : Z) (c : counts) : counts :=
  if nonzero (statistic_mode cfg) then IncNumberOfRestricts (ac_id ac) cause c else c.

Definition log_restrict (line : string) (q : cmd_state) : cmd_state :=
  match restrict_log cfg with
  | Some _ => emit (EvRestrictLog line) q
  | None => q
  end.

(** The block [check_restrict] repeats for each period: [now] was read at
    the entry, [start] when the restriction is recorded. *)
Definition restrict_account (now start : Z) (sl : Stats_cfg) (period : GOVERNORS_PERIOD_NAME)
    (field : GOVERNORS_FIELD_NAME) (cause : Z) (r : rstate) : rstate :=
  let ac := r_ac r in
  let old_restricted := ac_restricted ac in
  let penalty := if now <? s64 (ac_start_count ac + c_timeout cfg) then 1 else 0 in
  let '(restricted, restrict_period) := get_timeout cfg (ac_restricted ac) penalty in
  let c := count_restrict ac cause (r_counts r) in
  let ac := set_restrict ac restricted restrict_period start (mkInfo period field) in
  let q := if old_restricted =? 0 then account_restrict cfg sys ac sl (r_q r) else r_q r in
  mkR ac c (log_restrict (prepareRestrictDescription cfg sys ac sl) q).

(** [check_restrict]: the first period over its limit counts.  The cause is
    computed from the current period in every branch. *)
Definition check_restrict (clk : clock Z) (r : rstate) : rstate * bool :=
  let ac := r_ac r in
  let sl := config_get_account_limit cfg (ac_id ac) in
  let _cur := is_stat_overlimit_current (ac_current ac) sl in
  let now := clk 0%nat in
  let restrict p f := (restrict_account now (clk 1%nat) sl p f (get_cause_of_restrict _cur) r, true) in
  if is_over _cur then restrict CURRENT_PERIOD _cur
  else
    let _short := is_stat_overlimit_short (ac_short_average ac) sl in
    if is_over _short then restrict SHORT_PERIOD _short
    else
      let _mid := is_stat_overlimit_mid (ac_mid_average ac) sl in
      if is_over _mid then restrict MID_PERIOD _mid
      else
        let _long := is_stat_overlimit_long (ac_long_average ac) sl in
        if is_over _long then restrict LONG_PERIOD _long
        else (r, false).

(** The block of [check_restrict_limit]. *)
Definition restrict_account_limit (start : Z) (sl : Stats_cfg) (period : GOVERNORS_PERIOD_NAME)
    (field : GOVERNORS_FIELD_NAME) (cause : Z) (r : rstate) : rstate :=
  let ac := r_ac r in
  let c := count_restrict ac cause (r_counts r) in
  let old_restricted := ac_restricted ac in
  let ac := set_restrict ac 1000 (s32 (l_unlimit cfg)) start (mkInfo period field) in
  let q := if old_restricted =? 0 then account_restrict cfg sys ac sl (r_q r) else r_q r in
  mkR ac c (log_restrict (prepareRestrictDescriptionLimit cfg sys ac sl) q).

Definition check_restrict_limit (clk : clock Z) (r : rstate) : rstate * bool :=
  let ac := r_ac r in
  let sl := config_get_account_limit cfg (ac_id ac) in
  let _cur := is_stat_overlimit_current (ac_current ac) sl in
  let restrict p f :=
    (restrict_account_limit (clk 1%nat) sl p f (get_cause_of_restrict _cur) r, true) in
  if is_over _cur then restrict CURRENT_PERIOD _cur
  else
    let _short := is_stat_overlimit_short (ac_short_average ac) sl in
    if is_over _short then restrict SHORT_PERIOD _short
    else
      let _mid := is_stat_overlimit_mid (ac_mid_average ac) sl in
      if is_over _mid then restrict MID_PERIOD _mid
      else
        let _long := is_stat_overlimit_long (ac_long_average ac) sl in
        if is_over _long then restrict LONG_PERIOD _long
        else (r, false).

(** * The analysis of an account *)

Definition set_ac (ac : Account) (r : rstate) : rstate := mkR ac (r_counts r) (r_q r).
Definition unrestrict (r : rstate) : rstate :=
  mkR (r_ac r) (r_counts r) (account_unrestrict cfg (r_ac r) (r_q r)).

Definition account_analyze_limit (clk : clock Z) (r : rstate) : rstate :=
  let sl := config_get_account_limit cfg (ac_id (r_ac r)) in
  if nonzero (all_lve cfg) || negb (nonzero (use_lve cfg)) then r
  else if bool_decide (mode sl <> IGNORE_MODE) then
    let '(r, stop) := if 0 =? ac_timeout (r_ac r) then check_restrict_limit clk r else (r, false) in
    if stop then r
    else
      let now := clk 2%nat in
      if 0 <? ac_start_count (r_ac r) then
        let '(r, over) := check_restrict_limit (clk_skip 3 clk) r in
        let ac := r_ac r in
        if over then
          set_ac (set_restrict ac (ac_restricted ac) (ac_timeout ac) (clk 5%nat) (ac_info ac)) r
        else if nonzero (ac_timeout ac) && (s64 (ac_start_count ac + ac_timeout ac) <=? now) then
          unrestrict (set_ac (set_restrict ac 0 0 0 no_info) r)
        else r
      else r
  else r.

Definition account_analyze (clk : clock Z) (r : rstate) : rstate :=
  let sl := config_get_account_limit cfg (ac_id (r_ac r)) in
  if nonzero (all_lve cfg) || negb (nonzero (use_lve cfg)) then r
  else if bool_decide (mode sl <> IGNORE_MODE) then
    let '(r, stop) := if 0 =? ac_timeout (r_ac r) then check_restrict clk r else (r, false) in
    if stop then r
    else
      let now := clk 2%nat in
      let ac := r_ac r in
      if 0 <? ac_start_count ac then
        if nonzero (ac_timeout ac) && (s64 (ac_start_count ac + ac_timeout ac) <=? now) then
          let r := set_ac (set_restrict ac (ac_restricted ac) 0 (clk 3%nat)
                             (mkInfo NO_PERIOD NORESTRICT_PARAM)) r in
          let '(r, over) := check_restrict (clk_skip 4 clk) r in
          if over then r else unrestrict r
        else if (s64 (ac_start_count ac + c_timeout cfg) <=? now) && negb (nonzero (ac_timeout ac))
        then set_ac (set_restrict ac 0 0 0 no_info) r
        else r
      else r
  else r.

(** * Commands of the administrator *)

Definition clear_stats (ac : Account) : Account :=
  mkAccount (ac_id ac) (ac_users ac) zero_stats zero_stats zero_stats zero_stats
    0 0 0 no_info (ac_need_dbg ac).

(** [dbctl unrestrict <account>]; [resetting_user_stats] returns at once. *)
Definition dbctl_unrestrict_set (username : string) (clk : clock Z) (r : rstate) : rstate :=
  if strcmp_eq (ac_id (r_ac r)) username then
    let r := set_ac (clear_stats (r_ac r)) r in
    let '(r, over) := check_restrict clk r in
    if over then r else unrestrict r
  else r.

Definition dbctl_unrestrict_all_set (r : rstate) : rstate :=
  let r := if nonzero (ac_timeout (r_ac r)) then unrestrict r else r in
  set_ac (clear_stats (r_ac r)) r.

(** The part of [dbctl_restrict_set] that acts on the account: [level] is
    the option of the command. *)
Definition restrict_by_hand (level : Z) (now start : Z) (r : rstate) : rstate :=
  let ac := r_ac r in
  let sl := config_get_account_limit cfg (ac_id ac) in
  let _cur := is_stat_overlimit_current (ac_current ac) sl in
  let '(level, timeout_coeff) :=
    if level =? -1 then (ac_restricted ac, -1)
    else let l := s32 (level - 1) in ((if l <? 0 then 0 else l), 0) in
  let '(level, timeout, restricted) :=
    if nonzero (restrict_mode cfg) then (level, s32 (l_unlimit cfg), 1000)
    else let '(l, t) := get_timeout cfg level timeout_coeff in (l, t, l) in
  let c := if nonzero (statistic_mode cfg) && (0 <=? level) then
             IncNumberOfRestricts (ac_id ac)
               (Z.lor (Z.lor RESTRICT_BY_CPU RESTRICT_BY_READ) RESTRICT_BY_WRITE) (r_counts r)
           else r_counts r in
  let ac := set_restrict ac restricted timeout start (mkInfo CURRENT_PERIOD _cur) in
  let q := account_restrict cfg sys ac sl (r_q r) in
  mkR ac c (log_restrict (if nonzero (restrict_mode cfg)
                          then prepareRestrictDescriptionLimit cfg sys ac sl
                          else prepareRestrictDescription cfg sys ac sl) q).
End handlers.

(** * Lemmas *)

(** The four periods with the field of each that is over its limit. *)
Definition over_fields (ac : Account) (sl : Stats_cfg)
    : list (GOVERNORS_PERIOD_NAME * GOVERNORS_FIELD_NAME) :=
  [(CURRENT_PERIOD, is_stat_overlimit_current (ac_current ac) sl);
   (SHORT_PERIOD, is_stat_overlimit_short (ac_short_average ac) sl);
   (MID_PERIOD, is_stat_overlimit_mid (ac_mid_average ac) sl);
   (LONG_PERIOD, is_stat_overlimit_long (ac_long_average ac) sl)].

Definition first_over (ac : Account) (sl : Stats_cfg)
    : option (GOVERNORS_PERIOD_NAME * GOVERNORS_FIELD_NAME) :=
  List.find (fun pf => is_over (snd pf)) (over_fields ac sl).

Definition limits_of (cfg : governor_config) (r : rstate) : Stats_cfg :=
  config_get_account_limit cfg (ac_id (r_ac r)).

Definition over_any (cfg : governor_config) (r : rstate) : bool :=
  match first_over (r_ac r) (limits_of cfg r) with Some _ => true | None => false end.

Definition cause_now (cfg : governor_config) (r : rstate) : Z :=
  get_cause_of_restrict (is_stat_overlimit_current (ac_current (r_ac r)) (limits_of cfg r)).

Lemma check_restrict_eq cfg sys clk r :
  check_restrict cfg sys clk r
  = match first_over (r_ac r) (limits_of cfg r) with
    | Some (p, f) =>
        (restrict_account cfg sys (clk 0%nat) (clk 1%nat) (limits_of cfg r) p f (cause_now cfg r) r,
         true)
    | None => (r, false)
    end.
Proof.
  unfold check_restrict, first_over, over_fields, limits_of, cause_now. cbn [List.find snd].
  repeat (match goal with |- context [is_over ?f] => destruct (is_over f) eqn:? end; [done|]).
  done.
Qed.

Lemma check_restrict_limit_eq cfg sys clk r :
  check_restrict_limit cfg sys clk r
  = match first_over (r_ac r) (limits_of cfg r) with
    | Some (p, f) =>
        (restrict_account_limit cfg sys (clk 1%nat) (limits_of cfg r) p f (cause_now cfg r) r, true)
    | None => (r, false)
    end.
Proof.
  unfold check_restrict_limit, first_over, over_fields, limits_of, cause_now. cbn [List.find snd].
  repeat (match goal with |- context [is_over ?f] => destruct (is_over f) eqn:? end; [done|]).
  done.
Qed.

(** The time-outs of the levels, as positive [int]s. *)
Definition level_timeout (cfg : governor_config) (l : Z) : Z :=
  if l =? 0 then level1 cfg else if l =? 1 then level2 cfg
  else if l =? 2 then level3 cfg else level4 cfg.
Definition pos_int (z : Z) : Prop := 0 < z < 2 ^ 31.
Record cfg_ok (cfg : governor_config) : Prop := {
  ok_level1 : pos_int (level1 cfg); ok_level2 : pos_int (level2 cfg);
  ok_level3 : pos_int (level3 cfg); ok_level4 : pos_int (level4 cfg);
  ok_timeout : pos_int (c_timeout cfg); ok_unlimit : pos_int (l_unlimit cfg)
}.

Lemma level_timeout_pos cfg l : cfg_ok cfg -> pos_int (level_timeout cfg l).
Proof. intros []. unfold level_timeout. by split_ifs. Qed.

Lemma get_timeout_eq cfg l p : cfg_ok cfg -> 0 <= l <= 3 -> 0 <= p <= 1 ->
  get_timeout cfg l p = (Z.min 3 (l + p), level_timeout cfg (Z.min 3 (l + p))).
Proof.
  intros Hok Hl Hp. unfold get_timeout. rewrite s32_id by (unfold in_s32; lia).
  assert ((if (if 3 <? l + p then 3 else l + p) <? 0 then 0
           else if 3 <? l + p then 3 else l + p) = Z.min 3 (l + p)) as ->.
  { destruct (Z.ltb_spec 3 (l + p)); split_ifs; bools; lia. }
  f_equal. fold (level_timeout cfg (Z.min 3 (l + p))). apply s32_id.
  destruct (level_timeout_pos cfg (Z.min 3 (l + p)) Hok). unfold in_s32. lia.
Qed.

(** Levels are confined whatever the arguments. *)
Lemma get_timeout_level cfg l p : 0 <= fst (get_timeout cfg l p) <= 3.
Proof.
  unfold get_timeout. cbn [fst]. destruct (Z.ltb_spec 3 (s32 (l + p))); split_ifs; bools; lia.
Qed.

(** ** The queue *)

Definition freezes (c : command_t) (l : list string) : list Command := (fun u => mkCommand u c) <$> l.

Definition lve_on (cfg : governor_config) : Prop :=
  is_gpl cfg = 0 /\ all_lve cfg = 0 /\ use_lve cfg <> 0.

Definition names_ok (ac : Account) : Prop := Forall (fun u => strlen u < USERNAMEMAXLEN) (ac_users ac).

Lemma emit_list e q : command_list (emit e q) = command_list q.
Proof. done. Qed.

Lemma log_restrict_list cfg line q : command_list (log_restrict cfg line q) = command_list q.
Proof. unfold log_restrict. by destruct (restrict_log cfg). Qed.

Lemma lve_tests cfg : lve_on cfg ->
  nonzero (is_gpl cfg) = false /\ nonzero (all_lve cfg) = false /\ nonzero (use_lve cfg) = true.
Proof.
  intros (-> & -> & Hu). split; [done|]. split; [done|]. unfold nonzero.
  by destruct (Z.eqb_spec (use_lve cfg) 0).
Qed.

Lemma account_restrict_list cfg sys ac sl q p : lve_on cfg -> names_ok ac ->
  command_list q = node_list p ->
  command_list (account_restrict cfg sys ac sl q) = node_list (p ++ freezes FREEZE (ac_users ac)).
Proof.
  intros Hl Hn Hq. destruct (lve_tests cfg Hl) as (H1 & H2 & H3). unfold account_restrict.
  rewrite H1, H2, H3. cbn [orb negb].
  assert (forall l q p, Forall (fun u => strlen u < USERNAMEMAXLEN) l -> command_list q = node_list p ->
    command_list (fold_left (restrict_user cfg) l q) = node_list (p ++ freezes FREEZE l)) as G.
  { clear. induction l as [|u l IH]; intros q p Hl Hq; [by rewrite app_nil_r|].
    apply list.Forall_cons in Hl as [Hu Hl]. cbn [fold_left].
    rewrite (IH _ (p ++ [mkCommand u FREEZE])%list Hl).
    - by rewrite <- app_assoc.
    - unfold restrict_user. rewrite Hq. unfold node_list at 1.
      destruct (queue_nodes FREEZE u q p Hq Hu) as [E _].
      by destruct (logqueries_use cfg =? 2). }
  destruct (exec_script cfg); [rewrite emit_list|]; by apply G.
Qed.

Lemma account_unrestrict_list cfg ac q p : lve_on cfg -> names_ok ac ->
  command_list q = node_list p ->
  command_list (account_unrestrict cfg ac q) = node_list (p ++ freezes UNFREEZE (ac_users ac)).
Proof.
  intros Hl Hn Hq. destruct (lve_tests cfg Hl) as (H1 & H2 & H3). unfold account_unrestrict.
  rewrite H1, H2, H3. cbn [negb andb]. unfold names_ok in Hn. revert q p Hq.
  induction (ac_users ac) as [|u l IH]; intros q p Hq; [by rewrite app_nil_r|].
  apply list.Forall_cons in Hn as [Hu Hn]. cbn [fold_left].
  destruct (queue_nodes UNFREEZE u q p Hq Hu) as [E _].
  rewrite (IH Hn _ (p ++ [mkCommand u UNFREEZE])%list E). by rewrite <- app_assoc.
Qed.

Lemma frozen_freezes c l u b : u ∈ l -> frozen b u (freezes c l) = bool_decide (c = FREEZE).
Proof.
  revert b. induction l as [|v l IH]; intros b Hu; [by apply elem_of_nil in Hu|].
  cbn [freezes fmap list_fmap]. unfold frozen. cbn [fold_left c_username c_command].
  destruct (decide (u ∈ l)) as [Hin|Hnin]; [by apply IH|].
  apply elem_of_cons in Hu as [->|Hu]; [|done]. rewrite String.eqb_refl.
  clear IH. induction l as [|w l IH]; [done|]. cbn [fmap list_fmap fold_left c_username].
  destruct (String.eqb_spec w v) as [->|Hne]; [set_solver|]. apply IH. set_solver.
Qed.

(** * Specification: the life of an account in the "period" mode *)

Inductive phase :=
  | Free
  | Restricted (level until : Z)
  | Penalty (level since : Z).

Definition phase_of (ac : Account) : phase :=
  if ac_timeout ac =? 0 then
    if ac_start_count ac =? 0 then Free else Penalty (ac_restricted ac) (ac_start_count ac)
  else Restricted (ac_restricted ac) (ac_start_count ac + ac_timeout ac).

(** One analysis: [over] tells whether a limit is exceeded.  A restriction
    lasts for the time-out of its level; then the account is released into a
    penalty period of [timeout] seconds, during which a new excess raises
    the level; an excess at the end of a restriction raises it at once. *)
Definition phase_next (cfg : governor_config) (over : bool) (clk : clock Z) (p : phase) : phase :=
  match p with
  | Free => if over then Restricted 0 (clk 1%nat + level_timeout cfg 0) else Free
  | Restricted l until =>
      if clk 2%nat <? until then p
      else if over then
        let l := Z.min 3 (l + 1) in Restricted l (clk 5%nat + level_timeout cfg l)
      else Penalty l (clk 3%nat)
  | Penalty l since =>
      if over then
        let l := if clk 0%nat <? since + c_timeout cfg then Z.min 3 (l + 1) else l in
        Restricted l (clk 1%nat + level_timeout cfg l)
      else if since + c_timeout cfg <=? clk 2%nat then Free else p
  end.

Record ac_inv (ac : Account) : Prop := {
  inv_level : 0 <= ac_restricted ac <= 3;
  inv_timeout : 0 <= ac_timeout ac < 2 ^ 31;
  inv_start : 0 <= ac_start_count ac < 2 ^ 40;
  inv_running : ac_timeout ac <> 0 -> 0 < ac_start_count ac;
  inv_free : ac_start_count ac = 0 -> ac_restricted ac = 0
}.

(** The time of day is later than one penalty period after the epoch, and a
    handler takes less than a penalty period. *)
Record clk_ok (cfg : governor_config) (clk : clock Z) : Prop := {
  clk_range : forall n, c_timeout cfg < clk n < 2 ^ 40;
  clk_short : clk 4%nat < clk 3%nat + c_timeout cfg
}.

Definition analysed (cfg : governor_config) (r : rstate) : Prop :=
  all_lve cfg = 0 /\ use_lve cfg <> 0 /\ mode (limits_of cfg r) <> IGNORE_MODE.

Lemma analysed_tests cfg r : analysed cfg r ->
  nonzero (all_lve cfg) || negb (nonzero (use_lve cfg)) = false
  /\ bool_decide (mode (config_get_account_limit cfg (ac_id (r_ac r))) <> IGNORE_MODE) = true.
Proof.
  intros (H1 & H2 & H3). rewrite H1. unfold nonzero. destruct (Z.eqb_spec (use_lve cfg) 0); [done|].
  split; [done|]. by apply bool_decide_eq_true_2.
Qed.

(** The account after [restrict_account]. *)
Lemma restrict_account_ac cfg sys now start sl p f cause r :
  cfg_ok cfg -> ac_inv (r_ac r) -> 0 < start < 2 ^ 40 ->
  let ac := r_ac r in
  let l := if now <? ac_start_count ac + c_timeout cfg then Z.min 3 (ac_restricted ac + 1)
           else ac_restricted ac in
  let ac' := r_ac (restrict_account cfg sys now start sl p f cause r) in
  ac' = set_restrict ac l (level_timeout cfg l) start (mkInfo p f)
  /\ ac_inv ac' /\ phase_of ac' = Restricted l (start + level_timeout cfg l).
Proof.
  intros Hok Hi Hst ac l. destruct Hi as [Hl Ht Hs Hr Hf]. fold ac in Hl, Ht, Hs.
  assert (s64 (ac_start_count ac + c_timeout cfg) = ac_start_count ac + c_timeout cfg) as E64.
  { apply s64_id. destruct (ok_timeout _ Hok). unfold in_s64. lia. }
  assert (0 <= l <= 3) as Hl' by (subst l; destruct (_ <? _); lia).
  destruct (level_timeout_pos cfg l Hok) as [Hp1 Hp2].
  assert (r_ac (restrict_account cfg sys now start sl p f cause r)
          = set_restrict ac l (level_timeout cfg l) start (mkInfo p f)) as ->.
  { unfold restrict_account. fold ac. rewrite E64.
    rewrite get_timeout_eq by (done || destruct (_ <? _); lia).
    assert (Z.min 3 (ac_restricted ac + (if now <? ac_start_count ac + c_timeout cfg then 1 else 0)) = l) as ->.
    { subst l. destruct (_ <? _); lia. }
    done. }
  split; [done|]. split.
  - split; cbn [set_restrict ac_restricted ac_timeout ac_start_count]; lia.
  - unfold phase_of. cbn [set_restrict ac_restricted ac_timeout ac_start_count].
    by destruct (Z.eqb_spec (level_timeout cfg l) 0); [lia|].
Qed.

Lemma over_any_first cfg r : over_any cfg r = true ->
  exists p f, first_over (r_ac r) (limits_of cfg r) = Some (p, f).
Proof. unfold over_any. destruct (first_over _ _) as [[p f]|]; [eauto|done]. Qed.

Lemma over_none cfg r : over_any cfg r = false -> first_over (r_ac r) (limits_of cfg r) = None.
Proof. unfold over_any. by destruct (first_over _ _). Qed.

Lemma analyze_free cfg sys clk r : cfg_ok cfg -> clk_ok cfg clk -> ac_inv (r_ac r) ->
  analysed cfg r -> ac_timeout (r_ac r) = 0 ->
  let r' := account_analyze cfg sys clk r in
  ac_inv (r_ac r')
  /\ phase_of (r_ac r') = phase_next cfg (over_any cfg r) clk (phase_of (r_ac r)).
Proof.
  intros Hok Hclk Hi Han Ht. destruct (analysed_tests cfg r Han) as [T1 T2].
  unfold account_analyze. rewrite T1, T2, Ht. cbn [Z.eqb].
  rewrite check_restrict_eq.
  pose proof (clk_range _ _ Hclk 0%nat) as C0. pose proof (clk_range _ _ Hclk 1%nat) as C1.
  destruct (ok_timeout _ Hok) as [Ho1 Ho2]. pose proof Hi as [Hl _ Hs _ Hf].
  destruct (over_any cfg r) eqn:Eo.
  - destruct (over_any_first _ _ Eo) as (p & f & ->).
    destruct (restrict_account_ac cfg sys (clk 0%nat) (clk 1%nat) (limits_of cfg r) p f
                (cause_now cfg r) r Hok Hi ltac:(lia)) as (_ & Hi' & Hp).
    split; [done|]. rewrite Hp. unfold phase_of at 1. rewrite Ht. cbn [Z.eqb].
    destruct (Z.eqb_spec (ac_start_count (r_ac r)) 0) as [E0|E0].
    + unfold phase_next. rewrite (Hf E0), E0.
      by destruct (Z.ltb_spec (clk 0%nat) (0 + c_timeout cfg)); [lia|].
    + done.
  - rewrite (over_none _ _ Eo), Ht. cbn [nonzero Z.eqb negb andb].
    unfold phase_of at 2. rewrite Ht. cbn [Z.eqb].
    destruct (Z.eqb_spec (ac_start_count (r_ac r)) 0) as [E0|E0].
    + rewrite E0. cbn [Z.ltb Z.compare]. split; [done|]. unfold phase_of. by rewrite Ht, E0.
    + destruct (Z.ltb_spec 0 (ac_start_count (r_ac r))); [|lia].
      rewrite s64_id by (unfold in_s64; lia). unfold phase_next. rewrite andb_true_r.
      destruct (Z.leb_spec (ac_start_count (r_ac r) + c_timeout cfg) (clk 2%nat)).
      * split; [|done]. split; cbn; lia.
      * split; [done|]. unfold phase_of. rewrite Ht. cbn [Z.eqb].
        by destruct (Z.eqb_spec (ac_start_count (r_ac r)) 0).
Qed.

Lemma analyze_restricted cfg sys clk r : cfg_ok cfg -> clk_ok cfg clk -> ac_inv (r_ac r) ->
  analysed cfg r -> ac_timeout (r_ac r) <> 0 ->
  let r' := account_analyze cfg sys clk r in
  ac_inv (r_ac r')
  /\ phase_of (r_ac r') = phase_next cfg (over_any cfg r) clk (phase_of (r_ac r)).
Proof.
  intros Hok Hclk Hi Han Ht. destruct (analysed_tests cfg r Han) as [T1 T2].
  unfold account_analyze. rewrite T1, T2.
  destruct (Z.eqb_spec 0 (ac_timeout (r_ac r))); [congruence|]. cbv beta iota zeta.
  pose proof Hi as [Hl Htm Hs Hr _]. specialize (Hr Ht).
  destruct (Z.ltb_spec 0 (ac_start_count (r_ac r))); [|lia].
  assert (nonzero (ac_timeout (r_ac r)) = true) as ->.
  { unfold nonzero. by destruct (Z.eqb_spec (ac_timeout (r_ac r)) 0). }
  cbn [negb andb]. rewrite (s64_id (_ + ac_timeout _)) by (unfold in_s64; lia).
  assert (phase_of (r_ac r) = Restricted (ac_restricted (r_ac r))
            (ac_start_count (r_ac r) + ac_timeout (r_ac r))) as Ep.
  { unfold phase_of. by destruct (Z.eqb_spec (ac_timeout (r_ac r)) 0). }
  rewrite Ep. unfold phase_next.
  destruct (Z.leb_spec (ac_start_count (r_ac r) + ac_timeout (r_ac r)) (clk 2%nat)) as [Hle|Hgt];
    destruct (Z.ltb_spec (clk 2%nat) (ac_start_count (r_ac r) + ac_timeout (r_ac r))); try lia.
  - set (r1 := set_ac _ r). rewrite check_restrict_eq.
    pose proof (clk_range _ _ Hclk 3%nat) as C3. pose proof (clk_range _ _ Hclk 5%nat) as C5.
    destruct (ok_timeout _ Hok) as [Ho1 Ho2].
    assert (first_over (r_ac r1) (limits_of cfg r1) = first_over (r_ac r) (limits_of cfg r)) as Ef by done.
    assert (ac_inv (r_ac r1)) as Hi1 by (split; cbn; lia).
    rewrite Ef. destruct (over_any cfg r) eqn:Eo.
    + destruct (over_any_first _ _ Eo) as (p & f & ->).
      destruct (restrict_account_ac cfg sys (clk_skip 4 clk 0%nat) (clk_skip 4 clk 1%nat)
                  (limits_of cfg r1) p f (cause_now cfg r1) r1 Hok Hi1 ltac:(unfold clk_skip; simpl; lia))
        as (_ & Hi' & Hp).
      split; [done|]. rewrite Hp. unfold clk_skip. cbn [r1 set_ac r_ac set_restrict ac_start_count ac_restricted Nat.add].
      pose proof (clk_short _ _ Hclk).
      by destruct (Z.ltb_spec (clk 4%nat) (clk 3%nat + c_timeout cfg)); [|lia].
    + rewrite (over_none _ _ Eo). split; [done|]. unfold phase_of. cbn.
      by destruct (Z.eqb_spec (clk 3%nat) 0); [lia|].
  - rewrite andb_false_r. split; done.
Qed.

(** ** Which limit is exceeded *)

Lemma overlimit_spec x st sl :
  match is_stat_overlimit x st sl with
  | CPU_PARAM => dltb (ddiv (dof_Z (x (l_cpu sl))) d100) (st_cpu st) = true /\ 0 <= x (l_cpu sl)
  | READ_PARAM => 0 <= x (l_read sl) < st_read st
  | WRITE_PARAM => 0 <= x (l_write sl) < st_write st
  | NORESTRICT_PARAM2 => True
  | NORESTRICT_PARAM => False
  end.
Proof.
  unfold is_stat_overlimit.
  destruct (_ && _) eqn:E; [apply andb_prop in E as [E1 E2]; bools; done|].
  clear E. destruct (_ && _) eqn:E; [bools; lia|].
  clear E. destruct (_ && _) eqn:E; [bools; lia|done].
Qed.

(** What is reported of a restriction: the period's averages and the limit. *)
Lemma reported ac sl p f :
  field_restrict (ac_info ac) = p -> field_level_restrict (ac_info ac) = f ->
  (p, f) ∈ over_fields ac sl -> is_over f = true ->
  exists st, getRestrictDump ac = Some st /\ 0 <= getLimitValue ac sl
    /\ match f with
       | CPU_PARAM => dltb (ddiv (dof_Z (getLimitValue ac sl)) d100) (st_cpu st) = true
       | _ => getLimitValue ac sl < getRestrictValue ac
       end.
Proof.
  intros Ep Ef Hin Ho.
  assert (forall x st, getRestrictDump ac = Some st -> f = is_stat_overlimit x st sl ->
    (forall l, getLimitValuePeriod ac l = x l) -> getRestrictValue ac = restrict_value_of ac st ->
    exists st, getRestrictDump ac = Some st /\ 0 <= getLimitValue ac sl
    /\ match f with
       | CPU_PARAM => dltb (ddiv (dof_Z (getLimitValue ac sl)) d100) (st_cpu st) = true
       | _ => getLimitValue ac sl < getRestrictValue ac
       end) as G.
  { intros x st Hd Hf Hx Hv. exists st. split; [done|]. pose proof (overlimit_spec x st sl) as H.
    rewrite <- Hf in H. rewrite Hv. unfold getLimitValue, restrict_value_of. rewrite Ef, !Hx.
    destruct f; [done|by destruct H|lia|lia|done]. }
  unfold over_fields in Hin. rewrite !elem_of_cons, elem_of_nil in Hin.
  destruct Hin as [H|[H|[H|[H|[]]]]]; injection H as -> ->.
  - eapply (G t_current (ac_current ac)); try done;
      unfold getRestrictDump, getLimitValuePeriod, getRestrictValue; by rewrite Ep.
  - eapply (G t_short (ac_short_average ac)); try done;
      unfold getRestrictDump, getLimitValuePeriod, getRestrictValue; by rewrite Ep.
  - eapply (G t_mid (ac_mid_average ac)); try done;
      unfold getRestrictDump, getLimitValuePeriod, getRestrictValue; by rewrite Ep.
  - eapply (G t_long (ac_long_average ac)); try done;
      unfold getRestrictDump, getLimitValuePeriod, getRestrictValue; by rewrite Ep.
Qed.

(** No limit is exceeded by an account without load. *)
Lemma zero_not_over x sl : is_stat_overlimit x zero_stats sl = NORESTRICT_PARAM2.
Proof.
  unfold is_stat_overlimit. cbn [st_cpu st_read st_write zero_stats].
  destruct (Z.leb_spec 0 (x (l_cpu sl))).
  - assert (dltb (ddiv (dof_Z (x (l_cpu sl))) d100) d0 = false) as ->.
    { apply sign_not_lt_zero, ddiv_sign; [by apply dof_Z_sign|done]. }
    cbn [andb]. destruct (Z.ltb_spec (x (l_read sl)) 0), (Z.leb_spec 0 (x (l_read sl))); try lia;
      destruct (Z.ltb_spec (x (l_write sl)) 0), (Z.leb_spec 0 (x (l_write sl))); try lia; done.
  - rewrite andb_false_r.
    destruct (Z.ltb_spec (x (l_read sl)) 0), (Z.leb_spec 0 (x (l_read sl))); try lia;
      destruct (Z.ltb_spec (x (l_write sl)) 0), (Z.leb_spec 0 (x (l_write sl))); try lia; done.
Qed.

(** ** Restrictions and the queue *)

(** The commands queued so far freeze exactly the users of a restricted
    account; [fr u] tells whether [u] was frozen before. *)
Definition tracks (fr : string -> bool) (r : rstate) : Prop :=
  exists p, command_list (r_q r) = node_list p
    /\ forall u, u ∈ ac_users (r_ac r) ->
         frozen (fr u) u p = nonzero (ac_restricted (r_ac r)).

(** The account in the "limit" mode: restricted with a time-out, or idle. *)
Record limit_inv (cfg : governor_config) (ac : Account) : Prop := {
  li_users : names_ok ac;
  li_start : 0 <= ac_start_count ac < 2 ^ 40;
  li_state : (ac_restricted ac = 0 /\ ac_timeout ac = 0 /\ ac_start_count ac = 0)
             \/ (ac_restricted ac = 1000 /\ 0 < ac_timeout ac < 2 ^ 31 /\ 0 < ac_start_count ac)
}.

Lemma s32_unlimit cfg : cfg_ok cfg -> s32 (l_unlimit cfg) = l_unlimit cfg.
Proof. intros []. apply s32_id. unfold in_s32, pos_int in *. lia. Qed.

Lemma limit_restrict_step cfg sys start sl p f cause r fr :
  cfg_ok cfg -> lve_on cfg -> limit_inv cfg (r_ac r) -> tracks fr r -> 0 < start < 2 ^ 40 ->
  let r' := restrict_account_limit cfg sys start sl p f cause r in
  limit_inv cfg (r_ac r') /\ tracks fr r' /\ ac_restricted (r_ac r') = 1000
  /\ ac_timeout (r_ac r') = l_unlimit cfg /\ ac_start_count (r_ac r') = start
  /\ ac_id (r_ac r') = ac_id (r_ac r) /\ ac_users (r_ac r') = ac_users (r_ac r)
  /\ forall sl, over_fields (r_ac r') sl = over_fields (r_ac r) sl.
Proof.
  intros Hok Hl [Hu Hs Hst] (q & Hq & Hf) Hstart r'. subst r'. unfold restrict_account_limit.
  rewrite s32_unlimit by done. destruct (ok_unlimit _ Hok) as [Hp1 Hp2].
  split; [|split].
  - split; [done|cbn; lia|]. right. cbn. lia.
  - destruct (Z.eqb_spec (ac_restricted (r_ac r)) 0) as [E0|E0].
    + eexists. split; [cbn [r_q]; rewrite log_restrict_list; by apply account_restrict_list|].
      cbn [r_ac set_restrict ac_users ac_restricted]. intros u Hin.
      by rewrite frozen_app, frozen_freezes.
    + exists q. cbn [r_q]. rewrite log_restrict_list. split; [done|].
      cbn [r_ac set_restrict ac_users ac_restricted]. intros u Hin. rewrite Hf by done.
      destruct Hst as [?|[-> _]]; [lia|done].
  - done.
Qed.

Lemma check_limit_step cfg sys clk r fr :
  cfg_ok cfg -> lve_on cfg -> (forall n, 0 < clk n < 2 ^ 40) ->
  limit_inv cfg (r_ac r) -> tracks fr r ->
  let '(r', over) := check_restrict_limit cfg sys clk r in
  limit_inv cfg (r_ac r') /\ tracks fr r' /\ over = over_any cfg r
  /\ over_any cfg r' = over_any cfg r /\ ac_id (r_ac r') = ac_id (r_ac r)
  /\ ac_users (r_ac r') = ac_users (r_ac r)
  /\ (over = true -> ac_restricted (r_ac r') = 1000 /\ ac_start_count (r_ac r') = clk 1%nat)
  /\ (over = false -> r' = r).
Proof.
  intros Hok Hl Hclk Hi Ht. rewrite check_restrict_limit_eq.
  destruct (over_any cfg r) eqn:Eo.
  - destruct (over_any_first _ _ Eo) as (p & f & Ef). rewrite Ef.
    destruct (limit_restrict_step cfg sys (clk 1%nat) (limits_of cfg r) p f (cause_now cfg r) r fr
                Hok Hl Hi Ht (Hclk 1%nat)) as (Hi' & Ht' & Hr & Htm & Hs & Hid & Hus & Hov).
    split_and!; try done; unfold over_any, first_over, limits_of in *; by rewrite Hid, Hov, Ef.
  - rewrite (over_none _ _ Eo). split_and!; done.
Qed.

(** ** Values for the witnesses *)

Definition example_account (cur short : Z) (restricted timeout start : Z) : Account :=
  mkAccount "bob" ["bob_wp"] (mkStats d0 0 cur) zero_stats zero_stats (mkStats d0 0 short)
    restricted timeout start no_info 0.
Definition example_r (ac : Account) (p : list Command) : rstate :=
  mkR ac ∅ (mkCmd (node_list p) None 0 0 []).
Definition example_sys : sysinfo := mkSysinfo "0.1" "r b".
Definition example_now : Z := 1700000000.

Lemma example_cfg_ok : cfg_ok example_config.
Proof. split; unfold pos_int; simpl; lia. Qed.
Lemma example_lve : lve_on example_config.
Proof. by split_and!. Qed.
Lemma example_names a b c d e : names_ok (example_account a b c d e).
Proof. by repeat constructor. Qed.

(** * Properties *)

(** C10: check_restrict restricts an account exactly when the first period over a limit
    exists, in the order current, short, mid, long, and otherwise changes nothing; it records
    that period and that parameter, sets the level between 0 and 3 and the timeout of that
    level, and takes the start from the clock. For read and write the value reported for the
    restriction is above the configured limit. For cpu the average itself is above a hundredth
    of the limit; the value reported is rounded and may equal the limit. *)
Theorem check_restrict_outcome (cfg : governor_config) (sys : sysinfo) (clk : clock Z)
    (r : rstate) :
  let sl := limits_of cfg r in
  let '(r', restricted) := check_restrict cfg sys clk r in
  match first_over (r_ac r) sl with
  | None => restricted = false /\ r' = r
  | Some (p, f) =>
      let ac := r_ac r' in
      restricted = true /\ ac_info ac = mkInfo p f
      /\ 0 <= ac_restricted ac <= 3
      /\ ac_timeout ac = s32 (level_timeout cfg (ac_restricted ac))
      /\ ac_start_count ac = clk 1%nat
      /\ exists st, getRestrictDump ac = Some st /\ 0 <= getLimitValue ac sl
         /\ match f with
            | CPU_PARAM => dltb (ddiv (dof_Z (getLimitValue ac sl)) d100) (st_cpu st) = true
            | _ => getLimitValue ac sl < getRestrictValue ac
            end
  end.
Proof.
  cbv zeta. rewrite check_restrict_eq.
  destruct (first_over (r_ac r) (limits_of cfg r)) as [[p f]|] eqn:Ef; [|done].
  unfold first_over in Ef. apply List.find_some in Ef as [Hin Ho].
  set (pen := if clk 0%nat <? s64 (ac_start_count (r_ac r) + c_timeout cfg) then 1 else 0).
  pose proof (get_timeout_level cfg (ac_restricted (r_ac r)) pen) as Hlev.
  assert (snd (get_timeout cfg (ac_restricted (r_ac r)) pen)
          = s32 (level_timeout cfg (fst (get_timeout cfg (ac_restricted (r_ac r)) pen)))) as Htm by done.
  unfold restrict_account. fold pen.
  destruct (get_timeout cfg (ac_restricted (r_ac r)) pen) as [l t]. cbn [fst snd] in *.
  cbn [r_ac set_restrict ac_info ac_restricted ac_timeout ac_start_count].
  split_and!; try done; try lia. apply (reported _ _ p f); try done.
  by apply list_elem_of_In.
Qed.

Lemma check_restrict_outcome_witness :
  let r := example_r (example_account 20 0 0 0 0) [] in
  let '(r', restricted) := check_restrict example_config example_sys (clk_const example_now) r in
  restricted = true /\ ac_info (r_ac r') = mkInfo CURRENT_PERIOD READ_PARAM
  /\ getLimitValue (r_ac r') (limits_of example_config r) < getRestrictValue (r_ac r').
Proof.
  pose proof (check_restrict_outcome example_config example_sys (clk_const example_now)
                (example_r (example_account 20 0 0 0 0) [])) as H.
  vm_compute in H. destruct H as (_ & Hi & _). vm_compute. split; [reflexivity|]. split; [exact Hi|reflexivity].
Defined.

(** C9: The analysis of an account in the period mode refines an abstract machine with three
    phases: free, restricted since a moment for a time at a level, and penalised after a
    restriction. The next phase depends only on the previous one, on whether some average is
    over a limit, and on the clock; the invariant of the account is preserved. *)
Theorem account_analyze_refines (cfg : governor_config) (sys : sysinfo) (clk : clock Z)
    (r : rstate) :
  cfg_ok cfg -> clk_ok cfg clk -> analysed cfg r -> ac_inv (r_ac r) ->
  let r' := account_analyze cfg sys clk r in
  ac_inv (r_ac r')
  /\ phase_of (r_ac r') = phase_next cfg (over_any cfg r) clk (phase_of (r_ac r)).
Proof.
  intros Hok Hclk Han Hi. destruct (decide (ac_timeout (r_ac r) = 0)).
  - by apply analyze_free.
  - by apply analyze_restricted.
Qed.

(** A first excess restricts for [level1] seconds. *)
Lemma account_analyze_refines_witness :
  let r := example_r (example_account 20 0 0 0 0) [] in
  let r' := account_analyze example_config example_sys (clk_const example_now) r in
  ac_inv (r_ac r') /\ phase_of (r_ac r') = Restricted 0 (example_now + 60).
Proof.
  apply (account_analyze_refines example_config example_sys (clk_const example_now)
           (example_r (example_account 20 0 0 0 0) [])).
  - exact example_cfg_ok.
  - split; [intros n|]; unfold clk_const, example_now; simpl; lia.
  - by split_and!.
  - split; simpl; lia.
Defined.

(** In the limit mode the commands queued agree with the account: after an analysis a
    user of the account is frozen by the queue exactly when the account is restricted, an
    overlimit leads to the level 1000, and without one the account is released exactly when its
    timeout has passed. *)
Lemma limit_mode_queue_tracks (cfg : governor_config) (sys : sysinfo) (clk : clock Z)
    (r : rstate) (fr : string -> bool) :
  cfg_ok cfg -> lve_on cfg -> mode (limits_of cfg r) <> IGNORE_MODE ->
  (forall n, 0 < clk n < 2 ^ 40) ->
  limit_inv cfg (r_ac r) -> tracks fr r ->
  let r' := account_analyze_limit cfg sys clk r in
  limit_inv cfg (r_ac r') /\ tracks fr r'
  /\ (over_any cfg r = true -> ac_restricted (r_ac r') = 1000)
  /\ (over_any cfg r = false ->
      ac_restricted (r_ac r') =
      (if nonzero (ac_timeout (r_ac r))
          && (ac_start_count (r_ac r) + ac_timeout (r_ac r) <=? clk 2%nat)
       then 0 else ac_restricted (r_ac r))).
Proof.
  intros Hok Hl Hm Hclk Hi Ht. cbv zeta.
  destruct (lve_tests cfg Hl) as (T1 & T2 & T3). unfold account_analyze_limit.
  rewrite T2, T3. cbn [orb negb]. fold (limits_of cfg r).
  rewrite bool_decide_eq_true_2 by done.
  pose proof (check_limit_step cfg sys clk r fr Hok Hl Hclk Hi Ht) as S1.
  pose proof (check_limit_step cfg sys (clk_skip 3 clk) r fr Hok Hl (fun n => Hclk (3 + n)%nat) Hi Ht) as S2.
  pose proof Hi as [Hu Hs Hst].
  destruct (Z.eqb_spec 0 (ac_timeout (r_ac r))) as [E0|E0].
  - destruct (check_restrict_limit cfg sys clk r) as [r1 b1].
    destruct S1 as (Hi1 & Ht1 & -> & _ & _ & _ & Hy & Hn).
    destruct (over_any cfg r); [split_and!; try done; by apply Hy|].
    rewrite (Hn eq_refl). rewrite <- E0 in *. destruct Hst as [(? & _ & ->)|(_ & ? & _)]; [|lia].
    split_and!; done.
  - destruct Hst as [(_ & ? & _)|(Hr & Htm & Hst)]; [congruence|].
    destruct (Z.ltb_spec 0 (ac_start_count (r_ac r))); [|lia].
    destruct (check_restrict_limit cfg sys (clk_skip 3 clk) r) as [r1 b1].
    destruct S2 as (Hi1 & Ht1 & -> & _ & _ & _ & Hy & Hn).
    destruct (over_any cfg r).
    + destruct (Hy eq_refl) as [Hr1 Hs1]. destruct Hi1 as [Hu1 _ Hst1]. pose proof (Hclk 5%nat).
      split_and!; try done. split; cbn; [done|lia|]. right.
      destruct Hst1 as [(? & _)|(_ & ? & _)]; [lia|]. cbn. lia.
    + rewrite (Hn eq_refl). rewrite s64_id by (unfold in_s64; lia).
      assert (nonzero (ac_timeout (r_ac r)) = true) as ->.
      { unfold nonzero. by destruct (Z.eqb_spec (ac_timeout (r_ac r)) 0); [lia|]. }
      cbn [andb]. destruct (_ <=? _); [|split_and!; done].
      destruct Ht as (p & Hq & Hf).
      split; [split; cbn; [done|lia|by left]|]. split; [|done].
      eexists. split.
      * cbn [unrestrict r_q]. by apply account_unrestrict_list.
      * cbn [unrestrict set_ac r_ac set_restrict ac_users ac_restricted]. intros u Hin.
        by rewrite frozen_app, frozen_freezes.
Qed.

(** C38: In the period mode an account whose level is above 0, so that it has been
    restricted at least twice, whose restriction is over, and whose penalty has not been taken
    back yet, is restricted again when it is over a limit, but no command is queued: the users
    are not frozen by this restriction. (After a first restriction, at level 0, the repeat does
    freeze.) Conditions: the timeouts of the configuration are positive, LVE is used, not for
    all users, and the account is not ignored. *)
Theorem period_mode_repeat_not_frozen (cfg : governor_config) (sys : sysinfo) (clk : clock Z)
    (r : rstate) :
  cfg_ok cfg -> analysed cfg r -> ac_timeout (r_ac r) = 0 -> 0 < ac_restricted (r_ac r) ->
  over_any cfg r = true ->
  let r' := account_analyze cfg sys clk r in
  0 < ac_timeout (r_ac r') /\ command_list (r_q r') = command_list (r_q r).
Proof.
  intros Hok Han Ht Hr Ho. destruct (analysed_tests cfg r Han) as [T1 T2].
  unfold account_analyze. rewrite T1, T2, Ht. cbn [Z.eqb]. rewrite check_restrict_eq.
  destruct (over_any_first _ _ Ho) as (p & f & ->). unfold restrict_account.
  set (pen := if _ <? _ then 1 else 0).
  assert (0 < snd (get_timeout cfg (ac_restricted (r_ac r)) pen)) as Hpos.
  { unfold get_timeout. cbn [snd]. set (l := if _ <? 0 then _ else _).
    fold (level_timeout cfg l). destruct (level_timeout_pos cfg l Hok).
    rewrite s32_id by (unfold in_s32; lia). done. }
  destruct (get_timeout cfg (ac_restricted (r_ac r)) pen) as [l t]. cbn [snd] in Hpos.
  destruct (Z.eqb_spec (ac_restricted (r_ac r)) 0); [lia|].
  cbn [r_ac r_q set_restrict ac_timeout]. by rewrite log_restrict_list.
Qed.

Lemma period_mode_repeat_not_frozen_witness :
  let r := example_r (example_account 20 0 1 0 (example_now - 5))
             [mkCommand "bob_wp" FREEZE; mkCommand "bob_wp" UNFREEZE] in
  let r' := account_analyze example_config example_sys (clk_const example_now) r in
  0 < ac_timeout (r_ac r') /\ command_list (r_q r') = command_list (r_q r).
Proof.
  apply (period_mode_repeat_not_frozen example_config example_sys (clk_const example_now)
           (example_r (example_account 20 0 1 0 (example_now - 5))
             [mkCommand "bob_wp" FREEZE; mkCommand "bob_wp" UNFREEZE])).
  - exact example_cfg_ok.
  - by split_and!.
  - done.
  - done.
  - by vm_compute.
Defined.

(** The first restriction of an account is counted with its cause only when the current
    average is over the limit; when a short, mid or long average is, the recorded cause is 0. *)
Lemma restrict_cause_lost (cfg : governor_config) (sys : sysinfo) (clk : clock Z) (r : rstate)
    (p : GOVERNORS_PERIOD_NAME) (f : GOVERNORS_FIELD_NAME) :
  statistic_mode cfg <> 0 -> r_counts r !! ac_id (r_ac r) = None ->
  first_over (r_ac r) (limits_of cfg r) = Some (p, f) ->
  r_counts (fst (check_restrict cfg sys clk r)) !! ac_id (r_ac r)
  = Some (mkRestricts 1 (match p with CURRENT_PERIOD => get_cause_of_restrict f | _ => 0 end)).
Proof.
  intros Hs Hc Hf. rewrite check_restrict_eq, Hf. cbn [fst]. unfold restrict_account.
  destruct (get_timeout _ _ _) as [l t]. cbn [r_counts]. unfold count_restrict, nonzero.
  destruct (Z.eqb_spec (statistic_mode cfg) 0); [done|]. cbn [negb].
  unfold IncNumberOfRestricts. rewrite Hc. rewrite lookup_insert_eq. f_equal. f_equal.
  unfold cause_now, first_over, over_fields in *. cbn [List.find snd] in Hf.
  destruct (is_over (is_stat_overlimit_current _ _)) eqn:E; [by injection Hf as <- <-|].
  unfold is_over in E. apply bool_decide_eq_false in E. apply dec_stable in E. rewrite E.
  cbn [get_cause_of_restrict].
  repeat (match type of Hf with context [is_over ?g] => destruct (is_over g) end;
    [by injection Hf as <- <-|]). done.
Qed.

(** An account whose samples are cleared is over no limit. *)
Lemma cleared_not_over cfg (r : rstate) ac : r_ac r = clear_stats ac ->
  first_over (r_ac r) (limits_of cfg r) = None.
Proof.
  intros ->. unfold first_over, over_fields. cbn [List.find snd clear_stats ac_current
    ac_short_average ac_mid_average ac_long_average].
  unfold is_stat_overlimit_current, is_stat_overlimit_short, is_stat_overlimit_mid,
    is_stat_overlimit_long. by rewrite !zero_not_over.
Qed.

(** The command clears the account it names. *)
Lemma unrestrict_set_effect cfg sys u clk r :
  r_ac (dbctl_unrestrict_set cfg sys u clk r)
  = if String.eqb (ac_id (r_ac r)) u then clear_stats (r_ac r) else r_ac r.
Proof.
  unfold dbctl_unrestrict_set, strcmp_eq. destruct (String.eqb _ u); [|done]. rewrite check_restrict_eq.
  by rewrite (cleared_not_over cfg (set_ac (clear_stats (r_ac r)) r) (r_ac r) eq_refl).
Qed.

(** A restriction by the administrator freezes every user of the account in the command
    queue, and dbctl_unrestrict_set undoes it: the account is free again, its users are unfrozen
    by the queue, and the list of its users is unchanged. *)
Lemma restrict_unrestrict_by_hand (cfg : governor_config) (sys : sysinfo) (clk : clock Z)
    (level now start : Z) (r : rstate) (fr : string -> bool) :
  cfg_ok cfg -> lve_on cfg -> names_ok (r_ac r) -> tracks fr r -> 0 < start < 2 ^ 40 ->
  let r1 := restrict_by_hand cfg sys level now start r in
  let r2 := dbctl_unrestrict_set cfg sys (ac_id (r_ac r)) clk r1 in
  (0 < ac_timeout (r_ac r1) /\ exists p1, command_list (r_q r1) = node_list p1
     /\ forall u, u ∈ ac_users (r_ac r) -> frozen (fr u) u p1 = true)
  /\ phase_of (r_ac r2) = Free /\ tracks fr r2
  /\ ac_users (r_ac r2) = ac_users (r_ac r).
Proof.
  intros Hok Hl Hu (q & Hq & Hf) Hstart r1.
  assert (ac_id (r_ac r1) = ac_id (r_ac r) /\ ac_users (r_ac r1) = ac_users (r_ac r)
    /\ 0 < ac_timeout (r_ac r1)
    /\ command_list (r_q r1) = node_list (q ++ freezes FREEZE (ac_users (r_ac r))))
    as (Hid & Hus & Htm & Hq1).
  { subst r1. unfold restrict_by_hand.
    destruct (if level =? -1 then _ else _) as [lv co].
    assert (forall l c, 0 < snd (get_timeout cfg l c)) as Hpos.
    { intros l c. unfold get_timeout. cbn [snd]. set (l' := if _ <? 0 then _ else _).
      fold (level_timeout cfg l'). destruct (level_timeout_pos cfg l' Hok).
      rewrite s32_id by (unfold in_s32; lia). done. }
    destruct (nonzero (restrict_mode cfg)).
    - cbn [r_ac r_q set_restrict ac_id ac_users ac_timeout]. rewrite s32_unlimit by done.
      split_and!; try done; [apply (ok_unlimit _ Hok)|].
      rewrite log_restrict_list. exact (account_restrict_list cfg sys (set_restrict _ _ _ _ _) _ _ q Hl Hu Hq).
    - specialize (Hpos lv co). destruct (get_timeout cfg lv co) as [l t]. cbn [snd] in Hpos.
      cbn [r_ac r_q set_restrict ac_id ac_users ac_timeout]. split_and!; try done.
      rewrite log_restrict_list. exact (account_restrict_list cfg sys (set_restrict _ _ _ _ _) _ _ q Hl Hu Hq). }
  unfold dbctl_unrestrict_set, strcmp_eq. rewrite Hid, String.eqb_refl, check_restrict_eq.
  rewrite (cleared_not_over cfg (set_ac (clear_stats (r_ac r1)) r1) _ eq_refl).
  split; [split; [done|]|split; [done|split; [|done]]].
  - eexists. split; [exact Hq1|]. intros u Hin. by rewrite frozen_app, frozen_freezes.
  - eexists. split.
    + cbn [unrestrict set_ac r_q r_ac]. apply account_unrestrict_list; [done| |exact Hq1].
      unfold names_ok. cbn [clear_stats ac_users]. by rewrite Hus.
    + cbn [unrestrict set_ac r_ac clear_stats ac_users ac_restricted]. intros u Hin.
      by rewrite frozen_app, frozen_freezes.
Qed.
