(* ===== verification/CalcStats.v ===== *)
(** One period of the daemon ([src/calc_stats.c]): the counters become
    samples of the users, the samples sums of the accounts, the sums are
    analysed and added to the statistics of the minute.  The commands of the
    administrator that go over all the accounts are here as well. *)

From S2P Require Import Prelude CDouble CString Data UserMap BadList FifoStats TidTable Xml Config Accounts LogDecoder Commands Restrict.
Open Scope string_scope.
Open Scope Z_scope.

(** * The state of the daemon *)

(** [gv_old_tm] is [old_tm_stats]; [gv_files] are the statistics files
    written, by name. *)
Record gov := mkGov {
  gv_acc : acc_state; gv_tid : tid_state; gv_counts : counts;
  gv_stat : gmap string dbgov_statitrics; gv_q : cmd_state; gv_old_tm : double;
  gv_bad : option shm_structure; gv_map : option (gmap string UserMap);
  gv_files : list (string * string)
}.

Definition set_acc (a : acc_state) (g : gov) : gov :=
  mkGov a (gv_tid g) (gv_counts g) (gv_stat g) (gv_q g) (gv_old_tm g) (gv_bad g) (gv_map g)
    (gv_files g).
Definition set_tid (t : tid_state) (g : gov) : gov :=
  mkGov (gv_acc g) t (gv_counts g) (gv_stat g) (gv_q g) (gv_old_tm g) (gv_bad g) (gv_map g)
    (gv_files g).
Definition set_stat (m : gmap string dbgov_statitrics) (g : gov) : gov :=
  mkGov (gv_acc g) (gv_tid g) (gv_counts g) m (gv_q g) (gv_old_tm g) (gv_bad g) (gv_map g)
    (gv_files g).
Definition set_bad_list (b : option shm_structure) (g : gov) : gov :=
  mkGov (gv_acc g) (gv_tid g) (gv_counts g) (gv_stat g) (gv_q g) (gv_old_tm g) b (gv_map g)
    (gv_files g).

Section daemon.
Context `{HashOrder} (cfg : governor_config) (sys : sysinfo).

(** A handler of one account, as a callback over the table: it changes its
    account, the counts and the queue.  [n] counts the clock readings. *)
Definition on_account (handler : clock Z -> rstate -> rstate) (clk : clock Z) (key : string)
    (_ : Account) (st : nat * gov) : nat * gov :=
  let '(n, g) := st in
  match accounts (gv_acc g) !! key with
  | None => st
  | Some ac =>
      let r := handler (clk_skip n clk) (mkR ac (gv_counts g) (gv_q g)) in
      ((n + 8)%nat,
       mkGov (set_account key (r_ac r) (gv_acc g)) (gv_tid g) (r_counts r) (gv_stat g) (r_q r)
         (gv_old_tm g) (gv_bad g) (gv_map g) (gv_files g))
  end.

Definition foreach_account (handler : clock Z -> rstate -> rstate) (clk : clock Z) (g : gov)
    : gov :=
  snd (ht_foreach (accounts (gv_acc g)) (on_account handler clk) (0%nat, g)).

(** * From counters to samples *)

(** [now] is the reading of [reset_counters]. *)
Definition add_user_stats_from_counter (clk_tck : Z) (tm : double) (now : Z * Z) (key : string)
    (item : Stat_counters) (g : option gov) : option gov :=
  g ← g;
  let st := clac_stats_difference_inner_from_counter clk_tck
              (to_ll (dtrunc (st_cpu (sc_s item)))) (st_read (sc_s item)) (st_write (sc_s item))
              (sc_tm item) tm in
  a ← add_new_stats cfg (gv_map g) true key st (get_current_tick (gv_acc g)) (gv_acc g);
  Some (set_tid (reset_counters now key (gv_tid g)) (set_acc a g)).

(** * Statistics of the minute *)

Definition dbgov_was_user_activity (s : dbgov_statitrics) : bool :=
  (dltb d0 (g_sum_cpu s) || dltb d0 (g_sum_write s) || dltb d0 (g_sum_read s)
   || nonzero (g_cause s)) && bool_decide (g_ignored s <> IGNORE_MODE).

Definition clamp0 (z : Z) : Z := if z <? 0 then 0 else z.
Definition dmax (cur old : double) : double := if dltb old cur then cur else old.

Definition dbstat_add_to_table (key : string) (_ : Account) (g : gov) : gov :=
  match accounts (gv_acc g) !! key with
  | None => g
  | Some ac =>
      let sl := config_get_account_limit cfg (ac_id ac) in
      let requests := get_cnt_threads (ac_id ac) (gv_tid g) in
      let cpu := st_cpu (ac_current ac) in
      let write := dof_Z (st_write (ac_current ac)) in
      let read := dof_Z (st_read (ac_current ac)) in
      let '(nr, cause) := match gv_counts g !! ac_id ac with
                          | Some i => (number_of_restricts i, cause_of_restricts i)
                          | None => (0, 0)
                          end in
      let row name mr sc sw sr it mc mw mrd :=
        mkDbgov name mr sc sw sr it mc mw mrd nr (clamp0 (t_current (l_cpu sl)))
          (clamp0 (t_current (l_read sl))) (clamp0 (t_current (l_write sl))) cause (mode sl) in
      let s :=
        match gv_stat g !! ac_id ac with
        | None =>
            row (strncpy_str (ac_id ac) (USERNAMEMAXLEN - 1)) requests cpu write read 1
              cpu write read
        | Some o =>
            row (g_username o) (s32 (g_max_simultaneous_requests o + requests))
              (dadd (g_sum_cpu o) cpu) (dadd (g_sum_write o) write) (dadd (g_sum_read o) read)
              (s32 (g_number_of_iterations o + 1))
              (dmax cpu (g_max_cpu o)) (dmax write (g_max_write o)) (dmax read (g_max_read o))
        end in
      set_stat (<[ac_id ac := s]> (gv_stat g)) g
  end.

Definition semi (l : list string) : string :=
  match l with
  | [] => ""
  | x :: l => x +:+ fold_right (fun y t => ";" +:+ y +:+ t) "" l
  end.

(** [pwdload]: the entries that [fgetpwent_r] yields until it fails, when the
    file can be opened. *)
Definition pwdload (passwd : option (list (string * Z))) : option (gmap string Z) :=
  l ← passwd;
  let r : gmap string Z := fold_left (fun r p => <[fst p := snd p]> r) l ∅ in
  if bool_decide (r = ∅) then None else Some r.

(** The table is loaded by the first line that needs it and kept until the
    file is written; [io_pwd] is a look-up in it. *)
Definition pwdusers_at (pwdusers : option (gmap string Z)) (passwd : option (list (string * Z)))
    : option (gmap string Z) :=
  match pwdusers with Some t => Some t | None => pwdload passwd end.
Definition pwd_lookup (pwdusers : option (gmap string Z)) (username : string) : option Z :=
  t ← pwdusers; t !! username.

(** One line of the file; [pwd] looks a name up in [/etc/passwd]. *)
Definition dbstat_print_table (pwd : string -> option Z) (s : dbgov_statitrics) : string :=
  if dbgov_was_user_activity s then
    let it := dof_Z (g_number_of_iterations s) in
    let mb_s := dof_Z 1000000 in
    let fields :=
      [g_username s;
       dec (to_int (dceil (ddiv (dof_Z (g_max_simultaneous_requests s)) it)));
       fmt_f (dabs (dmul (ddiv (g_sum_cpu s) it) d100));
       fmt_f (ddiv (ddiv (g_sum_write s) it) mb_s);
       fmt_f (ddiv (ddiv (g_sum_read s) it) mb_s);
       fmt_f (dabs (dmul (g_max_cpu s) d100));
       fmt_f (ddiv (g_max_write s) mb_s); fmt_f (ddiv (g_max_read s) mb_s);
       dec (g_number_of_restricts s); dec (g_limit_cpu s);
       dec (Z.quot (g_limit_read s) 1000000); dec (Z.quot (g_limit_write s) 1000000);
       dec (g_cause s)] in
    let fields := if nonzero (save_statistic_uid cfg)
                  then (fields ++ [dec (default (-1) (pwd (g_username s)))])%list else fields in
    semi fields +:+ String newline ""
  else "".

(** The directory: whether the file can be created and renamed. *)
Record stat_io := mkStatIo { io_fopen : bool; io_rename : bool; io_pwd : string -> option Z }.

Definition PATH_TO_GOVERNOR_STATS : string := "/var/lve/dbgovernor/".

Definition WriteDbGovStatitrics (io : stat_io) (timestamp : Z) (g : gov) : gov * bool :=
  if io_fopen io then
    let text := ht_foreach (gv_stat g) (fun _ s t => t +:+ dbstat_print_table (io_pwd io) s) "" in
    if (0 <? strlen text) && io_rename io then
      (mkGov (gv_acc g) (gv_tid g) (gv_counts g) (gv_stat g) (gv_q g) (gv_old_tm g) (gv_bad g)
         (gv_map g)
         (gv_files g ++ [(PATH_TO_GOVERNOR_STATS +:+ "governor." +:+ dec timestamp, text)])%list,
       true)
    else (g, false)
  else (g, false).

(** [cur_tm] is the reading of [clock_gettime], [timestamp] of [time]. *)
Definition AddDbGovStatitrics (io : stat_io) (cur_tm : Z * Z) (timestamp : Z) (g : gov) : gov :=
  let old_tm := gv_old_tm g in
  let new_tm := tm_of cur_tm in
  let old_tm := if deqb old_tm d0 then new_tm else old_tm in
  let dt := dsub new_tm old_tm in
  let g := if dleb d1 dt then ht_foreach (accounts (gv_acc g)) dbstat_add_to_table g else g in
  let finish g old :=
    mkGov (gv_acc g) (gv_tid g) (gv_counts g) (gv_stat g) (gv_q g) old (gv_bad g) (gv_map g)
      (gv_files g) in
  if dleb d60 dt then
    let '(g, ok) := WriteDbGovStatitrics io timestamp g in
    if ok then
      mkGov (gv_acc g) (gv_tid g) ∅ ∅ (gv_q g) new_tm (gv_bad g) (gv_map g) (gv_files g)
    else finish g old_tm
  else finish g old_tm.

(** * A period *)

(** The part before the analysis. *)
Definition collect_samples (clk_tck : Z) (tm : double) (now : Z * Z) (g : gov) : option gov :=
  let g := set_acc (increment_tick (gv_acc g)) g in
  g ← ht_foreach (user_counters_list (gv_tid g)) (add_user_stats_from_counter clk_tck tm now)
        (Some g);
  a ← ht_foreach (users (gv_acc g)) (tick_empty_users cfg) (Some (gv_acc g));
  a ← ht_foreach (accounts a) calc_acc_stats (Some a);
  Some (set_acc a g).

Definition proceed_accounts (clk_tck : Z) (io : stat_io) (tm : double) (now : Z * Z)
    (clk : clock Z) (cur_tm : Z * Z) (timestamp : Z) (g : gov) : option gov :=
  g ← collect_samples clk_tck tm now g;
  let g := if nonzero (restrict_mode cfg)
           then foreach_account (account_analyze_limit cfg sys) clk g
           else foreach_account (account_analyze cfg sys) clk g in
  Some (if nonzero (statistic_mode cfg) then AddDbGovStatitrics io cur_tm timestamp g else g).

(** * Commands over all accounts *)

(** [dbctl_restrict_set]: a user not seen before is added, and the first
    account visited stands for its account.  GLib forbids a new key in the
    table that is walked: [None] when the account is new too. *)
Definition dbctl_restrict_set (command : DbCtlCommand) (clk : clock Z) (key : string)
    (_ : Account) (st : option (nat * gov)) : option (nat * gov) :=
  '(n, g) ← st;
  let o := d_options command in
  let username := o_username o in
  '(a, target) ← (match users (gv_acc g) !! username with
                  | Some us => Some (gv_acc g, key)
                  | None => '(a, us) ← add_user_stats cfg (gv_map g) true username (gv_acc g);
                            _ ← accounts (gv_acc g) !! us_account us;
                            Some (a, us_account us)
                  end);
  let g := set_acc a g in
  ac ← accounts a !! target;
  if strncmp_eq (ac_id ac) username USERNAMEMAXLEN || (comapre_users_name username ac =? 0) then
    let r := restrict_by_hand cfg sys (o_level o) (clk n) (clk (S n))
               (mkR ac (gv_counts g) (gv_q g)) in
    Some ((n + 2)%nat,
          mkGov (set_account target (r_ac r) a) (gv_tid g) (r_counts r) (gv_stat g) (r_q r)
            (gv_old_tm g) (gv_bad g) (gv_map g) (gv_files g))
  else Some (n, g).

Definition restrict_command (command : DbCtlCommand) (clk : clock Z) (g : gov) : option gov :=
  snd <$> ht_foreach (accounts (gv_acc g)) (dbctl_restrict_set command clk) (Some (0%nat, g)).

Definition unrestrict_command (command : DbCtlCommand) (clk : clock Z) (g : gov) : gov :=
  foreach_account (dbctl_unrestrict_set cfg sys (o_username (d_options command))) clk g.

Definition unrestrict_all_command (clk : clock Z) (g : gov) : gov :=
  foreach_account (fun _ => dbctl_unrestrict_all_set cfg) clk g.

(** * The list of users for [lve use="all"] *)

Fixpoint add_users (l : list string) (g : gov) : option gov :=
  match l with
  | [] => Some g
  | u :: l =>
      '(b, _) ← add_user_to_list (gv_map g) true true (gv_bad g) u 1;
      add_users l (set_bad_list b g)
  end.

Definition add_all_users_to_list (key : string) (ac : Account) (g : option gov) : option gov :=
  g ← g; add_users (ac_users ac) g.

(** [content] is the text of [/etc/container/dbuser-map], if it opens. *)
Definition reinit_users_list (content : option string) (g : gov) : option gov :=
  let m := fst (get_map_file (nonzero (separate_lve cfg)) content) in
  let b := fst (delete_allusers_from_list true (gv_bad g)) in
  let g := mkGov (gv_acc g) (gv_tid g) (gv_counts g) (gv_stat g) (gv_q g) (gv_old_tm g) b
             (Some m) (gv_files g) in
  if nonzero (all_lve cfg)
  then ht_foreach (accounts (gv_acc g)) add_all_users_to_list (Some g)
  else Some g.

(** * The map of users, polled ([src/dbuser_map.c]) *)

Definition list_uid (key : string) (um : UserMap) (g : option gov) : option gov :=
  g ← g;
  a ← add_empty_stats_for_uid cfg (gv_map g) true (um_username um) (gv_acc g);
  Some (set_acc a g).

Definition set_dbuser_map (g : gov) : option gov :=
  ht_foreach (default ∅ (gv_map g)) list_uid (Some g).

(** [st_mtime] of the map file, -1 when there is none. *)
Definition last_modify_map (mtime : option Z) : Z := default (-1) mtime.

Definition DELTA_TIME : Z := 300.

(** [curr] at the start of [parse_map_file_every_hour]. *)
Definition map_thread_start (mtime : option Z) (now : Z) : Z :=
  let curr := last_modify_map mtime in
  if curr =? -1 then s64 (now - DELTA_TIME) else s64 (curr - 1).

(** One round of [parse_map_file_every_hour]: [curr] is the time of the
    version known, [last_mod] that of the file, [content] and [content']
    what the two readings of it give. *)
Definition parse_map_round (last_mod : Z) (content content' : option string) (curr : Z) (g : gov)
    : option (Z * gov) :=
  if curr <? last_mod then
    let '(m, ok) := get_map_file (nonzero (separate_lve cfg)) content in
    let curr := if ok then last_mod else curr in
    let g := mkGov (gv_acc g) (gv_tid g) (gv_counts g) (gv_stat g) (gv_q g) (gv_old_tm g)
               (gv_bad g) (Some m) (gv_files g) in
    g ← set_dbuser_map g;
    g ← reinit_users_list content' g;
    Some (curr, g)
  else Some (curr, g).
End daemon.

(** * Lemmas *)

(** A map file that is there at the start is read by the first round. *)
Lemma map_read_at_start t now : 0 <= t < 2 ^ 62 -> map_thread_start (Some t) now < last_modify_map (Some t).
Proof.
  intros Ht. unfold map_thread_start, last_modify_map. cbn [default from_option id].
  destruct (Z.eqb_spec t (-1)); [lia|]. rewrite s64_id; [lia|]. unfold in_s64. lia.
Qed.

(** The later of two entries counts; users that come later are not found. *)
Lemma pwdload_last l u uid : pwd_lookup (pwdload (Some (l ++ [(u, uid)])%list)) u = Some uid.
Proof.
  unfold pwdload. cbn [mbind option_bind]. rewrite fold_left_app. cbn [fold_left fst snd].
  rewrite bool_decide_eq_false_2 by apply insert_non_empty. unfold pwd_lookup. cbn [mbind option_bind].
  by rewrite lookup_insert_eq.
Qed.

Lemma pwdusers_kept passwd passwd' t : pwdusers_at None passwd = Some t ->
  pwdusers_at (pwdusers_at None passwd) passwd' = Some t.
Proof. by intros ->. Qed.

(** What the handlers leave alone. *)
Definition same_load (ac ac' : Account) : Prop :=
  ac_id ac' = ac_id ac /\ ac_users ac' = ac_users ac /\ ac_current ac' = ac_current ac.

Definition same_users (ac ac' : Account) : Prop :=
  ac_id ac' = ac_id ac /\ ac_users ac' = ac_users ac.

Definition keeps (R : Account -> Account -> Prop) (handler : clock Z -> rstate -> rstate) : Prop :=
  forall clk r, R (r_ac r) (r_ac (handler clk r)).
Abbreviation keeps_load := (keeps same_load).

Lemma load_users ac ac' : same_load ac ac' -> same_users ac ac'.
Proof. by intros (? & ? & _). Qed.

Lemma check_restrict_load cfg sys clk r : same_load (r_ac r) (r_ac (fst (check_restrict cfg sys clk r))).
Proof.
  rewrite check_restrict_eq. destruct (first_over _ _) as [[p f]|]; [|done].
  cbn [fst]. unfold restrict_account. by destruct (get_timeout _ _ _).
Qed.

Lemma check_limit_load cfg sys clk r :
  same_load (r_ac r) (r_ac (fst (check_restrict_limit cfg sys clk r))).
Proof. rewrite check_restrict_limit_eq. by destruct (first_over _ _) as [[p f]|]. Qed.

Lemma analyze_load cfg sys : keeps_load (account_analyze cfg sys).
Proof.
  intros clk r. unfold account_analyze.
  destruct (_ || _); [done|]. destruct (bool_decide _); [|done].
  pose proof (check_restrict_load cfg sys clk r) as H1.
  assert (same_load (r_ac r) (r_ac (fst (if 0 =? ac_timeout (r_ac r) then check_restrict cfg sys clk r
    else (r, false))))) as H2 by (by destruct (0 =? _)).
  destruct (if 0 =? ac_timeout (r_ac r) then _ else _) as [r1 stop]. cbn [fst] in H2.
  destruct stop; [done|]. destruct (0 <? _); [|done].
  destruct (_ && _).
  - set (r2 := set_ac _ r1). pose proof (check_restrict_load cfg sys (clk_skip 4 clk) r2) as H3.
    destruct (check_restrict _ _ _ r2) as [r3 over]. cbn [fst] in H3.
    destruct H2 as (A1 & A2 & A3), H3 as (B1 & B2 & B3).
    destruct over; (split; [|split]); cbn [unrestrict r_ac] in *; cbn in B1, B2, B3; congruence.
  - by destruct (_ && _).
Qed.

Lemma analyze_limit_load cfg sys : keeps_load (account_analyze_limit cfg sys).
Proof.
  intros clk r. unfold account_analyze_limit.
  destruct (_ || _); [done|]. destruct (bool_decide _); [|done].
  pose proof (check_limit_load cfg sys clk r) as H1.
  assert (same_load (r_ac r) (r_ac (fst (if 0 =? ac_timeout (r_ac r) then check_restrict_limit cfg sys clk r
    else (r, false))))) as H2 by (by destruct (0 =? _)).
  destruct (if 0 =? ac_timeout (r_ac r) then _ else _) as [r1 stop]. cbn [fst] in H2.
  destruct stop; [done|]. destruct (0 <? _); [|done].
  pose proof (check_limit_load cfg sys (clk_skip 3 clk) r1) as H3.
  destruct (check_restrict_limit _ _ _ r1) as [r3 over]. cbn [fst] in H3.
  destruct H2 as (A1 & A2 & A3), H3 as (B1 & B2 & B3).
  destruct over; [|destruct (_ && _)]; (split; [|split]); cbn in *; congruence.
Qed.

(** A pass over the accounts runs the handler once on each. *)
Lemma foreach_account_spec `{HashOrder} handler clk g :
  let g' := foreach_account handler clk g in
  users (gv_acc g') = users (gv_acc g)
  /\ user_account_table (gv_acc g') = user_account_table (gv_acc g)
  /\ tick_id (gv_acc g') = tick_id (gv_acc g) /\ gv_map g' = gv_map g /\ gv_tid g' = gv_tid g
  /\ gv_bad g' = gv_bad g
  /\ forall a, match accounts (gv_acc g) !! a with
     | None => accounts (gv_acc g') !! a = None
     | Some ac => exists n c q,
         accounts (gv_acc g') !! a = Some (r_ac (handler (clk_skip n clk) (mkR ac c q)))
     end.
Proof.
  unfold foreach_account.
  pose proof (ht_foreach_ind (on_account handler clk)
    (fun done st => let g' := snd st in
      users (gv_acc g') = users (gv_acc g)
      /\ user_account_table (gv_acc g') = user_account_table (gv_acc g)
      /\ tick_id (gv_acc g') = tick_id (gv_acc g) /\ gv_map g' = gv_map g /\ gv_tid g' = gv_tid g
      /\ gv_bad g' = gv_bad g
      /\ (forall a, a ∉ done -> accounts (gv_acc g') !! a = accounts (gv_acc g) !! a)
      /\ (forall a ac, a ∈ done -> accounts (gv_acc g) !! a = Some ac -> exists n c q,
           accounts (gv_acc g') !! a = Some (r_ac (handler (clk_skip n clk) (mkR ac c q)))))
    (accounts (gv_acc g)) (0%nat, g)) as G.
  destruct G as (U & T & Tk & M & Td & B & N & D).
  - split_and!; try done; intros a ac Ha; set_solver.
  - intros dn a ac [n g1] Ha Hfr (U & T & Tk & M & Td & B & N & D). cbn [snd] in *.
    unfold on_account. rewrite (N a Hfr), Ha.
    cbn [snd gv_acc set_account accounts users user_account_table tick_id gv_map gv_tid gv_bad].
    split_and!; try done.
    + intros b Hb. rewrite lookup_insert_ne by set_solver. apply N. set_solver.
    + intros b ac' Hb Hac'. destruct (String.eqb_spec b a) as [->|Hne].
      * rewrite lookup_insert_eq. rewrite Ha in Hac'. injection Hac' as <-. eauto.
      * rewrite lookup_insert_ne by done. apply D; [set_solver|done].
  - split_and!; try done. intros a. destruct (accounts (gv_acc g) !! a) as [ac|] eqn:E.
    + apply D; [apply elem_of_dom; eauto|done].
    + rewrite N by (by apply not_elem_of_dom). done.
Qed.

(** The sample a user gets in a period: the speed of its counters, or an
    empty one. *)
Definition sample_of (clk_tck : Z) (tm : double) (m : gmap string Stat_counters) (u : string)
    : Stats :=
  match m !! u with
  | Some item =>
      clac_stats_difference_inner_from_counter clk_tck (to_ll (dtrunc (st_cpu (sc_s item))))
        (st_read (sc_s item)) (st_write (sc_s item)) (sc_tm item) tm
  | None => reset_stats
  end.

Definition gained (st : Stats) (us us' : User_stats) : Prop :=
  us_account us' = us_account us
  /\ history (us_stats (us_samples us'))
     = st :: take (Z.to_nat (size (us_stats (us_samples us))) - 1)
               (history (us_stats (us_samples us))).

Record period_pre (cfg : governor_config) (g : gov) : Prop := {
  pp_intervals : intervals_wf (c_intervals cfg);
  pp_wf : acc_wf (gv_acc g);
  pp_names : forall u, is_Some (user_counters_list (gv_tid g) !! u) -> strlen u < USERNAMEMAXLEN;
  pp_tick : 0 <= tick_id (gv_acc g) /\ tick_id (gv_acc g) + 1 < 2 ^ 63;
  pp_ticks : forall u us, users (gv_acc g) !! u = Some us ->
    0 <= us_tick us <= tick_id (gv_acc g)
}.

Lemma increment_tick_eq s : 0 <= tick_id s -> tick_id s + 1 < 2 ^ 63 ->
  tick_id (increment_tick s) = tick_id s + 1.
Proof. intros. simpl. apply u64_id. unfold in_u64. lia. Qed.

Lemma increment_tick_wf s : acc_wf s -> acc_wf (increment_tick s).
Proof. intros []. by split. Qed.

Lemma collect_counters `{HashOrder} cfg clk_tck tm now g :
  intervals_wf (c_intervals cfg) -> acc_wf (gv_acc g) ->
  (forall u, is_Some (user_counters_list (gv_tid g) !! u) -> strlen u < USERNAMEMAXLEN) ->
  0 <= tick_id (gv_acc g) < 2 ^ 63 ->
  (forall u us, users (gv_acc g) !! u = Some us -> us_tick us <> tick_id (gv_acc g)) ->
  let counters := user_counters_list (gv_tid g) in
  exists g', ht_foreach counters (add_user_stats_from_counter cfg clk_tck tm now) (Some g) = Some g'
    /\ acc_wf (gv_acc g') /\ tick_id (gv_acc g') = tick_id (gv_acc g)
    /\ (forall u, counters !! u = None -> users (gv_acc g') !! u = users (gv_acc g) !! u)
    /\ (forall u, is_Some (counters !! u) -> exists us', users (gv_acc g') !! u = Some us'
         /\ us_tick us' = tick_id (gv_acc g)
         /\ forall us, users (gv_acc g) !! u = Some us ->
              gained (sample_of clk_tck tm counters u) us us').
Proof.
  intros Hiv Hw Hnm Ht Hold counters.
  pose proof (ht_foreach_ind (add_user_stats_from_counter cfg clk_tck tm now)
    (fun done r => exists g', r = Some g'
       /\ acc_wf (gv_acc g') /\ tick_id (gv_acc g') = tick_id (gv_acc g)
       /\ (forall u, u ∉ done -> users (gv_acc g') !! u = users (gv_acc g) !! u)
       /\ (forall u, u ∈ done -> exists us', users (gv_acc g') !! u = Some us'
            /\ us_tick us' = tick_id (gv_acc g)
            /\ forall us, users (gv_acc g) !! u = Some us ->
                 gained (sample_of clk_tck tm counters u) us us'))
    counters (Some g)) as G.
  destruct G as (g' & E & Hw' & Ht' & Hn & Hd).
  - exists g. split_and!; try done; intros u Hu; set_solver.
  - intros dn u item r Hc Hfr (g1 & -> & Hw1 & Ht1 & Hn1 & Hd1).
    unfold add_user_stats_from_counter. cbn [mbind option_bind].
    set (st := clac_stats_difference_inner_from_counter _ _ _ _ _ _).
    destruct (add_new_stats_preserves_partition cfg (gv_map g1) true u st (gv_acc g1) Hiv Hw1)
      as (a & us' & -> & Hwa & Hu' & Htk & Hta & Hoth & Hgain); [apply Hnm; eauto|lia|].
    cbn [mbind option_bind]. eexists. split; [reflexivity|]. split; [done|]. cbn [gv_acc set_tid set_acc].
    split; [congruence|]. split.
    + intros v Hv. rewrite Hoth by set_solver. apply Hn1. set_solver.
    + intros v Hv. destruct (String.eqb_spec v u) as [->|Hne].
      * exists us'. split; [done|]. split; [congruence|]. intros us Hus.
        rewrite <- (Hn1 u Hfr) in Hus. destruct (Hgain us Hus) as [A B].
        { rewrite Hn1 in Hus by done. rewrite Ht1. by eapply Hold. }
        split; [done|]. rewrite B. f_equal. unfold sample_of. by rewrite Hc.
      * rewrite Hoth by done. apply Hd1. set_solver.
  - exists g'. split_and!; try done.
    + intros u Hu. apply Hn. by apply not_elem_of_dom.
    + intros u Hu. apply Hd. by apply elem_of_dom.
Qed.

Lemma sum_users_ext s s' l acc : (forall u, user_of s u = user_of s' u) ->
  sum_users s l acc = sum_users s' l acc.
Proof.
  intros E. revert acc. induction l as [|u l IH]; intros acc; [done|]. cbn [sum_users].
  rewrite E. destruct (user_of s' u); [apply IH|done].
Qed.

Lemma analysis_keeps `{HashOrder} (R : Account -> Account -> Prop) handler clk g :
  keeps R handler -> (forall ac ac', R ac ac' -> same_users ac ac') -> acc_wf (gv_acc g) ->
  let g' := foreach_account handler clk g in
  acc_wf (gv_acc g') /\ users (gv_acc g') = users (gv_acc g)
  /\ forall a ac, accounts (gv_acc g) !! a = Some ac ->
       exists ac', accounts (gv_acc g') !! a = Some ac' /\ R ac ac'.
Proof.
  intros Hk HR Hw g'. destruct (foreach_account_spec handler clk g) as (U & T & Tk & _ & _ & _ & A).
  fold g' in U, T, Tk, A.
  assert (forall a ac', accounts (gv_acc g') !! a = Some ac' ->
    exists ac, accounts (gv_acc g) !! a = Some ac /\ R ac ac') as Hback.
  { intros a ac' Ha'. specialize (A a). destruct (accounts (gv_acc g) !! a) as [ac|]; [|congruence].
    destruct A as (n & c & q & E). rewrite Ha' in E. injection E as ->. exists ac. split; [done|].
    exact (Hk (clk_skip n clk) (mkR ac c q)). }
  assert (forall a ac, accounts (gv_acc g) !! a = Some ac ->
    exists ac', accounts (gv_acc g') !! a = Some ac' /\ R ac ac') as Hfwd.
  { intros a ac Ha. specialize (A a). rewrite Ha in A. destruct A as (n & c & q & E). rewrite E.
    eexists. split; [done|]. exact (Hk (clk_skip n clk) (mkR ac c q)). }
  split; [|done]. split.
  - intros u us. rewrite U. apply (wf_user_key _ Hw).
  - intros u us. rewrite U. intros Hu. destruct (wf_user_account _ Hw u us Hu) as (ac & Ha & Hin).
    destruct (Hfwd _ _ Ha) as (ac' & Ha' & [_ Eu]%HR). exists ac'. split; [done|]. by rewrite Eu.
  - intros a ac' Ha'. destruct (Hback _ _ Ha') as (ac & Ha & [Ei _]%HR). rewrite Ei.
    by apply (wf_account_key _ Hw).
  - intros a ac' u Ha' Hu. destruct (Hback _ _ Ha') as (ac & Ha & [_ Eu]%HR). rewrite U.
    rewrite Eu in Hu. by eapply (wf_account_users _ Hw).
  - intros a ac' Ha'. destruct (Hback _ _ Ha') as (ac & Ha & [_ Eu]%HR). rewrite Eu.
    by eapply (wf_account_nodup _ Hw).
  - intros a ac' Ha'. destruct (Hback _ _ Ha') as (ac & Ha & [_ Eu]%HR). rewrite Eu.
    by eapply (wf_account_nonempty _ Hw).
  - intros u us. rewrite U. apply (wf_samples _ Hw).
  - intros u ua. rewrite T. apply (wf_ua_key _ Hw).
Qed.

(** The pass of the analysis, in the mode of the configuration. *)
Lemma analysis_pass `{HashOrder} cfg sys clk g : acc_wf (gv_acc g) ->
  let g' := if nonzero (restrict_mode cfg)
            then foreach_account (account_analyze_limit cfg sys) clk g
            else foreach_account (account_analyze cfg sys) clk g in
  acc_wf (gv_acc g') /\ users (gv_acc g') = users (gv_acc g)
  /\ tick_id (gv_acc g') = tick_id (gv_acc g)
  /\ forall a ac, accounts (gv_acc g) !! a = Some ac ->
       exists ac', accounts (gv_acc g') !! a = Some ac' /\ same_load ac ac'.
Proof.
  intros Hw. cbv zeta. destruct (nonzero (restrict_mode cfg)).
  - destruct (foreach_account_spec (account_analyze_limit cfg sys) clk g) as (_ & _ & Tk & _).
    by destruct (analysis_keeps same_load (account_analyze_limit cfg sys) clk g
                   (analyze_limit_load cfg sys) load_users Hw) as (A & B & C).
  - destruct (foreach_account_spec (account_analyze cfg sys) clk g) as (_ & _ & Tk & _).
    by destruct (analysis_keeps same_load (account_analyze cfg sys) clk g (analyze_load cfg sys)
                   load_users Hw)
      as (A & B & C).
Qed.

(** Accounts exist through their users. *)
Lemma wf_same_accounts s s' a ac : acc_wf s -> acc_wf s' -> users s' = users s ->
  accounts s' !! a = Some ac -> is_Some (accounts s !! a).
Proof.
  intros Hw Hw' Eu Ha. pose proof (wf_account_nonempty _ Hw' a ac Ha).
  destruct (ac_users ac) as [|u l] eqn:El; [done|].
  destruct (wf_account_users _ Hw' a ac u Ha ltac:(rewrite El; by left)) as (us & Hus & Hacc).
  rewrite Eu in Hus. destruct (wf_user_account _ Hw u us Hus) as (ac' & Hac' & _).
  rewrite Hacc in Hac'. eauto.
Qed.

Lemma sum_reads_ext s s' l : (forall u, newest_read s u = newest_read s' u) ->
  sum_reads s l = sum_reads s' l.
Proof.
  intros E. unfold sum_reads. induction l as [|u l IH]; [done|]. cbn [foldr]. by rewrite E, IH.
Qed.

(** Adding the accounts to the statistics changes nothing else. *)
Lemma add_table_keeps `{HashOrder} cfg g :
  let g' := ht_foreach (accounts (gv_acc g)) (dbstat_add_to_table cfg) g in
  gv_acc g' = gv_acc g /\ gv_files g' = gv_files g /\ gv_counts g' = gv_counts g.
Proof.
  apply (ht_foreach_ind (dbstat_add_to_table cfg) (fun _ g' =>
    gv_acc g' = gv_acc g /\ gv_files g' = gv_files g /\ gv_counts g' = gv_counts g)); [done|].
  intros dn a ac g' _ _ IH. unfold dbstat_add_to_table.
  destruct (accounts (gv_acc g') !! a); [|done].
  by destruct (match gv_counts g' !! _ with Some _ => _ | None => _ end).
Qed.

Lemma add_dbgov_acc `{HashOrder} cfg io t ts g : gv_acc (AddDbGovStatitrics cfg io t ts g) = gv_acc g.
Proof.
  unfold AddDbGovStatitrics.
  set (g1 := if dleb d1 _ then _ else g).
  assert (gv_acc g1 = gv_acc g) as E1.
  { subst g1. destruct (dleb d1 _); [|done]. apply (add_table_keeps cfg g). }
  destruct (dleb d60 _); [|done].
  assert (gv_acc (fst (WriteDbGovStatitrics cfg io ts g1)) = gv_acc g1) as E2.
  { unfold WriteDbGovStatitrics. destruct (io_fopen io); [|done]. by destruct (_ && _). }
  destruct (WriteDbGovStatitrics cfg io ts g1) as [g2 ok]. cbn [fst] in E2.
  destruct ok; cbn [gv_acc]; congruence.
Qed.

(** * Properties *)

Lemma newest_read_ext a b : users a = users b -> forall u, newest_read a u = newest_read b u.
Proof. intros E u. unfold newest_read, user_of. by rewrite E. Qed.

(** C6: One period of the daemon succeeds from a well formed state: the tick advances by
    one, the tables stay well formed, every known user gets exactly one new sample (the speed
    computed from its counters, or an empty one), and the read speed of every account is the sum
    of the newest samples of its users. *)
Theorem proceed_accounts_one_sample `{HashOrder} (cfg : governor_config) (sys : sysinfo)
    (clk_tck : Z) (io : stat_io) (tm : double) (now : Z * Z) (clk : clock Z) (cur_tm : Z * Z)
    (timestamp : Z) (g : gov) :
  period_pre cfg g ->
  exists g', proceed_accounts cfg sys clk_tck io tm now clk cur_tm timestamp g = Some g'
    /\ acc_wf (gv_acc g')
    /\ tick_id (gv_acc g') = tick_id (gv_acc g) + 1
    /\ (forall u us, users (gv_acc g) !! u = Some us -> exists us',
          users (gv_acc g') !! u = Some us' /\ us_tick us' = tick_id (gv_acc g')
          /\ gained (sample_of clk_tck tm (user_counters_list (gv_tid g)) u) us us')
    /\ ((forall u, in_s64 (newest_read (gv_acc g') u)) ->
         forall a ac, accounts (gv_acc g') !! a = Some ac ->
           st_read (ac_current ac) = s64 (sum_reads (gv_acc g') (ac_users ac))).
Proof.
  intros [Hiv Hw Hnm [Ht0 Ht1] Hticks]. unfold proceed_accounts, collect_samples.
  set (g0 := set_acc (increment_tick (gv_acc g)) g).
  assert (tick_id (gv_acc g0) = tick_id (gv_acc g) + 1) as Etk by (by apply increment_tick_eq).
  destruct (collect_counters cfg clk_tck tm now g0 Hiv (increment_tick_wf _ Hw) Hnm ltac:(lia))
    as (g1 & -> & Hw1 & Htk1 & Hun & Hco).
  { intros u us Hu. specialize (Hticks u us Hu). lia. }
  cbn [mbind option_bind].
  destruct (tick_empty_users_one_sample cfg (gv_acc g1) Hiv Hw1 ltac:(lia))
    as (a2 & -> & Hw2 & Ha2 & Htk2 & Hu2). cbn [mbind option_bind].
  destruct (calc_acc_stats_sums cfg a2 Hw2) as (a3 & -> & Hw3 & Hu3 & Htk3 & Hs3).
  cbn [mbind option_bind]. eexists. split; [reflexivity|].
  set (g3 := set_acc a3 g1).
  destruct (analysis_pass cfg sys clk g3 Hw3) as (Hw4 & Hu4 & Htk4 & Ha4).
  cbv zeta in Hw4, Hu4, Htk4, Ha4. set (g4 := if nonzero (restrict_mode cfg) then _ else _) in *.
  set (g5 := if nonzero (statistic_mode cfg) then _ else g4).
  assert (gv_acc g5 = gv_acc g4) as -> by
    (subst g5; destruct (nonzero (statistic_mode cfg)); [apply add_dbgov_acc|done]).
  change (gv_acc g3) with a3 in Hu4, Htk4, Ha4.
  assert (tick_id (gv_acc g4) = tick_id (gv_acc g) + 1) as Etk4 by lia.
  split; [done|]. split; [done|]. split.
  - intros u us Hu. rewrite Hu4, Hu3, Etk4. unfold sample_of.
    destruct (user_counters_list (gv_tid g) !! u) as [item|] eqn:Ec.
    + destruct (Hco u) as (us1 & E1 & T1 & G1); [by eexists|].
      specialize (G1 us Hu). unfold sample_of in G1. cbn [g0 set_acc gv_tid] in G1. rewrite Ec in G1.
      destruct (Hu2 u us1 E1) as (us2 & E2 & _ & Hold & _). exists us2. split; [done|].
      rewrite Hold; [split; [lia|done]|]. unfold is_new_tick. rewrite T1, Htk1, u64_id by (unfold in_u64; lia).
      by rewrite Z.eqb_refl.
    + assert (users (gv_acc g1) !! u = Some us) as E1 by (by rewrite Hun).
      destruct (Hu2 u us E1) as (us2 & E2 & Hacc & _ & Hnew). exists us2. split; [done|].
      destruct Hnew as [A B].
      { unfold is_new_tick. specialize (Hticks u us Hu). rewrite u64_id by (unfold in_u64; lia).
        apply negb_true_iff, Z.eqb_neq. lia. }
      split; [lia|]. by split.
  - intros Hr a ac Ha.
    assert (users (gv_acc g4) = users a2) as Eu2 by congruence.
    pose proof (newest_read_ext _ _ Eu2) as En.
    destruct (wf_same_accounts a2 (gv_acc g4) a ac Hw2 Hw4 Eu2 Ha) as [ac2 Ha2'].
    destruct (Hs3 a ac2 Ha2') as (ac3 & Ha3 & Hus3 & _ & Hsum).
    destruct (Ha4 a ac3 Ha3) as (ac4 & Ha4' & _ & Hus4 & Hcur). rewrite Ha in Ha4'. injection Ha4' as <-.
    rewrite Hcur, Hus4, Hsum, Hus3 by (intros u; rewrite <- En; apply Hr).
    by rewrite (sum_reads_ext _ a2 _ En).
Qed.

Definition example_gov : gov :=
  mkGov example_state
    (mkTidState ∅ {[ "bob_wp" := mkCounters (mkStats d0 100 200) d1 ]} None) ∅ ∅
    (mkCmd (node_list []) None 0 0 []) d0 (Some clear_bad_users_list) None [].
Definition example_io : stat_io := mkStatIo true true (fun _ => None).

Lemma proceed_accounts_one_sample_witness :
  exists g', proceed_accounts (H := default_order) example_config example_sys 100 example_io
               (dof_Z 3) (3, 0) (clk_const example_now) (3, 0) 3 example_gov = Some g'
    /\ tick_id (gv_acc g') = 5
    /\ forall us, users example_state !! "bob_wp" = Some us -> exists us',
         users (gv_acc g') !! "bob_wp" = Some us'
         /\ history (us_stats (us_samples us')) = [mkStats d0 50 100; mkStats d0 1 2].
Proof.
  destruct (proceed_accounts_one_sample (H := default_order) example_config example_sys 100
              example_io (dof_Z 3) (3, 0) (clk_const example_now) (3, 0) 3 example_gov)
    as (g' & A & _ & B & C & _).
  - split.
    + unfold intervals_wf. simpl. lia.
    + apply example_wf.
    + intros u [item Hu]. cbn in Hu. apply lookup_singleton_Some in Hu as [<- _]. reflexivity.
    + simpl. lia.
    + intros u us Hu. cbn [gv_acc example_gov users example_state] in Hu.
      rewrite lookup_insert_Some, lookup_singleton_Some in Hu.
      destruct Hu as [[_ <-]|[_ [_ <-]]]; simpl; lia.
  - exists g'. split; [exact A|]. split; [exact B|]. intros us Hus.
    destruct (C "bob_wp" us Hus) as (us' & E & _ & _ & Hh). exists us'. split; [exact E|].
    rewrite Hh. cbn [users example_state] in Hus. rewrite lookup_insert_eq in Hus.
    injection Hus as <-. by vm_compute.
Defined.

(** The counts of restrictions and the statistics of the minute are cleared only when a
    statistics file that is not empty has been written with them; otherwise both are kept for
    the next period. *)
Lemma restrict_counts_never_lost `{HashOrder} (cfg : governor_config) (io : stat_io)
    (cur_tm : Z * Z) (timestamp : Z) (g : gov) :
  let g' := AddDbGovStatitrics cfg io cur_tm timestamp g in
  (gv_files g' = gv_files g /\ gv_counts g' = gv_counts g)
  \/ (exists text, gv_files g' = (gv_files g ++
        [(PATH_TO_GOVERNOR_STATS +:+ "governor." +:+ dec timestamp, text)])%list
      /\ 0 < strlen text /\ gv_counts g' = ∅ /\ gv_stat g' = ∅ /\ gv_old_tm g' = tm_of cur_tm).
Proof.
  cbv zeta. unfold AddDbGovStatitrics. set (dt := dsub _ _). set (g1 := if dleb d1 dt then _ else g).
  assert (gv_files g1 = gv_files g /\ gv_counts g1 = gv_counts g) as [E1 E2].
  { subst g1. destruct (dleb d1 dt); [|done]. apply (add_table_keeps cfg g). }
  destruct (dleb d60 dt); [|by left].
  unfold WriteDbGovStatitrics. destruct (io_fopen io); [|by left].
  set (text := ht_foreach (gv_stat g1) _ "").
  destruct (Z.ltb_spec 0 (strlen text)); [|by left]. destruct (io_rename io); [|by left].
  right. exists text. cbn [andb gv_files gv_counts gv_stat gv_old_tm]. by rewrite E1.
Qed.

(** ** A command of the administrator *)

Definition selected (u a : string) (ac : Account) : bool :=
  String.eqb a u || bool_decide (u ∈ ac_users ac).

Lemma existsb_user u l : Forall (fun v => strlen v < USERNAMEMAXLEN) l -> strlen u < USERNAMEMAXLEN ->
  existsb (fun v => strncmp_eq v u USERNAMEMAXLEN) l = bool_decide (u ∈ l).
Proof.
  intros Hl Hu. induction l as [|v l IH]; [by rewrite bool_decide_eq_false_2 by apply not_elem_of_nil|].
  apply list.Forall_cons in Hl as [Hv Hl]. cbn [existsb]. rewrite (IH Hl).
  rewrite strncmp_eq_short by lia. destruct (String.eqb_spec v u) as [->|Hne].
  - symmetry. apply bool_decide_eq_true_2. by left.
  - apply bool_decide_ext. set_solver.
Qed.

(** What the command does to an account: [spec] of the theorem below. *)
Definition restricted_if (u a : string) (ac ac' : Account) : Prop :=
  if selected u a ac
  then 0 < ac_timeout ac' /\ field_restrict (ac_info ac') = CURRENT_PERIOD /\ same_load ac ac'
  else ac' = ac.

Lemma restrict_by_hand_effect cfg sys level now start r : cfg_ok cfg ->
  let r' := restrict_by_hand cfg sys level now start r in
  0 < ac_timeout (r_ac r') /\ field_restrict (ac_info (r_ac r')) = CURRENT_PERIOD
  /\ same_load (r_ac r) (r_ac r').
Proof.
  intros Hok. unfold restrict_by_hand. destruct (if level =? -1 then _ else _) as [lv co].
  destruct (nonzero (restrict_mode cfg)).
  - cbn [r_ac set_restrict ac_timeout]. rewrite s32_unlimit by done.
    split; [apply (ok_unlimit _ Hok)|done].
  - assert (0 < snd (get_timeout cfg lv co)) as Hpos.
    { unfold get_timeout. cbn [snd]. set (l' := if _ <? 0 then _ else _).
      fold (level_timeout cfg l'). destruct (level_timeout_pos cfg l' Hok).
      rewrite s32_id by (unfold in_s32; lia). done. }
    by destruct (get_timeout cfg lv co) as [l t].
Qed.

(** The command at an account, when the user it names is known. *)
Lemma dbctl_restrict_at `{HashOrder} cfg sys command clk a ac n g :
  let u := o_username (d_options command) in
  cfg_ok cfg -> ac_id ac = a -> strlen u < USERNAMEMAXLEN -> strlen a < USERNAMEMAXLEN ->
  names_ok ac -> is_Some (users (gv_acc g) !! u) -> accounts (gv_acc g) !! a = Some ac ->
  exists n' g' ac', dbctl_restrict_set cfg sys command clk a ac (Some (n, g)) = Some (n', g')
    /\ users (gv_acc g') = users (gv_acc g)
    /\ accounts (gv_acc g') = <[a := ac']> (accounts (gv_acc g)) /\ restricted_if u a ac ac'.
Proof.
  intros u Hok Hid Hu Hla Hna [us Hus] Ha. unfold dbctl_restrict_set.
  cbn [mbind option_bind]. fold u. rewrite Hus. cbn [mbind option_bind set_acc gv_acc].
  rewrite Ha. cbn [mbind option_bind].
  assert (strncmp_eq (ac_id ac) u USERNAMEMAXLEN || (comapre_users_name u ac =? 0)
          = selected u a ac) as ->.
  { rewrite Hid, strncmp_eq_short by lia. unfold selected, comapre_users_name.
    rewrite existsb_user by done. by destruct (bool_decide _). }
  destruct (selected u a ac) eqn:Es.
  - eexists _, _, _. split; [reflexivity|]. split; [done|]. split; [reflexivity|].
    unfold restricted_if. rewrite Es. by apply restrict_by_hand_effect.
  - exists n, (set_acc (gv_acc g) g), ac. split; [done|]. split; [done|].
    split; [by rewrite insert_id|]. unfold restricted_if. by rewrite Es.
Qed.

Lemma restrict_command_spec `{HashOrder} (cfg : governor_config) (sys : sysinfo)
    (command : DbCtlCommand) (clk : clock Z) (g : gov) :
  let u := o_username (d_options command) in
  cfg_ok cfg -> acc_wf (gv_acc g) -> strlen u < USERNAMEMAXLEN ->
  (forall a ac, accounts (gv_acc g) !! a = Some ac -> strlen a < USERNAMEMAXLEN /\ names_ok ac) ->
  is_Some (users (gv_acc g) !! u) ->
  exists g', restrict_command cfg sys command clk g = Some g'
    /\ users (gv_acc g') = users (gv_acc g)
    /\ dom (accounts (gv_acc g')) = dom (accounts (gv_acc g))
    /\ forall a ac, accounts (gv_acc g) !! a = Some ac -> exists ac',
         accounts (gv_acc g') !! a = Some ac' /\ restricted_if u a ac ac'.
Proof.
  intros u Hok Hw Hu Hn Hus. unfold restrict_command.
  pose proof (ht_foreach_ind (dbctl_restrict_set cfg sys command clk)
    (fun done r => exists n g', r = Some (n, g') /\ users (gv_acc g') = users (gv_acc g)
      /\ dom (accounts (gv_acc g')) = dom (accounts (gv_acc g))
      /\ (forall a, a ∉ done -> accounts (gv_acc g') !! a = accounts (gv_acc g) !! a)
      /\ forall a ac, a ∈ done -> accounts (gv_acc g) !! a = Some ac -> exists ac',
           accounts (gv_acc g') !! a = Some ac' /\ restricted_if u a ac ac')
    (accounts (gv_acc g)) (Some (0%nat, g))) as G.
  destruct G as (n & g' & E & U & Dm & _ & D).
  - exists 0%nat, g. split_and!; try done; intros a ac Ha; set_solver.
  - intros dn a ac r Ha Hfr (n & g1 & -> & U & Dm & N & D). destruct (Hn a ac Ha) as [Hla Hna].
    destruct (dbctl_restrict_at cfg sys command clk a ac n g1 Hok (wf_account_key _ Hw a ac Ha)
                Hu Hla Hna) as (n' & g2 & ac2 & -> & U2 & A2 & R); [by rewrite U|by rewrite N|].
    exists n', g2. split; [done|]. split; [congruence|]. rewrite A2. split; [|split].
    + rewrite dom_insert_L, Dm. apply elem_of_dom_2 in Ha. set_solver.
    + intros b Hb. rewrite lookup_insert_ne by set_solver. apply N. set_solver.
    + intros b ac' Hb Hac'. destruct (String.eqb_spec b a) as [->|Hne].
      * rewrite lookup_insert_eq. exists ac2. split; [done|]. rewrite Ha in Hac'. by injection Hac' as <-.
      * rewrite lookup_insert_ne by done. apply D; [set_solver|done].
  - rewrite E. exists g'. do 3 (split; [done|]). intros a ac Ha. apply D; [|done].
    apply elem_of_dom. eauto.
Qed.

(** ** A user that is not known *)

(** The account that a new user joins. *)
Definition account_to_join `{HashOrder} (cfg : governor_config) (g : gov) (u : string) : string :=
  ua_account (snd (get_user_account cfg (gv_map g) true u (gv_acc g))).

(** RESTRICT adds no account to the table that it walks. *)
Definition walk_safe `{HashOrder} (cfg : governor_config) (u : string) (g : gov) : Prop :=
  is_Some (users (gv_acc g) !! u)
  \/ strlen u < USERNAMEMAXLEN /\ is_Some (accounts (gv_acc g) !! account_to_join cfg g u)
  \/ accounts (gv_acc g) = ∅.

Lemma unknown_user_joins `{HashOrder} cfg g u : intervals_wf (c_intervals cfg) -> acc_wf (gv_acc g) ->
  strlen u < USERNAMEMAXLEN -> users (gv_acc g) !! u = None ->
  exists s us, add_user_stats cfg (gv_map g) true u (gv_acc g) = Some (s, us)
    /\ us_account us = account_to_join cfg g u /\ acc_wf s /\ users s = <[u := us]> (users (gv_acc g))
    /\ tick_id s = tick_id (gv_acc g) /\ us_tick us = 0
    /\ (forall a, a <> us_account us -> accounts s !! a = accounts (gv_acc g) !! a)
    /\ accounts s !! us_account us
       = let ac := default (init_account (us_account us)) (accounts (gv_acc g) !! us_account us) in
         Some (with_users ac (ac_users ac ++ [u])%list).
Proof.
  intros Hiv Hw Hu Hn.
  destruct (add_user_stats_spec cfg (gv_map g) true u (gv_acc g) Hiv Hw Hu Hn) as (s & us & E & Hw' & _ & Us & Tk & _ & Ho).
  exists s, us. pose proof (add_user_stats_tick _ _ _ _ _ _ _ E) as H0. split; [done|].
  assert (us_account us = account_to_join cfg g u /\ accounts s !! us_account us
       = let ac := default (init_account (us_account us)) (accounts (gv_acc g) !! us_account us) in
         Some (with_users ac (ac_users ac ++ [u])%list)) as [? ?]; [|done].
  unfold account_to_join. revert E. unfold add_user_stats.
  pose proof (get_user_account_spec cfg (gv_map g) true u (gv_acc g) Hu (wf_ua_key _ Hw)) as G.
  destruct (get_user_account _ _ _ _ _) as [s1 ua]. destruct G as (Ga & _ & _ & Gn & _). rewrite Gn.
  unfold init_user_stats. destruct (init_samples _); [|done]. cbn [mbind option_bind]. intros [= <- <-].
  split; [done|]. cbn [us_account]. unfold set_account, set_user. cbn. by rewrite lookup_insert_eq, Ga.
Qed.

(** The callback at the first account, when the user is not known. *)
Lemma dbctl_restrict_first `{HashOrder} cfg sys command clk a n g s us ac :
  let u := o_username (d_options command) in
  cfg_ok cfg -> strlen u < USERNAMEMAXLEN -> users (gv_acc g) !! u = None ->
  add_user_stats cfg (gv_map g) true u (gv_acc g) = Some (s, us) ->
  is_Some (accounts (gv_acc g) !! us_account us) ->
  accounts s !! us_account us = Some ac -> ac_id ac = us_account us -> names_ok ac -> u ∈ ac_users ac ->
  forall x, exists n' g' ac', dbctl_restrict_set cfg sys command clk a x (Some (n, g)) = Some (n', g')
    /\ users (gv_acc g') = users s /\ accounts (gv_acc g') = <[us_account us := ac']> (accounts s)
    /\ restricted_if u (us_account us) ac ac'.
Proof.
  intros u Hok Hu Hn E [ac0 Ha0] Ha Hid Hna Hin x. unfold dbctl_restrict_set. cbn [mbind option_bind]. fold u.
  rewrite Hn, E. cbn [mbind option_bind]. rewrite Ha0. cbn [mbind option_bind]. rewrite Ha. cbn [mbind option_bind].
  assert (comapre_users_name u ac =? 0 = true) as ->.
  { unfold comapre_users_name. by rewrite existsb_user, bool_decide_eq_true_2. }
  rewrite orb_true_r. eexists _, _, _. split; [reflexivity|]. split; [done|]. split; [reflexivity|].
  unfold restricted_if, selected. rewrite (bool_decide_eq_true_2 (u ∈ _)), orb_true_r by done.
  by apply restrict_by_hand_effect.
Qed.

Lemma restricted_again u a ac ac1 ac2 : restricted_if u a ac ac1 -> restricted_if u a ac1 ac2 ->
  restricted_if u a ac ac2.
Proof.
  unfold restricted_if. destruct (selected u a ac) eqn:E; [|by intros ->; rewrite E].
  intros (_ & _ & (I1 & U1 & C1)). unfold selected in *. rewrite U1, E.
  intros (? & ? & (I2 & U2 & C2)). split; [done|]. split; [done|]. split_and!; congruence.
Qed.

(** The walk with an unknown user: its account is restricted at the first
    callback, and every account of the name at its own. *)
Lemma restrict_unknown_spec `{HashOrder} (cfg : governor_config) (sys : sysinfo)
    (command : DbCtlCommand) (clk : clock Z) (g : gov) s us :
  let u := o_username (d_options command) in
  cfg_ok cfg -> acc_wf s -> strlen u < USERNAMEMAXLEN ->
  (forall a ac, accounts s !! a = Some ac -> strlen a < USERNAMEMAXLEN /\ names_ok ac) ->
  users (gv_acc g) !! u = None -> add_user_stats cfg (gv_map g) true u (gv_acc g) = Some (s, us) ->
  users s !! u = Some us -> dom (accounts s) = dom (accounts (gv_acc g)) ->
  (is_Some (accounts (gv_acc g) !! u) -> us_account us = u) ->
  exists g', restrict_command cfg sys command clk g = Some g' /\ users (gv_acc g') = users s
    /\ forall a ac, accounts s !! a = Some ac -> exists ac',
         accounts (gv_acc g') !! a = Some ac' /\ restricted_if u a ac ac'.
Proof.
  intros u Hok Hw Hu Hn Hun E Hus Hdom Hname. set (t := us_account us).
  destruct (wf_user_account _ Hw u us Hus) as (ac0 & Ha0 & Hin0). fold t in Ha0.
  assert (is_Some (accounts (gv_acc g) !! t)) as Ht.
  { apply elem_of_dom. rewrite <- Hdom. by apply elem_of_dom_2 in Ha0. }
  assert (forall a ac, accounts s !! a = Some ac -> a <> t -> selected u a ac = false) as Hno.
  { intros a ac Ha Hne. unfold selected. apply orb_false_iff. split.
    - apply String.eqb_neq. intros ->. apply Hne. symmetry. apply Hname. apply elem_of_dom. rewrite <- Hdom.
      by apply elem_of_dom_2 in Ha.
    - apply bool_decide_eq_false_2. intros Hin. destruct (wf_account_users _ Hw a ac u Ha Hin) as (us' & Hus' & Ea).
      rewrite Hus in Hus'. injection Hus' as <-. by destruct Hne. }
  unfold restrict_command.
  pose proof (ht_foreach_ind (dbctl_restrict_set cfg sys command clk)
    (fun done r => exists n g', r = Some (n, g') /\ (done = ∅ -> g' = g)
      /\ (done <> ∅ -> users (gv_acc g') = users s
           /\ (forall a, a <> t -> accounts (gv_acc g') !! a = accounts s !! a)
           /\ exists ac, accounts (gv_acc g') !! t = Some ac /\ restricted_if u t ac0 ac))
    (accounts (gv_acc g)) (Some (0%nat, g))) as G.
  destruct G as (n & g' & Eg & _ & D); [by exists 0%nat, g|..].
  - intros dn a x r Hax Hfr (n & g1 & -> & He & Hd). destruct (decide (dn = ∅)) as [Ed|Ed].
    + rewrite (He Ed). destruct (dbctl_restrict_first cfg sys command clk a n g s us ac0 Hok Hu Hun E Ht Ha0
        (wf_account_key _ Hw _ _ Ha0) (proj2 (Hn _ _ Ha0)) Hin0 x) as (n' & g2 & ac2 & E2 & U2 & A2 & R2).
      exists n', g2. split; [exact E2|]. split; [set_solver|]. intros _. rewrite A2. split; [done|].
      split; [intros b Hb; by rewrite lookup_insert_ne|]. rewrite lookup_insert_eq. by eexists.
    + destruct (Hd Ed) as (U1 & A1 & ac1 & T1 & R1).
      assert (exists ac, accounts (gv_acc g1) !! a = Some ac /\ ac_id ac = a /\ strlen a < USERNAMEMAXLEN /\ names_ok ac
                /\ (a <> t -> selected u a ac = false)) as (ac & Ha & Hid & Hla & Hna & Hsel).
      { destruct (decide (a = t)) as [->|Hne].
        - exists ac1. destruct (Hn t ac0 Ha0). assert (same_users ac0 ac1) as [I1 U1'].
          { unfold restricted_if in R1. destruct (selected u t ac0); [apply load_users, R1|by subst]. }
          unfold names_ok. rewrite I1, U1', (wf_account_key _ Hw _ _ Ha0). done.
        - assert (is_Some (accounts s !! a)) as [ac Hac].
          { apply elem_of_dom. rewrite Hdom. by apply elem_of_dom_2 in Hax. }
          exists ac. rewrite A1 by done. destruct (Hn a ac Hac).
          split; [done|]. split; [by eapply wf_account_key|]. split; [done|]. split; [done|]. by apply Hno. }
      destruct (dbctl_restrict_at cfg sys command clk a ac n g1 Hok Hid Hu Hla Hna) as (n' & g2 & ac2 & E2 & U2 & A2 & R2);
        [rewrite U1; by eexists|done|].
      assert (dbctl_restrict_set cfg sys command clk a x (Some (n, g1)) = Some (n', g2)) as E2' by exact E2.
      fold u in R2. exists n', g2. split; [exact E2'|]. split; [set_solver|]. intros _. rewrite A2. split; [congruence|].
      split.
      * intros b Hb. destruct (decide (b = a)) as [->|Hne]; [|rewrite lookup_insert_ne by done; by apply A1].
        rewrite lookup_insert_eq. unfold restricted_if in R2. rewrite (Hsel Hb) in R2. subst ac2. by rewrite <- A1, Ha.
      * destruct (decide (a = t)) as [->|Hne]; [|by rewrite lookup_insert_ne; [exists ac1|]].
        rewrite lookup_insert_eq. exists ac2. split; [done|]. rewrite T1 in Ha. injection Ha as ->. by eapply restricted_again.
  - rewrite Eg. exists g'. split; [done|].
    destruct D as (U & A & ac & T & R); [intros Ed; apply elem_of_dom in Ht; set_solver|]. split; [done|].
    intros a ac' Ha. destruct (decide (a = t)) as [->|Hne].
    + rewrite Ha0 in Ha. injection Ha as <-. by exists ac.
    + exists ac'. rewrite A by done. split; [done|]. unfold restricted_if. by rewrite (Hno a ac' Ha Hne).
Qed.

Lemma foreach_none `{HashOrder} {V S} (m : gmap string V) (f : string -> V -> option S -> option S) s :
  (forall k v, f k v None = None) -> (forall k v, f k v s = None) -> m <> ∅ -> ht_foreach m f s = None.
Proof.
  intros H0 Hs Hm. apply (ht_foreach_ind f (fun done r => (done = ∅ -> r = s) /\ (done <> ∅ -> r = None))).
  - by split.
  - intros dn k v r _ _ [He Hd]. split; [set_solver|]. intros _. destruct (decide (dn = ∅)) as [Ed|Ed].
    + by rewrite (He Ed).
    + by rewrite (Hd Ed).
  - intros Ed. apply Hm. by apply dom_empty_iff_L in Ed.
Qed.

Lemma foreach_empty `{HashOrder} {V S} (f : string -> V -> S -> S) s : ht_foreach (∅ : gmap string V) f s = s.
Proof. apply (ht_foreach_ind f (fun _ r => r = s)); [done|]. intros dn k v r Hk. by rewrite lookup_empty in Hk. Qed.

(** A user whose account is not there: GLib forbids the walk. *)
Lemma restrict_new_account `{HashOrder} (cfg : governor_config) (sys : sysinfo)
    (command : DbCtlCommand) (clk : clock Z) (g : gov) :
  let u := o_username (d_options command) in
  intervals_wf (c_intervals cfg) -> acc_wf (gv_acc g) -> strlen u < USERNAMEMAXLEN ->
  users (gv_acc g) !! u = None -> accounts (gv_acc g) !! account_to_join cfg g u = None ->
  accounts (gv_acc g) <> ∅ -> restrict_command cfg sys command clk g = None.
Proof.
  intros u Hiv Hw Hu Hn Ha Hne. unfold restrict_command. rewrite foreach_none; [done|done| |done].
  intros k ac. unfold dbctl_restrict_set. cbn [mbind option_bind]. fold u. rewrite Hn.
  destruct (unknown_user_joins cfg g u Hiv Hw Hu Hn) as (s & us & -> & Ea & _). cbn [mbind option_bind].
  by rewrite Ea, Ha.
Qed.

(** The tables that the command works on: those there are, or those with
    the user that it adds. *)
Definition with_named `{HashOrder} (cfg : governor_config) (u : string) (g : gov) : option acc_state :=
  match users (gv_acc g) !! u with
  | Some _ => Some (gv_acc g)
  | None => fst <$> add_user_stats cfg (gv_map g) true u (gv_acc g)
  end.

(** C14: The restrict command of the administrator on a name that is a known user, or whose
    account is in the table: it restricts exactly the accounts that the name names, by the
    account or by one of its users, and leaves every other account and the users as they are; a
    name that is no known user is first added as a user of its account. When the name is no
    known user and its account is not in the table, the command adds the account to the table
    during its walk, and the result is undefined. Conditions: the tables are well formed and
    hold some account, the names are shorter than 64 characters, the timeouts and intervals of
    the configuration are positive, and a name of an account that is no known user joins the
    account of this name. *)
Theorem restrict_command_exact `{HashOrder} (cfg : governor_config) (sys : sysinfo)
    (command : DbCtlCommand) (clk : clock Z) (g : gov) :
  let u := o_username (d_options command) in
  cfg_ok cfg -> intervals_wf (c_intervals cfg) -> acc_wf (gv_acc g) -> strlen u < USERNAMEMAXLEN ->
  (forall a ac, accounts (gv_acc g) !! a = Some ac -> strlen a < USERNAMEMAXLEN /\ names_ok ac) ->
  (users (gv_acc g) !! u = None -> is_Some (accounts (gv_acc g) !! u) -> account_to_join cfg g u = u) ->
  accounts (gv_acc g) <> ∅ ->
  if bool_decide (is_Some (users (gv_acc g) !! u) \/ is_Some (accounts (gv_acc g) !! account_to_join cfg g u))
  then exists s g', with_named cfg u g = Some s /\ acc_wf s
    /\ restrict_command cfg sys command clk g = Some g' /\ users (gv_acc g') = users s
    /\ forall a ac, accounts s !! a = Some ac -> exists ac',
         accounts (gv_acc g') !! a = Some ac' /\ restricted_if u a ac ac'
  else restrict_command cfg sys command clk g = None.
Proof.
  intros u Hok Hiv Hw Hu Hn Hname Hne. unfold with_named. case_bool_decide as Hc.
  - destruct (users (gv_acc g) !! u) as [us|] eqn:Eu.
    + destruct (restrict_command_spec cfg sys command clk g Hok Hw Hu Hn ltac:(by eexists)) as (g' & E & U & _ & D).
      by exists (gv_acc g), g'.
    + destruct Hc as [[? ?]|Ha]; [done|].
      destruct (unknown_user_joins cfg g u Hiv Hw Hu Eu) as (s & us & E & Ea & Hws & Us & _ & _ & Ho & Ho').
      rewrite E. cbn [fmap option_fmap option_map fst]. rewrite <- Ea in *. destruct Ha as [ac0 Ha]. rewrite Ha in Ho'.
      cbn [default from_option id] in Ho'.
      destruct (restrict_unknown_spec cfg sys command clk g s us Hok Hws Hu) as (g' & Eg & U & D); try done.
      * intros a ac Hac. destruct (decide (a = us_account us)) as [->|Hna]; [|apply Hn; by rewrite <- Ho].
        rewrite Ho' in Hac. injection Hac as <-. destruct (Hn _ _ Ha) as [? Hno]. split; [done|].
        unfold names_ok in *. cbn [ac_users with_users]. apply list.Forall_app. split; [done|].
        by apply list.Forall_singleton.
      * rewrite Us. apply lookup_insert_eq.
      * apply leibniz_equiv. intros a. rewrite !elem_of_dom. destruct (decide (a = us_account us)) as [->|Hna].
        -- rewrite Ha, Ho'. split; by eexists.
        -- by rewrite Ho.
      * by apply Hname.
      * by exists s, g'.
  - destruct (restrict_new_account cfg sys command clk g) as []; try done.
    + apply eq_None_not_Some. tauto.
    + apply eq_None_not_Some. tauto.
Qed.

(** A known user, a user of a known account, and one of a new account. *)
Definition example_named (u : string) : DbCtlCommand :=
  mkDbCtlCommand RESTRICT "" (mkDbCtlOptions u 0 0 0 1 0 0).

Lemma restrict_command_exact_witness :
  (exists g' ac', restrict_command (H := default_order) example_config example_sys (example_named "bob_wp")
               (clk_const example_now) example_gov = Some g'
    /\ accounts (gv_acc g') !! "bob" = Some ac' /\ 0 < ac_timeout ac')
  /\ (exists g' ac', restrict_command (H := default_order) example_config example_sys (example_named "bob")
               (clk_const example_now) example_gov = Some g'
    /\ accounts (gv_acc g') !! "bob" = Some ac' /\ 0 < ac_timeout ac' /\ "bob" ∈ ac_users ac')
  /\ restrict_command (H := default_order) example_config example_sys (example_named "eve")
       (clk_const example_now) example_gov = None.
Proof.
  assert (forall a ac, accounts (gv_acc example_gov) !! a = Some ac -> strlen a < USERNAMEMAXLEN /\ names_ok ac) as Hn.
  { intros a ac Ha. cbn in Ha. apply lookup_singleton_Some in Ha as [<- <-]. split; [reflexivity|]. by repeat constructor. }
  assert (accounts (gv_acc example_gov) <> ∅) as Hne by (vm_compute; discriminate).
  assert (intervals_wf (c_intervals example_config)) as Hiv by (unfold intervals_wf; simpl; lia).
  pose proof (fun u Hu Hname => restrict_command_exact (H := default_order) example_config example_sys (example_named u)
    (clk_const example_now) example_gov example_cfg_ok Hiv example_wf Hu Hn Hname Hne) as G.
  split; [|split].
  - destruct (G "bob_wp" eq_refl ltac:(discriminate)) as (s & g' & Es & _ & A & _ & B).
    vm_compute in Es. injection Es as <-. destruct (B "bob" _ eq_refl) as (ac' & C & D).
    exists g', ac'. split; [exact A|]. split; [exact C|]. apply D.
  - destruct (G "bob" eq_refl (fun _ _ => eq_refl)) as (s & g' & Es & _ & A & _ & B).
    vm_compute in Es. injection Es as <-. destruct (B "bob" _ eq_refl) as (ac' & C & D).
    exists g', ac'. split; [exact A|]. split; [exact C|]. destruct D as (D1 & _ & _ & D2 & _). split; [exact D1|].
    rewrite D2. apply (bool_decide_unpack _). vm_compute. exact I.
  - apply (G "eve" eq_refl). intros _ [? Hx]. vm_compute in Hx. discriminate.
Defined.

(** ** The list of all users *)

Lemma add_users_spec `{HashOrder} us g l (A : gset string) :
  Forall (fun u => strlen u < USERNAMEMAXLEN) us -> gv_bad g = Some l -> list_inv l ->
  dom (abs l) ⊆ A -> list_to_set us ⊆ A -> Z.of_nat (base.size A) < MAX_ITEMS_IN_TABLE - 1 ->
  exists g' l', add_users us g = Some g' /\ gv_bad g' = Some l' /\ list_inv l'
    /\ dom (abs l') ⊆ A /\ (forall u, listed l' u = listed l u || bool_decide (u ∈ us)).
Proof.
  revert g l. induction us as [|u us IH]; intros g l Hn Hb Hi Hd Hin Hsz.
  - exists g, l. split_and!; try done. intros u. rewrite bool_decide_eq_false_2, orb_false_r; [done|].
    apply not_elem_of_nil.
  - apply list.Forall_cons in Hn as [Hu Hn]. cbn [add_users]. rewrite Hb.
    destruct (run_add (gv_map g) l u 1 Hi Hu) as (l1 & -> & Hi1 & Ha1).
    set (sp := spec_op (get_uid (gv_map g)) (OpAdd u 1) (abs l)) in *.
    assert (exists d, abs l1 = <[u := d]> (abs l)) as [d Ed].
    { unfold sp, spec_op in Ha1. destruct (abs l !! u) as [v|] eqn:El; simpl in Ha1.
      - exists v. by rewrite insert_id.
      - rewrite abs_size in Ha1 by done. pose proof (size_bound l A Hi Hd).
        destruct (Z.eqb_spec (numbers l + 1) MAX_ITEMS_IN_TABLE); [lia|]. eauto. }
    cbn [mbind option_bind].
    destruct (IH (set_bad_list (Some l1) g) l1 Hn) as (g' & l' & -> & Hb' & Hi' & Hd' & Hl');
      [done|done|rewrite Ed, dom_insert; set_solver|set_solver|done|].
    exists g', l'. split_and!; try done. intros v. rewrite Hl', (listed_insert _ _ v _ _ Ed).
    destruct (String.eqb_spec u v) as [->|Hne].
    + rewrite (bool_decide_eq_true_2 (v ∈ v :: us)) by (by left). by rewrite orb_true_r.
    + f_equal. apply bool_decide_ext. set_solver.
Qed.

Lemma add_users_acc `{HashOrder} us g g' : add_users us g = Some g' -> gv_acc g' = gv_acc g.
Proof.
  revert g. induction us as [|u us IH]; intros g; cbn [add_users]; [by intros [= ->]|].
  destruct (add_user_to_list _ _ _ _ _ _) as [[b r]|]; [|done]. cbn [mbind option_bind].
  intros E. by rewrite (IH _ E).
Qed.

(** The pass over the accounts lists the users of those visited. *)
Lemma add_all_users_pass `{HashOrder} g : acc_wf (gv_acc g) ->
  (forall u, is_Some (users (gv_acc g) !! u) -> strlen u < USERNAMEMAXLEN) ->
  Z.of_nat (base.size (users (gv_acc g))) < MAX_ITEMS_IN_TABLE - 1 ->
  gv_bad g = Some clear_bad_users_list ->
  exists g' l, ht_foreach (accounts (gv_acc g)) add_all_users_to_list (Some g) = Some g'
    /\ gv_bad g' = Some l /\ list_inv l
    /\ forall u, listed l u = true <->
         exists a ac, accounts (gv_acc g) !! a = Some ac /\ u ∈ ac_users ac.
Proof.
  intros Hw Hn Hsz Hb. set (A := dom (users (gv_acc g))).
  assert (forall a ac u, accounts (gv_acc g) !! a = Some ac -> u ∈ ac_users ac -> u ∈ A) as Hin.
  { intros a ac u Ha Hu. destruct (wf_account_users _ Hw a ac u Ha Hu) as (us & Hus & _).
    apply elem_of_dom. eauto. }
  destruct (ht_foreach_ind add_all_users_to_list
    (fun done r => exists g' l, r = Some g' /\ gv_bad g' = Some l /\ list_inv l
      /\ dom (abs l) ⊆ A
      /\ forall u, listed l u = true <-> exists a ac, a ∈ done
           /\ accounts (gv_acc g) !! a = Some ac /\ u ∈ ac_users ac)
    (accounts (gv_acc g)) (Some g)) as (g' & l & E & Hb' & Hi & _ & Hl).
  - exists g, clear_bad_users_list. destruct clear_inv as [Hci Hca]. split_and!; try done.
    intros u. unfold listed. rewrite Hca, bool_decide_eq_true, lookup_empty. split; [by intros []|].
    intros (a & ac & Ha & _). set_solver.
  - intros dn a ac r Ha Hfr (g1 & l1 & -> & Hb1 & Hi1 & Hd1 & Hl1).
    unfold add_all_users_to_list. cbn [mbind option_bind].
    destruct (add_users_spec (ac_users ac) g1 l1 A) as (g2 & l2 & -> & Hb2 & Hi2 & Hd2 & Hl2);
      [|done|done|done| |by unfold A; rewrite size_dom|].
    + apply list.Forall_forall. intros u Hu. apply Hn. by eapply elem_of_dom, Hin.
    + intros u Hu. apply elem_of_list_to_set in Hu. by eapply Hin.
    + exists g2, l2. split_and!; try done. intros u. rewrite Hl2, orb_true_iff, Hl1, bool_decide_eq_true.
      split.
      * intros [(b & ac' & Hbd & Hac' & Hu)|Hu]; [exists b, ac'|exists a, ac]; (split; [set_solver|done]).
      * intros (b & ac' & Hbd & Hac' & Hu). destruct (String.eqb_spec b a) as [->|Hne].
        -- right. congruence.
        -- left. exists b, ac'. split; [set_solver|done].
  - exists g', l. split_and!; try done. intros u. rewrite Hl. split.
    + intros (a & ac & _ & Ha). eauto.
    + intros (a & ac & Ha & Hu). exists a, ac. split; [|done]. apply elem_of_dom. eauto.
Qed.

(** C15: After the rebuild of the list of restricted users, the list is well formed and
    holds every known user when the mode that puts all users into an LVE is on, and nobody when
    it is off. *)
Theorem reinit_users_list_all `{HashOrder} (cfg : governor_config) (content : option string)
    (g : gov) :
  acc_wf (gv_acc g) ->
  (forall u, is_Some (users (gv_acc g) !! u) -> strlen u < USERNAMEMAXLEN) ->
  Z.of_nat (base.size (users (gv_acc g))) < MAX_ITEMS_IN_TABLE - 1 ->
  is_Some (gv_bad g) ->
  exists g' l, reinit_users_list cfg content g = Some g' /\ gv_bad g' = Some l /\ list_inv l
    /\ forall u, listed l u
                 = nonzero (all_lve cfg) && bool_decide (is_Some (users (gv_acc g) !! u)).
Proof.
  intros Hw Hn Hsz [l0 Hb]. unfold reinit_users_list. rewrite Hb. cbn [delete_allusers_from_list fst].
  set (g0 := mkGov _ _ _ _ _ _ _ _ _). destruct (nonzero (all_lve cfg)).
  - destruct (add_all_users_pass g0 Hw Hn Hsz eq_refl) as (g' & l & E & Hb' & Hi & Hl).
    exists g', l. split_and!; try done. intros u. cbn [andb].
    apply eq_true_iff_eq. rewrite Hl, bool_decide_eq_true. split.
    + intros (a & ac & Ha & Hin).
      destruct (wf_account_users _ Hw a ac u Ha Hin) as (us & Hus & _). eauto.
    + intros [us Hus]. destruct (wf_user_account _ Hw u us Hus) as (ac & Ha & Hin). eauto.
  - destruct clear_inv as [Hci Hca]. exists g0, clear_bad_users_list. split; [done|]. split; [done|]. split; [done|].
    intros u. unfold listed. rewrite Hca. apply bool_decide_eq_false_2. rewrite lookup_empty. by intros [].
Qed.

Lemma reinit_users_list_all_witness :
  exists g' l, reinit_users_list (H := default_order) (example_config_of 1 1) None example_gov = Some g'
    /\ gv_bad g' = Some l /\ list_inv l /\ listed l "bob_wp" = true.
Proof.
  destruct (reinit_users_list_all (H := default_order) (example_config_of 1 1) None example_gov
              example_wf) as (g' & l & A & B & C & D).
  - intros u [us Hu]. cbn in Hu. rewrite lookup_insert_Some, lookup_singleton_Some in Hu.
    destruct Hu as [[<- _]|[_ [<- _]]]; reflexivity.
  - by vm_compute.
  - eexists. reflexivity.
  - exists g', l. rewrite D. exact (conj A (conj B (conj C eq_refl))).
Defined.
