(* ===== verification/Daemon.v ===== *)
(** The threads of the daemon: the second ([proceed_data_every_second] of
    [src/governor_server.c]), the dispatcher of the administrator's commands
    and the renewal of the map ([src/dbtop_server.c]), and the daemon as a
    system of its threads. *)

From S2P Require Import Prelude CDouble CString Data FifoStats TidTable ProcFs Server UserMap BadList Xml Config Accounts LogDecoder Commands Restrict CalcStats.
From Stdlib Require Import Sorted.
Open Scope string_scope.
Open Scope Z_scope.

(** * A second *)

Definition set_q (q : cmd_state) (g : gov) : gov :=
  mkGov (gv_acc g) (gv_tid g) (gv_counts g) (gv_stat g) q (gv_old_tm g) (gv_bad g) (gv_map g)
    (gv_files g).

(** The clocks and files read: [so_check], [so_proc] and [so_clk] by the
    check of the threads, [so_cur] by the loop, the others by
    [proceed_accounts]; [so_screen] for the lines of the restrict log. *)
Record second_io := mkSecond {
  so_check : Z * Z; so_proc : Z -> thread_files; so_clk : Z -> Z * Z; so_cur : Z * Z;
  so_stat : stat_io; so_now : Z * Z; so_clock : clock Z; so_stat_tm : Z * Z; so_timestamp : Z;
  so_screen : Z
}.

Section daemon.
Context `{HashOrder} (sys : sysinfo) (clk_tck : Z).

(** The lines of the restrict log with the statistics of the accounts. *)
Definition stats_text (what : string) (st : Stats) : string :=
  what +:+ ": cpu " +:+ fmt_f (st_cpu st) +:+ ", read " +:+ dec (st_read st) +:+ ", write "
  +:+ dec (st_write st) +:+ " |".
Definition print_to_restrict_log_account_info (cfg : governor_config) (_ : string) (ac : Account)
    (q : cmd_state) : cmd_state :=
  log_restrict cfg (prefix_n 2047 ("Screen item " +:+ ac_id ac +:+ " " +:+ stats_text "Cur" (ac_current ac)
    +:+ " " +:+ stats_text "Shrt" (ac_short_average ac) +:+ " " +:+ stats_text "Mid" (ac_mid_average ac)
    +:+ " " +:+ stats_text "Lng" (ac_long_average ac))) q.
Definition print_to_restrict_log_stats (cfg : governor_config) (tm : Z) (accs : gmap string Account)
    (q : cmd_state) : cmd_state :=
  let q := log_restrict cfg ("Begin screen " +:+ dec tm) q in
  let q := ht_foreach accs (print_to_restrict_log_account_info cfg) q in
  log_restrict cfg ("End screen " +:+ dec tm) q.

(** One turn of [proceed_data_every_second]; [old_tm] is its local. *)
Definition every_second (cfg : governor_config) (io : second_io) (old_tm : double) (g : gov)
    : option (double * gov) :=
  let g := set_tid (monitor_data_from_client (so_check io) (so_proc io) (so_clk io) (gv_tid g)) g in
  let new_tm := tm_of (so_cur io) in
  let old_tm := if deqb old_tm d0 then new_tm else old_tm in
  '(old_tm, g) ←
    (if dleb d1 (dsub new_tm old_tm) then
       g ← proceed_accounts cfg sys clk_tck (so_stat io) new_tm (so_now io) (so_clock io)
             (so_stat_tm io) (so_timestamp io) g;
       Some (new_tm, g)
     else Some (old_tm, g));
  let q := fst (send_commands_cycle cfg (gv_q g)) in
  let q := if 4 <=? restrict_format cfg
           then print_to_restrict_log_stats cfg (so_screen io) (accounts (gv_acc g)) q else q in
  Some (old_tm, set_q q g).

(** The turn in three parts, between which other threads run: the check and
    the period; the copy of the queue, [cycle_begin]; and the rest. *)
Definition second_first (cfg : governor_config) (io : second_io) (old_tm : double) (g : gov)
    : option (double * gov) :=
  let g := set_tid (monitor_data_from_client (so_check io) (so_proc io) (so_clk io) (gv_tid g)) g in
  let new_tm := tm_of (so_cur io) in
  let old_tm := if deqb old_tm d0 then new_tm else old_tm in
  if dleb d1 (dsub new_tm old_tm) then
    g ← proceed_accounts cfg sys clk_tck (so_stat io) new_tm (so_now io) (so_clock io)
          (so_stat_tm io) (so_timestamp io) g;
    Some (new_tm, g)
  else Some (old_tm, g).
Definition second_last (cfg : governor_config) (io : second_io) (copied : bool) (g : gov) : gov :=
  let q := if copied then fst (cycle_end (reinit_command_list (gv_q g))) else gv_q g in
  set_q (if 4 <=? restrict_format cfg
         then print_to_restrict_log_stats cfg (so_screen io) (accounts (gv_acc g)) q else q) g.

(** [run_server] up to [accept_connections]: the socket of the clients. *)
Definition run_server (io : socket_io) : string + Z :=
  if si_socket io <? 0 then inl "Can't create socket(DBTOP)"
  else if si_bind io <? 0 then inl "Can't server bind(DBTOP)"
  else if si_listen io <? 0 then inl "Can't server listen(DBTOP)"
  else inr (si_socket io).

(** * Commands of the administrator *)

(** The configuration, the state, the request to renew the map and the open
    descriptors of the clients. *)
Record daemon := mkDaemon {
  dm_cfg : governor_config; dm_gov : gov; dm_renew : Z; dm_open : gset Z
}.

Definition with_gov (g : gov) (d : daemon) : daemon :=
  mkDaemon (dm_cfg d) g (dm_renew d) (dm_open d).
Definition close_client (ns : Z) (d : daemon) : daemon :=
  mkDaemon (dm_cfg d) (dm_gov d) (dm_renew d) (dm_open d ∖ {[ns]}).

(** A step that may crash. *)
Definition try_gov (r : option gov) (d : daemon) : outcome daemon :=
  match r with Some g => Ok (with_gov g d) | None => Crash end.

(** What a command finds: [cm_config] is the file that [reread_config]
    reads, [cm_map] the text of the map file. *)
Record command_io := mkCommandIo {
  cm_config : outcome governor_config; cm_map : option string; cm_clock : clock Z
}.

(** [lve use="all"] or off: no single account can be restricted. *)
Definition no_single (data_cfg : governor_config) : bool :=
  nonzero (all_lve data_cfg) || negb (nonzero (use_lve data_cfg)).

(** [run_dbctl_command]: [data_cfg] is the configuration before the command.
    The listings write to their client and change nothing here. *)
Definition run_dbctl_command (io : command_io) (ns : Z) (command : DbCtlCommand) (d : daemon)
    : outcome daemon :=
  let data_cfg := dm_cfg d in
  let reread := cfg <-- cm_config io;; Ok (mkDaemon cfg (dm_gov d) (dm_renew d) (dm_open d)) in
  let close := close_client ns in
  match d_command command with
  | REREAD_CFG => d <-- reread;; Ok (close d)
  | REINIT_USERS_LIST =>
      d <-- reread;;
      let d := if nonzero (is_gpl data_cfg) then d
               else with_gov (unrestrict_all_command (dm_cfg d) (cm_clock io) (dm_gov d)) d in
      d <-- try_gov (reinit_users_list (dm_cfg d) (cm_map io) (dm_gov d)) d;;
      Ok (close d)
  | RESTRICT =>
      if nonzero (is_gpl data_cfg) then Ok (close d)
      else if no_single data_cfg then Ok (close d)
      else d <-- try_gov (restrict_command data_cfg sys command (cm_clock io) (dm_gov d)) d;;
           Ok (close d)
  | UNRESTRICT =>
      if nonzero (is_gpl data_cfg) then Ok (close d)
      else if no_single data_cfg then Ok d
      else Ok (close (with_gov (unrestrict_command data_cfg sys command (cm_clock io) (dm_gov d)) d))
  | UNRESTRICT_A =>
      if nonzero (is_gpl data_cfg) then Ok (close d)
      else if no_single data_cfg then Ok d
      else Ok (close (with_gov (unrestrict_all_command data_cfg (cm_clock io) (dm_gov d)) d))
  | DBUSER_MAP_CMD => Ok (close (mkDaemon (dm_cfg d) (dm_gov d) 1 (dm_open d)))
  | _ => Ok (close d)
  end.

(** ** Connections *)

(** The thread that [accept_connections] starts for a client. *)
Inductive client_thread := RunWriter | RunDbctlCommand | RunDbtopCommand | ClosedClient.

(** [result] is the result of [read]; the type is garbage after a short
    one. *)
Definition accept_client (result : Z) (ctt : client_type_t) : client_thread :=
  if (result =? 0) || (result =? -1) then ClosedClient
  else match ctt with
       | DBTOP => RunWriter
       | DBCTL => RunDbctlCommand
       | DBTOPCL => RunDbtopCommand
       | _ => ClosedClient
       end.

(** What [accept] and the [read] behind it give. *)
Inductive accept_result := Accepted (result : Z) (ctt : client_type_t) | Interrupted | Failed.

(** The loop: any other failure than an interrupt ends the daemon. *)
Fixpoint accept_connections (l : list accept_result) : outcome (list client_thread) :=
  match l with
  | [] => Ok []
  | Accepted result ctt :: l => ts <-- accept_connections l;; Ok (accept_client result ctt :: ts)
  | Interrupted :: l => accept_connections l
  | Failed :: _ => Exit "Can't server accept(DBTOP)"
  end.

(** ** Renewal of the map *)

Definition DBMAPHOOK_ANTIDDOS : Z := 60.

(** A turn of [renew_map_on_request]: the flag, the time of the last renewal
    and whether the script is started. *)
Definition renew_round (current_check : Z) (flag last_renew : Z) : Z * Z * bool :=
  if nonzero flag && (s64 (last_renew + DBMAPHOOK_ANTIDDOS) <? current_check)
  then (0, current_check, true) else (flag, last_renew, false).

(** The thread: [l] are the times of its checks, each with whether a request
    has come since the one before; the result are the times at which the
    script is started. *)
Fixpoint renew_map_on_request (l : list (Z * bool)) (flag last_renew : Z) : list Z :=
  match l with
  | [] => []
  | (current_check, request) :: l =>
      let '(flag, last_renew, started) := renew_round current_check (if request then 1 else flag) last_renew in
      if started then current_check :: renew_map_on_request l flag last_renew
      else renew_map_on_request l flag last_renew
  end.
End daemon.

(** * Lemmas *)

(** ** The renewal of the map *)

(** Two starts of the script are more than a minute apart. *)
Lemma renewals_apart l flag last : Forall (fun c => 0 <= fst c < 2 ^ 62) l -> 0 <= last < 2 ^ 62 ->
  LocallySorted (fun a b => a + DBMAPHOOK_ANTIDDOS < b) (last :: renew_map_on_request l flag last).
Proof.
  intros Hl. revert flag last. induction Hl as [|[now req] l Hn Hl IH]; intros flag last Hlast; [constructor|].
  cbn [renew_map_on_request fst] in *. unfold renew_round. rewrite s64_id by (unfold in_s64, DBMAPHOOK_ANTIDDOS; lia).
  destruct (nonzero _ && _) eqn:E; cbn iota beta; [|by apply IH].
  bools. constructor; [by apply IH|done].
Qed.

(** A request that stands at a check more than a minute after the last start
    is honoured by it. *)
Lemma renewal_honoured l now req flag last : in_s64 (last + DBMAPHOOK_ANTIDDOS) ->
  last + DBMAPHOOK_ANTIDDOS < now -> req = true \/ flag <> 0 ->
  renew_map_on_request ((now, req) :: l) flag last = now :: renew_map_on_request l 0 now.
Proof.
  intros Hr Hlt Hreq. cbn [renew_map_on_request]. unfold renew_round. rewrite s64_id by done.
  assert (nonzero (if req then 1 else flag) = true) as ->.
  { destruct Hreq as [->|Hf]; [done|]. destruct req; [done|]. unfold nonzero. by rewrite (proj2 (Z.eqb_neq _ _) Hf). }
  by rewrite (proj2 (Z.ltb_lt _ _) Hlt).
Qed.

(** ** The queue of commands holds names that fit their buffers *)

Definition short_q (q : cmd_state) : Prop :=
  forall c, Some c ∈ default [] (command_list q) \/ Some c ∈ default [] (command_list_send q) ->
    strlen (c_username c) < USERNAMEMAXLEN.

Lemma short_queue c u q : short_q q -> short_q (queue_command c u q).
Proof.
  intros Hq. unfold queue_command. destruct (command_list q) as [l|] eqn:El; [|done].
  intros x Hx. cbn [set_list command_list command_list_send default] in Hx.
  destruct Hx as [Hx|Hx]; [|apply Hq; by right].
  unfold g_list_append in Hx. apply elem_of_app in Hx as [Hx|Hx].
  - apply Hq. left. by rewrite El.
  - apply list_elem_of_singleton in Hx as [= ->]. by apply strlcpy_str_len.
Qed.

Lemma short_fold {A} (f : cmd_state -> A -> cmd_state) l q :
  (forall q x, short_q q -> short_q (f q x)) -> short_q q -> short_q (fold_left f l q).
Proof. intros Hf. revert q. induction l as [|x l IH]; intros q Hq; [done|]. by apply IH, Hf. Qed.

Lemma short_unrestrict cfg ac q : short_q q -> short_q (account_unrestrict cfg ac q).
Proof.
  intros Hq. unfold account_unrestrict. destruct (nonzero _); [done|]. destruct (nonzero _); [done|].
  destruct (_ && _); [done|]. apply short_fold; [|done]. intros q' u. by apply short_queue.
Qed.

Lemma short_restrict cfg sys ac sl q : short_q q -> short_q (account_restrict cfg sys ac sl q).
Proof.
  intros Hq. unfold account_restrict. destruct (nonzero _); [done|]. destruct (_ || _); [done|].
  assert (short_q (fold_left (restrict_user cfg) (ac_users ac) q)) as G.
  { apply short_fold; [|done]. intros q' u Hq'. unfold restrict_user.
    destruct (command_list q'); [|done]. destruct (_ =? 2); by apply short_queue. }
  by destruct (exec_script cfg).
Qed.

Lemma short_log cfg line q : short_q q -> short_q (log_restrict cfg line q).
Proof. unfold log_restrict. by destruct (restrict_log cfg). Qed.

Definition keeps_queue (handler : clock Z -> rstate -> rstate) : Prop :=
  forall clk r, short_q (r_q r) -> short_q (r_q (handler clk r)).

Lemma check_restrict_queue cfg sys clk r : short_q (r_q r) ->
  short_q (r_q (fst (check_restrict cfg sys clk r))).
Proof.
  intros Hq. rewrite check_restrict_eq. destruct (first_over _ _) as [[p f]|]; [|done].
  cbn [fst]. unfold restrict_account. destruct (get_timeout _ _ _). cbn [r_q].
  apply short_log. destruct (_ =? 0); [by apply short_restrict|done].
Qed.

Lemma check_limit_queue cfg sys clk r : short_q (r_q r) ->
  short_q (r_q (fst (check_restrict_limit cfg sys clk r))).
Proof.
  intros Hq. rewrite check_restrict_limit_eq. destruct (first_over _ _) as [[p f]|]; [|done].
  cbn [fst]. unfold restrict_account_limit. cbn [r_q].
  apply short_log. destruct (_ =? 0); [by apply short_restrict|done].
Qed.

(** Both analyses start with a check when the account is free. *)
Lemma first_check_queue (check : clock Z -> rstate -> rstate * bool) (b : bool) clk r :
  (short_q (r_q r) -> short_q (r_q (fst (check clk r)))) -> short_q (r_q r) ->
  short_q (r_q (fst (if b then check clk r else (r, false)))).
Proof. destruct b; auto. Qed.

Lemma analyze_queue cfg sys : keeps_queue (account_analyze cfg sys).
Proof.
  intros clk r Hq. unfold account_analyze.
  destruct (_ || _); [done|]. destruct (bool_decide _); [|done].
  pose proof (first_check_queue (check_restrict cfg sys) (0 =? ac_timeout (r_ac r)) clk r
                (check_restrict_queue cfg sys clk r) Hq) as H1.
  destruct (if 0 =? ac_timeout (r_ac r) then _ else _) as [r1 stop]. cbn [fst] in H1.
  destruct stop; [done|]. destruct (0 <? _); [|done]. destruct (_ && _).
  - set (r2 := set_ac _ r1). pose proof (check_restrict_queue cfg sys (clk_skip 4 clk) r2 H1) as H3.
    destruct (check_restrict _ _ _ r2) as [r3 over]. destruct over; [done|]. by apply short_unrestrict.
  - by destruct (_ && _).
Qed.

Lemma analyze_limit_queue cfg sys : keeps_queue (account_analyze_limit cfg sys).
Proof.
  intros clk r Hq. unfold account_analyze_limit.
  destruct (_ || _); [done|]. destruct (bool_decide _); [|done].
  pose proof (first_check_queue (check_restrict_limit cfg sys) (0 =? ac_timeout (r_ac r)) clk r
                (check_limit_queue cfg sys clk r) Hq) as H1.
  destruct (if 0 =? ac_timeout (r_ac r) then _ else _) as [r1 stop]. cbn [fst] in H1.
  destruct stop; [done|]. destruct (0 <? _); [|done].
  pose proof (check_limit_queue cfg sys (clk_skip 3 clk) r1 H1) as H3.
  destruct (check_restrict_limit _ _ _ r1) as [r3 over]. cbn [fst] in H3.
  destruct over; [done|]. destruct (_ && _); [|done]. by apply short_unrestrict.
Qed.

Lemma unrestrict_set_queue cfg sys u : keeps_queue (dbctl_unrestrict_set cfg sys u).
Proof.
  intros clk r Hq. unfold dbctl_unrestrict_set. destruct (strcmp_eq _ _); [|done].
  set (r1 := set_ac _ r). pose proof (check_restrict_queue cfg sys clk r1 Hq) as H1.
  destruct (check_restrict _ _ _ r1) as [r2 over]. destruct over; [done|]. by apply short_unrestrict.
Qed.

Lemma unrestrict_all_queue cfg : keeps_queue (fun _ => dbctl_unrestrict_all_set cfg).
Proof.
  intros clk r Hq. unfold dbctl_unrestrict_all_set. destruct (nonzero _); [|done].
  by apply short_unrestrict.
Qed.

Lemma by_hand_queue cfg sys level now start r : short_q (r_q r) ->
  short_q (r_q (restrict_by_hand cfg sys level now start r)).
Proof.
  intros Hq. unfold restrict_by_hand. destruct (if level =? -1 then _ else _) as [lv co].
  destruct (if nonzero (restrict_mode cfg) then _ else _) as [[? ?] ?]. cbn [r_q].
  by apply short_log, short_restrict.
Qed.

Lemma short_begin cfg q : short_q q -> short_q (fst (cycle_begin cfg q)).
Proof.
  intros Hq. unfold cycle_begin. destruct (nonzero _); [done|]. destruct (negb _); [|done].
  cbn [fst]. unfold copy_list. apply short_fold.
  - intros q' [c|] Hq'; [|done]. unfold copy_commands.
    destruct (command_list_send q') as [l|] eqn:El; [|done]. intros x [Hx|Hx]; [apply Hq'; by left|].
    cbn in Hx. apply elem_of_app in Hx as [Hx|Hx]; [apply Hq'; right; by rewrite El|].
    apply list_elem_of_singleton in Hx as [= ->]. by apply strlcpy_str_len.
  - intros x [Hx|Hx]; [apply Hq; by left|]. cbn in Hx. by apply list_elem_of_singleton in Hx.
Qed.

Lemma short_end q : short_q q -> short_q (fst (cycle_end (reinit_command_list q))).
Proof.
  intros Hq. assert (short_q (reinit_command_list q)) as H0.
  { intros x [Hx|Hx]; [cbn in Hx; by apply list_elem_of_singleton in Hx|]. apply Hq. by right. }
  unfold cycle_end. generalize (command_list_send (reinit_command_list q)) at 1.
  intros [[|]|]; exact H0.
Qed.

(** The cycle is its two critical sections. *)
Lemma cycle_sections cfg q :
  send_commands_cycle cfg q
  = let '(q', copied) := cycle_begin cfg q in
    if copied then cycle_end (reinit_command_list q') else (q', false).
Proof. unfold send_commands_cycle, cycle_begin. destruct (nonzero _); [done|]. by destruct (negb _). Qed.

Lemma short_cycle cfg q : short_q q -> short_q (fst (send_commands_cycle cfg q)).
Proof.
  intros Hq%(short_begin cfg). rewrite cycle_sections. destruct (cycle_begin cfg q) as [q' [|]]; [|done].
  by apply short_end.
Qed.

Lemma every_second_parts `{HashOrder} sys clk_tck cfg io old_tm g :
  every_second sys clk_tck cfg io old_tm g
  = '(tm, g) ← second_first sys clk_tck cfg io old_tm g;
    let '(q, copied) := cycle_begin cfg (gv_q g) in
    Some (tm, second_last cfg io copied (set_q q g)).
Proof.
  unfold every_second, second_first, second_last.
  destruct (if dleb _ _ then _ else _) as [[tm g']|]; [|done]. cbn [mbind option_bind].
  rewrite cycle_sections. by destruct (cycle_begin cfg (gv_q g')) as [q' [|]].
Qed.

(** The shared list, which is absent without LVE. *)
Definition list_ok (b : option shm_structure) : Prop :=
  match b with Some l => list_inv l | None => True end.

Lemma add_ok `{HashOrder} um b u a : list_ok b -> strlen u < USERNAMEMAXLEN ->
  exists b' r, add_user_to_list um true true b u a = Some (b', r) /\ list_ok b'.
Proof.
  destruct b as [l|]; intros Hb Hu; [|by eexists _, _].
  destruct (run_add um l u a Hb Hu) as (l' & -> & Hi & _). by eexists _, _.
Qed.

Lemma delete_ok b u : list_ok b -> strlen u < USERNAMEMAXLEN ->
  exists b' r, delete_user_from_list (fun _ => true) b u = Some (b', r) /\ list_ok b'.
Proof.
  destruct b as [l|]; intros Hb Hu; [|by eexists _, _].
  destruct (run_del l u Hb Hu) as (l' & -> & Hi & _). by eexists _, _.
Qed.

(** The thread that carries the commands out. *)
Lemma send_command_ok `{HashOrder} um cfg c s : strlen (c_username c) < USERNAMEMAXLEN ->
  list_ok (sd_bad s) ->
  exists s', send_commands um cfg (Some c) s = Some s' /\ list_ok (sd_bad s').
Proof.
  intros Hc Hb. unfold send_commands, update_limit.
  destruct (c_command c); try by exists s.
  - destruct (nonzero (use_lve cfg)).
    + destruct (add_ok um (sd_bad s) (c_username c) (all_lve cfg) Hb Hc) as (b1 & r & -> & Hi1).
      cbn [mbind option_bind]. eexists. split; [reflexivity|].
      by destruct (logqueries_use cfg =? 1), (_ <? 0), (nonzero (max_user_connections cfg)).
    + cbn [mbind option_bind]. eexists. split; [reflexivity|]. by destruct (_ =? 1).
  - destruct (nonzero (use_lve cfg)).
    + destruct (delete_ok (sd_bad s) (c_username c) Hb Hc) as (b1 & r & -> & Hi1).
      cbn [mbind option_bind]. eexists. split; [reflexivity|].
      by destruct (nonzero (max_user_connections cfg)).
    + eexists. split; [reflexivity|]. by destruct (nonzero (max_user_connections cfg)).
Qed.

Lemma send_all_ok `{HashOrder} um cfg l s :
  (forall c, Some c ∈ l -> strlen (c_username c) < USERNAMEMAXLEN) -> list_ok (sd_bad s) ->
  exists s', send_all um cfg l s = Some s' /\ list_ok (sd_bad s').
Proof.
  revert s. induction l as [|c l IH]; intros s Hl Hb; [by exists s|]. cbn [send_all].
  assert (exists s1, send_commands um cfg c s = Some s1 /\ list_ok (sd_bad s1)) as (s1 & -> & Hb1).
  { destruct c as [c|]; [|by exists s]. apply send_command_ok; [apply Hl; by left|done]. }
  apply IH; [|done]. intros x Hx. apply Hl. by right.
Qed.

(** ** What the daemon relies on *)

(** Well formed tables, names that fit their buffers, ticks of the past and a
    well formed shared list. *)
Definition short_keys {A} (m : gmap string A) : Prop :=
  forall u, is_Some (m !! u) -> strlen u < USERNAMEMAXLEN.

Record gov_ok (g : gov) : Prop := {
  go_wf : acc_wf (gv_acc g);
  go_counters : short_keys (user_counters_list (gv_tid g));
  go_users : short_keys (users (gv_acc g));
  go_tick : 0 <= tick_id (gv_acc g);
  go_ticks : forall u us, users (gv_acc g) !! u = Some us -> 0 <= us_tick us <= tick_id (gv_acc g);
  go_bad : list_ok (gv_bad g);
  go_queue : short_q (gv_q g);
  go_map : forall m k um, gv_map g = Some m -> m !! k = Some um ->
    strlen (um_username um) < USERNAMEMAXLEN
}.

Lemma gov_ok_ext g g' : gv_acc g' = gv_acc g -> gv_bad g' = gv_bad g ->
  short_keys (user_counters_list (gv_tid g')) -> short_q (gv_q g') -> gv_map g' = gv_map g ->
  gov_ok g -> gov_ok g'.
Proof. intros Ea Eb Hc Hq Em [? ? ? ? ? ? ? ?]. by split; rewrite ?Ea, ?Eb, ?Em. Qed.

Lemma short_insert {A} (m : gmap string A) u v : short_keys m -> strlen u < USERNAMEMAXLEN ->
  short_keys (<[u := v]> m).
Proof.
  intros Hm Hu w. rewrite lookup_insert_is_Some. intros [<-|[_ Hw]]; [done|by apply Hm].
Qed.

Lemma short_increment u a b c tm s : short_keys (user_counters_list s) ->
  short_keys (user_counters_list (increment_counters u a b c tm s)).
Proof.
  intros Hs. unfold increment_counters. destruct (user_counters_list s !! u) as [i|] eqn:E.
  - apply short_insert; [done|]. apply Hs. by eexists.
  - apply short_insert; [done|]. by apply strlcpy_str_len.
Qed.

Lemma short_charge now a b c old s : short_keys (user_counters_list s) ->
  short_keys (user_counters_list (clac_stats_difference_inner_add_to_counters now a b c old s)).
Proof.
  intros Hs. unfold clac_stats_difference_inner_add_to_counters.
  destruct (dltb _ _); [destruct (dltb _ _)|]; by apply short_increment.
Qed.

Lemma short_message now m f s : short_keys (user_counters_list s) ->
  short_keys (user_counters_list (handle_message now m f s)).
Proof.
  intros Hs. unfold handle_message. destruct (m_type m =? 0); [done|].
  destruct (get_tid_data _ _); [|done]. by apply short_charge.
Qed.

Section keeps.
Context `{HO : HashOrder}.

Lemma short_remove_fd f s : short_keys (user_counters_list s) ->
  short_keys (user_counters_list (remove_tid_data_by_fd f s)).
Proof. by rewrite (proj2 (remove_tid_data_by_fd_exact f s)). Qed.

Lemma short_monitor now proc clk s : short_keys (user_counters_list s) ->
  short_keys (user_counters_list (monitor_data_from_client now proc clk s)).
Proof.
  intros Hs. unfold monitor_data_from_client, proceed_tid_data. cbn [remove_tid_bad_list set_bad user_counters_list].
  assert (short_keys (user_counters_list (ht_foreach (threads_list s) (chek_user_perf now proc clk) s))) as G.
  { apply (ht_foreach_ind (chek_user_perf now proc clk)
             (fun _ st => short_keys (user_counters_list st))); [done|].
    intros dn k item st _ _ IH. unfold chek_user_perf. destruct (dltb _ _); [|done].
    destruct (get_proc_time _), (get_io_stat _). destruct (_ || _); [done|]. by apply short_charge. }
  unfold remove_tid_bad_from_list. destruct (bad_tid_list _); [|done].
  by rewrite (proj2 (fold_remove_threads _ _)).
Qed.

Lemma short_entry io i e sv : short_keys (user_counters_list (sv_tid sv)) ->
  short_keys (user_counters_list (sv_tid (handle_entry io i e sv))).
Proof.
  intros Hs.
  assert (forall c, short_keys (user_counters_list (sv_tid (drop_connection c i e sv)))) as Hd
    by (intros []; by apply short_remove_fd).
  unfold handle_entry. destruct (_ && _).
  { unfold accept_connection. by destruct (_ =? -1). }
  destruct (has POLLNVAL e); [apply Hd|]. destruct (has POLLHUP e); [apply Hd|].
  destruct (has POLLERR e); [apply Hd|]. destruct (has POLLIN e); [|done].
  unfold read_report. destruct (_ || _); [apply Hd|]. by apply short_message.
Qed.

Lemma short_round io sv sv' : short_keys (user_counters_list (sv_tid sv)) ->
  server_round io sv = Some sv' -> short_keys (user_counters_list (sv_tid sv')).
Proof.
  intros Hs. unfold server_round.
  assert (forall fuel i ret s, short_keys (user_counters_list (sv_tid s)) ->
    entry_loop fuel io i ret s = Some sv' -> short_keys (user_counters_list (sv_tid sv'))) as G.
  2:{ destruct (ri_poll io =? -1); [|by apply G]. unfold recreate_socket.
      destruct (close_all_spec (fds sv) sv) as (_ & B & _). destruct (ri_socket io); [|done].
      cbn [mbind option_bind]. apply G. cbn [sv_tid]. by rewrite B. }
  induction fuel as [|fuel IH]; intros i ret s H0; [done|]. cbn [entry_loop].
  destruct (fds s !! i) as [e|]; [|by intros [= <-]]. destruct (negb _); [by intros [= <-]|].
  destruct (negb _); apply IH; [done|]. by apply short_entry.
Qed.
End keeps.

(** ** Passes over the accounts *)

Section passes.
Context `{HO : HashOrder}.

Lemma foreach_queue handler clk g : keeps_queue handler -> short_q (gv_q g) ->
  short_q (gv_q (foreach_account handler clk g)).
Proof.
  intros Hk Hq. unfold foreach_account.
  apply (ht_foreach_ind (on_account handler clk) (fun _ st => short_q (gv_q (snd st)))); [done|].
  intros dn a ac [n g1] _ _ IH. unfold on_account. destruct (accounts (gv_acc g1) !! a); [|done].
  by apply Hk.
Qed.

Lemma foreach_ok handler clk g : keeps same_users handler -> keeps_queue handler -> gov_ok g ->
  gov_ok (foreach_account handler clk g).
Proof.
  intros Hk Hkq Hg. pose proof Hg as [Hw Hc Hu Ht Hts Hb Hq Hm].
  destruct (foreach_account_spec handler clk g) as (U & _ & Tk & M & Td & B & _).
  destruct (analysis_keeps same_users handler clk g Hk (fun _ _ H => H) Hw) as (Hw' & _ & _).
  split; rewrite ?U, ?Tk, ?Td, ?B, ?M; try done. by apply foreach_queue.
Qed.

Lemma unrestrict_set_users cfg sys u : keeps same_users (dbctl_unrestrict_set cfg sys u).
Proof.
  intros clk r. unfold dbctl_unrestrict_set. destruct (strcmp_eq _ _); [|done].
  set (r1 := set_ac _ r). pose proof (check_restrict_load cfg sys clk r1) as (H1 & H2 & _).
  destruct (check_restrict _ _ _ r1) as [r2 over]. cbn [fst] in *. by destruct over.
Qed.

Lemma unrestrict_all_users cfg : keeps same_users (fun _ => dbctl_unrestrict_all_set cfg).
Proof. intros clk r. unfold dbctl_unrestrict_all_set. by destruct (nonzero _). Qed.

(** *** A period *)

Lemma add_dbgov_rest cfg io t ts g :
  let g' := AddDbGovStatitrics cfg io t ts g in
  gv_tid g' = gv_tid g /\ gv_bad g' = gv_bad g /\ gv_q g' = gv_q g /\ gv_map g' = gv_map g.
Proof.
  cbv zeta. unfold AddDbGovStatitrics. set (g1 := if dleb d1 _ then _ else g).
  set (same := fun g' => gv_tid g' = gv_tid g /\ gv_bad g' = gv_bad g /\ gv_q g' = gv_q g
                          /\ gv_map g' = gv_map g).
  assert (same g1) as E1.
  { subst g1. destruct (dleb d1 _); [|done].
    apply (ht_foreach_ind (dbstat_add_to_table cfg) (fun _ => same)); [done|].
    intros dn a ac g' _ _ IH. unfold dbstat_add_to_table.
    destruct (accounts (gv_acc g') !! a); [|done].
    by destruct (match gv_counts g' !! _ with Some _ => _ | None => _ end). }
  destruct (dleb d60 _); [|done].
  assert (same (fst (WriteDbGovStatitrics cfg io ts g1))) as E2.
  { unfold WriteDbGovStatitrics. destruct (io_fopen io); [|done]. by destruct (_ && _). }
  destruct (WriteDbGovStatitrics cfg io ts g1) as [g2 ok]. by destruct ok.
Qed.

(** The counters become samples: the rest of the state, and the users it
    makes. *)
Lemma collect_rest cfg clk_tck tm now g g' :
  ht_foreach (user_counters_list (gv_tid g)) (add_user_stats_from_counter cfg clk_tck tm now)
    (Some g) = Some g' ->
  short_keys (user_counters_list (gv_tid g)) ->
  short_keys (user_counters_list (gv_tid g')) /\ threads_list (gv_tid g') = threads_list (gv_tid g)
  /\ gv_bad g' = gv_bad g /\ gv_q g' = gv_q g /\ gv_map g' = gv_map g.
Proof.
  intros E Hs.
  pose proof (ht_foreach_ind (add_user_stats_from_counter cfg clk_tck tm now)
    (fun _ r => match r with
       | None => True
       | Some g' => short_keys (user_counters_list (gv_tid g'))
           /\ threads_list (gv_tid g') = threads_list (gv_tid g)
           /\ gv_bad g' = gv_bad g /\ gv_q g' = gv_q g /\ gv_map g' = gv_map g
       end) (user_counters_list (gv_tid g)) (Some g)) as G.
  rewrite E in G. apply G; [done|].
  intros dn u item [g1|] Hu _; [|done]. intros (Hs1 & A & B & C & D).
  unfold add_user_stats_from_counter. cbn [mbind option_bind].
  destruct (add_new_stats _ _ _ _ _ _ _); [|done]. cbn [mbind option_bind].
  unfold reset_counters. cbn [gv_tid set_acc]. destruct (user_counters_list (gv_tid g1) !! u); [|done].
  split; [|done]. apply short_insert; [done|]. apply Hs. by eexists.
Qed.

(** Tables with the same accounts know the same users. *)
Lemma wf_same_users s s' u : acc_wf s -> acc_wf s' -> accounts s' = accounts s ->
  is_Some (users s' !! u) -> is_Some (users s !! u).
Proof.
  intros Hw Hw' Ea [us Hu]. destruct (wf_user_account _ Hw' u us Hu) as (ac & Ha & Hin).
  rewrite Ea in Ha. destruct (wf_account_users _ Hw _ ac u Ha Hin) as (us' & ? & _). by eexists.
Qed.

Lemma collect_ok cfg clk_tck tm now g :
  intervals_wf (c_intervals cfg) -> gov_ok g -> tick_id (gv_acc g) + 1 < 2 ^ 63 ->
  exists g', collect_samples cfg clk_tck tm now g = Some g'
    /\ gov_ok g' /\ threads_list (gv_tid g') = threads_list (gv_tid g)
    /\ tick_id (gv_acc g') = tick_id (gv_acc g) + 1.
Proof.
  intros Hiv Hg Hlt. pose proof Hg as [Hw Hc Hu Ht Hts Hb Hq Hm]. unfold collect_samples.
  set (g0 := set_acc (increment_tick (gv_acc g)) g).
  assert (tick_id (gv_acc g0) = tick_id (gv_acc g) + 1) as Etk by (by apply increment_tick_eq).
  destruct (collect_counters cfg clk_tck tm now g0 Hiv (increment_tick_wf _ Hw) Hc ltac:(lia))
    as (g1 & E1 & Hw1 & Htk1 & Hun & Hco).
  { intros u us Hus. specialize (Hts u us Hus). lia. }
  destruct (collect_rest cfg clk_tck tm now g0 g1 E1 Hc) as (Hc1 & Ht1 & Hb1 & Hq1 & Hm1).
  rewrite E1. cbn [mbind option_bind].
  destruct (tick_empty_users_one_sample cfg (gv_acc g1) Hiv Hw1 ltac:(lia))
    as (a2 & -> & Hw2 & Ha2 & Htk2 & Hu2). cbn [mbind option_bind].
  destruct (calc_acc_stats_sums cfg a2 Hw2) as (a3 & -> & Hw3 & Hu3 & Htk3 & _).
  cbn [mbind option_bind]. eexists. split; [reflexivity|].
  assert (forall u us, users a3 !! u = Some us ->
            strlen u < USERNAMEMAXLEN /\ 0 <= us_tick us <= tick_id (gv_acc g1)) as Hall.
  { intros u us. rewrite Hu3. intros Hus.
    destruct (wf_same_users (gv_acc g1) a2 u Hw1 Hw2 Ha2) as [us1 Hus1]; [by eexists|].
    destruct (Hu2 u us1 Hus1) as (us' & Eus & _ & Hold & Hnew). rewrite Hus in Eus. injection Eus as <-.
    assert (strlen u < USERNAMEMAXLEN /\ 0 <= us_tick us1 <= tick_id (gv_acc g1)) as [Hlen Htick1].
    { destruct (user_counters_list (gv_tid g) !! u) as [item|] eqn:Ec.
      - destruct (Hco u) as (us2 & E2 & T2 & _); [by eexists|]. rewrite Hus1 in E2. injection E2 as <-.
        split; [apply Hc; by eexists|lia].
      - rewrite Hun in Hus1 by done. specialize (Hts u us1 Hus1). split; [apply Hu; by eexists|lia]. }
    split; [done|]. destruct (is_new_tick (us_tick us1) (gv_acc g1)); [|by rewrite Hold].
    destruct Hnew as [-> _]; [done|]. lia. }
  cbn [set_acc gv_acc gv_tid]. split; [|split; [by rewrite Ht1|lia]].
  split; try done; cbn [set_acc gv_acc gv_bad gv_map gv_q gv_tid].
  - intros u [us Hus]. by apply (Hall u us).
  - lia.
  - intros u us Hus. destruct (Hall u us Hus) as [_ ?]. lia.
  - by rewrite Hb1.
  - by rewrite Hq1.
  - by rewrite Hm1.
Qed.

Lemma proceed_ok cfg sys clk_tck io tm now clk cur_tm ts g :
  intervals_wf (c_intervals cfg) -> gov_ok g -> tick_id (gv_acc g) + 1 < 2 ^ 63 ->
  exists g', proceed_accounts cfg sys clk_tck io tm now clk cur_tm ts g = Some g'
    /\ gov_ok g' /\ threads_list (gv_tid g') = threads_list (gv_tid g)
    /\ tick_id (gv_acc g') = tick_id (gv_acc g) + 1.
Proof.
  intros Hiv Hg Hlt. unfold proceed_accounts.
  destruct (collect_ok cfg clk_tck tm now g Hiv Hg Hlt) as (g3 & -> & Hg3 & Ht3 & Htk3).
  cbn [mbind option_bind].
  set (g4 := if nonzero (restrict_mode cfg) then _ else _).
  assert (gov_ok g4 /\ tick_id (gv_acc g4) = tick_id (gv_acc g3) /\ gv_tid g4 = gv_tid g3) as (Hg4 & Htk4 & Htd4).
  { subst g4. destruct (nonzero (restrict_mode cfg)).
    - destruct (foreach_account_spec (account_analyze_limit cfg sys) clk g3) as (_ & _ & Tk & _ & Td & _).
      split; [|done]. apply foreach_ok; [|apply analyze_limit_queue|done].
      intros c r. apply load_users, analyze_limit_load.
    - destruct (foreach_account_spec (account_analyze cfg sys) clk g3) as (_ & _ & Tk & _ & Td & _).
      split; [|done]. apply foreach_ok; [|apply analyze_queue|done].
      intros c r. apply load_users, analyze_load. }
  eexists. split; [reflexivity|]. set (g5 := if nonzero (statistic_mode cfg) then _ else g4).
  assert (gv_acc g5 = gv_acc g4 /\ gv_tid g5 = gv_tid g4 /\ gv_bad g5 = gv_bad g4
          /\ gv_q g5 = gv_q g4 /\ gv_map g5 = gv_map g4) as (E5 & T5 & B5 & Q5 & M5).
  { subst g5. destruct (nonzero (statistic_mode cfg)); [|done].
    split; [apply add_dbgov_acc|apply add_dbgov_rest]. }
  split; [|split; [by rewrite T5, Htd4|rewrite E5; lia]].
  apply (gov_ok_ext g4); try done; [rewrite T5; apply Hg4|rewrite Q5; apply Hg4].
Qed.

Lemma short_screen `{HashOrder} cfg (b : bool) tm accs q : short_q q ->
  short_q (if b then print_to_restrict_log_stats cfg tm accs q else q).
Proof.
  intros Hq. destruct b; [|done]. apply short_log. apply (ht_foreach_ind _ (fun _ => short_q)); [by apply short_log|].
  intros _ k ac st _ _ Hst. by apply short_log.
Qed.

Lemma set_q_ok q g : gov_ok g -> short_q q -> gov_ok (set_q q g).
Proof. intros Hg Hq. apply (gov_ok_ext g); try done. apply Hg. Qed.

Lemma second_first_ok cfg sys clk_tck io old_tm g :
  intervals_wf (c_intervals cfg) -> gov_ok g -> tick_id (gv_acc g) + 1 < 2 ^ 63 ->
  exists tm g', second_first sys clk_tck cfg io old_tm g = Some (tm, g') /\ gov_ok g'
    /\ threads_list (gv_tid g')
       = threads_list (monitor_data_from_client (so_check io) (so_proc io) (so_clk io) (gv_tid g)).
Proof.
  intros Hiv Hg Ht. unfold second_first. set (g1 := set_tid _ g).
  assert (gov_ok g1) as Hg1.
  { apply (gov_ok_ext g); try done; [apply short_monitor, Hg|apply Hg]. }
  set (old := if deqb old_tm d0 then _ else _). destruct (dleb d1 _).
  - destruct (proceed_ok cfg sys clk_tck (so_stat io) (tm_of (so_cur io)) (so_now io) (so_clock io)
                (so_stat_tm io) (so_timestamp io) g1 Hiv Hg1 Ht) as (g2 & -> & Hg2 & Ht2 & _).
    cbn [mbind option_bind]. by eexists _, _.
  - by eexists _, _.
Qed.

Lemma second_last_ok cfg io (b : bool) g : gov_ok g ->
  gov_ok (second_last cfg io b g) /\ gv_tid (second_last cfg io b g) = gv_tid g.
Proof.
  intros Hg. split; [|done]. apply set_q_ok; [done|]. apply short_screen.
  destruct b; [apply short_end|]; apply Hg.
Qed.

Lemma every_second_ok cfg sys clk_tck io old_tm g :
  intervals_wf (c_intervals cfg) -> gov_ok g -> tick_id (gv_acc g) + 1 < 2 ^ 63 ->
  exists tm g', every_second sys clk_tck cfg io old_tm g = Some (tm, g') /\ gov_ok g'
    /\ threads_list (gv_tid g')
       = threads_list (monitor_data_from_client (so_check io) (so_proc io) (so_clk io) (gv_tid g)).
Proof.
  intros Hiv Hg Ht. rewrite every_second_parts.
  destruct (second_first_ok cfg sys clk_tck io old_tm g Hiv Hg Ht) as (tm & g1 & -> & Hg1 & Ht1).
  cbn [mbind option_bind]. destruct (cycle_begin cfg (gv_q g1)) as [q b] eqn:E.
  assert (gov_ok (set_q q g1)) as Hq.
  { apply set_q_ok; [done|]. rewrite <- (f_equal fst E : _ = q). apply short_begin, Hg1. }
  destruct (second_last_ok cfg io b _ Hq) as [Hl Htl]. eexists _, _. split; [reflexivity|]. split; [done|].
  by rewrite Htl.
Qed.

(** *** The commands *)

Lemma by_hand_users cfg sys level now start r :
  same_users (r_ac r) (r_ac (restrict_by_hand cfg sys level now start r)).
Proof.
  unfold restrict_by_hand. destruct (if level =? -1 then _ else _) as [lv co].
  by destruct (if nonzero (restrict_mode cfg) then _ else _) as [[? ?] ?].
Qed.

Lemma set_account_ok a ac ac' c q g : gov_ok g -> accounts (gv_acc g) !! a = Some ac ->
  same_users ac ac' -> short_q q ->
  gov_ok (mkGov (set_account a ac' (gv_acc g)) (gv_tid g) c (gv_stat g) q (gv_old_tm g) (gv_bad g)
            (gv_map g) (gv_files g)).
Proof.
  intros [Hw Hc Hu Ht Hts Hb Hq Hm] Ha [Hid Hus] Hq'. split; try done. by eapply acc_wf_account.
Qed.

(** A state with a new user. *)
Lemma added_user_ok u g s us : gov_ok g -> strlen u < USERNAMEMAXLEN ->
  acc_wf s -> users s = <[u := us]> (users (gv_acc g)) -> tick_id s = tick_id (gv_acc g) -> us_tick us = 0 ->
  gov_ok (set_acc s g).
Proof.
  intros [Hw Hc Hu Ht Hts Hb Hq Hm] Hn Hw' Hu' Htk H0.
  split; try done; cbn [set_acc gv_acc]; rewrite ?Hu', ?Htk; [by apply short_insert|done|].
  intros v us' Hus. apply lookup_insert_Some in Hus as [[_ <-]|[_ Hus]]; [lia|by eapply Hts].
Qed.

(** The callback at one account. *)
Lemma restrict_step_ok cfg sys command clk a ac n g : intervals_wf (c_intervals cfg) -> gov_ok g ->
  let u := o_username (d_options command) in
  is_Some (accounts (gv_acc g) !! a) ->
  is_Some (users (gv_acc g) !! u)
  \/ strlen u < USERNAMEMAXLEN /\ is_Some (accounts (gv_acc g) !! account_to_join cfg g u) ->
  exists n' g', dbctl_restrict_set cfg sys command clk a ac (Some (n, g)) = Some (n', g') /\ gov_ok g'
    /\ gv_tid g' = gv_tid g /\ is_Some (users (gv_acc g') !! u)
    /\ forall b, is_Some (accounts (gv_acc g) !! b) -> is_Some (accounts (gv_acc g') !! b).
Proof.
  intros Hiv Hg u [aca Haca] Hs. unfold dbctl_restrict_set. cbn [mbind option_bind]. fold u.
  assert (exists s target act,
    (match users (gv_acc g) !! u with
     | Some _ => Some (gv_acc g, a)
     | None => '(s, us) ← add_user_stats cfg (gv_map g) true u (gv_acc g);
               _ ← accounts (gv_acc g) !! us_account us; Some (s, us_account us)
     end) = Some (s, target) /\ gov_ok (set_acc s g) /\ accounts s !! target = Some act
    /\ is_Some (users s !! u) /\ forall b, is_Some (accounts (gv_acc g) !! b) -> is_Some (accounts s !! b))
    as (s & target & act & -> & Hgs & Ha & Hu & Hb).
  { destruct (users (gv_acc g) !! u) as [us|] eqn:Eu.
    - exists (gv_acc g), a, aca. split; [done|]. split; [by destruct Hg|]. split; [done|]. split; [by eexists|done].
    - destruct Hs as [[? ?]|[Hn [act Ha]]]; [done|].
      destruct (unknown_user_joins cfg g u Hiv (go_wf _ Hg) Hn Eu) as (s & us & -> & Et & Hw & Us & Tk & H0 & Ho & Ho').
      cbn [mbind option_bind]. rewrite Et in *. rewrite Ha in Ho'. rewrite Ha. cbn [mbind option_bind].
      exists s, (account_to_join cfg g u). eexists. split; [done|].
      split; [by eapply added_user_ok|]. split; [exact Ho'|]. split; [rewrite Us, lookup_insert_eq; by eexists|].
      intros b Hb. destruct (decide (b = account_to_join cfg g u)) as [->|Hne]; [by eexists|]. by rewrite Ho. }
  cbn [mbind option_bind]. rewrite Ha. cbn [mbind option_bind]. destruct (_ || _).
  - eexists _, _. split; [reflexivity|]. split; [|split; [done|split; [done|]]].
    + eapply (set_account_ok target act _ _ _ (set_acc s g) Hgs Ha); [apply by_hand_users|].
      apply by_hand_queue. apply Hg.
    + intros b Hb'. cbn [gv_acc set_account accounts]. apply lookup_insert_is_Some'. right. by apply Hb.
  - by exists n, (set_acc s g).
Qed.

Lemma restrict_ok cfg sys command clk g : intervals_wf (c_intervals cfg) -> gov_ok g ->
  walk_safe cfg (o_username (d_options command)) g ->
  exists g', restrict_command cfg sys command clk g = Some g' /\ gov_ok g' /\ gv_tid g' = gv_tid g.
Proof.
  intros Hiv Hg Hs. unfold restrict_command. set (u := o_username _) in *.
  destruct Hs as [Hs|[Hs|He]]; [| |rewrite He, foreach_empty; by exists g].
  all: destruct (ht_foreach_ind (dbctl_restrict_set cfg sys command clk)
    (fun _ r => exists n g', r = Some (n, g') /\ gov_ok g' /\ gv_tid g' = gv_tid g
       /\ (is_Some (users (gv_acc g') !! u) \/ g' = g)
       /\ forall a, is_Some (accounts (gv_acc g) !! a) -> is_Some (accounts (gv_acc g') !! a))
    (accounts (gv_acc g)) (Some (0%nat, g))) as (n & g' & -> & Hg' & Ht' & _);
    [exists 0%nat, g; split_and!; by auto| |by exists g'].
  all: intros dn a ac r Ha _ (n & g1 & -> & Hg1 & Ht1 & U1 & A1).
  all: destruct (restrict_step_ok cfg sys command clk a ac n g1 Hiv Hg1) as (n' & g2 & E2 & Hg2 & Ht2 & U2 & A2);
    [apply A1; exists ac; exact Ha|destruct U1 as [U1| ->]; [left; exact U1|first [left; exact Hs|right; exact Hs]]|].
  all: exists n', g2; split; [exact E2|]; split; [exact Hg2|]; split; [congruence|]; split; [left; exact U2|]; intros b Hb; by apply A2, A1.
Qed.

Lemma add_users_ok us g : Forall (fun u => strlen u < USERNAMEMAXLEN) us -> gov_ok g ->
  exists g', add_users us g = Some g' /\ gov_ok g' /\ gv_tid g' = gv_tid g /\ gv_acc g' = gv_acc g.
Proof.
  intros Hn. revert g. induction Hn as [|u us Hu Hn IH]; intros g Hg; [by exists g|].
  cbn [add_users].
  destruct (add_ok (gv_map g) (gv_bad g) u 1 (go_bad _ Hg) Hu) as (b & r & -> & Hb).
  cbn [mbind option_bind]. destruct (IH (set_bad_list b g)) as (g' & -> & Hg' & Ht' & Ha').
  - by destruct Hg.
  - by exists g'.
Qed.

Lemma map_line_short sep m buf :
  (forall k um, m !! k = Some um -> strlen (um_username um) < USERNAMEMAXLEN) ->
  forall k um, map_line sep m buf !! k = Some um -> strlen (um_username um) < USERNAMEMAXLEN.
Proof.
  intros Hm k um. unfold map_line. destruct (parse_line buf) as [[u a] uid].
  destruct (_ || _); [apply Hm|]. destruct (m !! u); [apply Hm|]. destruct (1 <=? _); [|apply Hm].
  rewrite lookup_insert_Some. intros [[_ <-]|[_ Hk]]; [|by eapply Hm]. cbn [um_username].
  by apply (strlcpy_str_len u USERNAMEMAXLEN).
Qed.

Lemma get_map_short sep content k um : fst (get_map_file sep content) !! k = Some um ->
  strlen (um_username um) < USERNAMEMAXLEN.
Proof.
  unfold get_map_file. destruct content as [text|]; [|done]. cbn [fst].
  assert (forall l (m : gmap string UserMap),
    (forall k um, m !! k = Some um -> strlen (um_username um) < USERNAMEMAXLEN) ->
    forall k um, fold_left (map_line sep) l m !! k = Some um -> strlen (um_username um) < USERNAMEMAXLEN)
    as G; [|by apply G].
  induction l as [|buf l IH]; intros m Hm; [done|]. cbn [fold_left]. by apply IH, map_line_short.
Qed.

Lemma reinit_ok cfg content g : gov_ok g ->
  exists g', reinit_users_list cfg content g = Some g' /\ gov_ok g' /\ gv_tid g' = gv_tid g.
Proof.
  intros Hg. pose proof Hg as [Hw _ Hu _ _ _ _ _]. unfold reinit_users_list.
  set (g0 := mkGov _ _ _ _ _ _ _ _ _).
  assert (gov_ok g0) as Hg0.
  { destruct Hg. split; try done; cbn [g0 gv_bad gv_map].
    - destruct (gv_bad g); [apply clear_inv|done].
    - intros m k um [= <-]. apply get_map_short. }
  destruct (nonzero (all_lve cfg)); [|by exists g0].
  apply (ht_foreach_ind add_all_users_to_list
    (fun _ r => exists g', r = Some g' /\ gov_ok g' /\ gv_tid g' = gv_tid g)); [by exists g0|].
  intros dn a ac r Ha _ (g1 & -> & Hg1 & Ht1). unfold add_all_users_to_list. cbn [mbind option_bind].
  destruct (add_users_ok (ac_users ac) g1) as (g2 & -> & Hg2 & Ht2 & _); [|done|].
  - apply list.Forall_forall. intros u Hin.
    destruct (wf_account_users _ Hw a ac u Ha Hin) as (us & Hus & _). apply Hu. by eexists.
  - exists g2. split; [done|]. split; [done|]. congruence.
Qed.

(** *** The polled map *)

Lemma list_uid_ok cfg key um g : intervals_wf (c_intervals cfg) -> gov_ok g ->
  strlen (um_username um) < USERNAMEMAXLEN ->
  exists g', list_uid cfg key um (Some g) = Some g' /\ gov_ok g' /\ gv_tid g' = gv_tid g.
Proof.
  intros Hiv Hg Hn. unfold list_uid, add_empty_stats_for_uid. cbn [mbind option_bind].
  destruct (users (gv_acc g) !! um_username um) eqn:E; cbn [mbind option_bind].
  - exists (set_acc (gv_acc g) g). split; [done|]. split; [|done]. by destruct Hg.
  - destruct (unknown_user_joins cfg g _ Hiv (go_wf _ Hg) Hn E) as (s' & us & Ea & _ & Hw' & Hu' & Htk & H0 & _).
    rewrite Ea. cbn [mbind option_bind]. eexists. split; [reflexivity|]. split; [|done]. by eapply added_user_ok.
Qed.

Lemma parse_map_ok cfg last content content' curr g : intervals_wf (c_intervals cfg) -> gov_ok g ->
  exists c g', parse_map_round cfg last content content' curr g = Some (c, g') /\ gov_ok g'
    /\ gv_tid g' = gv_tid g.
Proof.
  intros Hiv Hg. unfold parse_map_round. destruct (curr <? last); [|by exists curr, g].
  pose proof (get_map_short (nonzero (separate_lve cfg)) content) as Hs.
  destruct (get_map_file _ content) as [m ok]. cbn [fst] in Hs. set (g0 := mkGov _ _ _ _ _ _ _ _ _).
  assert (gov_ok g0) as Hg0 by (destruct Hg; split; try done; by intros ? k um [= <-]; apply Hs).
  unfold set_dbuser_map. change (default ∅ (gv_map g0)) with m.
  destruct (ht_foreach_ind (list_uid cfg)
    (fun _ r => exists g', r = Some g' /\ gov_ok g' /\ gv_tid g' = gv_tid g) m (Some g0))
    as (g1 & -> & Hg1 & Ht1); [by exists g0| |].
  - intros dn k um r Hk _ (g1 & -> & Hg1 & Ht1).
    destruct (list_uid_ok cfg k um g1 Hiv Hg1 (Hs _ _ Hk)) as (g2 & -> & Hg2 & Ht2).
    exists g2. split; [done|]. split; [done|]. congruence.
  - cbn [mbind option_bind]. destruct (reinit_ok cfg content' g1 Hg1) as (g2 & -> & Hg2 & Ht2).
    cbn [mbind option_bind]. eexists _, g2. split; [reflexivity|]. split; [done|]. congruence.
Qed.
End passes.
