(* ===== verification/System.v ===== *)
(** The daemon as a system of its threads: the server of the reports, the
    loop of the seconds, the thread that carries the commands out, the
    clients of the administrator and the thread that polls the map of users
    ([src/governor.c] starts them).  A step is one round of a thread: a round
    of the server, a second, a run of the worker, a command, a renewal of the
    map.  A second is also taken in parts, with clients served between the
    period and the copy of the queue and between the copy and its emptying
    ([ws_split]); a failure of poll is one of the rounds of the server. *)

From S2P Require Import Prelude CDouble CString Data FifoStats TidTable ProcFs Server UserMap BadList Xml Config Accounts LogDecoder Commands Restrict CalcStats Daemon.
Open Scope string_scope.
Open Scope Z_scope.

(** * The state *)

(** [w_old_tm] is the local of [proceed_data_every_second]; the table of the
    threads and the open descriptors of the server are those of the daemon. *)
Record world := mkWorld {
  w_fds : list pollfd; w_socket : Z; w_dm : daemon; w_old_tm : double
}.

Definition w_gov (w : world) : gov := dm_gov (w_dm w).
Definition server_of (w : world) : server :=
  mkServer (w_fds w) (w_socket w) (gv_tid (w_gov w)) (dm_open (w_dm w)).
Definition put_gov (g : gov) (w : world) : world :=
  mkWorld (w_fds w) (w_socket w) (with_gov g (w_dm w)) (w_old_tm w).

Definition set_open (o : gset Z) (d : daemon) : daemon :=
  mkDaemon (dm_cfg d) (dm_gov d) (dm_renew d) o.

Section world.
Context `{HashOrder} (sys : sysinfo) (clk_tck : Z).

Definition world_round (io : round_io) (w : world) : option world :=
  sv ← server_round io (server_of w);
  Some (mkWorld (fds sv) (global_socket sv)
          (set_open (sv_open sv) (with_gov (set_tid (sv_tid sv) (w_gov w)) (w_dm w))) (w_old_tm w)).

Definition world_second (io : second_io) (w : world) : option world :=
  '(old_tm, g) ← every_second sys clk_tck (dm_cfg (w_dm w)) io (w_old_tm w) (w_gov w);
  Some (mkWorld (w_fds w) (w_socket w) (with_gov g (w_dm w)) old_tm).

(** The parts of a second. *)
Definition world_first (io : second_io) (w : world) : option world :=
  '(old_tm, g) ← second_first sys clk_tck (dm_cfg (w_dm w)) io (w_old_tm w) (w_gov w);
  Some (mkWorld (w_fds w) (w_socket w) (with_gov g (w_dm w)) old_tm).
Definition world_copy (w : world) : world * bool :=
  let '(q, copied) := cycle_begin (dm_cfg (w_dm w)) (gv_q (w_gov w)) in (put_gov (set_q q (w_gov w)) w, copied).
Definition world_last (io : second_io) (copied : bool) (w : world) : world :=
  put_gov (second_last (dm_cfg (w_dm w)) io copied (w_gov w)) w.

(** The thread of [send_commands_cycle]. *)
Definition world_worker (w : world) : option world :=
  let g := w_gov w in
  '(b, q) ← send_commands_cycle_in (gv_map g) (dm_cfg (w_dm w)) (gv_bad g) (gv_q g);
  Some (put_gov (set_bad_list b (set_q q g)) w).

Definition world_map (last_mod : Z) (content content' : option string) (curr : Z) (w : world)
    : option (Z * world) :=
  '(curr, g) ← parse_map_round (dm_cfg (w_dm w)) last_mod content content' curr (w_gov w);
  Some (curr, put_gov g w).

(** A client of [dbctl] connects and sends a command; [ns] is the descriptor
    that [accept] gives while others are open. *)
Definition world_command (ns : gset Z -> Z) (io : command_io) (command : DbCtlCommand) (w : world)
    : outcome world :=
  let n := ns (dm_open (w_dm w)) in
  d <-- run_dbctl_command sys io n command (set_open ({[n]} ∪ dm_open (w_dm w)) (w_dm w));;
  Ok (mkWorld (w_fds w) (w_socket w) d (w_old_tm w)).

(** * The steps *)

(** The file that [reread_config] reads. *)
Definition config_read (c : outcome governor_config) : Prop :=
  match c with Ok cfg => intervals_wf (c_intervals cfg) | Exit _ => True | Crash => False end.

(** The command reads a configuration that does not crash the reader and
    has intervals that the averages can use.  RESTRICT names a user whose
    account is in the table, if it is not known itself: otherwise the
    callback adds an account to the table that is being walked. *)
Definition command_pre (io : command_io) (command : DbCtlCommand) (w : world) : Prop :=
  config_read (cm_config io)
  /\ (d_command command = RESTRICT ->
      walk_safe (dm_cfg (w_dm w)) (o_username (d_options command)) (w_gov w)).

Definition fresh_descriptor (ns : gset Z -> Z) : Prop := forall o, ns o <> -1 /\ ns o ∉ o.

Definition tick_left (w : world) : Prop := tick_id (gv_acc (w_gov w)) + 1 < 2 ^ 63.

(** A client of the administrator is served. *)
Inductive client_step : world -> world -> Prop :=
  | cs_command ns io command w w' : fresh_descriptor ns -> command_pre io command w ->
      world_command ns io command w = Ok w' -> client_step w w'.

(** [ws_split] is a second during which clients are served, between the
    period and the copy of the queue ([w1] to [w2]) and between the copy and
    the emptying of the queue ([w3] to [w4]). *)
Inductive world_step : world -> world -> Prop :=
  | ws_round io w w' : accept_fresh io -> world_round io w = Some w' -> world_step w w'
  | ws_second io w w' : tick_left w -> world_second io w = Some w' -> world_step w w'
  | ws_split io w w1 w2 w3 w4 copied : tick_left w -> world_first io w = Some w1 -> rtc client_step w1 w2 ->
      world_copy w2 = (w3, copied) -> rtc client_step w3 w4 -> world_step w (world_last io copied w4)
  | ws_worker w w' : world_worker w = Some w' -> world_step w w'
  | ws_map last c c' curr curr' w w' :
      world_map last c c' curr w = Some (curr', w') -> world_step w w'
  | ws_command ns io command w w' : fresh_descriptor ns -> command_pre io command w ->
      world_command ns io command w = Ok w' -> world_step w w'.

(** The state after the initialisation of [main]; the shared list [b] is
    absent when it could not be made or LVE is not there. *)
Definition start_gov (b : option shm_structure) : gov :=
  mkGov (init_accounts_and_users 0) (init_tid_table (mkTidState ∅ ∅ None)) ∅ ∅
    (reinit_command_list (mkCmd None None 0 0 [])) d0 b None [].
Definition start_world (sock : Z) (opened : gset Z) (cfg : governor_config)
    (b : option shm_structure) : world :=
  mkWorld [mkPoll sock POLLIN 0] sock (mkDaemon cfg (start_gov b) 0 opened) d0.

Inductive world_reachable : world -> Prop :=
  | wr_start sock opened cfg b : sock ∈ opened -> -1 ∉ opened -> intervals_wf (c_intervals cfg) ->
      b = None \/ b = Some clear_bad_users_list -> world_reachable (start_world sock opened cfg b)
  | wr_step w w' : world_reachable w -> world_step w w' -> world_reachable w'.
End world.

(** The commands that return without closing the socket of the client. *)
Definition forgets_client (cfg : governor_config) (c : dbctl_command_l) : Prop :=
  (c = UNRESTRICT \/ c = UNRESTRICT_A) /\ nonzero (is_gpl cfg) = false /\ no_single cfg = true.

(** * Invariant *)

Record world_ok (w : world) : Prop := {
  wo_gov : gov_ok (w_gov w);
  wo_cfg : intervals_wf (c_intervals (dm_cfg (w_dm w)));
  wo_server : exists lost, server_wf lost (server_of w)
}.

Section lemmas.
Context `{HO : HashOrder} (sys : sysinfo) (clk_tck : Z).

Lemma start_ok sock opened cfg b : sock ∈ opened -> -1 ∉ opened -> intervals_wf (c_intervals cfg) ->
  b = None \/ b = Some clear_bad_users_list -> world_ok (start_world sock opened cfg b).
Proof.
  intros Hs Hm Hc Hb. split; [|done|].
  - split; cbn [w_gov start_world w_dm dm_gov start_gov gv_acc gv_tid gv_bad gv_q gv_map].
    + apply empty_wf.
    + by intros u [? ?].
    + by intros u [? ?].
    + done.
    + done.
    + destruct Hb as [-> | ->]; [done|apply clear_inv].
    + intros c [Hx|Hx]; cbn in Hx; [by apply list_elem_of_singleton in Hx|by apply elem_of_nil in Hx].
    + done.
  - exists []. split; unfold descriptors; simpl; [apply NoDup_singleton|set_solver|done|done].
Qed.

(** The server sees only the threads and the descriptors. *)
Lemma server_ext lost sv sv' : descriptors sv' = descriptors sv -> sv_open sv' = sv_open sv ->
  tids_in (descriptors sv ++ lost) (sv_tid sv') -> server_wf lost sv -> server_wf lost sv'.
Proof. intros Ed Eo Ht [? ? ? ?]. by split; rewrite ?Ed, ?Eo. Qed.

Lemma round_ok io w : accept_fresh io -> (ri_poll io = -1 -> is_Some (ri_socket io)) -> world_ok w ->
  exists w', world_round io w = Some w' /\ world_ok w'.
Proof.
  intros Hf Hp [Hg Hc [lost Hs]]. unfold world_round.
  destruct (round_wf lost io (server_of w) Hf Hp Hs) as (sv & E & Hw). rewrite E.
  cbn [mbind option_bind]. eexists. split; [reflexivity|]. split; [|done|by eexists; destruct sv].
  apply (gov_ok_ext (w_gov w)); try done; [|apply Hg].
  by apply (short_round io (server_of w) sv (go_counters _ Hg) E).
Qed.

Lemma round_kept io w w' : accept_fresh io -> world_round io w = Some w' -> world_ok w -> world_ok w'.
Proof.
  intros Hf E Hw. destruct (round_ok io w Hf) as (w2 & E2 & Hw2); [|done|congruence].
  intros Ep. unfold world_round in E. destruct (server_round io (server_of w)) as [sv|] eqn:Es; [|done].
  by eapply round_socket.
Qed.

(** The state of the daemon with another table of the threads, whose
    descriptors are those from before. *)
Lemma world_ok_gov g tm w : gov_ok g -> (forall l, tids_in l (gv_tid (w_gov w)) -> tids_in l (gv_tid g)) -> world_ok w ->
  world_ok (mkWorld (w_fds w) (w_socket w) (with_gov g (w_dm w)) tm).
Proof.
  intros Hg Ht [_ Hc [lost Hs]]. split; [done|done|]. exists lost. apply (server_ext lost (server_of w)); try done.
  apply Ht, (sw_tids _ _ Hs).
Qed.

Lemma monitored_tids io g l (s : tid_state) :
  threads_list (gv_tid g) = threads_list (monitor_data_from_client (so_check io) (so_proc io) (so_clk io) s) ->
  tids_in l s -> tids_in l (gv_tid g).
Proof. intros E Hl k t. rewrite E. by apply monitor_tids. Qed.

Lemma second_ok io w : tick_left w -> world_ok w ->
  exists w', world_second sys clk_tck io w = Some w' /\ world_ok w'.
Proof.
  intros Ht Hw. unfold world_second.
  destruct (every_second_ok (dm_cfg (w_dm w)) sys clk_tck io (w_old_tm w) (w_gov w) (wo_cfg _ Hw) (wo_gov _ Hw) Ht)
    as (tm & g & -> & Hg' & Ht'). cbn [mbind option_bind]. eexists. split; [reflexivity|].
  apply world_ok_gov; [done| |done]. intros l. by apply (monitored_tids io).
Qed.

(** The parts of a second. *)
Lemma first_ok io w : tick_left w -> world_ok w ->
  exists w', world_first sys clk_tck io w = Some w' /\ world_ok w'.
Proof.
  intros Ht Hw. unfold world_first.
  destruct (second_first_ok (dm_cfg (w_dm w)) sys clk_tck io (w_old_tm w) (w_gov w) (wo_cfg _ Hw) (wo_gov _ Hw) Ht)
    as (tm & g & -> & Hg' & Ht'). cbn [mbind option_bind]. eexists. split; [reflexivity|].
  apply world_ok_gov; [done| |done]. intros l. by apply (monitored_tids io).
Qed.

Lemma copy_ok w w' b : world_copy w = (w', b) -> world_ok w -> world_ok w'.
Proof.
  unfold world_copy. destruct (cycle_begin _ _) as [q x] eqn:E. intros [= <- _] Hw.
  apply world_ok_gov; [|done|done]. apply set_q_ok; [apply Hw|]. rewrite <- (f_equal fst E : _ = q).
  apply short_begin, Hw.
Qed.

Lemma last_ok io b w : world_ok w -> world_ok (world_last io b w).
Proof.
  intros Hw. destruct (second_last_ok (dm_cfg (w_dm w)) io b (w_gov w) (wo_gov _ Hw)) as [Hg Ht].
  apply world_ok_gov; [done| |done]. intros l. by rewrite Ht.
Qed.

Lemma same_tids g w : gov_ok g -> gv_tid g = gv_tid (w_gov w) -> world_ok w -> world_ok (put_gov g w).
Proof. intros Hg Ht Hw. apply world_ok_gov; [done| |done]. intros l. by rewrite Ht. Qed.

Lemma worker_ok w : world_ok w -> exists w', world_worker w = Some w' /\ world_ok w'.
Proof.
  intros Hw. pose proof (wo_gov _ Hw) as Hg. unfold world_worker, send_commands_cycle_in.
  set (g := w_gov w) in *.
  destruct (send_all_ok (gv_map g) (dm_cfg (w_dm w)) (default [] (command_list_send (gv_q g)))
    (mkSend (gv_bad g) 0 (cm_events (gv_q g)))) as (s & -> & Hb'); [|apply Hg|].
  - intros c Hc. apply (go_queue _ Hg). by right.
  - cbn [mbind option_bind]. eexists. split; [reflexivity|]. apply same_tids; [|done|done].
    by destruct Hg.
Qed.

Lemma map_ok last c c' curr w : world_ok w ->
  exists curr' w', world_map last c c' curr w = Some (curr', w') /\ world_ok w'.
Proof.
  intros Hw. unfold world_map.
  destruct (parse_map_ok (dm_cfg (w_dm w)) last c c' curr (w_gov w) (wo_cfg _ Hw) (wo_gov _ Hw))
    as (curr' & g & -> & Hg & Ht). cbn [mbind option_bind]. eexists _, _. split; [reflexivity|].
  by apply same_tids.
Qed.

(** ** The commands *)

(** The commands that cannot be carried out: the configuration that is to be
    read crashes the reader, or RESTRICT adds an account to the table that it
    walks. *)
Definition crashing (io : command_io) (command : DbCtlCommand) (w : world) : Prop :=
  ((d_command command = REREAD_CFG \/ d_command command = REINIT_USERS_LIST) /\ cm_config io = Crash)
  \/ (d_command command = RESTRICT /\ ~ walk_safe (dm_cfg (w_dm w)) (o_username (d_options command)) (w_gov w)).

(** The daemon while a client is served on the descriptor [ns]; its
    configuration is the one from before or the one read. *)
Record dm_ok (io : command_io) (ns : Z) (w : world) (d : daemon) : Prop := {
  do_gov : gov_ok (dm_gov d);
  do_cfg : dm_cfg d = dm_cfg (w_dm w) \/ cm_config io = Ok (dm_cfg d);
  do_tid : gv_tid (dm_gov d) = gv_tid (w_gov w);
  do_open : dm_open d = {[ns]} ∪ dm_open (w_dm w) \/ dm_open d = dm_open (w_dm w)
}.

Lemma served_ok io ns w d : ns <> -1 -> world_ok w -> config_read (cm_config io) -> dm_ok io ns w d ->
  world_ok (mkWorld (w_fds w) (w_socket w) d (w_old_tm w)).
Proof.
  intros Hn [_ Hiv [lost [Hd Ho Hm Ht]]] Hcr [Hg Hc Et Eo]. split; [done| |].
  - destruct Hc as [Hc|Hc]; cbn; [by rewrite Hc|]. unfold config_read in Hcr. by rewrite Hc in Hcr.
  - exists lost. split; cbn; [done| | |].
    + intros f Hf. specialize (Ho f Hf). cbn in Ho. set_solver.
    + cbn in Hm. set_solver.
    + change (tids_in (descriptors (server_of w) ++ lost) (gv_tid (dm_gov d))). by rewrite Et.
Qed.

Lemma close_ok io ns w d : ns ∉ dm_open (w_dm w) -> dm_ok io ns w d -> dm_ok io ns w (close_client ns d).
Proof. intros Hn [Hg Hc Et Eo]. split; try done. right. cbn. set_solver. Qed.

Lemma with_gov_ok io ns w d g : dm_ok io ns w d -> gov_ok g -> gv_tid g = gv_tid (dm_gov d) ->
  dm_ok io ns w (with_gov g d).
Proof. intros [Hg Hc Et Eo] Hg' Ht. split; try done. cbn. congruence. Qed.

(** What a command gives: a state or the end of the program. *)
Definition served (io : command_io) (ns : Z) (command : DbCtlCommand) (w : world) (r : outcome daemon) : Prop :=
  match r with
  | Ok d => (d_command command = RESTRICT -> walk_safe (dm_cfg (w_dm w)) (o_username (d_options command)) (w_gov w)) ->
            dm_ok io ns w d
  | Exit _ => True
  | Crash => crashing io command w
  end.

Lemma unrestrict_all_ok cfg clk g : gov_ok g -> gov_ok (unrestrict_all_command cfg clk g)
  /\ gv_tid (unrestrict_all_command cfg clk g) = gv_tid g.
Proof.
  intros Hg. unfold unrestrict_all_command. split.
  - apply foreach_ok; [apply unrestrict_all_users|apply unrestrict_all_queue|done].
  - by destruct (foreach_account_spec (fun _ => dbctl_unrestrict_all_set cfg) clk g)
      as (_ & _ & _ & _ & Td & _).
Qed.

Lemma unrestrict_ok cfg command clk g : gov_ok g -> gov_ok (unrestrict_command cfg sys command clk g)
  /\ gv_tid (unrestrict_command cfg sys command clk g) = gv_tid g.
Proof.
  intros Hg. unfold unrestrict_command. set (u := o_username _). split.
  - apply foreach_ok; [apply unrestrict_set_users|apply unrestrict_set_queue|done].
  - by destruct (foreach_account_spec (dbctl_unrestrict_set cfg sys u) clk g) as (_ & _ & _ & _ & Td & _).
Qed.

Lemma reread_ok io ns w d cfg : cm_config io = Ok cfg -> dm_ok io ns w d ->
  dm_ok io ns w (mkDaemon cfg (dm_gov d) (dm_renew d) (dm_open d)).
Proof. intros Hc [Hg Hi Et Eo]. split; try done. by right. Qed.

Lemma reinit_command_ok io ns w d b : dm_ok io ns w d ->
  exists d', try_gov (reinit_users_list (dm_cfg d) (cm_map io)
       (dm_gov (if b : bool then d
                else with_gov (unrestrict_all_command (dm_cfg d) (cm_clock io) (dm_gov d)) d)))
       (if b then d else with_gov (unrestrict_all_command (dm_cfg d) (cm_clock io) (dm_gov d)) d) = Ok d'
    /\ dm_ok io ns w d'.
Proof.
  intros Hd. set (d1 := if b then d else _). assert (dm_ok io ns w d1) as Hd1.
  { subst d1. destruct b; [done|].
    destruct (unrestrict_all_ok (dm_cfg d) (cm_clock io) (dm_gov d) (do_gov _ _ _ _ Hd)).
    by apply with_gov_ok. }
  destruct (reinit_ok (dm_cfg d) (cm_map io) (dm_gov d1) (do_gov _ _ _ _ Hd1)) as (g & -> & Hg & Ht).
  exists (with_gov g d1). split; [done|]. by apply with_gov_ok.
Qed.

Lemma restrict_served io ns command w d : intervals_wf (c_intervals (dm_cfg (w_dm w))) ->
  ns ∉ dm_open (w_dm w) -> d_command command = RESTRICT ->
  dm_gov d = w_gov w -> dm_cfg d = dm_cfg (w_dm w) -> dm_ok io ns w d ->
  served io ns command w
    (d <-- try_gov (restrict_command (dm_cfg d) sys command (cm_clock io) (dm_gov d)) d;; Ok (close_client ns d)).
Proof.
  intros Hiv Hn Ec Eg Ed Hd. rewrite Ed, Eg.
  assert (gov_ok (w_gov w)) as Hg by (rewrite <- Eg; apply Hd).
  pose proof (restrict_ok (dm_cfg (w_dm w)) sys command (cm_clock io) (w_gov w) Hiv Hg) as Hr.
  destruct (restrict_command _ _ _ _ _) as [g|]; cbn [try_gov obind served].
  - intros Hs. destruct (Hr (Hs Ec)) as (g' & [= <-] & Hg' & Ht). apply close_ok, with_gov_ok; [done..|]. by rewrite Eg.
  - right. split; [done|]. intros Hs. by destruct (Hr Hs) as (g' & ? & _).
Qed.

Lemma dispatch_ok io ns command w d : intervals_wf (c_intervals (dm_cfg (w_dm w))) -> ns ∉ dm_open (w_dm w) ->
  dm_gov d = w_gov w -> dm_cfg d = dm_cfg (w_dm w) -> dm_ok io ns w d ->
  served io ns command w (run_dbctl_command sys io ns command d).
Proof.
  intros Hiv Hn Eg Ed Hd. pose proof (close_ok io ns w d Hn Hd) as Hcl.
  pose proof (do_gov _ _ _ _ Hd) as Hg.
  unfold run_dbctl_command. destruct (d_command command) eqn:Ec; try (by intros _).
  - destruct (nonzero _); [by intros _|]. destruct (no_single _); [by intros _|]. by apply restrict_served.
  - destruct (nonzero _); [by intros _|]. destruct (no_single _); [by intros _|]. intros _.
    destruct (unrestrict_ok (dm_cfg d) command (cm_clock io) (dm_gov d) Hg).
    by apply close_ok, with_gov_ok.
  - destruct (nonzero _); [by intros _|]. destruct (no_single _); [by intros _|]. intros _.
    destruct (unrestrict_all_ok (dm_cfg d) (cm_clock io) (dm_gov d) Hg).
    by apply close_ok, with_gov_ok.
  - destruct (cm_config io) as [cfg| |] eqn:E; cbn [obind served]; [|done|by left; split; [left|]].
    intros _. by apply close_ok, reread_ok.
  - destruct (cm_config io) as [cfg| |] eqn:E; cbn [obind]; [|done|by left; split; [right|]].
    destruct (reinit_command_ok io ns w _ (nonzero (is_gpl (dm_cfg d))) (reread_ok io ns w d cfg E Hd)) as (d' & E' & Hd').
    cbn [dm_cfg] in E'.
    assert (forall r, r = Ok d' -> served io ns command w (d <-- r;; Ok (close_client ns d))) as G
      by (intros r ->; intros _; by apply close_ok).
    apply G. rewrite <- E'. by destruct (nonzero (is_gpl (dm_cfg d))).
  - intros _. apply close_ok; [done|]. by destruct Hd.
Qed.

Lemma command_result ns io command w : fresh_descriptor ns -> world_ok w ->
  match world_command sys ns io command w with
  | Ok w' => command_pre io command w -> world_ok w'
  | Exit _ => True
  | Crash => crashing io command w
  end.
Proof.
  intros Hf Hw. destruct (Hf (dm_open (w_dm w))) as [Hn1 Hn]. unfold world_command.
  set (n := ns _) in *. set (d := set_open _ _).
  assert (dm_ok io n w d) as Hd by (destruct Hw; split; [done..|by left|done|by left]).
  pose proof (dispatch_ok io n command w d (wo_cfg _ Hw) Hn eq_refl eq_refl Hd) as Hs.
  destruct (run_dbctl_command sys io n command d); [|done..].
  intros [Hc Hr]. apply (served_ok io n); [done..|]. by apply Hs.
Qed.

Lemma clients_ok w w' : rtc (client_step sys) w w' -> world_ok w -> world_ok w'.
Proof.
  induction 1 as [|w w1 w2 Hs _ IH]; [done|]. intros Hw. apply IH. destruct Hs as [ns io command w w' Hf Hc E].
  pose proof (command_result ns io command w Hf Hw) as Hr. rewrite E in Hr. by apply Hr.
Qed.
End lemmas.

Lemma step_ok `{HashOrder} sys clk_tck w w' : world_ok w -> world_step sys clk_tck w w' -> world_ok w'.
Proof.
  intros Hw Hs. revert Hw.
  destruct Hs as [io w0 w1 Hf E|io w0 w1 Ht E|io w0 w1 w2 w3 w4 b Ht E H12 E3 H34|w0 w1 E|last c c' curr curr' w0 w1 E
                 |ns io command w0 w1 Hn Hc E]; intros Hw.
  - by eapply round_kept.
  - destruct (second_ok sys clk_tck io w0 Ht Hw) as (w2 & E2 & Hw2). congruence.
  - apply last_ok, (clients_ok sys w3 w4 H34), (copy_ok w2 w3 b E3), (clients_ok sys w1 w2 H12).
    destruct (first_ok sys clk_tck io w0 Ht Hw) as (w5 & E5 & Hw5). congruence.
  - destruct (worker_ok w0 Hw) as (w2 & E2 & Hw2). congruence.
  - destruct (map_ok last c c' curr w0 Hw) as (t & w2 & E2 & Hw2). congruence.
  - pose proof (command_result sys ns io command w0 Hn Hw) as Hr. rewrite E in Hr. by apply Hr.
Qed.

Lemma world_reachable_ok `{HashOrder} sys clk_tck w : world_reachable sys clk_tck w -> world_ok w.
Proof. induction 1; [by apply start_ok|by eapply step_ok]. Qed.

(** * Properties *)

(** C7: When the daemon can fail: in every state that its threads can bring it to, the round
    of the server over the connections succeeds, unless poll fails and no new socket can be
    made, which ends the daemon on purpose; the second, the run of the worker and the renewal of
    the map always succeed; and a command of the administrator crashes the daemon only when the
    configuration it rereads crashes the reader, or when it is RESTRICT of a name that is no
    known user and whose account is not in the table, which is then changed during its walk. The
    same holds of the commands served within a second, before the queue is copied and while it
    is being emptied. Conditions on the way to the state: the commands taken before were none of
    these and read configurations with usable intervals, new descriptors are fresh, and the
    ticks are below 2^63. Reads of freed memory through old copies of the configuration are not
    part of this model. *)
Theorem daemon_never_crashes `{HashOrder} (sys : sysinfo) (clk_tck : Z) (w : world) :
  world_reachable sys clk_tck w ->
  (forall io, accept_fresh io -> world_round io w = None -> ri_poll io = -1 /\ ri_socket io = None)
  /\ (forall io, tick_left w -> is_Some (world_second sys clk_tck io w))
  /\ is_Some (world_worker w)
  /\ (forall last content content' curr, is_Some (world_map last content content' curr w))
  /\ (forall ns io command, fresh_descriptor ns ->
       world_command sys ns io command w = Crash -> crashing io command w)
  /\ forall io w1 w2 w3 w4 copied ns cio command, tick_left w -> world_first sys clk_tck io w = Some w1 ->
       rtc (client_step sys) w1 w2 -> world_copy w2 = (w3, copied) -> rtc (client_step sys) w3 w4 ->
       fresh_descriptor ns ->
       (world_command sys ns cio command w2 = Crash -> crashing cio command w2)
       /\ (world_command sys ns cio command w4 = Crash -> crashing cio command w4).
Proof.
  intros Hr. pose proof (world_reachable_ok sys clk_tck w Hr) as Hw.
  assert (forall w ns io command, world_ok w -> fresh_descriptor ns ->
            world_command sys ns io command w = Crash -> crashing io command w) as Hcr.
  { intros w' ns io command Hw' Hf E. pose proof (command_result sys ns io command w' Hf Hw') as G. by rewrite E in G. }
  split_and!.
  - intros io Hf E. destruct (Z.eq_dec (ri_poll io) (-1)) as [Ep|Ep], (ri_socket io) as [f|] eqn:Es; try done.
    all: destruct (round_ok io w Hf) as (w' & E' & _); [by rewrite ?Es|done|congruence].
  - intros io Ht. destruct (second_ok sys clk_tck io w Ht Hw) as (w' & -> & _). by eexists.
  - destruct (worker_ok w Hw) as (w' & -> & _). by eexists.
  - intros last c c' curr. destruct (map_ok last c c' curr w Hw) as (t & w' & -> & _). by eexists.
  - intros ns io command. by apply Hcr.
  - intros io w1 w2 w3 w4 b ns cio command Ht E1 H12 E3 H34 Hf.
    destruct (first_ok sys clk_tck io w Ht Hw) as (w1' & E1' & Hw1). rewrite E1 in E1'. injection E1' as <-.
    pose proof (clients_ok sys w1 w2 H12 Hw1) as Hw2. split; [by apply Hcr|].
    apply Hcr; [|done]. apply (clients_ok sys w3 w4 H34), (copy_ok w2 w3 b E3 Hw2).
Qed.

(** A user becomes known through the map, and two seconds pass. *)
Definition example_second (t : Z) : second_io :=
  mkSecond (t, 0) (fun _ => mkFiles OpenFails OpenFails) (fun _ => (t, 0)) (t, 0) example_io (t, 0)
    (clk_const example_now) (t, 0) t t.
Definition example_map : option string := Some ("bob_wp bob 500" +:+ String newline "").
Definition example_worlds : option world :=
  let w := start_world 3 {[3]} example_config (Some clear_bad_users_list) in
  w ← snd <$> world_map (H := default_order) 5 example_map example_map 0 w;
  w ← world_second (H := default_order) example_sys 100 (example_second 1) w;
  world_second (H := default_order) example_sys 100 (example_second 3) w.

Lemma example_reachable w : example_worlds = Some w ->
  world_reachable (H := default_order) example_sys 100 w.
Proof.
  unfold example_worlds. set (w0 := start_world _ _ _ _).
  assert (world_reachable (H := default_order) example_sys 100 w0) as H0.
  { apply wr_start; [set_solver|set_solver|unfold intervals_wf; simpl; lia|by right]. }
  pose proof (world_reachable_ok _ _ _ H0) as Hw0.
  destruct (map_ok (HO := default_order) 5 example_map example_map 0 w0 Hw0) as (c & w1 & E1 & Hw1).
  rewrite E1. cbn [fmap option_fmap option_map snd mbind option_bind].
  assert (world_reachable (H := default_order) example_sys 100 w1) as H1 by
    (eapply wr_step; [exact H0|by eapply ws_map]).
  assert (tick_left w1) as T1 by (clear -E1; vm_compute in E1; injection E1 as _ <-; reflexivity).
  destruct (second_ok (HO := default_order) example_sys 100 (example_second 1) w1 T1 Hw1) as (w2 & E2 & Hw2).
  rewrite E2. cbn [mbind option_bind].
  assert (world_reachable (H := default_order) example_sys 100 w2) as H2 by
    (eapply wr_step; [exact H1|by eapply ws_second]).
  assert (tick_left w2) as T2 by
    (clear -E1 E2; vm_compute in E1; injection E1 as _ <-; vm_compute in E2; injection E2 as <-; reflexivity).
  intros E3. eapply wr_step; [exact H2|by eapply ws_second].
Qed.

(** A descriptor above all that are open. *)
Definition next_descriptor (o : gset Z) : Z := 1 + foldr Z.max 0 (elements o).

Lemma next_fresh : fresh_descriptor next_descriptor.
Proof.
  intros o. unfold next_descriptor.
  assert (forall l z, z ∈ l -> z <= foldr Z.max 0 l) as Hl.
  { induction l as [|x l IH]; intros z Hz; [by apply elem_of_nil in Hz|].
    apply elem_of_cons in Hz as [->|Hz]; simpl; [lia|]. specialize (IH z Hz). lia. }
  assert (forall l : list Z, 0 <= foldr Z.max 0 l) as H0.
  { intros l. induction l; simpl; lia. }
  split; [specialize (H0 (elements o)); lia|]. intros Hin. apply elem_of_elements, Hl in Hin. lia.
Qed.

Lemma daemon_never_crashes_witness :
  match example_worlds with
  | Some w => users (gv_acc (w_gov w)) !! "bob_wp" <> None
      /\ is_Some (world_second (H := default_order) example_sys 100 (example_second 4) w)
      /\ world_command (H := default_order) example_sys next_descriptor
           (mkCommandIo (Exit "") None (clk_const example_now))
           (mkDbCtlCommand RESTRICT "" (mkDbCtlOptions "bob_wp" 0 0 0 1 0 0)) w <> Crash
  | None => False
  end.
Proof.
  destruct example_worlds as [w|] eqn:E; [|vm_compute in E; discriminate E].
  destruct (daemon_never_crashes (H := default_order) example_sys 100 w (example_reachable w E))
    as (_ & A & _ & _ & B & _).
  assert (is_Some (users (gv_acc (w_gov w)) !! "bob_wp") /\ tick_left w) as [Hu Ht].
  { clear -E. vm_compute in E. injection E as <-. split; [by eexists|reflexivity]. }
  split; [by destruct Hu as [us ->]|]. split; [exact (A (example_second 4) Ht)|].
  intros Ec. destruct (B _ _ _ next_fresh Ec) as [[[Hx|Hx] _]|[_ Hx]]; [discriminate Hx|discriminate Hx|].
  apply Hx. left. exact Hu.
Defined.

(** A command of the administrator closes the socket of its client and no other, except
    that UNRESTRICT and UNRESTRICT_A return at once, with the socket open and nothing changed,
    when no single account can be restricted. *)
Lemma command_closes_client `{HashOrder} (sys : sysinfo) (io : command_io) (ns : Z)
    (command : DbCtlCommand) (d d' : daemon) :
  ns ∈ dm_open d -> run_dbctl_command sys io ns command d = Ok d' ->
  (dm_open d' = dm_open d ∖ {[ns]} /\ ~ forgets_client (dm_cfg d) (d_command command))
  \/ (d' = d /\ forgets_client (dm_cfg d) (d_command command)).
Proof.
  intros Hin E. unfold run_dbctl_command, forgets_client in *.
  assert (forall r, obind (try_gov r d) (fun d => Ok (close_client ns d)) = Ok d' ->
    dm_open d' = dm_open d ∖ {[ns]}) as Htry by (intros [g|] E'; [by injection E' as <-|done]).
  destruct (d_command command) eqn:Ec; try (injection E as <-; left; split; [done|naive_solver]).
  - left. split; [|naive_solver]. destruct (nonzero _); [by injection E as <-|].
    destruct (no_single _); [by injection E as <-|]. by eapply Htry.
  - destruct (nonzero _) eqn:Eg; [injection E as <-; left; split; [done|naive_solver]|].
    destruct (no_single _) eqn:En; injection E as <-; [right|left]; (split; [done|naive_solver]).
  - destruct (nonzero _) eqn:Eg; [injection E as <-; left; split; [done|naive_solver]|].
    destruct (no_single _) eqn:En; injection E as <-; [right|left]; (split; [done|naive_solver]).
  - left. split; [|naive_solver]. destruct (cm_config io); [by injection E as <-|done..].
  - left. split; [|naive_solver]. destruct (cm_config io); [|done..]. cbn [obind] in E.
    set (d1 := if nonzero (is_gpl (dm_cfg d)) then _ else _) in E.
    assert (dm_open d1 = dm_open d) as <- by (subst d1; by destruct (nonzero _)).
    destruct (reinit_users_list _ _ _); [by injection E as <-|done].
Qed.

(** An administrator tries to lift a restriction while all users are in an
    LVE. *)
