(* ===== verification/Enforce.v ===== *)
(** Enforcement: that the list of restricted users in shared memory follows
    the accounts.  The decisions on the accounts ([Restrict]), the queue of
    commands and its worker ([Commands]), the shared list ([BadList]) and the
    threads of the daemon ([System]) are put together here.

    How an account relates to its users being frozen depends on the mode of
    the daemon; the class [Discipline] is what the system needs of it, and the
    "limit" and the "period" mode are its two instances. *)

From S2P Require Import Prelude CDouble CString Data FifoStats TidTable ProcFs Server UserMap BadList Xml Config Accounts LogDecoder Commands Restrict CalcStats Daemon System.
Open Scope string_scope.
Open Scope Z_scope.

(** * Disciplines *)

(** What the enforcement looks at in an account. *)
Definition same_state (ac ac' : Account) : Prop :=
  ac_restricted ac' = ac_restricted ac /\ ac_timeout ac' = ac_timeout ac
  /\ ac_start_count ac' = ac_start_count ac.

(** The commands [p] that a handler queues for an account, and whether its
    users are frozen after them. *)
Definition answers (ac : Account) (b : bool) (p : list Command) (b' : bool) : Prop :=
  (p = [] /\ b' = b)
  \/ exists c, (c = FREEZE \/ c = UNFREEZE) /\ p = freezes c (ac_users ac)
               /\ b' = bool_decide (c = FREEZE).

Definition same_sent (q q' : cmd_state) : Prop :=
  command_list_send q' = command_list_send q
  /\ is_send_command_cycle q' = is_send_command_cycle q.

(** A handler, run on an account whose users are all frozen or all not. *)
Definition handled (holds : Account -> bool -> Prop) (r r' : rstate) : Prop :=
  forall q b, command_list (r_q r) = node_list q -> names_ok (r_ac r) -> holds (r_ac r) b ->
    same_users (r_ac r) (r_ac r') /\ same_sent (r_q r) (r_q r')
    /\ exists p b', command_list (r_q r') = node_list (q ++ p)
         /\ answers (r_ac r) b p b' /\ holds (r_ac r') b'.

Definition times_ok (cfg : governor_config) (clk : clock Z) : Prop :=
  forall n, c_timeout cfg < clk n < 2 ^ 40.

(** The configuration keeps the mode: single accounts are restricted with an
    LVE for each user, in the way that [limit] names. *)
Record steady (limit : bool) (cfg : governor_config) : Prop := {
  st_ok : cfg_ok cfg; st_lve : lve_on cfg; st_mode : nonzero (restrict_mode cfg) = limit
}.

(** [holds ac b]: the state of the account goes with its users being frozen
    ([b = true]) or not. *)
Class Discipline (limit : bool) := {
  holds : Account -> bool -> Prop;
  holds_fresh : forall a, holds (init_account a) false;
  holds_state : forall ac ac' b, same_state ac ac' -> holds ac b -> holds ac' b;
  holds_idle : forall ac b, holds ac b -> ac_timeout ac = 0 -> b = false;
  holds_clear : forall ac, holds (clear_stats ac) false;
  holds_analysis : forall cfg sys clk r, steady limit cfg -> times_ok cfg clk ->
    handled holds r (if limit then account_analyze_limit cfg sys clk r
                     else account_analyze cfg sys clk r);
  holds_by_hand : forall cfg sys level now start r, steady limit cfg -> 0 < start < 2 ^ 40 ->
    handled holds r (restrict_by_hand cfg sys level now start r)
}.

(** ** What the handlers do to the queue *)

Lemma same_sent_trans q1 q2 q3 : same_sent q1 q2 -> same_sent q2 q3 -> same_sent q1 q3.
Proof. intros [? ?] [? ?]. split; congruence. Qed.

Lemma sent_fold {A} (f : cmd_state -> A -> cmd_state) l q : (forall q x, same_sent q (f q x)) ->
  same_sent q (fold_left f l q).
Proof.
  intros Hf. revert q. induction l as [|x l IH]; intros q; [done|]. cbn [fold_left].
  eapply same_sent_trans; [apply Hf|apply IH].
Qed.

Lemma sent_queue c u q : same_sent q (queue_command c u q).
Proof. unfold queue_command. by destruct (command_list q). Qed.

Lemma sent_log cfg line q : same_sent q (log_restrict cfg line q).
Proof. unfold log_restrict. by destruct (restrict_log cfg). Qed.

Lemma sent_restrict cfg sys ac sl q : same_sent q (account_restrict cfg sys ac sl q).
Proof.
  unfold account_restrict. destruct (nonzero _); [done|]. destruct (_ || _); [done|].
  assert (same_sent q (fold_left (restrict_user cfg) (ac_users ac) q)) as G.
  { apply sent_fold. intros q' u. unfold restrict_user. destruct (command_list q'); [|done].
    pose proof (sent_queue FREEZE u q') as [? ?]. by destruct (_ =? 2). }
  destruct (exec_script cfg); [|done]. by destruct G.
Qed.

Lemma sent_unrestrict cfg ac q : same_sent q (account_unrestrict cfg ac q).
Proof.
  unfold account_unrestrict. destruct (nonzero _); [done|]. destruct (nonzero _); [done|].
  destruct (_ && _); [done|]. apply sent_fold. intros. apply sent_queue.
Qed.

(** An account is frozen, with its new state. *)
Lemma handled_freeze (D : Account -> bool -> Prop) cfg sys sl line r ac c : lve_on cfg ->
  same_users (r_ac r) ac -> D ac true ->
  handled D r (mkR ac c (log_restrict cfg line (account_restrict cfg sys ac sl (r_q r)))).
Proof.
  intros Hl [Hid Hus] HD q b Hq Hn _. split; [done|]. split.
  { eapply same_sent_trans; [apply sent_restrict|apply sent_log]. }
  exists (freezes FREEZE (ac_users (r_ac r))), true. cbn [r_q r_ac].
  rewrite log_restrict_list. split; [|split; [|done]].
  - rewrite <- Hus. apply account_restrict_list; [done| |done]. unfold names_ok. by rewrite Hus.
  - right. exists FREEZE. by split; [left|].
Qed.

(** The account changes and nothing is queued. *)
Lemma handled_quiet (D : Account -> bool -> Prop) r r' :
  same_users (r_ac r) (r_ac r') -> same_sent (r_q r) (r_q r') ->
  command_list (r_q r') = command_list (r_q r) -> (forall b, D (r_ac r) b -> D (r_ac r') b) ->
  handled D r r'.
Proof.
  intros Hus Hs Hq' HD q b Hq _ Hb. split; [done|]. split; [done|]. exists [], b. rewrite app_nil_r, Hq'.
  split; [done|]. split; [by left|by apply HD].
Qed.

(** It is released, with its new state. *)
Lemma handled_release (D : Account -> bool -> Prop) cfg r r1 : lve_on cfg ->
  r_q r1 = r_q r -> same_users (r_ac r) (r_ac r1) -> D (r_ac r1) false -> handled D r (unrestrict cfg r1).
Proof.
  intros Hl Eq [Hid Hus] HD q b Hq Hn _. split; [done|]. cbn [unrestrict r_q r_ac]. rewrite Eq.
  split; [apply sent_unrestrict|].
  exists (freezes UNFREEZE (ac_users (r_ac r))), false. split; [|split; [|done]].
  - rewrite <- Hus. apply account_unrestrict_list; [done| |done]. unfold names_ok. by rewrite Hus.
  - right. exists UNFREEZE. by split; [right|].
Qed.

Lemma handled_same (D : Account -> bool -> Prop) r : handled D r r.
Proof. by apply handled_quiet. Qed.

(** The facts on the state before may be used. *)
Lemma handled_intro (D : Account -> bool -> Prop) r r' :
  (forall b, D (r_ac r) b -> handled D r r') -> handled D r r'.
Proof. intros H q b Hq Hn Hb. by apply (H b Hb). Qed.

(** ** The "limit" mode *)

(** Idle, or restricted with a time-out and frozen. *)
Definition limit_holds (ac : Account) (b : bool) : Prop :=
  0 <= ac_start_count ac < 2 ^ 40
  /\ ((ac_restricted ac = 0 /\ ac_timeout ac = 0 /\ ac_start_count ac = 0 /\ b = false)
      \/ (ac_restricted ac = 1000 /\ 0 < ac_timeout ac < 2 ^ 31 /\ 0 < ac_start_count ac /\ b = true)).

Lemma limit_restricts cfg sys start sl p f cause r : steady true cfg -> 0 < start < 2 ^ 40 ->
  handled limit_holds r (restrict_account_limit cfg sys start sl p f cause r).
Proof.
  intros [Hok Hl _] Hst. apply handled_intro. intros b [_ Hb]. unfold restrict_account_limit.
  rewrite s32_unlimit by done. destruct (ok_unlimit _ Hok).
  assert (limit_holds (set_restrict (r_ac r) 1000 (l_unlimit cfg) start (mkInfo p f)) true) as Hnew.
  { split; [cbn; lia|]. right. cbn. lia. }
  destruct (Z.eqb_spec (ac_restricted (r_ac r)) 0).
  - by apply handled_freeze.
  - apply handled_quiet; [done|apply sent_log|apply log_restrict_list|].
    intros b' [_ [Hb'|(_ & _ & _ & ->)]]; [lia|done].
Qed.

Lemma limit_analysis cfg sys clk r : steady true cfg -> times_ok cfg clk ->
  handled limit_holds r (account_analyze_limit cfg sys clk r).
Proof.
  intros Hst Hclk. pose proof Hst as [Hok Hl _]. destruct (lve_tests cfg Hl) as (T1 & T2 & T3).
  assert (forall n, 0 < clk n < 2 ^ 40) as Hc.
  { intros n. destruct (ok_timeout _ Hok). specialize (Hclk n). lia. }
  apply handled_intro. intros b [_ Hb]. unfold account_analyze_limit. rewrite T2, T3. cbn [orb negb].
  destruct (bool_decide _); [|apply handled_same]. rewrite !check_restrict_limit_eq.
  destruct (Z.eqb_spec 0 (ac_timeout (r_ac r))) as [E0|E0].
  - destruct (first_over _ _) as [[p f]|]; [by apply limit_restricts|].
    destruct Hb as [(_ & _ & -> & _)|(_ & ? & _)]; [apply handled_same|lia].
  - destruct Hb as [(_ & ? & _)|(Hr & Ht & Hs & _)]; [congruence|].
    destruct (Z.ltb_spec 0 (ac_start_count (r_ac r))); [|lia]. rewrite check_restrict_limit_eq.
    destruct (first_over _ _) as [[p f]|].
    + unfold restrict_account_limit. rewrite Hr, s32_unlimit by done. destruct (ok_unlimit _ Hok).
      change (1000 =? 0) with false. cbv iota.
      apply handled_quiet; [done|apply sent_log|apply log_restrict_list|].
      intros b' [_ [Hb'|(_ & _ & _ & ->)]]; [lia|]. pose proof (Hc 5%nat). split; [cbn; lia|]. right. cbn. lia.
    + destruct (_ && _); [|apply handled_same]. apply handled_release; [done..|].
      split; [cbn; lia|]. by left.
Qed.

Lemma limit_by_hand cfg sys level now start r : steady true cfg -> 0 < start < 2 ^ 40 ->
  handled limit_holds r (restrict_by_hand cfg sys level now start r).
Proof.
  intros [Hok Hl Hm] Hst. unfold restrict_by_hand. destruct (if level =? -1 then _ else _) as [lv co].
  rewrite Hm, s32_unlimit by done. cbv iota beta. destruct (ok_unlimit _ Hok).
  apply handled_freeze; [done..|]. split; [cbn; lia|]. right. cbn. lia.
Qed.

(** The stats of an account, and so the limits it is over, stay. *)
Lemma limit_over_same cfg sys clk r : over_any cfg (account_analyze_limit cfg sys clk r) = over_any cfg r.
Proof.
  assert (forall r p f sl cause start, over_any cfg (restrict_account_limit cfg sys start sl p f cause r) = over_any cfg r)
    as Hres by done.
  unfold account_analyze_limit. destruct (_ || _); [done|]. destruct (bool_decide _); [|done].
  rewrite check_restrict_limit_eq. destruct (0 =? _).
  - destruct (first_over _ _) as [[p f]|]; [done|]. destruct (0 <? _); [|done].
    rewrite check_restrict_limit_eq. destruct (first_over _ _) as [[p f]|]; [done|]. by destruct (_ && _).
  - destruct (0 <? _); [|done]. rewrite check_restrict_limit_eq.
    destruct (first_over _ _) as [[p f]|]; [done|]. by destruct (_ && _).
Qed.

(** Over a limit an account is restricted; when it was already, nothing is
    queued for it. *)
Lemma limit_over cfg sys clk r b : steady true cfg -> limit_holds (r_ac r) b ->
  mode (limits_of cfg r) <> IGNORE_MODE -> over_any cfg r = true ->
  let r' := account_analyze_limit cfg sys clk r in
  ac_restricted (r_ac r') = 1000
  /\ (ac_restricted (r_ac r) <> 0 -> command_list (r_q r') = command_list (r_q r)).
Proof.
  intros [Hok Hl _] [_ Hb] Hm Ho. destruct (lve_tests cfg Hl) as (T1 & T2 & T3).
  unfold account_analyze_limit. rewrite T2, T3. cbn [orb negb]. fold (limits_of cfg r).
  rewrite bool_decide_eq_true_2 by done. rewrite !check_restrict_limit_eq.
  destruct (over_any_first cfg r Ho) as (p & f & Ef).
  assert (forall start cause, ac_restricted (r_ac r) <> 0 ->
    command_list (r_q (restrict_account_limit cfg sys start (limits_of cfg r) p f cause r)) = command_list (r_q r)) as Hq.
  { intros start cause Hn. unfold restrict_account_limit. destruct (Z.eqb_spec (ac_restricted (r_ac r)) 0); [done|].
    apply log_restrict_list. }
  destruct (Z.eqb_spec 0 (ac_timeout (r_ac r))) as [E0|E0].
  - rewrite Ef. split; [done|apply Hq].
  - destruct Hb as [(_ & ? & _)|(Hr & _ & Hs & _)]; [congruence|].
    destruct (Z.ltb_spec 0 (ac_start_count (r_ac r))); [|lia]. rewrite check_restrict_limit_eq, Ef.
    split; [done|]. apply Hq.
Qed.

#[export, refine] Instance limit_discipline : Discipline true := {
  holds := limit_holds; holds_analysis := limit_analysis; holds_by_hand := limit_by_hand
}.
Proof.
  - intros a. split; [cbn; lia|]. by left.
  - intros ac ac' b (E1 & E2 & E3). unfold limit_holds. by rewrite E1, E2, E3.
  - intros ac b [_ [(_ & _ & _ & ->)|(_ & ? & _)]]; [done|lia].
  - intros ac. split; [cbn; lia|]. by left.
Defined.

(** ** The "period" mode *)

(** Only a restricted account is frozen; one restricted at the first level is.
    Restrictions at a higher level may not be: see
    [period_mode_repeat_not_frozen]. *)
Definition period_holds (ac : Account) (b : bool) : Prop :=
  ac_inv ac /\ (b = true -> ac_timeout ac <> 0)
  /\ (ac_timeout ac <> 0 -> ac_restricted ac = 0 -> b = true).

(** [r1] is [r] with a new time-out. *)
Lemma period_restricts cfg sys now start sl p f cause r r1 : steady false cfg -> 0 < start < 2 ^ 40 ->
  r_q r1 = r_q r -> same_users (r_ac r) (r_ac r1) -> ac_inv (r_ac r1) ->
  ac_restricted (r_ac r1) = ac_restricted (r_ac r) ->
  handled period_holds r (restrict_account cfg sys now start sl p f cause r1).
Proof.
  intros [Hok Hl _] Hst Eq [Eid Eus] Hi Er.
  destruct (restrict_account_ac cfg sys now start sl p f cause r1 Hok Hi Hst) as (E & Hi' & _).
  set (l := if now <? _ then _ else _) in E. pose proof (inv_level _ Hi) as Hlev.
  destruct (level_timeout_pos cfg l Hok) as [Hpos _].
  assert (ac_restricted (r_ac r) <> 0 -> l <> 0) as Hl0 by (subst l; destruct (now <? _); lia).
  revert E Hi'. unfold restrict_account. rewrite Eq.
  destruct (get_timeout _ _ _) as [lv t]. cbn [r_ac]. intros E Hi'. rewrite E in *.
  assert (same_users (r_ac r) (set_restrict (r_ac r1) l (level_timeout cfg l) start (mkInfo p f))) as Hsu by done.
  destruct (Z.eqb_spec (ac_restricted (r_ac r1)) 0) as [E0|E0].
  - apply handled_freeze; [done..|]. split; [done|]. cbn. split; [lia|done].
  - apply handled_quiet; [done|apply sent_log|apply log_restrict_list|].
    intros b _. split; [done|]. cbn. split; [lia|]. intros _ El. exfalso. lia.
Qed.

Lemma period_analysis cfg sys clk r : steady false cfg -> times_ok cfg clk ->
  handled period_holds r (account_analyze cfg sys clk r).
Proof.
  intros Hst Hclk. pose proof Hst as [Hok Hl _]. destruct (lve_tests cfg Hl) as (T1 & T2 & T3).
  destruct (ok_timeout _ Hok) as [Ho1 Ho2].
  assert (forall n, 0 < clk n < 2 ^ 40) as Hc by (intros n; specialize (Hclk n); lia).
  apply handled_intro. intros b (Hi & Hb1 & Hb2). unfold account_analyze. rewrite T2, T3. cbn [orb negb].
  destruct (bool_decide _); [|apply handled_same]. rewrite check_restrict_eq.
  pose proof Hi as [Hlv Htm Hs Hrun Hfree].
  assert (handled period_holds r (set_ac (set_restrict (r_ac r) 0 0 0 no_info) r)
          \/ ac_timeout (r_ac r) <> 0) as Hidle.
  { destruct (Z.eq_dec (ac_timeout (r_ac r)) 0) as [E|]; [left|by right].
    apply handled_quiet; [done..|]. intros b' (_ & Hb' & _). split; [split; cbn; lia|]. cbn.
    split; [|done]. intros ->. by destruct (Hb' eq_refl). }
  destruct (Z.eqb_spec 0 (ac_timeout (r_ac r))) as [E0|E0].
  - destruct (first_over _ _) as [[p f]|]; [by apply period_restricts|].
    destruct (0 <? _); [|apply handled_same]. rewrite <- E0. change (nonzero 0) with false. cbn [andb negb].
    destruct (_ && _); [|apply handled_same]. by destruct Hidle.
  - destruct (0 <? _); [|apply handled_same].
    assert (nonzero (ac_timeout (r_ac r)) = true) as ->.
    { unfold nonzero. by destruct (Z.eqb_spec (ac_timeout (r_ac r)) 0). }
    cbn [andb negb]. destruct (_ <=? _); [|rewrite andb_false_r; apply handled_same].
    set (r1 := set_ac _ r). assert (ac_inv (r_ac r1)) as Hi1.
    { pose proof (Hc 3%nat). split; cbn; lia. }
    rewrite check_restrict_eq. destruct (first_over _ _) as [[p f]|].
    + apply period_restricts; try done. by apply (Hc 5%nat).
    + apply handled_release; [done..|]. split; [done|]. split; [done|]. by intros H.
Qed.

Lemma period_by_hand cfg sys level now start r : steady false cfg -> 0 < start < 2 ^ 40 ->
  handled period_holds r (restrict_by_hand cfg sys level now start r).
Proof.
  intros [Hok Hl Hm] Hst. unfold restrict_by_hand. destruct (if level =? -1 then _ else _) as [lv co].
  rewrite Hm. cbv iota. pose proof (get_timeout_level cfg lv co) as Hlev.
  assert (snd (get_timeout cfg lv co) = level_timeout cfg (fst (get_timeout cfg lv co))) as Et.
  { unfold get_timeout at 1. cbn [snd]. fold (level_timeout cfg (fst (get_timeout cfg lv co))).
    destruct (level_timeout_pos cfg (fst (get_timeout cfg lv co)) Hok). apply s32_id. unfold in_s32. lia. }
  destruct (get_timeout cfg lv co) as [l t]. cbn [fst snd] in *. subst t.
  destruct (level_timeout_pos cfg l Hok). apply handled_freeze; [done..|].
  split; [split; cbn; lia|]. cbn. split; [lia|done].
Qed.

#[export, refine] Instance period_discipline : Discipline false := {
  holds := period_holds; holds_analysis := period_analysis; holds_by_hand := period_by_hand
}.
Proof.
  - intros a. split; [split; cbn; lia|]. by cbn.
  - intros ac ac' b (E1 & E2 & E3) ([? ? ? ? ?] & ? & ?). unfold period_holds. rewrite E1, E2.
    split; [split; lia|done].
  - intros ac [] (_ & H & _) Ht; [by destruct (H eq_refl)|done].
  - intros ac. split; [split; cbn; lia|]. by cbn.
Defined.

(** ** The analysis that the mode selects *)

Definition analysis (limit : bool) (cfg : governor_config) (sys : sysinfo) : clock Z -> rstate -> rstate :=
  if limit then account_analyze_limit cfg sys else account_analyze cfg sys.

Lemma analysis_users limit cfg sys : keeps same_users (analysis limit cfg sys).
Proof. intros clk r. apply load_users. destruct limit; [apply analyze_limit_load|apply analyze_load]. Qed.

Lemma analysis_queue limit cfg sys : keeps_queue (analysis limit cfg sys).
Proof. destruct limit; [apply analyze_limit_queue|apply analyze_queue]. Qed.

Lemma analysis_pass_eq `{HashOrder} limit cfg sys clk g : nonzero (restrict_mode cfg) = limit ->
  (if nonzero (restrict_mode cfg) then foreach_account (account_analyze_limit cfg sys) clk g
   else foreach_account (account_analyze cfg sys) clk g) = foreach_account (analysis limit cfg sys) clk g.
Proof. intros ->. by destruct limit. Qed.

Lemma analysis_handled {limit} `{DI : !Discipline limit} cfg sys clk r : steady limit cfg -> times_ok cfg clk ->
  handled holds r (analysis limit cfg sys clk r).
Proof.
  intros Hst Hc. pose proof (holds_analysis cfg sys clk r Hst Hc) as H. unfold analysis. by destruct limit.
Qed.

(** * Growth of the tables

    Users join accounts; the state of the accounts stays. *)

Definition grown (s s' : acc_state) : Prop :=
  dom (users s) ⊆ dom (users s') /\ dom (accounts s) ⊆ dom (accounts s')
  /\ forall a ac', accounts s' !! a = Some ac' ->
       let ac := default (init_account a) (accounts s !! a) in
       same_state ac ac'
       /\ exists l, ac_users ac' = (ac_users ac ++ l)%list /\ forall u, u ∈ l -> u ∉ dom (users s).

Lemma grown_same s s' : dom (users s) ⊆ dom (users s') -> accounts s' = accounts s -> grown s s'.
Proof.
  intros Hu Ea. split; [done|]. rewrite Ea. split; [done|]. intros a ac' Ha. rewrite Ha. cbn [default from_option id].
  split; [done|]. exists []. rewrite app_nil_r. split; [done|]. intros u Hin. by apply elem_of_nil in Hin.
Qed.

Lemma grown_refl s : grown s s.
Proof. by apply grown_same. Qed.

Lemma grown_trans s1 s2 s3 : grown s1 s2 -> grown s2 s3 -> grown s1 s3.
Proof.
  intros (U1 & A1 & G1) (U2 & A2 & G2). split; [set_solver|]. split; [set_solver|].
  intros a ac3 Ha3. destruct (G2 a ac3 Ha3) as (S2 & l2 & E2 & N2).
  assert (same_state (default (init_account a) (accounts s1 !! a)) (default (init_account a) (accounts s2 !! a))
    /\ exists l, ac_users (default (init_account a) (accounts s2 !! a))
                  = (ac_users (default (init_account a) (accounts s1 !! a)) ++ l)%list
                 /\ forall u, u ∈ l -> u ∉ dom (users s1)) as (S1 & l1 & E1 & N1).
  { destruct (accounts s2 !! a) as [ac2|] eqn:Ha2; [by apply G1|].
    assert (accounts s1 !! a = None) as ->.
    { apply not_elem_of_dom. apply not_elem_of_dom in Ha2. set_solver. }
    split; [done|]. exists []. split; [done|]. intros u Hin. by apply elem_of_nil in Hin. }
  destruct S1 as (? & ? & ?), S2 as (? & ? & ?). split; [split; [|split]; congruence|].
  exists (l1 ++ l2)%list. rewrite E2, E1, app_assoc. split; [done|]. intros u Hin. set_solver.
Qed.

Lemma grown_account s a ac ac' : accounts s !! a = Some ac -> same_state ac ac' ->
  ac_users ac' = ac_users ac -> grown s (set_account a ac' s).
Proof.
  intros Ha Hs Hu. split; [done|]. cbn [set_account users accounts]. split; [rewrite dom_insert; set_solver|].
  intros b acb. rewrite lookup_insert_Some. intros [[<- <-]|[_ Hb]].
  - rewrite Ha. cbn [default from_option id]. split; [done|]. exists []. rewrite app_nil_r. split; [done|].
    intros u Hin. by apply elem_of_nil in Hin.
  - by apply (grown_refl s).
Qed.

Lemma grown_user s u us : is_Some (users s !! u) -> grown s (set_user u us s).
Proof. intros [x Hx]. apply grown_same; [|done]. cbn. rewrite dom_insert. set_solver. Qed.

Section grown.
Context `{HO : HashOrder}.

Lemma grown_add_user cfg um lk u s s' us : acc_wf s -> strlen u < USERNAMEMAXLEN -> users s !! u = None ->
  add_user_stats cfg um lk u s = Some (s', us) -> grown s s'.
Proof.
  intros Hw Hu Hn. unfold add_user_stats.
  pose proof (get_user_account_spec cfg um lk u s Hu (wf_ua_key _ Hw)) as G.
  destruct (get_user_account cfg um lk u s) as [s1 ua]. destruct G as (Ga & Gu & _ & Gn & _).
  destruct (init_user_stats _ _ _) as [us1|]; [|done]. cbn [mbind option_bind]. intros [= <- <-].
  split; [|split]; cbn [set_account set_user users accounts]; [rewrite Gn, Gu, dom_insert; set_solver|rewrite Ga, dom_insert; set_solver|].
  intros a ac'. rewrite Ga, lookup_insert_Some. intros [[<- <-]|[_ Ha]].
  - split; [done|]. exists [u]. cbn [with_users ac_users]. rewrite Gn. split; [done|].
    intros v ->%list_elem_of_singleton. by apply not_elem_of_dom.
  - by apply (grown_refl s).
Qed.

Lemma grown_mark cfg us s s' : acc_wf s -> mark_debug cfg us s = Some s' -> grown s s'.
Proof.
  intros Hw. unfold mark_debug. destruct (debug_user cfg); [|intros [= <-]; apply grown_refl].
  destruct (accounts s !! us_account us) as [ac|] eqn:Ha; [|done]. cbn [mbind option_bind].
  destruct (_ && _); intros [= <-]; [by eapply grown_account|apply grown_refl].
Qed.

Lemma grown_add_stats cfg um u st s s' : intervals_wf (c_intervals cfg) -> acc_wf s ->
  strlen u < USERNAMEMAXLEN -> add_new_stats cfg um true u st (get_current_tick s) s = Some s' -> grown s s'.
Proof.
  intros Hiv Hw Hu. unfold add_new_stats.
  assert (forall s1 us1, (match users s !! u with
              | Some us => Some (s, us)
              | None => add_user_stats cfg um true u s
              end) = Some (s1, us1) -> grown s s1 /\ acc_wf s1 /\ is_Some (users s1 !! us_id us1)) as G.
  { intros s1 us1. destruct (users s !! u) as [us|] eqn:E.
    - intros [= <- <-]. split; [apply grown_refl|]. split; [done|]. rewrite (wf_user_key _ Hw u us E). by eexists.
    - intros E1. split; [by eapply grown_add_user|].
      destruct (add_user_stats_spec cfg um true u s Hiv Hw Hu E) as (s2 & us2 & E2 & Hw2 & Hid & Hu2 & _).
      rewrite E1 in E2. injection E2 as <- <-. split; [done|]. rewrite Hid, Hu2, lookup_insert_eq. by eexists. }
  destruct (match users s !! u with Some _ => _ | None => _ end) as [[s1 us1]|]; [|done]. cbn [mbind option_bind].
  destruct (G s1 us1 eq_refl) as (G1 & Hw1 & Hin1).
  destruct (mark_debug cfg us1 s1) as [s2|] eqn:Em; [|done]. cbn [mbind option_bind].
  pose proof (grown_mark _ _ _ _ Hw1 Em) as G2.
  assert (is_Some (users s2 !! us_id us1)) as Hin2.
  { apply elem_of_dom. apply elem_of_dom in Hin1. destruct G2 as [H _]. set_solver. }
  destruct (us_tick us1 =? _); [destruct (refresh_stats _ _ _)|destruct (push_stats _ _ _)]; try done;
    cbn [mbind option_bind]; intros [= <-]; (eapply grown_trans; [exact G1|]); (eapply grown_trans; [exact G2|]); by apply grown_user.
Qed.

(** The samples of a period. *)
Lemma grown_counters cfg clk_tck tm now g g' : intervals_wf (c_intervals cfg) -> acc_wf (gv_acc g) ->
  short_keys (user_counters_list (gv_tid g)) -> 0 <= tick_id (gv_acc g) < 2 ^ 63 ->
  ht_foreach (user_counters_list (gv_tid g)) (add_user_stats_from_counter cfg clk_tck tm now) (Some g)
    = Some g' -> grown (gv_acc g) (gv_acc g') /\ acc_wf (gv_acc g') /\ tick_id (gv_acc g') = tick_id (gv_acc g).
Proof.
  intros Hiv Hw Hs Ht E.
  pose proof (ht_foreach_ind (add_user_stats_from_counter cfg clk_tck tm now)
    (fun _ r => forall g', r = Some g' -> grown (gv_acc g) (gv_acc g') /\ acc_wf (gv_acc g')
       /\ tick_id (gv_acc g') = tick_id (gv_acc g)) (user_counters_list (gv_tid g)) (Some g)) as G.
  rewrite E in G. apply G; [intros g0 [= <-]; by split; [apply grown_refl|]| |done].
  intros dn u item [g1|] Hu _ IH g2; [|done]. destruct (IH g1 eq_refl) as (G1 & Hw1 & Ht1).
  unfold add_user_stats_from_counter. cbn [mbind option_bind]. set (st := clac_stats_difference_inner_from_counter _ _ _ _ _ _).
  assert (strlen u < USERNAMEMAXLEN) as Hlen by (apply Hs; by eexists).
  destruct (add_new_stats_preserves_partition cfg (gv_map g1) true u st (gv_acc g1) Hiv Hw1 Hlen ltac:(lia))
    as (a & us & Ea & Hwa & _ & _ & Hta & _). rewrite Ea. cbn [mbind option_bind]. intros [= <-].
  cbn [set_tid set_acc gv_acc]. split; [|split; [done|lia]].
  eapply grown_trans; [exact G1|]. by eapply grown_add_stats.
Qed.

Lemma grown_empty cfg s s' :
  ht_foreach (users s) (tick_empty_users cfg) (Some s) = Some s' -> grown s s'.
Proof.
  intros E. pose proof (ht_foreach_ind (tick_empty_users cfg)
    (fun _ r => forall s', r = Some s' -> grown s s') (users s) (Some s)) as G.
  rewrite E in G. apply G; [intros s0 [= <-]; apply grown_refl| |done].
  intros dn u us [s1|] Hu _ IH s2; [|done]. specialize (IH s1 eq_refl). unfold tick_empty_users. cbn [mbind option_bind].
  destruct (is_new_tick _ _); [|by intros [= <-]]. destruct (push_stats _ _ _); [|done]. cbn [mbind option_bind].
  intros [= <-]. eapply grown_trans; [exact IH|]. apply grown_user. destruct IH as [H _].
  apply elem_of_dom, H, elem_of_dom. by eexists.
Qed.

Lemma grown_collect cfg clk_tck tm now g g' : intervals_wf (c_intervals cfg) -> gov_ok g ->
  tick_id (gv_acc g) + 1 < 2 ^ 63 -> collect_samples cfg clk_tck tm now g = Some g' ->
  grown (gv_acc g) (gv_acc g').
Proof.
  intros Hiv Hg Hlt. unfold collect_samples. set (g0 := set_acc (increment_tick (gv_acc g)) g).
  pose proof (go_tick _ Hg) as H0.
  assert (tick_id (gv_acc g0) = tick_id (gv_acc g) + 1) as Etk by (by apply increment_tick_eq).
  destruct (ht_foreach _ _ (Some g0)) as [g1|] eqn:E1; [|done]. cbn [mbind option_bind].
  destruct (grown_counters cfg clk_tck tm now g0 g1 Hiv (increment_tick_wf _ (go_wf _ Hg)) (go_counters _ Hg) ltac:(lia) E1)
    as (G1 & Hw1 & Ht1).
  destruct (tick_empty_users_one_sample cfg (gv_acc g1) Hiv Hw1 ltac:(lia)) as (a2 & E2 & Hw2 & _).
  rewrite E2. cbn [mbind option_bind]. pose proof (grown_empty _ _ _ E2) as G2.
  destruct (calc_acc_stats_sums cfg a2 Hw2) as (a3 & -> & Hw3 & Hu3 & _ & Hs3). cbn [mbind option_bind].
  intros [= <-]. cbn [set_acc gv_acc]. eapply grown_trans; [exact G1|]. eapply grown_trans; [exact G2|].
  split; [by rewrite Hu3|]. split.
  - intros a [ac Ha]%elem_of_dom. destruct (Hs3 a ac Ha) as (ac' & Ha' & _). by eapply elem_of_dom_2.
  - intros a ac' Ha'. destruct (wf_same_accounts a2 a3 a ac' Hw2 Hw3 Hu3 Ha') as [ac Ha].
    destruct (Hs3 a ac Ha) as (ac3 & Ha3 & Eu & Est & _). rewrite Ha' in Ha3. injection Ha3 as <-. rewrite Ha.
    cbn [default from_option id]. injection Est as E4 E5 E6 _. split; [done|]. exists []. rewrite app_nil_r. split; [done|].
    intros u Hin. by apply elem_of_nil in Hin.
Qed.

(** The polled map makes users without samples. *)
Lemma grown_map cfg g g' : intervals_wf (c_intervals cfg) -> gov_ok g -> set_dbuser_map cfg g = Some g' ->
  grown (gv_acc g) (gv_acc g') /\ gv_bad g' = gv_bad g /\ gv_q g' = gv_q g /\ gv_map g' = gv_map g /\ gov_ok g'.
Proof.
  intros Hiv Hg. unfold set_dbuser_map. intros E.
  pose proof (ht_foreach_ind (list_uid cfg) (fun _ r => forall g', r = Some g' ->
    grown (gv_acc g) (gv_acc g') /\ gv_bad g' = gv_bad g /\ gv_q g' = gv_q g /\ gv_map g' = gv_map g /\ gov_ok g')
    (default ∅ (gv_map g)) (Some g)) as G.
  rewrite E in G. apply G; [intros g0 [= <-]; by split; [apply grown_refl|]| |done].
  intros dn k um [g1|] Hk _ IH g2 E2; [|done]. destruct (IH g1 eq_refl) as (G1 & B1 & Q1 & M1 & Hg1).
  assert (strlen (um_username um) < USERNAMEMAXLEN) as Hlen.
  { revert Hk. destruct (gv_map g) as [m|] eqn:Em; cbn [default from_option id]; [by eapply (go_map _ Hg)|].
    by rewrite lookup_empty. }
  destruct (list_uid_ok cfg k um g1 Hiv Hg1 Hlen) as (g3 & E3 & Hg3 & _). rewrite E2 in E3. injection E3 as <-.
  revert E2. unfold list_uid, add_empty_stats_for_uid. cbn [mbind option_bind].
  destruct (users (gv_acc g1) !! um_username um) eqn:Eu; cbn [mbind option_bind]; [by intros [= <-]|].
  destruct (add_user_stats _ _ _ _ _) as [[s us]|] eqn:Ea; [|done]. cbn [mbind option_bind]. intros [= <-].
  split_and!; try done. eapply grown_trans; [exact G1|]. by eapply grown_add_user; [apply (go_wf _ Hg1)|..].
Qed.
End grown.

(** * The invariant *)

Section gov.
Context {limit : bool} `{DI : !Discipline limit} `{HO : HashOrder}.

(** Room in the shared list for every user that is known. *)
Definition room (g : gov) : Prop :=
  Z.of_nat (base.size (dom (users (gv_acc g)))) < MAX_ITEMS_IN_TABLE - 1.

(** [l] is the shared list, [sent] what the worker has still to do, [pend]
    the queue: once both are carried out, the users of every account are
    listed as its state demands. *)
Record enforced (l : shm_structure) (sent pend : list Command) (g : gov) : Prop := {
  ef_bad : gv_bad g = Some l;
  ef_inv : list_inv l;
  ef_queue : command_list (gv_q g) = node_list pend;
  ef_sent : sent = if nonzero (is_send_command_cycle (gv_q g))
                   then commands_of (command_list_send (gv_q g)) else [];
  ef_cmds : Forall cmd_ok (sent ++ pend);
  ef_known : dom (abs l) ∪ users_of (sent ++ pend) ⊆ dom (users (gv_acc g));
  ef_uids : forall u d, abs l !! u = Some d -> d = s32 (get_uid (gv_map g) u);
  ef_map : forall u, 0 < get_uid (gv_map g) u < 2 ^ 31;
  ef_room : room g;
  ef_accounts : forall a ac, accounts (gv_acc g) !! a = Some ac -> exists b, holds ac b
    /\ forall u, u ∈ ac_users ac -> frozen (listed l u) u (sent ++ pend) = b
}.

(** ** Commands *)

Lemma frozen_absent b u cmds : u ∉ users_of cmds -> frozen b u cmds = b.
Proof.
  revert b. induction cmds as [|c cmds IH]; intros b Hu; [done|]. unfold users_of in Hu.
  rewrite fmap_cons in Hu. cbn [list_to_set] in Hu. unfold frozen. cbn [fold_left].
  destruct (String.eqb_spec (c_username c) u); [set_solver|]. apply IH. unfold users_of. set_solver.
Qed.

Lemma frozen_present b b' u cmds : u ∈ users_of cmds -> frozen b u cmds = frozen b' u cmds.
Proof.
  revert b b'. induction cmds as [|c cmds IH]; intros b b' Hu; unfold users_of in Hu; [set_solver|].
  rewrite fmap_cons in Hu. cbn [list_to_set] in Hu. unfold frozen. cbn [fold_left].
  destruct (String.eqb_spec (c_username c) u); [done|]. apply IH. unfold users_of. set_solver.
Qed.

(** Who is not frozen before or after is not frozen when he starts free. *)
Lemma frozen_false b u cmds : frozen b u cmds = false -> frozen false u cmds = false.
Proof.
  intros E. destruct (decide (u ∈ users_of cmds)) as [Hu|Hu].
  - by rewrite (frozen_present false b).
  - by apply frozen_absent.
Qed.

Lemma users_of_freezes c l : users_of (freezes c l) = list_to_set l.
Proof. unfold users_of, freezes. rewrite <- list_fmap_compose. by rewrite list_fmap_id. Qed.

Lemma answers_users ac b p b' : answers ac b p b' -> users_of p ⊆ list_to_set (ac_users ac).
Proof. intros [[-> _]|(c & _ & -> & _)]; [set_solver|]. by rewrite users_of_freezes. Qed.

Lemma answers_ok ac b p b' : names_ok ac -> answers ac b p b' -> Forall cmd_ok p.
Proof.
  intros Hn [[-> _]|(c & Hc & -> & _)]; [by constructor|]. unfold freezes. apply list.Forall_fmap.
  eapply list.Forall_impl; [exact Hn|]. intros u Hu. by split.
Qed.

Lemma answers_frozen ac b p b' x u : answers ac b p b' -> u ∈ ac_users ac -> frozen x u p = if decide (p = []) then x else b'.
Proof.
  intros [[-> _]|(c & _ & -> & ->)] Hu; [by rewrite decide_True|]. rewrite frozen_freezes by done.
  destruct (decide _) as [E|]; [|done]. unfold freezes in E. apply fmap_nil_inv in E. rewrite E in Hu. by apply elem_of_nil in Hu.
Qed.

(** ** One account *)

(** A user belongs to one account. *)
Lemma one_account s a b ac ac' u : acc_wf s -> accounts s !! a = Some ac -> accounts s !! b = Some ac' ->
  u ∈ ac_users ac -> u ∈ ac_users ac' -> a = b.
Proof.
  intros Hw Ha Hb Hu Hu'. destruct (wf_account_users _ Hw a ac u Ha Hu) as (us & E & <-).
  destruct (wf_account_users _ Hw b ac' u Hb Hu') as (us' & E' & <-). congruence.
Qed.

Lemma known_names g a ac : gov_ok g -> accounts (gv_acc g) !! a = Some ac -> names_ok ac.
Proof.
  intros Hg Ha. apply list.Forall_forall. intros u Hu.
  destruct (wf_account_users _ (go_wf _ Hg) a ac u Ha Hu) as (us & Hus & _). apply (go_users _ Hg). by eexists.
Qed.

(** The state of the daemon with the result of a handler. *)
Definition put_account (a : string) (r : rstate) (g : gov) : gov :=
  mkGov (set_account a (r_ac r) (gv_acc g)) (gv_tid g) (r_counts r) (gv_stat g) (r_q r)
    (gv_old_tm g) (gv_bad g) (gv_map g) (gv_files g).

Lemma enforced_account l sent pend g a ac c r' : gov_ok g -> enforced l sent pend g ->
  accounts (gv_acc g) !! a = Some ac -> handled holds (mkR ac c (gv_q g)) r' ->
  exists p, enforced l sent (pend ++ p) (put_account a r' g) /\ same_users ac (r_ac r')
    /\ same_sent (gv_q g) (r_q r').
Proof.
  intros Hg He Ha Hh. destruct He as [Hb Hi Hq Hs Hc Hk Hu Hmp Hr Hacc].
  destruct (Hacc a ac Ha) as (b & Hhold & Hfr). pose proof (known_names g a ac Hg Ha) as Hn.
  destruct (Hh pend b Hq Hn Hhold) as ([Eid Eus] & [Es1 Es2] & p & b' & Eq & Hans & Hhold').
  cbn [r_ac r_q] in *. exists p. split; [|done].
  assert (users_of p ⊆ dom (users (gv_acc g))) as Hp.
  { intros u Hin%(answers_users _ _ _ _ Hans). rewrite elem_of_list_to_set in Hin.
    destruct (wf_account_users _ (go_wf _ Hg) a ac u Ha Hin) as (us & Hus & _). by eapply elem_of_dom_2. }
  split; unfold put_account; cbn [gv_bad gv_q gv_acc gv_map set_account users accounts]; try done.
  - by rewrite Es1, Es2.
  - rewrite app_assoc. apply list.Forall_app. split; [done|]. by eapply answers_ok.
  - rewrite app_assoc, users_of_app. set_solver.
  - intros x acx. rewrite lookup_insert_Some. intros [[<- <-]|[Hne Hx]].
    + exists b'. split; [done|]. rewrite Eus. intros u Hin. rewrite app_assoc, frozen_app, (answers_frozen ac b p b') by done.
      destruct (decide (p = [])) as [->|]; [|done]. rewrite Hfr by done.
      destruct Hans as [[_ ->]|(c0 & _ & E & _)]; [done|].
      unfold freezes in E. symmetry in E. apply fmap_nil_inv in E. rewrite E in Hin. by apply elem_of_nil in Hin.
    + destruct (Hacc x acx Hx) as (bx & Hhx & Hfx). exists bx. split; [done|]. intros u Hin.
      rewrite app_assoc, frozen_app, frozen_absent; [by apply Hfx|].
      intros Hu'%(answers_users _ _ _ _ Hans). rewrite elem_of_list_to_set in Hu'.
      apply Hne. by eapply one_account; [apply (go_wf _ Hg)|..].
Qed.

(** ** Passes over the accounts *)

Lemma put_account_ok a ac r g : gov_ok g -> accounts (gv_acc g) !! a = Some ac ->
  same_users ac (r_ac r) -> short_q (r_q r) -> gov_ok (put_account a r g).
Proof. intros Hg Ha Hus Hq. by apply (set_account_ok a ac). Qed.

Lemma queue_short l sent pend g : gov_ok g -> enforced l sent pend g -> short_q (gv_q g).
Proof. intros Hg _. apply Hg. Qed.

(** What a pass leaves of the state. *)
Definition passed (g g' : gov) : Prop :=
  users (gv_acc g') = users (gv_acc g) /\ gv_bad g' = gv_bad g /\ gv_map g' = gv_map g
  /\ same_sent (gv_q g) (gv_q g') /\ gov_ok g'.

Lemma foreach_enforced handler clk l sent pend g : gov_ok g -> enforced l sent pend g ->
  keeps_queue handler -> (forall n r, handled holds r (handler (clk_skip n clk) r)) ->
  exists p, enforced l sent (pend ++ p) (foreach_account handler clk g)
    /\ passed g (foreach_account handler clk g).
Proof.
  intros Hg He Hkq Hh. unfold foreach_account.
  destruct (ht_foreach_ind (on_account handler clk)
    (fun _ st => exists p, enforced l sent (pend ++ p) (snd st) /\ passed g (snd st))
    (accounts (gv_acc g)) (0%nat, g)) as (p & H); [|..|by exists p].
  - exists []. by rewrite app_nil_r.
  - intros dn a ac [n g1] _ _ (p & He1 & U & B & M & S & Hg1). cbn [snd] in *. unfold on_account.
    destruct (accounts (gv_acc g1) !! a) as [ac1|] eqn:Ha; [|by exists p].
    destruct (enforced_account l sent (pend ++ p) g1 a ac1 (gv_counts g1)
                (handler (clk_skip n clk) (mkR ac1 (gv_counts g1) (gv_q g1))) Hg1 He1 Ha (Hh n _)) as (p' & He2 & Hus & Hs2).
    exists (p ++ p')%list. rewrite app_assoc. split; [exact He2|].
    split; [done|]. split; [done|]. split; [done|]. split; [by eapply same_sent_trans|].
    apply (put_account_ok a ac1 _ g1 Hg1 Ha Hus). apply Hkq. apply (go_queue _ Hg1).
Qed.

Lemma restrict_enforced cfg sys command clk l sent pend g : gov_ok g -> enforced l sent pend g ->
  steady limit cfg -> (forall n, 0 < clk n < 2 ^ 40) ->
  is_Some (users (gv_acc g) !! o_username (d_options command)) ->
  exists p g', restrict_command cfg sys command clk g = Some g'
    /\ enforced l sent (pend ++ p) g' /\ passed g g'.
Proof.
  intros Hg He Hst Hclk [us Hus]. unfold restrict_command.
  destruct (ht_foreach_ind (dbctl_restrict_set cfg sys command clk)
    (fun _ r => exists n p g', r = Some (n, g') /\ enforced l sent (pend ++ p) g' /\ passed g g'
       /\ forall a, is_Some (accounts (gv_acc g) !! a) -> is_Some (accounts (gv_acc g') !! a))
    (accounts (gv_acc g)) (Some (0%nat, g))) as (n & p & g' & -> & He' & Hp' & _).
  - exists 0%nat, [], g. rewrite app_nil_r. by split_and!.
  - intros dn a ac r Ha _ (n & p & g1 & -> & He1 & (U & B & M & S & Hg1) & A1). unfold dbctl_restrict_set.
    cbn [mbind option_bind]. rewrite U, Hus. cbn [mbind option_bind].
    destruct (A1 a) as [ac1 Hac1]; [by eexists|]. cbn [set_acc gv_acc]. rewrite Hac1.
    cbn [mbind option_bind]. destruct (_ || _).
    + set (r := restrict_by_hand _ _ _ _ _ _).
      destruct (enforced_account l sent (pend ++ p) g1 a ac1 (gv_counts g1) r Hg1 He1 Hac1)
        as (p' & He2 & Hu2 & Hs2); [by apply holds_by_hand|].
      eexists _, (p ++ p')%list, _. split; [reflexivity|]. rewrite app_assoc. split; [exact He2|]. split.
      * do 3 (split; [done|]). split; [by eapply same_sent_trans|]. apply (put_account_ok a ac1 r g1 Hg1 Hac1 Hu2).
        apply by_hand_queue, (go_queue _ Hg1).
      * intros x Hx. cbn [gv_acc set_account accounts]. apply lookup_insert_is_Some'. right. by apply A1.
    + exists n, p, (set_acc (gv_acc g1) g1). split; [done|]. by destruct g1.
  - cbn [fmap option_fmap option_map snd]. by exists p, g'.
Qed.

(** The commands that release. *)
Lemma unrestrict_handled cfg sys u clk r : steady limit cfg ->
  handled holds r (dbctl_unrestrict_set cfg sys u clk r).
Proof.
  intros [_ Hl _]. unfold dbctl_unrestrict_set. destruct (strcmp_eq _ _); [|apply handled_same].
  rewrite check_restrict_eq, (cleared_not_over cfg (set_ac (clear_stats (r_ac r)) r) _ eq_refl).
  apply handled_release; [done..|]. apply holds_clear.
Qed.

Lemma unrestrict_all_handled cfg r : steady limit cfg -> handled holds r (dbctl_unrestrict_all_set cfg r).
Proof.
  intros [_ Hl _]. unfold dbctl_unrestrict_all_set. destruct (nonzero (ac_timeout (r_ac r))) eqn:E.
  - intros q b Hq Hn Hb.
    destruct (handled_release holds cfg r (set_ac (clear_stats (r_ac r)) r) Hl eq_refl ltac:(done)
                (holds_clear _) q b Hq Hn Hb) as (_ & A & B). by split_and!.
  - apply handled_quiet; [done..|]. intros b Hb.
    rewrite (holds_idle _ _ Hb); [apply holds_clear|]. unfold nonzero in E. by apply negb_false_iff, Z.eqb_eq in E.
Qed.

(** ** A second *)

(** No restricted account gains a user. *)
Definition settled (g g' : gov) : Prop :=
  forall a ac ac', accounts (gv_acc g) !! a = Some ac -> accounts (gv_acc g') !! a = Some ac' ->
    ac_timeout ac <> 0 -> ac_users ac' = ac_users ac.

Lemma enforced_grow l sent pend g g' : enforced l sent pend g -> grown (gv_acc g) (gv_acc g') ->
  gv_bad g' = gv_bad g -> gv_q g' = gv_q g -> gv_map g' = gv_map g -> room g' -> settled g g' ->
  enforced l sent pend g'.
Proof.
  intros [Hb Hi Hq Hs Hc Hk Hu Hmp Hr Hacc] (U & A & G) Eb Eq Em Hr' Hset.
  split; rewrite ?Eb, ?Eq, ?Em; try done; [set_solver|].
  intros a ac' Ha'. destruct (G a ac' Ha') as (Hst & lu & Eu & Hnew).
  assert (exists b, holds (default (init_account a) (accounts (gv_acc g) !! a)) b
    /\ forall u, u ∈ ac_users (default (init_account a) (accounts (gv_acc g) !! a)) ->
         frozen (listed l u) u (sent ++ pend) = b) as (b & Hb' & Hf).
  { destruct (accounts (gv_acc g) !! a) as [ac|] eqn:Ha; [by apply (Hacc a)|].
    exists false. split; [apply holds_fresh|]. intros u Hin. by apply elem_of_nil in Hin. }
  exists b. split; [by eapply holds_state|]. rewrite Eu. intros u [Hin|Hin]%elem_of_app; [by apply Hf|].
  destruct (Z.eq_dec (ac_timeout (default (init_account a) (accounts (gv_acc g) !! a))) 0) as [E0|E0].
  - rewrite (holds_idle _ _ Hb' E0). specialize (Hnew u Hin).
    rewrite frozen_absent by set_solver. unfold listed. apply bool_decide_eq_false_2.
    intros Hl. apply elem_of_dom in Hl. set_solver.
  - destruct (accounts (gv_acc g) !! a) as [ac|] eqn:Ha; [|done]. cbn [default from_option id] in *.
    specialize (Hset a ac ac' Ha Ha' E0). rewrite Hset in Eu.
    assert (lu = []) as -> by (apply (f_equal (@length _)) in Eu; rewrite length_app in Eu; destruct lu; [done|simpl in Eu; lia]).
    by apply elem_of_nil in Hin.
Qed.

Lemma enforced_queue l sent pend g q : enforced l sent pend g -> same_sent (gv_q g) q ->
  command_list q = command_list (gv_q g) -> enforced l sent pend (set_q q g).
Proof.
  intros [Hb Hi Hq Hs Hc Hk Hu Hmp Hr Hacc] [E1 E2] E3. by split; cbn [set_q gv_q gv_acc gv_bad gv_map]; rewrite ?E1, ?E2, ?E3.
Qed.

Lemma screen_queue cfg (b : bool) tm accs q :
  let q' := if b then print_to_restrict_log_stats cfg tm accs q else q in
  same_sent q q' /\ command_list q' = command_list q.
Proof.
  destruct b; [|done]. unfold print_to_restrict_log_stats.
  assert (forall line q0, same_sent q q0 /\ command_list q0 = command_list q ->
    same_sent q (log_restrict cfg line q0) /\ command_list (log_restrict cfg line q0) = command_list q) as Hlog.
  { intros line q0 [H1 H2]. split; [eapply same_sent_trans; [exact H1|apply sent_log]|by rewrite log_restrict_list]. }
  apply Hlog. apply (ht_foreach_ind _ (fun _ q0 => same_sent q q0 /\ command_list q0 = command_list q)); [by apply Hlog|].
  intros dn a ac q0 _ _ Hq0. by apply Hlog.
Qed.

(** The cycle hands the queue to the worker when it is idle. *)
Lemma cycle_moves cfg q pend : is_gpl cfg = 0 -> command_list q = node_list pend -> Forall cmd_ok pend ->
  let q' := fst (send_commands_cycle cfg q) in
  if nonzero (is_send_command_cycle q) then q' = q
  else command_list q' = node_list [] /\ commands_of (command_list_send q') = pend
       /\ is_send_command_cycle q' = 1.
Proof.
  intros Hg Hq Hok. unfold send_commands_cycle. rewrite Hg. change (nonzero 0) with false. cbv iota.
  destruct (nonzero (is_send_command_cycle q)); [done|]. cbn [negb].
  unfold send_command_copy_list, copy_list, reinit_command_list_send, cycle_end.
  cbn [command_list command_list_send is_send_command_cycle is_any_flush cm_events]. rewrite Hq.
  set (q1 := mkCmd _ g_list_alloc _ _ _). destruct (copy_nodes pend q1 [] Hok eq_refl) as (E1 & E2 & _).
  change (fold_left copy_commands (default [] (node_list pend)) q1)
    with (fold_left copy_commands (Some <$> pend) q1).
  set (q2 := fold_left copy_commands (Some <$> pend) q1) in *. cbn [app] in E1.
  assert (command_list_send (reinit_command_list q2) = node_list pend) as E3 by exact E1.
  rewrite E3. cbn [node_list fst emit command_list command_list_send is_send_command_cycle].
  rewrite E3, commands_of_nodes. split; [done|]. split; [done|exact E2].
Qed.

Lemma enforced_cycle cfg l sent pend g : steady limit cfg -> enforced l sent pend g ->
  let g' := set_q (fst (send_commands_cycle cfg (gv_q g))) g in
  if nonzero (is_send_command_cycle (gv_q g)) then enforced l sent pend g' /\ nonzero (is_send_command_cycle (gv_q g')) = true
  else enforced l pend [] g' /\ nonzero (is_send_command_cycle (gv_q g')) = true.
Proof.
  intros [_ (Hg & _ & _) _] He. pose proof He as [Hb Hi Hq Hs Hc Hk Hu Hmp Hr Hacc].
  assert (Forall cmd_ok pend) as Hcp by (by apply list.Forall_app in Hc as [_ ?]).
  pose proof (cycle_moves cfg (gv_q g) pend Hg Hq Hcp) as Hm. cbv zeta in *.
  destruct (nonzero (is_send_command_cycle (gv_q g))) eqn:Ef.
  - rewrite Hm. split; [|done]. by apply enforced_queue.
  - destruct Hm as (E1 & E2 & E3). subst sent. cbn [app] in *. split; [|cbn [set_q gv_q]; by rewrite E3].
    split; cbn [set_q gv_q gv_acc gv_bad gv_map]; rewrite ?app_nil_r; try done. by rewrite E3, E2.
Qed.

Lemma times_skip cfg n clk : times_ok cfg clk -> times_ok cfg (clk_skip n clk).
Proof. intros H k. apply H. Qed.

(** An account, new when it is not known yet. *)
Definition account_in (s : acc_state) (a : string) : Account := default (init_account a) (accounts s !! a).

(** The account [a] after an analysis that found it in the state of [s]. *)
Definition analysed_by (cfg : governor_config) (sys : sysinfo) (s : acc_state) (a : string) (ac' : Account) : Prop :=
  exists clk r b, times_ok cfg clk /\ holds (r_ac r) b /\ same_state (account_in s a) (r_ac r)
    /\ ac' = r_ac (analysis limit cfg sys clk r).
Definition all_analysed (cfg : governor_config) (sys : sysinfo) (s s' : acc_state) : Prop :=
  dom (accounts s) ⊆ dom (accounts s')
  /\ forall a ac', accounts s' !! a = Some ac' -> analysed_by cfg sys s a ac'.

Lemma proceed_enforced cfg sys clk_tck io tm now clk cur ts l sent pend g g' :
  steady limit cfg -> intervals_wf (c_intervals cfg) -> gov_ok g -> tick_id (gv_acc g) + 1 < 2 ^ 63 ->
  times_ok cfg clk -> enforced l sent pend g ->
  proceed_accounts cfg sys clk_tck io tm now clk cur ts g = Some g' -> room g' -> settled g g' ->
  exists p, enforced l sent (pend ++ p) g' /\ same_sent (gv_q g) (gv_q g')
    /\ all_analysed cfg sys (gv_acc g) (gv_acc g').
Proof.
  intros Hst Hiv Hg Hlt Hclk He. unfold proceed_accounts.
  destruct (collect_ok cfg clk_tck tm now g Hiv Hg Hlt) as (g3 & Ec & Hg3 & _ & _).
  pose proof (grown_collect cfg clk_tck tm now g g3 Hiv Hg Hlt Ec) as Hgr.
  assert (gv_bad g3 = gv_bad g /\ gv_q g3 = gv_q g /\ gv_map g3 = gv_map g) as (B3 & Q3 & M3).
  { revert Ec. unfold collect_samples. destruct (ht_foreach _ _ (Some _)) as [g1|] eqn:E1; [|done].
    cbn [mbind option_bind]. destruct (collect_rest _ _ _ _ _ _ E1 (go_counters _ Hg)) as (_ & _ & B & Q & M).
    destruct (ht_foreach _ (tick_empty_users cfg) _); [|done]. cbn [mbind option_bind].
    destruct (ht_foreach _ calc_acc_stats _); [|done]. cbn [mbind option_bind]. by intros [= <-]. }
  rewrite Ec. cbn [mbind option_bind].
  rewrite (analysis_pass_eq limit cfg sys clk g3 (st_mode _ _ Hst)).
  set (g4 := foreach_account (analysis limit cfg sys) clk g3). set (g5 := if nonzero (statistic_mode cfg) then _ else g4).
  assert (gv_acc g5 = gv_acc g4 /\ gv_bad g5 = gv_bad g4 /\ gv_q g5 = gv_q g4 /\ gv_map g5 = gv_map g4)
    as (E5 & B5 & Q5 & M5).
  { subst g5. destruct (nonzero (statistic_mode cfg)); [|done]. split; [apply add_dbgov_acc|apply add_dbgov_rest]. }
  intros [= <-] Hr Hset.
  destruct (analysis_keeps same_users (analysis limit cfg sys) clk g3 (analysis_users limit cfg sys) (fun _ _ H => H)
              (go_wf _ Hg3)) as (_ & U4 & A4). fold g4 in U4, A4.
  assert (enforced l sent pend g3) as He3.
  { apply (enforced_grow l sent pend g g3 He Hgr B3 Q3 M3).
    - revert Hr. unfold room. by rewrite E5, U4.
    - intros a ac ac3 Ha Ha3 Ht. destruct (A4 a ac3 Ha3) as (ac4 & Ha4 & _ & Eu).
      rewrite <- Eu. apply (Hset a ac ac4 Ha); [by rewrite E5|done]. }
  destruct (foreach_enforced (analysis limit cfg sys) clk l sent pend g3 Hg3 He3 (analysis_queue limit cfg sys))
    as (p & [Hb Hi Hq Hs Hc Hk Hu Hmp Hr4 Hacc] & _ & _ & _ & Hsent & _).
  { intros n r. by apply analysis_handled, times_skip. }
  fold g4 in Hb, Hq, Hs, Hk, Hu, Hmp, Hr4, Hacc, Hsent. exists p. split; [|split; [by rewrite Q5, <- Q3|]].
  - by split; rewrite ?B5, ?Q5, ?M5, ?E5.
  - split.
    { rewrite E5. destruct Hgr as (_ & D & _). intros a Ha. apply D in Ha. apply elem_of_dom in Ha as [ac3 Ha].
      destruct (A4 a ac3 Ha) as (ac4 & Ha4 & _). by apply elem_of_dom_2 in Ha4. }
    intros a ac'. rewrite E5. destruct (foreach_account_spec (analysis limit cfg sys) clk g3) as (_ & _ & _ & _ & _ & _ & Hsp).
    fold g4 in Hsp. specialize (Hsp a). destruct (accounts (gv_acc g3) !! a) as [ac3|] eqn:Ha3; [|by rewrite Hsp].
    destruct Hsp as (n & c & q & ->). intros [= <-]. destruct (ef_accounts _ _ _ _ He3 a ac3 Ha3) as (b & Hb3 & _).
    exists (clk_skip n clk), (mkR ac3 c q), b. split; [by apply times_skip|]. split; [done|]. split; [|done].
    destruct Hgr as (_ & _ & G). by destruct (G a ac3 Ha3).
Qed.

(** A period passes in this second. *)
Definition elapsed (io : second_io) (old_tm : double) : Prop :=
  dleb d1 (dsub (tm_of (so_cur io)) (if deqb old_tm d0 then tm_of (so_cur io) else old_tm)) = true.

Lemma second_enforced cfg sys clk_tck io old_tm tm l sent pend g g' :
  steady limit cfg -> intervals_wf (c_intervals cfg) -> gov_ok g -> tick_id (gv_acc g) + 1 < 2 ^ 63 ->
  times_ok cfg (so_clock io) -> enforced l sent pend g ->
  every_second sys clk_tck cfg io old_tm g = Some (tm, g') -> room g' -> settled g g' ->
  exists sent' pend', enforced l sent' pend' g'
    /\ nonzero (is_send_command_cycle (gv_q g')) = true
    /\ (nonzero (is_send_command_cycle (gv_q g)) = false -> pend' = [])
    /\ (elapsed io old_tm -> all_analysed cfg sys (gv_acc g) (gv_acc g'))
    /\ (~ elapsed io old_tm -> gv_acc g' = gv_acc g).
Proof.
  intros Hst Hiv Hg Ht Hclk He. unfold every_second, elapsed. set (g1 := set_tid _ g).
  assert (gov_ok g1) as Hg1.
  { apply (gov_ok_ext g); try done; [apply short_monitor, Hg|apply Hg]. }
  assert (enforced l sent pend g1) as He1 by (by destruct He; split).
  set (old := if deqb old_tm d0 then _ else _).
  assert (forall g2 p, enforced l sent (pend ++ p) g2 -> is_send_command_cycle (gv_q g2) = is_send_command_cycle (gv_q g) ->
    let q := fst (send_commands_cycle cfg (gv_q g2)) in
    let q := if 4 <=? restrict_format cfg
             then print_to_restrict_log_stats cfg (so_screen io) (accounts (gv_acc g2)) q else q in
    exists sent' pend', enforced l sent' pend' (set_q q g2)
      /\ nonzero (is_send_command_cycle q) = true
      /\ (nonzero (is_send_command_cycle (gv_q g)) = false -> pend' = [])) as Hfin.
  { intros g2 p He2 Efl. pose proof (enforced_cycle cfg l sent (pend ++ p) g2 Hst He2) as Hc. cbv zeta in Hc.
    set (q0 := fst (send_commands_cycle cfg (gv_q g2))) in *. rewrite Efl in Hc. cbv zeta.
    destruct (screen_queue cfg (4 <=? restrict_format cfg) (so_screen io) (accounts (gv_acc g2)) q0) as [[S1 S2] S3].
    set (q1 := if 4 <=? restrict_format cfg then _ else q0) in *. rewrite S2.
    destruct (nonzero (is_send_command_cycle (gv_q g))); destruct Hc as [Hc1 Hc2].
    - exists sent, (pend ++ p)%list. split; [|by split].
      by apply (enforced_queue _ _ _ (set_q q0 g2) q1).
    - exists (pend ++ p)%list, []. split; [|by split].
      by apply (enforced_queue _ _ _ (set_q q0 g2) q1). }
  destruct (dleb d1 _) eqn:Ed.
  - destruct (proceed_accounts _ _ _ _ _ _ _ _ _ _) as [g2|] eqn:E2; [|done]. cbn [mbind option_bind].
    intros [= <- <-] Hr Hset.
    destruct (proceed_enforced _ _ _ _ _ _ _ _ _ l sent pend g1 g2 Hst Hiv Hg1 Ht Hclk He1 E2 Hr Hset) as (p & He2 & Hs2 & Han).
    destruct (Hfin g2 p He2 (proj2 Hs2)) as (sent' & pend' & A & B & C). exists sent', pend'. by split_and!.
  - cbn [mbind option_bind]. intros [= <- <-] Hr Hset.
    destruct (Hfin g1 []) as (sent' & pend' & A & B & C); [by rewrite app_nil_r|done|]. exists sent', pend'. by split_and!.
Qed.

(** ** The worker *)

Definition uids_of (um : option (gmap string UserMap)) (l : shm_structure) : Prop :=
  forall u d, abs l !! u = Some d -> d = s32 (get_uid um u).

Lemma send_all_commands um cfg l s : send_all um cfg l s = send_all um cfg (Some <$> omap id l) s.
Proof.
  revert s. induction l as [|[c|] l IH]; intros s; [done|..|apply IH].
  cbn [omap list_omap id fmap list_fmap send_all]. destruct (send_commands um cfg (Some c) s); [apply IH|done].
Qed.

Lemma send_command_uids um cfg c s s' l : all_lve cfg = 0 -> cmd_ok c -> sd_bad s = Some l -> list_inv l ->
  uids_of um l -> send_commands um cfg (Some c) s = Some s' ->
  exists l', sd_bad s' = Some l' /\ list_inv l' /\ uids_of um l'.
Proof.
  intros Hall [Hu _] Hb Hi Hl. unfold send_commands, update_limit. rewrite Hb.
  destruct (c_command c); try (intros [= <-]; by exists l).
  - destruct (nonzero (use_lve cfg)).
    + destruct (run_add um l (c_username c) (all_lve cfg) Hi Hu) as (l1 & -> & Hi1 & Ha1).
      cbn [mbind option_bind]. intros [= <-]. exists l1.
      split; [by destruct (logqueries_use cfg =? 1), (_ <? 0), (nonzero (max_user_connections cfg))|].
      split; [done|]. intros v d. rewrite Ha1, Hall. unfold spec_op. destruct (abs l !! c_username c); [apply Hl|].
      destruct (_ =? MAX_ITEMS_IN_TABLE); [apply Hl|]. cbn [fst]. change (nonzero 0) with false. cbn [andb].
      rewrite lookup_insert_Some. intros [[<- <-]|[_ Hd]]; [done|by apply Hl].
    + cbn [mbind option_bind]. intros [= <-]. exists l. by destruct (logqueries_use cfg =? 1).
  - destruct (nonzero (use_lve cfg)).
    + destruct (run_del l (c_username c) Hi Hu) as (l1 & -> & Hi1 & Ha1). cbn [mbind option_bind].
      intros [= <-]. exists l1. split; [by destruct (nonzero (max_user_connections cfg))|]. split; [done|].
      intros v d. rewrite Ha1, lookup_delete_Some. intros [_ Hd]. by apply Hl.
    + intros [= <-]. exists l. by destruct (nonzero (max_user_connections cfg)).
Qed.

Lemma send_all_uids um cfg cmds s s' l : all_lve cfg = 0 -> Forall cmd_ok cmds -> sd_bad s = Some l ->
  list_inv l -> uids_of um l -> send_all um cfg (Some <$> cmds) s = Some s' ->
  exists l', sd_bad s' = Some l' /\ uids_of um l'.
Proof.
  intros Hall Hok. revert s l. induction Hok as [|c cmds Hc Hok IH]; intros s l Hb Hi Hl.
  - intros [= <-]. by exists l.
  - rewrite fmap_cons. cbn [send_all]. destruct (send_commands um cfg (Some c) s) as [s1|] eqn:E; [|done].
    destruct (send_command_uids um cfg c s s1 l Hall Hc Hb Hi Hl E) as (l1 & Hb1 & Hi1 & Hl1). by apply (IH s1 l1).
Qed.

Lemma worker_enforced cfg l sent pend g b q : steady limit cfg -> enforced l sent pend g ->
  nonzero (is_send_command_cycle (gv_q g)) = true ->
  send_commands_cycle_in (gv_map g) cfg (gv_bad g) (gv_q g) = Some (b, q) ->
  exists l', enforced l' [] pend (set_bad_list b (set_q q g)) /\ is_send_command_cycle q = 0.
Proof.
  intros [_ Hl _] [Hb Hi Hq Hs Hc Hk Hu Hmp Hr Hacc] Hf. destruct (lve_tests cfg Hl) as (_ & _ & T3).
  rewrite Hf in Hs. unfold send_commands_cycle_in. rewrite send_all_commands.
  fold (commands_of (command_list_send (gv_q g))). rewrite <- Hs.
  assert (Forall cmd_ok sent /\ Forall cmd_ok pend) as [Hcs Hcp] by (by apply list.Forall_app).
  rewrite users_of_app in Hk.
  destruct (send_all_spec (gv_map g) cfg sent (mkSend (gv_bad g) 0 (cm_events (gv_q g))) l (dom (users (gv_acc g))))
    as (s' & l' & E & Hb' & Hi' & Hd' & Hf'); [done|done|done|done|set_solver|set_solver|done|].
  rewrite E. cbn [mbind option_bind]. intros [= <- <-]. exists l'.
  destruct (send_all_uids (gv_map g) cfg sent (mkSend (gv_bad g) 0 (cm_events (gv_q g))) s' l (proj1 (proj2 Hl)) Hcs Hb Hi Hu E) as (l2 & Eb2 & Hu2).
  rewrite Hb' in Eb2. injection Eb2 as <-.
  split; [|done]. split; cbn [set_bad_list set_q gv_bad gv_q gv_acc gv_map command_list is_send_command_cycle app];
    try done; [set_solver|].
  intros a ac Ha. destruct (Hacc a ac Ha) as (x & Hx & Hfx). exists x. split; [done|]. intros u Hin.
  rewrite Hf', <- frozen_app. by apply Hfx.
Qed.

(** ** The list is emptied *)

(** While every account is idle, the list can be made anew and the map
    replaced. *)
Lemma cleared_enforced l sent pend g m : enforced l sent pend g ->
  (forall a ac, accounts (gv_acc g) !! a = Some ac -> ac_timeout ac = 0) ->
  (forall u, 0 < get_uid m u < 2 ^ 31) ->
  enforced clear_bad_users_list sent pend
    (mkGov (gv_acc g) (gv_tid g) (gv_counts g) (gv_stat g) (gv_q g) (gv_old_tm g)
       (Some clear_bad_users_list) m (gv_files g)).
Proof.
  intros [Hb Hi Hq Hs Hc Hk Hu Hmp Hr Hacc] Hidle Hm. destruct clear_inv as [Hci Hca].
  split; cbn [gv_bad gv_q gv_acc gv_map]; try done.
  - rewrite Hca. set_solver.
  - intros a ac Ha. destruct (Hacc a ac Ha) as (b & Hb' & Hf). exists b. split; [done|].
    intros u Hin. specialize (Hf u Hin). rewrite (holds_idle _ _ Hb' (Hidle a ac Ha)) in *.
    assert (listed clear_bad_users_list u = false) as ->.
    { unfold listed. rewrite Hca. apply bool_decide_eq_false_2. rewrite lookup_empty. by intros []. }
    by eapply frozen_false.
Qed.

Lemma reinit_enforced cfg content l sent pend g g' : steady limit cfg -> enforced l sent pend g ->
  (forall a ac, accounts (gv_acc g) !! a = Some ac -> ac_timeout ac = 0) ->
  reinit_users_list cfg content g = Some g' ->
  enforced clear_bad_users_list sent pend g' /\ gv_acc g' = gv_acc g /\ gv_q g' = gv_q g.
Proof.
  intros [_ Hl _] He Hidle. destruct (lve_tests cfg Hl) as (_ & T2 & _). unfold reinit_users_list.
  rewrite T2, (ef_bad _ _ _ _ He). cbn [delete_allusers_from_list fst]. intros [= <-].
  split; [|done]. apply (cleared_enforced l); [done..|]. intros u. apply map_uids_positive.
Qed.
End gov.
