(* ===== verification/EnforceWorld.v ===== *)
(** Enforcement in the daemon as a system of threads: in every state that the
    threads bring it to in regular work, the shared list follows the accounts.
    [enforce_step] are the steps of [System.world_step] that keep this.  The
    daemon can take others at any time, after which the list may not follow:
    - a renewal of the map while an account is restricted
      ([map_renewal_lifts_restrictions]);
    - a user who joins an account that is restricted: no command is queued for
      it ([settled] excludes it);
    - a configuration that is read with another LVE mode or another mode of
      restriction ([steady] excludes it), and the commands that turn LVE off;
    - a RESTRICT of a name that is no known user, for which a user is made
      while the table is walked ([CalcStats]);
    - a command that the administrator gives while the queue is copied: it may
      be lost ([Commands.command_lost_in_copy]). *)

From S2P Require Import Prelude CDouble CString Data FifoStats TidTable ProcFs Server UserMap BadList Xml Config Accounts LogDecoder Commands Restrict CalcStats Daemon System Enforce.
Open Scope string_scope.
Open Scope Z_scope.

Section steps.
Context {limit : bool} `{DI : !Discipline limit} `{HO : HashOrder} (sys : sysinfo) (clk_tck : Z).

Definition w_cfg (w : world) : governor_config := dm_cfg (w_dm w).

(** No account is restricted. *)
Definition all_idle (g : gov) : Prop :=
  forall a ac, accounts (gv_acc g) !! a = Some ac -> ac_timeout ac = 0.

(** The worker thread exists. *)
Definition working (w : world) : bool := nonzero (is_send_command_cycle (gv_q (w_gov w))).

(** The queue is empty and the worker done. *)
Definition drained (w : world) : Prop :=
  working w = false /\ commands_of (command_list (gv_q (w_gov w))) = [].

(** The steps that the daemon makes of itself in regular work: a round of the
    server, a second in which no restricted account gains a user and the users
    known fit the list, a run of the worker, and a renewal of the map while no
    account is restricted. *)
Inductive own_step : world -> world -> Prop :=
  | en_round io w w' : accept_fresh io -> world_round io w = Some w' -> own_step w w'
  | en_second io w w' : tick_left w -> times_ok (w_cfg w) (so_clock io) ->
      world_second sys clk_tck io w = Some w' -> room (w_gov w') -> settled (w_gov w) (w_gov w') ->
      own_step w w'
  | en_worker w w' : working w = true -> world_worker w = Some w' -> own_step w w'
  | en_map last c c' curr curr' w w' : all_idle (w_gov w) ->
      world_map last c c' curr w = Some (curr', w') -> room (w_gov w') -> own_step w w'.

(** And the commands of the administrator, each taken between two seconds, that
    leave the mode of LVE and of restriction as it is and that restrict no name
    but that of a known user. *)
Inductive enforce_step : world -> world -> Prop :=
  | en_own w w' : own_step w w' -> enforce_step w w'
  | en_command ns io command w w' : fresh_descriptor ns -> command_pre io command w ->
      (d_command command = RESTRICT -> is_Some (users (gv_acc (w_gov w)) !! o_username (d_options command))) ->
      (forall n, 0 < cm_clock io n < 2 ^ 40) ->
      (forall cfg, cm_config io = Ok cfg -> steady limit cfg) ->
      world_command sys ns io command w = Ok w' -> enforce_step w w'.

(** The states of regular work: the list is mapped when the daemon starts, and
    all the steps are of the kind above. *)
Inductive enforce_reachable : world -> Prop :=
  | er_start sock opened cfg : sock ∈ opened -> -1 ∉ opened -> intervals_wf (c_intervals cfg) ->
      steady limit cfg -> enforce_reachable (start_world sock opened cfg (Some clear_bad_users_list))
  | er_step w w' : enforce_reachable w -> enforce_step w w' -> enforce_reachable w'.

(** * Invariant *)

Definition follows (w : world) : Prop :=
  steady limit (w_cfg w) /\ exists l sent pend, enforced l sent pend (w_gov w).

Lemma start_follows sock opened cfg : steady limit cfg ->
  follows (start_world sock opened cfg (Some clear_bad_users_list)).
Proof.
  intros Hst. split; [done|]. exists clear_bad_users_list, [], []. split; try done. apply clear_inv.
Qed.

Lemma same_enforced l sent pend g g' : gv_acc g' = gv_acc g -> gv_bad g' = gv_bad g ->
  gv_q g' = gv_q g -> gv_map g' = gv_map g -> enforced l sent pend g -> enforced l sent pend g'.
Proof. intros Ea Eb Eq Em [? ? ? ? ? ? ? ? Hr ?]. by split; rewrite ?Ea, ?Eb, ?Eq, ?Em; try done; unfold room; rewrite Ea. Qed.

Lemma round_follows io w w' : follows w -> world_round io w = Some w' -> follows w'.
Proof.
  intros [Hst (l & sent & pend & He)]. unfold world_round.
  destruct (server_round io (server_of w)) as [sv|]; [|done]. cbn [mbind option_bind]. intros [= <-].
  split; [done|]. exists l, sent, pend. by apply (same_enforced l sent pend (w_gov w)).
Qed.

Lemma second_follows io w w' : world_ok w -> follows w -> tick_left w ->
  times_ok (w_cfg w) (so_clock io) -> world_second sys clk_tck io w = Some w' -> room (w_gov w') ->
  settled (w_gov w) (w_gov w') ->
  follows w' /\ working w' = true /\ w_cfg w' = w_cfg w
  /\ (working w = false -> commands_of (command_list (gv_q (w_gov w'))) = [])
  /\ (elapsed io (w_old_tm w) -> all_analysed (w_cfg w) sys (gv_acc (w_gov w)) (gv_acc (w_gov w')))
  /\ (~ elapsed io (w_old_tm w) -> gv_acc (w_gov w') = gv_acc (w_gov w)).
Proof.
  intros [Hg Hiv _] [Hst (l & sent & pend & He)] Ht Hclk. unfold world_second.
  destruct (every_second _ _ _ _ _ _) as [[tm g']|] eqn:E; [|done]. cbn [mbind option_bind]. intros [= <-] Hr Hset.
  destruct (second_enforced (w_cfg w) sys clk_tck io (w_old_tm w) tm l sent pend (w_gov w) g' Hst Hiv Hg Ht Hclk He E Hr Hset)
    as (sent' & pend' & He' & Hf & Hp & Han).
  split; [split; [done|by exists l, sent', pend']|]. split; [done|]. split; [done|]. split; [|done].
  intros Hw. cbn. rewrite (ef_queue _ _ _ _ He'), commands_of_nodes. by apply Hp.
Qed.

Lemma worker_follows w w' : follows w -> working w = true -> world_worker w = Some w' ->
  follows w' /\ working w' = false /\ command_list (gv_q (w_gov w')) = command_list (gv_q (w_gov w))
  /\ gv_acc (w_gov w') = gv_acc (w_gov w) /\ w_cfg w' = w_cfg w.
Proof.
  intros [Hst (l & sent & pend & He)] Hw. unfold world_worker.
  destruct (send_commands_cycle_in _ _ _ _) as [[b q]|] eqn:E; [|done]. cbn [mbind option_bind]. intros [= <-].
  destruct (worker_enforced (w_cfg w) l sent pend (w_gov w) b q Hst He Hw E) as (l' & He' & Ef).
  split; [split; [done|by exists l', [], pend]|]. split; [by unfold working; cbn; rewrite Ef|].
  split; [|done]. rewrite (ef_queue _ _ _ _ He). exact (ef_queue _ _ _ _ He').
Qed.

(** ** The map *)

Lemma renewed_enforced l sent pend g g' : enforced l sent pend g -> all_idle g ->
  grown (gv_acc g) (gv_acc g') -> gv_bad g' = Some clear_bad_users_list -> gv_q g' = gv_q g ->
  (forall u, 0 < get_uid (gv_map g') u < 2 ^ 31) -> room g' ->
  enforced clear_bad_users_list sent pend g'.
Proof.
  intros He Hidle Hgr Eb Eq Hm Hr. pose proof (cleared_enforced l sent pend g (gv_map g') He Hidle Hm) as Hc.
  eapply (enforced_grow clear_bad_users_list sent pend); [exact Hc|done..|].
  intros a ac ac' Ha _ Ht. by destruct Ht; eapply Hidle.
Qed.

(** What a renewal does, to whom it may concern. *)
Lemma renewal cfg last c c' curr curr' g g' : is_Some (gv_bad g) -> intervals_wf (c_intervals cfg) -> gov_ok g ->
  nonzero (all_lve cfg) = false -> parse_map_round cfg last c c' curr g = Some (curr', g') -> curr < last ->
  grown (gv_acc g) (gv_acc g') /\ gv_bad g' = Some clear_bad_users_list /\ gv_q g' = gv_q g
  /\ forall u, 0 < get_uid (gv_map g') u < 2 ^ 31.
Proof.
  intros [l Hb] Hiv Hg Hall. unfold parse_map_round. intros E Hlt. revert E.
  destruct (Z.ltb_spec curr last); [|lia].
  pose proof (get_map_short (nonzero (separate_lve cfg)) c) as Hs.
  destruct (get_map_file _ c) as [m ok]. cbn [fst] in Hs. set (g0 := mkGov _ _ _ _ _ _ _ _ _).
  assert (gov_ok g0) as Hg0 by (destruct Hg; split; try done; by intros ? k um [= <-]; apply Hs).
  destruct (set_dbuser_map cfg g0) as [g1|] eqn:E1; [|done]. cbn [mbind option_bind].
  destruct (grown_map cfg g0 g1 Hiv Hg0 E1) as (G1 & B1 & Q1 & _ & _).
  unfold reinit_users_list. rewrite Hall, B1. cbn [g0 gv_bad]. rewrite Hb. cbn [delete_allusers_from_list fst mbind option_bind].
  intros [= _ <-]. split; [done|]. split; [done|]. split; [done|]. intros u. apply map_uids_positive.
Qed.

Lemma map_follows last c c' curr curr' w w' : world_ok w -> follows w -> all_idle (w_gov w) ->
  world_map last c c' curr w = Some (curr', w') -> room (w_gov w') -> follows w'.
Proof.
  intros [Hg Hiv _] [Hst (l & sent & pend & He)] Hidle. unfold world_map.
  destruct (parse_map_round _ _ _ _ _ _) as [[t g']|] eqn:E; [|done]. cbn [mbind option_bind].
  intros [= _ <-] Hr. split; [done|].
  destruct (lve_tests _ (st_lve _ _ Hst)) as (_ & T2 & _).
  destruct (Z.ltb_spec curr last) as [Hlt|Hge].
  - destruct (renewal (w_cfg w) last c c' curr t (w_gov w) g' ltac:(rewrite (ef_bad _ _ _ _ He); by eexists) Hiv Hg T2 E Hlt)
      as (Hgr & Eb & Eq & Hm).
    exists clear_bad_users_list, sent, pend. by apply (renewed_enforced l sent pend (w_gov w)).
  - revert E. unfold parse_map_round. destruct (Z.ltb_spec curr last); [lia|]. intros [= _ <-].
    exists l, sent, pend. by destruct He; split.
Qed.

(** ** The commands of the administrator *)

Lemma unrestrict_all_idle cfg clk g : all_idle (unrestrict_all_command cfg clk g).
Proof.
  intros a ac. unfold unrestrict_all_command.
  destruct (foreach_account_spec (fun _ => dbctl_unrestrict_all_set cfg) clk g) as (_ & _ & _ & _ & _ & _ & H).
  specialize (H a). destruct (accounts (gv_acc g) !! a) as [ac0|]; [|by rewrite H].
  destruct H as (n & c & q & ->). by intros [= <-].
Qed.

(** The daemon after a command. *)
Definition follows_dm (d : daemon) : Prop :=
  steady limit (dm_cfg d) /\ exists l sent pend, enforced l sent pend (dm_gov d).

Lemma release_follows handler cfg clk d : follows_dm d -> gov_ok (dm_gov d) ->
  keeps_queue handler -> (forall n r, handled holds r (handler (clk_skip n clk) r)) -> steady limit cfg ->
  follows_dm (mkDaemon cfg (foreach_account handler clk (dm_gov d)) (dm_renew d) (dm_open d)).
Proof.
  intros [_ (l & sent & pend & He)] Hg Hk Hh Hst. split; [done|].
  destruct (foreach_enforced handler clk l sent pend (dm_gov d) Hg He Hk Hh) as (p & He' & _).
  by exists l, sent, (pend ++ p)%list.
Qed.

Lemma reinit_follows io cfg d d' (b : bool) : follows_dm d -> gov_ok (dm_gov d) -> steady limit cfg ->
  try_gov (reinit_users_list cfg (cm_map io)
             (unrestrict_all_command cfg (cm_clock io) (dm_gov d)))
    (mkDaemon cfg (unrestrict_all_command cfg (cm_clock io) (dm_gov d)) (dm_renew d) (dm_open d)) = Ok d' ->
  follows_dm d'.
Proof.
  intros Hd Hg Hst. pose proof (unrestrict_all_idle cfg (cm_clock io) (dm_gov d)) as Hidle.
  destruct (release_follows (fun _ => dbctl_unrestrict_all_set cfg) cfg (cm_clock io) d Hd Hg
              (unrestrict_all_queue cfg) (fun n r => unrestrict_all_handled cfg r Hst) Hst)
    as [_ (l & sent & pend & He)]. cbn [dm_gov] in He. fold (unrestrict_all_command cfg (cm_clock io) (dm_gov d)) in He.
  destruct (reinit_users_list _ _ _) as [g'|] eqn:E; [|done]. intros [= <-]. split; [done|].
  destruct (reinit_enforced cfg _ l sent pend _ g' Hst He Hidle E) as (He' & _). by exists clear_bad_users_list, sent, pend.
Qed.

Lemma command_follows io ns command d d' : follows_dm d -> gov_ok (dm_gov d) ->
  (d_command command = RESTRICT -> is_Some (users (gv_acc (dm_gov d)) !! o_username (d_options command))) ->
  (forall n, 0 < cm_clock io n < 2 ^ 40) -> (forall cfg, cm_config io = Ok cfg -> steady limit cfg) ->
  run_dbctl_command sys io ns command d = Ok d' -> follows_dm d'.
Proof.
  intros Hd Hg Hus Hclk Hcfg. pose proof Hd as [Hst (l & sent & pend & He)].
  destruct (lve_tests _ (st_lve _ _ Hst)) as (T1 & T2 & T3). unfold run_dbctl_command.
  assert (no_single (dm_cfg d) = false) as T4 by (unfold no_single; by rewrite T2, T3).
  rewrite T1, T4. destruct (d_command command) eqn:Ec; try (by intros [= <-]).
  - destruct (restrict_enforced (dm_cfg d) sys command (cm_clock io) l sent pend (dm_gov d) Hg He Hst Hclk (Hus eq_refl))
      as (p & g' & -> & He' & _). intros [= <-]. split; [done|]. by exists l, sent, (pend ++ p)%list.
  - intros [= <-]. apply (release_follows (dbctl_unrestrict_set (dm_cfg d) sys (o_username (d_options command)))
      (dm_cfg d) (cm_clock io) d Hd Hg); [apply unrestrict_set_queue| |done].
    intros n r. by apply unrestrict_handled.
  - intros [= <-]. apply (release_follows (fun _ => dbctl_unrestrict_all_set (dm_cfg d)) (dm_cfg d) (cm_clock io) d Hd Hg);
      [apply unrestrict_all_queue| |done].
    intros n r. by apply unrestrict_all_handled.
  - destruct (cm_config io) as [cfg| |] eqn:E; [|done..]. intros [= <-]. split; [by apply Hcfg|].
    by exists l, sent, pend.
  - destruct (cm_config io) as [cfg| |] eqn:E; [|done..]. cbn [obind].
    destruct (try_gov _ _) as [d1| |] eqn:E1; [|done..]. intros [= <-].
    destruct (reinit_follows io cfg d d1 true Hd Hg (Hcfg cfg eq_refl) E1) as [? ?]. by split.
Qed.

Lemma enforce_step_ok w w' : world_ok w -> follows w -> enforce_step w w' -> world_ok w' /\ follows w'.
Proof.
  intros Hw Hf Hs. revert Hw Hf.
  destruct Hs as [? ? [io w w' Hf E|io w w' Ht Hc E Hr Hset|w w' Hwk E|last c c' curr curr' w w' Hi E Hr]
                 |ns io command w w' Hn Hc Hus Hclk Hcfg E]; intros Hw Hfo.
  - split; [by eapply round_kept|]. by eapply round_follows.
  - destruct (second_ok sys clk_tck io w Ht Hw) as (w2 & E2 & Hw2). rewrite E in E2. injection E2 as <-. split; [done|].
    by destruct (second_follows io w w' Hw Hfo Ht Hc E Hr Hset).
  - destruct (worker_ok w Hw) as (w2 & E2 & Hw2). rewrite E in E2. injection E2 as <-. split; [done|].
    by destruct (worker_follows w w' Hfo Hwk E).
  - destruct (map_ok last c c' curr w Hw) as (t & w2 & E2 & Hw2). rewrite E in E2. injection E2 as _ <-. split; [done|].
    by apply (map_follows last c c' curr curr' w w').
  - pose proof (command_result sys ns io command w Hn Hw) as Hres. rewrite E in Hres. split; [by apply Hres|].
    revert E. unfold world_command. set (d0 := set_open _ _).
    destruct (run_dbctl_command _ _ _ _ d0) as [d| |] eqn:E; [|done..]. intros [= <-].
    apply (command_follows io (ns (dm_open (w_dm w))) command d0 d); try done; apply Hw.
Qed.

Lemma enforce_reachable_ok w : enforce_reachable w -> world_ok w /\ follows w.
Proof.
  induction 1 as [sock opened cfg Hs Hm Hi Hst|w w' _ [Hw Hf] Hstep]; [|by eapply enforce_step_ok].
  split; [|by apply start_follows]. apply start_ok; [done..|by right].
Qed.

(** The steps are those of the system. *)
Lemma enforce_step_world w w' : enforce_step w w' -> world_step sys clk_tck w w'.
Proof.
  intros Hs. destruct Hs as [? ? []|];
    [by eapply ws_round|by eapply ws_second|by eapply ws_worker|by eapply ws_map|by eapply ws_command].
Qed.

Lemma enforce_started w : enforce_reachable w -> exists sock opened cfg,
  sock ∈ opened /\ -1 ∉ opened /\ intervals_wf (c_intervals cfg)
  /\ rtc (world_step sys clk_tck) (start_world sock opened cfg (Some clear_bad_users_list)) w.
Proof.
  induction 1 as [sock opened cfg ? ? ?|w w' _ (sock & opened & cfg & ? & ? & ? & Hr) Hs].
  - by exists sock, opened, cfg.
  - exists sock, opened, cfg. split_and!; try done. eapply rtc_r; [exact Hr|]. by apply enforce_step_world.
Qed.

Lemma enforce_world w : enforce_reachable w -> world_reachable sys clk_tck w.
Proof.
  intros (sock & opened & cfg & ? & ? & ? & Hr)%enforce_started.
  eapply rtc_ind_r; [|intros ? ? _ Hs Hw; by eapply wr_step|exact Hr]. apply wr_start; [done..|by right].
Qed.

(** When the queue is drained, the list holds the users that the accounts
    demand, with the LVE ids of the map. *)
Lemma drained_list w : enforce_reachable w -> drained w ->
  exists l, gv_bad (w_gov w) = Some l /\ list_inv l
    /\ (forall u d, abs l !! u = Some d -> d = get_uid (gv_map (w_gov w)) u)
    /\ (forall u, 0 < get_uid (gv_map (w_gov w)) u < 2 ^ 31)
    /\ forall a ac, accounts (gv_acc (w_gov w)) !! a = Some ac -> exists b, holds ac b
         /\ forall u, u ∈ ac_users ac -> strlen u < USERNAMEMAXLEN /\ listed l u = b.
Proof.
  intros Hr [Hf Hq]. destruct (enforce_reachable_ok w Hr) as [[Hg _ _] [_ (l & sent & pend & [Hb Hi Hp Hs _ _ Hu Hm _ Hacc])]].
  unfold working in Hf. rewrite Hf in Hs. subst sent. rewrite Hp, commands_of_nodes in Hq. subst pend.
  exists l. split; [done|]. split; [done|]. split.
  { intros u d Hd. rewrite (Hu u d Hd). apply s32_id. unfold in_s32. specialize (Hm u). lia. }
  split; [done|]. intros a ac Ha.
  destruct (Hacc a ac Ha) as (b & Hb' & Hfz). exists b. split; [done|]. intros u Hin. split; [|by apply Hfz].
  pose proof (known_names _ a ac Hg Ha) as Hn. unfold names_ok in Hn. rewrite list.Forall_forall in Hn. by apply Hn.
Qed.
End steps.

(** * Properties *)

(** C4: In the limit mode and in regular work the shared list is what the accounts demand:
    whatever the server, the seconds, the worker, the renewals of the map and the commands of
    the administrator do in turn, once the queue has been worked off a user stands on the list
    of restricted users exactly when its account is restricted, and with the LVE id that the map
    gives the user. Regular work means: the list was mapped when the daemon started; every
    configuration it reads has an LVE for each user switched on, the same mode of restriction,
    usable intervals and positive timeouts; the map is renewed only while no account is
    restricted (a renewal at another time undoes the enforcement), no restricted account gains a
    user, the users known fit the list; RESTRICT names a known user; commands of the
    administrator come between two seconds, not while the queue is copied; new descriptors are
    fresh, the clock is later than a penalty period after the epoch and below 2^40, the ticks
    are below 2^63. *)
Theorem limit_mode_enforced `{HashOrder} (sys : sysinfo) (clk_tck : Z) (w : world) :
  enforce_reachable (limit := true) sys clk_tck w -> drained w ->
  exists l, gv_bad (w_gov w) = Some l
    /\ forall a ac u, accounts (gv_acc (w_gov w)) !! a = Some ac -> u ∈ ac_users ac ->
         is_user_in_list (Some l) u = Some (if ac_restricted ac =? 0 then 0 else 1)
         /\ abs l !! u = (if ac_restricted ac =? 0 then None else Some (get_uid (gv_map (w_gov w)) u)).
Proof.
  intros Hr Hd. destruct (drained_list sys clk_tck w Hr Hd) as (l & Hb & Hi & Hu & _ & Hacc).
  exists l. split; [done|]. intros a ac u Ha Hin. destruct (Hacc a ac Ha) as (b & [_ Hb'] & Hl).
  destruct (Hl u Hin) as [Hlen El]. rewrite listed_in_list, El by done.
  assert (b = negb (ac_restricted ac =? 0)) as ->.
  { destruct Hb' as [(-> & _ & _ & ->)|(-> & _ & _ & ->)]; done. }
  unfold listed in El. destruct (ac_restricted ac =? 0); cbn [negb] in *; split; try done.
  - apply bool_decide_eq_false in El. destruct (abs l !! u) eqn:E; [|done]. destruct El. by eexists.
  - apply bool_decide_eq_true in El as [d E]. by rewrite E, (Hu u d E).
Qed.

(** C5: In the period mode and in regular work the shared list follows the accounts as far
    as repeated restrictions allow: once the queue has been worked off, a user on the list
    belongs to an account whose restriction has not timed out and has the LVE id of the map, and
    the users of an account that is restricted at the first level are on the list. Regular work
    means: the list was mapped when the daemon started; every configuration it reads has an LVE
    for each user switched on, the same mode of restriction, usable intervals and positive
    timeouts; the map is renewed only while no account is restricted (a renewal at another time
    undoes the enforcement), no restricted account gains a user, the users known fit the list;
    RESTRICT names a known user; commands of the administrator come between two seconds, not
    while the queue is copied; new descriptors are fresh, the clock is later than a penalty
    period after the epoch and below 2^40, the ticks are below 2^63. *)
Theorem period_mode_enforced `{HashOrder} (sys : sysinfo) (clk_tck : Z) (w : world) :
  enforce_reachable (limit := false) sys clk_tck w -> drained w ->
  exists l, gv_bad (w_gov w) = Some l
    /\ forall a ac u, accounts (gv_acc (w_gov w)) !! a = Some ac -> u ∈ ac_users ac ->
         exists r, is_user_in_list (Some l) u = Some r /\ (r = 0 \/ r = 1)
           /\ (r = 1 -> ac_timeout ac <> 0 /\ abs l !! u = Some (get_uid (gv_map (w_gov w)) u))
           /\ (ac_timeout ac <> 0 -> ac_restricted ac = 0 -> r = 1).
Proof.
  intros Hr Hd. destruct (drained_list sys clk_tck w Hr Hd) as (l & Hb & Hi & Hu & _ & Hacc).
  exists l. split; [done|]. intros a ac u Ha Hin. destruct (Hacc a ac Ha) as (b & (_ & H1 & H2) & Hl).
  destruct (Hl u Hin) as [Hlen El]. exists (if b then 1 else 0). rewrite listed_in_list, El by done.
  split; [done|]. split; [destruct b; by auto|]. split.
  - destruct b; [|done]. intros _. split; [by apply H1|]. unfold listed in El.
    apply bool_decide_eq_true in El as [d E]. by rewrite E, (Hu u d E).
  - intros Ht H0. by rewrite H2.
Qed.

(** C39: A change of the map file undoes the enforcement: in the limit mode the renewal of
    the map always ends, with an empty list and the queue as it was, so nobody is restricted any
    more; the accounts keep their state, and one that is restricted and goes on exceeding its
    limits stays restricted in every analysis without a command, so its users are not frozen
    again. *)
Theorem map_renewal_lifts_restrictions `{HashOrder} (sys : sysinfo) (clk_tck : Z) (w : world)
    (last curr : Z) (content content' : option string) :
  world_reachable sys clk_tck w -> steady true (w_cfg w) -> is_Some (gv_bad (w_gov w)) -> curr < last ->
  exists curr' w', world_map last content content' curr w = Some (curr', w')
    /\ (forall u, strlen u < USERNAMEMAXLEN -> is_user_in_list (gv_bad (w_gov w')) u = Some 0)
    /\ gv_q (w_gov w') = gv_q (w_gov w)
    /\ forall a ac, accounts (gv_acc (w_gov w)) !! a = Some ac ->
         exists ac', accounts (gv_acc (w_gov w')) !! a = Some ac' /\ same_state ac ac'
           /\ (limit_holds ac true -> forall clk c,
                let r := mkR ac' c (gv_q (w_gov w')) in
                mode (limits_of (w_cfg w) r) <> IGNORE_MODE -> over_any (w_cfg w) r = true ->
                let r' := account_analyze_limit (w_cfg w) sys clk r in
                ac_restricted (r_ac r') = 1000 /\ command_list (r_q r') = command_list (r_q r)).
Proof.
  intros Hr Hst Hb Hlt. pose proof (world_reachable_ok sys clk_tck w Hr) as Hw.
  destruct (map_ok last content content' curr w Hw) as (t & w' & E & _). exists t, w'. split; [done|].
  revert E. unfold world_map. destruct (parse_map_round _ _ _ _ _ _) as [[t0 g']|] eqn:E; [|done].
  cbn [mbind option_bind]. intros [= _ <-].
  destruct (renewal (w_cfg w) last content content' curr t0 (w_gov w) g' Hb (wo_cfg _ Hw) (wo_gov _ Hw)
              (proj1 (proj2 (lve_tests _ (st_lve _ _ Hst)))) E Hlt) as ((_ & Hdom & Hgr) & Eb & Eq & _).
  cbn [w_gov put_gov w_dm with_gov dm_gov]. rewrite Eb. split.
  { intros u Hu. rewrite listed_in_list by (apply clear_inv || done). done. }
  split; [done|]. intros a ac Ha. assert (is_Some (accounts (gv_acc g') !! a)) as [ac' Ha'].
  { apply elem_of_dom, Hdom, elem_of_dom. by eexists. }
  exists ac'. split; [done|]. destruct (Hgr a ac' Ha') as [Hs _]. rewrite Ha in Hs. cbn [default from_option id] in Hs.
  split; [done|]. intros Hlim clk c Hm Ho. set (r := mkR ac' c (gv_q g')) in *.
  assert (limit_holds (r_ac r) true) as Hlim' by (by apply (holds_state (Discipline := limit_discipline) ac ac')).
  destruct (limit_over (w_cfg w) sys clk r true Hst Hlim' Hm Ho) as [A B]. split; [done|]. apply B.
  destruct Hlim' as [_ [(_ & _ & _ & ?)|(-> & _)]]; [done|lia].
Qed.

(** ** Witnesses *)

Definition users_kept (a : string) (ac : Account) (g' : gov) : Prop :=
  match accounts (gv_acc g') !! a with
  | Some ac' => ac_timeout ac = 0 \/ ac_users ac' = ac_users ac
  | None => True
  end.
#[export] Instance users_kept_dec a ac g' : Decision (users_kept a ac g').
Proof. unfold users_kept. destruct (accounts (gv_acc g') !! a); apply _. Defined.
#[export] Instance all_idle_dec g : Decision (all_idle g).
Proof.
  refine (cast_if (decide (map_Forall (fun _ ac => ac_timeout ac = 0) (accounts (gv_acc g))))); done.
Defined.

(** The conditions of a step, tested. *)
Definition calm (w w' : world) : bool :=
  bool_decide (map_Forall (fun a ac => users_kept a ac (w_gov w')) (accounts (gv_acc (w_gov w))))
  && (Z.of_nat (base.size (dom (users (gv_acc (w_gov w'))))) <? MAX_ITEMS_IN_TABLE - 1)
  && (tick_id (gv_acc (w_gov w)) + 1 <? 2 ^ 63).

Lemma calm_spec w w' : calm w w' = true ->
  settled (w_gov w) (w_gov w') /\ room (w_gov w') /\ tick_left w.
Proof.
  unfold calm. intros [[H1 H2]%andb_prop H3]%andb_prop. apply bool_decide_eq_true in H1.
  apply Z.ltb_lt in H2, H3. split; [|done]. intros a ac ac' Ha Ha' Ht. specialize (H1 a ac Ha).
  unfold users_kept in H1. rewrite Ha' in H1. by destruct H1.
Qed.

(** A user becomes known by the map, its account is restricted by a command,
    a second passes and the worker runs. *)
Definition example_restrict : DbCtlCommand :=
  mkDbCtlCommand RESTRICT "" (mkDbCtlOptions "bob_wp" 0 0 0 1 0 0).
Definition example_cmd_io : command_io := mkCommandIo (Exit "") None (clk_const example_now).
Definition try_second (t : Z) (w : world) : option world :=
  w' ← world_second (H := default_order) example_sys 100 (example_second t) w;
  if calm w w' then Some w' else None.
Definition try_worker (w : world) : option world :=
  if working w then world_worker (H := default_order) w else None.
Definition try_map (w : world) : option world :=
  '(_, w') ← world_map (H := default_order) 5 example_map example_map 0 w;
  if calm w w' && bool_decide (all_idle (w_gov w)) then Some w' else None.
Definition try_command (w : world) : option world :=
  if bool_decide (is_Some (users (gv_acc (w_gov w)) !! "bob_wp")) then
    match world_command (H := default_order) example_sys next_descriptor example_cmd_io example_restrict w with
    | Ok w' => Some w' | _ => None
    end
  else None.
Definition example_before (cfg : governor_config) : option world :=
  w ← try_map (start_world 3 {[3]} cfg (Some clear_bad_users_list));
  w ← try_second 1 w; w ← try_worker w; try_command w.
Definition example_steps (cfg : governor_config) : option world :=
  w ← example_before cfg; w ← try_second 3 w; try_worker w.

Section example.
Context {limit : bool} `{DI : !Discipline limit} (cfg : governor_config)
  (Hst : steady limit cfg) (Hiv : intervals_wf (c_intervals cfg)) (Hct : c_timeout cfg < example_now).

Definition gets_to (w : world) : Prop :=
  enforce_reachable (limit := limit) (HO := default_order) example_sys 100 w /\ w_cfg w = cfg.

Lemma second_own t w w' : w_cfg w = cfg -> try_second t w = Some w' ->
  own_step (HO := default_order) example_sys 100 w w'.
Proof.
  intros Ew. unfold try_second. destruct (world_second _ _ _ w) as [w1|] eqn:E; [|done].
  cbn [mbind option_bind]. destruct (calm w w1) eqn:Hc; [|done]. intros [= <-].
  apply calm_spec in Hc as (S & Rm & T).
  eapply (en_second _ _ (example_second t)); [exact T| |exact E|exact Rm|exact S].
  rewrite Ew. intros n. change (c_timeout cfg < example_now < 2 ^ 40). split; [done|]. unfold example_now. lia.
Qed.

Lemma worker_own w w' : try_worker w = Some w' -> own_step (HO := default_order) example_sys 100 w w'.
Proof. unfold try_worker. destruct (working w) eqn:Hw; [|done]. intros E. by eapply en_worker. Qed.

Lemma second_gets t w w' : gets_to w -> try_second t w = Some w' -> gets_to w'.
Proof.
  intros [R Ew] Es. pose proof (second_own t w w' Ew Es) as Ho. revert Es. unfold try_second.
  destruct (world_second _ _ _ w) as [w1|] eqn:E; [|done].
  cbn [mbind option_bind]. destruct (calm w w1); [|done]. intros [= <-]. split.
  - eapply er_step; [exact R|]. by apply en_own.
  - revert E. unfold world_second. destruct (every_second _ _ _ _ _ _) as [[? ?]|]; [|done]. by intros [= <-].
Qed.

Lemma worker_gets w w' : gets_to w -> try_worker w = Some w' -> gets_to w'.
Proof.
  intros [R Ew] Es. pose proof (worker_own w w' Es) as Ho. revert Es.
  unfold try_worker. destruct (working w) eqn:Hw; [|done]. intros E. split.
  - eapply er_step; [exact R|]. by apply en_own.
  - revert E. unfold world_worker. destruct (send_commands_cycle_in _ _ _ _) as [[? ?]|]; [|done]. by intros [= <-].
Qed.

Lemma command_gets w w' : gets_to w -> try_command w = Some w' -> gets_to w'.
Proof.
  intros [R Ew]. unfold try_command. destruct (bool_decide _) eqn:Hu; [|done]. apply bool_decide_eq_true in Hu.
  destruct (world_command _ _ _ _ w) as [w1| |] eqn:E; [|done..]. intros [= <-]. split.
  - eapply er_step; [exact R|]. eapply (en_command _ _ next_descriptor example_cmd_io example_restrict).
    + apply next_fresh.
    + split; [exact I|]. intros _. by left.
    + by intros _.
    + intros n. change (0 < example_now < 2 ^ 40). unfold example_now. lia.
    + discriminate.
    + exact E.
  - revert E. unfold world_command. destruct (run_dbctl_command _ _ _ _ _) as [d| |] eqn:Ed; [|done..].
    intros [= <-]. revert Ed. unfold run_dbctl_command. cbn [d_command example_restrict].
    destruct (nonzero _); [by intros [= <-]|]. destruct (no_single _); [by intros [= <-]|].
    destruct (restrict_command _ _ _ _ _); [|done]. by intros [= <-].
Qed.

Lemma before_gets w : example_before cfg = Some w -> gets_to w.
Proof.
  unfold example_before. set (w0 := start_world _ _ _ _).
  assert (enforce_reachable (limit := limit) (HO := default_order) example_sys 100 w0) as R0 by (apply er_start; [set_solver..|done|done]).
  unfold try_map. destruct (world_map _ _ _ _ w0) as [[c w1]|] eqn:E1; [|done]. cbn [mbind option_bind].
  destruct (calm w0 w1 && _) eqn:Hc; [|done]. apply andb_prop in Hc as [Hc Hi]. apply bool_decide_eq_true in Hi.
  apply calm_spec in Hc as (_ & Rm & _).
  assert (gets_to w1) as G1.
  { split; [eapply er_step; [exact R0|]; by eapply en_own, en_map|]. revert E1. unfold world_map.
    destruct (parse_map_round _ _ _ _ _ _) as [[? ?]|]; [|done]. by intros [= _ <-]. }
  cbn [mbind option_bind]. destruct (try_second 1 w1) as [w2|] eqn:E2; [|done]. cbn [mbind option_bind].
  destruct (try_worker w2) as [w3|] eqn:E3; [|done]. cbn [mbind option_bind]. intros E4.
  eapply command_gets; [|exact E4]. eapply worker_gets; [|exact E3]. by eapply second_gets.
Qed.

Lemma steps_gets w : example_steps cfg = Some w -> gets_to w.
Proof.
  unfold example_steps. destruct (example_before cfg) as [w1|] eqn:E1; [|done]. cbn [mbind option_bind].
  destruct (try_second 3 w1) as [w2|] eqn:E2; [|done]. cbn [mbind option_bind]. intros E3.
  eapply worker_gets; [|exact E3]. eapply second_gets; [|exact E2]. by apply before_gets.
Qed.
End example.

Lemma steady_limit : steady true example_config.
Proof. split; [exact example_cfg_ok|exact example_lve|done]. Qed.
Lemma steady_period : steady false (example_config_of 0 0).
Proof. split; [|by split_and!|done]. split; unfold pos_int; simpl; lia. Qed.

Lemma example_iv : intervals_wf (c_intervals example_config).
Proof. unfold intervals_wf. cbn. lia. Qed.

(** What is seen of the last state, computed. *)
Definition seen (w : world) : option (bool * list (option Command) * list string * (Z * Z)) :=
  ac ← accounts (gv_acc (w_gov w)) !! "bob";
  l ← command_list (gv_q (w_gov w));
  Some (working w, l, ac_users ac, (ac_restricted ac, ac_timeout ac)).

Lemma seen_drained w us r t : seen w = Some (false, [None], us, (r, t)) -> drained w /\ exists ac,
  accounts (gv_acc (w_gov w)) !! "bob" = Some ac /\ ac_users ac = us /\ ac_restricted ac = r /\ ac_timeout ac = t.
Proof.
  unfold seen. destruct (accounts _ !! "bob") as [ac|]; [|done]. cbn [mbind option_bind].
  destruct (command_list _) as [l|] eqn:El; [|done]. cbn [mbind option_bind]. intros [= Hw -> <- <- <-].
  split; [split; [done|by rewrite El]|]. by exists ac.
Qed.

Lemma limit_mode_enforced_witness :
  match example_steps example_config with
  | Some w => exists l, gv_bad (w_gov w) = Some l /\ is_user_in_list (Some l) "bob_wp" = Some 1
                        /\ abs l !! "bob_wp" = Some (get_uid (H := default_order) (gv_map (w_gov w)) "bob_wp")
  | None => False
  end.
Proof.
  destruct (example_steps example_config) as [w|] eqn:E; [|vm_compute in E; discriminate E].
  assert (enforce_reachable (limit := true) (HO := default_order) example_sys 100 w) as R.
  { apply (steps_gets example_config steady_limit example_iv); [reflexivity|exact E]. }
  assert (seen <$> example_steps example_config = Some (Some (false, [None], ["bob_wp"], (1000, 60)))) as S
    by (vm_compute; reflexivity).
  rewrite E in S. injection S as S. destruct (seen_drained w _ _ _ S) as (Hd & ac & Ha & Eu & Er & _).
  destruct (limit_mode_enforced (H := default_order) example_sys 100 w R Hd) as (l & Hb & Hl).
  exists l. split; [exact Hb|]. destruct (Hl "bob" ac "bob_wp" Ha) as [A B]; [rewrite Eu; by left|].
  rewrite Er in A, B. exact (conj A B).
Defined.

Lemma period_mode_enforced_witness :
  match example_steps (example_config_of 0 0) with
  | Some w => exists l, gv_bad (w_gov w) = Some l /\ is_user_in_list (Some l) "bob_wp" = Some 1
  | None => False
  end.
Proof.
  destruct (example_steps (example_config_of 0 0)) as [w|] eqn:E; [|vm_compute in E; discriminate E].
  assert (enforce_reachable (limit := false) (HO := default_order) example_sys 100 w) as R.
  { apply (steps_gets (example_config_of 0 0) steady_period example_iv); [reflexivity|exact E]. }
  assert (seen <$> example_steps (example_config_of 0 0) = Some (Some (false, [None], ["bob_wp"], (0, 60)))) as S
    by (vm_compute; reflexivity).
  rewrite E in S. injection S as S. destruct (seen_drained w _ _ _ S) as (Hd & ac & Ha & Eu & Er & Et).
  destruct (period_mode_enforced (H := default_order) example_sys 100 w R Hd) as (l & Hb & Hl).
  exists l. split; [exact Hb|]. destruct (Hl "bob" ac "bob_wp" Ha) as (r & A & _ & _ & B); [rewrite Eu; by left|].
  rewrite B in A; [exact A|rewrite Et; discriminate|exact Er].
Defined.

(** The restricted account of the same state, and a new map. *)
Lemma map_renewal_lifts_restrictions_witness :
  match example_steps example_config with
  | Some w => exists curr' w', world_map (H := default_order) 9 example_map example_map 5 w = Some (curr', w')
      /\ is_user_in_list (gv_bad (w_gov w')) "bob_wp" = Some 0
      /\ exists ac', accounts (gv_acc (w_gov w')) !! "bob" = Some ac' /\ ac_restricted ac' = 1000
  | None => False
  end.
Proof.
  destruct (example_steps example_config) as [w|] eqn:E; [|vm_compute in E; discriminate E].
  assert (enforce_reachable (limit := true) (HO := default_order) example_sys 100 w) as R.
  { apply (steps_gets example_config steady_limit example_iv); [reflexivity|exact E]. }
  assert (seen <$> example_steps example_config = Some (Some (false, [None], ["bob_wp"], (1000, 60)))) as S
    by (vm_compute; reflexivity).
  rewrite E in S. injection S as S. destruct (seen_drained w _ _ _ S) as (Hd & ac & Ha & Eu & Er & _).
  destruct (enforce_reachable_ok (limit := true) (HO := default_order) example_sys 100 w R) as [_ [Hst (l & ? & ? & He)]].
  destruct (map_renewal_lifts_restrictions (H := default_order) example_sys 100 w 9 5 example_map example_map
              (enforce_world (limit := true) example_sys 100 w R) Hst) as (curr' & w' & A & B & _ & C).
  - rewrite (ef_bad _ _ _ _ He). by eexists.
  - lia.
  - exists curr', w'. split; [exact A|]. split; [by apply B|]. destruct (C "bob" ac Ha) as (ac' & Ha' & (Es & _) & _).
    exists ac'. split; [exact Ha'|]. by rewrite Es.
Defined.
