(* ===== verification/EndToEnd.v ===== *)
(** From the load of an account to the LVE of its queries: the second of the
    daemon ([CalcStats], [Daemon]), its worker ([Commands]), the shared list
    ([BadList]), and in MySQL the plugin ([Plugin]) and the interposer ([Ld]). *)

From S2P Require Import Prelude CDouble CString Data FifoStats TidTable ProcFs Server UserMap BadList WriteData Ld Plugin Xml Config Accounts LogDecoder Commands Restrict CalcStats Daemon System Enforce EnforceWorld.
Open Scope string_scope.
Open Scope Z_scope.

(** Some average of the account is over its limit. *)
Definition exceeds (cfg : governor_config) (ac : Account) : bool :=
  match first_over ac (config_get_account_limit cfg (ac_id ac)) with Some _ => true | None => false end.

(** A server of MySQL ready to report a query of [u] and to bring its thread
    into an LVE: the plugin is connected, the LVE mode is on, the libraries are
    there and the semaphore of the list is free. *)
Record mysql_ready {K} `{LveKernel K} (p : plugin) (env : lve_env) (io : report_io)
    (u rest : string) (s : session (lve_world K)) : Prop := {
  mr_named : u <> "" /\ has_char "[" u = false /\ (rest = "" \/ first_char rest = "["%char);
  mr_socket : 0 <= socket (sock p) /\ status (sock p) <> 0;
  mr_mode : governor_get_command p = 2 /\ ld_found p = true /\ lve_enter p = true;
  mr_report : rp_trylock io = 0 /\ rp_sent io = true;
  mr_list : le_tries env 0%nat = WOk /\ forall n, le_opens env n = true;
  mr_lve : lve_enter_flags (le_fns env) = true /\ le_lve env = true;
  mr_outside : in_lve (se_thread s) = 0 /\ current (w_kernel (se_world s)) = None
}.

(** What becomes of a query that begins: its thread enters the LVE [uid],
    unless the kernel refuses, or stays outside. *)
Definition query_enters {K} `{LveKernel K} (uid : option Z) (s s' : session (lve_world K)) : Prop :=
  match uid with
  | Some d =>
      let rc := snd (fst (fst (k_enter (w_kernel (se_world s)) d (lve_cookie (se_thread s))))) in
      if rc =? 0 then in_lve (se_thread s') = 1 /\ current (w_kernel (se_world s')) = Some d
      else current (w_kernel (se_world s')) = None
  | None => in_lve (se_thread s') = 0 /\ w_kernel (se_world s') = w_kernel (se_world s)
  end.

(** ** The query *)

(** The plugin brings the thread where the list says. *)
Lemma query_on_list {K} `{LK : !LveKernel K} p env io u rest (s : session (lve_world K)) l :
  mysql_ready p env io u rest s -> le_list env = Some l -> list_inv l -> strlen u < USERNAMEMAXLEN ->
  (forall d, abs l !! u = Some d -> 0 < d < 2 ^ 31) ->
  exists s', governor_notify p (Some (lve_hooks env)) io
               (mkEvent MYSQL_AUDIT_GENERAL_LOG (Some (u +:+ rest)) true) s = Some s'
    /\ query_enters (abs l !! u) s s' /\ se_sent s' = (se_sent s ++ [report 0 u io])%list.
Proof.
  intros [(N1 & N2 & N3) [S1 S2] (M1 & M2 & M3) [R1 R2] [L1 L2] [V1 V2] [O1 O2]] El Hi Hu Hd.
  destruct (begin_on_list env l u (se_thread s) (se_world s) O1 El Hi Hu L1 L2 V1 V2 O2) as (t & w & E & Hq).
  rewrite notify_named by done. unfold notify_log, send_info_begin. rewrite send_info_ok, M1, M2, M3 by done.
  assert (nonzero (status (sock p)) = true) as -> by (by apply negb_true_iff, Z.eqb_neq).
  change (nonzero 2) with true. cbn [andb snd Z.eqb se_thread se_world se_sent].
  change (nonzero 1) with true. cbn [andb Pos.eqb]. rewrite E. cbn [mbind option_bind].
  eexists. split; [reflexivity|]. split; [|done]. unfold query_enters. cbn [se_thread se_world].
  destruct (abs l !! u) as [d|]; [|done]. specialize (Hd d eq_refl). rewrite u32_id in Hq by (unfold in_u32; lia).
  assert (nonzero d = true) as En by (unfold nonzero; by destruct (Z.eqb_spec d 0); [lia|]).
  by rewrite En in Hq.
Qed.

(** ** The account *)

(** After an analysis an account that exceeds a limit is restricted. *)
Lemma exceeding_restricted cfg sys s a ac : steady true cfg -> analysed_by (limit := true) cfg sys s a ac ->
  mode (config_get_account_limit cfg (ac_id ac)) <> IGNORE_MODE -> exceeds cfg ac = true ->
  ac_restricted ac = 1000.
Proof.
  intros Hst (clk & r & b & Hc & Hh & _ & ->) Hm Ho. cbn [analysis] in *.
  pose proof (analysis_users true cfg sys clk r) as [Hid _]. cbn [analysis] in Hid. rewrite Hid in Hm.
  change (over_any cfg (account_analyze_limit cfg sys clk r) = true) in Ho. rewrite limit_over_same in Ho.
  by destruct (limit_over cfg sys clk r b Hst Hh Hm Ho).
Qed.

(** ** The second *)

(** A second that ends a period, in the limits of the model. *)
Record full_second `{HashOrder} (sys : sysinfo) (clk_tck : Z) (io : second_io) (w w' : world) : Prop := {
  fs_tick : tick_left w; fs_times : times_ok (w_cfg w) (so_clock io); fs_elapsed : elapsed io (w_old_tm w);
  fs_run : world_second sys clk_tck io w = Some w';
  fs_room : room (w_gov w'); fs_settled : settled (w_gov w) (w_gov w')
}.

Lemma second_restricts `{HashOrder} sys clk_tck io w w' :
  enforce_reachable (limit := true) sys clk_tck w -> full_second sys clk_tck io w w' ->
  enforce_reachable (limit := true) sys clk_tck w' /\ working w' = true /\ w_cfg w' = w_cfg w
  /\ (working w = false -> commands_of (command_list (gv_q (w_gov w'))) = [])
  /\ forall a ac, accounts (gv_acc (w_gov w')) !! a = Some ac ->
       ac_id ac = a
       /\ (mode (config_get_account_limit (w_cfg w) a) <> IGNORE_MODE -> exceeds (w_cfg w) ac = true ->
           ac_restricted ac = 1000).
Proof.
  intros Hr [Ht Hclk Hel E Hrm Hset]. destruct (enforce_reachable_ok sys clk_tck w Hr) as [Hw Hf].
  destruct (second_follows sys clk_tck io w w' Hw Hf Ht Hclk E Hrm Hset) as ([Hst _] & Hwk & Ecfg & Hp & Han & _).
  assert (enforce_reachable (limit := true) sys clk_tck w') as Hr' by (eapply er_step; [exact Hr|by eapply en_own, en_second]).
  split; [done|]. split; [done|]. split; [done|]. split; [done|]. intros a ac Ha.
  destruct (enforce_reachable_ok sys clk_tck w' Hr') as [Hw' _].
  pose proof (wf_account_key _ (go_wf _ (wo_gov _ Hw')) a ac Ha) as Hid. split; [done|]. intros Hmode.
  apply (exceeding_restricted (w_cfg w) sys (gv_acc (w_gov w)) a); [by rewrite <- Ecfg|by apply (proj2 (Han Hel))|by rewrite Hid].
Qed.

(** * Properties *)

(** C2: From the load of a user to its LVE, in the limit mode: from every state of the
    daemon in regular work in which the worker is not running, after a second that ends a period
    and a run of the worker, every account that the configuration does not ignore and whose
    averages exceed a limit is restricted; and a query of any user of an account that begins
    then enters the LVE that the map gives the user when the account is restricted, unless the
    kernel refuses, and enters none when it is not. The query is one from outside every LVE, in
    MySQL with the plugin connected and the LVE mode on, whose report gets through, that finds
    the libraries, the semaphore free and the list of this daemon. Regular work means: the list
    was mapped when the daemon started; every configuration it reads has an LVE for each user
    switched on, the same mode of restriction, usable intervals and positive timeouts; the map
    is renewed only while no account is restricted (a renewal at another time undoes the
    enforcement), no restricted account gains a user, the users known fit the list; RESTRICT
    names a known user; commands of the administrator come between two seconds, not while the
    queue is copied; new descriptors are fresh, the clock is later than a penalty period after
    the epoch and below 2^40, the ticks are below 2^63. The second is one of regular work too.
    *)
Theorem overload_enters_lve `{HashOrder} {K} `{LK : !LveKernel K} (sys : sysinfo) (clk_tck : Z)
    (io : second_io) (w w1 : world) :
  enforce_reachable (limit := true) sys clk_tck w -> working w = false -> full_second sys clk_tck io w w1 ->
  exists w2, world_worker w1 = Some w2
    /\ forall a ac u, accounts (gv_acc (w_gov w2)) !! a = Some ac -> u ∈ ac_users ac ->
         (mode (config_get_account_limit (w_cfg w) a) <> IGNORE_MODE -> exceeds (w_cfg w) ac = true ->
          ac_restricted ac = 1000)
         /\ forall p env rep rest (s : session (lve_world K)),
              mysql_ready p env rep u rest s -> le_list env = gv_bad (w_gov w2) ->
              exists s', governor_notify p (Some (lve_hooks env)) rep
                           (mkEvent MYSQL_AUDIT_GENERAL_LOG (Some (u +:+ rest)) true) s = Some s'
                /\ query_enters (if ac_restricted ac =? 0 then None
                                 else Some (get_uid (gv_map (w_gov w2)) u)) s s'.
Proof.
  intros Hr Hwk Hs. destruct (second_restricts sys clk_tck io w w1 Hr Hs) as (Hr1 & Hwk1 & _ & Hp & Hover).
  destruct (enforce_reachable_ok sys clk_tck w1 Hr1) as [Hw1 Hf1].
  destruct (worker_ok w1 Hw1) as (w2 & E2 & _). exists w2. split; [done|].
  assert (enforce_reachable (limit := true) sys clk_tck w2) as Hr2 by (eapply er_step; [exact Hr1|by eapply en_own, en_worker]).
  destruct (worker_follows w1 w2 Hf1 Hwk1 E2) as (_ & Hwk2 & Eq2 & Ea2 & _).
  destruct (drained_list sys clk_tck w2 Hr2) as (l & Hb & Hi & Hu & Hm & Hacc).
  { split; [done|]. rewrite Eq2. by apply Hp. }
  intros a ac u Ha Hin. split; [rewrite Ea2 in Ha; by apply (Hover a ac Ha)|].
  intros p env rep rest s Hready Hl. rewrite Hb in Hl.
  destruct (Hacc a ac Ha) as (b & [_ Hb'] & Hlu). destruct (Hlu u Hin) as [Hlen El].
  destruct (query_on_list p env rep u rest s l Hready Hl Hi Hlen) as (s' & E' & Hq & _).
  { intros d Hd. rewrite (Hu u d Hd). apply Hm. }
  exists s'. split; [done|]. unfold listed in El.
  destruct Hb' as [(-> & _ & _ & ->)|(-> & _ & _ & ->)]; cbn [Z.eqb Pos.eqb] in *.
  - apply bool_decide_eq_false in El. destruct (abs l !! u) eqn:Eu; [|done]. destruct El. by eexists.
  - apply bool_decide_eq_true in El as [d Ed]. rewrite Ed in Hq. by rewrite (Hu u d Ed) in Hq.
Qed.

(** The account is restricted before the second; a query of its user enters
    the LVE 500 of the map. *)
Definition example_session : session (lve_world (option Z)) := mkSession 0 new_thread (WriteData.mkWorld None 0) [].
Definition example_mysql (w : world) : lve_env :=
  mkLveEnv (le_fns example_env) true (gv_bad (w_gov w)) (fun _ => WOk) (fun _ => true).

Lemma example_ready w : mysql_ready (H := example_kernel) example_plugin (example_mysql w) example_report
  "bob_wp" "[bob_wp] @ localhost []" example_session.
Proof. split; try done. split; [done|]. split; [done|]. by right. Qed.

Lemma overload_enters_lve_witness :
  match example_before example_config with
  | Some w => exists w1 w2 s',
      world_second (H := default_order) example_sys 100 (example_second 3) w = Some w1
      /\ world_worker (H := default_order) w1 = Some w2
      /\ governor_notify example_plugin (Some (lve_hooks (LK := example_kernel) (example_mysql w2))) example_report
           (mkEvent MYSQL_AUDIT_GENERAL_LOG (Some "bob_wp[bob_wp] @ localhost []") true) example_session = Some s'
      /\ current (LveKernel := example_kernel) (w_kernel (se_world s')) = Some 500
  | None => False
  end.
Proof.
  destruct (example_before example_config) as [w|] eqn:E; [|vm_compute in E; discriminate E].
  assert (enforce_reachable (limit := true) (HO := default_order) example_sys 100 w /\ w_cfg w = example_config) as [R Ew].
  { apply (before_gets example_config steady_limit example_iv); [reflexivity|exact E]. }
  assert ((fun w => (working w, deqb (w_old_tm w) d0, dleb d1 (dsub (tm_of (3, 0)) (w_old_tm w))))
            <$> example_before example_config = Some (false, false, true)) as S by (vm_compute; reflexivity).
  rewrite E in S. injection S as Hwk H0 Hel.
  assert ((w1 ← try_second 3 w; w2 ← try_worker w1;
           ac ← accounts (gv_acc (w_gov w2)) !! "bob";
           Some (ac_users ac, ac_restricted ac, get_uid (H := default_order) (gv_map (w_gov w2)) "bob_wp"))
          = Some (["bob_wp"], 1000, 500)) as Q.
  { clear -E. assert (Some w = example_before example_config) as E' by (by rewrite E).
    change (try_second 3 w) with (Some w ≫= try_second 3). rewrite E'. vm_compute. reflexivity. }
  unfold try_second in Q. destruct (world_second _ _ _ w) as [w1|] eqn:E1; [|discriminate Q].
  cbn [mbind option_bind] in Q. destruct (calm w w1) eqn:Hc; [|discriminate Q]. cbn [mbind option_bind] in Q.
  apply calm_spec in Hc as (Hs & Hr & Ht).
  destruct (overload_enters_lve (H := default_order) (LK := example_kernel) example_sys 100 (example_second 3) w w1 R Hwk)
    as (w2 & E2 & Hq).
  { split; [exact Ht| |unfold elapsed; by rewrite H0|exact E1|exact Hr|exact Hs]. rewrite Ew. intros n. change (3600 < example_now < 2 ^ 40). unfold example_now. lia. }
  exists w1, w2. revert Q. unfold try_worker. destruct (working w1); [|discriminate]. rewrite E2. cbn [mbind option_bind].
  destruct (accounts (gv_acc (w_gov w2)) !! "bob") as [ac|] eqn:Ha; [|discriminate]. cbn [mbind option_bind].
  intros Q. injection Q as Eu Er Em.
  destruct (Hq "bob" ac "bob_wp" Ha) as [_ Hn]; [rewrite Eu; by left|].
  destruct (Hn example_plugin (example_mysql w2) example_report "[bob_wp] @ localhost []" example_session
              (example_ready w2) eq_refl) as (s' & A & B).
  exists s'. rewrite Er, Em in B. exact (conj eq_refl (conj eq_refl (conj A (proj2 B)))).
Defined.
