(* ===== verification/Service.v ===== *)
(** The service as a whole: daemons that come and go, the names of the shared
    list that outlive them ([src/shared_memory.c]), and the MySQL server whose
    plugin reports to the daemon and reads the list.  [service_step] are the
    steps of the parts in any order. *)

From S2P Require Import Prelude CDouble CString Data FifoStats TidTable ProcFs Server UserMap BadList WriteData Ld Plugin Xml Config Accounts LogDecoder Commands Restrict CalcStats Daemon System Enforce EnforceWorld EndToEnd.
Open Scope string_scope.
Open Scope Z_scope.

(** * State *)

(** A MySQL server: the plugin, the functions of the LVE library and its
    handle, whether the list is mapped, and whether the connection of the
    plugin leads to the daemon that runs. *)
Record mysqld := mkMysqld {
  my_plugin : plugin; my_fns : lve_fns; my_lve : bool; my_mapped : bool; my_peer : bool
}.

(** [Starting]: the socket is there, the list not yet; [Serving lve w]: the
    start is over, with the list or without it. *)
Inductive daemon_state := Down | Starting | Serving (lve : bool) (w : world).

Record service := mkService { sv_names : shm_names; sv_daemon : daemon_state; sv_mysql : mysqld }.

Definition set_peer (b : bool) (m : mysqld) : mysqld :=
  mkMysqld (my_plugin m) (my_fns m) (my_lve m) (my_mapped m) b.
Definition set_plugin (p : plugin) (b : bool) (m : mysqld) : mysqld :=
  mkMysqld p (my_fns m) (my_lve m) (my_mapped m) b.

(** The plugin as the library holds it before its initialisation. *)
Definition fresh_plugin : plugin := mkPlugin 0 (mkSock (-1) 0) false false 0 0 0 0.
Definition no_mysqld : mysqld := mkMysqld fresh_plugin no_fns false false false.

(** After a boot. *)
Definition boot : service := mkService (mkNames false None) Down no_mysqld.

(** What the plugin is given when MySQL loads it; the list is mapped only
    when the library was initialised. *)
Record load_io := mkLoad {
  lo_fuel : nat; lo_socket : Z; lo_conn : conn_io; lo_lib : bool; lo_sym : string -> bool;
  lo_created : bool; lo_ld : bool; lo_shm : shm_env
}.

Definition load_plugin (io : load_io) (k : shm_names) : option (shm_names * mysqld) :=
  '(sd, _, _) ← connect_to_server (lo_fuel io) (lo_socket io) (lo_conn io) ∅;
  let '(p, f, lve) := governor_plugin_init sd (lo_lib io) (lo_sym io) (lo_created io) (lo_ld io) no_fns fresh_plugin in
  let '(k', q, _) := if lve then names_after_client (lo_shm io) k else (k, unmapped 18 k, 0) in
  Some (k', mkMysqld p f lve (lve && match sh_bad_list q with Some _ => true | None => false end)
              (nonzero (status sd))).

(** The daemon listens. *)
Definition listening (d : daemon_state) : bool := match d with Down => false | _ => true end.

(** The list in the segment is the daemon's: it is mapped shared. *)
Definition shared_list (w : world) (k : shm_names) : shm_names :=
  mkNames (n_sem k) (match gv_bad (w_gov w) with Some l => Some l | None => n_list k end).

(** * Steps *)

Section steps.
Context `{HashOrder} (sys : sysinfo) (clk_tck : Z).

(** The steps without MySQL loading the plugin. *)
Inductive side_step : service -> service -> Prop :=
  | sv_start k m : side_step (mkService k Down m) (mkService k Starting m)
  | sv_init k k' q r e sock opened cfg m : env_fits k e -> e_wait_ok e = true ->
      names_after_init e k = (k', q, r) -> sock ∈ opened -> -1 ∉ opened -> intervals_wf (c_intervals cfg) ->
      side_step (mkService k Starting m)
        (mkService k' (Serving (0 <=? r) (start_world sock opened cfg (if 0 <=? r then sh_bad_list q else None))) m)
  | sv_no_list k sock opened cfg m : sock ∈ opened -> -1 ∉ opened -> intervals_wf (c_intervals cfg) ->
      side_step (mkService k Starting m) (mkService k (Serving false (start_world sock opened cfg None)) m)
  | sv_work k lve w w' m : world_step sys clk_tck w w' ->
      side_step (mkService k (Serving lve w) m) (mkService (shared_list w' k) (Serving lve w') m)
  | sv_reconnect k (lve : bool) w m fuel s io fds p' fds' :
      (if lve then query_governor_enable_reconnect_lve fuel s io (my_plugin m) fds
       else query_governor_enable_reconnect fuel s io (my_plugin m) fds) = Some (p', fds') ->
      side_step (mkService k (Serving lve w) m)
        (mkService k (Serving lve w) (set_plugin p' (nonzero (status (sock p'))) m))
  | sv_mode k (lve b : bool) w m : (b = true -> lve = true) ->
      side_step (mkService k (Serving lve w) m)
        (mkService k (Serving lve w)
           (set_plugin ((if b then query_governor_enable_lve else query_governor_enable) (my_plugin m)) (my_peer m) m))
  | sv_hangup k d m : side_step (mkService k d m) (mkService k d (set_peer false m))
  | sv_stop k q d m : listening d = true ->
      side_step (mkService k d m) (mkService (fst (fst (remove_bad_users_list k q))) Down (set_peer false m))
  | sv_die k d m : side_step (mkService k d m) (mkService k Down (set_peer false m))
  | sv_unfreeze k k' q r e d m : e_wait_ok e = true -> names_after_utility e k = (k', q, r) ->
      side_step (mkService k d m)
        (mkService k' (match d with
                       | Serving lve w =>
                           Serving lve (match gv_bad (w_gov w), n_list k' with
                                        | Some _, Some l => put_gov (set_bad_list (Some l) (w_gov w)) w
                                        | _, _ => w
                                        end)
                       | _ => d
                       end) m).

Inductive service_step : service -> service -> Prop :=
  | sv_side s s' : side_step s s' -> service_step s s'
  | sv_load io k k' d m m' : env_fits k (lo_shm io) -> e_sem_ok (lo_shm io) = n_sem k ->
      load_plugin io k = Some (k', m') -> (my_peer m' = true -> listening d = true) ->
      service_step (mkService k d m) (mkService k' d m').
End steps.

(** ** A query *)

(** What the plugin finds; [tries] are the attempts at the semaphore. *)
Definition env_of (s : service) (tries : nat -> wait_result) : lve_env :=
  mkLveEnv (my_fns (sv_mysql s)) (my_lve (sv_mysql s))
    (if my_mapped (sv_mysql s) then n_list (sv_names s) else None) tries (fun _ => n_sem (sv_names s)).

(** The begin of a query of the user that MySQL writes as [u] and a rest. *)
Definition query_begins {K} `{LveKernel K} (s : service) (tries : nat -> wait_result) (io : report_io)
    (u rest : string) (t : session (lve_world K)) : option (session (lve_world K)) :=
  governor_notify (my_plugin (sv_mysql s)) (Some (lve_hooks (env_of s tries))) io
    (mkEvent MYSQL_AUDIT_GENERAL_LOG (Some (u +:+ rest)) true) t.

(** A report reaches a daemon only over a living connection. *)
Record query_io (s : service) (io : report_io) (u rest : string) : Prop := {
  qi_named : u <> "" /\ has_char "[" u = false /\ (rest = "" \/ first_char rest = "["%char);
  qi_len : strlen u < USERNAMEMAXLEN;
  qi_sent : rp_sent io = true -> my_peer (sv_mysql s) = true
}.

Definition outside_lve {K} `{LveKernel K} (t : session (lve_world K)) : Prop :=
  in_lve (se_thread t) = 0 /\ current (w_kernel (se_world t)) = None.

(** * Lemmas *)

(** ** The daemon keeps its list *)

(** The list is mapped after as it was before. *)
Definition same_mapping (g g' : gov) : Prop := gv_bad g = None <-> gv_bad g' = None.

Lemma same_mapping_eq g g' : gv_bad g' = gv_bad g -> same_mapping g g'.
Proof. intros E. unfold same_mapping. by rewrite E. Qed.

Lemma same_mapping_trans g1 g2 g3 : same_mapping g1 g2 -> same_mapping g2 g3 -> same_mapping g1 g3.
Proof. unfold same_mapping. tauto. Qed.

Section mapping.
Context `{HashOrder}.

Lemma foreach_mapping {V} (m : gmap string V) (f : string -> V -> option gov -> option gov) g g' :
  (forall k v, f k v None = None) -> (forall k v g g', f k v (Some g) = Some g' -> same_mapping g g') ->
  ht_foreach m f (Some g) = Some g' -> same_mapping g g'.
Proof.
  intros Hn Hs E.
  pose proof (ht_foreach_ind f (fun _ r => forall g', r = Some g' -> same_mapping g g') m (Some g)) as G.
  rewrite E in G. apply G; [intros g1 [= <-]; done| |done].
  intros dn k v [g1|] _ _ IH g2 E2; [|by rewrite Hn in E2]. specialize (IH g1 eq_refl). apply Hs in E2.
  by eapply same_mapping_trans.
Qed.

Lemma add_mapping um b u a b' r : add_user_to_list um true true b u a = Some (b', r) -> b = None <-> b' = None.
Proof.
  unfold add_user_to_list. destruct b as [l|]; [|by intros [= <- _]].
  destruct (is_user_in_list _ _); [|done]. cbn [mbind option_bind]. destruct (_ =? 0); [|by intros [= <- _]].
  destruct (_ =? MAX_ITEMS_IN_TABLE); [by intros [= <- _]|]. destruct (store_item _ _ _); [|done]. by intros [= <- _].
Qed.

Lemma send_mapping um cfg l s s' : send_all um cfg l s = Some s' -> sd_bad s = None <-> sd_bad s' = None.
Proof.
  revert s. induction l as [|c l IH]; intros s; [by intros [= ->]|]. cbn [send_all].
  destruct (send_commands um cfg c s) as [s1|] eqn:E; [|done]. cbn [mbind option_bind]. intros E1.
  rewrite <- (IH s1 E1). clear IH E1. revert E. unfold send_commands. destruct c as [c|]; [|by intros [= ->]].
  destruct (c_command c); try (by intros [= ->]).
  - destruct (nonzero (use_lve cfg)); [|cbn; by destruct (logqueries_use cfg =? 1); intros [= <-]].
    destruct (add_user_to_list _ _ _ _ _ _) as [[b r]|] eqn:Ea; [|done]. cbn [mbind option_bind].
    apply add_mapping in Ea. destruct (r <? 0), (logqueries_use cfg =? 1); intros [= <-]; cbn;
      unfold update_limit; by repeat case_match.
  - destruct (nonzero (use_lve cfg)); [|intros [= <-]; unfold update_limit; by repeat case_match].
    unfold delete_user_from_list. destruct (sd_bad s) as [l0|]; [destruct (delete_loop _ _ _ _ _) as [[? ?]|]; [|done]|];
      cbn [mbind option_bind]; intros [= <-]; unfold update_limit; by repeat case_match.
Qed.

Lemma reinit_mapping cfg content g g' : reinit_users_list cfg content g = Some g' -> same_mapping g g'.
Proof.
  unfold reinit_users_list. set (g0 := mkGov _ _ _ _ _ _ _ _ _).
  assert (same_mapping g g0) as H0 by (unfold same_mapping, g0; cbn; by destruct (gv_bad g)).
  destruct (nonzero (all_lve cfg)); [|by intros [= <-]]. intros E. eapply same_mapping_trans; [exact H0|].
  revert E. apply foreach_mapping; [done|]. intros k ac. cbn [add_all_users_to_list mbind option_bind].
  induction (ac_users ac) as [|u l IH]; intros g1 g2; [by intros [= ->]|]. cbn [add_users].
  destruct (add_user_to_list _ _ _ _ _ _) as [[b r]|] eqn:Ea; [|done]. cbn [mbind option_bind]. intros E2.
  apply IH in E2. apply add_mapping in Ea. unfold same_mapping in *. by rewrite Ea.
Qed.

Lemma map_mapping cfg last c c' curr curr' g g' : parse_map_round cfg last c c' curr g = Some (curr', g') ->
  same_mapping g g'.
Proof.
  unfold parse_map_round. destruct (curr <? last); [|by intros [= _ <-]].
  destruct (get_map_file _ c) as [m ok]. set (g0 := mkGov _ _ _ _ _ _ _ _ _).
  destruct (set_dbuser_map cfg g0) as [g1|] eqn:E1; [|done]. cbn [mbind option_bind].
  destruct (reinit_users_list cfg c' g1) as [g2|] eqn:E2; [|done]. cbn [mbind option_bind]. intros [= _ <-].
  eapply same_mapping_trans; [|by eapply reinit_mapping]. change (same_mapping g0 g1). revert E1.
  apply foreach_mapping; [done|]. intros k um g3 g4. unfold list_uid. cbn [mbind option_bind].
  destruct (add_empty_stats_for_uid _ _ _ _ _); [|done]. by intros [= <-].
Qed.

Lemma restrict_mapping cfg sys command clk g g' : restrict_command cfg sys command clk g = Some g' -> same_mapping g g'.
Proof.
  unfold restrict_command.
  pose proof (ht_foreach_ind (dbctl_restrict_set cfg sys command clk)
    (fun _ r => forall n g', r = Some (n, g') -> same_mapping g g') (accounts (gv_acc g)) (Some (0%nat, g))) as G.
  destruct (ht_foreach _ _ _) as [[n g1]|] eqn:E; [|done]. intros [= <-]. eapply G; [by intros ? ? [= _ <-]| |done].
  intros dn k ac [[n0 g2]|] _ _ IH n' g3; [|done]. specialize (IH n0 g2 eq_refl). intros E3.
  eapply same_mapping_trans; [exact IH|]. revert E3. unfold dbctl_restrict_set. cbn [mbind option_bind].
  destruct (match users _ !! _ with Some _ => _ | None => _ end) as [[a t]|]; [|done]. cbn [mbind option_bind].
  destruct (accounts a !! t); [|done]. cbn [mbind option_bind]. destruct (_ || _); by intros [= _ <-].
Qed.

Lemma first_mapping sys clk_tck cfg io old_tm tm g g' : gov_ok g ->
  second_first sys clk_tck cfg io old_tm g = Some (tm, g') -> same_mapping g g'.
Proof.
  intros Hg. unfold second_first. set (g1 := set_tid _ g).
  assert (short_keys (user_counters_list (gv_tid g1))) as Hs1 by (apply short_monitor, Hg).
  destruct (dleb d1 _); [|by intros [= _ <-]].
  destruct (proceed_accounts _ _ _ _ _ _ _ _ _ _) as [g2|] eqn:E2; [|done]. cbn [mbind option_bind].
  intros [= _ <-]. apply (same_mapping_eq g). change (gv_bad g2 = gv_bad g1). revert E2.
  unfold proceed_accounts, collect_samples. set (g0 := set_acc (increment_tick (gv_acc g1)) g1).
  destruct (ht_foreach _ _ (Some g0)) as [g3|] eqn:E3; [|done]. cbn [mbind option_bind].
  destruct (collect_rest cfg clk_tck _ _ g0 g3 E3 Hs1) as (_ & _ & B3 & _).
  destruct (ht_foreach (users _) _ _) as [a4|]; [|done]. cbn [mbind option_bind].
  destruct (ht_foreach (accounts a4) _ _) as [a5|]; [|done]. cbn [mbind option_bind]. intros [= <-].
  set (g6 := if nonzero (restrict_mode cfg) then _ else _).
  assert (gv_bad g6 = gv_bad g1) as B6.
  { transitivity (gv_bad g3); [|by rewrite B3]. subst g6. destruct (nonzero (restrict_mode cfg)).
    - pose proof (foreach_account_spec (account_analyze_limit cfg sys) (so_clock io) (set_acc a5 g3)) as Hsp.
      destruct Hsp as (_ & _ & _ & _ & _ & B & _). exact B.
    - pose proof (foreach_account_spec (account_analyze cfg sys) (so_clock io) (set_acc a5 g3)) as Hsp.
      destruct Hsp as (_ & _ & _ & _ & _ & B & _). exact B. }
  destruct (nonzero (statistic_mode cfg)); [|done].
  destruct (add_dbgov_rest cfg (so_stat io) (so_stat_tm io) (so_timestamp io) g6) as (_ & B7 & _). by rewrite B7.
Qed.

Lemma second_mapping sys clk_tck cfg io old_tm tm g g' : gov_ok g ->
  every_second sys clk_tck cfg io old_tm g = Some (tm, g') -> same_mapping g g'.
Proof.
  intros Hg. rewrite every_second_parts. destruct (second_first _ _ _ _ _ _) as [[t1 g1]|] eqn:E; [|done].
  cbn [mbind option_bind]. destruct (cycle_begin cfg (gv_q g1)) as [q b]. intros [= _ <-].
  exact (first_mapping sys clk_tck cfg io old_tm t1 g g1 Hg E).
Qed.
End mapping.

Lemma command_mapping `{HashOrder} sys ns io command w w' : world_command sys ns io command w = Ok w' ->
  same_mapping (w_gov w) (w_gov w').
Proof.
  unfold world_command. set (d0 := set_open _ _).
  destruct (run_dbctl_command _ _ _ _ d0) as [d| |] eqn:E1; [|done..]. intros [= <-].
  change (same_mapping (dm_gov d0) (dm_gov d)). revert E1. generalize d0. clear.
  intros d0. unfold run_dbctl_command.
  assert (forall h clk g, same_mapping g (foreach_account h clk g)) as Hf.
  { intros h clk g. pose proof (foreach_account_spec h clk g) as Hsp. apply same_mapping_eq. apply Hsp. }
  destruct (d_command command); try (by intros [= <-]).
  - destruct (nonzero _); [by intros [= <-]|]. destruct (no_single _); [by intros [= <-]|].
    destruct (restrict_command _ _ _ _ _) as [g|] eqn:Eg; [|done]. cbn [try_gov obind]. intros [= <-].
    by eapply restrict_mapping.
  - destruct (nonzero _); [by intros [= <-]|]. destruct (no_single _); [by intros [= <-]|]. intros [= <-]. apply Hf.
  - destruct (nonzero _); [by intros [= <-]|]. destruct (no_single _); [by intros [= <-]|]. intros [= <-]. apply Hf.
  - destruct (cm_config io); [|done..]. cbn [obind]. by intros [= <-].
  - destruct (cm_config io) as [cfg| |]; [|done..]. cbn [obind]. set (d1 := if nonzero _ then _ else _).
    assert (same_mapping (dm_gov d0) (dm_gov d1)) as H1 by (subst d1; destruct (nonzero _); [done|apply Hf]).
    destruct (reinit_users_list _ _ _) as [g|] eqn:Eg; [|done]. cbn [try_gov obind]. intros [= <-].
    eapply same_mapping_trans; [exact H1|]. by eapply reinit_mapping.
Qed.

Lemma client_mapping `{HashOrder} sys w w' : rtc (client_step sys) w w' -> same_mapping (w_gov w) (w_gov w').
Proof.
  induction 1 as [|w w1 w2 Hs _ IH]; [done|]. eapply same_mapping_trans; [|exact IH].
  destruct Hs as [ns io command w w' _ _ E]. by eapply command_mapping.
Qed.

Lemma step_mapping `{HashOrder} sys clk_tck w w' : world_ok w -> world_step sys clk_tck w w' ->
  same_mapping (w_gov w) (w_gov w').
Proof.
  intros Hw Hs. revert Hw.
  destruct Hs as [io w w' _ E|io w w' _ E|io w w1 w2 w3 w4 b _ E H12 E3 H34|w w' E|last c c' curr curr' w w' E
                 |ns io command w w' _ _ E]; intros Hw.
  - revert E. unfold world_round. destruct (server_round _ _); [|done]. by intros [= <-].
  - revert E. unfold world_second. destruct (every_second _ _ _ _ _ _) as [[tm g]|] eqn:E1; [|done].
    intros [= <-]. by eapply second_mapping; [apply Hw|].
  - revert E. unfold world_first. destruct (second_first _ _ _ _ _ _) as [[tm g]|] eqn:E1; [|done]. intros [= <-].
    pose proof (first_mapping _ _ _ _ _ _ _ _ (wo_gov _ Hw) E1) as A. pose proof (client_mapping sys _ _ H12) as B.
    pose proof (client_mapping sys _ _ H34) as D. unfold world_copy in E3.
    destruct (cycle_begin _ _) as [q x]. injection E3 as <- _.
    eapply same_mapping_trans; [exact A|]. eapply same_mapping_trans; [exact B|exact D].
  - revert E. unfold world_worker, send_commands_cycle_in. destruct (send_all _ _ _ _) as [s|] eqn:E1; [|done].
    intros [= <-]. exact (send_mapping _ _ _ _ _ E1).
  - revert E. unfold world_map. destruct (parse_map_round _ _ _ _ _ _) as [[t g]|] eqn:E1; [|done].
    intros [= _ <-]. by eapply map_mapping.
  - by eapply command_mapping.
Qed.

(** ** The names *)

Definition names_ok (k : shm_names) : Prop := forall l, n_list k = Some l -> list_inv l.

Lemma segment_zero k : names_ok k -> list_inv (default clear_bad_users_list (n_list k)).
Proof. unfold names_ok. destruct (n_list k); [by intros Hk; apply Hk|intros _; apply clear_inv]. Qed.

(** The set-up by the daemon: either everything is there and empty, or there
    is no semaphore. *)
Lemma init_names e k k' q r : names_ok k -> e_wait_ok e = true -> names_after_init e k = (k', q, r) ->
  names_ok k' /\ (0 <= r -> n_sem k' = true /\ n_list k' = Some clear_bad_users_list /\ sh_bad_list q = Some clear_bad_users_list)
  /\ (r < 0 -> n_sem k' = false).
Proof.
  intros Hk Hw. pose proof (segment_zero k Hk) as Hz. unfold names_after_init, init_bad_users_list, segment_opened, unmapped.
  cbn [sh_contents sh_umask sh_bad_list sh_sem sh_private sh_fd_open sh_euid sh_mutex].
  rewrite Hw. destruct (Z.ltb_spec 0 (e_open_excl e)), (Z.ltb_spec (e_open e) 0), (Z.leb_spec 0 (e_open e)); try lia;
    cbn [negb andb orb]; destruct (e_stat e) as [[u g]|]; destruct (e_mmap_ok e); cbn [negb];
    try destruct (e_sem_ok e); cbn [negb]; intros [= <- <- <-];
    (split; [unfold names_ok; cbn; intros l; try (intros [= <-]); first [done|apply clear_inv|by apply Hk]|split; [|done]]);
    try done; lia.
Qed.

Lemma utility_names e k k' q r : names_ok k -> e_wait_ok e = true -> names_after_utility e k = (k', q, r) ->
  names_ok k' /\ (n_sem k = true -> n_sem k' = true) /\ (n_list k' = n_list k \/ n_list k' = Some clear_bad_users_list)
  /\ (n_list k = None <-> n_list k' = None).
Proof.
  intros Hk Hw. unfold names_after_utility, init_bad_users_list_utility, unmapped.
  cbn [sh_contents sh_umask sh_bad_list sh_sem sh_private sh_fd_open sh_euid sh_mutex]. rewrite Hw.
  destruct (e_open e <? 0), (e_mmap_ok e), (e_sem_ok e); cbn [negb]; intros [= <- <- <-];
    destruct (n_list k) as [l|] eqn:El; unfold names_ok; cbn [n_sem n_list default sh_contents];
    (split; [intros ? [= <-] || intros ? Hn; first [apply clear_inv|by apply Hk|done]|]);
    (split; [by intros ->|]); (split; [by auto|done]).
Qed.

Lemma client_names e k k' q r : names_ok k -> env_fits k e -> names_after_client e k = (k', q, r) ->
  names_ok k' /\ n_sem k' = n_sem k /\ (n_list k' = n_list k \/ (n_list k = None /\ n_list k' = Some clear_bad_users_list))
  /\ (n_list k = None -> e_sem_ok e = false -> sh_bad_list q = None).
Proof.
  intros Hk [Hx Hn]. unfold names_after_client, init_bad_users_list_client, segment_opened, unmapped in *.
  cbn [sh_contents sh_umask sh_bad_list sh_sem sh_private sh_fd_open sh_euid sh_mutex].
  destruct (n_list k) as [l|] eqn:El; cbn [default from_option id] in *.
  - destruct (Z.ltb_spec 0 (e_open_excl e)) as [Hp|Hp]; [by specialize (Hx Hp)|]. cbn [negb andb orb].
    destruct (Z.ltb_spec (e_open e) 0), (Z.leb_spec 0 (e_open e)); try lia; destruct (e_mmap_ok e); cbn [negb];
      intros [= <- <- <-]; unfold names_ok; cbn [n_sem n_list sh_contents]; rewrite ?El;
      (split; [by intros ? [= <-]; apply Hk|]); (split; [done|]); (split; [by auto|done]).
  - specialize (Hn eq_refl). destruct (Z.ltb_spec 0 (e_open_excl e)) as [Hp|Hp]; cbn [negb andb orb].
    + destruct (e_mmap_ok e), (e_sem_ok e); cbn [negb]; intros [= <- <- <-]; unfold names_ok; cbn [n_sem n_list sh_contents];
        (split; [intros ? [= <-]; apply clear_inv|]); (split; [done|]); (split; [by auto|done]).
    + destruct (Z.leb_spec 0 (e_open e)) as [Ho|Ho]; [specialize (Hn eq_refl); lia|].
      destruct (Z.ltb_spec (e_open e) 0); [|lia]. intros [= <- <- <-]. unfold names_ok. cbn [n_sem n_list]. rewrite ?El.
      by split_and!; try done; auto.
Qed.

(** ** Invariant *)

Record service_ok (s : service) : Prop := {
  so_names : names_ok (sv_names s);
  so_daemon : match sv_daemon s with
              | Serving lve w => world_ok w
                  /\ if lve then n_sem (sv_names s) = true
                       /\ exists l, gv_bad (w_gov w) = Some l /\ n_list (sv_names s) = Some l
                     else gv_bad (w_gov w) = None
              | _ => True
              end;
  so_peer : my_peer (sv_mysql s) = true -> listening (sv_daemon s) = true;
  so_sock : status (sock (my_plugin (sv_mysql s))) <> 0 -> 0 <= socket (sock (my_plugin (sv_mysql s)));
  so_mode : my_peer (sv_mysql s) = true -> governor_get_command (my_plugin (sv_mysql s)) = 2 ->
            exists w, sv_daemon s = Serving true w
}.

Lemma boot_ok : service_ok boot.
Proof. by split. Qed.

Lemma connected_socket fuel s io fds sd rc fds' : connect_to_server fuel s io fds = Some (sd, rc, fds') ->
  status sd <> 0 -> 0 <= socket sd.
Proof.
  unfold connect_to_server, connect_to_server_in. destruct (Z.ltb_spec s 0); [by intros [= <- _ _]|].
  destruct (connection_with_timeout_poll fuel io) as [[rc0 cl]|]; [|done]. cbn [mbind option_bind].
  destruct (rc0 <? 0); by intros [= <- _ _].
Qed.

Lemma reconnected_socket (lve : bool) fuel s io p fds p' fds' :
  (if lve then query_governor_enable_reconnect_lve fuel s io p fds
   else query_governor_enable_reconnect fuel s io p fds) = Some (p', fds') ->
  (status (sock p') <> 0 -> 0 <= socket (sock p')) /\ governor_get_command p' = if lve then 2 else 1.
Proof.
  unfold query_governor_enable_reconnect_lve, query_governor_enable_reconnect, reconnect.
  destruct (close_sock (sock p) fds) as [sd0 f0].
  destruct (connect_to_server fuel s io f0) as [[[sd rc] f1]|] eqn:E; [|by destruct lve]. cbn [mbind option_bind].
  destruct lve; intros [= <- _]; (split; [|done]); by eapply connected_socket.
Qed.

Lemma loaded_plugin io k k' m : load_plugin io k = Some (k', m) ->
  (status (sock (my_plugin m)) <> 0 -> 0 <= socket (sock (my_plugin m)))
  /\ governor_get_command (my_plugin m) = 0
  /\ ((k' = k /\ my_mapped m = false)
      \/ exists q r, names_after_client (lo_shm io) k = (k', q, r)
           /\ my_mapped m = match sh_bad_list q with Some _ => true | None => false end).
Proof.
  unfold load_plugin. destruct (connect_to_server _ _ _ _) as [[[sd rc] fds]|] eqn:E; [|done]. cbn [mbind option_bind].
  unfold governor_plugin_init. destruct (governor_load_lve_library _ _ _) as [f loaded].
  destruct (if loaded : bool then governor_init_lve f (lo_created io) false else (false, -1)) as [lve rc'].
  destruct lve.
  - destruct (names_after_client (lo_shm io) k) as [[k1 q] r] eqn:Ek. intros [= <- <-].
    cbn [my_plugin my_mapped sock governor_get_command andb]. split; [by eapply connected_socket|]. split; [done|].
    right. by exists q, r.
  - intros [= <- <-]. cbn [my_plugin my_mapped sock governor_get_command andb]. split; [by eapply connected_socket|].
    split; [done|]. by left.
Qed.

Lemma side_step_ok `{HashOrder} sys clk_tck s s' : service_ok s -> side_step sys clk_tck s s' -> service_ok s'.
Proof.
  intros Ho Hs. revert Ho. destruct Hs as
    [k m|k k' q r e sock opened cfg m Hf Hw Ei H1 H2 H3|k sock opened cfg m H1 H2 H3|k lve w w' m Hw
    |k lve w m fuel s io fds p' fds' Er|k lve b w m Hb|k d m|k q d m Hl|k d m|k k' q r e d m Hw Eu];
    intros [Hn Hd Hp Hso Hm]; cbn [sv_names sv_daemon sv_mysql] in *.
  - split; try done. intros A B. by destruct (Hm A B).
  - destruct (init_names e k k' q r Hn Hw Ei) as (Hn' & Hpos & _). split; try done; cbn [sv_names sv_daemon sv_mysql].
    + destruct (Z.leb_spec 0 r) as [Hr|Hr].
      * destruct (Hpos Hr) as (A & B & C). rewrite C. split; [apply start_ok; auto|]. split; [done|]. by eexists.
      * split; [apply start_ok; auto|done].
    + intros A B. by destruct (Hm A B).
  - split; try done; cbn [sv_names sv_daemon sv_mysql]; [split; [apply start_ok; auto|done]|].
    intros A B. by destruct (Hm A B).
  - destruct Hd as [Hwo Hl]. pose proof (step_ok sys clk_tck w w' Hwo Hw) as Hwo'.
    pose proof (step_mapping sys clk_tck w w' Hwo Hw) as Hmap. unfold same_mapping in Hmap.
    split; try done; cbn [sv_names sv_daemon sv_mysql].
    + intros l. cbn [shared_list n_list]. destruct (gv_bad (w_gov w')) as [l'|] eqn:E; [|by apply Hn].
      intros [= <-]. pose proof (go_bad _ (wo_gov _ Hwo')) as Hb. by rewrite E in Hb.
    + split; [done|]. destruct lve; [|by apply Hmap]. destruct Hl as (A & l & B & C). split; [done|].
      cbn [shared_list n_list]. destruct (gv_bad (w_gov w')) as [l'|]; [by eexists|]. by rewrite (proj2 Hmap eq_refl) in B.
    + intros A B. destruct (Hm A B) as [w0 [= -> ->]]. by eexists.
  - destruct (reconnected_socket lve fuel s io (my_plugin m) fds p' fds' Er) as [A B].
    split; try done; cbn [sv_names sv_daemon sv_mysql set_plugin my_plugin my_peer].
    intros _. rewrite B. destruct lve; [by eexists|done].
  - split; try done; cbn [sv_names sv_daemon sv_mysql set_plugin my_plugin my_peer]; [by destruct b|].
    intros _. destruct b; [|done]. rewrite Hb by done. by eexists.
  - by split.
  - by split.
  - by split.
  - destruct (utility_names e k k' q r Hn Hw Eu) as (Hn' & Hsem & Hl & Hiff).
    split; try done; cbn [sv_names sv_daemon sv_mysql].
    + destruct d as [| |lve w]; [done..|]. destruct Hd as [Hwo Hb].
      assert (forall l, n_list k' = Some l -> world_ok (put_gov (set_bad_list (Some l) (w_gov w)) w)) as Hput.
      { intros l El. destruct Hwo as [Hg Hc Hsv]. split; [|done|done]. destruct Hg. by split; [..|apply Hn'| |]. }
      destruct lve; [|by rewrite Hb]. destruct Hb as (A & l & B & C). rewrite B.
      destruct (n_list k') as [l'|] eqn:El; [|by rewrite (proj2 Hiff eq_refl) in C].
      split; [by apply Hput|]. split; [by apply Hsem|]. exists l'. by split.
    + destruct d; try done.
    + intros A B. destruct (Hm A B) as [w ->]. by eexists.
Qed.

Lemma service_step_ok `{HashOrder} sys clk_tck s s' : service_ok s -> service_step sys clk_tck s s' -> service_ok s'.
Proof.
  intros Ho Hs. revert Ho. destruct Hs as [s0 s1 Hs|io k k' d m m' Hf Hsem Hload Hpeer]; [intros Ho; by eapply side_step_ok|].
  intros [Hn Hd Hp Hso Hm]. destruct (loaded_plugin io k k' m' Hload) as (A & B & C).
  cbn [sv_names sv_daemon sv_mysql] in *.
  assert (names_ok k' /\ n_sem k' = n_sem k
          /\ (n_list k' = n_list k \/ (n_list k = None /\ n_list k' = Some clear_bad_users_list))) as (N1 & N2 & N3).
  { destruct C as [[-> _]|(q & r & Ek & _)]; [by auto|].
    destruct (client_names _ _ _ _ _ Hn Hf Ek) as (X1 & X2 & X3 & _). by split_and!. }
  split; cbn [sv_names sv_daemon sv_mysql]; try done.
  - destruct d as [| |[] w]; try done. destruct Hd as (Hwo & S & l & Hb & El). rewrite N2. split; [done|]. split; [done|].
    exists l. split; [done|]. by destruct N3 as [->|[? _]]; [|congruence].
  - intros _. by rewrite B.
Qed.

Lemma service_ok_reachable `{HashOrder} sys clk_tck s : rtc (service_step sys clk_tck) boot s -> service_ok s.
Proof. intros Hr. eapply rtc_ind_r; [apply boot_ok|by intros; eapply service_step_ok|exact Hr]. Qed.

(** ** The query *)

(** A lookup that finds something took the semaphore and read the list. *)
Lemma lookup_found b (sem : bool) tries u r : (forall l, b = Some l -> list_inv l) -> strlen u < USERNAMEMAXLEN ->
  is_user_in_bad_list_cleint_persistent b tries (fun _ => sem) u = Some r -> cr_uid r <> 0 ->
  sem = true /\ exists l, b = Some l /\ abs l !! u = Some (cr_uid r).
Proof.
  intros Hb Hu. unfold is_user_in_bad_list_cleint_persistent. destruct sem; [|by intros [= <-]].
  assert (exists x, lookup_uid b u = Some x /\ (x <> 0 -> exists l, b = Some l /\ abs l !! u = Some x)) as (x & -> & Hx).
  { destruct b as [l|]; [|by exists 0]. rewrite lookup_uid_spec by auto. eexists. split; [done|].
    destruct (abs l !! u) as [uid|] eqn:E; [|done]. intros _. by exists l. }
  destruct (client_loop_bounded client_fuel tries (fun _ => true) x 0 0 1 0)
    as (run & -> & _ & Ef & _); [lia..|done|unfold client_fuel; lia|]. cbn [mbind option_bind]. intros [= <-].
  cbn [finish_client cr_uid]. rewrite Ef. destruct (run_got run); [|done]. intros H0. split; [done|]. by apply Hx.
Qed.

Lemma begin_outside {K} `{LK : !LveKernel K} env (sem : bool) u t w t' w' d :
  (forall l, le_list env = Some l -> list_inv l) -> strlen u < USERNAMEMAXLEN -> le_opens env = (fun _ => sem) ->
  current (w_kernel w) = None ->
  gr_lve_begin (Some (lve_hooks env)) u t w = Some (t', w') -> current (w_kernel w') = Some d ->
  sem = true /\ exists l uid, le_list env = Some l /\ abs l !! u = Some uid /\ d = u32 uid.
Proof.
  intros Hb Hu Hs Hc. unfold gr_lve_begin. destruct (in_lve t =? 0); [|intros [= _ <-]; congruence].
  cbn [enter lve_hooks]. unfold governor_enter_lve. rewrite Hs.
  destruct (is_user_in_bad_list_cleint_persistent _ _ _ _) as [r|] eqn:E; [|done]. cbn [mbind option_bind].
  destruct (nonzero (cr_uid r)) eqn:En; cbn [andb]; [|intros [= _ <-]; cbn [w_kernel]; congruence].
  apply negb_true_iff, Z.eqb_neq in En. destruct (lookup_found _ sem _ _ _ Hb Hu E En) as (A & l & B & C).
  destruct (lve_enter_flags _ && le_lve env); [|intros [= _ <-]; cbn [w_kernel]; congruence].
  unfold enter_lve. cbn [w_kernel]. destruct (k_enter (w_kernel w) _ _) as [[[k rc] e] c] eqn:Ek.
  destruct (nonzero rc) eqn:Erc.
  - apply negb_true_iff, Z.eqb_neq in Erc. destruct (k_enter_fail _ _ _ _ _ _ _ Ek Erc) as (-> & _).
    intros [= _ <-]. cbn [w_kernel]. congruence.
  - apply negb_false_iff, Z.eqb_eq in Erc. subst rc. intros [= _ <-]. cbn [w_kernel].
    rewrite (proj1 (k_enter_ok _ _ _ _ _ _ Ek)). intros [= <-]. split; [done|]. by exists l, (cr_uid r).
Qed.

(** What it takes for a query to get into an LVE. *)
Lemma query_inside {K} `{LK : !LveKernel K} s tries io u rest (t t' : session (lve_world K)) d :
  names_ok (sv_names s) -> query_io s io u rest -> current (w_kernel (se_world t)) = None ->
  query_begins s tries io u rest t = Some t' -> current (w_kernel (se_world t')) = Some d ->
  let p := my_plugin (sv_mysql s) in
  status (sock p) <> 0 /\ governor_get_command p = 2 /\ (0 <= socket (sock p) -> my_peer (sv_mysql s) = true)
  /\ n_sem (sv_names s) = true /\ my_mapped (sv_mysql s) = true
  /\ exists l uid, n_list (sv_names s) = Some l /\ abs l !! u = Some uid /\ d = u32 uid.
Proof.
  intros Hn [(N1 & N2 & N3) Hu Hsent] Hc. cbv zeta. unfold query_begins. rewrite notify_named by done. unfold notify_log.
  set (p := my_plugin (sv_mysql s)).
  destruct (nonzero (status (sock p))) eqn:Est; cbn [andb]; [|intros [= <-]; cbn [se_world]; congruence].
  destruct (nonzero (governor_get_command p)); [|intros [= <-]; cbn [se_world]; congruence].
  cbn [is_begined se_thread se_world se_sent]. destruct (Z.eqb_spec (snd (send_info_begin (sock p) u io)) 0) as [Er|Er];
    cbn [nonzero]; [|intros [= <-]; cbn [se_world]; congruence]. change (nonzero 1) with true. cbn [andb].
  destruct (ld_found p); [|intros [= <-]; cbn [se_world]; congruence].
  destruct (lve_enter p); [|intros [= <-]; cbn [se_world]; congruence].
  destruct (Z.eqb_spec (governor_get_command p) 2) as [E2|E2]; [|intros [= <-]; cbn [se_world]; congruence]. cbn [andb].
  destruct (gr_lve_begin _ _ _ _) as [[th w']|] eqn:Eb; [|done]. cbn [mbind option_bind]. intros [= <-]. cbn [se_world].
  intros Hd. apply negb_true_iff, Z.eqb_neq in Est.
  destruct (begin_outside (env_of s tries) (n_sem (sv_names s)) u (se_thread t) (se_world t) th w' d) as (A & l & uid & B & C & D);
    try done.
  { intros l. cbn [env_of le_list]. destruct (my_mapped (sv_mysql s)); [apply Hn|done]. }
  split; [done|]. split; [done|]. split.
  { intros Hso. unfold send_info_begin, send_info in Er. destruct (Z.ltb_spec (socket (sock p)) 0); [lia|].
    destruct (nonzero (try_lock _ _ _)); [done|]. cbn [snd] in Er. destruct (rp_sent io); [by apply Hsent|done]. }
  split; [done|]. cbn [env_of le_list] in B. destruct (my_mapped (sv_mysql s)); [|done]. split; [done|]. by exists l, uid.
Qed.

(** A query begins in any case. *)
Lemma query_runs {K} `{LK : !LveKernel K} p env (sem : bool) io u rest (t : session (lve_world K)) :
  (forall l, le_list env = Some l -> list_inv l) -> strlen u < USERNAMEMAXLEN -> le_opens env = (fun _ => sem) ->
  u <> "" /\ has_char "[" u = false /\ (rest = "" \/ first_char rest = "["%char) ->
  governor_notify p (Some (lve_hooks env)) io (mkEvent MYSQL_AUDIT_GENERAL_LOG (Some (u +:+ rest)) true) t <> None.
Proof.
  intros Hb Hu Hs (N1 & N2 & N3). rewrite notify_named by done. unfold notify_log. destruct (_ && _); [|done].
  assert (forall t0 w0, gr_lve_begin (Some (lve_hooks env)) u t0 w0 <> None) as G.
  { intros t0 w0. unfold gr_lve_begin. destruct (in_lve t0 =? 0); [|done]. cbn [enter lve_hooks]. unfold governor_enter_lve.
    assert (is_Some (is_user_in_bad_list_cleint_persistent (le_list env) (le_tries env) (le_opens env) u)) as [r ->].
    { rewrite Hs. unfold is_user_in_bad_list_cleint_persistent. destruct sem; [|by eexists].
      assert (is_Some (lookup_uid (le_list env) u)) as [x ->].
      { destruct (le_list env) as [l|]; [rewrite lookup_uid_spec by auto|]; by eexists. }
      destruct (client_loop_bounded client_fuel (le_tries env) (fun _ => true) x 0 0 1 0)
        as (run & -> & _); [lia..|done|unfold client_fuel; lia|]. by eexists. }
    cbn [mbind option_bind]. destruct (_ && _ && _); [|done]. by destruct (enter_lve _ _ _) as [[[? ?] ?] []]. }
  destruct (_ && _); [|done]. cbn [mbind option_bind is_begined se_thread se_world]. specialize (G (se_thread t) (se_world t)).
  by destruct (gr_lve_begin _ _ _ _) as [[? ?]|].
Qed.

(** ** Runs *)

(** The daemon works while the rest stands still. *)
Lemma work_run `{HashOrder} sys clk_tck k lve w w' m : rtc (world_step sys clk_tck) w w' ->
  exists k', rtc (side_step sys clk_tck) (mkService k (Serving lve w) m) (mkService k' (Serving lve w') m).
Proof.
  intros Hr. revert k. induction Hr as [w|w1 w2 w3 Hs _ IH]; intros k; [by exists k|].
  destruct (IH (shared_list w2 k)) as (k' & Hk). exists k'. eapply rtc_l; [|exact Hk]. by apply sv_work.
Qed.

(** A daemon that the enforcement followed since its start, with its list in
    place and the plugin as it was. *)
Lemma daemon_runs `{HashOrder} sys clk_tck k k' q e w m : enforce_reachable (limit := true) sys clk_tck w ->
  names_ok k -> env_fits k e -> e_wait_ok e = true -> names_after_init e k = (k', q, 0) ->
  exists k1, rtc (side_step sys clk_tck) (mkService k Down m) (mkService k1 (Serving true w) m).
Proof.
  intros Hr Hk Hf Hw Ei. destruct (enforce_started sys clk_tck w Hr) as (sock & opened & cfg & H1 & H2 & H3 & Hrun).
  destruct (init_names e k k' q 0 Hk Hw Ei) as (_ & Hpos & _). destruct (Hpos ltac:(lia)) as (_ & _ & Eb).
  destruct (work_run sys clk_tck k' true _ w m Hrun) as (k1 & Hk1). exists k1.
  eapply rtc_l; [apply sv_start|]. eapply rtc_l; [by eapply (sv_init sys clk_tck k k' q 0 e sock opened cfg m)|].
  cbn [Z.leb]. rewrite Eb. exact Hk1.
Qed.

Lemma sides_run `{HashOrder} sys clk_tck s s' : rtc (side_step sys clk_tck) s s' -> rtc (service_step sys clk_tck) s s'.
Proof. intros Hr. eapply rtc_subrel; [|exact Hr]. intros ? ? Hs. by apply sv_side. Qed.

(** A mapping that is missing stays missing. *)
Lemma unmapped_stays `{HashOrder} sys clk_tck s s' : rtc (side_step sys clk_tck) s s' ->
  my_mapped (sv_mysql s) = false -> my_mapped (sv_mysql s') = false.
Proof. induction 1 as [s|s1 s2 s3 Hs _ IH]; [done|]. intros Hm. apply IH. by destruct Hs. Qed.

(** [mysql_unfreeze] empties the list behind the back of the daemon, whose
    accounts stay as they are. *)
Lemma unfreeze_behind_daemon `{HashOrder} sys clk_tck s k e q w : rtc (service_step sys clk_tck) boot s ->
  sv_daemon s = Serving true w -> e_wait_ok e = true -> names_after_utility e (sv_names s) = (k, q, 0) ->
  exists w', side_step sys clk_tck s (mkService k (Serving true w') (sv_mysql s))
    /\ gv_bad (w_gov w') = Some clear_bad_users_list /\ gv_acc (w_gov w') = gv_acc (w_gov w).
Proof.
  intros Hr Ed Hw Eu. destruct s as [k0 d m]. cbn [sv_daemon sv_names sv_mysql] in *. subst d.
  destruct (service_ok_reachable _ _ _ Hr) as [_ (_ & _ & l & Hb & El) _ _ _]. cbn [sv_names] in El.
  pose proof (sv_unfreeze sys clk_tck k0 k q 0 e (Serving true w) m Hw Eu) as Hs. cbn beta iota in Hs.
  rewrite Hb in Hs. revert Eu Hs. unfold names_after_utility, init_bad_users_list_utility, unmapped. rewrite El.
  cbn [default from_option id sh_contents sh_sem sh_umask sh_private sh_euid sh_mutex]. rewrite Hw.
  destruct (e_open e <? 0); [done|]. destruct (e_mmap_ok e); [|done]. destruct (e_sem_ok e); [|done]. cbn [negb].
  intros [= <- _] Hs. cbn [n_list sh_contents] in Hs. eexists. split; [exact Hs|]. done.
Qed.

(** * Properties *)


(** C12: When MySQL loads the plugin before the first start of a daemon since the boot, LVE
    stays off until MySQL loads the plugin again: the client finds no semaphore and gives the
    mapping of the list up for good, so whatever daemons do from then on, and although they
    restrict accounts and put users on the list, every query begins outside every LVE. *)
Theorem boot_order_disables_lve `{HashOrder} {K} `{LK : !LveKernel K} (sys : sysinfo) (clk_tck : Z) (s0 s : service)
    (lo : load_io) (k : shm_names) (m : mysqld) (tries : nat -> wait_result) (io : report_io) (u rest : string)
    (t : session (lve_world K)) :
  rtc (service_step sys clk_tck) boot s0 -> sv_names s0 = mkNames false None ->
  env_fits (sv_names s0) (lo_shm lo) -> e_sem_ok (lo_shm lo) = n_sem (sv_names s0) ->
  load_plugin lo (sv_names s0) = Some (k, m) -> (my_peer m = true -> listening (sv_daemon s0) = true) ->
  rtc (side_step sys clk_tck) (mkService k (sv_daemon s0) m) s ->
  query_io s io u rest -> outside_lve t ->
  exists t', query_begins s tries io u rest t = Some t' /\ current (w_kernel (se_world t')) = None.
Proof.
  intros H0 Ek Hf Hse El Hp Hr Hq [_ Hc].
  assert (service_step sys clk_tck s0 (mkService k (sv_daemon s0) m)) as Hload.
  { destruct s0 as [k0 d0 m0]. by eapply sv_load. }
  assert (service_ok s) as [Hn _ _ _ _].
  { apply (service_ok_reachable sys clk_tck). etrans; [exact H0|]. eapply rtc_l; [exact Hload|]. by apply sides_run. }
  assert (my_mapped (sv_mysql s) = false) as Hm.
  { apply (unmapped_stays sys clk_tck _ _ Hr). cbn [sv_mysql].
    destruct (loaded_plugin lo _ k m El) as (_ & _ & [[_ ->]|(q & r & Ec & ->)]); [done|].
    destruct (client_names _ _ _ _ _ (so_names _ (service_ok_reachable _ _ _ H0)) Hf Ec) as (_ & _ & _ & ->); [done|..].
    - by rewrite Ek.
    - by rewrite Hse, Ek. }
  destruct (query_begins s tries io u rest t) as [t'|] eqn:E.
  - exists t'. split; [done|]. destruct (current (w_kernel (se_world t'))) as [d|] eqn:Ed; [|done].
    destruct (query_inside s tries io u rest t t' d Hn Hq Hc E Ed) as (_ & _ & _ & _ & Hm' & _). congruence.
  - exfalso. destruct Hq as [Hu Hlen _]. revert E. apply (query_runs _ _ (n_sem (sv_names s))); try done.
    intros l. cbn [env_of le_list]. by rewrite Hm.
Qed.

(** * A concrete service *)

(** The daemon that listens, and one that does not; the calls for the list
    when the segment is new and when it is there. *)
Definition example_connects : conn_io := mkConnIo 0 0 0 0 (fun _ => (1, 0)) false false false 0 0 0 false.
Definition example_refused : conn_io := mkConnIo 0 0 (-1) 111 (fun _ => (1, 0)) false false false 0 0 0 false.
Definition example_new (sem : bool) : shm_env := mkShmEnv 5 (-1) None true true sem true 0.
Definition example_there (sem : bool) : shm_env := mkShmEnv (-1) 5 None true true sem true 0.

Definition example_load (io : conn_io) (e : shm_env) : load_io := mkLoad 1 7 io true (fun _ => true) true true e.

(** The daemon has restricted the account of "bob_wp". *)
Lemma example_worked : exists w, example_steps example_config = Some w
  /\ enforce_reachable (limit := true) (HO := default_order) example_sys 100 w /\ drained w
  /\ is_user_in_list (gv_bad (w_gov w)) "bob_wp" = Some 1
  /\ get_uid (H := default_order) (gv_map (w_gov w)) "bob_wp" = 500.
Proof.
  assert ((fun w => (working w, commands_of (command_list (gv_q (w_gov w))),
                     is_user_in_list (gv_bad (w_gov w)) "bob_wp", get_uid (H := default_order) (gv_map (w_gov w)) "bob_wp"))
          <$> example_steps example_config = Some (false, [], Some 1, 500)) as S by (vm_compute; reflexivity).
  destruct (example_steps example_config) as [w|] eqn:E; [|clear E; discriminate S]. injection S as S1 S2 S3 S4.
  exists w. split; [reflexivity|]. split; [|exact (conj (conj S1 S2) (conj S3 S4))].
  apply (steps_gets example_config steady_limit example_iv); [reflexivity|exact E].
Qed.

Definition example_user : string := "bob_wp".
Definition example_rest : string := "[bob_wp] @ localhost []".

(** MySQL as loading leaves it, with its connection made anew by the daemon. *)
Definition example_mysqld (mapped : bool) : mysqld :=
  mkMysqld (mkPlugin 2 (mkSock 7 1) true true 0 0 0 1) (mkFns true true true true true true) true mapped true.

(** A daemon comes up, restricts the account of "bob_wp" and has the plugin
    connect again, in a MySQL that was there before. *)
Lemma example_comes_up k k' q e m w : names_ok k -> env_fits k e -> e_wait_ok e = true ->
  names_after_init (example_there true) k = (k', q, 0) -> e = example_there true ->
  enforce_reachable (limit := true) (HO := default_order) example_sys 100 w ->
  (exists f, query_governor_enable_reconnect_lve 1 7 example_connects (my_plugin m) ∅
             = Some (my_plugin (example_mysqld (my_mapped m)), f)) ->
  my_fns m = my_fns (example_mysqld true) -> my_lve m = true ->
  exists k1, rtc (side_step (H := default_order) example_sys 100) (mkService k Down m)
               (mkService k1 (Serving true w) (example_mysqld (my_mapped m))).
Proof.
  intros Hk Hf Hw Ei -> Hr [f Er] Efn El.
  destruct (daemon_runs (H := default_order) example_sys 100 k k' q (example_there true) w m Hr Hk Hf Hw Ei) as [k1 Hrun].
  exists k1. eapply rtc_r; [exact Hrun|].
  assert (example_mysqld (my_mapped m) = set_plugin (my_plugin (example_mysqld (my_mapped m)))
            (nonzero (status (sock (my_plugin (example_mysqld (my_mapped m)))))) m) as E.
  { destruct m as [p fn lve mapped peer]. cbn in *. by subst. }
  rewrite E. by apply (sv_reconnect example_sys 100 k1 true w m 1 7 example_connects ∅ _ f).
Qed.

Lemma boot_order_disables_lve_witness :
  exists s w t', sv_daemon s = Serving true w /\ is_user_in_list (gv_bad (w_gov w)) example_user = Some 1
    /\ governor_get_command (my_plugin (sv_mysql s)) = 2 /\ my_peer (sv_mysql s) = true
    /\ query_begins (H := example_kernel) s (fun _ => WOk) example_report example_user example_rest example_session = Some t'
    /\ current (LveKernel := example_kernel) (w_kernel (se_world t')) = None.
Proof.
  destruct example_worked as (w & _ & R & _ & L & _).
  set (lo := example_load example_refused (example_new false)).
  assert (exists m, load_plugin lo (mkNames false None) = Some (mkNames false (Some clear_bad_users_list), m)
            /\ my_peer m = false /\ my_mapped m = false /\ my_fns m = my_fns (example_mysqld true) /\ my_lve m = true
            /\ my_plugin m = mkPlugin 0 (mkSock (-1) 0) true true 0 0 0 0) as (m & Em & M1 & M2 & M3 & M4 & M5)
    by (eexists; split; [reflexivity|]; by split_and!).
  destruct (example_comes_up (mkNames false (Some clear_bad_users_list)) (mkNames true (Some clear_bad_users_list))
              (snd (fst (names_after_init (example_there true) (mkNames false (Some clear_bad_users_list)))))
              (example_there true) m w) as [k1 Hrun]; try done.
  { intros l [= <-]. apply clear_inv. }
  { rewrite M5, M2. eexists. reflexivity. }
  set (s := mkService k1 (Serving true w) (example_mysqld (my_mapped m))) in *.
  destruct (boot_order_disables_lve (H := default_order) (LK := example_kernel) example_sys 100 boot s lo
              (mkNames false (Some clear_bad_users_list)) m (fun _ => WOk)
              example_report example_user example_rest example_session) as (t' & A & B);
    [reflexivity|reflexivity|by split|reflexivity|exact Em|by rewrite M1|exact Hrun| | |].
  - split; [split; [discriminate|by auto]|reflexivity|by intros _].
  - by split.
  - exists s, w, t'. exact (conj eq_refl (conj L (conj eq_refl (conj eq_refl (conj A B))))).
Defined.

(** The daemon is there before MySQL loads the plugin. *)
Lemma example_first w : enforce_reachable (limit := true) (HO := default_order) example_sys 100 w ->
  exists k1 m, rtc (service_step (H := default_order) example_sys 100) boot (mkService k1 (Serving true w) m)
    /\ my_plugin m = mkPlugin 2 (mkSock 7 1) true true 0 0 1 0 /\ my_fns m = my_fns (example_mysqld true)
    /\ my_mapped m = true /\ my_lve m = true /\ my_peer m = true.
Proof.
  intros R. destruct (enforce_started example_sys 100 w R) as (sock & opened & cfg & H1 & H2 & H3 & Hrun).
  set (k0 := mkNames true (Some clear_bad_users_list)). set (lo := example_load example_connects (example_there true)).
  assert (exists m, load_plugin lo k0 = Some (k0, m) /\ my_peer m = true
            /\ my_mapped m = true /\ my_fns m = my_fns (example_mysqld true) /\ my_lve m = true
            /\ my_plugin m = mkPlugin 0 (mkSock 7 1) true true 0 0 0 0) as (m & Em & M1 & M2 & M3 & M4 & M5)
    by (eexists; split; [reflexivity|]; by split_and!).
  set (m2 := set_plugin (query_governor_enable_lve (my_plugin m)) (my_peer m) m).
  destruct (work_run (H := default_order) example_sys 100 k0 true _ w m2 Hrun) as (k1 & Hk1). exists k1, m2.
  split; [|unfold m2; cbn; rewrite M5; by split_and!].
  eapply rtc_l; [apply sv_side, sv_start|].
  eapply rtc_l; [apply sv_side, (sv_init example_sys 100 (mkNames false None) k0
            (snd (fst (names_after_init (example_new true) (mkNames false None)))) 0 (example_new true) sock opened cfg)|];
    [by split|reflexivity|reflexivity|exact H1|exact H2|exact H3|].
  eapply rtc_l; [apply (sv_load example_sys 100 lo k0 k0 _ _ m); [by split|reflexivity|exact Em|done]|].
  eapply rtc_l; [apply sv_side, (sv_mode example_sys 100 k0 true true); done|]. by apply sides_run.
Qed.

