(* ===== verification/Edits.v ===== *)
(** The edits of [dbctl] and the running daemon: a command line, the document
    that it changes ([DbCtl], [DbCtlSet], [ConfigEdit]), the command that makes
    the daemon read it ([Daemon], [System]), and what the daemon then does with
    the accounts ([Enforce], [EndToEnd]). *)

From S2P Require Import Prelude CDouble CString GLib Data FifoStats TidTable ProcFs Server UserMap BadList Xml Config ConfigEdit Accounts LogDecoder Commands Restrict CalcStats DbCtlSet Listing DbCtlCfg DbCtl Daemon System Enforce EnforceWorld EndToEnd.
Open Scope string_scope.
Open Scope Z_scope.

(** * The daemon reads its configuration again *)

(** What a command finds when the document of the configuration is [root]. *)
Definition reads (liblve : bool) (script_stat : string -> option bool) (root : xmlNode)
    (cfg : governor_config) (map : option string) (clk : clock Z) : command_io :=
  mkCommandIo (reread_config liblve script_stat (fun _ => Some root) cfg) map clk.

Definition clock_ok (clk : clock Z) : Prop := forall n, 0 < clk n < 2 ^ 40.

Lemma steady_limits limit cfg m : steady limit cfg -> steady limit (set_account_limits cfg m).
Proof. intros [[] Hl Hm]. by split; [split| |]. Qed.

(** The daemon runs on what the reader made of a document: as a reread leaves
    it, or as [main] of [src/governor.c] leaves it at the start, when
    the work user of the database has been added to it. *)
Definition runs_on (cfg : governor_config) (w : world) : Prop :=
  w_cfg w = cfg \/ exists name, w_cfg w = config_add_work_user cfg name.

Lemma work_user_set cfg name : config_add_work_user cfg name = set_account_limits cfg
  (account_limits (config_add_work_user cfg name)).
Proof. destruct cfg, name as [u|]; [|done]. cbn. by destruct (negb _); [destruct (_ !! _)|]. Qed.

Lemma runs_on_steady limit cfg w : runs_on cfg w -> steady limit (w_cfg w) -> intervals_wf (c_intervals (w_cfg w)) ->
  steady limit cfg /\ intervals_wf (c_intervals cfg).
Proof.
  intros [->|[name ->]]; [done|]. rewrite work_user_set. destruct cfg. intros [[] Hl Hm] Hi. by split; [split; [split| |]|].
Qed.

Section reread.
Context {limit : bool} `{DI : !Discipline limit} `{HO : HashOrder} (sys : sysinfo) (clk_tck : Z).

(** The daemon goes on in the same state, with the new configuration. *)
Lemma reread_step ns io cfg w : enforce_reachable (limit := limit) sys clk_tck w -> fresh_descriptor ns ->
  clock_ok (cm_clock io) -> cm_config io = Ok cfg -> steady limit cfg -> intervals_wf (c_intervals cfg) ->
  exists w', world_command sys ns io (empty_command REREAD_CFG) w = Ok w'
    /\ enforce_reachable (limit := limit) sys clk_tck w' /\ w_cfg w' = cfg /\ w_gov w' = w_gov w.
Proof.
  intros Hr Hns Hclk Ec Hst Hiv.
  assert (exists w', world_command sys ns io (empty_command REREAD_CFG) w = Ok w' /\ w_cfg w' = cfg
            /\ w_gov w' = w_gov w) as (w' & E & E1 & E2).
  { unfold world_command, run_dbctl_command. cbn [d_command empty_command]. rewrite Ec. cbn [obind].
    eexists. split; [reflexivity|]. done. }
  exists w'. split; [done|]. split; [|done]. eapply er_step; [exact Hr|].
  eapply (en_command sys clk_tck ns io _ w w'); try done.
  - split; [unfold config_read; by rewrite Ec|discriminate].
  - discriminate.
  - rewrite Ec. by intros ? [= <-].
Qed.

(** A new version of the user elements is read. *)
Lemma reread_limits liblve script_stat ns root cfg m map clk w :
  enforce_reachable (limit := limit) sys clk_tck w -> runs_on cfg w -> fresh_descriptor ns -> clock_ok clk ->
  config_init liblve script_stat (Some root) = Ok (set_account_limits cfg m) ->
  exists w', world_command sys ns (reads liblve script_stat root (w_cfg w) map clk) (empty_command REREAD_CFG) w = Ok w'
    /\ enforce_reachable (limit := limit) sys clk_tck w' /\ w_cfg w' = set_account_limits cfg m
    /\ w_gov w' = w_gov w.
Proof.
  intros Hr Hon Hns Hclk Ec. destruct (enforce_reachable_ok sys clk_tck w Hr) as [[_ Hiv0 _] [Hst0 _]].
  destruct (runs_on_steady limit cfg w Hon Hst0 Hiv0) as [Hst Hiv].
  by apply reread_step; [| | |done|apply steady_limits|].
Qed.
End reread.

(** The first reread takes the work user out of the configuration again: the
    governor itself is from then on judged by the default limits. *)
Lemma reread_drops_work_user `{HashOrder} sys ns liblve script_stat root map clk cfg w w' u :
  config_init liblve script_stat (Some root) = Ok cfg -> account_limits cfg !! u = None -> u <> "" ->
  w_cfg w = config_add_work_user cfg (Some u) ->
  world_command sys ns (reads liblve script_stat root (w_cfg w) map clk) (empty_command REREAD_CFG) w = Ok w' ->
  mode (config_get_account_limit (w_cfg w) u) = IGNORE_MODE
  /\ mode (config_get_account_limit (w_cfg w') u) = RESTRICT_MODE.
Proof.
  intros Hc Hn Hu Hw. unfold world_command, run_dbctl_command, reads, reread_config.
  cbn [d_command empty_command cm_config]. rewrite Hc. cbn [obind]. intros [= <-]. split.
  - rewrite Hw. by apply (config_add_work_user_limits cfg u u Hu).
  - unfold w_cfg. cbn. unfold config_get_account_limit. rewrite Hn. by apply (default_restricts _ _ _ _ Hc).
Qed.

(** * The element of a user *)

(** The children of the document around the element that a search found. *)
Lemma element_at root user i c : SearchTagByName root "user" (Some user) = Some [i] ->
  node_at root [i] = Some c ->
  x_children root = (take i (x_children root) ++ c :: drop (S i) (x_children root))%list
  /\ (forall c', x_children (with_child root i c')
        = (take i (x_children root) ++ c' :: drop (S i) (x_children root))%list)
  /\ x_name c = "user" /\ name_of c user.
Proof.
  intros Es Hc. cbn in Hc. destruct (x_children root !! i) as [d|] eqn:Ed; [|done]. injection Hc as ->.
  split; [by rewrite take_drop_middle|]. split.
  - intros c'. cbn. rewrite insert_take_drop; [done|]. by apply lookup_lt_Some in Ed.
  - unfold SearchTagByName in Es. revert Es. assert (forall k l, (forall j, (j < length l)%nat -> l !! j = x_children root !! (k + j)%nat) ->
      search_tag k l "user" (Some user) = Some [i] -> x_name c = "user" /\ name_of c user) as G.
    { intros k l. revert k. induction l as [|d l IH]; intros k Hl; [done|]. cbn [search_tag].
      pose proof (Hl 0%nat ltac:(cbn; lia)) as H0. rewrite Nat.add_0_r in H0. cbn in H0.
      assert (forall j, (j < length l)%nat -> l !! j = x_children root !! (S k + j)%nat) as Hl'.
      { intros j Hj. specialize (Hl (S j) ltac:(cbn; lia)).
        replace (S k + j)%nat with (k + S j)%nat by lia. exact Hl. }
      destruct (String.eqb_spec (x_name d) "user") as [En|_]; [|by apply IH].
      assert (Some [k] = Some [i] -> d = c) as Hd by (intros [= ->]; congruence).
      unfold strcmp_eq, name_of.
      destruct (getElemAttr d "name") as [v|] eqn:E1; [destruct (String.eqb_spec v user) as [->|_]|].
      - intros E. rewrite <- (Hd E). auto.
      - destruct (getElemAttr d "mysql_name") as [v2|] eqn:E2; [|by apply IH].
        destruct (String.eqb_spec v2 user) as [->|_]; [|by apply IH]. intros E. rewrite <- (Hd E). auto.
      - destruct (getElemAttr d "mysql_name") as [v2|] eqn:E2; [|by apply IH].
        destruct (String.eqb_spec v2 user) as [->|_]; [|by apply IH]. intros E. rewrite <- (Hd E). auto. }
    by apply G.
Qed.

(** No later element gives the user other limits. *)
Definition last_of_name (root : xmlNode) (i : nat) (user : string) : Prop :=
  forall n, n ∈ drop (S i) (x_children root) -> x_name n = "user" -> ~ name_of n user.

(** The reader on a document with a new version of the element. *)
Lemma element_changed liblve script_stat root user i c c' f cfg :
  SearchTagByName root "user" (Some user) = Some [i] -> node_at root [i] = Some c ->
  last_of_name root i user -> no_sections c -> no_sections c' -> x_name c' = x_name c ->
  (forall dl u lim, user_cfg dl c = Ok (u, lim) -> user_cfg dl c' = Ok (u, f lim)) ->
  config_init liblve script_stat (Some root) = Ok cfg ->
  config_init liblve script_stat (Some (with_child root i c'))
  = Ok (set_account_limits cfg (<[user := f (config_get_account_limit cfg user)]> (account_limits cfg))).
Proof.
  intros Es Hc Hlast Hn Hn' Hname Hf Hcfg. destruct (element_at root user i c Es Hc) as (E & E' & Hu & Hnm).
  by destruct (config_replace liblve script_stat root (with_child root i c') _ c c' _ user f cfg E (E' c') Hu)
    as [? _]; rewrite ?Hname; try done; eauto.
Qed.

Lemma with_options_mode cpu read write st : mode (with_options cpu read write st) = mode st.
Proof.
  unfold with_options, with_amounts, with_limit. destruct cpu, read, write; reflexivity.
Qed.

(** ** The limits after an edit *)

(** The daemon, once it has read the edited document, goes on with the limits
    [lim] for the user and those of [cfg], the document before the edit, for
    everybody else, and from then on judges its accounts by them. *)
Definition goes_on_with `{HashOrder} (sys : sysinfo) (clk_tck : Z) (cfg : governor_config) (user : string)
    (lim : Stats_cfg) (w w' : world) : Prop :=
  enforce_reachable (limit := true) sys clk_tck w' /\ w_gov w' = w_gov w
  /\ (forall a, config_get_account_limit (w_cfg w') a
               = if String.eqb a user then lim else config_get_account_limit cfg a)
  /\ forall sio w1 ac, full_second sys clk_tck sio w' w1 -> accounts (gv_acc (w_gov w1)) !! user = Some ac ->
       mode lim <> IGNORE_MODE -> first_over ac lim <> None -> ac_restricted ac = 1000.

Lemma judged_by `{HashOrder} sys clk_tck liblve script_stat root cfg user lim ns map clk w :
  enforce_reachable (limit := true) sys clk_tck w -> runs_on cfg w -> fresh_descriptor ns -> clock_ok clk ->
  config_init liblve script_stat (Some root)
  = Ok (set_account_limits cfg (<[user := lim]> (account_limits cfg))) ->
  exists w', world_command sys ns (reads liblve script_stat root (w_cfg w) map clk) (empty_command REREAD_CFG) w = Ok w'
    /\ config_init liblve script_stat (Some root) = Ok (w_cfg w') /\ goes_on_with sys clk_tck cfg user lim w w'.
Proof.
  intros Hr Hon Hns Hclk Ec.
  destruct (reread_limits sys clk_tck liblve script_stat ns root cfg _ map clk w Hr Hon Hns Hclk Ec) as (w' & E & Hr' & Ecfg & Eg).
  exists w'. split; [done|]. split; [by rewrite Ecfg|]. split; [done|]. split; [done|].
  assert (forall a, config_get_account_limit (w_cfg w') a
            = if String.eqb a user then lim else config_get_account_limit cfg a) as Hl
    by (intros a; rewrite Ecfg; apply limit_inserted).
  split; [done|]. intros sio w1 ac Hs Ha Hm Ho.
  destruct (second_restricts sys clk_tck sio w' w1 Hr' Hs) as (_ & _ & _ & _ & Hover).
  specialize (Hover user ac Ha) as [Hid Hover]. apply Hover; [by rewrite Hl, String.eqb_refl|].
  unfold exceeds. rewrite Hid, Hl, String.eqb_refl. by destruct (first_over ac lim).
Qed.

(** ** An account that is ignored *)

Section ignored.
Context {limit : bool} `{DI : !Discipline limit} `{HO : HashOrder} (sys : sysinfo) (clk_tck : Z).

Lemma analysis_ignored cfg clk r : mode (config_get_account_limit cfg (ac_id (r_ac r))) = IGNORE_MODE ->
  analysis limit cfg sys clk r = r.
Proof.
  intros Hm. unfold analysis. destruct limit; unfold account_analyze_limit, account_analyze; rewrite Hm;
    by destruct (_ || _).
Qed.

Lemma same_state_trans ac1 ac2 ac3 : same_state ac1 ac2 -> same_state ac2 ac3 -> same_state ac1 ac3.
Proof. intros (A & B & C) (D & E & F). unfold same_state. by rewrite D, E, F. Qed.

Lemma analysed_ignored cfg s s' a : all_analysed (limit := limit) cfg sys s s' ->
  (forall ac, accounts s' !! a = Some ac -> ac_id ac = a) ->
  mode (config_get_account_limit cfg a) = IGNORE_MODE -> same_state (account_in s a) (account_in s' a).
Proof.
  intros [Hdom Han] Hid Hm. unfold account_in at 2. destruct (accounts s' !! a) as [ac'|] eqn:Ha'.
  - destruct (Han a ac' Ha') as (clk & r & b & _ & _ & Hs & ->). cbn [default from_option id].
    pose proof (analysis_users limit cfg sys clk r) as [Hi _]. rewrite analysis_ignored; [done|].
    by rewrite <- Hi, Hid.
  - assert (accounts s !! a = None) as Ha.
    { apply not_elem_of_dom. intros Hin. apply Hdom, elem_of_dom in Hin as [? ?]. congruence. }
    unfold account_in. rewrite Ha. done.
Qed.

(** No step of the daemon itself changes the state of such an account. *)
Lemma own_step_ignored w w' a : enforce_reachable (limit := limit) sys clk_tck w -> own_step sys clk_tck w w' ->
  mode (config_get_account_limit (w_cfg w) a) = IGNORE_MODE ->
  w_cfg w' = w_cfg w /\ same_state (account_in (gv_acc (w_gov w)) a) (account_in (gv_acc (w_gov w')) a).
Proof.
  intros Hr Hs Hm. pose proof (er_step sys clk_tck w w' Hr (en_own sys clk_tck w w' Hs)) as Hr'.
  destruct (enforce_reachable_ok sys clk_tck w Hr) as [Hw Hf].
  destruct (enforce_reachable_ok sys clk_tck w' Hr') as [Hw' _]. revert Hr Hr' Hw Hf Hw' Hm.
  destruct Hs as [io w w' Ha E|io w w' Ht Hc E Hrm Hset|w w' Hwk E|last c c' curr curr' w w' Hi E Hrm];
    intros _ _ Hw Hf Hw' Hm.
  - revert E. unfold world_round. destruct (server_round io (server_of w)); [|done].
    cbn [mbind option_bind]. by intros [= <-].
  - destruct (second_follows sys clk_tck io w w' Hw Hf Ht Hc E Hrm Hset) as (_ & _ & Ec & _ & Han & Hno).
    split; [done|]. destruct (dleb d1 (dsub (tm_of (so_cur io)) (if deqb (w_old_tm w) d0 then tm_of (so_cur io)
      else w_old_tm w))) eqn:Ed.
    + apply (analysed_ignored (w_cfg w)); [by apply Han| |done].
      intros ac Ha. by apply (wf_account_key _ (go_wf _ (wo_gov _ Hw'))).
    + rewrite Hno; [done|]. unfold elapsed. by rewrite Ed.
  - destruct (worker_follows w w' Hf Hwk E) as (_ & _ & _ & Ea & Ec). by rewrite Ea.
  - revert E. unfold world_map. destruct (parse_map_round _ _ _ _ _ _) as [[t g']|] eqn:E; [|done].
    cbn [mbind option_bind]. intros [= _ <-]. split; [done|]. cbn [put_gov w_gov w_dm with_gov dm_gov].
    destruct Hw as [Hg Hiv _]. destruct Hf as [Hst (l & sent & pend & He)].
    destruct (Z.ltb_spec curr last) as [Hlt|Hge].
    + destruct (renewal (w_cfg w) last c c' curr t (w_gov w) g' ltac:(rewrite (ef_bad _ _ _ _ He); by eexists)
                  Hiv Hg (proj1 (proj2 (lve_tests _ (st_lve _ _ Hst)))) E Hlt) as ((_ & Hdom & Hgr) & _).
      unfold account_in at 2. destruct (accounts (gv_acc g') !! a) as [ac'|] eqn:Ha; [by apply Hgr|].
      assert (accounts (gv_acc (w_gov w)) !! a = None) as Ha0.
      { apply not_elem_of_dom. intros Hin. apply Hdom, elem_of_dom in Hin as [? ?]. congruence. }
      unfold account_in. by rewrite Ha0.
    + revert E. unfold parse_map_round. destruct (Z.ltb_spec curr last); [lia|]. by intros [= _ <-].
Qed.

Lemma own_steps_ignored w w' a : enforce_reachable (limit := limit) sys clk_tck w ->
  rtc (own_step sys clk_tck) w w' -> mode (config_get_account_limit (w_cfg w) a) = IGNORE_MODE ->
  enforce_reachable (limit := limit) sys clk_tck w'
  /\ same_state (account_in (gv_acc (w_gov w)) a) (account_in (gv_acc (w_gov w')) a).
Proof.
  intros Hr Hs. revert Hr. induction Hs as [w|w w1 w' Hs1 _ IH]; intros Hr Hm; [done|].
  destruct (own_step_ignored w w1 a Hr Hs1 Hm) as [Ec H1].
  destruct IH as [Hr' H2]; [eapply er_step; [exact Hr|by apply en_own]|by rewrite Ec|].
  split; [done|]. by eapply same_state_trans.
Qed.
End ignored.

(** ** The release of an account *)

(** [dbctl unrestrict] on a daemon in the limit mode: the account of this name
    is free. *)
Lemma unrestrict_step `{HashOrder} sys clk_tck ns io w u : enforce_reachable (limit := true) sys clk_tck w ->
  fresh_descriptor ns -> clock_ok (cm_clock io) ->
  (forall cfg, cm_config io = Ok cfg -> steady true cfg) -> config_read (cm_config io) ->
  strlen u < USERNAMEMAXLEN - 1 ->
  exists w', world_command sys ns io (user_command UNRESTRICT u 0) w = Ok w'
    /\ enforce_reachable (limit := true) sys clk_tck w' /\ w_cfg w' = w_cfg w
    /\ ac_restricted (account_in (gv_acc (w_gov w')) u) = 0.
Proof.
  intros Hr Hns Hclk Hcfg Hrd Hu. destruct (enforce_reachable_ok sys clk_tck w Hr) as [Hw [Hst _]].
  destruct (lve_tests _ (st_lve _ _ Hst)) as (T1 & T2 & T3).
  set (command := user_command UNRESTRICT u 0).
  assert (o_username (d_options command) = u) as Eu by (cbn; apply prefix_n_all; lia).
  set (g' := unrestrict_command (w_cfg w) sys command (cm_clock io) (w_gov w)).
  assert (exists w', world_command sys ns io command w = Ok w' /\ w_cfg w' = w_cfg w /\ w_gov w' = g')
    as (w' & E & E1 & E2).
  { unfold world_command, run_dbctl_command. cbn [d_command command user_command set_open dm_cfg].
    fold (w_cfg w). assert (no_single (w_cfg w) = false) as -> by (unfold no_single; by rewrite T2, T3).
    rewrite T1. eexists. split; [reflexivity|]. done. }
  exists w'. split; [done|]. split.
  { eapply er_step; [exact Hr|]. apply (en_command sys clk_tck ns io command w w'); done. }
  split; [done|]. rewrite E2. unfold account_in.
  pose proof (foreach_account_spec (dbctl_unrestrict_set (w_cfg w) sys (o_username (d_options command)))
                (cm_clock io) (w_gov w)) as (_ & _ & _ & _ & _ & _ & Hsp).
  change (foreach_account _ _ _) with g' in Hsp. rewrite Eu in Hsp. specialize (Hsp u).
  destruct (accounts (gv_acc (w_gov w)) !! u) as [ac|] eqn:Ha; [|by rewrite Hsp].
  destruct Hsp as (n & c & q & ->). rewrite unrestrict_set_effect. cbn [r_ac default from_option id].
  rewrite (wf_account_key _ (go_wf _ (wo_gov _ Hw)) u ac Ha), String.eqb_refl. done.
Qed.

Lemma ignore_line u : is_word u = false -> u <> "default" ->
  dbctl ["ignore"; u] = Ok (Some (Ignore_user u), []).
Proof.
  intros Hu Hd. apply String.eqb_neq in Hd. rewrite String.eqb_sym in Hd. unfold dbctl, GetCmd.
  assert (valid_comm ["ignore"; u] = (true, [])) as ->
    by (unfold valid_comm, strcmp_eq; rewrite Hu, Hd; reflexivity).
  reflexivity.
Qed.

Lemma is_default_false u : u <> "default" -> strlen u < USERNAMEMAXLEN - 1 -> is_default u = false.
Proof.
  intros Hd Hl. unfold is_default. rewrite strncmp_eq_short by (done || lia). by apply String.eqb_neq.
Qed.

(** * Properties *)

(** [dbctl set] with a user that has an element. *)
Lemma set_reaches `{HashOrder, LibXml, GListSort} (sys : sysinfo) (clk_tck : Z) (liblve : bool)
    (script_stat : string -> option bool) (e : dbctl_env) (root c : xmlNode) (user : string) (i : nat)
    (cpu read write : option amounts) (l : list typed) (w : world) (ns : gset Z -> Z) (map : option string)
    (clk : clock Z) (cfg : governor_config) :
  set_line user cpu read write l -> e_cfg e = Some root -> e_sock e = true ->
  SearchTagByName root "user" (Some user) = Some [i] -> node_at root [i] = Some c -> plain c ->
  last_of_name root i user ->
  enforce_reachable (limit := true) sys clk_tck w ->
  config_init liblve script_stat (Some root) = Ok cfg -> runs_on cfg w -> fresh_descriptor ns -> clock_ok clk ->
  exists cl root' command w',
    dbctl ("set" :: user :: concat (type <$> l)) = Ok (Some cl, [])
    /\ perform e cl = Ok (mkEdit 1 (Some root') [command] [])
    /\ world_command sys ns (reads liblve script_stat root' (w_cfg w) map clk) command w = Ok w'
    /\ config_init liblve script_stat (Some root') = Ok (w_cfg w')
    /\ goes_on_with sys clk_tck cfg user
         (with_options cpu read write (config_get_account_limit cfg user)) w w'.
Proof.
  intros Hl Ee Hs Es Hc Hp Hlast Hr Hcfg Hon Hns Hclk.
  destruct (setUser_changes_limits (e_sock e) root c user i cpu read write Es Hc Hp (sl_options _ _ _ _ _ Hl))
    as (c' & E & Hnm & Hp' & Hf). rewrite Hs in E.
  destruct (element_at root user i c Es Hc) as (_ & _ & Hu & _).
  pose proof (element_changed liblve script_stat root user i c c' (with_options cpu read write) cfg Es Hc Hlast
                (plain_no_sections c Hu Hp) (plain_no_sections c' (eq_trans Hnm Hu) Hp') Hnm Hf Hcfg) as Ec.
  destruct (judged_by sys clk_tck liblve script_stat _ cfg user _ ns map clk w Hr Hon Hns Hclk Ec) as (w' & Ew & Ei & Hgo).
  eexists _, (with_child root i c'), _, w'. split; [by apply set_line_call|]. split; [|by split_and!].
  unfold perform. rewrite Ee, Hs, E. reflexivity.
Qed.

(** [dbctl set] with a user that has none. *)
Lemma set_new_user_reaches `{HashOrder, LibXml, GListSort} (sys : sysinfo) (clk_tck : Z) (liblve : bool)
    (script_stat : string -> option bool) (e : dbctl_env) (root : xmlNode) (user : string)
    (cpu read write : option amounts) (l : list typed) (w : world) (ns : gset Z -> Z) (map : option string)
    (clk : clock Z) (cfg : governor_config) :
  set_line user cpu read write l -> e_cfg e = Some root -> e_sock e = true ->
  SearchTagByName root "user" (Some user) = None ->
  FindElementWithNameAndAttr root None "user" "name" user = None ->
  enforce_reachable (limit := true) sys clk_tck w ->
  config_init liblve script_stat (Some root) = Ok cfg -> runs_on cfg w -> fresh_descriptor ns -> clock_ok clk ->
  exists cl root' command w',
    dbctl ("set" :: user :: concat (type <$> l)) = Ok (Some cl, [])
    /\ perform e cl = Ok (mkEdit 1 (Some root') [command] [])
    /\ world_command sys ns (reads liblve script_stat root' (w_cfg w) map clk) command w = Ok w'
    /\ config_init liblve script_stat (Some root') = Ok (w_cfg w')
    /\ goes_on_with sys clk_tck cfg user
         (with_options cpu read write (set_mode (default_limit cfg) true RESTRICT_MODE)) w w'.
Proof.
  intros Hl Ee Hs Es Ef Hr Hcfg Hon Hns Hclk.
  destruct (setUser_adds_user (e_sock e) root user cpu read write Es Ef (sl_options _ _ _ _ _ Hl))
    as (root' & n & E & En & Hn & Hp & Hu). rewrite Hs in E.
  pose proof (config_append liblve script_stat root root' n user _ cfg En Hn (plain_no_sections n Hn Hp)
                (Hu (default_limit cfg)) Hcfg) as Ec.
  destruct (judged_by sys clk_tck liblve script_stat _ cfg user _ ns map clk w Hr Hon Hns Hclk Ec) as (w' & Ew & Ei & Hgo).
  eexists _, root', _, w'. split; [by apply set_line_call|]. split; [|by split_and!].
  unfold perform. rewrite Ee, Hs, E. reflexivity.
Qed.

(** [dbctl ignore] sends two commands. *)
Lemma ignore_reaches `{HashOrder, LibXml, GListSort} (sys : sysinfo) (clk_tck : Z) (liblve : bool)
    (script_stat : string -> option bool) (e : dbctl_env) (root c : xmlNode) (user : string) (i : nat)
    (w : world) (ns : gset Z -> Z) (map : option string) (clk : clock Z) (cfg : governor_config) :
  is_word user = false -> user <> "default" -> strlen user < USERNAMEMAXLEN - 1 ->
  e_cfg e = Some root -> e_sock e = true ->
  SearchTagByName root "user" (Some user) = Some [i] -> node_at root [i] = Some c -> no_sections c ->
  last_of_name root i user ->
  enforce_reachable (limit := true) sys clk_tck w ->
  config_init liblve script_stat (Some root) = Ok cfg -> runs_on cfg w -> fresh_descriptor ns -> clock_ok clk ->
  exists cl root' c1 c2 w1 w2,
    dbctl ["ignore"; user] = Ok (Some cl, [])
    /\ perform e cl = Ok (mkEdit 1 (Some root') [c1; c2] [])
    /\ world_command sys ns (reads liblve script_stat root (w_cfg w) map clk) c1 w = Ok w1
    /\ world_command sys ns (reads liblve script_stat root' (w_cfg w1) map clk) c2 w1 = Ok w2
    /\ config_init liblve script_stat (Some root') = Ok (w_cfg w2)
    /\ (forall a, config_get_account_limit (w_cfg w2) a
                 = let lim := config_get_account_limit cfg a in
                   if String.eqb a user then set_mode lim (account_flag lim) IGNORE_MODE else lim)
    /\ forall w3, rtc (own_step sys clk_tck) w2 w3 ->
         forall ac, accounts (gv_acc (w_gov w3)) !! user = Some ac -> ac_restricted ac = 0
           /\ (drained w3 -> forall u, u ∈ ac_users ac -> is_user_in_list (gv_bad (w_gov w3)) u = Some 0).
Proof.
  intros Hu Hd Hlen Ee Hs Es Hc Hn Hlast Hr Hcfg Hon Hns Hclk.
  pose proof (is_default_false user Hd Hlen) as Hdef.
  destruct (user_modes (e_sock e) root c user i Hdef Es Hc) as (c' & watched & Hnm & _ & Hch & _ & E & _ & Hm).
  rewrite Hs in E. unfold unrestrict, reread_cfg_cmd in E. rewrite Hdef in E.
  destruct (enforce_reachable_ok sys clk_tck w Hr) as [[_ Hiv _] [Hst _]].
  destruct (runs_on_steady true cfg w Hon Hst Hiv) as [Hst' Hiv'].
  destruct (unrestrict_step sys clk_tck ns (reads liblve script_stat root (w_cfg w) map clk) w user Hr Hns Hclk)
    as (w1 & E1 & Hr1 & Ec1 & Hfree); [| |done|].
  { unfold reads, reread_config. cbn [cm_config]. rewrite Hcfg. by intros cfg' [= <-]. }
  { unfold reads, reread_config. cbn [cm_config]. by rewrite Hcfg. }
  assert (no_sections c') as Hn'.
  { intros t Ht. rewrite Hnm, (find_name_same t c' c) by done. by apply Hn. }
  pose proof (element_changed liblve script_stat root user i c c'
                (fun lim => set_mode lim (account_flag lim) IGNORE_MODE) cfg Es Hc Hlast Hn Hn' Hnm
                (fun dl u lim Eu => proj1 (Hm dl u lim Eu)) Hcfg) as Ec.
  assert (runs_on cfg w1) as Hon1 by (unfold runs_on; by rewrite Ec1).
  destruct (judged_by sys clk_tck liblve script_stat _ cfg user _ ns map clk w1 Hr1 Hon1 Hns Hclk Ec)
    as (w2 & E2 & Ei & Hr2 & Eg & Hl & _).
  eexists _, _, _, _, w1, w2. split; [by apply ignore_line|]. split; [unfold perform; rewrite Ee, Hs, E; reflexivity|].
  split; [exact E1|]. split; [exact E2|]. split; [exact Ei|]. split.
  { intros a. rewrite Hl. cbv zeta. by destruct (String.eqb_spec a user) as [->|]. }
  intros w3 Hsteps ac Ha. destruct (own_steps_ignored sys clk_tck w2 w3 user Hr2 Hsteps) as [Hr3 (Hs3 & _)].
  { by rewrite Hl, String.eqb_refl. }
  rewrite Eg in Hs3. unfold account_in at 1 in Hs3. rewrite Ha in Hs3. cbn [default from_option id] in Hs3.
  rewrite Hs3, Hfree. split; [done|]. intros Hdr u Hin.
  destruct (drained_list sys clk_tck w3 Hr3 Hdr) as (l & Hb & Hi & _ & _ & Hacc).
  destruct (Hacc user ac Ha) as (b & [_ Hb'] & Hlu). destruct (Hlu u Hin) as [Hlen' El].
  rewrite Hb, listed_in_list, El by done. by destruct Hb' as [(_ & _ & _ & ->)|(? & _)]; [|lia].
Qed.

(** C40: An account that is restricted in the limit mode while the configuration ignores it
    stays restricted whatever the daemon does of itself in regular work: no second, no round of
    the server and no worker releases it, and once the queue has been worked off its users stand
    on the shared list. Regular work has no renewal of the map here, since one account is
    restricted; a renewal would empty the list and leave the account as it is. An account gets
    into this state when the configuration begins to ignore it while it is restricted, so when a
    period ends between the two commands of dbctl ignore. Regular work means: the list was
    mapped when the daemon started; every configuration it reads has an LVE for each user
    switched on, the same mode of restriction, usable intervals and positive timeouts; the map
    is renewed only while no account is restricted (a renewal at another time undoes the
    enforcement), no restricted account gains a user, the users known fit the list; RESTRICT
    names a known user; commands of the administrator come between two seconds, not while the
    queue is copied; new descriptors are fresh, the clock is later than a penalty period after
    the epoch and below 2^40, the ticks are below 2^63. *)
Theorem ignored_stays_restricted `{HashOrder} (sys : sysinfo) (clk_tck : Z) (w w' : world) (a : string)
    (ac : Account) :
  enforce_reachable (limit := true) sys clk_tck w -> accounts (gv_acc (w_gov w)) !! a = Some ac ->
  ac_restricted ac <> 0 -> mode (config_get_account_limit (w_cfg w) a) = IGNORE_MODE ->
  rtc (own_step sys clk_tck) w w' -> forall ac', accounts (gv_acc (w_gov w')) !! a = Some ac' ->
  ac_restricted ac' <> 0
  /\ (drained w' -> forall u, u ∈ ac_users ac' -> is_user_in_list (gv_bad (w_gov w')) u = Some 1).
Proof.
  intros Hr Ha Hrs Hm Hsteps ac' Ha'.
  destruct (own_steps_ignored sys clk_tck w w' a Hr Hsteps Hm) as [Hr' (Hs & _)].
  unfold account_in in Hs. rewrite Ha, Ha' in Hs. cbn [default from_option id] in Hs. rewrite Hs. split; [done|].
  intros Hdr u Hin. destruct (drained_list sys clk_tck w' Hr' Hdr) as (l & Hb & Hi & _ & _ & Hacc).
  destruct (Hacc a ac' Ha') as (b & [_ Hb'] & Hlu). destruct (Hlu u Hin) as [Hlen' El].
  rewrite Hb, listed_in_list, El by done. by destruct Hb' as [(? & _)|(_ & _ & _ & ->)]; [congruence|].
Qed.

(** ** Witnesses *)

(** A daemon that runs on [example_root], which ignores "bob". *)
Definition example_ran : governor_config :=
  Eval vm_compute in match config_init true (fun _ => None) (Some example_root) with
                     | Ok cfg => cfg | _ => example_config
                     end.

Lemma example_ran_init : config_init true (fun _ => None) (Some example_root) = Ok example_ran.
Proof. vm_compute. reflexivity. Qed.

Lemma steady_ran : steady true example_ran.
Proof. split; [split; unfold pos_int; cbn; lia|by split_and!|done]. Qed.

(** As it starts: with "governor", the work user, who has no element. *)
Definition example_started : world :=
  start_world 3 {[3]} (config_add_work_user example_ran (Some "governor")) (Some clear_bad_users_list).

Lemma example_started_ok : enforce_reachable (limit := true) (HO := default_order) example_sys 100 example_started.
Proof.
  apply er_start; [set_solver..| |].
  - rewrite work_user_set. unfold intervals_wf. cbn. lia.
  - rewrite work_user_set. apply steady_limits, steady_ran.
Qed.

Lemma example_runs_on : runs_on example_ran example_started.
Proof. right. by exists (Some "governor"). Qed.

Definition example_bob : xmlNode :=
  XNode "user" [("name", "bob"); ("mode", "ignore")] [XNode "limit" [("name", "cpu"); ("current", "400")] []].

Lemma example_bob_plain : plain example_bob.
Proof.
  split; (apply list.Forall_singleton).
  - intros _. eexists. reflexivity.
  - split; [reflexivity|]. by apply no_sections_limit.
Qed.

Lemma example_last : last_of_name example_root 6 "bob".
Proof. intros n Hn. cbn in Hn. by apply elem_of_nil in Hn. Qed.

Lemma example_clock_ok : clock_ok (clk_const example_now).
Proof. intros n. unfold clk_const, example_now. lia. Qed.

(** "bob" is ignored and was restricted by a command; a second passes and the
    worker runs. *)
Lemma ignored_stays_restricted_witness :
  match example_steps example_ran with
  | Some w' => is_user_in_list (gv_bad (w_gov w')) "bob_wp" = Some 1
  | None => False
  end.
Proof.
  destruct (example_before example_ran) as [w|] eqn:E0; [|vm_compute in E0; discriminate E0].
  assert (gets_to (limit := true) example_ran w) as [R Ew].
  { apply (before_gets example_ran steady_ran); [unfold intervals_wf; cbn; lia|reflexivity|exact E0]. }
  assert (mode (config_get_account_limit example_ran "bob") = IGNORE_MODE) as Hm by reflexivity.
  assert ((fun w => (fun ac => ac_restricted ac) <$> accounts (gv_acc (w_gov w)) !! "bob") <$> example_before example_ran
          = Some (Some 1000)) as S0 by (vm_compute; reflexivity).
  assert (seen <$> example_steps example_ran = Some (Some (false, [None], ["bob_wp"], (1000, 60)))) as S
    by (vm_compute; reflexivity).
  unfold example_steps in S |- *. rewrite E0 in S |- *. rewrite E0 in S0. cbn [mbind option_bind fmap option_fmap option_map] in S, S0 |- *.
  destruct (try_second 3 w) as [w1|] eqn:E1; [|discriminate S]. cbn [mbind option_bind] in S |- *.
  destruct (try_worker w1) as [w2|] eqn:E2; [|discriminate S]. injection S as S.
  destruct (seen_drained w2 _ _ _ S) as (Hd & ac' & Ha' & Eu & _ & _).
  destruct (accounts (gv_acc (w_gov w)) !! "bob") as [ac|] eqn:Ha; [|discriminate S0]. injection S0 as S0.
  destruct (ignored_stays_restricted (H := default_order) example_sys 100 w w2 "bob" ac R Ha) with (ac' := ac') as [_ G].
  - rewrite S0. discriminate.
  - rewrite Ew. exact Hm.
  - eapply rtc_l; [apply (second_own example_ran eq_refl 3 w w1 Ew E1)|].
    eapply rtc_l; [exact (worker_own w1 w2 E2)|apply rtc_refl].
  - exact Ha'.
  - apply (G Hd "bob_wp"). rewrite Eu. by left.
Defined.
