(* ===== verification/EditsDisk.v ===== *)
(** The edits of [dbctl] from the command line to the disk, from there to the
    running daemon and to the duplicate that ordinary users see: [ConfigFile]
    joined with [Edits]. *)

From S2P Require Import Prelude CDouble CString GLib Data FifoStats TidTable ProcFs Server UserMap BadList Xml XmlFile Config ConfigEdit Accounts LogDecoder Commands Restrict CalcStats DbCtlSet Listing DbCtlCfg DbCtl XmlText ConfigFile Daemon System Enforce EnforceWorld EndToEnd Edits.
Open Scope string_scope.
Open Scope Z_scope.

Section disk.
Context `{XmlFiles}.

(** What a command finds when the daemon can read the disk and write to it. *)
Definition reads_disk (liblve : bool) (script_stat : string -> option bool) (d : disk)
    (map : option string) (clk : clock Z) : command_io :=
  mkCommandIo (r <-- config_init_file liblve script_stat Written CONFIG_PATH d;; Ok (fst (fst r))) map clk.

(** The document is read from a file in which [root] was saved, or is the one
    that was there. *)
Lemma reads_disk_eq liblve script_stat d root root' cfg old map clk : read_doc d CONFIG_PATH = Some root' ->
  elements root' = elements root -> config_init liblve script_stat (Some root) = Ok cfg ->
  reads_disk liblve script_stat d map clk = reads liblve script_stat root old map clk.
Proof.
  intros Er Ee Ec. unfold reads_disk, reads, reread_config.
  assert (config_init liblve script_stat (Some root') = Ok cfg) as Ec' by (by rewrite (config_same_elements _ _ root' root Ee)).
  destruct (config_init_written liblve script_stat d root' cfg Er Ec') as (dup & -> & _). cbn [obind fst]. by rewrite Ec.
Qed.

Lemma seen_readable d path : visible true d path = read_doc d path.
Proof. unfold visible. by destruct (String.eqb path CONFIG_PATH). Qed.

(** The administrator, who may read and write the configuration, and a daemon
    that runs. *)
Record administrator (io : tool_io) (d : disk) (root : xmlNode) (args : list string) : Prop := {
  ad_sock : t_sock io = true; ad_readable : t_readable io = true; ad_save : t_save io = Written;
  ad_doc : read_doc d CONFIG_PATH = Some root; ad_args : Forall (fun a => xml_text a = true) args
}.

Lemma administrator_env io d root args : administrator io d root args ->
  e_cfg (env_of io d) = Some root /\ e_sock (env_of io d) = true.
Proof. intros [Hs Hr _ Hd _]. unfold env_of. cbn [e_cfg e_sock]. by rewrite Hr, seen_readable. Qed.

(** The edited document on the disk. *)
Lemma edit_saved `{GListSort} io d root args cl r root' : administrator io d root args ->
  dbctl args = Ok (Some cl, []) -> perform (env_of io d) cl = Ok r -> er_saved r = Some root' ->
  exists d1 root2, dbctl_on_disk io args d = Ok (r, d1, []) /\ read_doc d1 CONFIG_PATH = Some root2
    /\ elements root2 = elements root'.
Proof.
  intros Ha Ed Ep Es.
  assert (dbctl_on_disk io args d = Ok (r, <[CONFIG_PATH := xmlSaveFormatFile root']> d, [])) as E.
  { unfold dbctl_on_disk. rewrite Ed. cbn [obind fst snd]. rewrite Ep. cbn [obind]. rewrite Es.
    unfold rewrite_cfg, saveXML. by rewrite (ad_save _ _ _ _ Ha). }
  destruct (read_doc_saved d CONFIG_PATH root') as (root2 & Er & Ee);
    [by apply (edit_document _ _ _ _ _ _ _ (ad_args _ _ _ _ Ha) E)|].
  eexists _, root2. split; [exact E|]. by split.
Qed.

(** What everybody sees when the daemon has read the document in whose file
    [root] was saved: the elements of [root] are still there, and the listing
    from the duplicate is the listing from the document. *)
Definition everyone_sees `{GListSort} (liblve : bool) (script_stat : string -> option bool) (cfg : governor_config)
    (root : xmlNode) (d : disk) : Prop :=
  exists d' root', config_init_file liblve script_stat Written CONFIG_PATH d = Ok (cfg, d', [])
    /\ read_doc d' CONFIG_PATH = Some root' /\ elements root' = elements root
    /\ forall stack inp flag, list_on_disk false stack inp flag d' = list_on_disk true stack inp flag d'.

Lemma everyone_sees_doc `{GListSort} liblve script_stat cfg root root' d : read_doc d CONFIG_PATH = Some root' ->
  elements root' = elements root ->
  config_init liblve script_stat (Some root) = Ok cfg -> everyone_sees liblve script_stat cfg root d.
Proof.
  intros Er Ee Ec. assert (config_init liblve script_stat (Some root') = Ok cfg) as Ec'
    by (by rewrite (config_same_elements _ _ root' root Ee)).
  destruct (config_init_written liblve script_stat d root' cfg Er Ec') as (dup & E & Hd & Hal & _).
  destruct (read_doc_saved d DUPLICATE_CONFIG_PATH dup Hd) as (dup' & E2 & Ed).
  eexists _, root'. split; [exact E|]. split; [by rewrite read_doc_other|]. split; [done|].
  intros stack inp flag. unfold list_on_disk.
  symmetry. apply (print_list_alike _ _ _ _ _ _ _ root' dup dup'); [|done..].
  by rewrite seen_readable, read_doc_other.
Qed.
End disk.

(** * Properties *)

(** C18: From the command line to the account that is restricted: dbctl set with a user that
    has an element and with options for cpu, read and write in any order, written with two
    dashes or one, with or without an equal sign, changes the document on the disk and sends one
    command; the daemon in regular work in the limit mode takes it, reads the disk and goes on
    in regular work and in its state; its limits are then for this user those that the document
    gave before with exactly the amounts typed, in bytes, and for everybody else those that the
    document gave, so the entry that the start of the daemon added for its work user is gone;
    and the next period of regular work restricts the account when it is over the new limits and
    not ignored. The duplicate that the daemon then saves shows ordinary users the same listing
    as the document. Conditions: the administrator can read and write the configuration and its
    duplicate and reaches the daemon; the daemon runs on what the document gives, as after a
    reread, or as after a start with the work user added; the user is no command word, not
    default, and no option; the words are printable; each option gives all four amounts, whole
    numbers whose value in bytes is below 2^53; no later element has the name; the limits of the
    element have names and are not nested, and no section lies within it. Regular work means:
    the list was mapped when the daemon started; every configuration it reads has an LVE for
    each user switched on, the same mode of restriction, usable intervals and positive timeouts;
    the map is renewed only while no account is restricted (a renewal at another time undoes the
    enforcement), no restricted account gains a user, the users known fit the list; RESTRICT
    names a known user; commands of the administrator come between two seconds, not while the
    queue is copied; new descriptors are fresh, the clock is later than a penalty period after
    the epoch and below 2^40, the ticks are below 2^63. *)
Theorem set_reaches_daemon `{HashOrder, XmlFiles, GListSort} (sys : sysinfo) (clk_tck : Z) (liblve : bool)
    (script_stat : string -> option bool) (io : tool_io) (d : disk) (root c : xmlNode) (user : string) (i : nat)
    (cpu read write : option amounts) (l : list typed) (w : world) (ns : gset Z -> Z) (map : option string)
    (clk : clock Z) (cfg : governor_config) :
  set_line user cpu read write l -> administrator io d root ("set" :: user :: concat (type <$> l)) ->
  SearchTagByName root "user" (Some user) = Some [i] -> node_at root [i] = Some c -> plain c ->
  last_of_name root i user ->
  enforce_reachable (limit := true) sys clk_tck w ->
  config_init liblve script_stat (Some root) = Ok cfg -> runs_on cfg w -> fresh_descriptor ns -> clock_ok clk ->
  exists root' command d1 w',
    dbctl_on_disk io ("set" :: user :: concat (type <$> l)) d = Ok (mkEdit 1 (Some root') [command] [], d1, [])
    /\ world_command sys ns (reads_disk liblve script_stat d1 map clk) command w = Ok w'
    /\ goes_on_with sys clk_tck cfg user
         (with_options cpu read write (config_get_account_limit cfg user)) w w'
    /\ everyone_sees liblve script_stat (w_cfg w') root' d1.
Proof.
  intros Hl Had Es Hc Hp Hlast Hr Hcfg Hon Hns Hclk. destruct (administrator_env io d root _ Had) as [Ee Hs].
  destruct (set_reaches sys clk_tck liblve script_stat (env_of io d) root c user i cpu read write l w ns map clk cfg
              Hl Ee Hs Es Hc Hp Hlast Hr Hcfg Hon Hns Hclk) as (cl & root' & command & w' & Ed & Ep & Ew & Ec & Hgo).
  destruct (edit_saved io d root _ cl _ root' Had Ed Ep eq_refl) as (d1 & root2 & E1 & Er & Ee2).
  exists root', command, d1, w'. split; [exact E1|]. split; [|split; [exact Hgo|by apply (everyone_sees_doc _ _ _ root' root2)]].
  by rewrite (reads_disk_eq _ _ d1 root' root2 (w_cfg w') (w_cfg w)).
Qed.

(** C19: dbctl set with a user that has no element, from the command line to the account
    that is restricted: the document gets a new element at its end, and the daemon in regular
    work in the limit mode that takes the command goes on in regular work and in its state, with
    the default limits overridden by the amounts typed for this user, and for everybody else
    those that the document gave, so the entry that the start of the daemon added for its work
    user is gone; the next period of regular work judges the account by them, and the listing
    from the duplicate is that from the document. Conditions: the administrator can read and
    write the configuration and its duplicate and reaches the daemon; the daemon runs on what
    the document gives, or on that with the work user added; the user is no command word, not
    default, and no option, and no element anywhere in the document has its name; the words are
    printable; each option gives all four amounts, whole numbers whose value in bytes is below
    2^53. Regular work means: the list was mapped when the daemon started; every configuration
    it reads has an LVE for each user switched on, the same mode of restriction, usable
    intervals and positive timeouts; the map is renewed only while no account is restricted (a
    renewal at another time undoes the enforcement), no restricted account gains a user, the
    users known fit the list; RESTRICT names a known user; commands of the administrator come
    between two seconds, not while the queue is copied; new descriptors are fresh, the clock is
    later than a penalty period after the epoch and below 2^40, the ticks are below 2^63. *)
Theorem set_new_user_reaches_daemon `{HashOrder, XmlFiles, GListSort} (sys : sysinfo) (clk_tck : Z) (liblve : bool)
    (script_stat : string -> option bool) (io : tool_io) (d : disk) (root : xmlNode) (user : string)
    (cpu read write : option amounts) (l : list typed) (w : world) (ns : gset Z -> Z) (map : option string)
    (clk : clock Z) (cfg : governor_config) :
  set_line user cpu read write l -> administrator io d root ("set" :: user :: concat (type <$> l)) ->
  SearchTagByName root "user" (Some user) = None ->
  FindElementWithNameAndAttr root None "user" "name" user = None ->
  enforce_reachable (limit := true) sys clk_tck w ->
  config_init liblve script_stat (Some root) = Ok cfg -> runs_on cfg w -> fresh_descriptor ns -> clock_ok clk ->
  exists root' command d1 w',
    dbctl_on_disk io ("set" :: user :: concat (type <$> l)) d = Ok (mkEdit 1 (Some root') [command] [], d1, [])
    /\ world_command sys ns (reads_disk liblve script_stat d1 map clk) command w = Ok w'
    /\ goes_on_with sys clk_tck cfg user
         (with_options cpu read write (set_mode (default_limit cfg) true RESTRICT_MODE)) w w'
    /\ everyone_sees liblve script_stat (w_cfg w') root' d1.
Proof.
  intros Hl Had Es Ef Hr Hcfg Hon Hns Hclk. destruct (administrator_env io d root _ Had) as [Ee Hs].
  destruct (set_new_user_reaches sys clk_tck liblve script_stat (env_of io d) root user cpu read write l w ns map clk cfg
              Hl Ee Hs Es Ef Hr Hcfg Hon Hns Hclk) as (cl & root' & command & w' & Ed & Ep & Ew & Ec & Hgo).
  destruct (edit_saved io d root _ cl _ root' Had Ed Ep eq_refl) as (d1 & root2 & E1 & Er & Ee2).
  exists root', command, d1, w'. split; [exact E1|]. split; [|split; [exact Hgo|by apply (everyone_sees_doc _ _ _ root' root2)]].
  by rewrite (reads_disk_eq _ _ d1 root' root2 (w_cfg w') (w_cfg w)).
Qed.

(** C20: dbctl ignore from end to end, with a user that has an element: the command line
    sends two commands, one that releases the account and one that makes the daemon read the
    document on the disk, in which the mode of the user is now to be ignored. When the daemon,
    in regular work in the limit mode, takes one right after the other, so that no period passes
    in between, the limits are those that the document gave but for this mode (the entry of the
    work user from the start of the daemon is gone), and from then on, whatever the daemon does
    of itself in regular work, the account is not restricted and its users are not on the shared
    list once the queue has been worked off. Conditions: the administrator can read and write
    the configuration and its duplicate and reaches the daemon; the daemon runs on what the
    document gives, or on that with the work user added; the user is no command word, not
    default, and shorter than 63 characters; no later element has the name and no section lies
    within the element; neither command falls into the copying of the queue, where the release
    could be lost. Regular work means: the list was mapped when the daemon started; every
    configuration it reads has an LVE for each user switched on, the same mode of restriction,
    usable intervals and positive timeouts; the map is renewed only while no account is
    restricted (a renewal at another time undoes the enforcement), no restricted account gains a
    user, the users known fit the list; RESTRICT names a known user; commands of the
    administrator come between two seconds, not while the queue is copied; new descriptors are
    fresh, the clock is later than a penalty period after the epoch and below 2^40, the ticks
    are below 2^63. *)
Theorem ignore_reaches_daemon `{HashOrder, XmlFiles, GListSort} (sys : sysinfo) (clk_tck : Z) (liblve : bool)
    (script_stat : string -> option bool) (io : tool_io) (d : disk) (root c : xmlNode) (user : string) (i : nat)
    (w : world) (ns : gset Z -> Z) (map : option string) (clk : clock Z) (cfg : governor_config) :
  is_word user = false -> user <> "default" -> strlen user < USERNAMEMAXLEN - 1 ->
  administrator io d root ["ignore"; user] ->
  SearchTagByName root "user" (Some user) = Some [i] -> node_at root [i] = Some c -> no_sections c ->
  last_of_name root i user ->
  enforce_reachable (limit := true) sys clk_tck w ->
  config_init liblve script_stat (Some root) = Ok cfg -> runs_on cfg w -> fresh_descriptor ns -> clock_ok clk ->
  exists root' c1 c2 d1 w1 w2,
    dbctl_on_disk io ["ignore"; user] d = Ok (mkEdit 1 (Some root') [c1; c2] [], d1, [])
    /\ world_command sys ns (reads_disk liblve script_stat d map clk) c1 w = Ok w1
    /\ world_command sys ns (reads_disk liblve script_stat d1 map clk) c2 w1 = Ok w2
    /\ everyone_sees liblve script_stat (w_cfg w2) root' d1
    /\ (forall a, config_get_account_limit (w_cfg w2) a
                 = let lim := config_get_account_limit cfg a in
                   if String.eqb a user then set_mode lim (account_flag lim) IGNORE_MODE else lim)
    /\ forall w3, rtc (own_step sys clk_tck) w2 w3 ->
         forall ac, accounts (gv_acc (w_gov w3)) !! user = Some ac -> ac_restricted ac = 0
           /\ (drained w3 -> forall u, u ∈ ac_users ac -> is_user_in_list (gv_bad (w_gov w3)) u = Some 0).
Proof.
  intros Hu Hd Hlen Had Es Hc Hn Hlast Hr Hcfg Hon Hns Hclk. destruct (administrator_env io d root _ Had) as [Ee Hs].
  destruct (ignore_reaches sys clk_tck liblve script_stat (env_of io d) root c user i w ns map clk cfg
              Hu Hd Hlen Ee Hs Es Hc Hn Hlast Hr Hcfg Hon Hns Hclk)
    as (cl & root' & c1 & c2 & w1 & w2 & Ed & Ep & E1 & E2 & Ec & Hl & Hfree).
  destruct (edit_saved io d root _ cl _ root' Had Ed Ep eq_refl) as (d1 & root2 & Esv & Er & Ee2).
  exists root', c1, c2, d1, w1, w2. split; [exact Esv|].
  rewrite (reads_disk_eq _ _ d root root cfg (w_cfg w)) by (done || apply (ad_doc _ _ _ _ Had)).
  rewrite (reads_disk_eq _ _ d1 root' root2 (w_cfg w2) (w_cfg w1)) by done.
  split; [exact E1|]. split; [exact E2|]. split; [by apply (everyone_sees_doc _ _ _ root' root2)|]. by split.
Qed.

(** * On a concrete disk *)

#[local] Existing Instances default_order tree_lib tree_files insertion_list_sort.

Lemma example_administrator args : Forall (fun a => xml_text a = true) args ->
  administrator example_tool example_disk example_root args.
Proof. intros Ha. by split. Qed.

Lemma set_reaches_daemon_witness :
  exists root' command d1 w',
    dbctl_on_disk example_tool ["set"; "bob"; "--cpu=10,20,30,40"; "-r"; "5m,6k,7b,8"] example_disk
      = Ok (mkEdit 1 (Some root') [command] [], d1, [])
    /\ world_command example_sys next_descriptor (reads_disk true (fun _ => None) d1 None (clk_const example_now))
         command example_started = Ok w'
    /\ l_cpu (config_get_account_limit (w_cfg w') "bob") = mkTLong 10 20 30 40.
Proof.
  destruct (set_reaches_daemon example_sys 100 true (fun _ => None) example_tool example_disk example_root example_bob
              "bob" 6 (Some example_cpu) (Some example_read) None example_typed example_started next_descriptor None
              (clk_const example_now) example_ran (example_set_line "bob" eq_refl ltac:(discriminate) I)
              (example_administrator ["set"; "bob"; "--cpu=10,20,30,40"; "-r"; "5m,6k,7b,8"] ltac:(by repeat constructor)) eq_refl eq_refl example_bob_plain example_last
              example_started_ok example_ran_init example_runs_on next_fresh example_clock_ok)
    as (root' & command & d1 & w' & A & B & (_ & _ & D & _) & _).
  exists root', command, d1, w'. split; [exact A|]. split; [exact B|]. rewrite (D "bob"). vm_compute. reflexivity.
Defined.

Lemma set_new_user_reaches_daemon_witness :
  exists root' command d1 w',
    dbctl_on_disk example_tool ["set"; "eve"; "--cpu=10,20,30,40"; "-r"; "5m,6k,7b,8"] example_disk
      = Ok (mkEdit 1 (Some root') [command] [], d1, [])
    /\ world_command example_sys next_descriptor (reads_disk true (fun _ => None) d1 None (clk_const example_now))
         command example_started = Ok w'
    /\ l_read (config_get_account_limit (w_cfg w') "eve") = mkTLong 5242880 6144 7 8388608.
Proof.
  destruct (set_new_user_reaches_daemon example_sys 100 true (fun _ => None) example_tool example_disk example_root
              "eve" (Some example_cpu) (Some example_read) None example_typed example_started next_descriptor None
              (clk_const example_now) example_ran (example_set_line "eve" eq_refl ltac:(discriminate) I)
              (example_administrator ["set"; "eve"; "--cpu=10,20,30,40"; "-r"; "5m,6k,7b,8"] ltac:(by repeat constructor)) eq_refl eq_refl
              example_started_ok example_ran_init example_runs_on next_fresh example_clock_ok)
    as (root' & command & d1 & w' & A & B & (_ & _ & D & _) & _).
  exists root', command, d1, w'. split; [exact A|]. split; [exact B|]. rewrite (D "eve"). vm_compute. reflexivity.
Defined.

Lemma ignore_reaches_daemon_witness :
  exists root' c1 c2 d1 w1 w2,
    dbctl_on_disk example_tool ["ignore"; "bob"] example_disk = Ok (mkEdit 1 (Some root') [c1; c2] [], d1, [])
    /\ world_command example_sys next_descriptor
         (reads_disk true (fun _ => None) example_disk None (clk_const example_now)) c1 example_started = Ok w1
    /\ world_command example_sys next_descriptor
         (reads_disk true (fun _ => None) d1 None (clk_const example_now)) c2 w1 = Ok w2
    /\ mode (config_get_account_limit (w_cfg w2) "bob") = IGNORE_MODE.
Proof.
  destruct (ignore_reaches_daemon example_sys 100 true (fun _ => None) example_tool example_disk example_root
              example_bob "bob" 6 example_started next_descriptor None (clk_const example_now) example_ran
              eq_refl ltac:(discriminate) eq_refl (example_administrator ["ignore"; "bob"] ltac:(by repeat constructor))
              eq_refl eq_refl (plain_no_sections example_bob eq_refl example_bob_plain) example_last
              example_started_ok example_ran_init example_runs_on next_fresh example_clock_ok)
    as (root' & c1 & c2 & d1 & w1 & w2 & A & B & C & _ & D & _).
  exists root', c1, c2, d1, w1, w2. split; [exact A|]. split; [exact B|]. split; [exact C|]. rewrite (D "bob"). reflexivity.
Defined.
