(* ===== verification/SetSlow.v ===== *)
(** [dbctl set] with a limit for slow queries: the text of the option goes
    into the document as it was typed ([setLimitAttr] of [src/dbctl_set.c]),
    and the reader of the configuration stops the program at a text that is
    no period ([parse_period] of [src/governor_config.c]). *)

From S2P Require Import Prelude CDouble CString GLib Data FifoStats TidTable ProcFs Server UserMap BadList Xml XmlFile Config ConfigEdit Accounts LogDecoder Commands Restrict CalcStats DbCtlSet Listing DbCtlCfg DbCtl XmlText ConfigFile Daemon System Enforce EnforceWorld EndToEnd Edits EditsDisk Log Main Daemonize.
Open Scope string_scope.
Open Scope Z_scope.

(** * The element of a new user *)

Section element.
Context `{LibXml}.

Lemma split_one s : has_char "," s = false -> split s "," = Some None.
Proof. intros Hs. unfold split. by rewrite count_char_none. Qed.

Lemma split_line s : has_char "," s = false -> split s newline = Some (Some [s]).
Proof. intros Hs. unfold split. rewrite count_char_none by done. reflexivity. Qed.

(** The attributes [short], [mid] and [long] are not set for slow queries. *)
Lemma setLimitAttr_slow l s : has_char "," s = false -> isprint (first_char s) = true ->
  getElemAttr l "name" = Some "slow" -> setLimitAttr l s = Some (xmlSetProp "current" s l, []).
Proof.
  intros Hs Hp Hn. unfold setLimitAttr. rewrite split_one, Hn by done. cbn [mbind option_bind].
  change (strcmp_eq "slow" "slow") with true. cbv iota. rewrite split_line by done. cbn [mbind option_bind].
  unfold set_if_print. by rewrite Hp.
Qed.

Lemma slow_limit_kept nm pr l s : x_name l = "limit" -> getElemAttr l "name" = Some "slow" ->
  getElemAttr l "current" = Some s -> drop_all_bad (XNode nm pr [l]) = Some (XNode nm pr [l]).
Proof.
  intros Hl Hn Hc. assert (forall t, drop_bad t (XNode nm pr [l]) = Some (XNode nm pr [l])) as D.
  { intros t. unfold drop_bad. assert (checkCorrectAttrs (XNode nm pr [l]) t = 0) as ->; [|done].
    unfold checkCorrectAttrs. rewrite (for_children_fold (XNode nm pr [l]) [] (XNode nm pr [l])) by done.
    cbn [x_children]. unfold named. cbn [List.filter]. rewrite Hl. change (String.eqb "limit" "limit") with true. cbn [ofold]. unfold count_missing.
    rewrite Hn. unfold strcmp_eq. destruct (String.eqb_spec "slow" t) as [<-|Hne]; cbn [obind].
    - unfold missing. by rewrite Hc.
    - done. }
  unfold drop_all_bad. rewrite D. cbn [mbind option_bind]. rewrite D. cbn [mbind option_bind]. rewrite D.
  cbn [mbind option_bind]. apply D.
Qed.

Lemma node_eta n : n = XNode (x_name n) (x_properties n) (x_children n).
Proof. by destruct n. Qed.

Lemma add_slow nm pr s : has_char "," s = false -> isprint (first_char s) = true ->
  exists l, add_limits None None None (Some s) (XNode nm pr []) = Some (XNode nm pr [l], [])
    /\ x_name l = "limit" /\ x_children l = [] /\ getElemAttr l "name" = Some "slow"
    /\ getElemAttr l "current" = Some s.
Proof.
  intros Hs Hp. unfold add_limits, add_limit. cbn [mbind option_bind]. unfold addLimit, setNodeWithAttr.
  cbn [FindElementWithNameAndAttr default mbind option_bind node_at find_name_attr x_children change_at].
  destruct (xmlNewChild_children "limit" None (XNode nm pr [])) as (c & Ec & Hc & Hpr & Hn).
  cbn [x_children app] in Ec.
  assert (xmlNewChild "limit" None (XNode nm pr []) = XNode nm pr [c]) as ->.
  { rewrite (node_eta (xmlNewChild _ _ _)). by rewrite xmlNewChild_name, xmlNewChild_props, Ec. }
  unfold new_child_path, setAttr. cbn. rewrite setLimitAttr_slow by (done || apply getElemAttr_set).
  cbn. eexists. split; [reflexivity|]. rewrite !xmlSetProp_name, !xmlSetProp_children, getElemAttr_set.
  rewrite getElemAttr_set_other, getElemAttr_set by done. rewrite Hc. by split_and!; [|apply Hn|..].
Qed.
End element.

(** * The edit *)

(** The limit that the reader finds for a text. *)
Definition slow_limit (v : Z) : T_LONG := mkTLong v (-1) (-1) (-1).

Definition slow_text (s : string) : Prop := has_char "," s = false /\ isprint (first_char s) = true.

Lemma set_slow_line user s : is_word user = false -> user <> "default" -> operand user ->
  dbctl ["set"; user; "--slow=" +:+ s] = Ok (Some (Set_user user None None None (Some s)), []).
Proof.
  intros Hu Hd Hop.
  pose proof (set_user_typed user [mkTyped Slow Long_equal s] [] Hu Hd Hop ltac:(by constructor)) as E.
  apply E; [|by left]. constructor; [|done]. intros Hin. cbn in Hin. set_solver.
Qed.

(** The document, and what the reader makes of it. *)
Lemma slow_edit `{LibXml} liblve script_stat sock root user s cfg :
  SearchTagByName root "user" (Some user) = None ->
  FindElementWithNameAndAttr root None "user" "name" user = None -> slow_text s ->
  config_init liblve script_stat (Some root) = Ok cfg ->
  exists root', setUser sock (Some root) user None None None (Some s)
                = Some (mkEdit 1 (Some root') (reread_cfg_cmd sock) [])
    /\ config_init liblve script_stat (Some root')
       = (v <-- parse_period s;;
          Ok (set_account_limits cfg
                (<[user := with_limit "slow" (slow_limit v) (set_mode (default_limit cfg) true RESTRICT_MODE)]>
                   (account_limits cfg)))).
Proof.
  intros Es Ef [Hs Hp] Hcfg.
  destruct (setUser_appends sock root user None None None (Some s) Es Ef) as (pr & Hnew & Happ).
  destruct (add_slow "user" pr s Hs Hp) as (l & El & Hl & Hch & Hn & Hc).
  destruct (Happ [l] [] El (slow_limit_kept "user" pr l s Hl Hn Hc)) as (root' & E & Ech). exists root'. split; [done|].
  rewrite (config_appended liblve script_stat root root' _ cfg Ech eq_refl); [|..|exact Hcfg].
  - rewrite Hnew, limits_cfg_cons, Hl. change (String.eqb "limit" "limit") with true. cbv iota.
    unfold limit_value. rewrite Hn, Hc. change (strcmp_eq "slow" "slow") with true. cbv iota.
    by destruct (parse_period s).
  - pose proof (no_sections_limit l Hl Hch) as Hln. intros t Ht. split; [intros <-; unfold section_names in Ht; set_solver|].
    destruct (Hln t Ht) as [Hne Hf]. rewrite find_name_in. cbn [x_children find_in].
    by rewrite (proj2 (String.eqb_neq _ _) Hne), Hf.
Qed.

(** * Properties *)

(** C21: dbctl set with a limit for slow queries hardly checks its text. For a user that has
    no element yet and a text without a comma whose first character is printable, the document
    on the disk gets the text as it was typed and the daemon is told to read it. When the reader
    takes the text for a period, the daemon goes on in its state with this period as the limit
    of the user, and with what the document gave for everybody else (the entry of the work user
    from the start of the daemon is gone); when the reader rejects it, the command ends the
    daemon, and the round of the supervisor that would make it again, which reads this disk
    first, ends the supervisor. Conditions: the limit mode and regular work; the administrator
    can read and write the configuration and its duplicate and reaches the daemon; the daemon
    runs on what the document gives, or on that with the work user added; the user is no command
    word, not default, no option, and in no element of the document; the words are printable.
    Regular work means: the list was mapped when the daemon started; every configuration it
    reads has an LVE for each user switched on, the same mode of restriction, usable intervals
    and positive timeouts; the map is renewed only while no account is restricted (a renewal at
    another time undoes the enforcement), no restricted account gains a user, the users known
    fit the list; RESTRICT names a known user; commands of the administrator come between two
    seconds, not while the queue is copied; new descriptors are fresh, the clock is later than a
    penalty period after the epoch and below 2^40, the ticks are below 2^63. *)
Theorem set_slow_ends_daemon `{HashOrder, XmlFiles, GListSort} (sys : sysinfo) (clk_tck : Z) (liblve : bool)
    (script_stat : string -> option bool) (io : tool_io) (d : disk) (root : xmlNode) (user s : string)
    (w : world) (ns : gset Z -> Z) (map : option string) (clk : clock Z) (cfg : governor_config) :
  is_word user = false -> user <> "default" -> operand user -> slow_text s ->
  administrator io d root ["set"; user; "--slow=" +:+ s] ->
  SearchTagByName root "user" (Some user) = None ->
  FindElementWithNameAndAttr root None "user" "name" user = None ->
  enforce_reachable (limit := true) sys clk_tck w ->
  config_init liblve script_stat (Some root) = Ok cfg -> runs_on cfg w -> fresh_descriptor ns -> clock_ok clk ->
  exists root' command d1,
    dbctl_on_disk io ["set"; user; "--slow=" +:+ s] d = Ok (mkEdit 1 (Some root') [command] [], d1, [])
    /\ (forall v, parse_period s = Ok v -> exists w',
          world_command sys ns (reads_disk liblve script_stat d1 map clk) command w = Ok w'
          /\ goes_on_with sys clk_tck cfg user
               (with_limit "slow" (slow_limit v) (set_mode (default_limit cfg) true RESTRICT_MODE)) w w')
    /\ forall e, parse_period s = Exit e ->
         world_command sys ns (reads_disk liblve script_stat d1 map clk) command w = Exit e
         /\ forall save r p ls, r_cfg r = (c <-- config_init_file liblve script_stat save CONFIG_PATH d1;; Ok (fst (fst c))) ->
              tracking_round r p ls = Exit e.
Proof.
  intros Hu Hd Hop Hst Had Es Ef Hr Hcfg Hon Hns Hclk. destruct (administrator_env io d root _ Had) as [Ee Hs].
  destruct (slow_edit liblve script_stat (e_sock (env_of io d)) root user s cfg Es Ef Hst Hcfg) as (root' & E & Ec).
  rewrite Hs in E. pose proof (set_slow_line user s Hu Hd Hop) as El.
  assert (perform (env_of io d) (Set_user user None None None (Some s))
          = Ok (mkEdit 1 (Some root') (reread_cfg_cmd true) [])) as Ep
    by (unfold perform; rewrite Ee, Hs, E; reflexivity).
  destruct (edit_saved io d root _ _ _ root' Had El Ep eq_refl) as (d1 & root2 & E1 & Er & Ee2).
  exists root', (empty_command REREAD_CFG), d1. split; [exact E1|]. split.
  - intros v Hv. rewrite Hv in Ec. cbn [obind] in Ec.
    destruct (judged_by sys clk_tck liblve script_stat _ cfg user _ ns map clk w Hr Hon Hns Hclk Ec) as (w' & Ew & Ei & Hgo).
    exists w'. split; [|exact Hgo]. by rewrite (reads_disk_eq _ _ d1 root' root2 (w_cfg w') (w_cfg w)).
  - intros e He. rewrite He in Ec. cbn [obind] in Ec.
    assert (forall save, config_init_file liblve script_stat save CONFIG_PATH d1 = Exit e) as G
      by (intros save; apply config_init_stops with root2; [done|]; by rewrite (config_same_elements _ _ root2 root' Ee2)).
    split; [|intros save r p ls Er'; unfold tracking_round, initGovernor; by rewrite Er', G]. unfold world_command, run_dbctl_command. cbn [d_command empty_command].
    unfold reads_disk. cbn [cm_config]. by rewrite G.
Qed.

(** * On a concrete disk *)

#[local] Existing Instances default_order tree_lib tree_files insertion_list_sort.

(** The supervisor comes back and reads the configuration. *)
Definition example_again (d : disk) : round_io :=
  mkRound (c <-- config_init_file true (fun _ => None) Written CONFIG_PATH d;; Ok (fst (fst c)))
    (mkOpenIo 0 0 0) example_place (mkFork 13 0) (example_place 0) 1024.

Lemma set_slow_ends_daemon_witness :
  (exists root' command d1,
     dbctl_on_disk example_tool ["set"; "eve"; "--slow=5min"] example_disk
       = Ok (mkEdit 1 (Some root') [command] [], d1, [])
     /\ world_command example_sys next_descriptor (reads_disk true (fun _ => None) d1 None (clk_const example_now))
          command example_started = Exit "Error while parsing period"
     /\ tracking_round (example_again d1) example_proc example_logs = Exit "Error while parsing period")
  /\ exists root' command d1 w',
       dbctl_on_disk example_tool ["set"; "eve"; "--slow=1m30s"] example_disk
         = Ok (mkEdit 1 (Some root') [command] [], d1, [])
       /\ world_command example_sys next_descriptor (reads_disk true (fun _ => None) d1 None (clk_const example_now))
            command example_started = Ok w'
       /\ l_slow (config_get_account_limit (w_cfg w') "eve") = mkTLong 90 (-1) (-1) (-1).
Proof.
  assert (forall s, slow_text s -> Forall (fun a => xml_text a = true) ["set"; "eve"; "--slow=" +:+ s] -> _) as G
    by exact (fun s Hs Ha => set_slow_ends_daemon example_sys 100 true (fun _ => None) example_tool example_disk
      example_root "eve" s example_started next_descriptor None (clk_const example_now) example_ran eq_refl
      ltac:(discriminate) I Hs (example_administrator _ Ha) eq_refl eq_refl
      example_started_ok example_ran_init example_runs_on next_fresh example_clock_ok).
  split.
  - destruct (G "5min" ltac:(by split) ltac:(by repeat constructor)) as (root' & command & d1 & A & _ & B).
    destruct (B "Error while parsing period" eq_refl) as [Bw Bs].
    exists root', command, d1. split; [exact A|]. split; [exact Bw|]. by apply (Bs Written).
  - destruct (G "1m30s" ltac:(by split) ltac:(by repeat constructor)) as (root' & command & d1 & A & B & _).
    destruct (B 90 ltac:(vm_compute; reflexivity)) as (w' & Bw & _ & _ & D & _).
    exists root', command, d1, w'. split; [exact A|]. split; [exact Bw|]. rewrite (D "eve"). vm_compute. reflexivity.
Defined.
