(* ===== verification/Tools.v ===== *)
(** The tools and the daemon together: a command line of [dbctl], the command
    it sends, what the daemon makes of it, and what the next listing shows. *)

From S2P Require Import Prelude CDouble CString GLib Data UserMap FifoStats Xml Config Accounts LogDecoder Commands Restrict CalcStats DbCtlSet Listing DbCtlCfg DbCtl Daemon System Enforce EnforceWorld Edits.
Open Scope string_scope.
Open Scope Z_scope.

(** The accounts that [dbctl list-restricted] prints for a state of the
    daemon: the lines are theirs, in the order of their names. *)
Definition lists `{HashOrder, GListSort} (cfg : governor_config) (stack : string) (answer : Z)
    (clk : clock Z) (g : gov) (sel : list Account) : Prop :=
  exists out, run_list cfg always stack true (fun _ => accounts (gv_acc g)) (mkStream [answer] [] 0) = Some out
    /\ print_list_rest clk (s_out out) = Ok (rest_header :: rest_lines clk sel)
    /\ StronglySorted (fun a b => CompareAccountByUsername a b <= 0) sel
    /\ Forall (fun ac => field_restrict (ac_info ac) <> NO_PERIOD) sel.

(** An account is listed: its line is printed. *)
Definition listed_in (sel : list Account) (a : string) : Prop := a ∈ ac_id <$> sel.

Lemma lists_restricted `{HashOrder, GListSort} cfg stack answer clk g : keys_ok (accounts (gv_acc g)) ->
  exists sel, lists cfg stack answer clk g sel
    /\ forall a ac, accounts (gv_acc g) !! a = Some ac -> shown cfg ac ->
         (listed_in sel a <-> field_restrict (ac_info ac) <> NO_PERIOD).
Proof.
  intros Hk. set (accs := accounts (gv_acc g)) in *.
  set (L := filter (fun ac => shown cfg ac /\ field_restrict (ac_info ac) <> NO_PERIOD) (map_to_list accs).*2).
  pose proof (g_list_sort_perm CompareAccountByUsername L) as Hp.
  exists (g_list_sort CompareAccountByUsername L). split.
  - destruct (list_restricted_spec cfg stack accs answer clk (g_list_sort CompareAccountByUsername L) Hk Hp)
      as (out & A & B); [apply sorted_by_name|].
    exists out. split; [done|]. split; [done|]. split; [apply sorted_by_name|]. rewrite Hp.
    apply list.Forall_forall. intros ac [[_ ?] _]%list_elem_of_filter. done.
  - intros a ac Ha Hs. unfold listed_in. rewrite Hp. unfold L. rewrite list_elem_of_fmap. split.
    + intros (b & E & [[_ Hr] Hb]%list_elem_of_filter). apply list_elem_of_fmap in Hb as ([k b'] & -> & Hb).
      apply elem_of_map_to_list in Hb. cbn [snd] in *. destruct (Hk k b' Hb) as [Hid _].
      assert (b' = ac) as -> by congruence. done.
    + intros Hr. exists ac. split; [by destruct (Hk a ac Ha)|]. apply list_elem_of_filter. split; [done|].
      apply list_elem_of_fmap. exists (a, ac). split; [done|]. by apply elem_of_map_to_list.
Qed.

(** ** The command lines *)

Lemma restrict_line u l : is_word u = false -> operand u -> Forall typed_ok l -> Forall accepted l ->
  dbctl ("restrict" :: u :: concat (type <$> l))
  = Ok (Some (Restrict_user u (GetVal (word_code Level) (pair_of <$> l))), []).
Proof.
  intros Hu Hop Hl Ha.
  destruct (GetOptList_typed ["restrict"; u] l []) as (o & E & Ho); try done; [by repeat constructor|by left|].
  rewrite app_nil_r in E. cbn [app] in E. unfold dbctl, GetCmd.
  assert (valid_comm ("restrict" :: u :: concat (type <$> l)) = (true, [])) as ->
    by (unfold valid_comm; rewrite Hu; reflexivity).
  cbn [negb]. change (strcmp_eq "set" "restrict") with false. cbn -[GetOptList]. 
  rewrite E. cbn [obind fst snd]. by rewrite Ho.
Qed.

Lemma unrestrict_line u : is_word u = false -> u <> "default" ->
  dbctl ["unrestrict"; u] = Ok (Some (Unrestrict u), []).
Proof.
  intros Hu Hd. apply String.eqb_neq in Hd. rewrite String.eqb_sym in Hd. unfold dbctl, GetCmd.
  assert (valid_comm ["unrestrict"; u] = (true, [])) as ->
    by (unfold valid_comm, strcmp_eq; rewrite Hu, Hd; reflexivity).
  reflexivity.
Qed.

(** ** On the state of the daemon *)

(** What the commands need of the daemon: a mode with an LVE per user, names
    that fit, and the well formed state of its invariant. *)
Record serves (d : daemon) : Prop := {
  sv_lve : is_gpl (dm_cfg d) = 0;
  sv_mode : no_single (dm_cfg d) = false;
  sv_cfg : cfg_ok (dm_cfg d);
  sv_wf : acc_wf (gv_acc (dm_gov d));
  sv_keys : keys_ok (accounts (gv_acc (dm_gov d)));
  sv_names : forall a ac, accounts (gv_acc (dm_gov d)) !! a = Some ac -> names_ok ac
}.

Definition accounts_of (d : daemon) : gmap string Account := accounts (gv_acc (dm_gov d)).

(** The restriction on the state of the daemon. *)
Lemma restrict_listed `{HashOrder, LibXml, GListSort} (sys : sysinfo) (e : dbctl_env)
    (io : command_io) (ns : Z) (d : daemon) (u : string) (l : list typed) (stack : string) (answer : Z)
    (clk : clock Z) :
  is_word u = false -> operand u -> u <> "default" -> strlen u < USERNAMEMAXLEN - 1 ->
  Forall typed_ok l -> Forall accepted l -> e_sock e = true ->
  serves d -> is_Some (users (gv_acc (dm_gov d)) !! u) ->
  exists cl command d' sel,
    dbctl ("restrict" :: u :: concat (type <$> l)) = Ok (Some cl, [])
    /\ o_username (d_options command) = u
    /\ perform e cl = Ok (mkEdit 0 None [command] [])
    /\ run_dbctl_command sys io ns command d = Ok d'
    /\ lists (dm_cfg d') stack answer clk (dm_gov d') sel
    /\ forall a ac, accounts_of d !! a = Some ac -> shown (dm_cfg d) ac ->
         (listed_in sel a <-> selected u a ac = true \/ field_restrict (ac_info ac) <> NO_PERIOD).
Proof.
  intros Hw Hop Hd Hl Ht Hacc Hs Hsv Hus.
  set (level := GetVal (word_code Level) (pair_of <$> l)).
  set (command := user_command RESTRICT u (atoi (default "-1" level))).
  assert (o_username (d_options command) = u) as Eu by (cbn; apply prefix_n_all; lia).
  destruct (restrict_command_spec (dm_cfg d) sys command (cm_clock io) (dm_gov d) (sv_cfg d Hsv) (sv_wf d Hsv))
    as (g' & E & _ & Edom & Hr); rewrite ?Eu; [lia| |done|].
  { intros a ac Ha. destruct (sv_keys d Hsv a ac Ha). split; [lia|]. by apply (sv_names d Hsv a). }
  assert (keys_ok (accounts (gv_acc g'))) as Hk'.
  { intros a ac' Ha'. assert (is_Some (accounts (gv_acc (dm_gov d)) !! a)) as [ac Ha]
      by (apply elem_of_dom; rewrite <- Edom; by apply elem_of_dom_2 in Ha').
    destruct (Hr a ac Ha) as (ac2 & Ha2 & R). rewrite Ha' in Ha2. injection Ha2 as <-.
    destruct (sv_keys d Hsv a ac Ha). unfold restricted_if in R.
    destruct (selected _ _ _); [destruct R as (_ & _ & -> & _)|subst ac']; done. }
  destruct (lists_restricted (dm_cfg d) stack answer clk g' Hk') as (sel & Hsel & Hin).
  exists (Restrict_user u level), command, (close_client ns (with_gov g' d)), sel.
  split; [by apply restrict_line|]. split; [exact Eu|]. split.
  { unfold perform, restrict_user. rewrite is_default_false by done. by rewrite Hs. }
  split.
  { unfold run_dbctl_command. cbn [d_command command user_command]. rewrite (sv_lve d Hsv), (sv_mode d Hsv).
    change (nonzero 0) with false. cbv iota. by rewrite E. }
  split; [exact Hsel|]. intros a ac Ha Hsh. destruct (Hr a ac Ha) as (ac' & Ha' & R). rewrite Eu in R.
  assert (ac_id ac' = ac_id ac /\ (field_restrict (ac_info ac') <> NO_PERIOD
    <-> selected u a ac = true \/ field_restrict (ac_info ac) <> NO_PERIOD)) as [Eid <-].
  { unfold restricted_if in R. destruct (selected u a ac).
    - destruct R as (_ & -> & -> & _). split; [done|]. split; [by left|done].
    - subst ac'. split; [done|]. split; [by right|by intros [?|?]]. }
  apply Hin; [done|]. unfold shown. by rewrite Eid.
Qed.

Lemma unrestrict_listed `{HashOrder, LibXml, GListSort} (sys : sysinfo) (e : dbctl_env)
    (io : command_io) (ns : Z) (d : daemon) (u : string) (stack : string) (answer : Z) (clk : clock Z) :
  is_word u = false -> u <> "default" -> strlen u < USERNAMEMAXLEN - 1 -> e_sock e = true -> serves d ->
  exists cl command d' sel,
    dbctl ["unrestrict"; u] = Ok (Some cl, [])
    /\ perform e cl = Ok (mkEdit 0 None [command] []) /\ d_command command = UNRESTRICT
    /\ run_dbctl_command sys io ns command d = Ok d'
    /\ lists (dm_cfg d') stack answer clk (dm_gov d') sel
    /\ forall a ac, accounts_of d !! a = Some ac -> shown (dm_cfg d) ac ->
         (listed_in sel a <-> a <> u /\ field_restrict (ac_info ac) <> NO_PERIOD).
Proof.
  intros Hw Hd Hl Hs Hsv. set (command := user_command UNRESTRICT u 0).
  assert (o_username (d_options command) = u) as Eu by (cbn; apply prefix_n_all; lia).
  set (g' := unrestrict_command (dm_cfg d) sys command (cm_clock io) (dm_gov d)).
  pose proof (foreach_account_spec (dbctl_unrestrict_set (dm_cfg d) sys (o_username (d_options command)))
                (cm_clock io) (dm_gov d)) as (_ & _ & _ & _ & _ & _ & Hr).
  change (foreach_account _ _ _) with g' in Hr. rewrite Eu in Hr.
  assert (forall a ac, accounts_of d !! a = Some ac ->
    accounts (gv_acc g') !! a = Some (if String.eqb a u then clear_stats ac else ac)) as Hacc.
  { intros a ac Ha. pose proof (Hr a) as Hra. unfold accounts_of in Ha. rewrite Ha in Hra.
    destruct Hra as (n & c & q & ->). rewrite unrestrict_set_effect. cbn [r_ac].
    by rewrite (proj1 (sv_keys d Hsv a ac Ha)). }
  assert (keys_ok (accounts (gv_acc g'))) as Hk'.
  { intros a ac' Ha'. pose proof (Hr a) as Hra. destruct (accounts_of d !! a) as [ac|] eqn:Ha;
      unfold accounts_of in Ha; rewrite Ha in Hra; [|by rewrite Ha' in Hra].
    rewrite (Hacc a ac Ha) in Ha'. injection Ha' as <-. destruct (sv_keys d Hsv a ac Ha) as [<- ?].
    split; [by destruct (String.eqb _ u)|done]. }
  destruct (lists_restricted (dm_cfg d) stack answer clk g' Hk') as (sel & Hsel & Hin).
  exists (Unrestrict u), command, (close_client ns (with_gov g' d)), sel.
  split; [by apply unrestrict_line|]. split.
  { unfold perform, unrestrict. rewrite is_default_false by done. by rewrite Hs. }
  split; [done|]. split.
  { unfold run_dbctl_command. cbn [d_command command user_command]. rewrite (sv_lve d Hsv), (sv_mode d Hsv).
    change (nonzero 0) with false. cbv iota. reflexivity. }
  split; [exact Hsel|]. intros a ac Ha Hsh. rewrite (Hin a _ (Hacc a ac Ha)).
  - destruct (String.eqb_spec a u) as [->|Hne]; [|naive_solver]. cbn. naive_solver.
  - unfold shown. by destruct (String.eqb a u).
Qed.

(** ** In the running daemon *)

(** The names of the accounts fit the records of the listings. *)
Definition short_accounts (w : world) : Prop :=
  forall a ac, accounts (gv_acc (w_gov w)) !! a = Some ac -> strlen a < USERNAMEMAXLEN - 1.

(** What a command finds that changes no configuration. *)
Record io_ok (limit : bool) (io : command_io) : Prop := {
  io_clock : clock_ok (cm_clock io); io_config : config_read (cm_config io);
  io_steady : forall cfg, cm_config io = Ok cfg -> steady limit cfg
}.

Section running.
Context {limit : bool} `{DI : !Discipline limit} `{HO : HashOrder} (sys : sysinfo) (clk_tck : Z).

(** The daemon as a command finds it. *)
Definition connected (ns : gset Z -> Z) (w : world) : daemon :=
  set_open ({[ns (dm_open (w_dm w))]} ∪ dm_open (w_dm w)) (w_dm w).

Lemma serves_reachable ns w : enforce_reachable (limit := limit) sys clk_tck w -> short_accounts w ->
  serves (connected ns w).
Proof.
  intros Hr Hk. destruct (enforce_reachable_ok sys clk_tck w Hr) as [[Hg _ _] [[Hok Hl _] _]].
  destruct (lve_tests _ Hl) as (T1 & T2 & T3). split; try done.
  - apply Hl.
  - unfold no_single. cbn. fold (w_cfg w). by rewrite T2, T3.
  - apply Hg.
  - intros a ac Ha. split; [by apply (wf_account_key _ (go_wf _ Hg))|by apply (Hk a ac)].
  - intros a ac Ha. by apply (known_names (w_gov w) a).
Qed.

Lemma command_taken ns io command d' w : enforce_reachable (limit := limit) sys clk_tck w -> fresh_descriptor ns ->
  io_ok limit io ->
  (d_command command = RESTRICT -> is_Some (users (gv_acc (w_gov w)) !! o_username (d_options command))) ->
  run_dbctl_command sys io (ns (dm_open (w_dm w))) command (connected ns w) = Ok d' ->
  exists w', world_command sys ns io command w = Ok w' /\ w_dm w' = d'
    /\ enforce_reachable (limit := limit) sys clk_tck w'.
Proof.
  intros Hr Hns [Hclk Hcfg Hst] Hus E.
  assert (exists w', world_command sys ns io command w = Ok w' /\ w_dm w' = d') as (w' & Ew & Ed).
  { unfold world_command. fold (connected ns w). rewrite E. by eexists. }
  exists w'. split; [done|]. split; [done|]. eapply er_step; [exact Hr|].
  apply (en_command sys clk_tck ns io command w w'); try done. split; [done|]. intros Hc. left. by apply Hus.
Qed.
End running.

(** * Properties *)

(** C26: dbctl restrict from end to end, in the limit or the period mode: the command line
    makes one call, the call sends one command, and the daemon in regular work takes it, goes on
    in regular work, and a list-restricted directly after it, before another thread works,
    shows, among the accounts that are not ignored, exactly those that the user names by the
    account or by one of its users and those that were restricted before, sorted by name.
    Conditions: the user is known to the daemon (for another name the table can change during
    its walk), is no command word, not default and no option, and is shorter than 63 characters,
    as the names of the accounts are; the options after it are ones that dbctl accepts; dbctl
    reaches the daemon and the writes of the listing succeed. Regular work means: the list was
    mapped when the daemon started; every configuration it reads has an LVE for each user
    switched on, the same mode of restriction, usable intervals and positive timeouts; the map
    is renewed only while no account is restricted (a renewal at another time undoes the
    enforcement), no restricted account gains a user, the users known fit the list; RESTRICT
    names a known user; commands of the administrator come between two seconds, not while the
    queue is copied; new descriptors are fresh, the clock is later than a penalty period after
    the epoch and below 2^40, the ticks are below 2^63. *)
Theorem restrict_reaches_listing {limit} `{DI : !Discipline limit} `{HashOrder, LibXml, GListSort} (sys : sysinfo)
    (clk_tck : Z) (e : dbctl_env) (io : command_io) (ns : gset Z -> Z) (w : world) (u : string) (l : list typed)
    (stack : string) (answer : Z) (clk : clock Z) :
  is_word u = false -> operand u -> u <> "default" -> strlen u < USERNAMEMAXLEN - 1 ->
  Forall typed_ok l -> Forall accepted l -> e_sock e = true ->
  enforce_reachable (limit := limit) sys clk_tck w -> short_accounts w -> fresh_descriptor ns -> io_ok limit io ->
  is_Some (users (gv_acc (w_gov w)) !! u) ->
  exists cl command w' sel,
    dbctl ("restrict" :: u :: concat (type <$> l)) = Ok (Some cl, [])
    /\ perform e cl = Ok (mkEdit 0 None [command] [])
    /\ world_command sys ns io command w = Ok w' /\ enforce_reachable (limit := limit) sys clk_tck w'
    /\ lists (w_cfg w') stack answer clk (w_gov w') sel
    /\ forall a ac, accounts (gv_acc (w_gov w)) !! a = Some ac -> shown (w_cfg w) ac ->
         (listed_in sel a <-> selected u a ac = true \/ field_restrict (ac_info ac) <> NO_PERIOD).
Proof.
  intros Hw Hop Hd Hl Ht Hacc Hs Hr Hk Hns Hio Hus.
  destruct (restrict_listed sys e io (ns (dm_open (w_dm w))) (connected ns w) u l stack answer clk Hw Hop Hd Hl Ht Hacc
              Hs (serves_reachable sys clk_tck ns w Hr Hk) Hus) as (cl & command & d' & sel & A & B & C & D & E & F).
  destruct (command_taken sys clk_tck ns io command d' w Hr Hns Hio) as (w' & Ew & <- & Hr'); [by rewrite B|done|].
  exists cl, command, w', sel. by split_and!.
Qed.

(** C27: dbctl unrestrict from end to end, in the limit or the period mode, on a daemon in
    regular work, which has an LVE for each user (with LVE for all users or off the command does
    nothing): after the command line and its command a list-restricted, before another thread
    works, shows, among the accounts that are not ignored, exactly those that were restricted
    before and whose name is not the one given, so that the name of a user of an account frees
    nothing. Conditions: the name is no command word, not default and shorter than 63
    characters, as the names of the accounts are; dbctl reaches the daemon and the writes of the
    listing succeed. Regular work means: the list was mapped when the daemon started; every
    configuration it reads has an LVE for each user switched on, the same mode of restriction,
    usable intervals and positive timeouts; the map is renewed only while no account is
    restricted (a renewal at another time undoes the enforcement), no restricted account gains a
    user, the users known fit the list; RESTRICT names a known user; commands of the
    administrator come between two seconds, not while the queue is copied; new descriptors are
    fresh, the clock is later than a penalty period after the epoch and below 2^40, the ticks
    are below 2^63. *)
Theorem unrestrict_reaches_listing {limit} `{DI : !Discipline limit} `{HashOrder, LibXml, GListSort} (sys : sysinfo)
    (clk_tck : Z) (e : dbctl_env) (io : command_io) (ns : gset Z -> Z) (w : world) (u : string)
    (stack : string) (answer : Z) (clk : clock Z) :
  is_word u = false -> u <> "default" -> strlen u < USERNAMEMAXLEN - 1 -> e_sock e = true ->
  enforce_reachable (limit := limit) sys clk_tck w -> short_accounts w -> fresh_descriptor ns -> io_ok limit io ->
  exists cl command w' sel,
    dbctl ["unrestrict"; u] = Ok (Some cl, [])
    /\ perform e cl = Ok (mkEdit 0 None [command] [])
    /\ world_command sys ns io command w = Ok w' /\ enforce_reachable (limit := limit) sys clk_tck w'
    /\ lists (w_cfg w') stack answer clk (w_gov w') sel
    /\ forall a ac, accounts (gv_acc (w_gov w)) !! a = Some ac -> shown (w_cfg w) ac ->
         (listed_in sel a <-> a <> u /\ field_restrict (ac_info ac) <> NO_PERIOD).
Proof.
  intros Hw Hd Hl Hs Hr Hk Hns Hio.
  destruct (unrestrict_listed sys e io (ns (dm_open (w_dm w))) (connected ns w) u stack answer clk Hw Hd Hl
              Hs (serves_reachable sys clk_tck ns w Hr Hk)) as (cl & command & d' & sel & A & B & Ec & C & D & E).
  destruct (command_taken sys clk_tck ns io command d' w Hr Hns Hio) as (w' & Ew & <- & Hr'); [by rewrite Ec|done|].
  exists cl, command, w', sel. by split_and!.
Qed.

(** ** Witnesses *)

Definition example_cio : command_io := mkCommandIo (Exit "") None (clk_const example_now).
Definition example_level : list typed := [mkTyped Level Long_equal "2"].

Lemma example_cio_ok : io_ok true example_cio.
Proof. split; [exact example_clock_ok|exact I|discriminate]. Qed.

Lemma example_level_ok : Forall typed_ok example_level /\ Forall accepted example_level.
Proof.
  split; (apply list.Forall_cons_2; [|apply list.Forall_nil_2]); [exact I|].
  intros Hw. cbn in Hw. rewrite !elem_of_cons, elem_of_nil in Hw. naive_solver.
Qed.

(** The daemon after the example, in which "bob" is restricted. *)
Definition known_bob (w : world) : bool :=
  bool_decide (map_Forall (fun a _ => strlen a < USERNAMEMAXLEN - 1) (accounts (gv_acc (w_gov w))))
  && bool_decide (is_Some (users (gv_acc (w_gov w)) !! "bob_wp"))
  && match accounts (gv_acc (w_gov w)) !! "bob" with
     | Some ac => String.eqb (ac_id ac) "bob" && selected "bob_wp" "bob" ac
     | None => false
     end.

Lemma known_bob_spec w : known_bob w = true -> w_cfg w = example_config -> short_accounts w
  /\ is_Some (users (gv_acc (w_gov w)) !! "bob_wp")
  /\ exists ac, accounts (gv_acc (w_gov w)) !! "bob" = Some ac /\ shown (w_cfg w) ac /\ selected "bob_wp" "bob" ac = true.
Proof.
  unfold known_bob. intros [[H1 H2]%andb_prop H3]%andb_prop E.
  apply bool_decide_eq_true in H1, H2. split; [exact H1|]. split; [exact H2|].
  destruct (accounts (gv_acc (w_gov w)) !! "bob") as [ac|]; [|discriminate H3]. apply andb_prop in H3 as [H3 H4].
  apply String.eqb_eq in H3. exists ac. split; [done|]. split; [|exact H4]. unfold shown. rewrite E, H3. by vm_compute.
Qed.

Lemma example_running :
  match example_steps example_config with
  | Some w => enforce_reachable (limit := true) (HO := default_order) example_sys 100 w /\ w_cfg w = example_config
              /\ known_bob w = true
  | None => False
  end.
Proof.
  destruct (example_steps example_config) as [w|] eqn:E; [|vm_compute in E; discriminate E].
  assert (gets_to (limit := true) example_config w) as [R Ew]
    by (apply (steps_gets example_config steady_limit example_iv); [reflexivity|exact E]).
  split; [exact R|]. split; [exact Ew|].
  assert (known_bob <$> example_steps example_config = Some true) as K by (vm_compute; reflexivity).
  rewrite E in K. by injection K.
Qed.

Lemma restrict_reaches_listing_witness :
  match example_steps example_config with
  | Some w => exists cl command w' sel,
      dbctl ["restrict"; "bob_wp"; "--level=2"] = Ok (Some cl, [])
      /\ perform (H := tree_lib) (H0 := insertion_list_sort) example_env cl = Ok (mkEdit 0 None [command] [])
      /\ world_command (H := default_order) example_sys next_descriptor example_cio command w = Ok w'
      /\ listed_in sel "bob"
  | None => False
  end.
Proof.
  pose proof example_running as Hrun. destruct (example_steps example_config) as [w|]; [|exact Hrun].
  destruct Hrun as (R & Ew & K). destruct (known_bob_spec w K Ew) as (Hk & Hus & ac & Ha & Hs & Hsel).
  destruct (restrict_reaches_listing (limit := true) (H := default_order) (H0 := tree_lib) (H1 := insertion_list_sort)
              example_sys 100 example_env example_cio next_descriptor w "bob_wp" example_level "" 0 (clk_const 0)
              eq_refl I ltac:(discriminate) eq_refl (proj1 example_level_ok) (proj2 example_level_ok) eq_refl R Hk
              next_fresh example_cio_ok Hus) as (cl & command & w' & sel & A & B & C & _ & _ & D).
  exists cl, command, w', sel. split; [exact A|]. split; [exact B|]. split; [exact C|].
  exact (proj2 (D "bob" ac Ha Hs) (or_introl Hsel)).
Defined.

Lemma unrestrict_reaches_listing_witness :
  match example_steps example_config with
  | Some w => exists cl command w' sel,
      dbctl ["unrestrict"; "bob"] = Ok (Some cl, [])
      /\ perform (H := tree_lib) (H0 := insertion_list_sort) example_env cl = Ok (mkEdit 0 None [command] [])
      /\ world_command (H := default_order) example_sys next_descriptor example_cio command w = Ok w'
      /\ ~ listed_in sel "bob"
  | None => False
  end.
Proof.
  pose proof example_running as Hrun. destruct (example_steps example_config) as [w|]; [|exact Hrun].
  destruct Hrun as (R & Ew & K). destruct (known_bob_spec w K Ew) as (Hk & _ & ac & Ha & Hs & _).
  destruct (unrestrict_reaches_listing (limit := true) (H := default_order) (H0 := tree_lib) (H1 := insertion_list_sort)
              example_sys 100 example_env example_cio next_descriptor w "bob" "" 0 (clk_const 0)
              eq_refl ltac:(discriminate) eq_refl eq_refl R Hk next_fresh example_cio_ok)
    as (cl & command & w' & sel & A & B & C & _ & _ & D).
  exists cl, command, w', sel. split; [exact A|]. split; [exact B|]. split; [exact C|].
  intros Hin. by destruct (proj1 (D "bob" ac Ha Hs) Hin).
Defined.
