(* ===== verification/DbtopRun.v ===== *)
(** A run of [dbtop] ([main] and [read_keys] of [src/dbtop.c]) next to the
    daemon that it watches: the options, the loop over the keys, and the
    refreshes, each of which asks the daemon for its table in the state that
    its threads have brought it to. *)

From S2P Require Import Prelude CDouble CString GLib Data UserMap FifoStats Xml Config ConfigEdit Accounts LogDecoder Commands Restrict CalcStats Listing Daemon System Dbtop.
Open Scope string_scope.
Open Scope Z_scope.

(** * Options *)

(** What [getopt (argc, argv, ":r:ch")] returns; [Other] is an unknown option
    or one without its argument. *)
Inductive top_option := Opt_r (optarg : string) | Opt_c | Opt_h | Other.

(** The options in one word; the flag tells that the last takes its argument
    from the next word. *)
Fixpoint cluster (s : string) : list top_option * bool :=
  match s with
  | EmptyString => ([], false)
  | String ch s =>
      if Ascii.eqb ch "r" then match s with EmptyString => ([], true) | _ => ([Opt_r s], false) end
      else
        let '(l, next) := cluster s in
        ((if Ascii.eqb ch "c" then Opt_c else if Ascii.eqb ch "h" then Opt_h else Other) :: l, next)
  end.

Fixpoint getopt (args : list string) : list top_option :=
  match args with
  | [] => []
  | a :: rest =>
      match a with
      | String "-" EmptyString => getopt rest
      | String "-" (String "-" EmptyString) => []
      | String "-" body =>
          let '(l, next) := cluster body in
          if next then match rest with v :: rest => (l ++ Opt_r v :: getopt rest)%list | [] => (l ++ [Other])%list end
          else (l ++ getopt rest)%list
      | _ => getopt rest
      end
  end.

(** [refresh_time] and [no_curses]. *)
Record top_options := mkTopOptions { refresh_time : Z; no_curses : bool }.

(** [None]: the usage is printed and the program ends. *)
Fixpoint read_options (l : list top_option) (o : top_options) : option top_options :=
  match l with
  | [] => Some o
  | Opt_r optarg :: l => read_options l (mkTopOptions (refresh_option optarg (refresh_time o)) (no_curses o))
  | Opt_c :: l => read_options l (mkTopOptions (refresh_time o) true)
  | Opt_h :: _ => None
  | Other :: l => read_options l o
  end.

(** * The connection *)

(** The result, and the descriptors closed; [socket] and [connect] are what
    the calls return. *)
Definition connect_to_server_dbtop (socket connect : Z) : Z * list Z :=
  if socket <? 0 then (-1, [])
  else if connect <? 0 then (-2, [socket])
  else (socket, []).

(** Whether [in] and [out] are streams then. *)
Definition streams_open (s : Z) (fdopen_in fdopen_out : bool) : bool := (0 <=? s) && fdopen_in && fdopen_out.

(** A connection is used exactly when every call succeeds. *)
Lemma connection_closed socket connect fin fout :
  streams_open (fst (connect_to_server_dbtop socket connect)) fin fout = true
  <-> 0 <= socket /\ 0 <= connect /\ fin = true /\ fout = true.
Proof.
  unfold connect_to_server_dbtop, streams_open. destruct (Z.ltb_spec socket 0); cbn [fst].
  - split; [done|lia].
  - destruct (Z.ltb_spec connect 0); cbn [fst]; [split; [done|lia]|].
    rewrite (proj2 (Z.leb_le 0 socket)) by lia. destruct fin, fout; cbn; split; (done || naive_solver).
Qed.

(** * The loop of the keys *)

Section run.
Context `{GListSort}.

(** [ss_ch]: the key read last; [ss_open]: [in] and [out] are streams. *)
Record session := mkSession { ss_top : dbtop; ss_ch : Z; ss_start : Z; ss_open : bool }.

Definition ERR : Z := -1.

(** What one round meets: the clock, the screen, the answers of the daemon
    and whether the connections after them can be made, the key. *)
Record key_io := mkKeyIo {
  ki_now : Z; ki_colors : bool; ki_answer : list wire; ki_open : bool; ki_key : Z;
  ki_answer' : list wire; ki_open' : bool
}.

(** [screen_regenerate] when the time has come. *)
Definition refresh (refresh_time now : Z) (answer : list wire) (open : bool) (s : session) : outcome session :=
  if refresh_due now (ss_start s) refresh_time then
    top <-- screen_regenerate now (if ss_open s then Some answer else None) (ss_top s);;
    Ok (mkSession top (ss_ch s) now open)
  else Ok s.

(** One round of the loop; [Ok None] is the end of the program. *)
Definition key_round (refresh_time : Z) (io : key_io) (s : session) : outcome (option session) :=
  match press (ki_now io) (ki_colors io) (ss_ch s) (ss_top s) with
  | None => Ok None
  | Some top =>
      s <-- refresh refresh_time (ki_now io) (ki_answer io) (ki_open io)
              (mkSession top (ss_ch s) (ss_start s) (ss_open s));;
      let s := mkSession (ss_top s) (ki_key io) (ss_start s) (ss_open s) in
      if ki_key io =? ERR then
        s <-- refresh refresh_time (ki_now io) (ki_answer' io) (ki_open' io) s;; Ok (Some s)
      else Ok (Some s)
  end.

(** The first screen. *)
Definition read_keys (now : Z) (answer : list wire) (open : bool) : outcome session :=
  top <-- screen_regenerate now (Some answer) (mkDbtop [] [] 0 1 true);; Ok (mkSession top 0 now open).

(** * [main] *)

Inductive top_start := Once (lines : list string) | Watching (refresh_time : Z) (s : session).

(** [conn]: what the daemon answers, when the connection and its streams can
    be made. *)
Definition main (args : list string) (conn : option (list wire)) (clk : clock Z) (open : bool) : outcome top_start :=
  match read_options (getopt args) (mkTopOptions 1 false) with
  | None => Exit "Usage: dbtop [parameters]"
  | Some o =>
      match conn with
      | None => Exit "Can't connect to socket. Maybe governor is not started"
      | Some answer =>
          if no_curses o then lines <-- dbtop_once clk answer;; Ok (Once lines)
          else s <-- read_keys (clk 0%nat) answer open;; Ok (Watching (refresh_time o) s)
      end
  end.
End run.

(** * Next to the daemon *)

Section watch.
Context `{HO : HashOrder, GListSort} (sys : sysinfo) (clk_tck : Z) (stack : string).

Definition table_of (w : world) : gmap string Account := Accounts.accounts (gv_acc (w_gov w)).

(** The threads of the daemon go on while a table is sent, but for an account
    that is added: a walk over a table that grows is not defined. *)
Definition goes_on (w w' : world) : Prop := world_step sys clk_tck w w' /\ dom (table_of w') = dom (table_of w).

(** What the walk over the accounts finds between the states [w] and [w']:
    there is no lock around the walk, and [send_account] looks the mode of an
    account up, and then locks and copies this account.  So [accs] has each
    account as it was at a moment of its own, and [cfg] its mode as it was at
    a moment before. *)
Record walked (w w' : world) (cfg : governor_config) (accs : gmap string Account) : Prop := {
  wd_through : rtc goes_on w w';
  wd_keys : dom accs = dom (table_of w);
  wd_found : forall a ac, accs !! a = Some ac -> exists w1 w2,
    rtc goes_on w w1 /\ rtc goes_on w1 w2 /\ rtc goes_on w2 w' /\ table_of w2 !! a = Some ac
    /\ mode (config_get_account_limit cfg a) = mode (config_get_account_limit (dm_cfg (w_dm w1)) a)
}.

(** What the daemon writes on a connection. *)
Definition answer_of (a : Z) (cfg : governor_config) (accs : gmap string Account) : list wire :=
  s_out (run_dbtop_command cfg always stack true true accs (mkStream [a] [] 0)).

(** The names of the accounts fit the records of the stream. *)
Definition names_fit (accs : gmap string Account) : Prop :=
  forall a ac, accs !! a = Some ac -> strlen a < USERNAMEMAXLEN - 1.

(** The daemon takes a step of its own, or [dbtop] makes a round, while the
    daemon goes on. *)
Inductive watch_step (refresh_time : Z) : world * session -> world * session -> Prop :=
  | wa_daemon w w' s : world_step sys clk_tck w w' -> watch_step refresh_time (w, s) (w', s)
  | wa_key w w' cfg accs io a s s' : walked w w' cfg accs -> names_fit accs -> ki_answer io = answer_of a cfg accs ->
      key_round refresh_time io s = Ok (Some s') -> watch_step refresh_time (w, s) (w', s').

Inductive watching (refresh_time : Z) : world * session -> Prop :=
  | wg_start w w' cfg accs now a open s : world_reachable sys clk_tck w -> walked w w' cfg accs -> names_fit accs ->
      read_keys now (answer_of a cfg accs) open = Ok s -> watching refresh_time (w', s)
  | wg_step x y : watching refresh_time x -> watch_step refresh_time x y -> watching refresh_time y.

(** The accounts on the screen are those of a walk: those that are not
    ignored, each once, with what the daemon has of them. *)
Definition shows (cfg : governor_config) (accs : gmap string Account) (top : dbtop) : Prop :=
  exists sel, sel ≡ₚ filter (shown cfg) (map_to_list accs).*2
    /\ Forall2 same_view sel (Dbtop.accounts top).

(** In the order of the key pressed last; the order by the time left is the
    one at the moment of the sort. *)
Definition in_order (top : dbtop) : Prop :=
  Forall cpu_number (Dbtop.accounts top) ->
  exists now, StronglySorted (fun a b => sort_cmp now (sort_type top) a b <= 0) (Dbtop.accounts top).

(** ** Lemmas *)

Lemma goes_on_steps w w' : rtc goes_on w w' -> rtc (world_step sys clk_tck) w w'.
Proof. induction 1 as [|w w1 w' [Hs _] _ IH]; [apply rtc_refl|by eapply rtc_l]. Qed.

Lemma steps_reachable w w' : world_reachable sys clk_tck w -> rtc (world_step sys clk_tck) w w' ->
  world_reachable sys clk_tck w'.
Proof. intros Hr Hs. induction Hs as [|w w1 w' Hs _ IH]; [done|]. apply IH. by apply (wr_step sys clk_tck w). Qed.

Lemma keys_fit w w' cfg accs : world_reachable sys clk_tck w -> walked w w' cfg accs -> names_fit accs -> keys_ok accs.
Proof.
  intros Hr Hw Hn a ac Ha. split; [|by apply (Hn a ac)].
  destruct (wd_found _ _ _ _ Hw a ac Ha) as (w1 & w2 & H1 & H2 & _ & Ha2 & _).
  assert (world_reachable sys clk_tck w2) as Hr2
    by (apply (steps_reachable w); [done|]; apply goes_on_steps; by etrans).
  apply (wf_account_key _ (go_wf _ (wo_gov _ (world_reachable_ok sys clk_tck w2 Hr2))) a ac Ha2).
Qed.

(** A refresh shows what the walk found. *)
Lemma regenerated now a cfg accs top : keys_ok accs ->
  exists top', screen_regenerate now (Some (answer_of a cfg accs)) top = Ok top' /\ shows cfg accs top' /\ in_order top'
    /\ sort_type top' = sort_type top.
Proof.
  intros Hk. destruct (table_shown cfg stack accs a now top Hk) as (sel & top' & E & Et & _ & _ & Hp & Hv & Hs).
  exists top'. unfold screen_regenerate, answer_of. rewrite E. cbn [obind fst]. split; [done|].
  split; [by exists sel|]. split; [|done]. intros Hc. exists now. rewrite Et. by apply Hs.
Qed.

Lemma shows_perm cfg accs top top' : Dbtop.accounts top' ≡ₚ Dbtop.accounts top -> shows cfg accs top -> shows cfg accs top'.
Proof.
  intros Hp (sel & Hs & Hv). apply list.Forall2_flip in Hv.
  destruct (Permutation_Forall2 (symmetry Hp) Hv) as (sel' & Hp' & Hv').
  exists sel'. split; [by rewrite <- Hp'|by apply list.Forall2_flip].
Qed.

(** A key orders what is shown anew, or leaves it. *)
Lemma press_shown now colors ch top top' : press now colors ch top = Some top' ->
  Dbtop.accounts top' ≡ₚ Dbtop.accounts top /\ (in_order top -> in_order top').
Proof.
  assert (forall t, Dbtop.accounts t = Dbtop.accounts top ->
            Dbtop.accounts (sort_accounts now t) ≡ₚ Dbtop.accounts top /\ in_order (sort_accounts now t)) as Hsort.
  { intros t Et. unfold sort_accounts, in_order. cbn [Dbtop.accounts set_shown sort_type]. rewrite Et. split.
    - apply g_list_sort_perm.
    - intros Hc. exists now. apply (g_list_sort_sorted _ cpu_number); [apply sort_cmp_order|].
      by apply g_list_sort_forall in Hc. }
  assert (forall t, Some (sort_accounts now t) = Some top' -> Dbtop.accounts t = Dbtop.accounts top ->
            Dbtop.accounts top' ≡ₚ Dbtop.accounts top /\ (in_order top -> in_order top')) as Hs'.
  { intros t [= <-] Et. destruct (Hsort t Et). by split. }
  unfold press. repeat case_match; intros E; try discriminate E; try (by apply (Hs' _ E));
    injection E as <-; split; done.
Qed.

(** A refresh that is not due changes nothing; one that is makes the next one
    not due, for a positive interval. *)
Lemma refresh_done rt now answer open s s' : 0 < rt -> refresh rt now answer open s = Ok s' ->
  refresh_due now (ss_start s') rt = false.
Proof.
  intros Hrt. unfold refresh. destruct (refresh_due now (ss_start s) rt) eqn:Ed; [|by intros [= <-]].
  intros (top & _ & [= <-])%obind_ok. cbn [ss_start]. unfold refresh_due. rewrite Z.sub_diag.
  change (s64 0) with 0. apply Z.leb_gt. lia.
Qed.

(** A round without the second refresh. *)
Lemma key_round_once rt io s : 0 < rt ->
  key_round rt io s =
  match press (ki_now io) (ki_colors io) (ss_ch s) (ss_top s) with
  | None => Ok None
  | Some top =>
      s <-- refresh rt (ki_now io) (ki_answer io) (ki_open io) (mkSession top (ss_ch s) (ss_start s) (ss_open s));;
      Ok (Some (mkSession (ss_top s) (ki_key io) (ss_start s) (ss_open s)))
  end.
Proof.
  intros Hrt. unfold key_round. destruct (press _ _ _ _) as [top|]; [|done].
  destruct (refresh rt _ _ _ _) as [s1| |] eqn:E; [|done..]. cbn [obind].
  destruct (ki_key io =? ERR); [|done]. unfold refresh. cbn [ss_start].
  by rewrite (refresh_done _ _ _ _ _ _ Hrt E).
Qed.

(** ** Invariant *)

(** What is shown comes from a walk that has ended. *)
Definition shown_before (w : world) (top : dbtop) : Prop :=
  exists w0 w1 cfg accs, world_reachable sys clk_tck w0 /\ walked w0 w1 cfg accs
    /\ rtc (world_step sys clk_tck) w1 w /\ shows cfg accs top.

Record watch_ok (x : world * session) : Prop := {
  wk_world : world_reachable sys clk_tck (fst x);
  wk_shows : shown_before (fst x) (ss_top (snd x));
  wk_order : in_order (ss_top (snd x))
}.

Lemma key_round_keeps rt w w' cfg accs s s' io a : 0 < rt -> watch_ok (w, s) -> walked w w' cfg accs -> names_fit accs ->
  ki_answer io = answer_of a cfg accs -> key_round rt io s = Ok (Some s') -> watch_ok (w', s').
Proof.
  intros Hrt [Hr (w0 & w1 & c0 & t0 & Hr0 & Hw0 & Hst & Hsh) Hord] Hwk Hn Ea E. cbn [fst snd] in *. revert E.
  pose proof (goes_on_steps w w' (wd_through _ _ _ _ Hwk)) as Hgo.
  rewrite key_round_once by done. destruct (press _ _ _ _) as [top|] eqn:Ep; [|done].
  destruct (press_shown _ _ _ _ _ Ep) as [Hp Hord']. specialize (Hord' Hord). intros (s1 & E & [= <-])%obind_ok.
  revert E. unfold refresh. cbn [ss_start ss_open ss_top]. destruct (refresh_due _ _ _).
  - intros (top' & E & [= <-])%obind_ok. destruct (ss_open s); [|done].
    destruct (regenerated (ki_now io) a cfg accs top (keys_fit w w' cfg accs Hr Hwk Hn)) as (top2 & E2 & Hs & Ho' & _).
    rewrite Ea, E2 in E. injection E as <-. split; [by apply (steps_reachable w)| |done].
    exists w, w', cfg, accs. by split_and!.
  - intros [= <-]. split; [by apply (steps_reachable w)| |done]. exists w0, w1, c0, t0.
    split; [done|]. split; [done|]. split; [by etrans|]. by eapply shows_perm.
Qed.

Lemma watching_ok rt x : 0 < rt -> watching rt x -> watch_ok x.
Proof.
  intros Hrt. induction 1 as [w w' cfg accs now a open s Hr Hwk Hn E|x y _ IH Hst].
  - revert E. unfold read_keys.
    destruct (regenerated now a cfg accs (mkDbtop [] [] 0 1 true) (keys_fit w w' cfg accs Hr Hwk Hn)) as (top & -> & Hs & Ho & _).
    intros [= <-]. split; [|by exists w, w', cfg, accs|done].
    apply (steps_reachable w); [done|]. apply goes_on_steps, (wd_through _ _ _ _ Hwk).
  - destruct Hst as [w w' s Hst|w w' cfg accs io a s s' Hwk Hn Ea E]; [|by eapply key_round_keeps].
    destruct IH as [Hr (w0 & w1 & cfg & accs & Hr0 & Hw0 & Hrtc & Hs) Hord]. cbn [fst snd] in *.
    split; [by apply (wr_step sys clk_tck w)| |done].
    exists w0, w1, cfg, accs. split; [done|]. split; [done|]. split; [by eapply rtc_r|done].
Qed.

(** A walk while nothing happens. *)
Lemma walked_still w : walked w w (dm_cfg (w_dm w)) (table_of w).
Proof. split; [apply rtc_refl|done|]. intros a ac Ha. exists w, w. split_and!; (apply rtc_refl || done). Qed.
End watch.

(** * Properties *)

(** C28: A run of dbtop next to the daemon: the list of accounts that dbtop keeps always
    comes from one walk of the daemon over its table, each account that is not ignored exactly
    once, with its name, samples, averages, level, times and cause as they were at a moment of
    its own during the walk, since the walk has no lock and the other threads go on; it is in
    the order of the key pressed last when the processor loads are numbers. A round whose
    interval is over makes the list of a new walk, on the connection made after the last
    refresh; when that could not be made, the round uses a closed stream, which is undefined; a
    round before that keeps the accounts. Conditions: no account is added during a walk, which
    would be undefined; the names of the accounts fit the records, the writes of the daemon
    succeed, and the interval is positive. What the screen shows of the list, its rows, views
    and help, is not part of the theorem. *)
Theorem dbtop_shows_table `{HashOrder, GListSort} (sys : sysinfo) (clk_tck : Z) (stack : string)
    (refresh_time : Z) (w : world) (s : session) :
  0 < refresh_time -> watching sys clk_tck stack refresh_time (w, s) ->
  shown_before sys clk_tck w (ss_top s) /\ in_order (ss_top s)
  /\ forall io a w' cfg accs, walked sys clk_tck w w' cfg accs -> names_fit accs -> ki_answer io = answer_of stack a cfg accs ->
       press (ki_now io) (ki_colors io) (ss_ch s) (ss_top s) <> None ->
       if refresh_due (ki_now io) (ss_start s) refresh_time then
         if ss_open s
         then exists s', key_round refresh_time io s = Ok (Some s') /\ shows cfg accs (ss_top s') /\ ss_open s' = ki_open io
         else key_round refresh_time io s = Crash
       else exists s', key_round refresh_time io s = Ok (Some s') /\ ss_open s' = ss_open s
              /\ Dbtop.accounts (ss_top s') ≡ₚ Dbtop.accounts (ss_top s).
Proof.
  intros Hrt Hw. pose proof (watching_ok sys clk_tck stack refresh_time _ Hrt Hw) as Hok.
  split; [apply (wk_shows _ _ _ Hok)|]. split; [apply (wk_order _ _ _ Hok)|]. intros io a w' cfg accs Hwk Hn Ea Hp.
  rewrite key_round_once by done. destruct (press _ _ _ _) as [top|] eqn:Ep; [|done].
  destruct (press_shown _ _ _ _ _ Ep) as [Hperm _]. unfold refresh. cbn [ss_start ss_open ss_top].
  destruct (refresh_due _ _ _); [|by eexists]. destruct (ss_open s); [|done].
  destruct (regenerated stack (ki_now io) a cfg accs top
              (keys_fit sys clk_tck w w' cfg accs (wk_world _ _ _ Hok) Hwk Hn)) as (top' & E & Hs & _).
  rewrite Ea, E. cbn [obind]. by eexists.
Qed.

(** A daemon with the account "bob"; the key "u" was pressed at the time 10,
    and the interval is over at the time 20. *)
Definition example_round (w : world) : key_io :=
  mkKeyIo 20 true (answer_of (HO := default_order) "" 7 (dm_cfg (w_dm w)) (table_of w)) true (key "q") [] true.

Lemma dbtop_shows_table_witness :
  match example_worlds with
  | Some w => exists s s',
      read_keys (H := insertion_list_sort) 10 (answer_of (HO := default_order) "" 7 (dm_cfg (w_dm w)) (table_of w)) true = Ok s
      /\ key_round (H := insertion_list_sort) 1 (example_round w) s = Ok (Some s')
      /\ length (Dbtop.accounts (ss_top s')) = 1%nat
  | None => False
  end.
Proof.
  destruct example_worlds as [w|] eqn:E; [|vm_compute in E; discriminate E].
  pose proof (example_reachable w E) as Hr.
  assert ((fun w => (bool_decide (map_Forall (fun a (_ : Account) => strlen a < USERNAMEMAXLEN - 1)
                                    (Accounts.accounts (gv_acc (w_gov w)))),
                     length (filter (shown (dm_cfg (w_dm w)))
                               (map_to_list (Accounts.accounts (gv_acc (w_gov w)))).*2))) <$> example_worlds
          = Some (true, 1%nat)) as S by (vm_compute; reflexivity).
  rewrite E in S. injection S as Hn Hl. apply bool_decide_eq_true_1 in Hn. change (names_fit (table_of w)) in Hn. clear E.
  pose proof (walked_still (HO := default_order) example_sys 100 w) as Hst.
  pose proof (keys_fit (HO := default_order) example_sys 100 w w _ _ Hr Hst Hn) as Hk.
  assert (exists s, read_keys (H := insertion_list_sort) 10 (answer_of (HO := default_order) "" 7 (dm_cfg (w_dm w)) (table_of w)) true = Ok s
            /\ ss_ch s = 0 /\ ss_start s = 10 /\ ss_open s = true) as (s & Es & Ec & Et & Eo).
  { unfold read_keys. destruct (regenerated (HO := default_order) (H := insertion_list_sort) "" 10 7 (dm_cfg (w_dm w)) (table_of w)
      (mkDbtop [] [] 0 1 true) Hk) as (top & -> & _). eexists. split; [reflexivity|]. by split. }
  destruct (dbtop_shows_table (H := default_order) (H0 := insertion_list_sort) example_sys 100 "" 1 w s
              eq_refl (wg_start _ _ _ _ w w _ _ _ _ _ _ Hr Hst Hn Es)) as (_ & _ & Hround).
  specialize (Hround (example_round w) 7 w _ _ Hst Hn eq_refl). cbn [example_round ki_now ki_colors] in Hround.
  rewrite Ec, Et, Eo in Hround. destruct Hround as (s' & A & (sel & Hp & Hv) & _); [discriminate|].
  exists s, s'. split; [exact Es|]. split; [exact A|]. by rewrite <- (list.Forall2_length _ _ _ Hv), Hp.
Defined.
